(* ===== verification/_CoqProject ===== *)
-Q . S2P
Prelude.v
RustStd.v
RustText.v
Protocol.v
Frame.v
Nonce.v
Crypto.v
Transport.v
LineReader.v
Runtime.v
RuntimeProps.v
Backend.v
Tasks.v
TasksProps.v
TasksLife.v
RelayServer.v
Dns.v
ControlDb.v
Control.v
ControlInv.v
ControlProps.v
BackendProps.v
RelayPath.v
RelayReader.v
Mesh.v
Channel.v
NetBackend.v
Platform.v
Http.v
SystemFiles.v
Agent.v
AgentProps.v
AgentLoop.v
AgentCli.v
AgentCustom.v
ControlHttp.v
History.v
Ctl.v
Services.v
EndToEnd.v
Deployment.v
Testing.v
ConformanceWire.v
ConformanceBackend.v
ConformanceServers.v
ConformanceAgent.v
