(* ===== verification/Prelude.v ===== *)
(** * tf-scale: a verification library

    tf-scale is an overlay network.  A control plane registers devices and hands
    out network maps; an agent on each device keeps a backend in step with its
    map; the backend seals the packets of a TUN interface and sends them to the
    peers over UDP, or through a relay when no direct path is left; a DNS proxy in
    the agent answers the names of the network.  This library translates that
    program, the Rust crates under [src/crates/], into Rocq functions and states
    and proves what makes its parts correct.

    ** Parts and files

    - [Prelude]: outcomes of Rust code ([Ok], [Err], panic), slices, machine
      integers and bytes, tactics and the hint database [tfs].
    - [RustStd]: what the program uses of the standard library: UTF-8, trimming
      and splitting of text, decimal numbers, reading and printing of IPv4 and
      IPv6 addresses, sorting, the texts of errors.
    - [Protocol]: the types of [tfscale-net/src/lib.rs] and
      [tfscale-core/src/protocol.rs], the identifiers of [ids.rs].
    - [Frame], [Nonce], [Crypto]: [frame.rs], [packet.rs], [nonce.rs], [crypto.rs]
      of [tfscale-custom] and the credentials of its [lib.rs].
    - [Transport]: [transport.rs] and the configuration types of [tun.rs].
    - [Runtime], [RuntimeProps]: [RuntimeState] of [tfscale-custom/src/lib.rs],
      sessions, paths, probing, relay sender and the single turns of the background
      loops.
    - [LineReader]: [BufReader::read_line] on a stream with timeouts.
    - [Tasks], [TasksProps], [TasksLife]: the threads of [TransportTasks],
      their start and their stop, interleaved with the calls of the backend's user.
    - [Backend], [BackendProps]: [CustomBackend], the state file and the
      operations of the [NetworkBackend] trait.
    - [RelayServer]: [tfscale-relay/src/main.rs].
    - [ControlDb], [Control], [ControlInv], [ControlProps]:
      [tfscale-control/src/main.rs]: the tables, the handlers as transactions, the
      invariant of the database, the properties.
    - [Dns]: [tfscale-agent/src/dns.rs].
    - [RelayPath]: two backends and the relay service together.
    - [RelayReader]: the backend's relay reader thread, byte by byte.
    - [Mesh]: custom backends from their peer maps to their sessions.
    - [Channel]: two custom backends over a network that loses, repeats and reorders
      their datagrams.
    - [NetBackend]: the trait [NetworkBackend] as a class, the contract that a
      client relies on, the mock and the custom backend as instances.
    - [Platform]: [platform/linux.rs], [platform/macos.rs] and the devices of
      [tun.rs].
    - [RustText]: socket addresses as text and their round trips, replacement,
      padding and lossy decoding of text.
    - [Http]: requests, responses and the interface of a server to its clients.
    - [SystemFiles]: [resolver.rs] and [service.rs] of [tfscale-agent], over the
      files of a host.
    - [Agent], [AgentProps], [AgentLoop]: [tfscale-agent/src/main.rs]: the state
      file, registration, synchronisation and the main loop, over any backend and
      any server.
    - [AgentCli], [AgentCustom]: its commands, the doctor and the status; the agent
      on the custom backend.
    - [ControlHttp]: the routes and responses of [serve] in
      [tfscale-control/src/main.rs], an instance of the server interface.
    - [History]: the calls that change the database as data, what becomes of a device
      and of an endpoint in a history of them, and the control plane as a server that
      other clients use at the same time ([shared_server]).
    - [Ctl]: [tfscalectl/src/main.rs].
    - [Services]: the processes that wait for input: [serve] and the accept loop of
      the relay, [serve] and the probe loop of the control plane, the thread of the
      DNS proxy.
    - [EndToEnd]: agents and the control plane together.
    - [Deployment]: the database of the control plane, the agents' peer
      configurations and two custom backends, from registration to packets.
    - [Testing], [ConformanceWire], [ConformanceBackend], [ConformanceServers],
      [ConformanceAgent]: the unit tests of the crates, run on the model.

    The parts meet at these points.  [Crypto] calls [Frame] and [Nonce]; [Runtime]
    calls [Crypto] and [Transport]; [Backend] owns a [Runtime] state and a state
    file.  The relay forwards [RelayMessage]s whose payloads are frames of
    [Crypto]; the control plane answers the probe of [Transport]
    ([Control.udp_probe_turn]) and produces the names that [Dns] resolves.  The
    agent is written against two classes: [NetworkBackend], which the mock and the
    custom backend implement ([MockBackend_backend], [custom_backend]; both keep
    [BackendContract]), and [HttpServer], which the control plane implements
    ([control_server], and [shared_server] with other clients' calls in between).
    [tfscalectl] is a client of the second.

    ** How the code is modelled

    A function that returns a [Result] returns a [res]; indexing and slicing out
    of range panic, so that the absence of panics is provable.  Methods that change
    [self] return the new state next to their result, also on the error paths.
    Integers are [Z] with the wrap-around, saturation or range written where the
    code has it.  Strings are byte strings; hash maps are [gmap].

    Code that is not in the repository is a parameter.  [CryptoPrims] has AEAD,
    X25519, HKDF, base64 and UUID parsing, and [CryptoLaws] their documented
    behaviour (decryption inverts encryption, agreement of keys, lengths); an
    instance ([toy_prims], [toy_laws]) shows that the laws can hold.  [ControlEnv]
    has the hash, the time stamps and their laws likewise.  [serde_json] is a pair
    of functions with a round trip where it matters.  Answers of the operating
    system (sockets, files, TUN devices, programs that are run), random numbers and
    the clock are arguments of the operations.

    Concurrency is explicit.  The relay is a transition system over connections,
    in which a task can be suspended wherever its code awaits; the control plane
    is one over transactions, in which a registration can be interrupted between
    its checks and its transaction.  The background threads of the backend are the
    program counters of [Tasks.task_step]: a step is what a thread does between two
    points where another one can run, with the mutex of the runtime, its poisoning,
    the stop flag and the joins; whole turns of the loops are the events of
    [runtime_step].  A thread that locks a mutex it already holds has no result
    ([Backend.relock]), and so has a request that is never answered: a computation of
    the agent returns [None] when it never returns.  The agent's loop runs over a
    list of turns that says when the sleeps end and when Ctrl+C is seen.

    ** What the theorems show

    - Wire format: encoding and decoding of frames are inverse, the decoder
      accepts exactly the well formed headers and never panics; the destination of
      a packet is read from exactly the valid IPv4 packets.
    - Replay protection: the bit window refines a specification that remembers
      every accepted counter; no counter is accepted twice; the nonces of a sender
      are pairwise different.
    - Sessions: both ends derive the same keys; what is sealed is opened at the
      other end under loss and reordering, at most once, and only if the peer
      sealed it.
    - Data plane: two backends that were given each other in their peer maps are
      the ends of a channel.  Whatever the network does with their data frames,
      probes and answers, a packet of at most 1424 bytes is handed out unchanged, at
      most once, and for certain unless a datagram that was sent 64 or more later
      came first.  The path of every peer stays well formed under any traffic; a
      silent direct path is given up after three rounds; endpoints are tried in
      an explicit order of preference; a public probe observes the source address.
    - Threads: every interleaving of the background threads and the caller does to
      the runtime what a sequence of whole turns does; no packet is lost or
      duplicated between the socket, the runtime and the interface; after a stop
      the threads end and are joined within a bounded number of steps, not counting
      reads in which the relay sends bytes, and a relay that never sends a newline
      keeps the stop from returning.
    - Relay: frames reach only the device they are addressed to, in order, and
      undeliverable ones are counted and reported; a packet sent over the relay is
      written unchanged to the interface at the other end; the reader thread hands
      on the lines of the stream, however it is cut into reads, unless the stream
      pauses inside a line.
    - Services: the relay and the DNS proxy go on serving whatever arrives, until a
      call on their socket fails; agents probe the address that the control plane
      binds, also where no agent can reach it.
    - Host: the interface, the resolver configuration and the service are set up
      and taken down as planned, whatever the programs and the file system answer;
      the texts of the service files determine the configuration they were made
      from.
    - Agent: a synchronisation leaves the backend, the DNS proxy and the state file
      as the network map says, for every backend that keeps the contract; the loop
      runs for any number of turns and does what is due when it is due, whatever
      fails.
    - Control plane: an invariant of the database (unique addresses of the pool,
      keys and names; records of live devices only) holds in every reachable
      state, also with overlapping registrations; registration, deletion and the
      network map do what they say; the accepted host names are characterised.
      A request is refused exactly when its credentials are not valid, and one that
      fails changes nothing; every command of [tfscalectl] does what its handler
      does.
    - Deployment: two devices that are registered, and whose agents apply the maps
      that the control plane hands out, are the ends of such a channel between their
      overlay addresses.
    - End to end: endpoints that one agent reports reach the backends of the others,
      after any history of calls that leaves the device, and with the calls of other
      clients in between; the maps of the control plane are accepted by the agents;
      what a registration leaves is given for each outcome of the save that follows
      it: the identity, the machine key with which the same identity is given again,
      or a file that no start can read.
    - DNS: the parser accepts exactly the requests of the grammar, every datagram
      is handled, and the response carries the question and the answer of the
      resolver.

    The definitions are also checked against the code's own tests: the suites
    [wire_tests_pass], [backend_tests_pass], [server_tests_pass] and
    [agent_tests_pass] run all of them on the model.

    Some theorems state what the code does where that is not what it means to do:
    setting up the interface locks a mutex twice ([local_config_deadlocks]), so that
    [agent up] never reaches its loop ([agent_up_never_ready]); a peer map forgets
    relays and replay windows ([peer_map_resets_runtime]); a restarted sender is
    taken for a replay ([restarted_sender_rejected]); a reconnecting device is
    unregistered at the relay ([relay_reconnect_unregisters]); overlapping
    registrations share a single-use key ([single_use_key_race]); deleted machines
    are locked out and addresses never released ([deleted_machine_locked_out],
    [pool_exhausted]); one malformed endpoint keeps all other agents from their
    maps ([malformed_endpoint_blocks_network]); the commands of the agent do not see
    the running agent ([commands_miss_running_agent]); a state file whose write was
    broken off stops every later start ([torn_state_is_fatal],
    [registration_crash_outcomes]); a relay that sends no newline keeps a stop from
    returning ([stop_terminates]); a server that does
    not answer stops the loop ([silent_server_stalls_sync]); a caller that starts the
    threads while it holds the lock they take waits for ever
    ([guarded_start_deadlocks]); a relay message whose bytes pause for longer than the
    read timeout is lost ([paused_message_lost]).

    ** Bounds and fuel

    [Dns.parse_labels] has fuel, one more than the length of the packet: every
    label consumes a byte, and [parse_labels_no_panic] shows that the fuel is never
    used up.  The loop of the public probe runs over a list of what arrives; with a
    list that does not end the loop it returns [None].  The relay
    reader has one turn per byte and per read of the stream ([turns_enough]).  After a stop at
    most sixteen steps of the threads are left, and one for each read in which the relay
    sends bytes ([stop_terminates]).  All other recursion
    is over lists.  Tables and counters have the widths of the code.

    ** What is not modelled

    Input and output errors of the database and rows that it cannot read (a statement
    fails here only by a constraint, and [row.get] does not panic), interleavings inside
    a handler other than registration, logging, the parsers of the command lines, the JSON texts, HTTP below requests and responses (connections,
    percent-encoding) and the web console: they are libraries that the sources only
    call, or not part of the Rust program.  How systemd reads the service files is not
    modelled either, only what is written to them.  A read that is interrupted by a
    signal is no event of the reader thread, and the reload in [ensure_credentials] is
    none of the caller's events while the threads run.  A round of path probes
    ([probe_peer_direct_paths]) has one clock value, where the code reads the clock again
    for every peer.  [BackendContract] speaks of the configuration and the peers of a
    backend, not of its relays: the custom backend could not keep more, since a peer
    map makes it forget them ([peer_map_resets_runtime]).  SHA-256 is taken to be
    without collisions where histories of endpoints are concerned.

    ** Plan

    Next: a channel whose ends move between direct paths and the relay; a network of
    more than two agents and the control plane as one transition system. *)

From Stdlib Require Import ZArith Lia.
From stdpp Require Import prelude list strings gmap.

(** ** Outcomes of Rust code

    A function returning [Result<A, E>] either returns [Ok], returns [Err] or
    panics (an index out of range, a failed [expect]).  The three outcomes are
    kept apart so that the absence of panics is a statement about the model. *)

Inductive res (E A : Type) : Type :=
| Ok (a : A)
| Err (e : E)
| Panic.
Arguments Ok {E A} a.
Arguments Err {E A} e.
Arguments Panic {E A}.

#[export] Instance res_ret {E} : MRet (res E) := fun A a => Ok a.
#[export] Instance res_bind {E} : MBind (res E) := fun A B f m =>
  match m with Ok a => f a | Err e => Err e | Panic => Panic end.
#[export] Instance res_fmap {E} : FMap (res E) := fun A B f m =>
  match m with Ok a => Ok (f a) | Err e => Err e | Panic => Panic end.

#[export] Instance res_eq_dec {E A} `{EqDecision E, EqDecision A} :
  EqDecision (res E A).
Proof. solve_decision. Defined.

#[export] Instance Ok_inj {E A} : Inj (=) (=) (@Ok E A).
Proof. by intros x y [= ->]. Qed.

(** [Result::map_err]. *)
Definition map_err {E F A} (f : E -> F) (m : res E A) : res F A :=
  match m with Ok a => Ok a | Err e => Err (f e) | Panic => Panic end.

(** [Option::ok_or_else]. *)
Definition ok_or {E A} (e : E) (o : option A) : res E A :=
  match o with Some a => Ok a | None => Err e end.

(** [Result::ok]; a panic does not return. *)
Definition res_ok {E A} (m : res E A) : option A :=
  match m with Ok a => Some a | _ => None end.

Definition is_ok {E A} (m : res E A) : bool :=
  match m with Ok _ => true | _ => false end.

(** [iter().map(f).collect::<Result<Vec<_>, _>>()]: stops at the first error. *)
Fixpoint collect_res {E A B} (f : A -> res E B) (l : list A) : res E (list B) :=
  match l with
  | [] => Ok []
  | x :: l => y ← f x; ys ← collect_res f l; Ok (y :: ys)
  end.

(** Indexing and slicing of Rust slices: out of range is a panic. *)
Definition index {E A} (l : list A) (i : nat) : res E A :=
  match l !! i with Some x => Ok x | None => Panic end.

Definition slice {E A} (l : list A) (i j : nat) : res E (list A) :=
  if decide (i <= j /\ j <= length l)%nat then Ok (take (j - i) (drop i l)) else Panic.

(** ** Machine integers *)

Definition u8_max : Z := 255.
Definition u16_max : Z := 65535.
Definition u32_max : Z := 4294967295.
Definition u64_max : Z := 18446744073709551615.
Definition u128_max : Z := 340282366920938463463374607431768211455.

Definition is_u8 (b : Z) : Prop := (0 <= b <= u8_max)%Z.
Definition is_u16 (b : Z) : Prop := (0 <= b <= u16_max)%Z.
Definition is_u64 (b : Z) : Prop := (0 <= b <= u64_max)%Z.

(** Wrap-around of release-mode [u64] arithmetic. *)
Definition wrap64 (z : Z) : Z := (z mod 2 ^ 64)%Z.

(** [u32::saturating_add]. *)
Definition saturating_add_u32 (a b : Z) : Z := Z.min (a + b) u32_max.

(** A byte buffer; [Bytes l] says every element is a [u8]. *)
Definition Bytes (l : list Z) : Prop := Forall is_u8 l.

(** [uN::to_be_bytes] ([n] bytes) and [uN::from_be_bytes]. *)
Fixpoint to_be_bytes (n : nat) (z : Z) : list Z :=
  match n with
  | O => []
  | S k => ((z / 2 ^ (8 * Z.of_nat k)) mod 256)%Z :: to_be_bytes k z
  end.

Definition from_be_bytes (l : list Z) : Z :=
  fold_left (fun acc b => acc * 256 + b)%Z l 0%Z.

#[export] Instance is_u8_dec b : Decision (is_u8 b).
Proof. unfold is_u8. apply _. Defined.
#[export] Instance is_u16_dec b : Decision (is_u16 b).
Proof. unfold is_u16. apply _. Defined.
#[export] Instance is_u64_dec b : Decision (is_u64 b).
Proof. unfold is_u64. apply _. Defined.
#[export] Instance Bytes_dec l : Decision (Bytes l).
Proof. unfold Bytes. apply _. Defined.

(** ** Tactics and hint databases *)

(** Closes a concrete decidable goal by evaluating its decision procedure. *)
Ltac by_decide := apply (bool_decide_unpack _); vm_compute; exact I.

Create HintDb tfs.
Create Rewrite HintDb tfs_rw.

(** Case analysis on the guard of an [if] or the scrutinee of a [match] that
    a hypothesis or the goal is stuck on. *)
Ltac split_guard :=
  match goal with
  | |- context [if ?b then _ else _] => destruct b eqn:?
  | H : context [if ?b then _ else _] |- _ => destruct b eqn:?
  end.

(** Splits a hypothesis saying that a [res] computation succeeded into the
    facts that each of its steps succeeded. *)
Ltac inv_ok_step :=
  match goal with
  | H : Ok _ = Ok _ |- _ => injection H as H; subst
  | H : Err _ = Ok _ |- _ => discriminate H
  | H : Panic = Ok _ |- _ => discriminate H
  | H : mret _ = Ok _ |- _ => unfold mret, res_ret in H
  | H : mbind _ ?m = Ok _ |- _ =>
      let E := fresh "E" in destruct m eqn:E; simpl in H; try discriminate H
  | H : (if ?b then Err _ else _) = Ok _ |- _ =>
      let G := fresh "G" in destruct b eqn:G; try discriminate H
  | H : (if ?b then _ else Err _) = Ok _ |- _ =>
      let G := fresh "G" in destruct b eqn:G; try discriminate H
  end.
Ltac inv_ok := repeat inv_ok_step.

(** Turns boolean comparisons in the context into propositions. *)
Ltac to_prop :=
  repeat match goal with
  | H : andb _ _ = true |- _ => apply andb_true_iff in H as [? ?]
  | H : orb _ _ = false |- _ => apply orb_false_iff in H as [? ?]
  | H : negb _ = true |- _ => apply negb_true_iff in H
  | H : negb _ = false |- _ => apply negb_false_iff in H
  | H : Z.eqb _ _ = true |- _ => apply Z.eqb_eq in H
  | H : Z.eqb _ _ = false |- _ => apply Z.eqb_neq in H
  | H : Z.leb _ _ = true |- _ => apply Z.leb_le in H
  | H : Z.leb _ _ = false |- _ => apply Z.leb_gt in H
  | H : Z.ltb _ _ = true |- _ => apply Z.ltb_lt in H
  | H : Z.ltb _ _ = false |- _ => apply Z.ltb_ge in H
  | H : Nat.ltb _ _ = true |- _ => apply Nat.ltb_lt in H
  | H : Nat.ltb _ _ = false |- _ => apply Nat.ltb_ge in H
  | H : Nat.leb _ _ = true |- _ => apply Nat.leb_le in H
  | H : Nat.leb _ _ = false |- _ => apply Nat.leb_gt in H
  | H : Nat.eqb _ _ = true |- _ => apply Nat.eqb_eq in H
  | H : Nat.eqb _ _ = false |- _ => apply Nat.eqb_neq in H
  | H : bool_decide _ = true |- _ => apply bool_decide_eq_true in H
  | H : bool_decide _ = false |- _ => apply bool_decide_eq_false in H
  end.

(** ** Lemmas on outcomes *)

Lemma index_lt {E A} (l : list A) i :
  (i < length l)%nat -> exists x, @index E A l i = Ok x /\ l !! i = Some x.
Proof.
  intros H. apply lookup_lt_is_Some in H as [x Hx]. exists x.
  unfold index. by rewrite Hx.
Qed.

Lemma index_ok {E A} (l : list A) i x : l !! i = Some x -> @index E A l i = Ok x.
Proof. unfold index. by intros ->. Qed.

Lemma slice_ok {E A} (l : list A) i j :
  (i <= j)%nat -> (j <= length l)%nat ->
  @slice E A l i j = Ok (take (j - i) (drop i l)).
Proof. intros ??. unfold slice. by rewrite decide_True by lia. Qed.

Lemma collect_res_ok {E A B} (f : A -> res E B) l ys :
  collect_res f l = Ok ys <-> Forall2 (fun x y => f x = Ok y) l ys.
Proof.
  revert ys. induction l as [|x l IH]; intros ys; simpl.
  - split; [by intros [= <-]| by inversion 1].
  - split.
    + intros H. destruct (f x) eqn:Ef; try discriminate. simpl in H.
      destruct (collect_res f l) eqn:El; try discriminate.
      injection H as <-. constructor; [done|]. by apply IH.
    + inversion 1 as [|? y ? ys' Hf Hl]; subst. rewrite Hf. simpl.
      apply IH in Hl. by rewrite Hl.
Qed.

Lemma collect_res_length {E A B} (f : A -> res E B) l ys :
  collect_res f l = Ok ys -> length ys = length l.
Proof. intros H%collect_res_ok. by apply Forall2_length in H. Qed.

Lemma collect_res_no_panic {E A B} (f : A -> res E B) l :
  Forall (fun x => f x <> Panic) l -> collect_res f l <> Panic.
Proof.
  induction 1 as [|x l Hx Hl IH]; simpl; [done|].
  destruct (f x); simpl; try done. by destruct (collect_res f l).
Qed.

(** ** Lists without duplicates *)

(** Elements with different keys are told apart by their keys. *)
Lemma NoDup_fmap_inj {A B} (g : A -> B) (l : list A) x y :
  NoDup (g <$> l) -> x ∈ l -> y ∈ l -> g x = g y -> x = y.
Proof.
  induction l as [|z l IH]; [intros _ Hx; by apply elem_of_nil in Hx|].
  rewrite fmap_cons, NoDup_cons. intros [Hz Hl] [->|Hx]%elem_of_cons [->|Hy]%elem_of_cons Hg; auto.
  - destruct Hz. rewrite Hg. by apply list_elem_of_fmap_2.
  - destruct Hz. rewrite <- Hg. by apply list_elem_of_fmap_2.
Qed.

(** ** Lists cut at a separator *)

Lemma cut_first {A} (c : A) l l' r r' : c ∉ l -> c ∉ l' -> l ++ c :: r = l' ++ c :: r' -> l = l' /\ r = r'.
Proof.
  revert l'. induction l as [|b l IH]; intros [|b' l'] Hl Hl' H; cbn [app] in *;
    rewrite ?not_elem_of_cons in *; simplify_eq; naive_solver.
Qed.

Lemma cut_last {A} (c : A) l l' r r' : c ∉ r -> c ∉ r' -> l ++ c :: r = l' ++ c :: r' -> l = l' /\ r = r'.
Proof.
  intros Hr Hr' H%(f_equal reverse). rewrite !reverse_app, !reverse_cons, <- !app_assoc in H. cbn [app] in H.
  apply cut_first in H as [H1 H2]; [|by rewrite elem_of_reverse..]. by apply (inj reverse) in H1; apply (inj reverse) in H2.
Qed.

(** ** Lemmas on byte buffers *)

Lemma length_to_be_bytes n z : length (to_be_bytes n z) = n.
Proof. induction n; simpl; auto. Qed.

Lemma to_be_bytes_Bytes n z : Bytes (to_be_bytes n z).
Proof.
  induction n as [|n IH]; simpl; constructor; [|done].
  unfold is_u8, u8_max. pose proof (Z.mod_pos_bound (z / 2 ^ (8 * Z.of_nat n)) 256). lia.
Qed.

Lemma from_be_bytes_acc n z acc :
  fold_left (fun acc b => acc * 256 + b)%Z (to_be_bytes n z) acc =
  (acc * 2 ^ (8 * Z.of_nat n) + z mod 2 ^ (8 * Z.of_nat n))%Z.
Proof.
  revert acc. induction n as [|n IH]; intros acc; cbn [to_be_bytes fold_left].
  - rewrite Z.mul_0_r. simpl. rewrite Z.mod_1_r. lia.
  - rewrite IH. replace (8 * Z.of_nat (S n))%Z with (8 * Z.of_nat n + 8)%Z by lia.
    rewrite Z.pow_add_r by lia. change (2 ^ 8)%Z with 256%Z.
    rewrite (Z.rem_mul_r z) by (try apply Z.pow_nonzero; lia). lia.
Qed.

Lemma from_to_be_bytes n z :
  (0 <= z < 2 ^ (8 * Z.of_nat n))%Z -> from_be_bytes (to_be_bytes n z) = z.
Proof.
  intros H. unfold from_be_bytes. rewrite from_be_bytes_acc.
  rewrite Z.mod_small by done. lia.
Qed.

Lemma from_be_bytes_app l b :
  from_be_bytes (l ++ [b]) = (from_be_bytes l * 256 + b)%Z.
Proof. unfold from_be_bytes. by rewrite fold_left_app. Qed.

Lemma from_be_bytes_bound l :
  Bytes l -> (0 <= from_be_bytes l < 2 ^ (8 * Z.of_nat (length l)))%Z.
Proof.
  induction l as [|b l IH] using rev_ind; intros HB; [done|].
  apply Forall_app in HB as [Hl Hb]. apply (Forall_singleton is_u8) in Hb.
  rewrite from_be_bytes_app. rewrite length_app. simpl.
  replace (8 * Z.of_nat (length l + 1))%Z with (8 * Z.of_nat (length l) + 8)%Z by lia.
  rewrite Z.pow_add_r by lia. change (2 ^ 8)%Z with 256%Z.
  unfold is_u8, u8_max in Hb. specialize (IH Hl).
  set (p := (2 ^ (8 * Z.of_nat (length l)))%Z) in *. lia.
Qed.

Lemma to_be_bytes_snoc n z b :
  is_u8 b -> to_be_bytes (S n) (z * 256 + b) = to_be_bytes n z ++ [b].
Proof.
  unfold is_u8, u8_max. intros Hb. induction n as [|n IH].
  - cbn [to_be_bytes app]. rewrite Z.mul_0_r, Z.pow_0_r, Z.div_1_r. f_equal.
    rewrite Z.add_comm, Z.mod_add by lia. apply Z.mod_small. lia.
  - cbn [to_be_bytes app] in *. f_equal; [|apply IH].
    replace (8 * Z.of_nat (S n))%Z with (8 + 8 * Z.of_nat n)%Z by lia.
    rewrite Z.pow_add_r by lia. change (2 ^ 8)%Z with 256%Z.
    rewrite <- Z.div_div by (try apply Z.pow_pos_nonneg; lia).
    rewrite Z.add_comm, Z.div_add by lia. by rewrite (Z.div_small b) by lia.
Qed.

Lemma to_from_be_bytes l : Bytes l -> to_be_bytes (length l) (from_be_bytes l) = l.
Proof.
  induction l as [|b l IH] using rev_ind; intros HB; [done|].
  apply Forall_app in HB as [Hl Hb]. apply (Forall_singleton is_u8) in Hb.
  rewrite from_be_bytes_app, length_app, Nat.add_comm. simpl length.
  change (1 + length l)%nat with (S (length l)). rewrite to_be_bytes_snoc by done. by rewrite IH.
Qed.

Lemma wrap64_small z : (0 <= z <= u64_max)%Z -> wrap64 z = z.
Proof. intros H. unfold wrap64, u64_max in *. apply Z.mod_small. lia. Qed.

Lemma wrap64_bound z : (0 <= wrap64 z <= u64_max)%Z.
Proof. unfold wrap64, u64_max. pose proof (Z.mod_pos_bound z (2 ^ 64)). lia. Qed.

Lemma Bytes_app l k : Bytes (l ++ k) <-> Bytes l /\ Bytes k.
Proof. unfold Bytes. apply Forall_app. Qed.

Lemma Bytes_take n l : Bytes l -> Bytes (take n l).
Proof. apply Forall_take. Qed.

Lemma Bytes_drop n l : Bytes l -> Bytes (drop n l).
Proof. apply Forall_drop. Qed.

Lemma Bytes_lookup l i b : Bytes l -> l !! i = Some b -> is_u8 b.
Proof. intros H. by apply (Forall_lookup_1 is_u8). Qed.

#[export] Hint Resolve to_be_bytes_Bytes Bytes_take Bytes_drop : tfs.
#[export] Hint Rewrite @length_to_be_bytes : tfs_rw.
