(* ===== verification/RustStd.v ===== *)
(** * The parts of the Rust language and standard library the program uses

    Strings are UTF-8 byte sequences; buffers are lists of byte values.  This
    file models the [str] methods, number formatting and parsing, the textual
    forms of [core::net] addresses and the error values of foreign code. *)

From Stdlib Require Import ZArith Lia Ascii DecimalString DecimalN.
From Stdlib Require Import Sorting.Sorted.
From Stdlib Require DecimalFacts.
From stdpp Require Import prelude list strings gmap.
From S2P Require Import Prelude.

(** ** Strings and bytes *)

Definition byte_of_ascii (a : ascii) : Z := Z.of_N (N_of_ascii a).
Definition ascii_of_byte (b : Z) : ascii := ascii_of_N (Z.to_N b).

(** [str::as_bytes] *)
Fixpoint as_bytes (s : string) : list Z :=
  match s with
  | EmptyString => []
  | String a s => byte_of_ascii a :: as_bytes s
  end.

Fixpoint of_bytes (l : list Z) : string :=
  match l with
  | [] => EmptyString
  | b :: l => String (ascii_of_byte b) (of_bytes l)
  end.

(** [str::len] counts bytes. *)
Definition str_len (s : string) : Z := Z.of_nat (length (as_bytes s)).

Definition in_range (lo hi b : Z) : bool := (lo <=? b)%Z && (b <=? hi)%Z.

(** Well-formed UTF-8 (the table of [core::str::validations]). *)
Definition utf8_cont (b : Z) : bool := in_range 128 191 b.
Definition utf8_3 (b0 b1 b2 : Z) : bool :=
  utf8_cont b2 &&
  (((b0 =? 224)%Z && in_range 160 191 b1) ||
   (in_range 225 236 b0 && utf8_cont b1) ||
   ((b0 =? 237)%Z && in_range 128 159 b1) ||
   (in_range 238 239 b0 && utf8_cont b1)).
Definition utf8_4 (b0 b1 b2 b3 : Z) : bool :=
  utf8_cont b2 && utf8_cont b3 &&
  (((b0 =? 240)%Z && in_range 144 191 b1) ||
   (in_range 241 243 b0 && utf8_cont b1) ||
   ((b0 =? 244)%Z && in_range 128 143 b1)).

Fixpoint utf8_valid (l : list Z) : bool :=
  match l with
  | [] => true
  | b0 :: l1 =>
      if (b0 <? 128)%Z then utf8_valid l1 else
      match l1 with
      | [] => false
      | b1 :: l2 =>
          if in_range 194 223 b0 && utf8_cont b1 then utf8_valid l2 else
          match l2 with
          | [] => false
          | b2 :: l3 =>
              if utf8_3 b0 b1 b2 then utf8_valid l3 else
              match l3 with
              | [] => false
              | b3 :: l4 => if utf8_4 b0 b1 b2 b3 then utf8_valid l4 else false
              end
          end
      end
  end.

(** [std::str::from_utf8] *)
Definition from_utf8 (l : list Z) : option string :=
  if utf8_valid l then Some (of_bytes l) else None.

(** Length in bytes of the [White_Space] character a buffer starts with, 0 if
    it starts with none. *)
Definition ascii_ws (b : Z) : bool := in_range 9 13 b || (b =? 32)%Z.
Definition ws2 (b0 b1 : Z) : bool := (b0 =? 194)%Z && ((b1 =? 133)%Z || (b1 =? 160)%Z).
Definition ws3 (b0 b1 b2 : Z) : bool :=
  ((b0 =? 225) && (b1 =? 154) && (b2 =? 128) ||
   (b0 =? 226) && (b1 =? 128) &&
     (in_range 128 138 b2 || (b2 =? 168) || (b2 =? 169) || (b2 =? 175)) ||
   (b0 =? 226) && (b1 =? 129) && (b2 =? 159) ||
   (b0 =? 227) && (b1 =? 128) && (b2 =? 128))%Z.

Definition ws_len (l : list Z) : nat :=
  match l with
  | [] => 0
  | b0 :: l1 =>
      if ascii_ws b0 then 1 else
      match l1 with
      | [] => 0
      | b1 :: l2 =>
          if ws2 b0 b1 then 2 else
          match l2 with
          | [] => 0
          | b2 :: _ => if ws3 b0 b1 b2 then 3 else 0
          end
      end
  end%nat.

(** The same on a reversed buffer. *)
Definition ws_len_rev (l : list Z) : nat :=
  match l with
  | [] => 0
  | b0 :: l1 =>
      if ascii_ws b0 then 1 else
      match l1 with
      | [] => 0
      | b1 :: l2 =>
          if ws2 b1 b0 then 2 else
          match l2 with
          | [] => 0
          | b2 :: _ => if ws3 b2 b1 b0 then 3 else 0
          end
      end
  end%nat.

Fixpoint skip_ws (wl : list Z -> nat) (skip : nat) (l : list Z) : list Z :=
  match l with
  | [] => []
  | _ :: r =>
      match skip with
      | S k => skip_ws wl k r
      | O => match wl l with O => l | S k => skip_ws wl k r end
      end
  end.

(** [str::trim] *)
Definition trim_bytes (l : list Z) : list Z :=
  rev (skip_ws ws_len_rev 0 (rev (skip_ws ws_len 0 l))).
Definition trim (s : string) : string := of_bytes (trim_bytes (as_bytes s)).

(** [str::split_whitespace]: the maximal runs of non-whitespace. *)
Definition flush_word (cur : list Z) : list (list Z) :=
  match cur with [] => [] | _ => [rev cur] end.
Fixpoint split_ws_go (skip : nat) (cur : list Z) (l : list Z) : list (list Z) :=
  match l with
  | [] => flush_word cur
  | b :: r =>
      match skip with
      | S k => split_ws_go k cur r
      | O => match ws_len l with
             | O => split_ws_go 0 (b :: cur) r
             | S k => flush_word cur ++ split_ws_go k [] r
             end
      end
  end.
Definition split_whitespace (s : string) : list string :=
  map of_bytes (split_ws_go 0 [] (as_bytes s)).

(** [str::to_ascii_lowercase], [str::eq_ignore_ascii_case] *)
Definition lower_byte (b : Z) : Z := if in_range 65 90 b then (b + 32)%Z else b.
Definition to_ascii_lowercase (s : string) : string :=
  of_bytes (map lower_byte (as_bytes s)).
Definition eq_ignore_ascii_case (a b : string) : bool :=
  bool_decide (to_ascii_lowercase a = to_ascii_lowercase b).

(** [<=] on byte slices and strings: the lexicographic order. *)
Fixpoint slice_leb (x y : list Z) : bool :=
  match x, y with
  | [], _ => true
  | _ :: _, [] => false
  | a :: x, b :: y => (a <? b)%Z || ((a =? b)%Z && slice_leb x y)
  end.
Definition str_leb (a b : string) : bool := slice_leb (as_bytes a) (as_bytes b).

(** [slice::strip_prefix], [str::strip_prefix], [starts_with], [ends_with] *)
Fixpoint strip_prefix_l {A} `{EqDecision A} (p l : list A) : option (list A) :=
  match p, l with
  | [], _ => Some l
  | x :: p, y :: l => if decide (x = y) then strip_prefix_l p l else None
  | _ :: _, [] => None
  end.
Fixpoint strip_prefix (p s : string) : option string :=
  match p, s with
  | EmptyString, _ => Some s
  | String a p, String b s => if decide (a = b) then strip_prefix p s else None
  | String _ _, EmptyString => None
  end.
Definition starts_with (s p : string) : bool :=
  match strip_prefix_l (as_bytes p) (as_bytes s) with Some _ => true | None => false end.
Definition ends_with (s p : string) : bool :=
  match strip_prefix_l (rev (as_bytes p)) (rev (as_bytes s)) with
  | Some _ => true | None => false
  end.

(** [trim_end_matches(c)], [trim_matches(c)] for an ASCII character *)
Fixpoint drop_while {A} (f : A -> bool) (l : list A) : list A :=
  match l with
  | [] => []
  | x :: r => if f x then drop_while f r else l
  end.
Definition trim_end_matches (c : Z) (s : string) : string :=
  of_bytes (rev (drop_while (Z.eqb c) (rev (as_bytes s)))).
Definition trim_matches (c : Z) (s : string) : string :=
  of_bytes (rev (drop_while (Z.eqb c) (rev (drop_while (Z.eqb c) (as_bytes s))))).

(** [str::split(c)] for an ASCII character *)
Fixpoint split_bytes (c : Z) (cur l : list Z) : list (list Z) :=
  match l with
  | [] => [rev cur]
  | b :: l => if (b =? c)%Z then rev cur :: split_bytes c [] l else split_bytes c (b :: cur) l
  end.
Definition split (c : Z) (s : string) : list string :=
  map of_bytes (split_bytes c [] (as_bytes s)).

(** [slice::sort_by_key] and [ORDER BY]: a stable insertion sort. *)
Fixpoint insert_by {A} (leb : A -> A -> bool) (x : A) (l : list A) : list A :=
  match l with
  | [] => [x]
  | y :: l => if leb x y then x :: y :: l else y :: insert_by leb x l
  end.
Definition sort_by {A} (leb : A -> A -> bool) (l : list A) : list A :=
  foldr (insert_by leb) [] l.

(** [[String]::join] *)
Fixpoint join (sep : string) (l : list string) : string :=
  match l with
  | [] => EmptyString
  | [s] => s
  | s :: r => s +:+ sep +:+ join sep r
  end.

Definition is_empty (s : string) : bool :=
  match s with EmptyString => true | _ => false end.

(** ** Numbers *)

(** [Display] of an unsigned integer. *)
Definition dec (n : Z) : string := NilEmpty.string_of_uint (N.to_uint (Z.to_N n)).

(** [str::parse::<uN>] with [max] the largest value of the type: an optional
    [+], then one or more digits. *)
Definition parse_digits (max : Z) (s : string) : option Z :=
  if is_empty s then None else
  match NilEmpty.uint_of_string s with
  | Some d => let n := Z.of_N (N.of_uint d) in if (n <=? max)%Z then Some n else None
  | None => None
  end.
Definition parse_uint (max : Z) (s : string) : option Z :=
  match s with
  | String "+" r => if is_empty r then None else parse_digits max r
  | _ => parse_digits max s
  end.

(** ** Addresses *)

Inductive Ipv4Addr : Type := Ipv4 (a b c d : Z).
Inductive IpAddr : Type := V4 (a : Ipv4Addr) | V6 (segments : list Z).
Record SocketAddr : Type := mkSocketAddr { ip : IpAddr; sa_port : Z }.

#[export] Instance Ipv4Addr_eq_dec : EqDecision Ipv4Addr.
Proof. solve_decision. Defined.
#[export] Instance IpAddr_eq_dec : EqDecision IpAddr.
Proof. solve_decision. Defined.
#[export] Instance SocketAddr_eq_dec : EqDecision SocketAddr.
Proof. solve_decision. Defined.
#[export] Program Instance Ipv4Addr_countable : Countable Ipv4Addr :=
  inj_countable' (fun x => match x with Ipv4 a b c d => (a, b, c, d) end)
    (fun '(a, b, c, d) => Ipv4 a b c d) _.
Next Obligation. by intros []. Qed.

Definition octets (x : Ipv4Addr) : list Z := match x with Ipv4 a b c d => [a; b; c; d] end.
Definition Ipv4_wf (x : Ipv4Addr) : Prop := Bytes (octets x).
Definition UNSPECIFIED : Ipv4Addr := Ipv4 0 0 0 0.
Definition LOCALHOST : Ipv4Addr := Ipv4 127 0 0 1.

(** [Display for Ipv4Addr] *)
Definition ipv4_to_string (x : Ipv4Addr) : string :=
  match x with
  | Ipv4 a b c d => dec a +:+ "." +:+ dec b +:+ "." +:+ dec c +:+ "." +:+ dec d
  end.

(** The reader of [core::net::parser]: a parser returns the value read and the
    rest of the input, or leaves the input alone. *)
Definition to_digit (radix c : Z) : option Z :=
  let v := if in_range 48 57 c then (c - 48)%Z
           else if in_range 97 102 c then (c - 87)%Z
           else if in_range 65 70 c then (c - 55)%Z
           else radix in
  if (v <? radix)%Z then Some v else None.

Fixpoint span_digits (radix : Z) (l : list Z) : list Z * list Z :=
  match l with
  | [] => ([], [])
  | c :: r =>
      match to_digit radix c with
      | Some v => let '(ds, rest) := span_digits radix r in (v :: ds, rest)
      | None => ([], l)
      end
  end.

Definition digits_value (radix : Z) (ds : list Z) : Z :=
  fold_left (fun acc d => acc * radix + d)%Z ds 0%Z.

Definition read_number (radix : Z) (max_digits : nat) (max : Z) (allow_zero_prefix : bool)
    (l : list Z) : option (Z * list Z) :=
  let '(ds, rest) := span_digits radix l in
  match ds with
  | [] => None
  | d0 :: _ =>
      if (max_digits <? length ds)%nat then None
      else if (max <? digits_value radix ds)%Z then None
      else if negb allow_zero_prefix && (d0 =? 0)%Z && (1 <? length ds)%nat then None
      else Some (digits_value radix ds, rest)
  end.

Definition read_given_char (c : Z) (l : list Z) : option (list Z) :=
  match l with
  | b :: r => if (b =? c)%Z then Some r else None
  | [] => None
  end.

(** [read_separator]: the separator is expected before every part but the first. *)
Definition read_separator {A} (sep : Z) (i : nat)
    (p : list Z -> option (A * list Z)) (l : list Z) : option (A * list Z) :=
  match i with
  | O => p l
  | S _ => match read_given_char sep l with Some r => p r | None => None end
  end.

Definition read_octet : list Z -> option (Z * list Z) := read_number 10 3 255 false.

Definition read_ipv4_addr (l : list Z) : option (Ipv4Addr * list Z) :=
  '(a, l) ← read_separator 46 0 read_octet l;
  '(b, l) ← read_separator 46 1 read_octet l;
  '(c, l) ← read_separator 46 2 read_octet l;
  '(d, l) ← read_separator 46 3 read_octet l;
  Some (Ipv4 a b c d, l).

(** [read_groups]: up to [limit - i] groups, the last two possibly as an IPv4
    address; returns the groups, whether an IPv4 address ended them, the rest. *)
Fixpoint read_groups (n : nat) (i : nat) (l : list Z) : list Z * bool * list Z :=
  match n with
  | O => ([], false, l)
  | S n' =>
      match (if (0 <? n')%nat then read_separator 58 i read_ipv4_addr l else None) with
      | Some (Ipv4 a b c d, r) => ([(a * 256 + b)%Z; (c * 256 + d)%Z], true, r)
      | None =>
          match read_separator 58 i (read_number 16 4 65535 true) l with
          | Some (g, r) =>
              let '(gs, v4, rest) := read_groups n' (S i) r in (g :: gs, v4, rest)
          | None => ([], false, l)
          end
      end
  end.

Definition read_ipv6_addr (l : list Z) : option (list Z * list Z) :=
  let '(head, head_ipv4, r) := read_groups 8 0 l in
  if (length head =? 8)%nat then Some (head, r)
  else if head_ipv4 then None
  else
    r ← read_given_char 58 r;
    r ← read_given_char 58 r;
    let '(tail, _, r) := read_groups (8 - (length head + 1)) 0 r in
    Some (head ++ replicate (8 - length head - length tail) 0%Z ++ tail, r).

(** [str::parse::<Ipv4Addr>], [str::parse::<IpAddr>]: the whole text is read;
    an IPv4 text has at most 15 characters. *)
Definition parse_ipv4 (s : string) : option Ipv4Addr :=
  if (15 <? str_len s)%Z then None else
  match read_ipv4_addr (as_bytes s) with
  | Some (a, []) => Some a
  | _ => None
  end.

Definition parse_ip (s : string) : option IpAddr :=
  match read_ipv4_addr (as_bytes s) with
  | Some (a, rest) => match rest with [] => Some (V4 a) | _ => None end
  | None =>
      match read_ipv6_addr (as_bytes s) with
      | Some (segs, []) => Some (V6 segs)
      | _ => None
      end
  end.

(** [Display for Ipv6Addr]: IPv4-mapped form, else the first longest run of at
    least two zero segments is written [::]. *)
Definition hex_digit (v : Z) : ascii :=
  ascii_of_byte (if (v <? 10)%Z then 48 + v else 87 + v)%Z.
Definition hex16 (v : Z) : string :=
  let d3 := (v / 4096 mod 16)%Z in let d2 := (v / 256 mod 16)%Z in
  let d1 := (v / 16 mod 16)%Z in let d0 := (v mod 16)%Z in
  let tl0 := String (hex_digit d0) EmptyString in
  let tl1 := String (hex_digit d1) tl0 in
  let tl2 := String (hex_digit d2) tl1 in
  if (d3 =? 0)%Z then
    if (d2 =? 0)%Z then
      if (d1 =? 0)%Z then tl0 else tl1
    else tl2
  else String (hex_digit d3) tl2.

Fixpoint zero_run (l : list Z) : nat :=
  match l with
  | z :: r => if (z =? 0)%Z then S (zero_run r) else 0%nat
  | [] => 0%nat
  end.
(** Start and length of the first longest run of zero segments. *)
Fixpoint longest_zeros (i : nat) (l : list Z) : nat * nat :=
  match l with
  | [] => (i, 0%nat)
  | _ :: r =>
      let '(s, n) := longest_zeros (S i) r in
      if (n <=? zero_run l)%nat then (i, zero_run l) else (s, n)
  end.

Definition fmt_segments (l : list Z) : string := join ":" (map hex16 l).

Definition ipv6_to_string (segs : list Z) : string :=
  match segs with
  | [s0; s1; s2; s3; s4; s5; s6; s7] =>
      if ((s0 =? 0) && (s1 =? 0) && (s2 =? 0) && (s3 =? 0) && (s4 =? 0) && (s5 =? 65535))%Z
      then "::ffff:" +:+ ipv4_to_string (Ipv4 (s6 / 256) (s6 mod 256) (s7 / 256) (s7 mod 256))
      else
        let '(start, n) := longest_zeros 0 segs in
        if (1 <? n)%nat
        then fmt_segments (take start segs) +:+ "::" +:+ fmt_segments (drop (start + n) segs)
        else fmt_segments segs
  | _ => EmptyString
  end.

Definition ip_to_string (x : IpAddr) : string :=
  match x with V4 a => ipv4_to_string a | V6 s => ipv6_to_string s end.

(** [Ipv4Addr::is_private], [is_link_local], [is_unspecified];
    [Ipv6Addr::is_unique_local], [is_unicast_link_local] *)
Definition is_private (x : Ipv4Addr) : bool :=
  match x with
  | Ipv4 a b _ _ =>
      (a =? 10)%Z || ((a =? 172)%Z && in_range 16 31 b) || ((a =? 192)%Z && (b =? 168)%Z)
  end.
Definition is_link_local (x : Ipv4Addr) : bool :=
  match x with Ipv4 a b _ _ => (a =? 169)%Z && (b =? 254)%Z end.
Definition is_unspecified (x : Ipv4Addr) : bool := bool_decide (x = UNSPECIFIED).
Definition is_unique_local (segs : list Z) : bool :=
  match segs with s0 :: _ => (Z.land s0 65024 =? 64512)%Z | [] => false end.
Definition is_unicast_link_local (segs : list Z) : bool :=
  match segs with s0 :: _ => (Z.land s0 65472 =? 65152)%Z | [] => false end.

(** ** Error values *)

(** [std::io::ErrorKind], as far as the program distinguishes kinds. *)
Inductive io_kind : Type := WouldBlock | TimedOut | NotFound | OtherKind.

(** The foreign error types whose [Display] text ends up in an error message. *)
Inductive foreign_error : Type :=
| UuidError | Base64Error | Utf8Error | AddrParseError | ParseIntError
| HkdfError | RandomError | JsonError | PoisonError | SqlError (m : string)
| IoError (k : io_kind).

(** The text of an error: literal text, or literal text followed by the
    [Display] text of a foreign error. *)
Inductive message : Type :=
| MText (s : string)
| MForeign (prefix : string) (e : foreign_error).

#[export] Instance io_kind_eq_dec : EqDecision io_kind.
Proof. solve_decision. Defined.
#[export] Instance foreign_error_eq_dec : EqDecision foreign_error.
Proof. solve_decision. Defined.
#[export] Instance message_eq_dec : EqDecision message.
Proof. solve_decision. Defined.

(** ** Lemmas: strings and bytes *)

Lemma byte_of_ascii_u8 a : is_u8 (byte_of_ascii a).
Proof.
  unfold byte_of_ascii, is_u8, u8_max.
  pose proof (N_ascii_bounded a). lia.
Qed.

Lemma ascii_of_byte_of_ascii a : ascii_of_byte (byte_of_ascii a) = a.
Proof. unfold ascii_of_byte, byte_of_ascii. by rewrite N2Z.id, ascii_N_embedding. Qed.

Lemma byte_of_ascii_of_byte b : is_u8 b -> byte_of_ascii (ascii_of_byte b) = b.
Proof.
  unfold ascii_of_byte, byte_of_ascii, is_u8, u8_max. intros H.
  rewrite N_ascii_embedding by lia. lia.
Qed.

Lemma of_bytes_as_bytes s : of_bytes (as_bytes s) = s.
Proof. induction s as [|a s IH]; simpl; [done|]. by rewrite ascii_of_byte_of_ascii, IH. Qed.

Lemma as_bytes_of_bytes l : Bytes l -> as_bytes (of_bytes l) = l.
Proof.
  induction 1 as [|b l Hb Hl IH]; simpl; [done|].
  by rewrite byte_of_ascii_of_byte, IH.
Qed.

Lemma as_bytes_Bytes s : Bytes (as_bytes s).
Proof. induction s; simpl; constructor; auto using byte_of_ascii_u8. Qed.

Lemma as_bytes_app a b : as_bytes (a +:+ b) = as_bytes a ++ as_bytes b.
Proof. induction a as [|x a IH]; simpl; [done|]. by rewrite <- IH. Qed.

Lemma as_bytes_inj a b : as_bytes a = as_bytes b -> a = b.
Proof. intros H. by rewrite <- (of_bytes_as_bytes a), H, of_bytes_as_bytes. Qed.

Lemma lower_byte_idem b : lower_byte (lower_byte b) = lower_byte b.
Proof. unfold lower_byte, in_range. repeat split_guard; to_prop; lia. Qed.

Lemma lower_byte_u8 b : is_u8 b -> is_u8 (lower_byte b).
Proof.
  unfold lower_byte, in_range, is_u8, u8_max. intros H. split_guard; to_prop; lia.
Qed.

Lemma map_lower_Bytes l : Bytes l -> Bytes (map lower_byte l).
Proof. induction 1; simpl; constructor; auto using lower_byte_u8. Qed.

Lemma as_bytes_lowercase s :
  as_bytes (to_ascii_lowercase s) = map lower_byte (as_bytes s).
Proof.
  unfold to_ascii_lowercase. apply as_bytes_of_bytes, map_lower_Bytes, as_bytes_Bytes.
Qed.

Lemma to_ascii_lowercase_idem s :
  to_ascii_lowercase (to_ascii_lowercase s) = to_ascii_lowercase s.
Proof.
  apply as_bytes_inj. rewrite !as_bytes_lowercase, map_map.
  apply map_ext. intros b. apply lower_byte_idem.
Qed.

Lemma utf8_ascii l : Forall (fun b => (0 <= b < 128)%Z) l -> utf8_valid l = true.
Proof.
  induction 1 as [|b l Hb Hl IH]; [done|]. cbn [utf8_valid].
  by rewrite (proj2 (Z.ltb_lt b 128)) by lia.
Qed.

Lemma strip_prefix_app p s : strip_prefix p (p +:+ s) = Some s.
Proof.
  induction p as [|a p IH]; [done|].
  change (String a p +:+ s) with (String a (p +:+ s)). simpl.
  by destruct (decide (a = a)).
Qed.

Lemma strip_prefix_Some p s r : strip_prefix p s = Some r -> s = p +:+ r.
Proof.
  revert s. induction p as [|a p IH]; intros s H; simpl in H; [by injection H as <-|].
  destruct s as [|b s]; [done|]. destruct (decide (a = b)) as [->|]; [|done].
  apply IH in H. by subst.
Qed.

Lemma strip_prefix_l_app {A} `{EqDecision A} (p l : list A) :
  strip_prefix_l p (p ++ l) = Some l.
Proof. induction p as [|a p IH]; [done|]. simpl. by rewrite decide_True. Qed.

Lemma strip_prefix_l_Some {A} `{EqDecision A} (p l r : list A) :
  strip_prefix_l p l = Some r -> l = p ++ r.
Proof.
  revert l. induction p as [|a p IH]; intros l H; simpl in *; [by injection H as <-|].
  destruct l as [|b l]; [done|]. destruct (decide (a = b)) as [->|]; [|done].
  simpl. f_equal. by apply IH.
Qed.

Lemma ends_with_app s p : ends_with (s +:+ p) p = true.
Proof.
  unfold ends_with. rewrite as_bytes_app, rev_app_distr.
  by rewrite strip_prefix_l_app.
Qed.

Lemma ends_with_inv s p : ends_with s p = true -> exists q, as_bytes s = q ++ as_bytes p.
Proof.
  unfold ends_with. intros H.
  destruct (strip_prefix_l _ _) as [r|] eqn:E; [|done].
  apply strip_prefix_l_Some in E. exists (rev r).
  rewrite <- (rev_involutive (as_bytes s)), E, rev_app_distr, rev_involutive. done.
Qed.

(** ** Lemmas: numbers *)

Lemma dec_nonempty n : is_empty (dec n) = false.
Proof.
  unfold dec. destruct (Z.to_N n) as [|p]; [done|].
  pose proof (DecimalPos.Unsigned.to_uint_nonnil p) as H.
  change (N.to_uint (N.pos p)) with (Pos.to_uint p).
  by destruct (Pos.to_uint p).
Qed.

Lemma parse_digits_dec max n :
  (0 <= n <= max)%Z -> parse_digits max (dec n) = Some n.
Proof.
  intros H. unfold parse_digits. rewrite dec_nonempty. unfold dec.
  rewrite NilEmpty.usu, DecimalN.Unsigned.of_to, Z2N.id by lia.
  by rewrite (proj2 (Z.leb_le n max)) by lia.
Qed.

Lemma dec_no_plus n r : dec n <> String "+" r.
Proof. unfold dec. destruct (N.to_uint (Z.to_N n)); discriminate. Qed.

Lemma parse_uint_dec max n :
  (0 <= n <= max)%Z -> parse_uint max (dec n) = Some n.
Proof.
  intros H. rewrite <- (parse_digits_dec max n H). unfold parse_uint.
  destruct (dec n) as [|a r] eqn:E; [done|].
  destruct a as [[] [] [] [] [] [] [] []]; try done.
  by apply dec_no_plus in E.
Qed.

Lemma parse_uint_bound max s n : parse_uint max s = Some n -> (0 <= n <= max)%Z.
Proof.
  assert (forall r, parse_digits max r = Some n -> (0 <= n <= max)%Z) as H.
  { intros r. unfold parse_digits. destruct (is_empty r); [done|].
    destruct (NilEmpty.uint_of_string r); [|done]. split_guard; [|done].
    intros [= <-]. to_prop. lia. }
  unfold parse_uint. destruct s as [|a r]; [apply H|].
  destruct a as [[] [] [] [] [] [] [] []]; try apply H.
  destruct (is_empty r); [done|apply H].
Qed.

Lemma dec_inj a b : (0 <= a)%Z -> (0 <= b)%Z -> dec a = dec b -> a = b.
Proof.
  intros Ha Hb H. apply (f_equal (parse_digits (Z.max a b))) in H.
  rewrite !parse_digits_dec in H by lia. congruence.
Qed.

Lemma slice_leb_total x y : slice_leb x y = false -> slice_leb y x = true.
Proof.
  revert y. induction x as [|a x IH]; intros [|b y]; simpl; try done.
  intros [Hlt Heq]%orb_false_iff. apply Z.ltb_ge in Hlt.
  apply orb_true_iff. destruct (Z.eqb_spec a b) as [->|Hne].
  - right. rewrite Z.eqb_refl. by apply IH.
  - left. apply Z.ltb_lt. lia.
Qed.

Lemma slice_leb_antisym x y : slice_leb x y = true -> slice_leb y x = true -> x = y.
Proof.
  revert y. induction x as [|a x IH]; intros [|b y]; simpl; try done.
  rewrite !orb_true_iff, !andb_true_iff, !Z.ltb_lt, !Z.eqb_eq.
  intros [?|[-> ?]] [?|[? ?]]; try lia. f_equal. auto.
Qed.

(** ** Lemmas: sorting *)

Lemma insert_by_perm {A} leb (x : A) l : insert_by leb x l ≡ₚ x :: l.
Proof.
  induction l as [|y l IH]; simpl; [done|]. destruct (leb x y); [done|].
  rewrite IH. apply Permutation_swap.
Qed.

Lemma sort_by_perm {A} leb (l : list A) : sort_by leb l ≡ₚ l.
Proof. induction l as [|x l IH]; simpl; [done|]. by rewrite insert_by_perm, IH. Qed.

Lemma elem_of_sort_by {A} leb (l : list A) x : x ∈ sort_by leb l <-> x ∈ l.
Proof. by rewrite sort_by_perm. Qed.

Section sorted.
Context {A : Type} (leb : A -> A -> bool).
Context (leb_total : forall x y, leb x y = false -> leb y x = true).

Lemma insert_by_sorted x l :
  Sorted (fun a b => leb a b = true) l -> Sorted (fun a b => leb a b = true) (insert_by leb x l).
Proof.
  induction 1 as [|y l Hs IH Hd]; simpl; [by repeat constructor|].
  destruct (leb x y) eqn:E; [by repeat constructor|]. constructor; [done|].
  apply leb_total in E. destruct l as [|z l]; simpl; [by constructor|].
  inversion Hd; subst. destruct (leb x z); by constructor.
Qed.

Lemma sort_by_sorted l : Sorted (fun a b => leb a b = true) (sort_by leb l).
Proof. induction l; simpl; [constructor|by apply insert_by_sorted]. Qed.
End sorted.

(** ** Lemmas: trimming *)

Definition visible (b : Z) : Prop := (33 <= b <= 127)%Z.

Lemma visible_no_ws b l : visible b -> ws_len (b :: l) = 0%nat.
Proof.
  unfold visible. intros Hb. unfold ws_len, ascii_ws, ws2, ws3, in_range.
  rewrite (proj2 (Z.leb_gt b 13)), (proj2 (Z.eqb_neq b 32)), andb_false_r by lia. cbn [orb].
  destruct l as [|b1 [|b2 l]]; [done|..].
  - by rewrite (proj2 (Z.eqb_neq b 194)) by lia.
  - rewrite (proj2 (Z.eqb_neq b 194)), (proj2 (Z.eqb_neq b 225)), (proj2 (Z.eqb_neq b 226)),
      (proj2 (Z.eqb_neq b 227)) by lia. done.
Qed.

Lemma visible_no_ws_rev b l : visible b -> ws_len_rev (b :: l) = 0%nat.
Proof.
  unfold visible. intros Hb. unfold ws_len_rev, ascii_ws, ws2, ws3, in_range.
  rewrite (proj2 (Z.leb_gt b 13)), (proj2 (Z.eqb_neq b 32)), andb_false_r by lia. cbn [orb].
  destruct l as [|b1 [|b2 l]]; [done|..];
    rewrite (proj2 (Z.eqb_neq b 133)), (proj2 (Z.eqb_neq b 160)) by lia;
    cbn [orb]; rewrite andb_false_r; [done|].
  rewrite (proj2 (Z.leb_gt 128 b)), (proj2 (Z.eqb_neq b 128)), (proj2 (Z.eqb_neq b 168)),
    (proj2 (Z.eqb_neq b 169)), (proj2 (Z.eqb_neq b 175)), (proj2 (Z.eqb_neq b 159)) by lia.
  cbn [andb orb]. by rewrite !andb_false_r.
Qed.

Lemma trim_visible l : Forall visible l -> trim_bytes l = l.
Proof.
  intros H. unfold trim_bytes.
  assert (skip_ws ws_len 0 l = l) as ->.
  { destruct H as [|b l Hb _]; [done|]. cbn [skip_ws]. by rewrite visible_no_ws. }
  apply Forall_rev in H. rewrite <- (rev_involutive l) at 2. f_equal.
  destruct H as [|b r Hb _]; [done|]. cbn [skip_ws]. by rewrite visible_no_ws_rev.
Qed.

(** ** Lemmas: printing and parsing IPv4 addresses *)

Definition is_dec_digit (b : Z) : bool := in_range 48 57 b.

(** What an octet's text looks like, checked for all 256 octets. *)
Definition octet_text_ok (n : Z) : bool :=
  let bs := as_bytes (dec n) in
  let ds := map (fun b => b - 48)%Z bs in
  forallb is_dec_digit bs && (1 <=? length bs)%nat && (length bs <=? 3)%nat &&
  (digits_value 10 ds =? n)%Z &&
  match ds with d0 :: _ => negb (d0 =? 0)%Z || (length ds =? 1)%nat | [] => false end.

Lemma octet_text n : is_u8 n -> octet_text_ok n = true.
Proof.
  intros Hn. assert (forallb octet_text_ok (map Z.of_nat (seq 0 256)) = true) as H by by vm_compute.
  rewrite forallb_forall in H. apply H. apply in_map_iff. exists (Z.to_nat n).
  unfold is_u8, u8_max in Hn. split; [lia|]. apply in_seq. lia.
Qed.

(** The rest of the input after a number does not go on with a digit. *)
Definition ends_number (rest : list Z) : Prop :=
  match rest with [] => True | c :: _ => to_digit 10 c = None end.

Lemma span_digits_app bs rest :
  forallb is_dec_digit bs = true -> ends_number rest ->
  span_digits 10 (bs ++ rest) = (map (fun b => b - 48)%Z bs, rest).
Proof.
  intros Hbs Hr. induction bs as [|b bs IH]; simpl.
  - destruct rest as [|c r]; [done|]. simpl in *. by rewrite Hr.
  - simpl in Hbs. apply andb_true_iff in Hbs as [Hb Hbs]. unfold is_dec_digit in Hb.
    rewrite (IH Hbs). unfold to_digit. rewrite Hb. unfold in_range in Hb. to_prop.
    by rewrite (proj2 (Z.ltb_lt _ _)) by lia.
Qed.

Lemma read_octet_dec n rest :
  is_u8 n -> ends_number rest -> read_octet (as_bytes (dec n) ++ rest) = Some (n, rest).
Proof.
  intros Hn Hr. pose proof (octet_text n Hn) as Ho. unfold octet_text_ok in Ho.
  unfold read_octet, read_number. destruct (map _ _) as [|d0 ds] eqn:Eds; [by rewrite andb_false_r in Ho|].
  to_prop. rewrite span_digits_app, Eds by done.
  assert (length (d0 :: ds) = length (as_bytes (dec n))) as HL by (rewrite <- Eds; apply length_map).
  rewrite HL in *. unfold is_u8, u8_max in Hn.
  rewrite (proj2 (Nat.ltb_ge _ _)) by lia.
  match goal with H : digits_value _ _ = _ |- _ => rewrite H end.
  rewrite (proj2 (Z.ltb_ge _ _)) by lia. cbn [negb andb].
  match goal with H : _ || _ = true |- _ => apply orb_true_iff in H as [H|H] end; to_prop.
  - by rewrite (proj2 (Z.eqb_neq _ _)).
  - by rewrite (proj2 (Nat.ltb_ge _ _)), andb_false_r by lia.
Qed.

Lemma octet_text_length n : is_u8 n -> (length (as_bytes (dec n)) <= 3)%nat.
Proof. intros Hn%octet_text. unfold octet_text_ok in Hn. to_prop. done. Qed.

Lemma read_ipv4_addr_print x rest :
  Ipv4_wf x -> ends_number rest ->
  read_ipv4_addr (as_bytes (ipv4_to_string x) ++ rest) = Some (x, rest).
Proof.
  destruct x as [a b c d]. unfold Ipv4_wf, Bytes. cbn [octets]. rewrite !Forall_cons.
  intros (Ha & Hb & Hc & Hd & _) Hr. unfold ipv4_to_string. rewrite !as_bytes_app.
  change (as_bytes ".") with [46%Z]. rewrite <- !app_assoc. unfold read_ipv4_addr, read_separator.
  rewrite read_octet_dec by done. cbn [mbind option_bind app read_given_char Z.eqb Pos.eqb].
  rewrite read_octet_dec by done. cbn [mbind option_bind app read_given_char Z.eqb Pos.eqb].
  rewrite read_octet_dec by done. cbn [mbind option_bind app read_given_char Z.eqb Pos.eqb].
  by rewrite read_octet_dec by done.
Qed.

Lemma parse_ipv4_print x : Ipv4_wf x -> parse_ipv4 (ipv4_to_string x) = Some x.
Proof.
  intros Hx. pose proof (read_ipv4_addr_print x [] Hx I) as H. rewrite app_nil_r in H.
  unfold parse_ipv4. rewrite H. rewrite (proj2 (Z.ltb_ge _ _)); [done|].
  unfold str_len. destruct x as [a b c d]. unfold Ipv4_wf, Bytes in Hx. cbn [octets] in Hx.
  rewrite !Forall_cons in Hx. destruct Hx as (Ha & Hb & Hc & Hd & _).
  unfold ipv4_to_string. rewrite !as_bytes_app, !length_app. simpl (length (as_bytes ".")).
  apply octet_text_length in Ha, Hb, Hc, Hd. lia.
Qed.

Lemma parse_ip_print x : Ipv4_wf x -> parse_ip (ip_to_string (V4 x)) = Some (V4 x).
Proof.
  intros Hx. pose proof (read_ipv4_addr_print x [] Hx I) as H. rewrite app_nil_r in H.
  unfold parse_ip. cbn [ip_to_string]. by rewrite H.
Qed.

(** A property of all 16-bit numbers, checked for all high and low bytes. *)
Lemma u16_forall (p : Z -> bool) :
  (let octet := map Z.of_nat (seq 0 256) in
   forallb (fun h => forallb (fun l => p (256 * h + l)%Z) octet) octet) = true ->
  forall v, is_u16 v -> p v = true.
Proof.
  cbv zeta. set (octet := map Z.of_nat (seq 0 256)). intros H v Hv.
  assert (forall m, (0 <= m < 256)%Z -> In m octet) as Ho.
  { intros m Hm. apply in_map_iff. exists (Z.to_nat m). rewrite in_seq. split; lia. }
  unfold is_u16, u16_max in Hv. rewrite forallb_forall in H.
  assert (0 <= v / 256 < 256)%Z as Hh by (split; [apply Z.div_pos|apply Z.div_lt_upper_bound]; lia).
  specialize (H _ (Ho _ Hh)). rewrite forallb_forall in H.
  specialize (H _ (Ho _ (Z.mod_pos_bound v 256 eq_refl))). by rewrite <- Z.div_mod in H by lia.
Qed.

(** The text of a port. *)
Lemma port_text_length n : is_u16 n -> (length (as_bytes (dec n)) <= 5)%nat.
Proof.
  intros Hn. apply Nat.leb_le. revert n Hn.
  apply (u16_forall (fun n => length (as_bytes (dec n)) <=? 5)%nat). by vm_compute.
Qed.

(** A number has at most as many decimal digits as binary ones. *)
Lemma length_string_of_uint d : length (as_bytes (NilEmpty.string_of_uint d)) = Decimal.nb_digits d.
Proof. induction d as [|d IH|d IH|d IH|d IH|d IH|d IH|d IH|d IH|d IH|d IH]; cbn; by rewrite ?IH. Qed.

Lemma nb_digits_double d :
  (Decimal.nb_digits (Decimal.Little.double d) <= S (Decimal.nb_digits d) /\
   Decimal.nb_digits (Decimal.Little.succ_double d) <= S (Decimal.nb_digits d))%nat.
Proof. induction d as [|d IH|d IH|d IH|d IH|d IH|d IH|d IH|d IH|d IH|d IH]; cbn; lia. Qed.

Lemma nb_digits_pos p : (Decimal.nb_digits (Pos.to_little_uint p) <= Pos.size_nat p)%nat.
Proof.
  induction p as [p IH|p IH|]; cbn [Pos.to_little_uint Pos.size_nat]; [| |done].
  - pose proof (nb_digits_double (Pos.to_little_uint p)). lia.
  - pose proof (nb_digits_double (Pos.to_little_uint p)). lia.
Qed.

Lemma dec_length z : (0 <= z <= u128_max)%Z -> (length (as_bytes (dec z)) <= 129)%nat.
Proof.
  intros Hz. unfold dec. rewrite length_string_of_uint. destruct (Z.to_N z) as [|p] eqn:E; [cbn; lia|].
  cbn [N.to_uint]. unfold Pos.to_uint. rewrite DecimalFacts.nb_digits_rev. pose proof (nb_digits_pos p).
  assert (Pos.size_nat p <= Pos.size_nat (Z.to_pos (2 ^ 128)))%nat as Hs.
  { apply Pos.size_nat_monotone. unfold u128_max in Hz. lia. }
  change (Pos.size_nat (Z.to_pos (2 ^ 128))) with 129%nat in Hs. lia.
Qed.

(** The text of an address or of a number has no blanks. *)
Lemma dec_visible n : Forall visible (as_bytes (dec n)).
Proof.
  unfold dec. induction (N.to_uint (Z.to_N n)); simpl; [constructor|..];
    (constructor; [unfold visible; by_decide || (vm_compute; split; discriminate)|done]).
Qed.

Lemma ipv4_visible x : Forall visible (as_bytes (ipv4_to_string x)).
Proof.
  destruct x. unfold ipv4_to_string. rewrite !as_bytes_app.
  repeat (apply Forall_app; split); try apply dec_visible;
    (constructor; [vm_compute; split; discriminate|constructor]).
Qed.

(** Words joined by blanks are split again. *)
Lemma split_ws_go_word w cur rest :
  Forall visible w -> split_ws_go 0 cur (w ++ 32%Z :: rest) = flush_word (rev w ++ cur) ++ split_ws_go 0 [] rest.
Proof.
  intros Hw. revert cur. induction Hw as [|b w Hb _ IH]; intros cur; [done|].
  cbn [app split_ws_go]. rewrite visible_no_ws by done. rewrite IH. cbn [rev]. by rewrite <- app_assoc.
Qed.

Lemma split_ws_go_last w cur : Forall visible w -> split_ws_go 0 cur w = flush_word (rev w ++ cur).
Proof.
  intros Hw. revert cur. induction Hw as [|b w Hb _ IH]; intros cur; [done|].
  cbn [app split_ws_go]. rewrite visible_no_ws by done. rewrite IH. cbn [rev]. by rewrite <- app_assoc.
Qed.

Lemma flush_word_rev w : w <> [] -> flush_word (rev w ++ []) = [w].
Proof.
  intros Hw. rewrite app_nil_r. destruct (rev w) as [|b r] eqn:E.
  - apply (f_equal (@rev Z)) in E. rewrite rev_involutive in E. done.
  - unfold flush_word. rewrite <- E. by rewrite rev_involutive.
Qed.

Lemma split_whitespace_words3 a b c :
  Forall visible (as_bytes a) -> Forall visible (as_bytes b) -> Forall visible (as_bytes c) ->
  as_bytes a <> [] -> as_bytes b <> [] -> as_bytes c <> [] ->
  split_whitespace (a +:+ " " +:+ b +:+ " " +:+ c) = [a; b; c].
Proof.
  intros Ha Hb Hc Hna Hnb Hnc. unfold split_whitespace. rewrite !as_bytes_app.
  change (as_bytes " ") with [32%Z]. cbn [app].
  rewrite !split_ws_go_word, split_ws_go_last by done. rewrite !flush_word_rev by done.
  cbn [app map]. by rewrite !of_bytes_as_bytes.
Qed.
