(* ===== verification/RustText.v ===== *)
(** * More of the Rust standard library: addresses with ports, text, IPv6

    The textual form of [SocketAddr], [String::from_utf8_lossy], [str::replace],
    padded formatting and [Vec::dedup]; and the proof that the textual forms of
    IP addresses, IPv6 included, are read back as the addresses they print. *)

From Stdlib Require Import ZArith Lia Ascii.
From stdpp Require Import prelude list strings gmap.
From S2P Require Import Prelude RustStd.

(** ** Socket addresses *)

(** [Display for SocketAddr]; the scope of an IPv6 address is zero. *)
Definition socket_addr_to_string (x : SocketAddr) : string :=
  match ip x with
  | V4 a => ipv4_to_string a +:+ ":" +:+ dec (sa_port x)
  | V6 s => "[" +:+ ipv6_to_string s +:+ "]:" +:+ dec (sa_port x)
  end.

(** [read_port], [read_scope_id]: numbers of any length within their type. *)
Definition read_port (l : list Z) : option (Z * list Z) :=
  l ← read_given_char 58 l; read_number 10 (length l) u16_max true l.
Definition read_scope_id (l : list Z) : option (Z * list Z) :=
  l ← read_given_char 37 l; read_number 10 (length l) u32_max true l.

Definition read_socket_addr_v4 (l : list Z) : option (SocketAddr * list Z) :=
  '(a, l) ← read_ipv4_addr l;
  '(port, l) ← read_port l;
  Some (mkSocketAddr (V4 a) port, l).

Definition read_socket_addr_v6 (l : list Z) : option (SocketAddr * list Z) :=
  l ← read_given_char 91 l;
  '(s, l) ← read_ipv6_addr l;
  let l := match read_scope_id l with Some (_, r) => r | None => l end in
  l ← read_given_char 93 l;
  '(port, l) ← read_port l;
  Some (mkSocketAddr (V6 s) port, l).

(** [str::parse::<SocketAddr>] *)
Definition parse_socket_addr (s : string) : option SocketAddr :=
  match (match read_socket_addr_v4 (as_bytes s) with
         | Some r => Some r
         | None => read_socket_addr_v6 (as_bytes s)
         end) with
  | Some (x, []) => Some x
  | _ => None
  end.

(** ** Text *)

(** [str::replace] of an ASCII character. *)
Definition replace_byte (c : Z) (by_ : list Z) (l : list Z) : list Z :=
  flat_map (fun b => if (b =? c)%Z then by_ else [b]) l.
Definition replace (c : Z) (by_ : string) (s : string) : string :=
  of_bytes (replace_byte c (as_bytes by_) (as_bytes s)).

(** [str::chars().count()]: the bytes that do not continue a character. *)
Definition char_count (s : string) : nat :=
  length (List.filter (fun b => negb (utf8_cont b)) (as_bytes s)).

Definition spaces (n : nat) : string := of_bytes (replicate n 32%Z).

(** [{:<w}] *)
Definition pad_right (w : nat) (s : string) : string := s +:+ spaces (w - char_count s).

(** [Path::join]: an absolute path replaces the base. *)
Definition path_join (base path : string) : string :=
  if starts_with path "/" || is_empty base then path
  else if ends_with base "/" then base +:+ path else base +:+ "/" +:+ path.

(** [Vec::dedup]: runs of equal elements are reduced to their first. *)
Fixpoint dedup {A} `{EqDecision A} (l : list A) : list A :=
  match l with
  | [] => []
  | x :: r =>
      match r with
      | y :: _ => if decide (x = y) then dedup r else x :: dedup r
      | [] => [x]
      end
  end.

(** Length of the valid character a buffer starts with, or of the invalid
    sequence that [String::from_utf8_lossy] replaces by one U+FFFD. *)
Definition utf8_chunk (l : list Z) : bool * nat :=
  match l with
  | [] => (true, 0)
  | b0 :: l1 =>
      if (b0 <? 128)%Z then (true, 1)
      else
        match l1 with
        | [] => (false, 1)
        | b1 :: l2 =>
            if in_range 194 223 b0 then (if utf8_cont b1 then (true, 2) else (false, 1))
            else if utf8_3 b0 b1 128 then
              match l2 with
              | [] => (false, 2)
              | b2 :: _ => if utf8_cont b2 then (true, 3) else (false, 2)
              end
            else if utf8_4 b0 b1 128 128 then
              match l2 with
              | [] => (false, 2)
              | b2 :: l3 =>
                  if utf8_cont b2 then
                    match l3 with
                    | [] => (false, 3)
                    | b3 :: _ => if utf8_cont b3 then (true, 4) else (false, 3)
                    end
                  else (false, 2)
              end
            else (false, 1)
        end
  end%nat.

(** The replacement goes chunk by chunk; [skip] counts the bytes of a chunk that
    are already written. *)
Fixpoint lossy_go (skip : nat) (l : list Z) : list Z :=
  match l with
  | [] => []
  | b :: r =>
      match skip with
      | S k => lossy_go k r
      | O =>
          let '(ok, n) := utf8_chunk l in
          (if ok then take n l else [239; 191; 189]%Z) ++ lossy_go (n - 1) r
      end
  end.
Definition from_utf8_lossy (l : list Z) : string := of_bytes (lossy_go 0 l).

(** ** IPv6 texts are read back *)

Definition hex_text (v : Z) : list Z := as_bytes (hex16 v).
Definition is_hex_digit (b : Z) : bool := match to_digit 16 b with Some _ => true | None => false end.

(** Well-formed segments of an address. *)
Definition Ip_wf (x : IpAddr) : Prop :=
  match x with V4 a => Ipv4_wf a | V6 s => length s = 8%nat /\ Forall is_u16 s end.

(** What the text of a segment looks like, checked for all of them. *)
Definition hex_text_ok (v : Z) : bool :=
  let '(ds, rest) := span_digits 16 (hex_text v) in
  match rest with [] => true | _ => false end &&
  (1 <=? length ds)%nat && (length ds <=? 4)%nat && (digits_value 16 ds =? v)%Z &&
  (length ds =? length (hex_text v))%nat.

Lemma hex_text_all v : is_u16 v -> hex_text_ok v = true.
Proof. apply u16_forall. by vm_compute. Qed.

(** After a segment comes the end, a bracket or a colon. *)
Definition ends_hex (rest : list Z) : Prop :=
  match rest with [] => True | c :: _ => c = 58%Z \/ c = 93%Z end.

Lemma span_digits_rest radix l rest ds :
  span_digits radix l = (ds, []) ->
  match rest with [] => True | c :: _ => to_digit radix c = None end ->
  span_digits radix (l ++ rest) = (ds, rest).
Proof.
  revert ds. induction l as [|c l IH]; intros ds H Hr; simpl in *.
  - injection H as <-. destruct rest as [|d r]; [done|]. simpl. by rewrite Hr.
  - destruct (to_digit radix c); [|done]. destruct (span_digits radix l) as [ds' r'] eqn:E.
    injection H as <- ->. by rewrite (IH ds').
Qed.

Lemma read_hex v rest :
  is_u16 v -> ends_hex rest -> read_number 16 4 65535 true (hex_text v ++ rest) = Some (v, rest).
Proof.
  intros Hv Hr. pose proof (hex_text_all v Hv) as Ho. unfold hex_text_ok in Ho.
  destruct (span_digits 16 (hex_text v)) as [ds r] eqn:E. destruct r; [|done].
  unfold read_number. rewrite (span_digits_rest 16 (hex_text v) rest ds E).
  2: { destruct rest as [|c r]; [done|]. by destruct Hr as [-> | ->]. }
  destruct ds as [|d0 ds]; [done|]. to_prop. unfold is_u16, u16_max in Hv.
  rewrite (proj2 (Nat.ltb_ge _ _)) by lia.
  match goal with H : digits_value _ _ = _ |- _ => rewrite H end.
  by rewrite (proj2 (Z.ltb_ge _ _)) by lia.
Qed.

(** No IPv4 address is read where the first character after the decimal digits is
    not a dot. *)
Lemma read_ipv4_no_dot l ds rest :
  span_digits 10 l = (ds, rest) ->
  match rest with [] => True | c :: _ => c <> 46%Z end -> read_ipv4_addr l = None.
Proof.
  intros H Hr. unfold read_ipv4_addr. cbn [read_separator]. 
  destruct (read_octet l) as [[a r]|] eqn:E; [|done]. unfold read_octet, read_number in E. rewrite H in E.
  destruct ds as [|d0 ds]; [done|]. destruct (_ <? _)%nat; [done|]. destruct (_ <? _)%Z; [done|].
  destruct (_ && _); [done|]. injection E as _ <-. cbn [mbind option_bind].
  destruct rest as [|c r]; [done|]. cbn [read_given_char]. by rewrite (proj2 (Z.eqb_neq c 46)).
Qed.

Lemma span_digits_suffix radix l ds rest : span_digits radix l = (ds, rest) -> exists p, l = p ++ rest.
Proof.
  revert ds rest. induction l as [|c l IH]; intros ds rest H; simpl in H; [by injection H as <- <-; exists []|].
  destruct (to_digit radix c).
  - destruct (span_digits radix l) as [ds' r'] eqn:E. injection H as <- <-.
    destruct (IH _ _ eq_refl) as [p ->]. by exists (c :: p).
  - injection H as <- <-. by exists [].
Qed.

Lemma hex_text_no_dot v : is_u16 v -> 46%Z ∉ hex_text v.
Proof.
  intros Hv. pose proof (u16_forall (fun v => forallb (fun b => negb (b =? 46)%Z) (hex_text v)) ltac:(by vm_compute) v Hv)
    as H. cbv beta in H. rewrite forallb_forall in H. intros Hin%list_elem_of_In%H. done.
Qed.

Lemma hex_no_ipv4 v rest : is_u16 v -> ends_hex rest -> read_ipv4_addr (hex_text v ++ rest) = None.
Proof.
  intros Hv Hr. destruct (span_digits 10 (hex_text v)) as [ds r] eqn:E.
  pose proof (span_digits_suffix _ _ _ _ E) as [p Hp]. destruct r as [|c r].
  - apply (read_ipv4_no_dot _ ds rest); [|destruct rest as [|c r]; [done|by destruct Hr as [-> | ->]]].
    apply span_digits_rest; [done|]. destruct rest as [|c r]; [done|]. by destruct Hr as [-> | ->].
  - apply (read_ipv4_no_dot _ ds (c :: r ++ rest)).
    + revert ds p E Hp. induction (hex_text v) as [|b l IH]; intros ds p E Hp; simpl in *; [by destruct p|].
      destruct (to_digit 10 b).
      * destruct (span_digits 10 l) as [ds' r'] eqn:E'. injection E as <- ->.
        pose proof (span_digits_suffix _ _ _ _ E') as [q Hq]. by rewrite (IH ds' q).
      * by injection E as <- <- <-.
    + intros ->. apply (hex_text_no_dot v Hv). rewrite Hp. apply elem_of_app. right. left.
Qed.

(** The text of the segments from position [i] of a part on. *)
Fixpoint group_text (i : nat) (gs : list Z) : list Z :=
  match gs with
  | [] => []
  | g :: gs => match i with O => [] | S _ => [58%Z] end ++ hex_text g ++ group_text (S i) gs
  end.

Lemma group_text_S i gs : group_text (S i) gs = group_text 1 gs.
Proof. revert i. induction gs as [|g gs IH]; intros i; [done|]. cbn [group_text]. by rewrite (IH (S i)), (IH 1%nat). Qed.

Lemma fmt_segments_text gs : as_bytes (fmt_segments gs) = group_text 0 gs.
Proof.
  unfold fmt_segments. assert (forall g gs, as_bytes (join ":" (map hex16 (g :: gs))) = hex_text g ++ group_text 1 gs) as H.
  { intros g l. revert g. induction l as [|h l IH]; intros g.
    - simpl. by rewrite app_nil_r.
    - change (join ":" (map hex16 (g :: h :: l))) with (hex16 g +:+ ":" +:+ join ":" (map hex16 (h :: l))).
      rewrite !as_bytes_app, IH, <- (group_text_S 1 l). reflexivity. }
  destruct gs as [|g gs]; [done|]. by rewrite H.
Qed.

(** What can follow the segments of a part: the end, a bracket, or [::]. *)
Definition ends_groups (rest : list Z) : Prop :=
  rest = [] \/ (exists r, rest = 93%Z :: r) \/ (exists r, rest = 58%Z :: 58%Z :: r).

Lemma ends_groups_hex rest : ends_groups rest -> ends_hex rest.
Proof. intros [-> |[[r ->]|[r ->]]]; simpl; auto. Qed.

Lemma group_text_ends_hex i gs rest : ends_hex rest -> ends_hex (group_text (S i) gs ++ rest).
Proof. intros H. destruct gs; simpl; auto. Qed.

(** Nothing is read where the segments end. *)
Lemma read_groups_end n i rest : ends_groups rest -> read_groups n i rest = ([], false, rest).
Proof.
  intros H. destruct n as [|n]; [done|]. cbn [read_groups].
  assert (read_separator 58 i read_ipv4_addr rest = None /\
          read_separator 58 i (read_number 16 4 65535 true) rest = None) as [-> ->].
  { destruct H as [-> |[[r ->]|[r ->]]], i; split; try done; by destruct r. }
  by destruct (_ <? _)%nat.
Qed.

Lemma read_groups_print gs : forall n i rest,
  Forall is_u16 gs -> ends_groups rest -> (length gs <= n)%nat ->
  read_groups n i (group_text i gs ++ rest) = (gs, false, rest).
Proof.
  induction gs as [|g gs IH]; intros n i rest Hgs Hr Hn; [by apply read_groups_end|].
  apply Forall_cons in Hgs as [Hg Hgs]. destruct n as [|n]; simpl in Hn; [lia|]. cbn [read_groups group_text].
  rewrite <- !app_assoc. set (tl := group_text (S i) gs ++ rest).
  assert (ends_hex tl) as Ht by (by apply group_text_ends_hex, ends_groups_hex).
  assert (read_separator 58 i read_ipv4_addr (match i with O => [] | S _ => [58%Z] end ++ hex_text g ++ tl) = None)
    as ->. { destruct i; simpl; by apply hex_no_ipv4. }
  assert (read_separator 58 i (read_number 16 4 65535 true)
    (match i with O => [] | S _ => [58%Z] end ++ hex_text g ++ tl) = Some (g, tl)) as ->.
  { destruct i; simpl; by apply read_hex. }
  destruct (_ <? _)%nat; unfold tl; by rewrite IH by (done || lia).
Qed.

(** ** The longest run of zeros *)

Lemma zero_run_replicate l : take (zero_run l) l = replicate (zero_run l) 0%Z /\ (zero_run l <= length l)%nat.
Proof.
  induction l as [|z l [IH1 IH2]]; [done|]. simpl. destruct (Z.eqb_spec z 0) as [-> |]; simpl; [|split; [done|lia]].
  by rewrite IH1; split; [|lia].
Qed.

Lemma longest_zeros_spec l : forall i s n, longest_zeros i l = (s, n) ->
  exists k, s = (i + k)%nat /\ take n (drop k l) = replicate n 0%Z /\ (k + n <= length l)%nat.
Proof.
  induction l as [|z l IH]; intros i s n H; simpl in H; [injection H as <- <-; exists 0%nat; simpl; split; [lia|by split]|].
  destruct (longest_zeros (S i) l) as [s' n'] eqn:E. destruct (zero_run_replicate (z :: l)) as [Hz Hl].
  destruct (_ <=? _)%nat; injection H as <- <-.
  - exists 0%nat. split; [lia|]. by split.
  - destruct (IH _ _ _ E) as (k & -> & Ht & Hk). exists (S k). split; [lia|]. split; [done|simpl; lia].
Qed.

(** ** Reading an address back *)

Lemma read_ipv6_mapped s6 s7 rest :
  is_u16 s6 -> is_u16 s7 -> rest = [] \/ (exists r, rest = 93%Z :: r) ->
  read_ipv6_addr (as_bytes ("::ffff:" +:+ ipv4_to_string (Ipv4 (s6 / 256) (s6 mod 256) (s7 / 256) (s7 mod 256)))
    ++ rest) = Some ([0; 0; 0; 0; 0; 65535; s6; s7]%Z, rest).
Proof.
  intros H6 H7 Hr. assert (forall s, is_u16 s -> is_u8 (s / 256) /\ is_u8 (s mod 256)) as Hb.
  { unfold is_u16, u16_max, is_u8, u8_max. intros s Hs. pose proof (Z.mod_pos_bound s 256 eq_refl).
    pose proof (Z.div_pos s 256). pose proof (Z.div_lt_upper_bound s 256 256). lia. }
  destruct (Hb _ H6), (Hb _ H7). set (a := Ipv4 _ _ _ _).
  assert (read_ipv4_addr (as_bytes (ipv4_to_string a) ++ rest) = Some (a, rest)) as Ha.
  { apply read_ipv4_addr_print; [unfold Ipv4_wf, Bytes, a; cbn [octets]; by rewrite !Forall_cons|]. by destruct Hr as [-> |[r ->]]. }
  rewrite as_bytes_app, <- app_assoc. set (t := as_bytes (ipv4_to_string a) ++ rest) in *.
  unfold read_ipv6_addr. rewrite (read_groups_end 8 0) by (right; right; by eexists).
  change (as_bytes "::ffff:" ++ t) with (58%Z :: 58%Z :: hex_text 65535 ++ 58%Z :: t).
  cbn [length Nat.eqb read_given_char Z.eqb Pos.eqb mbind option_bind Nat.sub Nat.add].
  cbn [read_groups Nat.ltb Nat.leb read_separator].
  rewrite hex_no_ipv4, read_hex by (done || simpl; auto).
  cbn [read_given_char Z.eqb Pos.eqb]. rewrite Ha. unfold a.
  cbn [length Nat.sub replicate app]. rewrite !(Z.mul_comm _ 256), <- !Z.div_mod by lia. done.
Qed.

Lemma read_ipv6_print segs rest :
  length segs = 8%nat -> Forall is_u16 segs -> rest = [] \/ (exists r, rest = 93%Z :: r) ->
  read_ipv6_addr (as_bytes (ipv6_to_string segs) ++ rest) = Some (segs, rest) /\
  read_ipv4_addr (as_bytes (ipv6_to_string segs) ++ rest) = None.
Proof.
  intros Hlen Hseg Hr.
  assert (ends_groups rest) as Hg by (destruct Hr as [|[r ->]]; [by left|right; left; by eexists]).
  destruct segs as [|s0 [|s1 [|s2 [|s3 [|s4 [|s5 [|s6 [|s7 [|]]]]]]]]]; try done. clear Hlen.
  unfold ipv6_to_string. destruct (_ && _) eqn:Em.
  - to_prop. subst. rewrite !Forall_cons in Hseg. destruct Hseg as (_ & _ & _ & _ & _ & _ & H6 & H7 & _).
    split; [by apply read_ipv6_mapped|done].
  - set (segs := [s0; s1; s2; s3; s4; s5; s6; s7]) in *.
    destruct (longest_zeros 0 segs) as [start n] eqn:El.
    destruct (longest_zeros_spec _ _ _ _ El) as (k & -> & Hz & Hk). cbn [Nat.add] in *.
    change (length segs) with 8%nat in Hk. destruct (Nat.ltb_spec 1 n).
    + rewrite !as_bytes_app, !fmt_segments_text. change (as_bytes "::") with [58%Z; 58%Z].
      rewrite <- !app_assoc. set (r := [58%Z; 58%Z] ++ _).
      assert (ends_groups r) as Hgr by (right; right; by eexists). split.
      * unfold read_ipv6_addr. rewrite read_groups_print; [|by apply Forall_take|done|rewrite length_take; simpl; lia].
        rewrite length_take. change (length segs) with 8%nat. rewrite Nat.min_l by lia.
        rewrite (proj2 (Nat.eqb_neq _ _)) by lia. unfold r. cbn [app read_given_char Z.eqb Pos.eqb mbind option_bind].
        rewrite read_groups_print; [|by apply Forall_drop|done|rewrite length_drop; simpl; lia].
        rewrite length_drop. change (length segs) with 8%nat. do 2 f_equal.
        rewrite <- (take_drop k segs) at 3. f_equal. rewrite <- (take_drop n (drop k segs)). rewrite drop_drop, Hz.
        do 2 f_equal. lia.
      * destruct (take k segs) as [|g gs] eqn:Eg; [done|]. cbn [group_text app]. rewrite <- app_assoc.
        apply hex_no_ipv4; [|by apply group_text_ends_hex, ends_groups_hex].
        pose proof (Forall_take _ k _ Hseg) as Hf. rewrite Eg in Hf. by apply Forall_cons in Hf as [? _].
    + rewrite fmt_segments_text. split.
      * unfold read_ipv6_addr. by rewrite read_groups_print.
      * cbn [group_text segs app]. rewrite <- app_assoc. apply Forall_cons in Hseg as [? _].
        apply hex_no_ipv4; [done|]. by apply (group_text_ends_hex 0 [s1; s2; s3; s4; s5; s6; s7]), ends_groups_hex.
Qed.

(** Every address is read back from its text. *)
Lemma parse_ip_to_string x : Ip_wf x -> parse_ip (ip_to_string x) = Some x.
Proof.
  destruct x as [a|segs]; [apply parse_ip_print|]. intros [Hl Hs]. unfold parse_ip. cbn [ip_to_string].
  destruct (read_ipv6_print segs [] Hl Hs ltac:(by left)) as [H6 H4]. rewrite app_nil_r in H6, H4.
  by rewrite H4, H6.
Qed.

Lemma port_text_read port : is_u16 port ->
  match read_number 10 (length (as_bytes (dec port))) u16_max true (as_bytes (dec port)) with
  | Some (n, []) => (n =? port)%Z
  | _ => false
  end = true.
Proof. revert port. apply u16_forall. by vm_compute. Qed.

Lemma read_port_print port : is_u16 port -> read_port (58%Z :: as_bytes (dec port)) = Some (port, []).
Proof.
  intros Hp. unfold read_port. cbn [read_given_char Z.eqb Pos.eqb mbind option_bind].
  pose proof (port_text_read port Hp) as H. destruct (read_number _ _ _ _ _) as [[n [|]]|]; try done. by to_prop; subst.
Qed.

(** The same for addresses with a port. *)
Lemma parse_socket_addr_to_string x :
  Ip_wf (ip x) -> is_u16 (sa_port x) -> parse_socket_addr (socket_addr_to_string x) = Some x.
Proof.
  destruct x as [a port]. cbn [ip sa_port]. intros Ha Hp. unfold parse_socket_addr, socket_addr_to_string. cbn [ip sa_port].
  destruct a as [a|segs].
  - rewrite !as_bytes_app. unfold read_socket_addr_v4. change (as_bytes ":" ++ ?l) with (58%Z :: l).
    rewrite read_ipv4_addr_print by done. cbn [mbind option_bind].
    change (as_bytes ":" ++ as_bytes (dec port)) with (58%Z :: as_bytes (dec port)).
    rewrite read_port_print by done. done.
  - destruct Ha as [Hl Hs]. rewrite !as_bytes_app. change (as_bytes "[") with [91%Z].
    change (as_bytes "]:" ++ as_bytes (dec port)) with (93%Z :: 58%Z :: as_bytes (dec port)).
    destruct (read_ipv6_print segs (93%Z :: 58%Z :: as_bytes (dec port)) Hl Hs ltac:(right; by eexists)) as [H6 _].
    unfold read_socket_addr_v6. cbn [app]. unfold read_socket_addr_v4.
    rewrite (read_ipv4_no_dot _ [] (91%Z :: as_bytes (ipv6_to_string segs) ++ 93%Z :: 58%Z :: as_bytes (dec port)))
      by done.
    cbn [mbind option_bind read_given_char Z.eqb Pos.eqb]. rewrite H6. cbn [mbind option_bind].
    cbn [read_scope_id read_given_char Z.eqb Pos.eqb mbind option_bind].
    rewrite read_port_print by done. done.
Qed.
