(* ===== verification/Protocol.v ===== *)
(** * Shared data types: [tfscale-core] protocol messages and [tfscale-net]

    One record per struct and one inductive type per enum of
    [crates/tfscale-core/src/protocol.rs] and [crates/tfscale-net/src/lib.rs].
    Field names carry a prefix of their struct, since the fields of all the
    structs share one name space here. *)

From Stdlib Require Import ZArith.
From stdpp Require Import prelude list strings gmap.
From S2P Require Import Prelude RustStd.

(** ** tfscale-net *)

Inductive BackendError : Type :=
| MissingCommand (m : message)
| CommandFailed (m : message)
| UnsupportedPlatform (m : message).

(** [Display for BackendError] *)
Definition prefixed (p : string) (m : message) : message :=
  match m with MText s => MText (p +:+ s) | MForeign q e => MForeign (p +:+ q) e end.
Definition BackendError_display (e : BackendError) : message :=
  match e with
  | MissingCommand m => prefixed "required command is missing: " m
  | CommandFailed m => prefixed "backend command failed: " m
  | UnsupportedPlatform m => prefixed "unsupported platform: " m
  end.

(** [BackendError::CommandFailed("...".to_string())] *)
Definition failed (s : string) : BackendError := CommandFailed (MText s).
(** [map_err(|error| BackendError::CommandFailed(error.to_string()))] *)
Definition failed_with (e : foreign_error) : BackendError := CommandFailed (MForeign EmptyString e).

Inductive BackendType : Type := Tfscale | WireGuard | EasyTier | CustomType (s : string).

Definition BackendType_as_str (t : BackendType) : string :=
  match t with
  | Tfscale => "tfscale"
  | WireGuard => "wireguard"
  | EasyTier => "easytier"
  | CustomType value => value
  end.

Record BackendCapabilities : Type := mkBackendCapabilities {
  supports_relay : bool;
  supports_nat_traversal : bool;
  supports_kernel_tun : bool;
  supports_userspace_tun : bool;
  supports_dynamic_peers : bool;
  supports_static_peers : bool;
}.

Record BackendCredential : Type := mkBackendCredential { bc_public : string }.

Record LocalBackendConfig : Type := mkLocalBackendConfig {
  lc_device_id : string;
  lc_interface_name : string;
  lc_overlay_ip : Ipv4Addr;
  lc_listen_port : Z;
}.

Inductive EndpointKind : Type := Lan | Public | Ipv6Kind | Relay.
Inductive TransportProtocol : Type := Udp | Tcp.

Record Endpoint : Type := mkEndpoint {
  ep_kind : EndpointKind;
  ep_address : IpAddr;
  ep_port : Z;
  ep_protocol : TransportProtocol;
}.

Record PeerConfig : Type := mkPeerConfig {
  pc_device_id : string;
  pc_hostname : string;
  pc_overlay_ip : Ipv4Addr;
  pc_public_credential : BackendCredential;
  pc_endpoints : list Endpoint;
  pc_allowed_routes : list string;
}.

Record RelayConfig : Type := mkRelayConfig {
  rc_relay_id : string;
  rc_url : string;
  rc_region : string;
}.

Inductive PeerPathDiagnosticKind : Type := DiagUnknown | DiagDirect | DiagRelay.

Record PeerPathDiagnostic : Type := mkPeerPathDiagnostic {
  pd_device_id : string;
  pd_path : PeerPathDiagnosticKind;
  pd_endpoint : option string;
  pd_rtt_ms : option Z;
  pd_failures : Z;
  pd_tx_packets : Z;
  pd_rx_packets : Z;
}.

Record BackendStatus : Type := mkBackendStatus {
  bs_backend_type : BackendType;
  bs_interface_name : string;
  bs_healthy : bool;
  bs_message : option string;
  bs_peers : list PeerPathDiagnostic;
}.

Record PublicEndpointProbe : Type := mkPublicEndpointProbe { observed_endpoint : Endpoint }.

(** ** tfscale-core *)

Record DnsRecord : Type := mkDnsRecord {
  dns_device_id : string;
  dns_name : string;
  record_type : string;
  dns_value : string;
}.

Record EndpointPayload : Type := mkEndpointPayload {
  epp_kind : string;
  epp_address : string;
  epp_port : Z;
  epp_protocol : string;
  epp_source : option string;
  epp_priority : option Z;
  epp_expires_at : option string;
}.

Record DeviceSummary : Type := mkDeviceSummary {
  ds_id : string;
  ds_hostname : string;
  ds_ipv4 : string;
  ds_os : string;
  ds_arch : string;
  ds_backend_type : string;
  ds_last_seen_at : option string;
}.

Record CreateAuthKeyResponse : Type := mkCreateAuthKeyResponse {
  cak_id : string;
  cak_key : string;
}.

Record RegisterDeviceRequest : Type := mkRegisterDeviceRequest {
  rd_auth_key : string;
  rd_hostname : string;
  rd_machine_key : string;
  rd_backend_type : string;
  rd_backend_public_credential : string;
  rd_os : string;
  rd_arch : string;
  rd_client_version : string;
}.

Record RegisterDeviceResponse : Type := mkRegisterDeviceResponse {
  rr_device_id : string;
  rr_node_key : string;
  rr_ipv4 : string;
  rr_network_id : string;
  rr_poll_interval_seconds : Z;
}.

Record BackendStatusPayload : Type := mkBackendStatusPayload {
  bsp_backend_type : string;
  bsp_interface : string;
  bsp_healthy : bool;
}.

Record HeartbeatRequest : Type := mkHeartbeatRequest {
  hb_device_id : string;
  hb_node_key : string;
  hb_endpoints : list EndpointPayload;
  hb_backend_status : BackendStatusPayload;
}.

Record HeartbeatResponse : Type := mkHeartbeatResponse {
  hbr_ok : bool;
  hbr_network_map_version : Z;
}.

Record EndpointProbeRequest : Type := mkEndpointProbeRequest {
  epq_device_id : string;
  epq_node_key : string;
  epq_protocol : string;
}.

Record RenameDeviceRequest : Type := mkRenameDeviceRequest { rn_hostname : string }.

Record EndpointProbeResponse : Type := mkEndpointProbeResponse {
  epr_observed_address : string;
  epr_observed_port : Z;
  epr_protocol : string;
  epr_udp_probe_address : option string;
  epr_udp_probe_port : option Z;
}.

Record RelayMetadata : Type := mkRelayMetadata {
  rm_relay_id : string;
  rm_url : string;
  rm_region : string;
  rm_healthy : bool;
}.

Record NetworkMapSelf : Type := mkNetworkMapSelf {
  nms_device_id : string;
  nms_hostname : string;
  nms_ipv4 : string;
  nms_backend_type : string;
}.

Record NetworkMapPeer : Type := mkNetworkMapPeer {
  nmp_device_id : string;
  nmp_hostname : string;
  nmp_ipv4 : string;
  nmp_backend_type : string;
  nmp_backend_public_credential : string;
  nmp_endpoints : list EndpointPayload;
  nmp_allowed_routes : list string;
}.

Record NetworkMapResponse : Type := mkNetworkMapResponse {
  nm_network_map_version : Z;
  nm_self_device : NetworkMapSelf;
  nm_peers : list NetworkMapPeer;
  nm_dns_records : list DnsRecord;
  nm_relays : list RelayMetadata;
}.

Inductive RelayMessage : Type :=
| RelayRegister (device_id node_key : string)
| RelayFrame (source_device_id destination_device_id payload : string)
| RelayError (msg : string).

(** ** Decidable equality (the [#[derive(Eq, PartialEq)]] of the sources) *)

#[export] Instance BackendError_eq_dec : EqDecision BackendError.
Proof. solve_decision. Defined.
#[export] Instance EndpointKind_eq_dec : EqDecision EndpointKind.
Proof. solve_decision. Defined.
#[export] Instance TransportProtocol_eq_dec : EqDecision TransportProtocol.
Proof. solve_decision. Defined.
#[export] Instance Endpoint_eq_dec : EqDecision Endpoint.
Proof. solve_decision. Defined.
#[export] Instance PeerPathDiagnosticKind_eq_dec : EqDecision PeerPathDiagnosticKind.
Proof. solve_decision. Defined.
#[export] Instance DnsRecord_eq_dec : EqDecision DnsRecord.
Proof. solve_decision. Defined.
#[export] Instance EndpointPayload_eq_dec : EqDecision EndpointPayload.
Proof. solve_decision. Defined.
#[export] Instance RelayMessage_eq_dec : EqDecision RelayMessage.
Proof. solve_decision. Defined.
#[export] Instance RelayConfig_eq_dec : EqDecision RelayConfig.
Proof. solve_decision. Defined.
