(* ===== verification/Frame.v ===== *)
(** * Wire format: frames ([frame.rs]) and IPv4 packets ([packet.rs])

    A frame is a 60-byte header (version, type, flags, a reserved byte, source
    and destination device ids, nonce) followed by the ciphertext. *)

From Stdlib Require Import ZArith Lia.
From stdpp Require Import prelude list strings gmap.
From S2P Require Import Prelude RustStd Protocol.

(** ** Constants and data *)

Definition FRAME_VERSION : Z := 1.
Definition FRAME_TYPE_DATA : Z := 1.
Definition FRAME_TYPE_PROBE : Z := 2.
Definition FRAME_TYPE_PROBE_RESPONSE : Z := 3.
Definition HEADER_LEN : nat := 60.
Definition DEVICE_ID_LEN : nat := 16.
Definition NONCE_LEN : nat := 24.

Definition FrameDeviceId : Type := list Z.

Record FrameHeader : Type := mkFrameHeader {
  version : Z;
  message_type : Z;
  flags : Z;
  source : FrameDeviceId;
  destination : FrameDeviceId;
  nonce : list Z;
}.

Record EncodedFrame : Type := mkEncodedFrame {
  header : FrameHeader;
  ciphertext : list Z;
}.

#[export] Instance FrameHeader_eq_dec : EqDecision FrameHeader.
Proof. solve_decision. Defined.

(** The typing of the source: the fields are [u8]s and arrays of the given
    lengths. *)
Definition wf_id (i : FrameDeviceId) : Prop := length i = DEVICE_ID_LEN /\ Bytes i.
Definition wf_nonce (n : list Z) : Prop := length n = NONCE_LEN /\ Bytes n.
Definition wf_header (h : FrameHeader) : Prop :=
  is_u8 (version h) /\ is_u8 (message_type h) /\ is_u8 (flags h) /\
  wf_id (source h) /\ wf_id (destination h) /\ wf_nonce (nonce h).

#[export] Instance wf_id_dec i : Decision (wf_id i).
Proof. unfold wf_id. apply _. Defined.
#[export] Instance wf_nonce_dec n : Decision (wf_nonce n).
Proof. unfold wf_nonce. apply _. Defined.
#[export] Instance wf_header_dec h : Decision (wf_header h).
Proof. unfold wf_header. apply _. Defined.

(** ** Device ids *)

Section device_id.
(** [Uuid::parse_str] of the [uuid] crate. *)
Context (uuid_parse : string -> option (list Z)).

Definition from_device_id (value : string) : res BackendError FrameDeviceId :=
  encoded ← ok_or (failed "device ID is missing dev_ prefix") (strip_prefix "dev_" value);
  ok_or (failed_with UuidError) (uuid_parse encoded).
End device_id.

(** ** Headers *)

Definition FrameHeader_new (source destination : FrameDeviceId) (nonce : list Z)
    (message_type : Z) : FrameHeader :=
  mkFrameHeader FRAME_VERSION message_type 0 source destination nonce.

Definition FrameHeader_data (source destination : FrameDeviceId) (nonce : list Z) : FrameHeader :=
  FrameHeader_new source destination nonce FRAME_TYPE_DATA.

Definition known_type (t : Z) : bool :=
  (t =? FRAME_TYPE_DATA)%Z || (t =? FRAME_TYPE_PROBE)%Z || (t =? FRAME_TYPE_PROBE_RESPONSE)%Z.

(** [output[i..j].copy_from_slice(src)]: panics when the lengths differ. *)
Definition copy_into {E} (output : list Z) (i j : nat) (src : list Z) : res E (list Z) :=
  if decide (j <= length output /\ j - i = length src /\ i <= j)%nat
  then Ok (take i output ++ src ++ drop j output) else Panic.

Definition FrameHeader_encode (self : FrameHeader) : res BackendError (list Z) :=
  if negb (version self =? FRAME_VERSION)%Z then
    Err (failed ("unsupported frame version: " +:+ dec (version self)))
  else if negb (known_type (message_type self)) then
    Err (failed ("unsupported frame message type: " +:+ dec (message_type self)))
  else if negb (flags self =? 0)%Z then
    Err (failed ("unsupported frame flags: " +:+ dec (flags self)))
  else
    let output := replicate HEADER_LEN 0%Z in
    let output := <[0%nat := version self]> output in
    let output := <[1%nat := message_type self]> output in
    let output := <[2%nat := flags self]> output in
    let output := <[3%nat := 0%Z]> output in
    output ← copy_into output 4 20 (source self);
    output ← copy_into output 20 36 (destination self);
    copy_into output 36 60 (nonce self).

Definition FrameHeader_decode (input : list Z) : res BackendError FrameHeader :=
  if (length input <? HEADER_LEN)%nat then
    Err (failed ("malformed frame length: " +:+ dec (Z.of_nat (length input))))
  else
    b0 ← index input 0;
    if negb (b0 =? FRAME_VERSION)%Z then
      Err (failed ("unsupported frame version: " +:+ dec b0))
    else
      b1 ← index input 1;
      if negb (known_type b1) then
        Err (failed ("unsupported frame message type: " +:+ dec b1))
      else
        b2 ← index input 2;
        if negb (b2 =? 0)%Z then Err (failed ("unsupported frame flags: " +:+ dec b2))
        else
          b3 ← index input 3;
          if negb (b3 =? 0)%Z then Err (failed "reserved frame byte must be zero")
          else
            source ← slice input 4 20;
            destination ← slice input 20 36;
            nonce ← slice input 36 60;
            Ok (mkFrameHeader b0 b1 b2 source destination nonce).

Definition EncodedFrame_encode (self : EncodedFrame) : res BackendError (list Z) :=
  h ← FrameHeader_encode (header self);
  Ok (h ++ ciphertext self).

Definition EncodedFrame_decode (input : list Z) : res BackendError EncodedFrame :=
  header ← FrameHeader_decode input;
  ct ← slice input HEADER_LEN (length input);
  Ok (mkEncodedFrame header ct).

(** ** IPv4 packets *)

Definition IPV4_MIN_HEADER_LEN : nat := 20.
Definition IPV4_VERSION : Z := 4.
Definition IPV4_DESTINATION_OFFSET : nat := 16.

Definition ipv4_destination (packet : list Z) : res BackendError Ipv4Addr :=
  if (length packet <? IPV4_MIN_HEADER_LEN)%nat then
    Err (failed ("packet is too short for IPv4 header: " +:+ dec (Z.of_nat (length packet))))
  else
    b0 ← index packet 0;
    let version := Z.shiftr b0 4 in
    if negb (version =? IPV4_VERSION)%Z then
      Err (failed ("unsupported packet IP version: " +:+ dec version))
    else
      let header_len := (Z.land b0 15 * 4)%Z in
      if (header_len <? Z.of_nat IPV4_MIN_HEADER_LEN)%Z ||
         (Z.of_nat (length packet) <? header_len)%Z then
        Err (failed "invalid IPv4 header length")
      else
        a ← index packet IPV4_DESTINATION_OFFSET;
        b ← index packet (IPV4_DESTINATION_OFFSET + 1);
        c ← index packet (IPV4_DESTINATION_OFFSET + 2);
        d ← index packet (IPV4_DESTINATION_OFFSET + 3);
        Ok (Ipv4 a b c d).

(** ** Lemmas *)

(** The accepted headers: what [encode] and [decode] both insist on. *)
Definition accepted_header (h : FrameHeader) : Prop :=
  version h = FRAME_VERSION /\ known_type (message_type h) = true /\ flags h = 0%Z.

(** The 60 bytes of an accepted header. *)
Definition header_bytes (h : FrameHeader) : list Z :=
  [version h; message_type h; flags h; 0%Z] ++ source h ++ destination h ++ nonce h.

Lemma length_header_bytes h : wf_header h -> length (header_bytes h) = HEADER_LEN.
Proof.
  intros (_ & _ & _ & [Hs _] & [Hd _] & [Hn _]). unfold header_bytes.
  rewrite !length_app, Hs, Hd, Hn. done.
Qed.

Lemma copy_into_ok {E} (i j : nat) (pre mid post src : list Z) :
  i = length pre -> j = (i + length mid)%nat -> length src = length mid ->
  @copy_into E (pre ++ mid ++ post) i j src = Ok (pre ++ src ++ post).
Proof.
  intros -> -> H. unfold copy_into. rewrite decide_True.
  - rewrite take_app_length. f_equal. f_equal. f_equal.
    rewrite app_assoc, drop_app_length'; [done|]. by rewrite length_app.
  - rewrite !length_app. lia.
Qed.

Lemma FrameHeader_encode_ok h :
  wf_header h -> accepted_header h -> FrameHeader_encode h = Ok (header_bytes h).
Proof.
  intros (_ & _ & _ & [Hs _] & [Hd _] & [Hn _]) (Hv & Ht & Hf).
  unfold DEVICE_ID_LEN, NONCE_LEN in *.
  unfold FrameHeader_encode. rewrite Hv, Ht, Hf. cbn [negb Z.eqb Pos.eqb FRAME_VERSION].
  set (hd := [1%Z; message_type h; 0%Z; 0%Z]).
  change (<[3%nat:=0%Z]> _) with (hd ++ replicate 16 0%Z ++ (replicate 16 0%Z ++ replicate 24 0%Z)).
  rewrite (copy_into_ok 4 20 hd (replicate 16 0%Z)) by done. cbn [mbind res_bind].
  rewrite (app_assoc hd (source h)).
  rewrite (copy_into_ok 20 36 (hd ++ source h) (replicate 16 0%Z))
    by (rewrite ?length_app, ?Hs; done). cbn [mbind res_bind].
  rewrite (app_assoc (hd ++ source h) (destination h)).
  rewrite <- (app_nil_r (replicate 24 0%Z)).
  rewrite (copy_into_ok 36 60 ((hd ++ source h) ++ destination h) (replicate 24 0%Z))
    by (rewrite ?length_app, ?Hs, ?Hd; done).
  unfold header_bytes. rewrite Hv, Hf, app_nil_r. by rewrite <- !app_assoc.
Qed.

Lemma FrameHeader_encode_inv h out :
  FrameHeader_encode h = Ok out -> accepted_header h.
Proof.
  unfold FrameHeader_encode, accepted_header. intros H.
  destruct (version h =? FRAME_VERSION)%Z eqn:E1; [|done].
  destruct (known_type (message_type h)) eqn:E2; [|done].
  destruct (flags h =? 0)%Z eqn:E3; [|done]. to_prop. done.
Qed.

(** The decoder on a buffer of at least 60 bytes, split at the field borders. *)
Lemma FrameHeader_decode_app h rest :
  wf_header h -> accepted_header h ->
  FrameHeader_decode (header_bytes h ++ rest) = Ok h.
Proof.
  intros Hwf (Hv & Ht & Hf). pose proof (length_header_bytes h Hwf) as HL.
  destruct Hwf as (_ & _ & _ & [Hs _] & [Hd _] & [Hn _]).
  unfold FrameHeader_decode. rewrite (proj2 (Nat.ltb_ge _ _)) by (rewrite length_app, HL; lia).
  unfold slice. rewrite !decide_True by (rewrite length_app, HL; unfold HEADER_LEN; lia).
  unfold header_bytes. cbn [app index lookup list_lookup mbind res_bind].
  rewrite Hv, Ht, Hf. cbn [negb Z.eqb Pos.eqb FRAME_VERSION drop].
  rewrite <- !app_assoc.
  rewrite drop_0, (take_app_length' (source h)) by (rewrite Hs; done).
  rewrite (drop_app_length' (source h)) by (rewrite Hs; done).
  rewrite (take_app_length' (destination h)) by (rewrite Hd; done).
  rewrite (app_assoc (source h)).
  rewrite (drop_app_length' (source h ++ destination h)) by (rewrite length_app, Hs, Hd; done).
  rewrite (take_app_length' (nonce h)) by (rewrite Hn; done).
  destruct h; simpl in *; by subst.
Qed.

(** What a successful decode says about the input. *)
Lemma FrameHeader_decode_inv input h :
  Bytes input -> FrameHeader_decode input = Ok h ->
  wf_header h /\ accepted_header h /\ input = header_bytes h ++ drop HEADER_LEN input.
Proof.
  intros HB H. unfold FrameHeader_decode in H.
  destruct (length input <? HEADER_LEN)%nat eqn:EL; [done|]. to_prop.
  destruct input as [|b0 [|b1 [|b2 [|b3 rest]]]]; try (simpl in EL; unfold HEADER_LEN in EL; lia).
  cbn [index lookup list_lookup mbind res_bind] in H.
  destruct (b0 =? FRAME_VERSION)%Z eqn:E0; [|done].
  destruct (known_type b1) eqn:E1; [|done].
  destruct (b2 =? 0)%Z eqn:E2; [|done].
  destruct (b3 =? 0)%Z eqn:E3; [|done]. cbn [negb] in H. to_prop. subst b2 b3 b0.
  unfold slice in H. unfold HEADER_LEN in EL.
  rewrite !decide_True in H by lia. cbn [mbind res_bind] in H. injection H as <-.
  inversion HB as [|? ? _ HB1]; inversion HB1 as [|? ? Hb1 HB2]; inversion HB2 as [|? ? _ HB3];
    inversion HB3 as [|? ? _ HB4]; subst.
  simpl in EL. cbn [drop Nat.sub]. split; [|split; [done|]].
  - unfold wf_header, wf_id, wf_nonce, DEVICE_ID_LEN, NONCE_LEN.
    cbn [version message_type flags source destination nonce].
    rewrite !length_take, !length_drop.
    repeat split; auto with tfs; try (unfold is_u8, u8_max, FRAME_VERSION in *; lia).
  - unfold header_bytes. cbn [version message_type flags source destination nonce app].
    do 4 f_equal. rewrite <- !app_assoc.
    rewrite <- (take_drop 16 rest) at 1. f_equal.
    rewrite <- (take_drop 16 (drop 16 rest)) at 1. f_equal.
    rewrite !drop_drop. rewrite <- (take_drop 24 (drop (16 + 16) rest)) at 1. f_equal.
    by rewrite drop_drop.
Qed.

Lemma FrameHeader_decode_total input : FrameHeader_decode input <> Panic.
Proof.
  unfold FrameHeader_decode. destruct (length input <? HEADER_LEN)%nat eqn:EL; [done|].
  to_prop. unfold HEADER_LEN in EL.
  destruct (@index_lt BackendError _ input 0) as (b0 & -> & _); [lia|].
  destruct (@index_lt BackendError _ input 1) as (b1 & -> & _); [lia|].
  destruct (@index_lt BackendError _ input 2) as (b2 & -> & _); [lia|].
  destruct (@index_lt BackendError _ input 3) as (b3 & -> & _); [lia|].
  cbn [mbind res_bind]. rewrite !slice_ok by lia. cbn [mbind res_bind].
  repeat split_guard; done.
Qed.

Lemma EncodedFrame_decode_header input f :
  EncodedFrame_decode input = Ok f -> FrameHeader_decode input = Ok (header f).
Proof.
  unfold EncodedFrame_decode. destruct (FrameHeader_decode input); simpl; try done.
  unfold slice. split_guard; simpl; [|done]. by intros [= <-].
Qed.

Lemma frame_encode_decode f :
  wf_header (header f) -> accepted_header (header f) ->
  EncodedFrame_decode (header_bytes (header f) ++ ciphertext f) = Ok f.
Proof.
  intros Hwf Ha. pose proof (length_header_bytes _ Hwf) as HL. unfold EncodedFrame_decode.
  rewrite FrameHeader_decode_app by done. cbn [mbind res_bind].
  rewrite slice_ok by (rewrite length_app, HL; lia). cbn [mbind res_bind].
  rewrite length_app, HL, (drop_app_length' (header_bytes (header f))) by done.
  rewrite take_ge by lia. by destruct f.
Qed.

Lemma frame_decode_inv input f :
  Bytes input -> EncodedFrame_decode input = Ok f ->
  wf_header (header f) /\ accepted_header (header f) /\
  input = header_bytes (header f) ++ ciphertext f.
Proof.
  intros HB H. pose proof (EncodedFrame_decode_header _ _ H) as Hh.
  destruct (FrameHeader_decode_inv _ _ HB Hh) as (Hwf & Ha & Hin).
  pose proof (length_header_bytes _ Hwf) as HL. split_and!; [done..|].
  unfold EncodedFrame_decode in H. rewrite Hh in H. cbn [mbind res_bind] in H.
  rewrite slice_ok in H by (try lia; rewrite Hin, length_app, HL; lia). cbn [mbind res_bind] in H.
  rewrite take_ge in H by (rewrite length_drop; lia). injection H as H.
  rewrite <- H. cbn [ciphertext]. by rewrite H.
Qed.

Lemma EncodedFrame_decode_total input : EncodedFrame_decode input <> Panic.
Proof.
  unfold EncodedFrame_decode. pose proof (FrameHeader_decode_total input) as HT.
  destruct (FrameHeader_decode input) as [h| |] eqn:E; try done. cbn [mbind res_bind].
  unfold FrameHeader_decode in E. destruct (length input <? HEADER_LEN)%nat eqn:EL; [done|].
  to_prop. by rewrite slice_ok by lia.
Qed.

#[export] Hint Resolve FrameHeader_decode_total EncodedFrame_decode_total : tfs.

(** ** Properties *)

(** C24: encoding a frame whose header is accepted succeeds, yields the 60
    header bytes followed by the ciphertext, and decoding returns the frame. *)
Theorem frame_roundtrip f :
  wf_header (header f) -> accepted_header (header f) ->
  exists out, EncodedFrame_encode f = Ok out /\
    length out = (HEADER_LEN + length (ciphertext f))%nat /\
    EncodedFrame_decode out = Ok f.
Proof.
  intros Hwf Ha. exists (header_bytes (header f) ++ ciphertext f).
  unfold EncodedFrame_encode. rewrite FrameHeader_encode_ok by done.
  split_and!; [done|by rewrite length_app, length_header_bytes|by apply frame_encode_decode].
Qed.

Lemma frame_roundtrip_witness :
  exists out,
    EncodedFrame_encode (mkEncodedFrame
      (FrameHeader_new (replicate 16 1%Z) (replicate 16 2%Z) (replicate 24 3%Z) FRAME_TYPE_PROBE)
      [9%Z; 8%Z]) = Ok out /\ length out = 62%nat /\
    EncodedFrame_decode out = Ok (mkEncodedFrame
      (FrameHeader_new (replicate 16 1%Z) (replicate 16 2%Z) (replicate 24 3%Z) FRAME_TYPE_PROBE)
      [9%Z; 8%Z]).
Proof.
  apply (frame_roundtrip (mkEncodedFrame
      (FrameHeader_new (replicate 16 1%Z) (replicate 16 2%Z) (replicate 24 3%Z) FRAME_TYPE_PROBE)
      [9%Z; 8%Z])).
  - by_decide.
  - by vm_compute.
Defined.

(** The wire format is canonical: a byte string that decodes is exactly
    the encoding of the frame it decodes to, so no two byte strings decode to
    the same frame. *)
Theorem frame_decode_canonical input f :
  Bytes input -> EncodedFrame_decode input = Ok f -> EncodedFrame_encode f = Ok input.
Proof.
  intros HB H. destruct (frame_decode_inv _ _ HB H) as (Hwf & Ha & ->).
  unfold EncodedFrame_encode. by rewrite FrameHeader_encode_ok.
Qed.

Lemma frame_decode_canonical_witness :
  EncodedFrame_encode (mkEncodedFrame
      (FrameHeader_data (replicate 16 7%Z) (replicate 16 8%Z) (replicate 24 9%Z)) [5%Z])
  = Ok ([1; 1; 0; 0]%Z ++ replicate 16 7%Z ++ replicate 16 8%Z ++ replicate 24 9%Z ++ [5%Z]).
Proof.
  apply (frame_decode_canonical
    ([1; 1; 0; 0]%Z ++ replicate 16 7%Z ++ replicate 16 8%Z ++ replicate 24 9%Z ++ [5%Z])).
  - by_decide.
  - reflexivity.
Defined.

(** [EncodedFrame::decode] is total on arbitrary untrusted bytes (it never
    indexes out of range) and accepts exactly the buffers of at least 60 bytes
    that start with version 1, a known message type, zero flags and a zero
    reserved byte. *)
Theorem frame_decode_total input :
  EncodedFrame_decode input <> Panic /\
  ((exists f, EncodedFrame_decode input = Ok f) <->
   (HEADER_LEN <= length input)%nat /\
   exists t, take 4 input = [FRAME_VERSION; t; 0%Z; 0%Z] /\ known_type t = true).
Proof.
  unfold EncodedFrame_decode.
  destruct (decide (HEADER_LEN <= length input)%nat) as [HL|HL].
  - rewrite slice_ok by lia.
    split. { pose proof (FrameHeader_decode_total input). by destruct (FrameHeader_decode input). }
    unfold FrameHeader_decode. rewrite (proj2 (Nat.ltb_ge _ _)) by lia. unfold HEADER_LEN in *.
    rewrite !slice_ok by lia.
    destruct input as [|b0 [|b1 [|b2 [|b3 rest]]]]; try (simpl in HL; lia).
    cbn [index lookup list_lookup mbind res_bind take].
    split.
    + intros [f Hf]. split; [done|]. exists b1.
      destruct (b0 =? FRAME_VERSION)%Z eqn:E0; [|done]. destruct (known_type b1) eqn:E1; [|done].
      destruct (b2 =? 0)%Z eqn:E2; [|done]. destruct (b3 =? 0)%Z eqn:E3; [|done].
      to_prop. by subst.
    + intros (_ & t & [= -> -> -> ->] & Ht). rewrite Ht. simpl. by eexists.
  - unfold FrameHeader_decode. rewrite (proj2 (Nat.ltb_lt _ _)) by lia.
    split; [done|]. split; [by intros [? ?]|]. intros [? _]. lia.
Qed.

(** [ipv4_destination] is total on arbitrary bytes and returns bytes 16 to
    19 exactly for packets with IP version 4, a header length of 20 to 60
    bytes, and at least that many bytes. *)
Theorem ipv4_destination_spec packet dst :
  ipv4_destination packet <> Panic /\
  (ipv4_destination packet = Ok dst <->
   exists b0, packet !! 0%nat = Some b0 /\ Z.shiftr b0 4 = IPV4_VERSION /\
     (20 <= Z.land b0 15 * 4 <= Z.of_nat (length packet))%Z /\
     take 4 (drop IPV4_DESTINATION_OFFSET packet) = octets dst).
Proof.
  unfold ipv4_destination.
  destruct (length packet <? IPV4_MIN_HEADER_LEN)%nat eqn:EL; to_prop;
    unfold IPV4_MIN_HEADER_LEN, IPV4_DESTINATION_OFFSET in *.
  { split; [done|]. split; [done|]. intros (b0 & _ & _ & H & _).
    exfalso. lia. }
  destruct (@index_lt BackendError _ packet 0) as (b0 & -> & Hb0); [lia|].
  destruct (@index_lt BackendError _ packet 16) as (a & -> & Ha); [lia|].
  destruct (@index_lt BackendError _ packet (16 + 1)) as (b & -> & Hb); [lia|].
  destruct (@index_lt BackendError _ packet (16 + 2)) as (c & -> & Hc); [lia|].
  destruct (@index_lt BackendError _ packet (16 + 3)) as (d & -> & Hd); [lia|].
  cbn [mbind res_bind]. split; [repeat split_guard; done|].
  assert (take 4 (drop 16 packet) = [a; b; c; d]) as Htake.
  { rewrite (drop_S _ a), (drop_S _ b), (drop_S _ c), (drop_S _ d) by done. done. }
  split.
  - intros H. destruct (Z.shiftr b0 4 =? IPV4_VERSION)%Z eqn:Ev; [|done].
    destruct (_ || _) eqn:Eh; [done|]. injection H as <-. to_prop.
    exists b0. split_and!; [done|done|lia|lia|done].
  - intros (b0' & E & Hv & Hlen & Ho). assert (b0' = b0) as -> by congruence.
    rewrite Hv. cbn [negb Z.eqb Pos.eqb IPV4_VERSION].
    rewrite (proj2 (Z.ltb_ge _ _)), (proj2 (Z.ltb_ge _ _)) by lia. simpl.
    rewrite Htake in Ho. destruct dst. simpl in Ho. by simplify_eq.
Qed.
