(* ===== verification/Nonce.v ===== *)
(** * Nonces and the replay window ([nonce.rs])

    The sender numbers its frames with a 64-bit counter inside a 24-byte nonce;
    the receiver remembers the highest counter accepted and a 64-bit bitmap of
    the counters at most 63 behind it. *)

From Stdlib Require Import ZArith Lia.
From stdpp Require Import prelude list strings gmap.
From S2P Require Import Prelude RustStd Protocol Frame.

Definition DIRECTION_PREFIX_LEN : nat := 8.
Definition SESSION_SALT_LEN : nat := 8.
Definition COUNTER_LEN : nat := 8.
Definition REPLAY_WINDOW_BITS : Z := 64.

(** ** Sender *)

Record SendNonceState : Type := mkSendNonceState {
  direction_prefix : list Z;
  session_salt : list Z;
  counter : Z;
}.

Definition wf_send (s : SendNonceState) : Prop :=
  length (direction_prefix s) = DIRECTION_PREFIX_LEN /\ Bytes (direction_prefix s) /\
  length (session_salt s) = SESSION_SALT_LEN /\ Bytes (session_salt s) /\ is_u64 (counter s).

Definition SendNonceState_with_salt (direction_prefix session_salt : list Z) : SendNonceState :=
  mkSendNonceState direction_prefix session_salt 0.

(** [random] is what [getrandom::fill] does: eight bytes, or its error. *)
Definition SendNonceState_new (random : option (list Z)) (direction_prefix : list Z)
    : res BackendError SendNonceState :=
  session_salt ← ok_or (failed_with RandomError) random;
  Ok (mkSendNonceState direction_prefix session_salt 0).

Definition SendNonceState_next (self : SendNonceState)
    : res BackendError (list Z) * SendNonceState :=
  if (counter self =? u64_max)%Z then
    (Err (failed "send nonce counter exhausted"), self)
  else
    let nonce := direction_prefix self ++ session_salt self ++ to_be_bytes 8 (counter self) in
    (Ok nonce,
     mkSendNonceState (direction_prefix self) (session_salt self) (counter self + 1)).

(** ** Receiver *)

Record ReplayWindow : Type := mkReplayWindow {
  highest : option Z;
  seen : Z;
}.

Definition ReplayWindow_default : ReplayWindow := mkReplayWindow None 0.

Definition nonce_counter (nonce : list Z) : Z :=
  from_be_bytes (drop (DIRECTION_PREFIX_LEN + SESSION_SALT_LEN) nonce).

Definition ReplayWindow_accept (self : ReplayWindow) (nonce : list Z)
    : res BackendError unit * ReplayWindow :=
  let counter := nonce_counter nonce in
  match highest self with
  | None => (Ok tt, mkReplayWindow (Some counter) 1)
  | Some highest =>
      if (highest <? counter)%Z then
        let shift := (counter - highest)%Z in
        let seen' :=
          if (REPLAY_WINDOW_BITS <=? shift)%Z then 1%Z
          else Z.lor (wrap64 (Z.shiftl (seen self) shift)) 1 in
        (Ok tt, mkReplayWindow (Some counter) seen')
      else
        let behind := (highest - counter)%Z in
        if (REPLAY_WINDOW_BITS <=? behind)%Z then (Err (failed "stale frame nonce"), self)
        else
          let bit := Z.shiftl 1 behind in
          if negb (Z.land (seen self) bit =? 0)%Z then
            (Err (failed "replayed frame nonce"), self)
          else (Ok tt, mkReplayWindow (Some highest) (Z.lor (seen self) bit))
  end.

(** ** Specification

    The receiver's contract, on the set of counters accepted so far: refuse
    what is 64 or more behind an accepted counter, refuse what was accepted
    before, accept everything else. *)

Inductive verdict : Type := Fresh | Stale | Replayed.

Definition is_stale (accepted : gset Z) (c : Z) : Prop :=
  set_Exists (fun h => c + REPLAY_WINDOW_BITS <= h)%Z accepted.
#[export] Instance is_stale_dec accepted c : Decision (is_stale accepted c).
Proof. unfold is_stale. apply _. Defined.

Definition window_spec (accepted : gset Z) (c : Z) : verdict * gset Z :=
  if decide (is_stale accepted c) then (Stale, accepted)
  else if decide (c ∈ accepted) then (Replayed, accepted)
  else (Fresh, {[c]} ∪ accepted).

Definition verdict_result (v : verdict) : res BackendError unit :=
  match v with
  | Fresh => Ok tt
  | Stale => Err (failed "stale frame nonce")
  | Replayed => Err (failed "replayed frame nonce")
  end.

(** The state of the window represents the set of accepted counters. *)
Definition represents (w : ReplayWindow) (accepted : gset Z) : Prop :=
  match highest w with
  | None => accepted = ∅
  | Some h =>
      h ∈ accepted /\ set_Forall (fun c => c <= h)%Z accepted /\
      forall i, (0 <= i)%Z -> Z.testbit (seen w) i = true <-> (i < 64)%Z /\ (h - i)%Z ∈ accepted
  end.

(** Runs of the two sides over a sequence of nonces. *)
Fixpoint accept_all (w : ReplayWindow) (ns : list (list Z))
    : list (res BackendError unit) * ReplayWindow :=
  match ns with
  | [] => ([], w)
  | n :: ns =>
      let '(r, w) := ReplayWindow_accept w n in
      let '(rs, w) := accept_all w ns in (r :: rs, w)
  end.

Fixpoint spec_all (accepted : gset Z) (cs : list Z) : list verdict * gset Z :=
  match cs with
  | [] => ([], accepted)
  | c :: cs =>
      let '(v, accepted) := window_spec accepted c in
      let '(vs, accepted) := spec_all accepted cs in (v :: vs, accepted)
  end.

Fixpoint next_n (k : nat) (s : SendNonceState) : list (res BackendError (list Z)) * SendNonceState :=
  match k with
  | O => ([], s)
  | S k =>
      let '(r, s) := SendNonceState_next s in
      let '(rs, s) := next_n k s in (r :: rs, s)
  end.

(** ** Lemmas *)

Lemma nonce_counter_app p q c :
  length p = DIRECTION_PREFIX_LEN -> length q = SESSION_SALT_LEN -> is_u64 c ->
  nonce_counter (p ++ q ++ to_be_bytes 8 c) = c.
Proof.
  intros Hp Hq Hc. unfold nonce_counter. rewrite app_assoc, drop_app_length'.
  - apply from_to_be_bytes. unfold is_u64, u64_max in Hc. simpl. lia.
  - by rewrite length_app, Hp, Hq.
Qed.

Lemma nonce_counter_u64 n : wf_nonce n -> is_u64 (nonce_counter n).
Proof.
  intros [HL HB]. unfold nonce_counter.
  pose proof (from_be_bytes_bound (drop 16 n) (Bytes_drop 16 n HB)) as H.
  rewrite length_drop, HL in H. unfold is_u64, u64_max.
  change (2 ^ (8 * Z.of_nat (NONCE_LEN - 16)))%Z with (2 ^ 64)%Z in H.
  change (DIRECTION_PREFIX_LEN + SESSION_SALT_LEN)%nat with 16%nat. lia.
Qed.

Lemma SendNonceState_next_wf s n s' :
  wf_send s -> SendNonceState_next s = (Ok n, s') ->
  wf_nonce n /\ wf_send s' /\ nonce_counter n = counter s /\ counter s' = (counter s + 1)%Z /\
  take 8 n = direction_prefix s /\ direction_prefix s' = direction_prefix s /\
  session_salt s' = session_salt s.
Proof.
  intros (Hp & HBp & Hs & HBs & Hc) H. unfold SendNonceState_next in H.
  destruct (counter s =? u64_max)%Z eqn:Ec; [done|]. to_prop.
  apply pair_equal_spec in H as [Hn%(inj Ok) Hs']. subst n s'.
  rewrite nonce_counter_app by done.
  unfold wf_send, wf_nonce, is_u64, u64_max in *.
  cbn [direction_prefix session_salt counter].
  rewrite !length_app, Hp, Hs, length_to_be_bytes.
  rewrite !Bytes_app. split_and!; auto using to_be_bytes_Bytes; try lia.
  by rewrite take_app_length'.
Qed.

Lemma land_bit_zero x i :
  (0 <= i)%Z -> (Z.land x (Z.shiftl 1 i) =? 0)%Z = negb (Z.testbit x i).
Proof.
  intros Hi. destruct (Z.testbit x i) eqn:E; simpl.
  - apply Z.eqb_neq. intros H. apply (f_equal (fun z => Z.testbit z i)) in H.
    rewrite Z.land_spec, Z.shiftl_spec, Z.sub_diag, E, Z.bits_0 in H by lia. done.
  - apply Z.eqb_eq. apply Z.bits_inj'. intros j Hj.
    rewrite Z.land_spec, Z.shiftl_spec, Z.bits_0 by lia.
    destruct (decide (j = i)) as [->|Hne]; [by rewrite E|].
    destruct (decide (j < i)%Z).
    + rewrite (Z.testbit_neg_r 1) by lia. apply andb_false_r.
    + rewrite (Z.bits_above_log2 1) by (simpl; lia). apply andb_false_r.
Qed.

Lemma testbit_one i : (0 <= i)%Z -> Z.testbit 1 i = true <-> i = 0%Z.
Proof.
  intros Hi. split; [|by intros ->]. intros H.
  destruct (decide (i = 0%Z)); [done|].
  rewrite (Z.bits_above_log2 1) in H by (simpl; lia). done.
Qed.

Lemma testbit_shift64 x s i :
  (0 <= s)%Z -> (0 <= i)%Z ->
  Z.testbit (wrap64 (Z.shiftl x s)) i = true <-> (i < 64)%Z /\ Z.testbit x (i - s) = true.
Proof.
  intros Hs Hi. unfold wrap64. destruct (decide (i < 64)%Z).
  - rewrite Z.mod_pow2_bits_low, Z.shiftl_spec by lia. tauto.
  - rewrite Z.mod_pow2_bits_high by lia. split; [done|tauto].
Qed.

Lemma represents_default : represents ReplayWindow_default ∅.
Proof. done. Qed.

Lemma is_stale_max accepted h c :
  h ∈ accepted -> set_Forall (fun c => c <= h)%Z accepted ->
  is_stale accepted c <-> (c + 64 <= h)%Z.
Proof.
  intros Hin Hmax. unfold is_stale, REPLAY_WINDOW_BITS. split.
  - intros (k & Hk & Hle). apply Hmax in Hk. lia.
  - intros Hle. by exists h.
Qed.

(** The bitmap after the window moved forward by [c - h]. *)
Lemma advance_bits accepted h c (s : Z) :
  (h < c)%Z -> set_Forall (fun c => c <= h)%Z accepted -> h ∈ accepted ->
  (forall i, (0 <= i)%Z -> Z.testbit s i = true <-> (i < 64)%Z /\ (h - i)%Z ∈ accepted) ->
  forall i, (0 <= i)%Z ->
  Z.testbit (if (REPLAY_WINDOW_BITS <=? c - h)%Z then 1
             else Z.lor (wrap64 (Z.shiftl s (c - h))) 1) i = true <->
  (i < 64)%Z /\ (c - i)%Z ∈ ({[c]} ∪ accepted : gset Z).
Proof.
  intros Hlt Hmax Hh Hbits i Hi. unfold REPLAY_WINDOW_BITS.
  assert ((c - i)%Z ∈ ({[c]} ∪ accepted : gset Z) <-> i = 0%Z \/ (c - i)%Z ∈ accepted) as Hin.
  { rewrite elem_of_union, elem_of_singleton. split; intros [?|?]; auto; left; lia. }
  rewrite Hin. destruct (64 <=? c - h)%Z eqn:E; to_prop.
  - rewrite testbit_one by done. split; [intros ->; auto with lia|].
    intros (Hlt64 & [?|Hacc]); [done|]. apply Hmax in Hacc. simpl in Hacc. lia.
  - rewrite Z.lor_spec, orb_true_iff, testbit_one, testbit_shift64 by lia.
    destruct (decide (c - h <= i)%Z) as [Hge|Hge].
    + rewrite Hbits by lia. replace (h - (i - (c - h)))%Z with (c - i)%Z by lia.
      split; [|intuition lia]. intros [(?&?&?)| ->]; auto with lia.
    + rewrite Z.testbit_neg_r by lia. split.
      * intros [[_ ?]| ->]; [done|auto with lia].
      * intros (_ & [->|Hacc]); [auto|]. apply Hmax in Hacc. simpl in Hacc. lia.
Qed.

(** The bitmap after an old counter was recorded. *)
Lemma record_bits accepted h c (s : Z) :
  (c <= h)%Z -> (h - c < 64)%Z ->
  (forall i, (0 <= i)%Z -> Z.testbit s i = true <-> (i < 64)%Z /\ (h - i)%Z ∈ accepted) ->
  forall i, (0 <= i)%Z ->
  Z.testbit (Z.lor s (Z.shiftl 1 (h - c))) i = true <->
  (i < 64)%Z /\ (h - i)%Z ∈ ({[c]} ∪ accepted : gset Z).
Proof.
  intros Hle Hwin Hbits i Hi.
  rewrite Z.lor_spec, orb_true_iff, Hbits by done.
  rewrite elem_of_union, elem_of_singleton. rewrite Z.shiftl_spec by lia.
  destruct (decide (i < h - c)%Z) as [Hlt|Hge].
  - rewrite Z.testbit_neg_r by lia. intuition (try done; try lia).
  - rewrite testbit_one by lia. intuition (try done; try lia).
Qed.

(** One step: the window refines its specification. *)
Lemma accept_refines w accepted n :
  represents w accepted ->
  let '(r, w') := ReplayWindow_accept w n in
  let '(v, accepted') := window_spec accepted (nonce_counter n) in
  r = verdict_result v /\ represents w' accepted'.
Proof.
  unfold represents, ReplayWindow_accept, window_spec. generalize (nonce_counter n). intros c.
  destruct (highest w) as [h|] eqn:Eh; simpl.
  - intros (Hh & Hmax & Hbits).
    destruct (h <? c)%Z eqn:Elt; to_prop.
    + rewrite decide_False by (rewrite is_stale_max by done; lia).
      rewrite decide_False by (intros Hc; apply Hmax in Hc; simpl in Hc; lia).
      split; [done|]. simpl. split_and!; [by apply elem_of_union_l, elem_of_singleton| |].
      * intros k [->%elem_of_singleton|Hk]%elem_of_union; [done|].
        apply Hmax in Hk. simpl in *. lia.
      * by apply advance_bits.
    + destruct (REPLAY_WINDOW_BITS <=? h - c)%Z eqn:Est; to_prop; unfold REPLAY_WINDOW_BITS in *.
      { rewrite decide_True by (rewrite is_stale_max by done; lia). by rewrite Eh. }
      rewrite decide_False by (rewrite is_stale_max by done; lia).
      rewrite land_bit_zero, negb_involutive by lia.
      pose proof (Hbits (h - c)%Z ltac:(lia)) as Hb. replace (h - (h - c))%Z with c in Hb by lia.
      destruct (Z.testbit (seen w) (h - c)) eqn:Et.
      * rewrite decide_True by apply Hb, eq_refl. by rewrite Eh.
      * rewrite decide_False by (intros Hc; destruct Hb as [_ Hb]; discriminate Hb; split; [lia|done]).
        split; [done|]. simpl. split_and!; [by apply elem_of_union_r| |].
        -- intros k [->%elem_of_singleton|Hk]%elem_of_union; [done|]. by apply Hmax.
        -- apply record_bits; [lia..|done].
  - intros ->. rewrite decide_False by (by intros (k & Hk%not_elem_of_empty & _)).
    rewrite decide_False by apply not_elem_of_empty. rewrite (right_id_L ∅ (∪)).
    split; [done|]. simpl.
    split_and!; [by apply elem_of_singleton|by intros k ->%elem_of_singleton|].
    intros i Hi. rewrite testbit_one, elem_of_singleton by done. intuition lia.
Qed.

Lemma accept_all_refines ns w accepted :
  represents w accepted ->
  let '(rs, w') := accept_all w ns in
  let '(vs, accepted') := spec_all accepted (nonce_counter <$> ns) in
  rs = verdict_result <$> vs /\ represents w' accepted'.
Proof.
  revert w accepted. induction ns as [|n ns IH]; intros w accepted Hr; simpl; [done|].
  pose proof (accept_refines w accepted n Hr) as H1.
  destruct (ReplayWindow_accept w n) as [r w1].
  destruct (window_spec accepted (nonce_counter n)) as [v acc1]. destruct H1 as [-> H1].
  specialize (IH w1 acc1 H1).
  destruct (accept_all w1 ns) as [rs w2]. destruct (spec_all acc1 _) as [vs acc2].
  by destruct IH as [-> ?].
Qed.

(** Facts about the specification. *)
Lemma window_spec_Fresh accepted c accepted' :
  window_spec accepted c = (Fresh, accepted') ->
  (c ∉ accepted) /\ (accepted' = {[c]} ∪ accepted).
Proof. unfold window_spec. repeat case_decide; intros [= <-]; done. Qed.

Lemma window_spec_mono accepted c v accepted' :
  window_spec accepted c = (v, accepted') -> accepted ⊆ accepted'.
Proof.
  unfold window_spec. repeat case_decide; intros [= <- <-]; [done..|].
  apply union_subseteq_r.
Qed.

(** The counters the specification let through. *)
Definition fresh_counters (cs : list Z) (vs : list verdict) : list Z :=
  omap (fun '(c, v) => match v with Fresh => Some c | _ => None end) (zip cs vs).

Lemma spec_all_fresh cs accepted vs accepted' :
  spec_all accepted cs = (vs, accepted') ->
  NoDup (fresh_counters cs vs) /\ forall c, c ∈ fresh_counters cs vs -> c ∉ accepted.
Proof.
  revert accepted vs. induction cs as [|c cs IH]; intros accepted vs H; simpl in H.
  { injection H as <- <-. split; [apply NoDup_nil_2|intros c Hc; by apply elem_of_nil in Hc]. }
  destruct (window_spec accepted c) as [v acc1] eqn:Ev.
  destruct (spec_all acc1 cs) as [vs1 acc2] eqn:Es. injection H as <- <-.
  apply IH in Es as [Hnd Hout]. pose proof (window_spec_mono _ _ _ _ Ev) as Hsub.
  unfold fresh_counters in *. simpl. destruct v; simpl; [|split; [done|intros d Hd Hin; by eapply Hout, Hsub]..].
  apply window_spec_Fresh in Ev as [Hc ->]. split.
  - apply NoDup_cons. split; [|done]. intros Hin. apply Hout in Hin as []. by apply elem_of_union_l, elem_of_singleton.
  - intros d [->|Hd]%elem_of_cons; [done|]. intros Hd'. apply Hout in Hd as []. by apply elem_of_union_r.
Qed.

Lemma next_n_counters k s :
  wf_send s -> (counter s + Z.of_nat k <= u64_max)%Z ->
  exists ns, next_n k s = (Ok <$> ns, mkSendNonceState (direction_prefix s) (session_salt s)
                                        (counter s + Z.of_nat k)) /\
    Forall wf_nonce ns /\
    nonce_counter <$> ns = (fun i => (counter s + Z.of_nat i)%Z) <$> seq 0 k.
Proof.
  revert s. induction k as [|k IH]; intros s Hwf Hk.
  - exists []. destruct s. simpl. rewrite Z.add_0_r. auto.
  - assert (exists n s1, SendNonceState_next s = (Ok n, s1)) as (n & s1 & E).
    { unfold SendNonceState_next. rewrite (proj2 (Z.eqb_neq _ _)) by lia. by do 2 eexists. }
    destruct (SendNonceState_next_wf _ _ _ Hwf E) as (Hn & Hs1 & Hc & Hc1 & _ & Hp & Hq).
    destruct (IH _ Hs1) as (ns & Hns & Hall & Hcs); [lia|].
    exists (n :: ns). cbn [next_n]. rewrite E, Hns, Hp, Hq, Hc1. split_and!.
    + do 2 f_equal. lia.
    + by constructor.
    + rewrite fmap_cons, Hc, Hcs. cbn [seq]. rewrite fmap_cons, Z.add_0_r. f_equal.
      rewrite <- fmap_S_seq, <- list_fmap_compose. apply list_fmap_ext. intros; simpl; lia.
Qed.

(** Two positions the specification lets through hold different counters. *)
Lemma fresh_positions cs vs i j c d :
  NoDup (fresh_counters cs vs) -> i <> j ->
  cs !! i = Some c -> cs !! j = Some d -> vs !! i = Some Fresh -> vs !! j = Some Fresh ->
  c <> d.
Proof.
  assert (forall cs vs i c, cs !! i = Some c -> vs !! i = Some Fresh ->
    c ∈ fresh_counters cs vs) as Hel.
  { clear. intros cs. unfold fresh_counters.
    induction cs as [|x cs IH]; intros [|v vs] [|i] c; simpl; try done.
    - intros [= ->] [= ->]. by left.
    - intros Hc Hv. specialize (IH _ _ _ Hc Hv). destruct v; simpl; [by right|done..]. }
  revert vs i j. unfold fresh_counters in *.
  induction cs as [|x cs IH]; intros [|v vs] [|i] [|j]; simpl; try done;
    intros Hnd Hij Hc Hd Hvi Hvj; simplify_eq/=.
  - apply NoDup_cons in Hnd as [Hnin _]. intros ->. apply Hnin. by eapply Hel.
  - apply NoDup_cons in Hnd as [Hnin _]. intros ->. apply Hnin. by eapply Hel.
  - eapply (IH vs i j); try done; [|congruence].
    destruct v; simpl in Hnd; [by apply NoDup_cons in Hnd as [_ ?]|done..].
Qed.

Lemma window_spec_subset accepted c :
  snd (window_spec accepted c) ⊆ {[c]} ∪ accepted.
Proof.
  unfold window_spec. repeat case_decide; simpl; [apply union_subseteq_r..|done].
Qed.

Lemma spec_all_subset cs accepted :
  snd (spec_all accepted cs) ⊆ list_to_set cs ∪ accepted.
Proof.
  revert accepted. induction cs as [|c cs IH]; intros accepted; simpl.
  { apply union_subseteq_r. }
  pose proof (window_spec_subset accepted c) as H.
  destruct (window_spec accepted c) as [v acc1]. specialize (IH acc1).
  destruct (spec_all acc1 cs) as [vs acc2]. simpl in *.
  etrans; [exact IH|]. rewrite (comm_L (∪) {[c]}), <- (assoc_L (∪)).
  by apply union_mono_l.
Qed.

Lemma accept_all_app w ns n :
  fst (accept_all w (ns ++ [n])) =
  fst (accept_all w ns) ++ [fst (ReplayWindow_accept (snd (accept_all w ns)) n)].
Proof.
  revert w. induction ns as [|m ns IH]; intros w; simpl.
  - by destruct (ReplayWindow_accept w n).
  - destruct (ReplayWindow_accept w m) as [r w1]. specialize (IH w1).
    destruct (accept_all w1 (ns ++ [n])), (accept_all w1 ns). simpl in *. by rewrite IH.
Qed.

(** The nonces that [next] handed out: well formed, numbered from the sender's
    counter on, pairwise different. *)
Lemma next_n_fresh k s :
  wf_send s ->
  Forall (fun n => wf_nonce n /\ (counter s <= nonce_counter n)%Z) (omap res_ok (fst (next_n k s))) /\
  NoDup (omap res_ok (fst (next_n k s))).
Proof.
  revert s. induction k as [|k IH]; intros s Hwf; [by split; constructor|].
  cbn [next_n]. destruct (SendNonceState_next s) as [r s1] eqn:E.
  destruct r as [n|e|].
  - destruct (SendNonceState_next_wf _ _ _ Hwf E) as (Hn & Hs1 & Hc & Hc1 & _).
    destruct (IH s1 Hs1) as [Hall Hnd]. destruct (next_n k s1) as [rs s2]. simpl in *. split.
    + constructor; [auto with lia|]. eapply Forall_impl; [exact Hall|]. intros m [? ?]. auto with lia.
    + apply NoDup_cons. split; [|done]. intros Hin.
      apply (proj1 (Forall_forall _ _) Hall) in Hin as [_ Hle]. lia.
  - assert (s1 = s) as ->. { unfold SendNonceState_next in E. by destruct (_ =? _)%Z; simplify_eq. }
    destruct (IH s Hwf) as [Hall Hnd]. by destruct (next_n k s) as [rs s2].
  - unfold SendNonceState_next in E. by destruct (_ =? _)%Z.
Qed.

(** ** Properties *)

(** C1: the replay window implements its specification: over any sequence of
    nonces, starting from the empty window, it returns exactly the verdicts
    computed from the set of all counters accepted so far (fresh, 64 or more
    behind an accepted counter, or accepted before), although it only stores
    the highest counter and 64 bits. *)
Theorem replay_window_refines_spec ns :
  fst (accept_all ReplayWindow_default ns) =
  verdict_result <$> fst (spec_all ∅ (nonce_counter <$> ns)).
Proof.
  pose proof (accept_all_refines ns _ _ represents_default) as H.
  destruct (accept_all _ ns). destruct (spec_all ∅ _). apply H.
Qed.

(** No counter is accepted twice: in any sequence of nonces shown to a
    fresh window, at any two positions where the window accepts, the counters
    differ. *)
Theorem replay_window_accepts_once ns i j n m :
  i <> j ->
  ns !! i = Some n -> fst (accept_all ReplayWindow_default ns) !! i = Some (Ok tt) ->
  ns !! j = Some m -> fst (accept_all ReplayWindow_default ns) !! j = Some (Ok tt) ->
  nonce_counter n <> nonce_counter m.
Proof.
  intros Hij Hn Hri Hm Hrj.
  pose proof (accept_all_refines ns _ _ represents_default) as H.
  destruct (accept_all _ ns) as [rs w]. destruct (spec_all ∅ _) as [vs acc] eqn:Es.
  destruct H as [-> _]. apply spec_all_fresh in Es as [Hnd _]. simpl in Hri, Hrj.
  apply list_lookup_fmap_Some in Hri as (vi & Hvi & Evi).
  apply list_lookup_fmap_Some in Hrj as (vj & Hvj & Evj).
  destruct vi, vj; try discriminate.
  eapply fresh_positions; [done|exact Hij| | |done|done];
    by rewrite list_lookup_fmap, ?Hn, ?Hm.
Qed.

Lemma replay_window_accepts_once_witness :
  nonce_counter (replicate 16 0%Z ++ to_be_bytes 8 3) <> nonce_counter (replicate 16 0%Z ++ to_be_bytes 8 1).
Proof.
  apply (replay_window_accepts_once
    [replicate 16 0%Z ++ to_be_bytes 8 3; replicate 16 0%Z ++ to_be_bytes 8 3;
     replicate 16 0%Z ++ to_be_bytes 8 1] 0 2); [lia|by vm_compute..].
Defined.

(** Reordering within the window is tolerated: after any sequence of
    nonces, a nonce whose counter is none of the earlier ones, and is less than
    64 behind all of them, is accepted. *)
Theorem replay_window_tolerates_reordering ns n :
  nonce_counter n ∉ nonce_counter <$> ns ->
  Forall (fun m => nonce_counter m < nonce_counter n + REPLAY_WINDOW_BITS)%Z ns ->
  fst (accept_all ReplayWindow_default (ns ++ [n])) !! length ns = Some (Ok tt).
Proof.
  intros Hnew Hwin. rewrite accept_all_app.
  pose proof (accept_all_refines ns _ _ represents_default) as H.
  pose proof (spec_all_subset (nonce_counter <$> ns) ∅) as Hsub.
  destruct (accept_all _ ns) as [rs w]. destruct (spec_all ∅ _) as [vs acc] eqn:Es.
  destruct H as [-> Hr]. simpl in Hsub |- *.
  pose proof (accept_refines w acc n Hr) as Hstep.
  unfold window_spec in Hstep. rewrite decide_False in Hstep.
  2: { intros (h & Hh & Hle). apply Hsub in Hh.
       apply elem_of_union in Hh as [Hh%elem_of_list_to_set|?%not_elem_of_empty]; [|done].
       apply list_elem_of_fmap in Hh as (m & -> & Hm).
       apply (proj1 (Forall_forall _ _) Hwin) in Hm. simpl in Hm. lia. }
  rewrite decide_False in Hstep.
  2: { intros Hh%Hsub. apply elem_of_union in Hh as [Hh%elem_of_list_to_set|?%not_elem_of_empty]; done. }
  destruct (ReplayWindow_accept w n) as [r w']. destruct Hstep as [-> _].
  assert (length ns = length vs) as ->.
  { clear -Es. remember (nonce_counter <$> ns) as cs eqn:Ecs.
    rewrite <- (length_fmap nonce_counter ns), <- Ecs. clear Ecs. revert vs acc Es.
    generalize (∅ : gset Z). induction cs as [|c cs IH]; intros A vs acc; simpl; [by intros [= <- _]|].
    destruct (window_spec A c) as [v A1]. destruct (spec_all A1 cs) as [vs1 A2] eqn:E.
    intros [= <- <-]. simpl. by erewrite IH. }
  rewrite lookup_app_r by (rewrite length_fmap; lia). by rewrite length_fmap, Nat.sub_diag.
Qed.

Lemma replay_window_tolerates_reordering_witness :
  fst (accept_all ReplayWindow_default
    ([replicate 16 0%Z ++ to_be_bytes 8 70; replicate 16 0%Z ++ to_be_bytes 8 8] ++
     [replicate 16 0%Z ++ to_be_bytes 8 7])) !! 2%nat = Some (Ok tt).
Proof.
  apply (replay_window_tolerates_reordering
    [replicate 16 0%Z ++ to_be_bytes 8 70; replicate 16 0%Z ++ to_be_bytes 8 8]).
  - by_decide.
  - by_decide.
Defined.

(** C25: nonce uniqueness: however often [next] is called, the nonces it hands
    out are well formed and pairwise different, and once the counter reaches
    [u64::MAX] it only returns the exhaustion error and no longer changes. *)
Theorem send_nonces_unique s k :
  wf_send s ->
  Forall wf_nonce (omap res_ok (fst (next_n k s))) /\
  NoDup (omap res_ok (fst (next_n k s))) /\
  (counter s = u64_max ->
   SendNonceState_next s = (Err (failed "send nonce counter exhausted"), s)).
Proof.
  intros Hwf. destruct (next_n_fresh k s Hwf) as [Hall Hnd]. split_and!; [|done|].
  - eapply Forall_impl; [exact Hall|]. by intros ? [? _].
  - intros Hc. unfold SendNonceState_next. by rewrite Hc.
Qed.

Lemma send_nonces_unique_witness :
  NoDup (omap res_ok (fst (next_n 3 (mkSendNonceState (replicate 8 1%Z) (replicate 8 2%Z) (u64_max - 1))))).
Proof.
  apply (send_nonces_unique (mkSendNonceState (replicate 8 1%Z) (replicate 8 2%Z) (u64_max - 1)) 3).
  unfold wf_send. split_and!; by_decide.
Defined.
