(* ===== verification/Crypto.v ===== *)
(** * Peer sessions ([crypto.rs]) and credentials (the key helpers of [lib.rs])

    The cryptographic primitives are the operations of [CryptoPrims]: an AEAD
    (XChaCha20-Poly1305), X25519, HKDF-SHA256, URL-safe base64 and UUID
    parsing, all from third-party crates.  [CryptoLaws] is what the code relies
    on of them.  Everything else, from credentials to sealed frames, is
    translated from the source. *)

From Stdlib Require Import ZArith Lia.
From stdpp Require Import prelude list strings gmap.
From S2P Require Import Prelude RustStd Protocol Frame Nonce.

(** ** Primitives *)

Class CryptoPrims : Type := {
  (** [XChaCha20Poly1305::encrypt/decrypt]: key, nonce, associated data, text *)
  aead_encrypt : list Z -> list Z -> list Z -> list Z -> option (list Z);
  aead_decrypt : list Z -> list Z -> list Z -> list Z -> option (list Z);
  (** [StaticSecret::diffie_hellman], [PublicKey::from(&StaticSecret)] *)
  x25519 : list Z -> list Z -> list Z;
  x25519_public : list Z -> list Z;
  (** [Hkdf::<Sha256>::new(Some(salt), secret).expand(info, out)], [out.len()] *)
  hkdf_sha256 : list Z -> list Z -> list Z -> nat -> option (list Z);
  (** [URL_SAFE_NO_PAD.encode/decode] *)
  base64_encode : list Z -> string;
  base64_decode : string -> option (list Z);
  (** [Uuid::parse_str] *)
  uuid_parse : string -> option (list Z);
}.

(** The documented behaviour of the primitives that the code relies on.  AEAD
    messages are far below the 256 GiB limit of the cipher; HKDF-SHA256 expands
    to at most 255 * 32 bytes. *)
Class CryptoLaws (P : CryptoPrims) : Prop := {
  aead_encrypt_total k n a m : (Z.of_nat (length m) <= u32_max)%Z ->
    exists c, aead_encrypt k n a m = Some c;
  aead_decrypt_encrypt k n a m c :
    aead_encrypt k n a m = Some c -> aead_decrypt k n a c = Some m;
  aead_encrypt_decrypt k n a m c :
    aead_decrypt k n a c = Some m -> aead_encrypt k n a m = Some c;
  aead_overhead k n a m c :
    aead_encrypt k n a m = Some c -> length c = (length m + 16)%nat;
  aead_bytes k n a m c :
    aead_encrypt k n a m = Some c -> Bytes m -> Bytes c;
  x25519_agree a b : length a = 32%nat -> length b = 32%nat ->
    x25519 a (x25519_public b) = x25519 b (x25519_public a);
  x25519_public_wf a : length a = 32%nat ->
    length (x25519_public a) = 32%nat /\ Bytes (x25519_public a);
  hkdf_total salt secret info n : (n <= 255 * 32)%nat ->
    exists out, hkdf_sha256 salt secret info n = Some out /\ length out = n /\ Bytes out;
  base64_roundtrip l : Bytes l -> base64_decode (base64_encode l) = Some l;
  uuid_wf s l : uuid_parse s = Some l -> wf_id l;
}.

Section crypto.
Context `{P : CryptoPrims}.

(** ** Credentials *)

Definition PUBLIC_CREDENTIAL_PREFIX : string := "tfpk1_".

Definition encode_key (bytes : list Z) : string := base64_encode bytes.

Definition encode_public_credential (bytes : list Z) : string :=
  PUBLIC_CREDENTIAL_PREFIX +:+ encode_key bytes.

Definition decode_base64_key (value : string) : res BackendError (list Z) :=
  ok_or (failed_with Base64Error) (base64_decode value).

(** [bytes.try_into::<[u8; 32]>()] with its error message. *)
Definition key32 (what : string) (bytes : list Z) : res BackendError (list Z) :=
  if (length bytes =? 32)%nat then Ok bytes
  else Err (failed (what +:+ dec (Z.of_nat (length bytes)))).

Definition decode_key (value : string) : res BackendError (list Z) :=
  bytes ← decode_base64_key value;
  key32 "expected 32-byte key, got " bytes.

Definition derive_public_credential (private_key : string) : res BackendError string :=
  private ← decode_key private_key;
  Ok (encode_public_credential (x25519_public private)).

Definition validate_public_credential (value : string) : res BackendError unit :=
  encoded ← ok_or (failed "unsupported peer credential prefix")
                  (strip_prefix PUBLIC_CREDENTIAL_PREFIX value);
  bytes ← decode_base64_key encoded;
  if negb (length bytes =? 32)%nat then
    Err (failed ("peer credential has invalid key length: " +:+ dec (Z.of_nat (length bytes))))
  else Ok tt.

Definition decode_public_credential (value : string) : res BackendError (list Z) :=
  encoded ← ok_or (failed "unsupported peer credential prefix")
                  (strip_prefix PUBLIC_CREDENTIAL_PREFIX value);
  bytes ← decode_base64_key encoded;
  key32 "peer credential has invalid key length: " bytes.

(** ** Key derivation *)

Definition SESSION_SALT : list Z := as_bytes "tf-scale/custom/v1/session".
Definition SESSION_INFO_PREFIX : list Z := as_bytes "tf-scale/custom/v1/aead-key".
Definition DIRECTION_INFO_PREFIX : list Z := as_bytes "tf-scale/custom/v1/direction".

Definition append_sorted_pair (output l r : list Z) : list Z :=
  if slice_leb l r then output ++ l ++ r else output ++ r ++ l.

Definition hkdf_expand (n : nat) (secret salt info : list Z) : res BackendError (list Z) :=
  ok_or (failed_with HkdfError) (hkdf_sha256 salt secret info n).

Definition shared_secret (local_private_key : list Z) (peer_public_credential : string)
    : res BackendError (list Z) :=
  peer_public ← decode_public_credential peer_public_credential;
  Ok (x25519 local_private_key peer_public).

Definition derive_session_key (secret : list Z) (local_public_credential peer_public_credential : string)
    (local_id peer_id : FrameDeviceId) : res BackendError (list Z) :=
  let info := SESSION_INFO_PREFIX in
  let info := append_sorted_pair info local_id peer_id in
  let info := append_sorted_pair info (as_bytes local_public_credential)
                                      (as_bytes peer_public_credential) in
  hkdf_expand 32 secret SESSION_SALT info.

Definition derive_direction_prefix (secret : list Z) (source destination : FrameDeviceId)
    : res BackendError (list Z) :=
  hkdf_expand 8 secret SESSION_SALT (DIRECTION_INFO_PREFIX ++ source ++ destination).

(** ** Sessions *)

Record PeerCryptoSession : Type := mkPeerCryptoSession {
  local_id : FrameDeviceId;
  peer_id : FrameDeviceId;
  cipher : list Z;
  send_nonces : SendNonceState;
  receive_window : ReplayWindow;
  receive_direction_prefix : list Z;
}.

Record OpenFrame : Type := mkOpenFrame {
  of_message_type : Z;
  of_plaintext : list Z;
}.

(** [random] is the outcome of [getrandom::fill] for the session salt. *)
Definition PeerCryptoSession_new (random : option (list Z)) (local_private_key : list Z)
    (local_public_credential peer_public_credential : string)
    (local_id peer_id : FrameDeviceId) : res BackendError PeerCryptoSession :=
  secret ← shared_secret local_private_key peer_public_credential;
  session_key ← derive_session_key secret local_public_credential peer_public_credential
                  local_id peer_id;
  send_direction_prefix ← derive_direction_prefix secret local_id peer_id;
  receive_direction_prefix ← derive_direction_prefix secret peer_id local_id;
  send_nonces ← SendNonceState_new random send_direction_prefix;
  Ok (mkPeerCryptoSession local_id peer_id session_key send_nonces ReplayWindow_default
        receive_direction_prefix).

Definition set_send_nonces (s : PeerCryptoSession) (n : SendNonceState) : PeerCryptoSession :=
  mkPeerCryptoSession (local_id s) (peer_id s) (cipher s) n (receive_window s)
    (receive_direction_prefix s).
Definition set_receive_window (s : PeerCryptoSession) (w : ReplayWindow) : PeerCryptoSession :=
  mkPeerCryptoSession (local_id s) (peer_id s) (cipher s) (send_nonces s) w
    (receive_direction_prefix s).

Definition seal_message (self : PeerCryptoSession) (plaintext : list Z) (message_type : Z)
    : res BackendError (list Z) * PeerCryptoSession :=
  let '(next, nonces) := SendNonceState_next (send_nonces self) in
  let self := set_send_nonces self nonces in
  (nonce ← next;
   let header := FrameHeader_new (local_id self) (peer_id self) nonce message_type in
   associated_data ← FrameHeader_encode header;
   ciphertext ← ok_or (failed "packet encryption failed")
                  (aead_encrypt (cipher self) nonce associated_data plaintext);
   EncodedFrame_encode (mkEncodedFrame header ciphertext), self).

Definition seal (self : PeerCryptoSession) (plaintext_packet : list Z)
    : res BackendError (list Z) * PeerCryptoSession :=
  seal_message self plaintext_packet FRAME_TYPE_DATA.

(** The part of [open_message] before the replay window: the checks and the
    decryption, which do not change the session. *)
Definition authenticate (self : PeerCryptoSession) (frame : list Z)
    : res BackendError (EncodedFrame * list Z) :=
  encoded ← EncodedFrame_decode frame;
  if bool_decide (source (header encoded) <> peer_id self) then
    Err (failed "frame source does not match peer session")
  else if bool_decide (destination (header encoded) <> local_id self) then
    Err (failed "frame destination does not match local session")
  else
    prefix ← slice (nonce (header encoded)) 0 8;
    if bool_decide (prefix <> receive_direction_prefix self) then
      Err (failed "frame nonce direction does not match peer session")
    else
      associated_data ← FrameHeader_encode (header encoded);
      plaintext ← ok_or (failed "packet authentication failed")
        (aead_decrypt (cipher self) (nonce (header encoded)) associated_data (ciphertext encoded));
      Ok (encoded, plaintext).

Definition open_message (self : PeerCryptoSession) (frame : list Z)
    : res BackendError OpenFrame * PeerCryptoSession :=
  match authenticate self frame with
  | Ok (encoded, plaintext) =>
      let '(r, window) := ReplayWindow_accept (receive_window self) (nonce (header encoded)) in
      (_ ← r; Ok (mkOpenFrame (message_type (header encoded)) plaintext),
       set_receive_window self window)
  | Err e => (Err e, self)
  | Panic => (Panic, self)
  end.

Definition open (self : PeerCryptoSession) (frame : list Z)
    : res BackendError (list Z) * PeerCryptoSession :=
  let '(r, self) := open_message self frame in (of_plaintext <$> r, self).

(** ** Runs *)

(** Sealing a list of (plaintext, message type) pairs one after the other. *)
Fixpoint seal_all (s : PeerCryptoSession) (ms : list (list Z * Z))
    : list (res BackendError (list Z)) * PeerCryptoSession :=
  match ms with
  | [] => ([], s)
  | (m, t) :: ms =>
      let '(r, s) := seal_message s m t in
      let '(rs, s) := seal_all s ms in (r :: rs, s)
  end.

Fixpoint open_all (s : PeerCryptoSession) (fs : list (list Z))
    : list (res BackendError OpenFrame) * PeerCryptoSession :=
  match fs with
  | [] => ([], s)
  | f :: fs =>
      let '(r, s) := open_message s f in
      let '(rs, s) := open_all s fs in (r :: rs, s)
  end.

(** ** Lemmas *)

(** The pair is appended in an order that does not depend on who is local. *)
Lemma append_sorted_pair_comm o x y : append_sorted_pair o x y = append_sorted_pair o y x.
Proof.
  unfold append_sorted_pair.
  destruct (slice_leb x y) eqn:E1, (slice_leb y x) eqn:E2; try done.
  - by rewrite (slice_leb_antisym x y).
  - apply slice_leb_total in E1. congruence.
Qed.

Lemma derive_session_key_comm secret ca cb ia ib :
  derive_session_key secret ca cb ia ib = derive_session_key secret cb ca ib ia.
Proof.
  unfold derive_session_key.
  by rewrite (append_sorted_pair_comm _ ia), (append_sorted_pair_comm _ (as_bytes ca)).
Qed.

(** Two sessions are the two ends of one conversation. *)
Definition mirrored (s t : PeerCryptoSession) : Prop :=
  local_id s = peer_id t /\ peer_id s = local_id t /\ cipher s = cipher t /\
  direction_prefix (send_nonces s) = receive_direction_prefix t /\
  receive_direction_prefix s = direction_prefix (send_nonces t).

Definition wf_session (s : PeerCryptoSession) : Prop :=
  wf_id (local_id s) /\ wf_id (peer_id s) /\ wf_send (send_nonces s).

(** The frame that [s] puts on the wire for [m] with nonce [n] and type [t]. *)
Definition wire_frame (s : PeerCryptoSession) (n : list Z) (t : Z) (m : list Z)
    : option (list Z) :=
  let h := FrameHeader_new (local_id s) (peer_id s) n t in
  c ← aead_encrypt (cipher s) n (header_bytes h) m;
  Some (header_bytes h ++ c).

Lemma wire_frame_length `{!CryptoLaws P} s n t m f :
  wf_id (local_id s) -> wf_id (peer_id s) -> wf_nonce n -> wire_frame s n t m = Some f ->
  length f = (HEADER_LEN + length m + 16)%nat.
Proof.
  intros [Hl _] [Hp _] [Hn _]. unfold wire_frame. destruct (aead_encrypt _ _ _ _) as [c|] eqn:E; [|done].
  cbn [mbind option_bind]. intros H. apply (inj Some) in H as <-. apply aead_overhead in E.
  rewrite length_app, E. unfold header_bytes. cbn [source destination nonce FrameHeader_new].
  rewrite !length_app, Hl, Hp, Hn. cbn [length]. unfold HEADER_LEN, DEVICE_ID_LEN, NONCE_LEN. lia.
Qed.

Lemma wf_header_new s n t :
  wf_id (local_id s) -> wf_id (peer_id s) -> wf_nonce n -> known_type t = true ->
  wf_header (FrameHeader_new (local_id s) (peer_id s) n t) /\
  accepted_header (FrameHeader_new (local_id s) (peer_id s) n t).
Proof.
  intros Hl Hp Hn Ht. split; [|done].
  unfold wf_header. cbn [version message_type flags source destination nonce FrameHeader_new].
  split_and!; try done.
  unfold known_type, FRAME_TYPE_DATA, FRAME_TYPE_PROBE, FRAME_TYPE_PROBE_RESPONSE in Ht.
  rewrite !orb_true_iff, !Z.eqb_eq in Ht. unfold is_u8, u8_max. lia.
Qed.

Lemma seal_message_ok `{!CryptoLaws P} s m t :
  wf_session s -> (counter (send_nonces s) < u64_max)%Z -> known_type t = true ->
  (Z.of_nat (length m) <= u32_max)%Z ->
  exists n f s', seal_message s m t = (Ok f, s') /\ wire_frame s n t m = Some f /\
    wf_nonce n /\ nonce_counter n = counter (send_nonces s) /\
    take 8 n = direction_prefix (send_nonces s) /\
    wf_session s' /\ s' = set_send_nonces s (send_nonces s') /\
    counter (send_nonces s') = (counter (send_nonces s) + 1)%Z /\
    direction_prefix (send_nonces s') = direction_prefix (send_nonces s).
Proof.
  intros (Hl & Hp & Hs) Hc Ht Hm.
  destruct (SendNonceState_next (send_nonces s)) as [r sn] eqn:E.
  assert (exists n, r = Ok n /\ take 8 n = direction_prefix (send_nonces s)) as (n & -> & Hpre).
  { unfold SendNonceState_next in E. rewrite (proj2 (Z.eqb_neq _ _)) in E by lia.
    apply pair_equal_spec in E as [<- _]. eexists; split; [done|].
    apply take_app_length'. destruct Hs as [Hs _]. by rewrite Hs. }
  destruct (SendNonceState_next_wf _ _ _ Hs E) as (Hn & Hsn & Hcn & Hc1 & _ & Hdp & _).
  destruct (wf_header_new s n t Hl Hp Hn Ht) as [Hwf Hacc].
  set (h := FrameHeader_new (local_id s) (peer_id s) n t) in *.
  destruct (aead_encrypt_total (cipher s) n (header_bytes h) m Hm) as [c Hct].
  exists n, (header_bytes h ++ c), (set_send_nonces s sn).
  unfold seal_message. rewrite E. cbn [mbind res_bind set_send_nonces local_id peer_id cipher].
  fold h. rewrite (FrameHeader_encode_ok h) by done. cbn [mbind res_bind]. rewrite Hct.
  cbn [ok_or mbind res_bind]. unfold EncodedFrame_encode. cbn [Frame.header].
  rewrite (FrameHeader_encode_ok h) by done. unfold wire_frame. fold h. rewrite Hct.
  by split_and!.
Qed.

(** A frame of the mirrored end passes the checks and decrypts. *)
Lemma authenticate_wire `{!CryptoLaws P} s t n ty m f :
  mirrored s t -> wf_id (local_id s) -> wf_id (peer_id s) -> wf_nonce n ->
  known_type ty = true -> take 8 n = receive_direction_prefix t ->
  wire_frame s n ty m = Some f ->
  exists c, authenticate t f =
    Ok (mkEncodedFrame (FrameHeader_new (local_id s) (peer_id s) n ty) c, m).
Proof.
  intros (Hlp & Hpl & Hk & _ & _) Hl Hp Hn Hty Hpre Hw.
  destruct (wf_header_new s n ty Hl Hp Hn Hty) as [Hwf Hacc].
  unfold wire_frame in Hw. set (h := FrameHeader_new _ _ _ _) in *.
  destruct (aead_encrypt _ _ _ _) as [c|] eqn:Ec; [|done].
  cbn [mbind option_bind] in Hw. apply (inj Some) in Hw as <-. exists c.
  unfold authenticate. pose proof (frame_encode_decode (mkEncodedFrame h c) Hwf Hacc) as Hd.
  cbn [Frame.header ciphertext] in Hd. rewrite Hd. cbn [mbind res_bind Frame.header].
  assert (source h = peer_id t /\ destination h = local_id t /\ nonce h = n) as (-> & -> & ->) by done.
  rewrite !bool_decide_eq_false_2 by (intros Hx; by apply Hx).
  rewrite slice_ok by (try lia; destruct Hn as [-> _]; unfold NONCE_LEN; lia).
  cbn [mbind res_bind]. rewrite drop_0, Nat.sub_0_r, Hpre.
  rewrite bool_decide_eq_false_2 by (intros Hx; by apply Hx).
  rewrite (FrameHeader_encode_ok h) by done. cbn [mbind res_bind ciphertext].
  rewrite <- Hk. by rewrite (aead_decrypt_encrypt _ _ _ _ _ Ec).
Qed.

(** What a frame that passes the checks is: a frame of the peer, to this
    device, in the receiving direction, whose ciphertext is the encryption of
    the plaintext under the session key with the header as associated data. *)
Lemma authenticate_inv `{!CryptoLaws P} t f e m :
  Bytes f -> authenticate t f = Ok (e, m) ->
  let h := FrameHeader_new (peer_id t) (local_id t) (nonce (header e)) (message_type (header e)) in
  header e = h /\ wf_header h /\ known_type (message_type h) = true /\
  take 8 (nonce h) = receive_direction_prefix t /\
  f = header_bytes h ++ ciphertext e /\
  aead_encrypt (cipher t) (nonce h) (header_bytes h) m = Some (ciphertext e).
Proof.
  intros HB H. unfold authenticate in H.
  destruct (EncodedFrame_decode f) as [e'| |] eqn:Ed; try done. cbn [mbind res_bind] in H.
  destruct (frame_decode_inv f e' HB Ed) as (Hwf & Hacc & Hf).
  destruct (bool_decide (source _ <> _)) eqn:Hso; [done|].
  destruct (bool_decide (destination _ <> _)) eqn:Hde; [done|].
  assert (length (nonce (header e')) = NONCE_LEN) as Hn by apply Hwf.
  rewrite slice_ok in H by (rewrite ?Hn; unfold NONCE_LEN; lia). cbn [mbind res_bind] in H.
  destruct (bool_decide (take _ _ <> _)) eqn:Hpre; [done|]. to_prop.
  rewrite FrameHeader_encode_ok in H by done. cbn [mbind res_bind] in H.
  destruct (aead_decrypt _ _ _ _) as [p|] eqn:Edec; [|done].
  apply (inj Ok) in H. apply pair_equal_spec in H as [-> ->].
  apply aead_encrypt_decrypt in Edec. rewrite drop_0, Nat.sub_0_r in Hpre.
  assert (header e = FrameHeader_new (peer_id t) (local_id t) (nonce (header e)) (message_type (header e))) as Heq.
  { destruct e as [[v ty fl so de no] c]. simpl in *. destruct Hacc as (Hv & _ & Hfl). simpl in *.
    apply dec_stable in Hso, Hde. by subst. }
  rewrite <- Heq. simpl. by split_and!; [| |apply Hacc|apply dec_stable| |].
Qed.

Lemma authenticate_no_panic t f : Bytes f -> authenticate t f <> Panic.
Proof.
  intros HB. unfold authenticate.
  destruct (EncodedFrame_decode f) as [e| |] eqn:Ed; try done.
  - cbn [mbind res_bind]. destruct (frame_decode_inv f e HB Ed) as (Hwf & Hacc & _).
    do 2 (split_guard; [done|]).
    assert (length (nonce (header e)) = NONCE_LEN) as Hn by apply Hwf.
    rewrite slice_ok by (rewrite ?Hn; unfold NONCE_LEN; lia). cbn [mbind res_bind].
    split_guard; [done|]. rewrite FrameHeader_encode_ok by done. cbn [mbind res_bind].
    by destruct (aead_decrypt _ _ _ _).
  - by apply EncodedFrame_decode_total in Ed.
Qed.

Lemma ReplayWindow_accept_err w n r w' :
  ReplayWindow_accept w n = (r, w') -> r <> Ok tt -> w' = w.
Proof.
  unfold ReplayWindow_accept. destruct (highest w); [|by intros [= <- <-]].
  repeat split_guard; intros [= <- <-]; done.
Qed.

Lemma ReplayWindow_accept_no_panic w n : fst (ReplayWindow_accept w n) <> Panic.
Proof. unfold ReplayWindow_accept. destruct (highest w); repeat split_guard; done. Qed.

(** [open_message] in terms of [authenticate] and the window specification. *)
Lemma open_message_spec t f e m acc :
  represents (receive_window t) acc -> authenticate t f = Ok (e, m) ->
  let '(v, acc') := window_spec acc (nonce_counter (nonce (header e))) in
  exists w', represents w' acc' /\
    open_message t f =
      (verdict_result v ≫= (fun _ => Ok (mkOpenFrame (message_type (header e)) m)),
       set_receive_window t w').
Proof.
  intros Hr Ha. unfold open_message. rewrite Ha.
  pose proof (accept_refines _ _ (nonce (header e)) Hr) as H.
  destruct (ReplayWindow_accept _ _) as [r w']. destruct (window_spec _ _) as [v acc'].
  destruct H as [-> H]. by exists w'.
Qed.

(** The counter inside the nonce of a frame. *)
Definition frame_counter (f : list Z) : Z :=
  match EncodedFrame_decode f with Ok e => nonce_counter (nonce (header e)) | _ => 0%Z end.

Lemma authenticate_decode t f e m : authenticate t f = Ok (e, m) -> EncodedFrame_decode f = Ok e.
Proof.
  unfold authenticate. destruct (EncodedFrame_decode f) as [e'| |]; try done.
  cbn [mbind res_bind]. do 2 (split_guard; [done|]).
  destruct (slice _ _ _); try done. cbn [mbind res_bind]. split_guard; [done|].
  destruct (FrameHeader_encode _); try done. cbn [mbind res_bind].
  destruct (aead_decrypt _ _ _ _); [|done]. intros H. apply (inj Ok) in H. by simplify_eq.
Qed.

(** One step of a receiver over arbitrary input. *)
Lemma open_message_step t f acc r t' :
  represents (receive_window t) acc -> open_message t f = (r, t') ->
  exists acc', represents (receive_window t') acc' /\ acc ⊆ acc' /\
    forall o, r = Ok o -> frame_counter f ∉ acc /\ frame_counter f ∈ acc'.
Proof.
  intros Hr Ho. destruct (authenticate t f) as [[e m]| |] eqn:Ha.
  - pose proof (open_message_spec t f e m acc Hr Ha) as H.
    destruct (window_spec acc _) as [v acc'] eqn:Ew. destruct H as (w' & Hw' & H).
    rewrite H in Ho. apply pair_equal_spec in Ho as [<- <-].
    exists acc'. split_and!; [done|by eapply window_spec_mono|]. intros o Hov.
    unfold frame_counter. rewrite (authenticate_decode _ _ _ _ Ha).
    destruct v; try done. apply window_spec_Fresh in Ew as [Hn ->].
    split; [done|]. by apply elem_of_union_l, elem_of_singleton.
  - unfold open_message in Ho. rewrite Ha in Ho. apply pair_equal_spec in Ho as [<- <-]. by exists acc.
  - unfold open_message in Ho. rewrite Ha in Ho. apply pair_equal_spec in Ho as [<- <-]. by exists acc.
Qed.

Lemma open_all_fresh fs t acc :
  represents (receive_window t) acc ->
  forall i f o, fs !! i = Some f -> fst (open_all t fs) !! i = Some (Ok o) -> frame_counter f ∉ acc.
Proof.
  revert t acc. induction fs as [|g fs IH]; intros t acc Hr i f o Hf Ho; [done|].
  simpl in Ho. destruct (open_message t g) as [r t'] eqn:Eo.
  destruct (open_message_step t g acc r t' Hr Eo) as (acc' & Hr' & Hsub & Hok).
  destruct (open_all t' fs) as [rs t''] eqn:Ea. destruct i as [|i]; simpl in *.
  - simplify_eq. by eapply Hok.
  - assert (frame_counter f ∉ acc') as Hn; [|by intros ?%Hsub].
    apply (IH t' acc' Hr' i f o Hf). by rewrite Ea.
Qed.

Lemma open_all_once fs t acc :
  represents (receive_window t) acc ->
  forall i j f g o p, (i < j)%nat -> fs !! i = Some f -> fs !! j = Some g ->
  fst (open_all t fs) !! i = Some (Ok o) -> fst (open_all t fs) !! j = Some (Ok p) ->
  frame_counter f <> frame_counter g.
Proof.
  revert t acc. induction fs as [|h fs IH]; intros t acc Hr i j f g o p Hij Hf Hg Ho Hp; [done|].
  simpl in Ho, Hp. destruct (open_message t h) as [r t'] eqn:Eo.
  destruct (open_message_step t h acc r t' Hr Eo) as (acc' & Hr' & Hsub & Hok).
  destruct (open_all t' fs) as [rs t''] eqn:Ea. destruct j as [|j]; [lia|].
  assert (rs = fst (open_all t' fs)) as -> by (by rewrite Ea).
  destruct i as [|i]; simpl in *.
  - simplify_eq. intros Heq. destruct (Hok o eq_refl) as [_ Hin]. rewrite Heq in Hin.
    by eapply open_all_fresh.
  - eapply (IH t' acc' Hr' i j); try done. lia.
Qed.

(** The frames that a healthy sender produces. *)
Lemma seal_all_ok `{!CryptoLaws P} ms s :
  wf_session s -> (counter (send_nonces s) + Z.of_nat (length ms) <= u64_max)%Z ->
  Forall (fun '(m, ty) => known_type ty = true /\ (Z.of_nat (length m) <= u32_max)%Z) ms ->
  exists fs, fst (seal_all s ms) = Ok <$> fs /\ length fs = length ms /\
    forall i m ty, ms !! i = Some (m, ty) ->
    exists f n, fs !! i = Some f /\ wire_frame s n ty m = Some f /\ wf_nonce n /\
      nonce_counter n = (counter (send_nonces s) + Z.of_nat i)%Z /\
      take 8 n = direction_prefix (send_nonces s) /\ known_type ty = true.
Proof.
  revert s. induction ms as [|[m ty] ms IH]; intros s Hwf Hc Hms; [by exists []|].
  apply Forall_cons in Hms as [[Hty Hm] Hms]. simpl length in Hc.
  destruct (seal_message_ok s m ty) as (n & f & s' & Hs & Hw & Hn & Hnc & Hpre & Hwf' & Hs' & Hc' & Hd');
    try done; [lia|].
  destruct (IH s' Hwf') as (fs & Hfs & Hlen & Hall); [lia|done|].
  exists (f :: fs). cbn [seal_all]. rewrite Hs. destruct (seal_all s' ms) as [rs s''].
  cbn [fst] in *. rewrite Hfs. split_and!; [done|simpl; lia|].
  intros [|i] m' ty' Hi; simpl in Hi.
  - simplify_eq. exists f, n. rewrite Z.add_0_r. by split_and!.
  - destruct (Hall i m' ty' Hi) as (f' & n' & Hf' & Hw' & Hn' & Hnc' & Hp' & Ht').
    exists f', n'. rewrite Hs' in Hw'. split_and!; try done; [|congruence].
    rewrite Hnc', Hc'. lia.
Qed.

Lemma decode_public_credential_encode `{!CryptoLaws P} b :
  length b = 32%nat -> Bytes b -> decode_public_credential (encode_public_credential b) = Ok b.
Proof.
  intros Hl Hb. unfold decode_public_credential, encode_public_credential, encode_key.
  rewrite strip_prefix_app. cbn [ok_or mbind res_bind]. unfold decode_base64_key.
  rewrite base64_roundtrip by done. cbn [ok_or mbind res_bind]. unfold key32. by rewrite Hl.
Qed.

(** Session construction between two derived credentials. *)
Lemma new_ok `{!CryptoLaws P} a b ia ib salt :
  length a = 32%nat -> length b = 32%nat ->
  let ca := encode_public_credential (x25519_public a) in
  let cb := encode_public_credential (x25519_public b) in
  let x := x25519 a (x25519_public b) in
  exists k p q, derive_session_key x ca cb ia ib = Ok k /\
    derive_direction_prefix x ia ib = Ok p /\ derive_direction_prefix x ib ia = Ok q /\
    PeerCryptoSession_new (Some salt) a ca cb ia ib =
      Ok (mkPeerCryptoSession ia ib k (mkSendNonceState p salt 0) ReplayWindow_default q).
Proof.
  intros Ha Hb ca cb x. destruct (x25519_public_wf b Hb) as [Hlb Hbb].
  unfold PeerCryptoSession_new, shared_secret, cb.
  rewrite decode_public_credential_encode by done. cbn [mbind res_bind]. fold cb x.
  unfold derive_session_key, derive_direction_prefix, hkdf_expand.
  set (i0 := append_sorted_pair _ (as_bytes _) _).
  set (i1 := DIRECTION_INFO_PREFIX ++ ia ++ ib). set (i2 := DIRECTION_INFO_PREFIX ++ ib ++ ia).
  destruct (hkdf_total SESSION_SALT x i0 32) as (k & -> & _); [lia|].
  destruct (hkdf_total SESSION_SALT x i1 8) as (p & -> & _); [lia|].
  destruct (hkdf_total SESSION_SALT x i2 8) as (q & -> & _); [lia|].
  by exists k, p, q.
Qed.

(** A delivery schedule: the positions of the frames that arrive, in order of
    arrival.  [seen] arrived before; a frame arrives at most once and is less
    than 64 frames behind everything that arrived before it. *)
Fixpoint in_window (seen schedule : list nat) : bool :=
  match schedule with
  | [] => true
  | i :: rest =>
      bool_decide (i ∉ seen) && bool_decide (Forall (fun j => j < i + 64)%nat seen) &&
      in_window (i :: seen) rest
  end.

(** The elements at the positions of a schedule. *)
Definition arrivals {A} (l : list A) (schedule : list nat) : list A :=
  omap (fun i => l !! i) schedule.

Lemma in_window_weaken schedule seen i :
  in_window (i :: seen) schedule = true -> in_window seen schedule = true.
Proof.
  assert (forall schedule a b, (forall x, x ∈ a -> x ∈ b) ->
    in_window b schedule = true -> in_window a schedule = true) as Hgen.
  { clear. induction schedule as [|i rest IH]; intros a b Hab; simpl; [done|].
    rewrite !andb_true_iff, !bool_decide_eq_true. intros [[Hi Hj] Hr]. split_and!.
    - intros Hin. by apply Hi, Hab.
    - apply Forall_forall. intros x Hx. by apply (proj1 (Forall_forall _ _) Hj), Hab.
    - eapply IH; [|exact Hr]. intros x [->|Hx]%elem_of_cons; [by left|right; auto]. }
  apply Hgen. by right.
Qed.

Definition counters (base : Z) (seen : list nat) : gset Z :=
  list_to_set ((fun i => (base + Z.of_nat i)%Z) <$> seen).

Lemma elem_of_counters base seen c :
  c ∈ counters base seen <-> exists i, i ∈ seen /\ c = (base + Z.of_nat i)%Z.
Proof.
  unfold counters. rewrite elem_of_list_to_set, list_elem_of_fmap. naive_solver.
Qed.

Lemma open_all_delivers `{!CryptoLaws P} s t base ms fs :
  mirrored s t -> wf_id (local_id s) -> wf_id (peer_id s) ->
  length fs = length ms ->
  (forall i m ty, ms !! i = Some (m, ty) ->
    exists f n, fs !! i = Some f /\ wire_frame s n ty m = Some f /\ wf_nonce n /\
      nonce_counter n = (base + Z.of_nat i)%Z /\
      take 8 n = direction_prefix (send_nonces s) /\ known_type ty = true) ->
  forall schedule seen w, in_window seen schedule = true ->
  represents w (counters base seen) ->
  fst (open_all (set_receive_window t w) (arrivals fs schedule)) =
  (fun '(m, ty) => Ok (mkOpenFrame ty m)) <$> arrivals ms schedule.
Proof.
  intros Hm Hl Hp Hlen Hall schedule. induction schedule as [|i rest IH]; intros seen w Hwin Hr; [done|].
  simpl in Hwin. apply andb_true_iff in Hwin as [[Hi Hj]%andb_true_iff Hrest]. to_prop.
  unfold arrivals in *. cbn [omap list_omap].
  destruct (ms !! i) as [[m ty]|] eqn:Emi.
  2: { rewrite (proj2 (lookup_ge_None fs i)) by (rewrite Hlen; by apply lookup_ge_None).
       apply (IH seen); [|done]. by eapply in_window_weaken. }
  destruct (Hall i m ty Emi) as (f & n & Hf & Hw & Hn & Hnc & Hpre & Hty). rewrite Hf.
  set (t0 := set_receive_window t w).
  assert (mirrored s t0) as Hm0 by done.
  destruct (authenticate_wire s t0 n ty m f Hm0) as [c Ha]; try done.
  { rewrite Hpre. apply Hm0. }
  pose proof (open_message_spec t0 f _ _ _ Hr Ha) as H. cbn [header FrameHeader_new nonce message_type] in H.
  rewrite Hnc in H. unfold window_spec in H. rewrite decide_False in H.
  2: { intros (h & (j & Hj' & ->)%elem_of_counters & Hle).
       apply (proj1 (Forall_forall _ _) Hj) in Hj'. unfold REPLAY_WINDOW_BITS in Hle. simpl in *. lia. }
  rewrite decide_False in H.
  2: { intros (j & Hj' & Heq)%elem_of_counters. by replace i with j in Hi by lia. }
  destruct H as (w' & Hw' & H). cbn [open_all]. rewrite H.
  specialize (IH (i :: seen) w' Hrest Hw').
  change (set_receive_window t0 w') with (set_receive_window t w').
  destruct (open_all (set_receive_window t w') _) as [rs t'']. cbn [fst] in *. by rewrite IH.
Qed.

End crypto.

(** ** A concrete instance of the primitives

    It satisfies the laws (it keeps nothing secret): the ciphertext is the
    plaintext followed by 16 bytes of key, nonce and associated data, public keys
    are the private ones and the shared secret is their exclusive or. *)

Definition toy_bytes (l : list Z) : list Z := (fun b => (b mod 256)%Z) <$> l.
Definition toy_tag (k n a : list Z) : list Z := take 16 (toy_bytes (k ++ n ++ a ++ replicate 16 0%Z)).
Definition toy_x25519 (a b : list Z) : list Z := zip_with Z.lxor (toy_bytes a) (toy_bytes b).

Definition toy_prims : CryptoPrims := {|
  aead_encrypt k n a m := Some (m ++ toy_tag k n a);
  aead_decrypt k n a c :=
    let l := (length c - length (toy_tag k n a))%nat in
    if decide (drop l c = toy_tag k n a) then Some (take l c) else None;
  x25519 := toy_x25519;
  x25519_public := toy_bytes;
  hkdf_sha256 salt secret info n :=
    Some (take n (toy_bytes (secret ++ info) ++ replicate n 0%Z));
  base64_encode := of_bytes;
  base64_decode s := Some (as_bytes s);
  uuid_parse s := if (length (as_bytes s) =? 16)%nat then Some (as_bytes s) else None;
|}.

Lemma toy_bytes_Bytes l : Bytes (toy_bytes l).
Proof.
  apply Forall_fmap, Forall_forall. intros b _. unfold is_u8, u8_max. simpl.
  pose proof (Z.mod_pos_bound b 256). lia.
Qed.

Lemma toy_bytes_idem l : toy_bytes (toy_bytes l) = toy_bytes l.
Proof.
  unfold toy_bytes. rewrite <- list_fmap_compose. apply list_fmap_ext.
  intros. simpl. by rewrite Z.mod_mod.
Qed.

Lemma zip_lxor_comm l k : zip_with Z.lxor l k = zip_with Z.lxor k l.
Proof. revert k. induction l as [|a l IH]; intros [|b k]; simpl; [done..|]. by rewrite Z.lxor_comm, IH. Qed.

Lemma toy_laws : CryptoLaws toy_prims.
Proof.
  split; simpl.
  - intros. by eexists.
  - intros k n a m c [= <-]. rewrite length_app, Nat.add_sub.
    rewrite drop_app_length, take_app_length. by rewrite decide_True.
  - intros k n a m c. case_decide as Hd; [|done]. intros [= <-]. f_equal.
    rewrite <- Hd at 2. apply take_drop.
  - intros k n a m c [= <-]. unfold toy_tag, toy_bytes.
    rewrite !length_app, length_take, length_fmap, !length_app, length_replicate. lia.
  - intros k n a m c [= <-] Hm. apply Bytes_app. split; [done|]. apply Bytes_take, toy_bytes_Bytes.
  - intros a b Ha Hb. unfold toy_x25519. rewrite !toy_bytes_idem. apply zip_lxor_comm.
  - intros a Ha. split; [by unfold toy_bytes; rewrite length_fmap|apply toy_bytes_Bytes].
  - intros salt secret info n Hn. eexists. split; [done|]. split.
    + rewrite length_take, length_app, length_replicate. lia.
    + apply Bytes_take, Bytes_app. split; [apply toy_bytes_Bytes|].
      apply Forall_replicate. unfold is_u8, u8_max. lia.
  - intros l Hl. by rewrite as_bytes_of_bytes.
  - intros s l. destruct (Nat.eqb_spec (length (as_bytes s)) 16) as [E|]; [|done]. intros [= <-].
    split; [done|apply as_bytes_Bytes].
Qed.
#[export] Hint Resolve toy_laws : tfs.

(** ** Properties *)

Section properties.
Context `{P : CryptoPrims, HL : !CryptoLaws P}.

(** Two devices that know each other's credentials derive mirrored sessions:
    both session constructions succeed, the two ends share the session key, and
    what one end uses as its sending nonce prefix the other end expects, in both
    directions. *)
Theorem sessions_mirrored a b ia ib salt_a salt_b :
  length a = 32%nat -> length b = 32%nat ->
  let ca := encode_public_credential (x25519_public a) in
  let cb := encode_public_credential (x25519_public b) in
  exists s t, PeerCryptoSession_new (Some salt_a) a ca cb ia ib = Ok s /\
    PeerCryptoSession_new (Some salt_b) b cb ca ib ia = Ok t /\
    mirrored s t /\ mirrored t s /\
    receive_window s = ReplayWindow_default /\ receive_window t = ReplayWindow_default /\
    counter (send_nonces s) = 0%Z /\ counter (send_nonces t) = 0%Z.
Proof.
  intros Ha Hb. cbv zeta. destruct (new_ok a b ia ib salt_a Ha Hb) as (k & p & q & Hk & Hp & Hq & ->).
  destruct (new_ok b a ib ia salt_b Hb Ha) as (k' & p' & q' & Hk' & Hp' & Hq' & ->).
  rewrite derive_session_key_comm, (x25519_agree b a) in Hk' by done.
  rewrite (x25519_agree b a) in Hp', Hq' by done.
  rewrite Hk in Hk'. rewrite Hq in Hp'. rewrite Hp in Hq'. simplify_eq.
  do 2 eexists. by split_and!.
Qed.

(** C4: authenticated delivery under loss and reordering: whatever a sender
    seals, the receiver at the other end opens to exactly what was sent, with
    the same message types, for any frames that arrive at most once and less
    than 64 frames late. *)
Theorem sealed_frames_delivered s t ms schedule :
  mirrored s t -> wf_session s -> receive_window t = ReplayWindow_default ->
  (counter (send_nonces s) + Z.of_nat (length ms) <= u64_max)%Z ->
  Forall (fun '(m, ty) => known_type ty = true /\ (Z.of_nat (length m) <= u32_max)%Z) ms ->
  in_window [] schedule = true ->
  exists fs, fst (seal_all s ms) = Ok <$> fs /\
    fst (open_all t (arrivals fs schedule)) =
    (fun '(m, ty) => Ok (mkOpenFrame ty m)) <$> arrivals ms schedule.
Proof.
  intros Hm Hwf Ht Hc Hms Hs. destruct (seal_all_ok ms s Hwf Hc Hms) as (fs & Hfs & Hlen & Hall).
  exists fs. split; [done|]. destruct Hwf as (Hl & Hp & _).
  replace t with (set_receive_window t ReplayWindow_default) by (rewrite <- Ht; by destruct t).
  by eapply (open_all_delivers s t _ ms fs Hm Hl Hp Hlen Hall schedule []).
Qed.

(** C19: no frame is opened twice: over any sequence of byte buffers given to a
    session with a fresh window, at two positions where opening succeeds, the
    buffers and their nonce counters are different. *)
Theorem frames_opened_once t fs i j f g o p :
  receive_window t = ReplayWindow_default -> i <> j ->
  fs !! i = Some f -> fs !! j = Some g ->
  fst (open_all t fs) !! i = Some (Ok o) -> fst (open_all t fs) !! j = Some (Ok p) ->
  frame_counter f <> frame_counter g /\ f <> g.
Proof.
  intros Ht Hij Hf Hg Ho Hp.
  assert (represents (receive_window t) ∅) as Hr by (rewrite Ht; apply represents_default).
  assert (frame_counter f <> frame_counter g) as Hne; [|split; congruence].
  destruct (decide (i < j)%nat).
  - by eapply (open_all_once fs t ∅ Hr i j).
  - apply not_eq_sym. eapply (open_all_once fs t ∅ Hr j i); try done. lia.
Qed.

(** C14: opening a frame: it never panics; an error leaves the session as it
    was; a success means that the frame is, byte for byte, what the other end
    puts on the wire for this plaintext and type with some nonce of its sending
    direction, and only the replay window of the session changes. *)
Theorem open_message_authentic s t f r t' :
  Bytes f -> mirrored s t -> open_message t f = (r, t') ->
  match r with
  | Ok o => exists n, wf_nonce n /\ take 8 n = direction_prefix (send_nonces s) /\
      wire_frame s n (of_message_type o) (of_plaintext o) = Some f /\
      t' = set_receive_window t (receive_window t')
  | Err _ => t' = t
  | Panic => False
  end.
Proof.
  intros HB (Hlp & Hpl & Hk & Hpre & _) Ho. unfold open_message in Ho.
  pose proof (authenticate_no_panic t f HB) as Hnp.
  destruct (authenticate t f) as [[e m]|er|] eqn:Ea; [|apply pair_equal_spec in Ho as [<- <-]; done..].
  destruct (authenticate_inv t f e m HB Ea) as (Hh & Hwf & Hty & Hn8 & Hf & Henc).
  pose proof (ReplayWindow_accept_no_panic (receive_window t) (nonce (header e))) as Hwp.
  pose proof (ReplayWindow_accept_err (receive_window t) (nonce (header e))) as Hwe.
  destruct (ReplayWindow_accept _ _) as [[[]|er|] w]; apply pair_equal_spec in Ho as [<- <-];
    cbn [mbind res_bind fst] in *; [| |done].
  - exists (nonce (header e)). split_and!; [apply Hwf|by rewrite Hpre| |done].
    unfold wire_frame. rewrite Hlp, Hpl, Hk. cbn [of_message_type of_plaintext].
    change (nonce (FrameHeader_new _ _ ?n _)) with n in Henc.
    rewrite Henc. cbn [mbind option_bind]. by rewrite <- Hf.
  - rewrite (Hwe _ _ eq_refl) by done. by destruct t.
Qed.

(** A sender that lost its state is locked out: when the receiver's window
    is at [h] and the sender's counter (zero after a restart, whatever its new
    salt) is 64 or more behind, what it seals is authentic and is rejected as
    stale. *)
Theorem restarted_sender_rejected s t h m ty :
  mirrored s t -> wf_session s -> highest (receive_window t) = Some h ->
  (counter (send_nonces s) + REPLAY_WINDOW_BITS <= h)%Z -> (h <= u64_max)%Z ->
  known_type ty = true -> (Z.of_nat (length m) <= u32_max)%Z ->
  exists f s', seal_message s m ty = (Ok f, s') /\
    open_message t f = (Err (failed "stale frame nonce"), t).
Proof.
  intros Hm Hwf Hh Hc Hmax Hty Hlen. unfold REPLAY_WINDOW_BITS in Hc.
  destruct (seal_message_ok s m ty) as (n & f & s' & Hs & Hw & Hn & Hnc & Hpre & _);
    try done; [lia|].
  exists f, s'. split; [done|]. destruct Hwf as (Hl & Hp & _).
  destruct (authenticate_wire s t n ty m f) as [c Ha]; try done.
  { rewrite Hpre. apply Hm. }
  unfold open_message. rewrite Ha. cbn [header FrameHeader_new nonce].
  unfold ReplayWindow_accept. rewrite Hh, Hnc.
  rewrite (proj2 (Z.ltb_ge _ _)) by lia. unfold REPLAY_WINDOW_BITS.
  rewrite (proj2 (Z.leb_le _ _)) by lia. cbn [mbind res_bind]. by destruct t.
Qed.

End properties.

(** ** Witnesses *)

Definition key_a : list Z := replicate 32 7%Z.
Definition key_b : list Z := replicate 32 9%Z.
Definition id_a : list Z := replicate 16 1%Z.
Definition id_b : list Z := replicate 16 2%Z.

Lemma sessions_mirrored_witness :
  exists s t,
    @PeerCryptoSession_new toy_prims (Some (replicate 8 4%Z)) key_a
      (@encode_public_credential toy_prims (@x25519_public toy_prims key_a))
      (@encode_public_credential toy_prims (@x25519_public toy_prims key_b)) id_a id_b = Ok s /\
    @PeerCryptoSession_new toy_prims (Some (replicate 8 5%Z)) key_b
      (@encode_public_credential toy_prims (@x25519_public toy_prims key_b))
      (@encode_public_credential toy_prims (@x25519_public toy_prims key_a)) id_b id_a = Ok t /\
    mirrored s t.
Proof.
  destruct (@sessions_mirrored toy_prims toy_laws key_a key_b id_a id_b
    (replicate 8 4%Z) (replicate 8 5%Z)) as (s & t & H1 & H2 & H3 & _); [reflexivity..|].
  by exists s, t.
Defined.

(** A pair of mirrored sessions; [w] is the receiving window of the second. *)
Definition end_a (c : Z) : PeerCryptoSession :=
  mkPeerCryptoSession id_a id_b [1%Z]
    (mkSendNonceState (replicate 8 3%Z) (replicate 8 4%Z) c) ReplayWindow_default (replicate 8 5%Z).
Definition end_b (w : ReplayWindow) : PeerCryptoSession :=
  mkPeerCryptoSession id_b id_a [1%Z]
    (mkSendNonceState (replicate 8 5%Z) (replicate 8 6%Z) 0) w (replicate 8 3%Z).

Lemma ends_mirrored c w : mirrored (end_a c) (end_b w).
Proof. done. Qed.

Lemma sealed_frames_delivered_witness :
  exists fs, fst (@seal_all toy_prims (end_a 5) [([1%Z], 1%Z); ([2%Z], 2%Z); ([3%Z], 1%Z)]) = Ok <$> fs /\
    fst (@open_all toy_prims (end_b ReplayWindow_default) (arrivals fs [2; 0]%nat)) =
    [Ok (mkOpenFrame 1 [3%Z]); Ok (mkOpenFrame 1 [1%Z])].
Proof.
  apply (@sealed_frames_delivered toy_prims toy_laws (end_a 5) (end_b ReplayWindow_default)
    [([1%Z], 1%Z); ([2%Z], 2%Z); ([3%Z], 1%Z)] [2; 0]%nat).
  - reflexivity || apply ends_mirrored.
  - unfold wf_session, wf_send. split_and!; by_decide.
  - reflexivity.
  - by_decide.
  - repeat constructor; vm_compute; congruence.
  - by_decide.
Defined.

Definition toy_frame (c : Z) (m : list Z) : list Z :=
  default [] (res_ok (fst (@seal_message toy_prims (end_a c) m FRAME_TYPE_DATA))).

Lemma frames_opened_once_witness :
  frame_counter (toy_frame 5 [1%Z]) <> frame_counter (toy_frame 6 [1%Z]) /\
  toy_frame 5 [1%Z] <> toy_frame 6 [1%Z].
Proof.
  apply (@frames_opened_once toy_prims (end_b ReplayWindow_default)
    [toy_frame 5 [1%Z]; toy_frame 5 [1%Z]; toy_frame 6 [1%Z]] 0 2 _ _
    (mkOpenFrame 1 [1%Z]) (mkOpenFrame 1 [1%Z])); [reflexivity|lia|by vm_compute..].
Defined.

Lemma open_message_authentic_witness :
  exists n, wf_nonce n /\ take 8 n = replicate 8 3%Z /\
    @wire_frame toy_prims (end_a 0) n 1 [1%Z] = Some (toy_frame 5 [1%Z]).
Proof.
  destruct (@open_message_authentic toy_prims toy_laws (end_a 0) (end_b ReplayWindow_default)
    (toy_frame 5 [1%Z]) (Ok (mkOpenFrame 1 [1%Z])) (end_b (mkReplayWindow (Some 5%Z) 1)))
    as (n & Hn & H8 & Hw & _).
  - by_decide.
  - apply ends_mirrored.
  - by vm_compute.
  - by exists n.
Defined.

Lemma restarted_sender_rejected_witness :
  exists f s', @seal_message toy_prims (end_a 0) [1%Z] 1 = (Ok f, s') /\
    @open_message toy_prims (end_b (mkReplayWindow (Some 64%Z) 1)) f =
      (Err (failed "stale frame nonce"), end_b (mkReplayWindow (Some 64%Z) 1)).
Proof.
  apply (@restarted_sender_rejected toy_prims toy_laws (end_a 0)
    (end_b (mkReplayWindow (Some 64%Z) 1)) 64 [1%Z] 1);
    [apply ends_mirrored|unfold wf_session, wf_send; split_and!; by_decide|reflexivity|by_decide..].
Defined.
