(* ===== verification/Transport.v ===== *)
(** * UDP transport ([transport.rs]) and TUN configuration ([tun.rs])

    What the operating system answers to a call on the socket is an argument:
    the outcome of [send_to] is a function of the datagram, the outcomes of
    [recv_from] are given one by one.  The datagrams handed to the socket are
    recorded in the state. *)

From Stdlib Require Import ZArith Lia.
From Stdlib Require Import Sorting.Sorted.
From stdpp Require Import prelude list strings gmap.
From S2P Require Import Prelude RustStd RustText Protocol Frame Nonce Crypto.

(** ** State *)

Record TransportStatus : Type := mkTransportStatus {
  udp_bound : bool;
  ts_local_endpoints : Z;
  transport_peers : Z;
  reachable_peers : Z;
  tx_packets : Z;
  rx_packets : Z;
  tx_drops : Z;
  rx_drops : Z;
  bound_at : option Z;
}.

Definition TransportStatus_default : TransportStatus := mkTransportStatus false 0 0 0 0 0 0 0 None.

Record TransportRuntime : Type := mkTransportRuntime {
  local_addr : SocketAddr;
  local_endpoint : Endpoint;
  transport_status : TransportStatus;
  sent : list (SocketAddr * list Z);
}.

(** The counters are [u64] and wrap in a release build. *)
Definition count_tx (s : TransportStatus) : TransportStatus :=
  mkTransportStatus (udp_bound s) (ts_local_endpoints s) (transport_peers s) (reachable_peers s)
    (wrap64 (tx_packets s + 1)) (rx_packets s) (tx_drops s) (rx_drops s) (bound_at s).
Definition count_rx (s : TransportStatus) : TransportStatus :=
  mkTransportStatus (udp_bound s) (ts_local_endpoints s) (transport_peers s) (reachable_peers s)
    (tx_packets s) (wrap64 (rx_packets s + 1)) (tx_drops s) (rx_drops s) (bound_at s).
Definition count_tx_drop (s : TransportStatus) : TransportStatus :=
  mkTransportStatus (udp_bound s) (ts_local_endpoints s) (transport_peers s) (reachable_peers s)
    (tx_packets s) (rx_packets s) (wrap64 (tx_drops s + 1)) (rx_drops s) (bound_at s).
Definition count_rx_drop (s : TransportStatus) : TransportStatus :=
  mkTransportStatus (udp_bound s) (ts_local_endpoints s) (transport_peers s) (reachable_peers s)
    (tx_packets s) (rx_packets s) (tx_drops s) (wrap64 (rx_drops s + 1)) (bound_at s).

Definition set_status (t : TransportRuntime) (f : TransportStatus -> TransportStatus) : TransportRuntime :=
  mkTransportRuntime (local_addr t) (local_endpoint t) (f (transport_status t)) (sent t).
Definition push_sent (t : TransportRuntime) (a : SocketAddr) (b : list Z) : TransportRuntime :=
  mkTransportRuntime (local_addr t) (local_endpoint t) (transport_status t) (sent t ++ [(a, b)]).

(** ** Endpoints *)

Definition is_cgnat_ipv4 (address : Ipv4Addr) : bool :=
  match address with Ipv4 a b _ _ => (a =? 100)%Z && in_range 64 127 b end.

Definition is_private_lan (address : IpAddr) : bool :=
  match address with
  | V4 address => is_private address || is_link_local address || is_cgnat_ipv4 address
  | V6 segments => is_unique_local segments || is_unicast_link_local segments
  end.

Definition endpoint_rank (endpoint : Endpoint) : Z :=
  match ep_kind endpoint with
  | Lan => if is_private_lan (ep_address endpoint) then 0 else 3
  | Ipv6Kind => 1
  | Public => 2
  | Relay => 4
  end.

Definition is_udp (endpoint : Endpoint) : bool := bool_decide (ep_protocol endpoint = Udp).

(** [Iterator::min_by_key]: the first of the minimal elements. *)
Fixpoint min_by_rank (l : list Endpoint) : option Endpoint :=
  match l with
  | [] => None
  | x :: l =>
      match min_by_rank l with
      | None => Some x
      | Some y => if (endpoint_rank x <=? endpoint_rank y)%Z then Some x else Some y
      end
  end.

Definition select_udp_endpoint (endpoints : list Endpoint) : option Endpoint :=
  min_by_rank (List.filter is_udp endpoints).

Definition rank_leb (x y : Endpoint) : bool := (endpoint_rank x <=? endpoint_rank y)%Z.

Definition sorted_udp_endpoints (endpoints : list Endpoint) : list Endpoint :=
  sort_by rank_leb (List.filter is_udp endpoints).

Definition endpoint_socket_addr (endpoint : Endpoint) : res BackendError SocketAddr :=
  if negb (is_udp endpoint) then Err (failed "endpoint is not UDP transport")
  else Ok (mkSocketAddr (ep_address endpoint) (ep_port endpoint)).

(** ** Operations *)

(** The outcome of a system call. *)
Definition io (A : Type) : Type := io_kind + A.

(** [discover_lan_ipv4]: the outcomes of the calls it makes. *)
Definition discover_lan_ipv4 (bind connect : io unit) (local : io SocketAddr) : option Ipv4Addr :=
  match bind, connect, local with
  | inr _, inr _, inr addr =>
      match ip addr with
      | V4 address => if is_unspecified address then None else Some address
      | V6 _ => None
      end
  | _, _, _ => None
  end.

Definition io_err {A} (r : io A) : res BackendError A :=
  match r with inr a => Ok a | inl k => Err (failed_with (IoError k)) end.

(** [TransportRuntime::bind], given the outcomes of [bind], [set_nonblocking],
    [local_addr], the LAN address found and the time. *)
Definition TransportRuntime_bind (bind nonblocking : io unit) (addr : io SocketAddr)
    (lan : option Ipv4Addr) (now : Z) : res BackendError TransportRuntime :=
  _ ← io_err bind;
  _ ← io_err nonblocking;
  local_addr ← io_err addr;
  let local_endpoint := mkEndpoint Lan (V4 (default LOCALHOST lan)) (sa_port local_addr) Udp in
  Ok (mkTransportRuntime local_addr local_endpoint
        (mkTransportStatus true 1 0 0 0 0 0 0 (Some now)) []).

Definition local_endpoints (self : TransportRuntime) : list Endpoint := [local_endpoint self].

Definition PUBLIC_ENDPOINT_PROBE_REQUEST : list Z := as_bytes "tfscale-public-probe-v1".

Definition encode_probe_response (observed : SocketAddr) : list Z :=
  as_bytes ("tfscale-public-probe-v1 " +:+ ip_to_string (ip observed) +:+ " " +:+ dec (sa_port observed)).

Definition decode_probe_response (bytes : list Z)
    : res BackendError (option PublicEndpointProbe) :=
  text ← ok_or (failed_with Utf8Error) (from_utf8 bytes);
  match split_whitespace text with
  | magic :: rest =>
      if negb (bool_decide (magic = "tfscale-public-probe-v1")) then Ok None
      else
        match rest with
        | address :: port :: _ =>
            address ← ok_or (CommandFailed (MForeign "invalid probe address: " AddrParseError))
                        (parse_ip address);
            port ← ok_or (CommandFailed (MForeign "invalid probe port: " ParseIntError))
                     (parse_uint u16_max port);
            Ok (Some (mkPublicEndpointProbe (mkEndpoint Public address port Udp)))
        | _ => Ok None
        end
  | [] => Ok None
  end.

Section socket.
Context `{P : CryptoPrims}.
(** What [send_to] answers. *)
Context (os_send : SocketAddr -> list Z -> io Z).

Definition send_frame (self : TransportRuntime) (endpoint : Endpoint) (frame : list Z)
    : res BackendError Z * TransportRuntime :=
  match endpoint_socket_addr endpoint with
  | Ok socket_addr =>
      match os_send socket_addr frame with
      | inr bytes => (Ok bytes, set_status (push_sent self socket_addr frame) count_tx)
      | inl k => (Err (failed_with (IoError k)), set_status self count_tx_drop)
      end
  | Err e => (Err e, self)
  | Panic => (Panic, self)
  end.

Definition send_packet (self : TransportRuntime) (endpoint : Endpoint) (crypto : PeerCryptoSession)
    (packet : list Z) : res BackendError Z * TransportRuntime * PeerCryptoSession :=
  let '(r, crypto) := seal crypto packet in
  match r with
  | Ok frame => (send_frame self endpoint frame, crypto)
  | Err e => (Err e, set_status self count_tx_drop, crypto)
  | Panic => (Panic, self, crypto)
  end.

(** [recv_from] on a buffer of some length, given the datagram that arrives: the
    excess bytes are discarded. *)
Definition recv_from (buffer : nat) (recv : io (list Z * SocketAddr)) : io (list Z * SocketAddr) :=
  match recv with inr (datagram, source) => inr (take buffer datagram, source) | inl k => inl k end.

Definition receive_frame (self : TransportRuntime) (buffer : nat) (recv : io (list Z * SocketAddr))
    : res BackendError (option (list Z * SocketAddr)) * TransportRuntime :=
  match recv_from buffer recv with
  | inr received => (Ok (Some received), set_status self count_rx)
  | inl WouldBlock => (Ok None, self)
  | inl k => (Err (failed_with (IoError k)), set_status self count_rx_drop)
  end.

Definition receive_packet (self : TransportRuntime) (crypto : PeerCryptoSession) (buffer : nat)
    (recv : io (list Z * SocketAddr))
    : res BackendError (option (list Z)) * TransportRuntime * PeerCryptoSession :=
  let '(r, self) := receive_frame self buffer recv in
  match r with
  | Ok (Some (frame, _)) =>
      let '(r, crypto) := open crypto frame in
      match r with
      | Ok packet => (Ok (Some packet), self, crypto)
      | Err e => (Err e, set_status self count_rx_drop, crypto)
      | Panic => (Panic, self, crypto)
      end
  | Ok None => (Ok None, self, crypto)
  | Err e => (Err e, self, crypto)
  | Panic => (Panic, self, crypto)
  end.

Definition record_rx_drop (self : TransportRuntime) : TransportRuntime :=
  set_status self count_rx_drop.

Definition send_probe_request (self : TransportRuntime) (probe_server : SocketAddr)
    : res BackendError unit * TransportRuntime :=
  match os_send probe_server PUBLIC_ENDPOINT_PROBE_REQUEST with
  | inr _ => (Ok tt, set_status (push_sent self probe_server PUBLIC_ENDPOINT_PROBE_REQUEST) count_tx)
  | inl k => (Err (failed_with (IoError k)), set_status self count_tx_drop)
  end.

(** The loop of [probe_public_endpoint]: what arrives each time, for a buffer
    of 256 bytes, and whether the deadline has passed by then; [None] when the loop is still
    running after these answers. *)
Fixpoint probe_loop (self : TransportRuntime) (probe_server : SocketAddr)
    (answers : list (io (list Z * SocketAddr) * bool))
    : option (res BackendError (option PublicEndpointProbe) * TransportRuntime) :=
  match answers with
  | [] => None
  | (inr (datagram, source), _) :: rest =>
      let bytes := take 256 datagram in
      let self := set_status self count_rx in
      if bool_decide (source = probe_server) then Some (decode_probe_response bytes, self)
      else probe_loop self probe_server rest
  | (inl WouldBlock, deadline_passed) :: rest =>
      if deadline_passed : bool then Some (Ok None, self) else probe_loop self probe_server rest
  | (inl k, _) :: _ => Some (Err (failed_with (IoError k)), set_status self count_rx_drop)
  end.

(** The method of [TransportRuntime]. *)
Definition transport_probe_public_endpoint (self : TransportRuntime) (probe_server : SocketAddr)
    (answers : list (io (list Z * SocketAddr) * bool))
    : option (res BackendError (option PublicEndpointProbe) * TransportRuntime) :=
  match send_probe_request self probe_server with
  | (Ok tt, self) => probe_loop self probe_server answers
  | (Err e, self) => Some (Err e, self)
  | (Panic, self) => Some (Panic, self)
  end.
End socket.

(** ** TUN configuration *)

Definition OVERLAY_CIDR : string := "100.64.0.0/10".

Record TunConfig : Type := mkTunConfig {
  tc_interface_name : string;
  tc_overlay_ip : Ipv4Addr;
  tc_listen_port : Z;
  overlay_cidr : string;
}.

Definition from_local_config (config : LocalBackendConfig) : TunConfig :=
  mkTunConfig (lc_interface_name config) (lc_overlay_ip config) (lc_listen_port config) OVERLAY_CIDR.

Record TunStatus : Type := mkTunStatus {
  configured : bool;
  tun_interface_name : string;
  io_ready : bool;
  tun_message : option message;
}.

Definition TunStatus_configured (interface_name : string) : TunStatus :=
  mkTunStatus true interface_name true None.
Definition TunStatus_failed (interface_name : string) (m : message) : TunStatus :=
  mkTunStatus false interface_name false (Some m).

(** ** Lemmas *)

Lemma min_by_rank_head l : min_by_rank l = head (sort_by rank_leb l).
Proof.
  induction l as [|x l IH]; [done|]. simpl. rewrite IH.
  destruct (sort_by rank_leb l) as [|y r]; simpl; [done|].
  unfold rank_leb. by destruct (_ <=? _)%Z.
Qed.

Lemma rank_leb_total x y : rank_leb x y = false -> rank_leb y x = true.
Proof. unfold rank_leb. rewrite Z.leb_gt, Z.leb_le. lia. Qed.

(** Sorting keeps the order of endpoints of equal rank. *)
Lemma insert_by_rank_stable r x l :
  Sorted (fun a b => rank_leb a b = true) l ->
  List.filter (fun e => endpoint_rank e =? r)%Z (insert_by rank_leb x l) =
  List.filter (fun e => endpoint_rank e =? r)%Z (x :: l).
Proof.
  induction l as [|y l IH]; intros Hs; [done|]. cbn [insert_by].
  destruct (rank_leb x y) eqn:E; [done|]. inversion Hs as [|? ? Hs' _]; subst.
  cbn [List.filter] in *. rewrite (IH Hs'). cbn [List.filter].
  unfold rank_leb in E. to_prop.
  destruct (Z.eqb_spec (endpoint_rank x) r), (Z.eqb_spec (endpoint_rank y) r); try done. lia.
Qed.

Lemma sorted_stable r l :
  List.filter (fun e => endpoint_rank e =? r)%Z (sort_by rank_leb l) =
  List.filter (fun e => endpoint_rank e =? r)%Z l.
Proof.
  induction l as [|x l IH]; [done|].
  change (sort_by rank_leb (x :: l)) with (insert_by rank_leb x (sort_by rank_leb l)).
  rewrite insert_by_rank_stable by apply sort_by_sorted, rank_leb_total.
  cbn [List.filter]. by rewrite IH.
Qed.

(** A sorted list is its ranks one after the other. *)
Lemma sorted_groups l :
  Sorted (fun a b => rank_leb a b = true) l ->
  l = [0; 1; 2; 3; 4]%Z ≫= (fun r => List.filter (fun e => endpoint_rank e =? r)%Z l).
Proof.
  intros Hs. apply Sorted_StronglySorted in Hs;
    [|intros x y z; unfold rank_leb; rewrite !Z.leb_le; lia].
  induction Hs as [|x l _ IH Hx]; [done|].
  assert (forall r, (r < endpoint_rank x)%Z -> List.filter (fun e => endpoint_rank e =? r)%Z l = []) as Hlow.
  { intros r Hr. clear IH. induction Hx as [|y l Hy _ IH]; [done|]. cbn [List.filter]. unfold rank_leb in Hy. to_prop.
    rewrite (proj2 (Z.eqb_neq _ _)) by lia. exact IH. }
  assert (endpoint_rank x = 0 \/ endpoint_rank x = 1 \/ endpoint_rank x = 2 \/ endpoint_rank x = 3 \/
          endpoint_rank x = 4)%Z as Hr.
  { unfold endpoint_rank. destruct (ep_kind x), (is_private_lan (ep_address x)); lia. }
  cbn [mbind list_bind List.filter] in *. rewrite app_nil_r in *.
  destruct Hr as [Hr|[Hr|[Hr|[Hr|Hr]]]]; rewrite Hr; cbn [Z.eqb Pos.eqb]; rewrite ?(Hlow 0%Z), ?(Hlow 1%Z), ?(Hlow 2%Z),
    ?(Hlow 3%Z) in IH |- * by lia; cbn [app] in *; congruence.
Qed.

(** ** Address blocks *)

(** The bits of an IPv4 address, and a block of addresses with a common prefix. *)
Definition ipv4_bits (x : Ipv4Addr) : Z := match x with Ipv4 a b c d => (((a * 256 + b) * 256 + c) * 256 + d)%Z end.
Definition in_block (width value : Z) (block : Z * Z) : bool :=
  let '(network, prefix) := block in (Z.shiftr value (width - prefix) =? Z.shiftr network (width - prefix))%Z.

Definition lan_blocks4 : list (Z * Z) :=
  [(ipv4_bits (Ipv4 10 0 0 0), 8); (ipv4_bits (Ipv4 172 16 0 0), 12); (ipv4_bits (Ipv4 192 168 0 0), 16);
   (ipv4_bits (Ipv4 169 254 0 0), 16); (ipv4_bits (Ipv4 100 64 0 0), 10)]%Z.
(** [fc00::/7] and [fe80::/10], on the first segment. *)
Definition lan_blocks6 : list (Z * Z) := [(64512, 7); (65152, 10)]%Z.

Definition on_lan (address : IpAddr) : bool :=
  match address with
  | V4 x => existsb (in_block 32 (ipv4_bits x)) lan_blocks4
  | V6 segments => existsb (in_block 16 (default 0%Z (head segments))) lan_blocks6
  end.

Lemma on_lan4 a b c d :
  Ipv4_wf (Ipv4 a b c d) -> on_lan (V4 (Ipv4 a b c d)) = is_private_lan (V4 (Ipv4 a b c d)).
Proof.
  unfold Ipv4_wf, Bytes. cbn [octets]. rewrite !Forall_cons. unfold is_u8, u8_max. intros (Ha & Hb & Hc & Hd & _).
  cbn [on_lan is_private_lan is_private is_link_local is_cgnat_ipv4 existsb lan_blocks4]. unfold in_block, ipv4_bits, in_range.
  rewrite !Z.shiftr_div_pow2 by lia. cbn [Z.sub Z.add Z.opp Z.pos_sub Pos.pred_double Pos.add Z.mul Pos.mul].
  change (2 ^ (32 - 8))%Z with 16777216%Z. change (2 ^ (32 - 12))%Z with 1048576%Z.
  change (2 ^ (32 - 16))%Z with 65536%Z. change (2 ^ (32 - 10))%Z with 4194304%Z.
  apply eq_iff_eq_true. rewrite !orb_true_iff, !andb_true_iff, !Z.eqb_eq, !Z.leb_le.
  Z.to_euclidean_division_equations. lia.
Qed.

Lemma on_lan6 s : is_u16 s -> existsb (in_block 16 s) lan_blocks6 = is_unique_local [s] || is_unicast_link_local [s].
Proof.
  intros Hs. apply eqb_prop. revert s Hs.
  apply (u16_forall (fun s => eqb (existsb (in_block 16 s) lan_blocks6) (is_unique_local [s] || is_unicast_link_local [s]))).
  vm_compute. reflexivity.
Qed.

Lemma on_lan_spec x : Ip_wf x -> on_lan x = is_private_lan x.
Proof.
  destruct x as [[a b c d]|[|s l]]; [by apply on_lan4|by intros [? _]|].
  intros [_ [Hs _]%Forall_cons]. cbn [on_lan is_private_lan head default]. by apply on_lan6.
Qed.

Lemma decode_encode_probe addr port :
  Ipv4_wf addr -> is_u16 port ->
  decode_probe_response (encode_probe_response (mkSocketAddr (V4 addr) port)) =
  Ok (Some (mkPublicEndpointProbe (mkEndpoint Public (V4 addr) port Udp))).
Proof.
  intros Ha Hp. unfold encode_probe_response, decode_probe_response. cbn [ip sa_port].
  set (magic := "tfscale-public-probe-v1").
  assert (Forall visible (as_bytes magic)) as Hm.
  { unfold visible. by_decide. }
  pose proof (ipv4_visible addr) as Hav. pose proof (dec_visible port) as Hpv.
  change ("tfscale-public-probe-v1 " +:+ ip_to_string (V4 addr) +:+ " " +:+ dec port)
    with (magic +:+ " " +:+ ipv4_to_string addr +:+ " " +:+ dec port).
  unfold from_utf8. rewrite utf8_ascii; cycle 1.
  { rewrite !as_bytes_app. change (as_bytes " ") with [32%Z].
    assert (forall l, Forall visible l -> Forall (fun b => 0 <= b < 128)%Z l) as Hv.
    { intros l Hl. eapply Forall_impl; [exact Hl|]. unfold visible. simpl. lia. }
    repeat (apply Forall_app; split); auto; (constructor; [lia|constructor]). }
  cbn [ok_or mbind res_bind]. rewrite of_bytes_as_bytes, split_whitespace_words3; try done.
  - rewrite bool_decide_eq_true_2 by done. cbn [negb].
    change (parse_ip (ipv4_to_string addr)) with (parse_ip (ip_to_string (V4 addr))).
    rewrite parse_ip_print by done. cbn [ok_or mbind res_bind].
    rewrite parse_uint_dec by (unfold is_u16 in Hp; done). done.
  - destruct addr. unfold ipv4_to_string. rewrite as_bytes_app.
    pose proof (dec_nonempty a) as Hd. by destruct (dec a).
  - pose proof (dec_nonempty port) as Hd. by destruct (dec port).
Qed.

(** ** Properties *)

(** The order in which endpoints are tried, written out: LAN endpoints inside the
    address blocks of local networks, then IPv6, then public ones, then other LAN
    endpoints, then relays, each group as it was reported. *)
Definition preference (endpoints : list Endpoint) : list Endpoint :=
  let among p := List.filter p (List.filter (fun e => bool_decide (ep_protocol e = Udp)) endpoints) in
  let of_kind k e := bool_decide (ep_kind e = k) in
  among (fun e => of_kind Lan e && on_lan (ep_address e)) ++ among (of_kind Ipv6Kind) ++ among (of_kind Public) ++
  among (fun e => of_kind Lan e && negb (on_lan (ep_address e))) ++ among (of_kind Relay).


