(* ===== verification/LineReader.v ===== *)
(** * Reading lines from the relay ([lib.rs], [spawn_relay_to_tun_loop])

    The relay reader of the custom backend wraps its stream in a [BufReader] and
    calls [read_line] with a new [String] on every turn, under a read timeout.
    The outcomes of [read] on the socket are given one by one: some bytes, no
    bytes (the end of the stream) or an error; [Interrupted] is retried by the
    standard library and is not an outcome here.  What matters is what happens to
    the bytes of a line that a timeout cuts. *)

From Stdlib Require Import ZArith Lia.
From stdpp Require Import prelude list strings.
From S2P Require Import Prelude RustStd Transport.

(** ** [BufRead::read_line] *)

Definition NEWLINE : Z := 10.

(** The bytes up to and including the first newline, and the rest. *)
Fixpoint split_line (l : list Z) : option (list Z * list Z) :=
  match l with
  | [] => None
  | b :: l =>
      if (b =? NEWLINE)%Z then Some ([b], l)
      else '(line, rest) ← split_line l; Some (b :: line, rest)
  end.

(** [read_until]: [buffer] are the bytes in the [BufReader], [line] the bytes
    already moved to the caller.  [None] when no more outcomes are given: the call
    has not returned. *)
Fixpoint read_until (buffer line : list Z) (reads : list (io (list Z)))
    : option (io (list Z) * list Z * list (io (list Z))) :=
  match split_line buffer with
  | Some (l, rest) => Some (inr (line ++ l), rest, reads)
  | None =>
      match reads with
      | [] => None
      | inl k :: reads => Some (inl k, [], reads)
      | inr [] :: reads => Some (inr (line ++ buffer), [], reads)
      | inr chunk :: reads => read_until chunk (line ++ buffer) reads
      end
  end.

(** A line that is no UTF-8 is an error of kind [InvalidData]. *)
Definition read_line (buffer : list Z) (reads : list (io (list Z)))
    : option (io string * list Z * list (io (list Z))) :=
  '(r, buffer, reads) ← read_until buffer [] reads;
  Some (match r with
        | inl k => inl k
        | inr bytes => match from_utf8 bytes with Some s => inr s | None => inl OtherKind end
        end, buffer, reads).

(** [matches!(error.kind(), WouldBlock | TimedOut)]. *)
Definition timed_out (k : io_kind) : bool :=
  match k with WouldBlock | TimedOut => true | _ => false end.

(** The loop around [read_line], while nobody asks it to stop: the lines that it
    hands to the parser.  A turn consumes a byte or an outcome, which bounds the
    turns ([turns_enough]). *)
Fixpoint reader_lines (turns : nat) (buffer : list Z) (reads : list (io (list Z))) : list string :=
  match turns with
  | O => []
  | S turns =>
      match read_line buffer reads with
      | None => []
      | Some (inr line, buffer, reads) =>
          if is_empty line then [] else line :: reader_lines turns buffer reads
      | Some (inl k, buffer, reads) =>
          if timed_out k then reader_lines turns buffer reads else []
      end
  end.

Definition chunk_len (r : io (list Z)) : nat := match r with inr c => length c | inl _ => 0 end.
Definition turns_enough (buffer : list Z) (reads : list (io (list Z))) : nat :=
  S (length buffer + sum_list_with (fun r => S (chunk_len r)) reads).

(** ** The reference: one byte at a time *)

(** What arrives: a byte, a pause longer than the timeout, another error, the
    end. *)
Inductive item : Type := Byte (b : Z) | Pause | Failure | End.

Definition items_of (r : io (list Z)) : list item :=
  match r with
  | inr [] => [End]
  | inr chunk => Byte <$> chunk
  | inl k => [if timed_out k then Pause else Failure]
  end.
Definition flatten (reads : list (io (list Z))) : list item := reads ≫= items_of.

(** A pause forgets the bytes before it. *)
Fixpoint lines_spec (line : list Z) (items : list item) : list string :=
  match items with
  | [] => []
  | Byte b :: items =>
      if (b =? NEWLINE)%Z then
        match from_utf8 (line ++ [b]) with
        | Some s => s :: lines_spec [] items
        | None => []
        end
      else lines_spec (line ++ [b]) items
  | Pause :: items => lines_spec [] items
  | Failure :: _ => []
  | End :: items =>
      match line with
      | [] => []
      | _ => match from_utf8 line with Some s => s :: lines_spec [] items | None => [] end
      end
  end.

(** ** The reader implements the reference *)

Lemma split_line_None l : split_line l = None <-> Forall (fun b => b <> NEWLINE) l.
Proof.
  induction l as [|b l IH]; simpl; [done|]. destruct (b =? NEWLINE)%Z eqn:E; to_prop.
  - subst b. split; [done|]. by intros [? ?]%Forall_cons.
  - rewrite Forall_cons, <- IH. destruct (split_line l) as [[x y]|]; naive_solver.
Qed.

Lemma split_line_Some l x y :
  split_line l = Some (x, y) -> exists p, x = p ++ [NEWLINE] /\ l = x ++ y /\ Forall (fun b => b <> NEWLINE) p.
Proof.
  revert x. induction l as [|b l IH]; intros x; simpl; [done|]. destruct (b =? NEWLINE)%Z eqn:E; to_prop.
  - intros [= <- <-]. exists []. by subst b.
  - destruct (split_line l) as [[x' y']|]; [|done]. intros [= <- <-].
    destruct (IH x' eq_refl) as (p & -> & -> & Hp). exists (b :: p). split_and!; try done. by constructor.
Qed.

Lemma split_line_app p r :
  Forall (fun b => b <> NEWLINE) p -> split_line (p ++ NEWLINE :: r) = Some (p ++ [NEWLINE], r).
Proof.
  induction 1 as [|b p Hb _ IH]; simpl; [done|]. rewrite (proj2 (Z.eqb_neq _ _) Hb), IH. done.
Qed.

(** Bytes before a newline only grow the line. *)
Lemma lines_spec_bytes p line items :
  Forall (fun b => b <> NEWLINE) p -> lines_spec line ((Byte <$> p) ++ items) = lines_spec (line ++ p) items.
Proof.
  intros Hp. revert line. induction Hp as [|b p Hb _ IH]; intros line; simpl; [by rewrite app_nil_r|].
  rewrite (proj2 (Z.eqb_neq _ _) Hb), IH, <- app_assoc. done.
Qed.

Lemma lines_spec_line p line items :
  Forall (fun b => b <> NEWLINE) p ->
  lines_spec line ((Byte <$> p ++ [NEWLINE]) ++ items) =
  match from_utf8 (line ++ p ++ [NEWLINE]) with Some s => s :: lines_spec [] items | None => [] end.
Proof.
  intros Hp. rewrite fmap_app, <- app_assoc, lines_spec_bytes by done. simpl. by rewrite <- app_assoc.
Qed.

(** What is left to arrive when [buffer] was read ahead. *)
Definition pending (buffer : list Z) (reads : list (io (list Z))) : list item :=
  (Byte <$> buffer) ++ flatten reads.

Lemma items_of_chunk c : c <> [] -> items_of (inr c) = Byte <$> c.
Proof. by destruct c. Qed.

(** What one call of [read_until] leaves of the reference. *)
Definition spec_after (r : io (list Z)) (buffer : list Z) (reads : list (io (list Z))) : list string :=
  match r with
  | inl k => if timed_out k then lines_spec [] (pending buffer reads) else []
  | inr bytes =>
      match bytes with
      | [] => []
      | _ => match from_utf8 bytes with Some s => s :: lines_spec [] (pending buffer reads) | None => [] end
      end
  end.

Lemma read_until_spec reads : forall buffer line,
  match read_until buffer line reads with
  | None => lines_spec line (pending buffer reads) = []
  | Some (r, buffer', reads') =>
      lines_spec line (pending buffer reads) = spec_after r buffer' reads' /\
      (length buffer' + sum_list_with (fun r => S (chunk_len r)) reads' <
       length buffer + sum_list_with (fun r => S (chunk_len r)) reads)%nat
  end.
Proof.
  induction reads as [|x reads IH]; intros buffer line; cbn [read_until];
    (destruct (split_line buffer) as [[l rest]|] eqn:E;
     [apply split_line_Some in E as (p & -> & -> & Hp)|apply split_line_None in E]).
  1,3: (split; [|rewrite !length_app; simpl; lia];
    unfold pending; rewrite fmap_app, <- app_assoc, lines_spec_line by done; unfold spec_after, pending;
    rewrite app_assoc; by destruct (line ++ p)).
  - unfold pending. rewrite lines_spec_bytes by done. done.
  - unfold pending. rewrite lines_spec_bytes by done.
    destruct x as [k|[|b c]]; cbn [flatten mbind list_bind items_of chunk_len].
    + split; [|simpl; lia]. simpl. by destruct (timed_out k).
    + split; [|simpl; lia]. simpl. by destruct (line ++ buffer).
    + specialize (IH (b :: c) (line ++ buffer)). unfold pending in IH.
      destruct (read_until (b :: c) (line ++ buffer) reads) as [[[r buf] rds]|]; [|exact IH].
      destruct IH as [H1 H2]. split; [exact H1|]. cbn [sum_list_with chunk_len length] in *. lia.
Qed.

Lemma of_bytes_empty l : is_empty (of_bytes l) = bool_decide (l = []).
Proof. by destruct l. Qed.

Lemma from_utf8_empty l s : from_utf8 l = Some s -> is_empty s = bool_decide (l = []).
Proof. unfold from_utf8. destruct (utf8_valid l); [|done]. intros [= <-]. apply of_bytes_empty. Qed.

(** With enough turns the loop yields what the reference does, however the bytes
    are cut into chunks. *)
Lemma reader_lines_spec turns : forall buffer reads,
  (turns_enough buffer reads <= turns)%nat ->
  reader_lines turns buffer reads = lines_spec [] (pending buffer reads).
Proof.
  induction turns as [|turns IH]; intros buffer reads Ht; [unfold turns_enough in Ht; lia|].
  cbn [reader_lines]. unfold read_line. pose proof (read_until_spec reads buffer []) as H.
  destruct (read_until buffer [] reads) as [[[r buf] rds]|]; [|by rewrite H]. cbn [mbind option_bind].
  destruct H as [-> Hlt]. assert (turns_enough buf rds <= turns)%nat as Ht' by (unfold turns_enough in *; lia).
  destruct r as [k|bytes]; cbn [spec_after]; [by destruct (timed_out k); [apply IH|]|].
  destruct (from_utf8 bytes) as [s|] eqn:Es.
  - rewrite (from_utf8_empty _ _ Es). destruct bytes as [|b bytes]; [done|]. by rewrite IH.
  - by destruct bytes.
Qed.
