(* ===== verification/Runtime.v ===== *)
(** * Custom backend: the runtime state ([lib.rs], [RuntimeState])

    The state behind the backend's mutex: the peers and the indexes over them,
    the crypto sessions, the path of each peer (unknown, direct or relay), the
    UDP transport and the relay connection.  Times are in milliseconds.  What the
    operating system answers is a parameter, as in [Transport]. *)

From Stdlib Require Import ZArith Lia.
From stdpp Require Import prelude list strings gmap.
From S2P Require Import Prelude RustStd Protocol Frame Nonce Crypto Transport.

Definition STATE_VERSION : Z := 1.
Definition IDENTITY_SCHEME : string := "x25519".
Definition DIRECT_PROBE_INTERVAL : Z := 5000.
Definition DIRECT_FAST_PROBE_INTERVAL : Z := 250.
Definition DIRECT_FAST_PROBE_BURST_ATTEMPTS : Z := 8.
Definition DIRECT_PROBE_STALE_AFTER : Z := 15000.
Definition DIRECT_PROBE_FAILURE_THRESHOLD : Z := 3.

(** ** Data *)

Record CustomIdentity : Type := mkCustomIdentity {
  key_id : string;
  scheme : string;
  private_key : string;
  public_key : string;
  created_at_unix_seconds : Z;
  rotated_from : option string;
}.

Record StoredPeerSession : Type := mkStoredPeerSession {
  sp_device_id : string;
  sp_hostname : string;
  sp_overlay_ip : Ipv4Addr;
  sp_public_key : string;
  sp_endpoints : list Endpoint;
  sp_allowed_routes : list string;
  sp_last_updated_at_unix_seconds : Z;
}.

Record CustomBackendState : Type := mkCustomBackendState {
  st_version : Z;
  st_identity : option CustomIdentity;
  st_local_config : option LocalBackendConfig;
  st_peers : list StoredPeerSession;
}.

Definition CustomBackendState_default : CustomBackendState :=
  mkCustomBackendState STATE_VERSION None None [].

Record PeerTransportSession : Type := mkPeerTransportSession {
  pts_overlay_ip : Ipv4Addr;
  pts_endpoint : Endpoint;
  pts_crypto : PeerCryptoSession;
}.

Inductive PeerPathKind : Type := PathUnknown | PathDirect | PathRelay.

Record PeerPathState : Type := mkPeerPathState {
  current_path : PeerPathKind;
  active_endpoint : option Endpoint;
  last_probe_at : option Z;
  last_success_at : option Z;
  last_probe_sent_at_unix_millis : option Z;
  fast_probe_attempts_remaining : Z;
  failures : Z;
  rtt_ms : option Z;
}.

Definition PeerPathState_default : PeerPathState :=
  mkPeerPathState PathUnknown None None None None DIRECT_FAST_PROBE_BURST_ATTEMPTS 0 None.

#[export] Instance PeerPathKind_eq_dec : EqDecision PeerPathKind.
Proof. solve_decision. Defined.

(** The implementations of [RelayFrameSender]; a TCP sender remembers whether
    it holds a stream, and the messages written to it are recorded. *)
Record TcpRelayFrameSender : Type := mkTcpRelayFrameSender {
  trs_relay : RelayConfig;
  trs_device_id : string;
  trs_node_key : string;
  trs_connected : bool;
  trs_written : list RelayMessage;
}.
Inductive RelayFrameSender : Type :=
| NullRelayFrameSender
| TcpSender (s : TcpRelayFrameSender).

(** A TUN device: its status and the packets written to it. *)
Record TunDevice : Type := mkTunDevice { device_status : TunStatus; tun_written : list (list Z) }.

(** Running tasks: whether a relay reader is among them. *)
Record TransportTasks : Type := mkTransportTasks { relay_reader : option (RelayConfig * string) }.

Record RuntimeState : Type := mkRuntimeState {
  persisted : CustomBackendState;
  peers_by_device : gmap string StoredPeerSession;
  peers_by_overlay_ip : gmap Ipv4Addr string;
  peer_crypto_material_by_device : gmap string (list Z);
  peer_udp_endpoints_by_device : gmap string Endpoint;
  peer_device_by_frame_id : gmap FrameDeviceId string;
  peer_transport_sessions_by_device : gmap string PeerTransportSession;
  peer_path_state_by_device : gmap string PeerPathState;
  rt_relays : list RelayConfig;
  tun_status : option TunStatus;
  tun_device : option TunDevice;
  transport : option TransportRuntime;
  transport_tasks : option TransportTasks;
  relay_sender : RelayFrameSender;
}.

Definition RuntimeState_default : RuntimeState :=
  mkRuntimeState CustomBackendState_default ∅ ∅ ∅ ∅ ∅ ∅ ∅ [] None None None None NullRelayFrameSender.

Definition set_sessions (s : RuntimeState) (x : gmap string PeerTransportSession) : RuntimeState :=
  mkRuntimeState (persisted s) (peers_by_device s) (peers_by_overlay_ip s)
    (peer_crypto_material_by_device s) (peer_udp_endpoints_by_device s) (peer_device_by_frame_id s)
    x (peer_path_state_by_device s) (rt_relays s) (tun_status s) (tun_device s) (transport s)
    (transport_tasks s) (relay_sender s).
Definition set_paths (s : RuntimeState) (x : gmap string PeerPathState) : RuntimeState :=
  mkRuntimeState (persisted s) (peers_by_device s) (peers_by_overlay_ip s)
    (peer_crypto_material_by_device s) (peer_udp_endpoints_by_device s) (peer_device_by_frame_id s)
    (peer_transport_sessions_by_device s) x (rt_relays s) (tun_status s) (tun_device s) (transport s)
    (transport_tasks s) (relay_sender s).
Definition set_relays (s : RuntimeState) (x : list RelayConfig) (y : RelayFrameSender) : RuntimeState :=
  mkRuntimeState (persisted s) (peers_by_device s) (peers_by_overlay_ip s)
    (peer_crypto_material_by_device s) (peer_udp_endpoints_by_device s) (peer_device_by_frame_id s)
    (peer_transport_sessions_by_device s) (peer_path_state_by_device s) x (tun_status s)
    (tun_device s) (transport s) (transport_tasks s) y.
Definition set_tun (s : RuntimeState) (x : option TunStatus) (y : option TunDevice) : RuntimeState :=
  mkRuntimeState (persisted s) (peers_by_device s) (peers_by_overlay_ip s)
    (peer_crypto_material_by_device s) (peer_udp_endpoints_by_device s) (peer_device_by_frame_id s)
    (peer_transport_sessions_by_device s) (peer_path_state_by_device s) (rt_relays s) x y
    (transport s) (transport_tasks s) (relay_sender s).
Definition set_transport (s : RuntimeState) (x : option TransportRuntime) : RuntimeState :=
  mkRuntimeState (persisted s) (peers_by_device s) (peers_by_overlay_ip s)
    (peer_crypto_material_by_device s) (peer_udp_endpoints_by_device s) (peer_device_by_frame_id s)
    (peer_transport_sessions_by_device s) (peer_path_state_by_device s) (rt_relays s) (tun_status s)
    (tun_device s) x (transport_tasks s) (relay_sender s).
Definition set_tasks (s : RuntimeState) (x : option TransportTasks) : RuntimeState :=
  mkRuntimeState (persisted s) (peers_by_device s) (peers_by_overlay_ip s)
    (peer_crypto_material_by_device s) (peer_udp_endpoints_by_device s) (peer_device_by_frame_id s)
    (peer_transport_sessions_by_device s) (peer_path_state_by_device s) (rt_relays s) (tun_status s)
    (tun_device s) (transport s) x (relay_sender s).

(** ** Paths *)

(** [now.duration_since(t).ok()] *)
Definition elapsed_since (now t : Z) : option Z := if (t <=? now)%Z then Some (now - t)%Z else None.

Definition peer_path_probe_due (state : PeerPathState) (now : Z) : bool :=
  let interval :=
    if negb (bool_decide (current_path state = PathDirect)) &&
       (0 <? fast_probe_attempts_remaining state)%Z
    then DIRECT_FAST_PROBE_INTERVAL else DIRECT_PROBE_INTERVAL in
  match last_probe_at state ≫= elapsed_since now with
  | Some elapsed => (interval <=? elapsed)%Z
  | None => true
  end.

Definition relay_endpoint (relay : RelayConfig) : Endpoint :=
  mkEndpoint Relay (V4 UNSPECIFIED) 0 Tcp.

(** The body of the loop of [expire_stale_direct_paths]. *)
Definition expire_path (relays : list RelayConfig) (now : Z) (state : PeerPathState) : PeerPathState :=
  if negb (bool_decide (current_path state = PathDirect)) then state
  else
    let stale := match last_success_at state ≫= elapsed_since now with
                 | Some elapsed => (DIRECT_PROBE_STALE_AFTER <=? elapsed)%Z
                 | None => true
                 end in
    let failures := if stale then saturating_add_u32 (failures state) 1 else failures state in
    if (DIRECT_PROBE_FAILURE_THRESHOLD <=? failures)%Z then
      let '(path, endpoint) :=
        match relays with
        | [] => (PathUnknown, None)
        | relay :: _ => (PathRelay, Some (relay_endpoint relay))
        end in
      mkPeerPathState path endpoint (last_probe_at state) (last_success_at state)
        (last_probe_sent_at_unix_millis state) DIRECT_FAST_PROBE_BURST_ATTEMPTS failures None
    else
      mkPeerPathState (current_path state) (active_endpoint state) (last_probe_at state)
        (last_success_at state) (last_probe_sent_at_unix_millis state)
        (fast_probe_attempts_remaining state) failures (rtt_ms state).

Definition expire_stale_direct_paths (self : RuntimeState) (now : Z) : RuntimeState :=
  set_paths self (expire_path (rt_relays self) now <$> peer_path_state_by_device self).

(** The new path state of [mark_peer_direct]. *)
Definition direct_path (state : PeerPathState) (endpoint : Endpoint) (rtt : option Z) (now : Z)
    : PeerPathState :=
  mkPeerPathState PathDirect (Some endpoint) (last_probe_at state) (Some now)
    (last_probe_sent_at_unix_millis state) 0 0 rtt.

Definition mark_peer_direct (self : RuntimeState) (now : Z) (device_id : string) (endpoint : Endpoint)
    (rtt : option Z) : RuntimeState :=
  let state := default PeerPathState_default (peer_path_state_by_device self !! device_id) in
  let self := set_paths self
    (<[device_id := direct_path state endpoint rtt now]> (peer_path_state_by_device self)) in
  match peer_transport_sessions_by_device self !! device_id with
  | Some session =>
      set_sessions self (<[device_id := mkPeerTransportSession (pts_overlay_ip session) endpoint
                            (pts_crypto session)]> (peer_transport_sessions_by_device self))
  | None => self
  end.

Definition peer_path_is_relay (self : RuntimeState) (device_id : string) : bool :=
  match peer_path_state_by_device self !! device_id with
  | Some state => bool_decide (current_path state = PathRelay)
  | None => false
  end.

(** The changes of a path state after its probes were sent. *)
Definition probed_path (state : PeerPathState) (now : Z) : PeerPathState :=
  mkPeerPathState (current_path state) (active_endpoint state) (Some now) (last_success_at state)
    (Some now)
    (if (0 <? fast_probe_attempts_remaining state)%Z then (fast_probe_attempts_remaining state - 1)%Z
     else fast_probe_attempts_remaining state)
    (if negb (bool_decide (current_path state = PathDirect))
     then saturating_add_u32 (failures state) 1 else failures state)
    (rtt_ms state).

(** ** Probe payloads *)

Definition encode_probe_response_payload (probe_payload : list Z) (now_unix_millis : Z) : list Z :=
  let timestamp :=
    default now_unix_millis (
      value ← strip_prefix_l (as_bytes "probe ") probe_payload;
      value ← from_utf8 value;
      parse_uint u128_max value) in
  as_bytes ("probe_response " +:+ dec timestamp).

Definition probe_response_rtt_ms (response_payload : list Z) (now_unix_millis : Z) : option Z :=
  value ← strip_prefix_l (as_bytes "probe_response ") response_payload;
  value ← from_utf8 value;
  timestamp ← parse_uint u128_max value;
  if (timestamp <=? now_unix_millis)%Z then
    let elapsed := (now_unix_millis - timestamp)%Z in
    if (elapsed <=? u64_max)%Z then Some elapsed else None
  else None.

(** ** Relay sender *)

Definition relay_tcp_addr (url : string) : res BackendError string :=
  ok_or (failed ("unsupported relay URL: " +:+ url)) (strip_prefix "tcp://" url).

Section runtime.
Context `{P : CryptoPrims}.
(** What the operating system answers: [send_to] on the UDP socket, connecting
    to a relay and writing to it. *)
Context (os_send : SocketAddr -> list Z -> io Z).
Context (relay_connect : string -> io unit) (relay_write : RelayMessage -> io unit).

Definition write_relay_message (s : TcpRelayFrameSender) (m : RelayMessage)
    : res BackendError unit * TcpRelayFrameSender :=
  match relay_write m with
  | inr _ => (Ok tt, mkTcpRelayFrameSender (trs_relay s) (trs_device_id s) (trs_node_key s)
                       (trs_connected s) (trs_written s ++ [m]))
  | inl k => (Err (failed_with (IoError k)), s)
  end.

Definition ensure_connected (s : TcpRelayFrameSender)
    : res BackendError unit * TcpRelayFrameSender :=
  if trs_connected s then (Ok tt, s)
  else
    match (addr ← relay_tcp_addr (rc_url (trs_relay s)); io_err (relay_connect addr)) with
    | Ok _ =>
        let '(r, s') := write_relay_message s (RelayRegister (trs_device_id s) (trs_node_key s)) in
        match r with
        | Ok _ => (Ok tt, mkTcpRelayFrameSender (trs_relay s') (trs_device_id s') (trs_node_key s')
                            true (trs_written s'))
        | Err e => (Err e, s')
        | Panic => (Panic, s')
        end
    | Err e => (Err e, s)
    | Panic => (Panic, s)
    end.

Definition tcp_send_frame (s : TcpRelayFrameSender) (m : RelayMessage)
    : res BackendError Z * TcpRelayFrameSender :=
  let '(r, s) := ensure_connected s in
  match r with
  | Ok _ =>
      if trs_connected s then
        let '(r, s) := write_relay_message s m in
        match r with
        | Ok _ => (Ok (match m with RelayFrame _ _ payload => str_len payload | _ => 0%Z end), s)
        | Err e => (Err e, s)
        | Panic => (Panic, s)
        end
      else (Err (failed "relay transport is not connected"), s)
  | Err e => (Err e, s)
  | Panic => (Panic, s)
  end.

Definition relay_send_frame (sender : RelayFrameSender) (m : RelayMessage)
    : res BackendError Z * RelayFrameSender :=
  match sender with
  | NullRelayFrameSender => (Err (failed "relay transport is not connected"), sender)
  | TcpSender s => let '(r, s) := tcp_send_frame s m in (r, TcpSender s)
  end.

(** ** Building the runtime state from the persisted one *)

(** [salts] are the random session salts, by device. *)
Fixpoint build_sessions (salts : string -> option (list Z)) (local_id : FrameDeviceId)
    (local_private_key : list Z) (identity : CustomIdentity) (peers : list StoredPeerSession)
    (sessions : gmap string PeerTransportSession)
    : res BackendError (gmap string PeerTransportSession) :=
  match peers with
  | [] => Ok sessions
  | peer :: peers =>
      peer_id ← from_device_id uuid_parse (sp_device_id peer);
      match select_udp_endpoint (sp_endpoints peer) with
      | None => build_sessions salts local_id local_private_key identity peers sessions
      | Some endpoint =>
          crypto ← PeerCryptoSession_new (salts (sp_device_id peer)) local_private_key
                     (public_key identity) (sp_public_key peer) local_id peer_id;
          build_sessions salts local_id local_private_key identity peers
            (<[sp_device_id peer := mkPeerTransportSession (sp_overlay_ip peer) endpoint crypto]> sessions)
      end
  end.

Definition build_peer_transport_sessions (salts : string -> option (list Z)) (st : CustomBackendState)
    : res BackendError (gmap string PeerTransportSession) :=
  match st_identity st, st_local_config st with
  | Some identity, Some local_config =>
      local_id ← from_device_id uuid_parse (lc_device_id local_config);
      local_private_key ← decode_key (private_key identity);
      build_sessions salts local_id local_private_key identity (st_peers st) ∅
  | _, _ => Ok ∅
  end.

(** [iter().map(..).collect::<HashMap>()]: later pairs replace earlier ones. *)
Definition collect_map {K A} `{Countable K} (l : list (K * A)) : gmap K A :=
  fold_left (fun m kv => <[fst kv := snd kv]> m) l ∅.

Definition from_persisted (salts : string -> option (list Z)) (st : CustomBackendState) : RuntimeState :=
  let peers := st_peers st in
  mkRuntimeState st
    (collect_map ((fun peer => (sp_device_id peer, peer)) <$> peers))
    (collect_map ((fun peer => (sp_overlay_ip peer, sp_device_id peer)) <$> peers))
    (collect_map (omap (fun peer =>
       (fun key => (sp_device_id peer, key)) <$> res_ok (decode_public_credential (sp_public_key peer))) peers))
    (collect_map (omap (fun peer =>
       (fun endpoint => (sp_device_id peer, endpoint)) <$> select_udp_endpoint (sp_endpoints peer)) peers))
    (collect_map (omap (fun peer =>
       (fun frame_id => (frame_id, sp_device_id peer)) <$>
         res_ok (from_device_id uuid_parse (sp_device_id peer))) peers))
    (default ∅ (res_ok (build_peer_transport_sessions salts st)))
    (collect_map ((fun peer => (sp_device_id peer, PeerPathState_default)) <$> peers))
    [] None None None None NullRelayFrameSender.

(** What [replace_state] does behind the lock: TUN and transport survive, and
    everything else is rebuilt. *)
Definition rebuild (salts : string -> option (list Z)) (old : RuntimeState) (state : CustomBackendState)
    : RuntimeState :=
  let new := from_persisted salts state in
  set_tasks (set_transport (set_tun new (tun_status old) (tun_device old)) (transport old))
    (transport_tasks old).

(** ** Sending *)

Definition record_drop (self : RuntimeState) : RuntimeState :=
  set_transport self (Transport.record_rx_drop <$> transport self).

Definition set_session (self : RuntimeState) (device_id : string) (session : PeerTransportSession)
    (crypto : PeerCryptoSession) : RuntimeState :=
  set_sessions self (<[device_id := mkPeerTransportSession (pts_overlay_ip session)
                        (pts_endpoint session) crypto]> (peer_transport_sessions_by_device self)).

Definition transport_send (self : RuntimeState) (endpoint : Endpoint) (frame : list Z)
    : res BackendError Z * RuntimeState :=
  match transport self with
  | Some t =>
      let '(r, t) := send_frame os_send t endpoint frame in (r, set_transport self (Some t))
  | None => (Err (failed "UDP transport is not bound"), self)
  end.

Definition send_overlay_packet (self : RuntimeState) (packet : list Z)
    : res BackendError Z * RuntimeState :=
  match ipv4_destination packet with
  | Ok destination =>
      match peers_by_overlay_ip self !! destination with
      | None => (Err (failed ("no peer session for overlay destination: " +:+
                                ipv4_to_string destination)), self)
      | Some device_id =>
          let relay_path := peer_path_is_relay self device_id in
          match peer_transport_sessions_by_device self !! device_id with
          | None => (Err (failed ("peer transport session is not ready: " +:+ device_id)), self)
          | Some session =>
              let '(r, crypto) := seal (pts_crypto session) packet in
              let self := set_session self device_id session crypto in
              match r with
              | Ok frame =>
                  if relay_path then
                    let source := match st_local_config (persisted self) with
                                  | Some config => lc_device_id config
                                  | None => EmptyString
                                  end in
                    let '(r, sender) := relay_send_frame (relay_sender self)
                      (RelayFrame source device_id (base64_encode frame)) in
                    (r, set_relays self (rt_relays self) sender)
                  else transport_send self (pts_endpoint session) frame
              | Err e => (Err e, self)
              | Panic => (Panic, self)
              end
          end
      end
  | Err e => (Err e, self)
  | Panic => (Panic, self)
  end.

(** ** Probing *)

(** Sending the probes of one peer to its endpoints, in order of preference. *)
Fixpoint send_probes (t : TransportRuntime) (crypto : PeerCryptoSession) (now : Z)
    (endpoints : list Endpoint)
    : res BackendError Z * TransportRuntime * PeerCryptoSession :=
  match endpoints with
  | [] => (Ok 0%Z, t, crypto)
  | endpoint :: rest =>
      let '(r, crypto) := seal_message crypto (as_bytes ("probe " +:+ dec now)) FRAME_TYPE_PROBE in
      match r with
      | Ok frame =>
          let '(r, t) := send_frame os_send t endpoint frame in
          match r with
          | Ok _ =>
              let '(r, t, crypto) := send_probes t crypto now rest in
              ((fun n => (n + 1)%Z) <$> r, t, crypto)
          | Err e => (Err e, t, crypto)
          | Panic => (Panic, t, crypto)
          end
      | Err e => (Err e, t, crypto)
      | Panic => (Panic, t, crypto)
      end
  end.

(** The loop of [probe_peer_direct_paths] over the peers. *)
Fixpoint probe_peers (self : RuntimeState) (t : TransportRuntime) (now : Z)
    (peers : list StoredPeerSession) : res BackendError Z * RuntimeState :=
  match peers with
  | [] => (Ok 0%Z, set_transport self (Some t))
  | peer :: rest =>
      let device_id := sp_device_id peer in
      let state := default PeerPathState_default (peer_path_state_by_device self !! device_id) in
      let self := set_paths self (<[device_id := state]> (peer_path_state_by_device self)) in
      if negb (peer_path_probe_due state now) then probe_peers self t now rest
      else
        match peer_transport_sessions_by_device self !! device_id with
        | None => probe_peers self t now rest
        | Some session =>
            let '(r, t, crypto) :=
              send_probes t (pts_crypto session) now (sorted_udp_endpoints (sp_endpoints peer)) in
            let self := set_session self device_id session crypto in
            match r with
            | Ok n =>
                let self := set_paths self
                  (<[device_id := probed_path state now]> (peer_path_state_by_device self)) in
                let '(r, self) := probe_peers self t now rest in ((fun m => (n + m)%Z) <$> r, self)
            | Err e => (Err e, set_transport self (Some t))
            | Panic => (Panic, set_transport self (Some t))
            end
        end
  end.

Definition probe_peer_direct_paths (self : RuntimeState) (now : Z)
    : res BackendError Z * RuntimeState :=
  let self := expire_stale_direct_paths self now in
  match transport self with
  | None => (Ok 0%Z, self)
  | Some t => probe_peers self t now (st_peers (persisted self))
  end.

(** ** Receiving *)

Definition source_endpoint (source_addr : SocketAddr) : Endpoint :=
  mkEndpoint Public (ip source_addr) (sa_port source_addr) Udp.

(** The arms of the match on the type of an opened frame; [session] is the
    session with the receiving window already updated. *)
Definition opened_probe (self : RuntimeState) (now : Z) (device_id : string)
    (session : PeerTransportSession) (plaintext : list Z) (source_addr : option SocketAddr)
    : res BackendError (option (list Z)) * RuntimeState :=
  match source_addr with
  | None => (Ok None, self)
  | Some source_addr =>
      let '(r, crypto) := seal_message (pts_crypto session)
        (encode_probe_response_payload plaintext now) FRAME_TYPE_PROBE_RESPONSE in
      let self := set_session self device_id session crypto in
      match r with
      | Ok response =>
          let endpoint := source_endpoint source_addr in
          let '(r, self) := transport_send self endpoint response in
          match r with
          | Ok _ => (Ok None, mark_peer_direct self now device_id endpoint None)
          | Err e => (Err e, self)
          | Panic => (Panic, self)
          end
      | Err e => (Err e, self)
      | Panic => (Panic, self)
      end
  end.

Definition opened_response (self : RuntimeState) (now : Z) (device_id : string) (plaintext : list Z)
    (source_addr : option SocketAddr) : res BackendError (option (list Z)) * RuntimeState :=
  match source_addr with
  | None => (Ok None, self)
  | Some source_addr =>
      (Ok None, mark_peer_direct self now device_id (source_endpoint source_addr)
                  (probe_response_rtt_ms plaintext now))
  end.

Definition open_received_frame (self : RuntimeState) (now : Z) (frame : list Z)
    (source_addr : option SocketAddr) : res BackendError (option (list Z)) * RuntimeState :=
  match EncodedFrame_decode frame with
  | Ok decoded =>
      match peer_device_by_frame_id self !! source (header decoded) with
      | None => (Err (failed "missing peer session for frame source"), record_drop self)
      | Some device_id =>
          match peer_transport_sessions_by_device self !! device_id with
          | None => (Err (failed ("peer transport session is not ready: " +:+ device_id)),
                     record_drop self)
          | Some session =>
              let '(r, crypto) := open_message (pts_crypto session) frame in
              let self := set_session self device_id session crypto in
              let session := mkPeerTransportSession (pts_overlay_ip session) (pts_endpoint session) crypto in
              match r with
              | Ok opened =>
                  if (of_message_type opened =? FRAME_TYPE_DATA)%Z then
                    (Ok (Some (of_plaintext opened)), self)
                  else if (of_message_type opened =? FRAME_TYPE_PROBE)%Z then
                    opened_probe self now device_id session (of_plaintext opened) source_addr
                  else if (of_message_type opened =? FRAME_TYPE_PROBE_RESPONSE)%Z then
                    opened_response self now device_id (of_plaintext opened) source_addr
                  else (Err (failed ("unsupported opened frame message type: " +:+
                                       dec (of_message_type opened))), self)
              | Err e => (Err e, record_drop self)
              | Panic => (Panic, self)
              end
          end
      end
  | Err e => (Err e, record_drop self)
  | Panic => (Panic, self)
  end.

Definition open_relay_frame (self : RuntimeState) (now : Z) (m : RelayMessage)
    : res BackendError (option (list Z)) * RuntimeState :=
  match m with
  | RelayFrame _ _ payload =>
      match base64_decode payload with
      | Some frame => open_received_frame self now frame None
      | None => (Err (failed_with Base64Error), self)
      end
  | _ => (Ok None, self)
  end.

Definition receive_overlay_packet (self : RuntimeState) (now : Z) (buffer : nat)
    (recv : io (list Z * SocketAddr)) : res BackendError (option (list Z)) * RuntimeState :=
  match transport self with
  | None => (Err (failed "UDP transport is not bound"), self)
  | Some t =>
      let '(r, t) := receive_frame t buffer recv in
      let self := set_transport self (Some t) in
      match r with
      | Ok (Some (frame, source_addr)) => open_received_frame self now frame (Some source_addr)
      | Ok None => (Ok None, self)
      | Err e => (Err e, self)
      | Panic => (Panic, self)
      end
  end.

(** ** TUN and the background loops *)

(** The [vec![0u8; 1500]] of the loops. *)
Definition BUFFER_LEN : nat := Z.to_nat 1500.

(** [write_tun_packet]; [ok] says whether the platform write succeeds. *)
Definition write_tun_packet (self : RuntimeState) (packet : list Z) (ok : bool)
    : res BackendError Z * RuntimeState :=
  match tun_device self with
  | None => (Err (failed "TUN device is not configured"), self)
  | Some device =>
      if ok then (Ok (Z.of_nat (length packet)),
                  set_tun self (tun_status self)
                    (Some (mkTunDevice (device_status device) (tun_written device ++ [packet]))))
      else (Err (failed_with (IoError OtherKind)), self)
  end.

(** [try_read_tun_packet], given what the device answers. *)
Definition try_read_tun_packet (self : RuntimeState) (read : io (option (list Z)))
    : res BackendError (option (list Z)) :=
  match tun_device self with
  | None => Ok None
  | Some _ => io_err read
  end.

(** One turn of [spawn_tun_to_udp_loop]. *)
Definition tun_to_udp_turn (self : RuntimeState) (read : io (option (list Z))) : RuntimeState :=
  match try_read_tun_packet self read with
  | Ok (Some packet) => snd (send_overlay_packet self packet)
  | Ok None => self
  | _ => record_drop self
  end.

(** What a reader does with the packet it obtained. *)
Definition deliver (self : RuntimeState) (packet : option (list Z)) (ok : bool) : RuntimeState :=
  match packet with
  | Some packet =>
      let '(r, self) := write_tun_packet self packet ok in
      if is_ok r then self else record_drop self
  | None => self
  end.

(** One turn of [spawn_udp_to_tun_loop]. *)
Definition udp_to_tun_turn (self : RuntimeState) (now : Z) (recv : io (list Z * SocketAddr)) (ok : bool)
    : RuntimeState :=
  let '(r, self) := receive_overlay_packet self now BUFFER_LEN recv in
  match r with
  | Ok packet => deliver self packet ok
  | _ => record_drop self
  end.

(** One turn of [spawn_relay_to_tun_loop] on a parsed line. *)
Definition relay_to_tun_turn (self : RuntimeState) (now : Z) (line : option RelayMessage) (ok : bool)
    : RuntimeState :=
  match line with
  | Some m =>
      let '(r, self) := open_relay_frame self now m in
      match r with
      | Ok packet => deliver self packet ok
      | _ => record_drop self
      end
  | None => self
  end.

End runtime.
