(* ===== verification/RuntimeProps.v ===== *)
(** * Custom backend: properties of the runtime state

    The invariant of paths ([path_ok]) over the events of the backend
    ([runtime_step]), sessions with the same keys, and the delivery of a packet
    from one runtime state to another. *)

From Stdlib Require Import ZArith Lia.
From stdpp Require Import prelude list strings gmap.
From S2P Require Import Prelude RustStd Protocol Frame Nonce Crypto Transport Runtime.

(** ** The path of a peer *)

(** What holds of every path state: an unknown path has no endpoint, a direct
    one has an endpoint and a time of success, a relayed one was direct before;
    the counters stay in their ranges. *)
Definition path_ok (s : PeerPathState) : Prop :=
  (0 <= fast_probe_attempts_remaining s <= DIRECT_FAST_PROBE_BURST_ATTEMPTS)%Z /\
  (0 <= failures s <= u32_max)%Z /\
  match current_path s with
  | PathUnknown => active_endpoint s = None
  | PathDirect => is_Some (active_endpoint s) /\ is_Some (last_success_at s) /\
                  fast_probe_attempts_remaining s = 0%Z
  | PathRelay => (exists e, active_endpoint s = Some e /\ ep_kind e = Relay) /\ is_Some (last_success_at s)
  end.

Lemma path_ok_default : path_ok PeerPathState_default.
Proof. unfold path_ok. simpl. unfold DIRECT_FAST_PROBE_BURST_ATTEMPTS, u32_max. split_and!; (lia || done). Qed.

Lemma saturating_bound n : (0 <= n <= u32_max)%Z -> (0 <= saturating_add_u32 n 1 <= u32_max)%Z.
Proof. unfold saturating_add_u32, u32_max. lia. Qed.

Lemma path_ok_direct s e rtt now : path_ok s -> path_ok (direct_path s e rtt now).
Proof.
  intros _. unfold path_ok, direct_path, DIRECT_FAST_PROBE_BURST_ATTEMPTS, u32_max. simpl.
  split_and!; (lia || done || by eexists).
Qed.

Lemma path_ok_probed s now : path_ok s -> path_ok (probed_path s now).
Proof.
  intros (Hf & Hn & Hp). pose proof (saturating_bound _ Hn) as Hs. unfold path_ok, probed_path. simpl.
  split_and!.
  - destruct (_ <? _)%Z eqn:E; to_prop; lia.
  - destruct (_ <? _)%Z eqn:E; to_prop; lia.
  - destruct (negb _); lia.
  - destruct (negb _); lia.
  - destruct (current_path s); [done| |done]. destruct Hp as (? & ? & ->). by split_and!.
Qed.

Lemma path_ok_expire relays now s : path_ok s -> path_ok (expire_path relays now s).
Proof.
  intros Hok. unfold expire_path. case_bool_decide as Ec; [|done]. cbn [negb].
  destruct Hok as (Hf & Hn & Hp). pose proof (saturating_bound _ Hn) as Hs.
  rewrite Ec in Hp. destruct Hp as (He & Ht & Hz).
  match goal with |- context [if ?b then saturating_add_u32 _ _ else _] =>
    set (n := if b then saturating_add_u32 (failures s) 1 else failures s);
    assert (0 <= n <= u32_max)%Z as Hnn by (unfold n; destruct b; lia)
  end.
  destruct (_ <=? n)%Z.
  - unfold path_ok, DIRECT_FAST_PROBE_BURST_ATTEMPTS.
    destruct relays; simpl; split_and!; (lia || done || by eexists).
  - unfold path_ok. simpl. rewrite Ec. split_and!; (lia || done).
Qed.

(** One round on a direct path that is silent for too long. *)
Lemma expire_stale relays now t ep lp lps fast n rtt :
  (t + DIRECT_PROBE_STALE_AFTER <= now)%Z ->
  expire_path relays now (mkPeerPathState PathDirect ep lp (Some t) lps fast n rtt) =
  if (DIRECT_PROBE_FAILURE_THRESHOLD <=? saturating_add_u32 n 1)%Z then
    match relays with
    | [] => mkPeerPathState PathUnknown None lp (Some t) lps DIRECT_FAST_PROBE_BURST_ATTEMPTS
              (saturating_add_u32 n 1) None
    | relay :: _ => mkPeerPathState PathRelay (Some (relay_endpoint relay)) lp (Some t) lps
              DIRECT_FAST_PROBE_BURST_ATTEMPTS (saturating_add_u32 n 1) None
    end
  else mkPeerPathState PathDirect ep lp (Some t) lps fast (saturating_add_u32 n 1) rtt.
Proof.
  intros Hst. unfold expire_path, DIRECT_PROBE_STALE_AFTER in *.
  rewrite bool_decide_eq_true_2 by done. cbn [negb last_success_at mbind option_bind].
  unfold elapsed_since. rewrite (proj2 (Z.leb_le t now)), (proj2 (Z.leb_le 15000 _)) by lia.
  by destruct relays.
Qed.

Section paths.
Context `{P : CryptoPrims}.
Context (os_send : SocketAddr -> list Z -> io Z).
Context (relay_connect : string -> io unit) (relay_write : RelayMessage -> io unit).

Definition paths_ok (s : RuntimeState) : Prop :=
  map_Forall (fun _ p => path_ok p) (peer_path_state_by_device s).

Lemma paths_ok_default_lookup s d :
  paths_ok s -> path_ok (default PeerPathState_default (peer_path_state_by_device s !! d)).
Proof.
  intros H. destruct (peer_path_state_by_device s !! d) as [p|] eqn:E; simpl; [by eapply H|apply path_ok_default].
Qed.

Lemma paths_ok_mark s now d e rtt : paths_ok s -> paths_ok (mark_peer_direct s now d e rtt).
Proof.
  intros H. assert (map_Forall (fun _ p => path_ok p)
    (<[d := direct_path (default PeerPathState_default (peer_path_state_by_device s !! d)) e rtt now]>
      (peer_path_state_by_device s))) as Hn.
  { apply map_Forall_insert_2; [|done]. by apply path_ok_direct, paths_ok_default_lookup. }
  unfold mark_peer_direct, paths_ok. simpl. by destruct (peer_transport_sessions_by_device s !! d).
Qed.

Lemma paths_ok_expire s now : paths_ok s -> paths_ok (expire_stale_direct_paths s now).
Proof.
  intros H. unfold paths_ok, expire_stale_direct_paths. simpl. apply map_Forall_fmap.
  eapply map_Forall_impl; [exact H|]. intros d p. apply path_ok_expire.
Qed.

Lemma transport_send_paths s e f r s' :
  transport_send os_send s e f = (r, s') -> peer_path_state_by_device s' = peer_path_state_by_device s.
Proof.
  unfold transport_send. destruct (transport s); [|by intros [= <- <-]].
  destruct (send_frame _ _ _ _). by intros [= <- <-].
Qed.

Lemma send_overlay_paths s p r s' :
  send_overlay_packet os_send relay_connect relay_write s p = (r, s') ->
  peer_path_state_by_device s' = peer_path_state_by_device s.
Proof.
  unfold send_overlay_packet. destruct (ipv4_destination p); [|by intros [= <- <-]..].
  destruct (_ !! _); [|by intros [= <- <-]]. destruct (peer_transport_sessions_by_device s !! _); [|by intros [= <- <-]].
  destruct (seal _ _) as [[f| |] c]; [|by intros [= <- <-]..].
  destruct (peer_path_is_relay _ _); [|by intros H%transport_send_paths].
  destruct (relay_send_frame _ _ _ _). by intros [= <- <-].
Qed.

Lemma probe_peers_paths peers s t now r s' :
  paths_ok s -> probe_peers os_send s t now peers = (r, s') -> paths_ok s'.
Proof.
  revert s t r. induction peers as [|peer rest IH]; intros s t r H; simpl; [by intros [= <- <-]|].
  set (d := sp_device_id peer). set (st := default _ _).
  assert (path_ok st) as Hst by (by apply paths_ok_default_lookup).
  assert (paths_ok (set_paths s (<[d:=st]> (peer_path_state_by_device s)))) as H1 by (by apply map_Forall_insert_2).
  destruct (negb _); [by apply IH|].
  destruct (peer_transport_sessions_by_device s !! d) as [session|]; [|by apply IH].
  destruct (send_probes _ _ _ _ _) as [[r1 t1] c]. destruct r1; [|by intros [= <- <-]..].
  destruct (probe_peers _ _ _ _ _) as [r2 s2] eqn:E2. intros [= <- <-].
  eapply IH; [|exact E2]. unfold paths_ok. simpl. apply map_Forall_insert_2; [by apply path_ok_probed|done].
Qed.

Lemma open_received_paths s now f src r s' :
  paths_ok s -> open_received_frame os_send s now f src = (r, s') -> paths_ok s'.
Proof.
  intros H. unfold open_received_frame. destruct (EncodedFrame_decode f); [|by intros [= <- <-]..].
  destruct (_ !! _) as [d|]; [|by intros [= <- <-]].
  destruct (peer_transport_sessions_by_device s !! d) as [se|]; [|by intros [= <- <-]].
  destruct (open_message _ _) as [[o| |] c]; [|by intros [= <- <-]..].
  destruct (_ =? FRAME_TYPE_DATA)%Z; [by intros [= <- <-]|].
  destruct (_ =? FRAME_TYPE_PROBE)%Z.
  { unfold opened_probe. destruct src; [|by intros [= <- <-]].
    destruct (seal_message _ _ _) as [[x| |] c']; [|by intros [= <- <-]..].
    destruct (transport_send _ _ _ _) as [rt st] eqn:Et. apply transport_send_paths in Et.
    assert (paths_ok st) by (unfold paths_ok; by rewrite Et).
    destruct rt; intros [= <- <-]; [by apply paths_ok_mark|done..]. }
  destruct (_ =? FRAME_TYPE_PROBE_RESPONSE)%Z; [|by intros [= <- <-]].
  unfold opened_response. destruct src; intros [= <- <-]; [by apply paths_ok_mark|done].
Qed.

(** What happens to the runtime state behind its lock: the turns of the
    background loops, path maintenance, a new relay map and a new stored state. *)
Inductive runtime_event : Type :=
| TunRead (read : io (option (list Z)))
| UdpRead (now : Z) (recv : io (list Z * SocketAddr)) (ok : bool)
| RelayRead (now : Z) (line : option RelayMessage) (ok : bool)
| Maintain (now : Z)
| RelayMap (relays : list RelayConfig) (sender : RelayFrameSender)
| Replace (salts : string -> option (list Z)) (st : CustomBackendState).

Definition runtime_step (s : RuntimeState) (e : runtime_event) : RuntimeState :=
  match e with
  | TunRead read => tun_to_udp_turn os_send relay_connect relay_write s read
  | UdpRead now recv ok => udp_to_tun_turn os_send s now recv ok
  | RelayRead now line ok => relay_to_tun_turn os_send s now line ok
  | Maintain now => snd (probe_peer_direct_paths os_send s now)
  | RelayMap relays sender => set_relays s relays sender
  | Replace salts st => rebuild salts s st
  end.

Lemma paths_ok_from_persisted salts st : paths_ok (from_persisted salts st).
Proof.
  unfold paths_ok. simpl. unfold collect_map.
  assert (forall l (m : gmap string PeerPathState), map_Forall (fun _ p => path_ok p) m ->
    map_Forall (fun _ p => path_ok p)
      (fold_left (fun m kv => <[fst kv := snd kv]> m)
        ((fun peer => (sp_device_id peer, PeerPathState_default)) <$> l) m)) as Hf.
  { induction l as [|peer l IH]; intros m Hm; [done|]. simpl. apply IH.
    apply map_Forall_insert_2; [apply path_ok_default|done]. }
  apply Hf, map_Forall_empty.
Qed.

Lemma deliver_paths s p ok : peer_path_state_by_device (deliver s p ok) = peer_path_state_by_device s.
Proof.
  unfold deliver, write_tun_packet. destruct p; [|done]. destruct (tun_device s); [|done]. by destruct ok.
Qed.

Lemma runtime_step_paths s e : paths_ok s -> paths_ok (runtime_step s e).
Proof.
  intros H. destruct e as [read|now recv ok|now line ok|now|relays sender|salts st]; simpl;
    [| | | |done|by apply paths_ok_from_persisted].
  - unfold tun_to_udp_turn. destruct (try_read_tun_packet s read) as [[p|]| |]; try done.
    destruct (send_overlay_packet _ _ _ s p) as [r s'] eqn:E. apply send_overlay_paths in E.
    unfold paths_ok. simpl. by rewrite E.
  - unfold udp_to_tun_turn. destruct (receive_overlay_packet _ s now BUFFER_LEN recv) as [r s'] eqn:E.
    assert (paths_ok s') as H'.
    { unfold receive_overlay_packet in E. destruct (transport s); [|by injection E as <- <-].
      destruct (receive_frame _ _ _) as [[[[f a]|]| |] t']; try by injection E as <- <-.
      by eapply (open_received_paths (set_transport s (Some t'))); [|exact E]. }
    destruct r; try done. unfold paths_ok. by rewrite deliver_paths.
  - unfold relay_to_tun_turn. destruct line as [m|]; [|done].
    destruct (open_relay_frame _ s now m) as [r s'] eqn:E.
    assert (paths_ok s') as H'.
    { unfold open_relay_frame in E. destruct m as [| src dst payload |]; [by injection E as <- <-| |by injection E as <- <-].
      destruct (base64_decode payload); [|by injection E as <- <-]. by eapply open_received_paths. }
    destruct r; try done. unfold paths_ok. by rewrite deliver_paths.
  - unfold probe_peer_direct_paths. pose proof (paths_ok_expire s now H) as He.
    destruct (transport (expire_stale_direct_paths s now)); [|done].
    eapply probe_peers_paths; [exact He|apply surjective_pairing].
Qed.

End paths.

(** ** Sessions after a reset *)

(** The window has seen nothing at or after a counter. *)
Definition window_before (w : ReplayWindow) (c : Z) : Prop :=
  match highest w with None => True | Some h => (h < c)%Z end.

Lemma accept_newer w n :
  window_before w (nonce_counter n) ->
  exists w', ReplayWindow_accept w n = (Ok tt, w') /\ highest w' = Some (nonce_counter n).
Proof.
  unfold window_before, ReplayWindow_accept. destruct (highest w) as [h|]; [|by eexists].
  intros H. rewrite (proj2 (Z.ltb_lt _ _)) by done. by eexists.
Qed.

(** Two sessions with the same key material. *)
Definition same_keys (s t : PeerCryptoSession) : Prop :=
  local_id s = local_id t /\ peer_id s = peer_id t /\ cipher s = cipher t /\
  receive_direction_prefix s = receive_direction_prefix t.

Section sessions.
Context `{P : CryptoPrims}.

Lemma authenticate_same_keys s t f : same_keys s t -> authenticate s f = authenticate t f.
Proof. intros (H1 & H2 & H3 & H4). unfold authenticate. by rewrite H1, H2, H3, H4. Qed.

(** A frame that one session opened is opened again by a fresh session with the
    same keys. *)
Lemma open_again s t f o s' :
  same_keys s t -> receive_window t = ReplayWindow_default ->
  open_message s f = (Ok o, s') -> exists t', open_message t f = (Ok o, t').
Proof.
  intros Hk Hw Ho. unfold open_message in *. rewrite <- (authenticate_same_keys s t f Hk).
  destruct (authenticate s f) as [[e m]| |]; [|done..]. rewrite Hw.
  destruct (ReplayWindow_accept (receive_window s) _) as [r w].
  destruct (accept_newer ReplayWindow_default (nonce (header e)) I) as (w' & -> & _).
  cbn [mbind res_bind]. destruct r; [|done..]. cbn [mbind res_bind] in Ho. injection Ho as <- _. by eexists.
Qed.

(** Rebuilding a session from the same credentials gives the same keys. *)
Lemma new_same_keys salt1 salt2 k c1 c2 i j s t :
  PeerCryptoSession_new salt1 k c1 c2 i j = Ok s -> PeerCryptoSession_new salt2 k c1 c2 i j = Ok t ->
  same_keys s t /\ receive_window t = ReplayWindow_default.
Proof.
  unfold PeerCryptoSession_new. destruct (shared_secret k c2) as [x| |]; try done. cbn [mbind res_bind].
  destruct (derive_session_key _ _ _ _ _) as [key| |]; try done. cbn [mbind res_bind].
  destruct (derive_direction_prefix x i j) as [p| |]; try done. cbn [mbind res_bind].
  destruct (derive_direction_prefix x j i) as [q| |]; try done. cbn [mbind res_bind].
  unfold SendNonceState_new. destruct salt1, salt2; try done. cbn [ok_or mbind res_bind].
  by intros [= <-] [= <-].
Qed.

(** What a built session is made of. *)
Lemma build_sessions_lookup salts lid key identity peers : forall sessions out d se,
  build_sessions salts lid key identity peers sessions = Ok out -> out !! d = Some se ->
  sessions !! d = Some se \/
  exists peer pid, peer ∈ peers /\ sp_device_id peer = d /\
    from_device_id uuid_parse d = Ok pid /\
    select_udp_endpoint (sp_endpoints peer) = Some (pts_endpoint se) /\
    PeerCryptoSession_new (salts d) key (public_key identity) (sp_public_key peer) lid pid = Ok (pts_crypto se).
Proof.
  induction peers as [|peer peers IH]; intros sessions out d se H Hd; simpl in H.
  { injection H as <-. by left. }
  destruct (from_device_id uuid_parse (sp_device_id peer)) as [pid| |] eqn:Ep; try done.
  cbn [mbind res_bind] in H. destruct (select_udp_endpoint (sp_endpoints peer)) as [ep|] eqn:Es.
  - destruct (PeerCryptoSession_new _ _ _ _ _ _) as [c| |] eqn:Ec; try done. cbn [mbind res_bind] in H.
    destruct (IH _ _ _ _ H Hd) as [Hin|(p & q & Hp & Hrest)].
    + destruct (decide (sp_device_id peer = d)) as [<-|Hne].
      * rewrite lookup_insert_eq in Hin. injection Hin as <-. right. exists peer, pid.
        split_and!; try done. by left.
      * rewrite lookup_insert_ne in Hin by done. by left.
    + right. exists p, q. split; [by right|done].
  - destruct (IH _ _ _ _ H Hd) as [Hin|(p & q & Hp & Hrest)]; [by left|].
    right. exists p, q. split; [by right|done].
Qed.

End sessions.

(** ** Properties *)

Section properties.
Context `{P : CryptoPrims}.
Context (os_send : SocketAddr -> list Z -> io Z).
Context (relay_connect : string -> io unit) (relay_write : RelayMessage -> io unit).

(** A data frame of the session at the other end is opened to its plaintext, wherever
    it came from; only the session changes. *)
Lemma open_received_wire `{HL : !CryptoLaws P} b now src sa sb deva nn packet f :
  peer_device_by_frame_id b !! local_id sa = Some deva ->
  peer_transport_sessions_by_device b !! deva = Some sb -> mirrored sa (pts_crypto sb) ->
  wf_id (local_id sa) -> wf_id (peer_id sa) -> wf_nonce nn -> take 8 nn = direction_prefix (send_nonces sa) ->
  wire_frame sa nn FRAME_TYPE_DATA packet = Some f ->
  window_before (receive_window (pts_crypto sb)) (nonce_counter nn) ->
  exists w, highest w = Some (nonce_counter nn) /\
    open_received_frame os_send b now f src =
      (Ok (Some packet), set_session b deva sb (set_receive_window (pts_crypto sb) w)).
Proof.
  intros Hfid Hsb Hm Hl Hp Hn Hpre Hwire Hwin.
  destruct (authenticate_wire sa (pts_crypto sb) nn FRAME_TYPE_DATA packet f) as [c Ha]; try done.
  { rewrite Hpre. apply Hm. }
  unfold open_received_frame. rewrite (authenticate_decode _ _ _ _ Ha).
  cbn [header source FrameHeader_new]. rewrite Hfid, Hsb. unfold open_message. rewrite Ha.
  cbn [header nonce FrameHeader_new message_type].
  destruct (accept_newer (receive_window (pts_crypto sb)) nn) as (w' & Hw' & Hh); [done|].
  rewrite Hw'. cbn [mbind res_bind]. by exists w'.
Qed.

(** An overlay packet travels from one backend to another: when the sender
    has a direct session for the packet's destination and the socket takes the
    datagram, exactly one datagram goes to the peer's endpoint, and the backend
    at the other end of the session, on receiving it from any address, hands out
    exactly the packet, up to 1424 bytes: the frame adds 60 bytes of header and a
    tag of 16, and the receiving buffer has 1500. *)
Theorem overlay_packet_delivered `{HL : !CryptoLaws P} a b packet dst devb sa ta tb addr deva sb :
  ipv4_destination packet = Ok dst -> (Z.of_nat (length packet) <= 1424)%Z ->
  peers_by_overlay_ip a !! dst = Some devb -> peer_transport_sessions_by_device a !! devb = Some sa ->
  peer_path_is_relay a devb = false -> transport a = Some ta ->
  endpoint_socket_addr (pts_endpoint sa) = Ok addr -> (forall f, exists n, os_send addr f = inr n) ->
  wf_session (pts_crypto sa) -> (counter (send_nonces (pts_crypto sa)) < u64_max)%Z ->
  transport b = Some tb -> peer_device_by_frame_id b !! local_id (pts_crypto sa) = Some deva ->
  peer_transport_sessions_by_device b !! deva = Some sb -> mirrored (pts_crypto sa) (pts_crypto sb) ->
  window_before (receive_window (pts_crypto sb)) (counter (send_nonces (pts_crypto sa))) ->
  exists n a' ta' frame,
    send_overlay_packet os_send relay_connect relay_write a packet = (Ok n, a') /\
    transport a' = Some ta' /\ sent ta' = sent ta ++ [(addr, frame)] /\
    forall now src, exists b',
      receive_overlay_packet os_send b now BUFFER_LEN (inr (frame, src)) = (Ok (Some packet), b').
Proof.
  intros Hdst Hlen Hip Hsa Hnr Hta Haddr Hos Hwf Hc Htb Hfid Hsb Hm Hwin.
  destruct (seal_message_ok (pts_crypto sa) packet FRAME_TYPE_DATA Hwf Hc eq_refl
    ltac:(unfold u32_max; lia))
    as (nn & f & s' & Hseal & Hwire & Hn & Hnc & Hpre & _).
  destruct (Hos f) as [k Hk]. exists k. destruct Hwf as (Hl & Hp & _).
  unfold send_overlay_packet. rewrite Hdst, Hip, Hsa. unfold seal. rewrite Hseal, Hnr.
  unfold transport_send. cbn [set_session set_sessions transport]. rewrite Hta.
  unfold send_frame. rewrite Haddr, Hk. do 2 eexists. exists f. split; [done|].
  split; [done|]. split; [done|]. intros now src.
  unfold receive_overlay_packet. rewrite Htb. unfold receive_frame, recv_from.
  rewrite take_ge by (rewrite (wire_frame_length _ _ _ _ _ Hl Hp Hn Hwire); unfold HEADER_LEN, BUFFER_LEN; lia).
  destruct (open_received_wire (set_transport b (Some (set_status tb count_rx))) now (Some src) (pts_crypto sa) sb deva nn packet f)
    as (w & _ & Ho); try done. { by rewrite Hnc. }
  eexists. exact Ho.
Qed.

(** C22: the path of every peer stays well formed over any traffic,
    maintenance and replacement of the stored state: a direct path has an endpoint and a time of success, an unknown
    one has none, the counters stay in range, and a path is only ever relayed
    after it was direct. *)
Theorem paths_well_formed salts st es :
  let s := fold_left (runtime_step os_send relay_connect relay_write) es (from_persisted salts st) in
  paths_ok s.
Proof.
  cbv zeta. pose proof (paths_ok_from_persisted salts st) as H.
  revert H. generalize (from_persisted salts st). induction es as [|e es IH]; intros s H; [done|].
  simpl. apply IH. by apply runtime_step_paths.
Qed.

(** A silent direct path is given up: when the last success is 15 seconds or
    more ago, three maintenance rounds turn the path into a relayed one if a relay
    is known and into an unknown one otherwise, and fast probing starts again;
    before 15 seconds have passed nothing changes. *)
Theorem silent_path_expires relays now1 now2 now3 s t :
  current_path s = PathDirect -> last_success_at s = Some t -> failures s = 0%Z ->
  (t <= now1 <= now2)%Z -> (now2 <= now3)%Z ->
  ((t + DIRECT_PROBE_STALE_AFTER <= now1)%Z ->
   let s' := expire_path relays now3 (expire_path relays now2 (expire_path relays now1 s)) in
   current_path s' = match relays with [] => PathUnknown | _ => PathRelay end /\
   fast_probe_attempts_remaining s' = DIRECT_FAST_PROBE_BURST_ATTEMPTS /\ rtt_ms s' = None) /\
  ((now1 < t + DIRECT_PROBE_STALE_AFTER)%Z -> expire_path relays now1 s = s).
Proof.
  intros Hc Ht Hf H12 H23.
  destruct s as [path ep lp ls lps fast fl rtt]. simpl in *. subst. split.
  - intros Hst. cbv zeta. rewrite (expire_stale relays now1 t) by lia.
    change (saturating_add_u32 0 1) with 1%Z. cbn [Z.leb DIRECT_PROBE_FAILURE_THRESHOLD Z.compare Pos.compare Pos.compare_cont].
    rewrite (expire_stale relays now2 t) by lia.
    change (saturating_add_u32 1 1) with 2%Z. cbn [Z.leb DIRECT_PROBE_FAILURE_THRESHOLD Z.compare Pos.compare Pos.compare_cont].
    rewrite (expire_stale relays now3 t) by lia. by destruct relays.
  - intros Hst. unfold expire_path. cbn -[Z.leb elapsed_since DIRECT_PROBE_STALE_AFTER].
    unfold elapsed_since, DIRECT_PROBE_STALE_AFTER in *.
    rewrite (proj2 (Z.leb_le t _)), (proj2 (Z.leb_gt 15000 _)) by lia. done.
Qed.

End properties.

(** ** Witnesses *)

Definition toy_endpoint : Endpoint := mkEndpoint Lan (V4 (Ipv4 10 0 0 2)) 7777 Udp.
Definition toy_transport : TransportRuntime :=
  mkTransportRuntime (mkSocketAddr (V4 UNSPECIFIED) 7777) toy_endpoint TransportStatus_default [].
Definition toy_overlay : Ipv4Addr := Ipv4 100 64 0 3.
(** An IPv4 packet without payload for [toy_overlay]. *)
Definition toy_packet : list Z := [69; 0; 0; 20; 0; 0; 0; 0; 64; 17; 0; 0; 100; 64; 0; 2; 100; 64; 0; 3]%Z.

(** The two ends of a session as runtime states. *)
Definition state_a : RuntimeState :=
  mkRuntimeState CustomBackendState_default ∅ {[toy_overlay := "b"]} ∅ ∅ ∅
    {["b" := mkPeerTransportSession toy_overlay toy_endpoint (end_a 5)]} ∅ [] None None
    (Some toy_transport) None NullRelayFrameSender.
Definition state_b : RuntimeState :=
  mkRuntimeState CustomBackendState_default ∅ ∅ ∅ ∅ {[id_a := "a"]}
    {["a" := mkPeerTransportSession (Ipv4 100 64 0 2) toy_endpoint (end_b ReplayWindow_default)]} ∅ [] None None
    (Some toy_transport) None NullRelayFrameSender.

Lemma overlay_packet_delivered_witness :
  exists n a' ta' frame,
    @send_overlay_packet toy_prims (fun _ f => inr (Z.of_nat (length f))) (fun _ => inr tt) (fun _ => inr tt)
      state_a toy_packet = (Ok n, a') /\
    transport a' = Some ta' /\ sent ta' = [(mkSocketAddr (V4 (Ipv4 10 0 0 2)) 7777, frame)] /\
    forall now src, exists b',
      @receive_overlay_packet toy_prims (fun _ f => inr (Z.of_nat (length f))) state_b now BUFFER_LEN (inr (frame, src)) =
      (Ok (Some toy_packet), b').
Proof.
  apply (@overlay_packet_delivered toy_prims (fun _ f => inr (Z.of_nat (length f)))
    (fun _ => inr tt) (fun _ => inr tt) toy_laws state_a state_b toy_packet toy_overlay "b"
    (mkPeerTransportSession toy_overlay toy_endpoint (end_a 5)) toy_transport toy_transport
    (mkSocketAddr (V4 (Ipv4 10 0 0 2)) 7777) "a"
    (mkPeerTransportSession (Ipv4 100 64 0 2) toy_endpoint (end_b ReplayWindow_default)));
    try reflexivity.
  - by_decide.
  - by eexists.
  - unfold wf_session, wf_send. split_and!; by_decide.
  - apply ends_mirrored.
Defined.

Definition toy_relay : RelayConfig := mkRelayConfig "r1" "tcp://10.0.0.9:9000" "eu".
Definition silent_path : PeerPathState :=
  mkPeerPathState PathDirect (Some toy_endpoint) None (Some 1000%Z) None 0 0 (Some 3%Z).

Lemma silent_path_expires_witness :
  let s' := expire_path [toy_relay] 26000 (expire_path [toy_relay] 21000 (expire_path [toy_relay] 16000 silent_path)) in
  current_path s' = PathRelay /\ fast_probe_attempts_remaining s' = 8%Z /\ rtt_ms s' = None.
Proof.
  apply (silent_path_expires [toy_relay] 16000 21000 26000 silent_path 1000);
    (reflexivity || unfold DIRECT_PROBE_STALE_AFTER; lia).
Defined.
