(* ===== verification/Backend.v ===== *)
(** * Custom backend: the [NetworkBackend] operations ([lib.rs], [CustomBackend])

    The state file, the runtime state behind the mutex, and the operations that
    the agent calls.  An operation returns [None] when its thread locks a
    mutex that it holds already: [std::sync::Mutex] is not reentrant, and such a
    call never returns.  Poisoned locks are not modelled.

    The order of locks matters in one place, the start of the transport tasks;
    elsewhere every guard is released before the next call. *)

From Stdlib Require Import ZArith Lia.
From stdpp Require Import prelude list strings gmap.
From S2P Require Import Prelude RustStd RustText Protocol Frame Nonce Crypto Transport Runtime RuntimeProps.

(** ** State *)

Record CustomBackend : Type := mkCustomBackend {
  interface_name : string;
  disk : option string;
  runtime : RuntimeState;
  tun_setup_enabled : bool;
}.

Definition with_state_path (interface_name : string) (disk : option string) : CustomBackend :=
  mkCustomBackend interface_name disk RuntimeState_default true.
Definition with_tun_setup (self : CustomBackend) (enabled : bool) : CustomBackend :=
  mkCustomBackend (interface_name self) (disk self) (runtime self) enabled.

(** The other constructors, over the files of the host: where they look for the
    state file.  [home] is the environment variable [HOME]. *)
Definition default_state_path (home : option string) : string :=
  path_join (path_join (default "." home) ".tfscale") "custom-backend.json".
Definition with_state_dir (files : string -> option string) (interface_name state_dir : string) : CustomBackend :=
  with_state_path interface_name (files (path_join state_dir "custom-backend.json")).
Definition CustomBackend_new (files : string -> option string) (home : option string)
    (interface_name : string) : CustomBackend :=
  with_state_path interface_name (files (default_state_path home)).
Definition CustomBackend_default (files : string -> option string) (home : option string) : CustomBackend :=
  CustomBackend_new files home "tfscale0".

Definition set_runtime (self : CustomBackend) (s : RuntimeState) : CustomBackend :=
  mkCustomBackend (interface_name self) (disk self) s (tun_setup_enabled self).
Definition set_disk (self : CustomBackend) (d : option string) : CustomBackend :=
  mkCustomBackend (interface_name self) d (runtime self) (tun_setup_enabled self).

(** What the file system answers, call by call. *)
Record fs_answers : Type := mkFsAnswers {
  fs_create_dir : io unit; fs_write : io unit; fs_rename : io unit; fs_chmod : io unit }.
Definition fs_ok : fs_answers := mkFsAnswers (inr tt) (inr tt) (inr tt) (inr tt).

(** [state.lock()] by a thread that may hold the guard already. *)
Definition relock {A} (guard_held : bool) (k : A) : option A := if guard_held then None else Some k.

Definition validate_state_version (state : CustomBackendState) : res BackendError unit :=
  if negb (st_version state =? STATE_VERSION)%Z then
    Err (failed ("unsupported custom backend state version: " +:+ dec (st_version state)))
  else Ok tt.

Definition diagnostic_kind (value : PeerPathKind) : PeerPathDiagnosticKind :=
  match value with PathUnknown => DiagUnknown | PathDirect => DiagDirect | PathRelay => DiagRelay end.

Definition peer_path_diagnostics (peers : list StoredPeerSession) (paths : gmap string PeerPathState)
    (tx rx : Z) : list PeerPathDiagnostic :=
  map (fun peer =>
    let state := paths !! sp_device_id peer in
    mkPeerPathDiagnostic (sp_device_id peer)
      (match state with Some s => diagnostic_kind (current_path s) | None => DiagUnknown end)
      (s ← state; e ← active_endpoint s;
       Some (ip_to_string (ep_address e) +:+ ":" +:+ dec (ep_port e)))
      (s ← state; rtt_ms s)
      (match state with Some s => failures s | None => 0%Z end) tx rx) peers.

Definition count_paths (p : PeerPathState -> bool) (paths : gmap string PeerPathState) : Z :=
  Z.of_nat (length (List.filter p (snd <$> map_to_list paths))).

Definition direct_path_status (paths : gmap string PeerPathState) : string :=
  let texts := omap (fun '(device_id, state) =>
      if negb (bool_decide (current_path state = PathDirect)) then None
      else
        endpoint ← active_endpoint state;
        let rtt := match rtt_ms state with Some v => dec v +:+ "ms" | None => "-" end in
        Some (device_id +:+ "@" +:+ ip_to_string (ep_address endpoint) +:+ ":" +:+
              dec (ep_port endpoint) +:+ "/rtt=" +:+ rtt)) (map_to_list paths) in
  match sort_by str_leb texts with [] => "none" | sorted => join "," sorted end.

Definition fast_probe_status (paths : gmap string PeerPathState) : string :=
  dec (count_paths (fun s => negb (bool_decide (current_path s = PathDirect)) &&
                             (0 <? fast_probe_attempts_remaining s)%Z) paths).

Section backend.
Context `{P : CryptoPrims}.
Context (os_send : SocketAddr -> list Z -> io Z).
(** [serde_json] on the state file. *)
Context (to_json : CustomBackendState -> string) (from_json : string -> option CustomBackendState).
(** The random session salts, by device. *)
Context (salts : string -> option (list Z)).
(** The text of an error. *)
Context (display : message -> string).

Definition load_state (self : CustomBackend) : res BackendError CustomBackendState :=
  match disk self with
  | None => Ok CustomBackendState_default
  | Some text =>
      state ← ok_or (failed_with JsonError) (from_json text);
      _ ← validate_state_version state;
      Ok state
  end.

(** The new file is written next to the old one and renamed over it. *)
Definition save_state (fs : fs_answers) (self : CustomBackend) (state : CustomBackendState)
    : res BackendError unit * CustomBackend :=
  match (_ ← io_err (fs_create_dir fs); _ ← io_err (fs_write fs); io_err (fs_rename fs)) with
  | Ok _ => (io_err (fs_chmod fs), set_disk self (Some (to_json state)))
  | Err e => (Err e, self)
  | Panic => (Panic, self)
  end.

Definition replace_state (fs : fs_answers) (self : CustomBackend) (state : CustomBackendState)
    : res BackendError unit * CustomBackend :=
  let '(r, self) := save_state fs self state in
  match r with
  | Ok _ => (Ok tt, set_runtime self (rebuild salts (runtime self) state))
  | Err e => (Err e, self)
  | Panic => (Panic, self)
  end.

(** ** Transport tasks *)

(** [spawn_relay_to_tun_loop] locks the state to read the relay and the device
    id before it spawns its thread. *)
Definition spawn_relay_to_tun_loop (guard_held : bool) (s : RuntimeState)
    : option (option (RelayConfig * string)) :=
  relock guard_held (
    relay ← head (rt_relays s);
    config ← st_local_config (persisted s);
    Some (relay, lc_device_id config)).

Definition TransportTasks_start (guard_held : bool) (s : RuntimeState) : option TransportTasks :=
  reader ← spawn_relay_to_tun_loop guard_held s;
  Some (mkTransportTasks reader).

(** The guard is held while the tasks are started. *)
Definition start_transport_tasks (self : CustomBackend)
    : option (res BackendError unit * CustomBackend) :=
  let s := runtime self in
  if bool_decide (is_Some (transport_tasks s)) || bool_decide (tun_device s = None) ||
     bool_decide (transport s = None)
  then Some (Ok tt, self)
  else
    tasks ← TransportTasks_start true s;
    Some (Ok tt, set_runtime self (set_tasks s (Some tasks))).

Definition stop_transport_tasks (self : CustomBackend) : CustomBackend :=
  set_runtime self (set_tasks (runtime self) None).

Definition set_tun_status (self : CustomBackend) (status : TunStatus) : CustomBackend :=
  set_runtime self (set_tun (runtime self) (Some status) (tun_device (runtime self))).

Definition set_tun_device (self : CustomBackend) (device : TunDevice)
    : option (res BackendError unit * CustomBackend) :=
  start_transport_tasks (set_runtime self
    (set_tun (runtime self) (Some (device_status device)) (Some device))).

(** [bound] is the outcome of [TransportRuntime::bind]. *)
Definition bind_transport (self : CustomBackend) (bound : res BackendError TransportRuntime)
    : option (res BackendError unit * CustomBackend) :=
  let self := stop_transport_tasks self in
  let self := set_runtime self (set_transport (runtime self) None) in
  match bound with
  | Ok t => start_transport_tasks (set_runtime self (set_transport (runtime self) (Some t)))
  | Err e => Some (Err e, self)
  | Panic => Some (Panic, self)
  end.

(** The operations of the runtime state, each under one lock. *)
Definition backend_send_overlay_packet (relay_connect : string -> io unit) (relay_write : RelayMessage -> io unit)
    (packet : list Z) (self : CustomBackend) : res BackendError Z * CustomBackend :=
  let '(r, s) := send_overlay_packet os_send relay_connect relay_write (runtime self) packet in (r, set_runtime self s).

Definition backend_receive_overlay_packet (now : Z) (buffer : nat) (recv : io (list Z * SocketAddr)) (self : CustomBackend)
    : res BackendError (option (list Z)) * CustomBackend :=
  let '(r, s) := receive_overlay_packet os_send (runtime self) now buffer recv in (r, set_runtime self s).

Definition backend_probe_peer_direct_paths (now : Z) (self : CustomBackend) : res BackendError Z * CustomBackend :=
  let '(r, s) := probe_peer_direct_paths os_send (runtime self) now in (r, set_runtime self s).

(** ** Operations of the trait *)

Definition generate_identity (now : Z) (uuid : string) (secret : list Z) : CustomIdentity :=
  mkCustomIdentity ("kid_" +:+ uuid) IDENTITY_SCHEME (encode_key secret)
    (encode_public_credential (x25519_public secret)) now None.

Definition ensure_credentials (fs : fs_answers) (now : Z) (uuid : string) (secret : list Z)
    (self : CustomBackend) : res BackendError BackendCredential * CustomBackend :=
  match load_state self with
  | Ok state =>
      match st_identity state with
      | Some identity =>
          match derive_public_credential (private_key identity) with
          | Ok derived =>
              if negb (bool_decide (public_key identity = derived)) then
                (Err (failed "stored public key does not match private key"), self)
              else (Ok (mkBackendCredential (public_key identity)),
                    set_runtime self (from_persisted salts state))
          | Err e => (Err e, self)
          | Panic => (Panic, self)
          end
      | None =>
          let identity := generate_identity now uuid secret in
          let '(r, self) := replace_state fs self
            (mkCustomBackendState (st_version state) (Some identity) (st_local_config state) (st_peers state)) in
          ((fun _ => mkBackendCredential (public_key identity)) <$> r, self)
      end
  | Err e => (Err e, self)
  | Panic => (Panic, self)
  end.

Definition apply_local_config (fs : fs_answers) (device : res BackendError TunDevice)
    (bound : res BackendError TransportRuntime) (config : LocalBackendConfig) (self : CustomBackend)
    : option (res BackendError unit * CustomBackend) :=
  match load_state self with
  | Ok state =>
      let '(r, self) := replace_state fs self
        (mkCustomBackendState (st_version state) (st_identity state) (Some config) (st_peers state)) in
      match r with
      | Ok _ =>
          match load_state self with
          | Ok state =>
              match st_local_config state with
              | None => Some (Panic, self)
              | Some config =>
                  let tun_config := from_local_config config in
                  if negb (tun_setup_enabled self) then
                    '(r, self) ← bind_transport self bound;
                    match r with
                    | Ok _ => Some (Ok tt, set_tun_status self
                        (TunStatus_failed (tc_interface_name tun_config)
                           (MText "TUN setup skipped by backend configuration")))
                    | _ => Some (r, self)
                    end
                  else
                    match device with
                    | Ok device =>
                        '(r, self) ← set_tun_device self device;
                        match r with
                        | Ok _ => bind_transport self bound
                        | _ => Some (r, self)
                        end
                    | Err e =>
                        Some (Err e, set_tun_status self
                          (TunStatus_failed (tc_interface_name tun_config) (BackendError_display e)))
                    | Panic => Some (Panic, self)
                    end
              end
          | Err e => Some (Err e, self)
          | Panic => Some (Panic, self)
          end
      | _ => Some (r, self)
      end
  | Err e => Some (Err e, self)
  | Panic => Some (Panic, self)
  end.

Definition apply_relay_map (relays : list RelayConfig) (self : CustomBackend) : CustomBackend :=
  let s := runtime self in
  let sender :=
    match st_local_config (persisted s), relays with
    | Some config, relay :: _ =>
        TcpSender (mkTcpRelayFrameSender relay (lc_device_id config) EmptyString false [])
    | _, _ => NullRelayFrameSender
    end in
  set_runtime self (set_relays s relays sender).

Definition peer_to_session (now : Z) (peer : PeerConfig) : res BackendError StoredPeerSession :=
  _ ← validate_public_credential (bc_public (pc_public_credential peer));
  Ok (mkStoredPeerSession (pc_device_id peer) (pc_hostname peer) (pc_overlay_ip peer)
        (bc_public (pc_public_credential peer)) (pc_endpoints peer) (pc_allowed_routes peer) now).

Definition apply_peer_map (fs : fs_answers) (now : Z) (peers : list PeerConfig) (self : CustomBackend)
    : res BackendError unit * CustomBackend :=
  match (state ← load_state self; sessions ← collect_res (peer_to_session now) peers;
         Ok (mkCustomBackendState (st_version state) (st_identity state) (st_local_config state) sessions)) with
  | Ok state => replace_state fs self state
  | Err e => (Err e, self)
  | Panic => (Panic, self)
  end.

Definition backend_local_endpoints (self : CustomBackend) : list Endpoint :=
  match transport (runtime self) with Some t => local_endpoints t | None => [] end.

(** The outer [None] of the probe loop (no answer yet) is not an outcome of the
    operation, which is why the answers must end the loop. *)
Definition probe_public_endpoint_blocking (probe_server : SocketAddr)
    (answers : list (io (list Z * SocketAddr) * bool)) (self : CustomBackend)
    : option (res BackendError (option PublicEndpointProbe) * CustomBackend) :=
  let self := stop_transport_tasks self in
  match transport (runtime self) with
  | None => Some (Err (failed "UDP transport is not bound"), self)
  | Some t =>
      '(result, t) ← transport_probe_public_endpoint os_send t probe_server answers;
      let self := set_runtime self (set_transport (runtime self) (Some t)) in
      '(restart, self) ← start_transport_tasks self;
      match restart with
      | Ok _ => Some (result, self)
      | Err e => Some (Err e, self)
      | Panic => Some (Panic, self)
      end
  end.

Definition maintain_peer_paths (now : Z) (self : CustomBackend) : res BackendError unit * CustomBackend :=
  let '(r, s) := probe_peer_direct_paths os_send (runtime self) now in
  ((fun _ => tt) <$> r, set_runtime self s).

Definition show_bool (b : bool) : string := if b then "true" else "false".

Definition backend_status (self : CustomBackend) : res BackendError BackendStatus :=
  state ← load_state self;
  let loaded := from_persisted salts state in
  let s := runtime self in
  let tun_configured := match tun_status s with Some t => configured t | None => false end in
  let tun_io_ready := match tun_status s with Some t => io_ready t | None => false end in
  let tun_text := match tun_status s ≫= tun_message with
                  | Some m => display m | None => "not_configured" end in
  let ts := match transport s with Some t => transport_status t | None => TransportStatus_default end in
  let running := bool_decide (is_Some (transport_tasks s)) in
  let paths := peer_path_state_by_device s in
  let direct_peers := count_paths (fun p => bool_decide (current_path p = PathDirect)) paths in
  let relay_peers := count_paths (fun p => bool_decide (current_path p = PathRelay)) paths in
  let nat_dec n := dec (Z.of_nat n) in
  Ok (mkBackendStatus (CustomType "tfscale") (interface_name self)
    (tun_configured && tun_io_ready && udp_bound ts && running)
    (Some (
      "custom backend state: credentials=" +:+ show_bool (bool_decide (is_Some (st_identity state))) +:+
      " local_config=" +:+ show_bool (bool_decide (is_Some (st_local_config state))) +:+
      " peers=" +:+ nat_dec (length (st_peers state)) +:+
      " peer_indexes=device:" +:+ nat_dec (size (peers_by_device loaded)) +:+
      " overlay:" +:+ nat_dec (size (peers_by_overlay_ip loaded)) +:+
      " crypto_peers=" +:+ nat_dec (size (peer_crypto_material_by_device loaded)) +:+
      " udp_bound=" +:+ show_bool (udp_bound ts) +:+
      " transport_running=" +:+ show_bool running +:+
      " local_endpoints=" +:+ dec (ts_local_endpoints ts) +:+
      " transport_peers=" +:+ nat_dec (size (peer_udp_endpoints_by_device loaded)) +:+
      " transport_sessions=" +:+ nat_dec (size (peer_transport_sessions_by_device loaded)) +:+
      " direct_peers=" +:+ dec direct_peers +:+
      " relay_peers=" +:+ dec relay_peers +:+
      " fast_probe_peers=" +:+ fast_probe_status paths +:+
      " direct_paths=" +:+ direct_path_status paths +:+
      " reachable_peers=" +:+ dec (direct_peers + relay_peers) +:+
      " tx_packets=" +:+ dec (tx_packets ts) +:+
      " rx_packets=" +:+ dec (rx_packets ts) +:+
      " tx_drops=" +:+ dec (tx_drops ts) +:+
      " rx_drops=" +:+ dec (rx_drops ts) +:+
      " tun_configured=" +:+ show_bool tun_configured +:+
      " tun_io_ready=" +:+ show_bool tun_io_ready +:+
      " tun_message=" +:+ tun_text +:+
      " data_plane=transport_ready"))
    (peer_path_diagnostics (st_peers state) paths (tx_packets ts) (rx_packets ts))).

(** [ended] is the outcome of shutting the device down. *)
Definition shutdown (ended : io unit) (self : CustomBackend) : res BackendError unit * CustomBackend :=
  let self := stop_transport_tasks self in
  let self := set_runtime self (set_transport (runtime self) None) in
  match tun_device (runtime self) with
  | None => (Ok tt, self)
  | Some device =>
      let self := set_runtime self (set_tun (runtime self) (tun_status (runtime self)) None) in
      match io_err ended with
      | Ok _ => (Ok tt, set_tun_status self (TunStatus_failed (tun_interface_name (device_status device))
                          (MText "TUN device shut down")))
      | Err e => (Err e, self)
      | Panic => (Panic, self)
      end
  end.

End backend.
