(* ===== verification/Tasks.v ===== *)
(** * Custom backend: the background threads ([lib.rs], [TransportTasks])

    The threads that [TransportTasks::start] spawns, the thread of the caller
    that starts and stops them, and the state they share.  A step is what one
    thread does between two points at which another one can intervene: loading
    the stop flag, one critical section under the state's mutex, or a call that
    blocks.  So a loop of the code takes two critical sections for one packet
    (obtain it, then send or write it) and other threads may run in between, and
    a run is an interleaving of the threads.

    A thread that panics in a critical section poisons the mutex, and [lock]
    fails from then on.  The packets that a thread obtained and handed over are
    recorded.  [thread::sleep] has no effect but time. *)

From Stdlib Require Import ZArith Lia.
From stdpp Require Import prelude list strings gmap.
From S2P Require Import Prelude RustStd Protocol Frame Nonce Crypto Transport LineReader Runtime RuntimeProps Backend.

(** ** Threads *)

(** Where a thread is: about to connect to the relay; at the head of the loop;
    past the head, about to lock and obtain a packet (or to call [read_line]);
    inside [read_line], which has moved some bytes to the line and waits for the
    socket; with a relay message, about to lock; with a packet, about to lock and
    hand it over; returned. *)
Inductive pc : Type :=
| Connecting (relay : RelayConfig) (device_id : string)
| AtHead
| Obtaining
| Reading (line : list Z)
| Opening (m : RelayMessage)
| Holding (packet : list Z)
| Ended.

(** [handed] has whether the packet was accepted. *)
Record thread : Type := mkThread {
  at_pc : pc;
  taken : list (list Z);
  handed : list (list Z * bool);
}.

(** The caller: about to lock the state to find the relay, while it may hold the
    guard already; free to run other operations; inside [join] of the first of
    the remaining handles; done. *)
Inductive main_pc : Type :=
| Spawning (guard_held : bool)
| Free
| Joining (handles : list nat)
| Stopped.

#[export] Instance main_pc_eq_dec : EqDecision main_pc.
Proof. solve_decision. Defined.

Record tasks : Type := mkTasks {
  shared : RuntimeState;
  poisoned : bool;
  stop : bool;
  tun_loop : thread;
  udp_loop : thread;
  relay_loop : thread;
  reader_buffer : list Z;
  reader_wrote : list RelayMessage;
  main : main_pc;
}.

Definition new_thread (p : pc) : thread := mkThread p [] [].
Definition goto (t : thread) (p : pc) : thread := mkThread p (taken t) (handed t).
Definition take_packet (t : thread) (p : list Z) : thread :=
  mkThread (Holding p) (taken t ++ [p]) (handed t).
Definition hand_packet (t : thread) (p : list Z) (accepted : bool) : thread :=
  mkThread AtHead (taken t) (handed t ++ [(p, accepted)]).

(** What a thread does next with the packet it obtained, if any. *)
Definition obtained (t : thread) (packet : option (list Z)) : thread :=
  match packet with Some p => take_packet t p | None => goto t AtHead end.

Definition set_shared (w : tasks) (s : RuntimeState) : tasks :=
  mkTasks s (poisoned w) (stop w) (tun_loop w) (udp_loop w) (relay_loop w) (reader_buffer w)
    (reader_wrote w) (main w).
Definition set_tun_loop (w : tasks) (t : thread) : tasks :=
  mkTasks (shared w) (poisoned w) (stop w) t (udp_loop w) (relay_loop w) (reader_buffer w)
    (reader_wrote w) (main w).
Definition set_udp_loop (w : tasks) (t : thread) : tasks :=
  mkTasks (shared w) (poisoned w) (stop w) (tun_loop w) t (relay_loop w) (reader_buffer w)
    (reader_wrote w) (main w).
Definition set_relay_loop (w : tasks) (t : thread) : tasks :=
  mkTasks (shared w) (poisoned w) (stop w) (tun_loop w) (udp_loop w) t (reader_buffer w)
    (reader_wrote w) (main w).
Definition set_reader (w : tasks) (buffer : list Z) (wrote : list RelayMessage) : tasks :=
  mkTasks (shared w) (poisoned w) (stop w) (tun_loop w) (udp_loop w) (relay_loop w) buffer wrote (main w).
Definition set_main (w : tasks) (m : main_pc) : tasks :=
  mkTasks (shared w) (poisoned w) (stop w) (tun_loop w) (udp_loop w) (relay_loop w) (reader_buffer w)
    (reader_wrote w) m.
Definition set_stop (w : tasks) : tasks :=
  mkTasks (shared w) (poisoned w) true (tun_loop w) (udp_loop w) (relay_loop w) (reader_buffer w)
    (reader_wrote w) (main w).
Definition poison (w : tasks) : tasks :=
  mkTasks (shared w) true (stop w) (tun_loop w) (udp_loop w) (relay_loop w) (reader_buffer w)
    (reader_wrote w) (main w).

(** [TransportTasks::start] up to the call that spawns the relay reader: the
    first two threads run. *)
Definition tasks_start (guard_held : bool) (s : RuntimeState) : tasks :=
  mkTasks s false false (new_thread AtHead) (new_thread AtHead) (new_thread Ended) [] []
    (Spawning guard_held).

(** The caller holds the guard of the state. *)
Definition locked (w : tasks) : bool := match main w with Spawning true => true | _ => false end.

(** [handles], in the order in which they are joined. *)
Definition handles : list nat := [0; 1; 2]%nat.
Definition handle_thread (w : tasks) (i : nat) : thread :=
  match i with 0 => tun_loop w | 1 => udp_loop w | _ => relay_loop w end%nat.
Definition ended (t : thread) : bool := match at_pc t with Ended => true | _ => false end.

Section tasks.
Context `{P : CryptoPrims}.
Context (os_send : SocketAddr -> list Z -> io Z).
Context (relay_connect : string -> io unit) (relay_write : RelayMessage -> io unit).
(** [serde_json::from_str::<RelayMessage>]. *)
Context (from_str : string -> option RelayMessage).

(** ** The loops *)

(** [while !stop.load(..)]. *)
Definition load_stop (w : tasks) (t : thread) : option thread :=
  match at_pc t with
  | AtHead => Some (goto t (if stop w then Ended else Obtaining))
  | _ => None
  end.

(** [spawn_tun_to_udp_loop]: reading a packet, and sending it. *)
Definition tun_obtain (w : tasks) (read : io (option (list Z))) : option tasks :=
  match at_pc (tun_loop w) with
  | Obtaining =>
      Some (if poisoned w then set_tun_loop w (goto (tun_loop w) Ended)
            else match try_read_tun_packet (shared w) read with
                 | Ok packet => set_tun_loop w (obtained (tun_loop w) packet)
                 | Err _ => set_tun_loop (set_shared w (record_drop (shared w))) (goto (tun_loop w) AtHead)
                 | Panic => set_tun_loop (poison w) (goto (tun_loop w) Ended)
                 end)
  | _ => None
  end.

Definition tun_hand (w : tasks) : option tasks :=
  match at_pc (tun_loop w) with
  | Holding packet =>
      Some (if poisoned w then set_tun_loop w (goto (tun_loop w) AtHead)
            else
              let '(r, s) := send_overlay_packet os_send relay_connect relay_write (shared w) packet in
              let w := set_shared w s in
              match r with
              | Panic => set_tun_loop (poison w) (goto (hand_packet (tun_loop w) packet false) Ended)
              | _ => set_tun_loop w (hand_packet (tun_loop w) packet (is_ok r))
              end)
  | _ => None
  end.

(** What a reader does behind the lock with the outcome of obtaining a packet. *)
Definition settle (w : tasks) (t : thread) (r : res BackendError (option (list Z))) (s : RuntimeState)
    : tasks * thread :=
  match r with
  | Ok packet => (set_shared w s, obtained t packet)
  | Err _ => (set_shared w (record_drop s), goto t AtHead)
  | Panic => (poison (set_shared w s), goto t Ended)
  end.

(** The second half of a reader: the packet is written to the TUN device. *)
Definition write_packet (w : tasks) (t : thread) (packet : list Z) (ok : bool) : tasks * thread :=
  if poisoned w then (w, goto t AtHead)
  else
    let '(r, s) := write_tun_packet (shared w) packet ok in
    (set_shared w (if is_ok r then s else record_drop s), hand_packet t packet (is_ok r)).

(** [spawn_udp_to_tun_loop]. *)
Definition udp_obtain (w : tasks) (now : Z) (recv : io (list Z * SocketAddr)) : option tasks :=
  match at_pc (udp_loop w) with
  | Obtaining =>
      Some (if poisoned w then set_udp_loop w (goto (udp_loop w) Ended)
            else
              let '(r, s) := receive_overlay_packet os_send (shared w) now BUFFER_LEN recv in
              let '(w, t) := settle w (udp_loop w) r s in set_udp_loop w t)
  | _ => None
  end.

Definition udp_hand (w : tasks) (ok : bool) : option tasks :=
  match at_pc (udp_loop w) with
  | Holding packet => let '(w, t) := write_packet w (udp_loop w) packet ok in Some (set_udp_loop w t)
  | _ => None
  end.

(** The thread of [spawn_relay_to_tun_loop] up to its loop: connect, register
    with an empty node key, set the read timeout. *)
Definition relay_open (w : tasks) (timeout : io unit) : option tasks :=
  match at_pc (relay_loop w) with
  | Connecting relay device_id =>
      let quit := set_relay_loop w (goto (relay_loop w) Ended) in
      let register := RelayRegister device_id EmptyString in
      Some (match relay_tcp_addr (rc_url relay) with
            | Ok addr =>
                match relay_connect addr with
                | inr _ =>
                    match relay_write register with
                    | inr _ =>
                        let w := set_reader w [] [register] in
                        match timeout with
                        | inr _ => set_relay_loop w (goto (relay_loop w) AtHead)
                        | inl _ => set_relay_loop w (goto (relay_loop w) Ended)
                        end
                    | inl _ => quit
                    end
                | inl _ => quit
                end
            | _ => quit
            end)
  | _ => None
  end.

(** The bytes that [read_line] has moved to the line so far. *)
Definition line_so_far (p : pc) : option (list Z) :=
  match p with Obtaining => Some [] | Reading line => Some line | _ => None end.

(** [read_line] returns, with [buffer] left in the [BufReader]: the branches on its
    result, and the parser.  A line that is no UTF-8 is an error. *)
Definition line_read (w : tasks) (r : io (list Z)) (buffer : list Z) : tasks :=
  let w := set_reader w buffer (reader_wrote w) in
  set_relay_loop w (goto (relay_loop w)
    (match r with
     | inr bytes =>
         match from_utf8 bytes with
         | Some line =>
             if is_empty line then Ended
             else match from_str line with Some m => Opening m | None => AtHead end
         | None => Ended
         end
     | inl k => if timed_out k then AtHead else Ended
     end)).

(** [read_line] finds a newline in the buffer, and returns. *)
Definition relay_line (w : tasks) : option tasks :=
  line ← line_so_far (at_pc (relay_loop w));
  '(l, rest) ← split_line (reader_buffer w);
  Some (line_read w (inr (line ++ l)) rest).

(** [read_line] finds none, moves the buffer to the line and reads from the socket:
    an error or the end of the stream make it return, other bytes fill the buffer. *)
Definition relay_fill (w : tasks) (read : io (list Z)) : option tasks :=
  line ← line_so_far (at_pc (relay_loop w));
  match split_line (reader_buffer w) with
  | Some _ => None
  | None =>
      Some (match read with
            | inl k => line_read w (inl k) []
            | inr [] => line_read w (inr (line ++ reader_buffer w)) []
            | inr chunk =>
                let t := goto (relay_loop w) (Reading (line ++ reader_buffer w)) in
                set_relay_loop (set_reader w chunk (reader_wrote w)) t
            end)
  end.

Definition relay_obtain (w : tasks) (now : Z) : option tasks :=
  match at_pc (relay_loop w) with
  | Opening m =>
      Some (if poisoned w then set_relay_loop w (goto (relay_loop w) Ended)
            else
              let '(r, s) := open_relay_frame os_send (shared w) now m in
              let '(w, t) := settle w (relay_loop w) r s in set_relay_loop w t)
  | _ => None
  end.

Definition relay_hand (w : tasks) (ok : bool) : option tasks :=
  match at_pc (relay_loop w) with
  | Holding packet => let '(w, t) := write_packet w (relay_loop w) packet ok in Some (set_relay_loop w t)
  | _ => None
  end.

(** ** The caller *)

(** The rest of [TransportTasks::start]: [spawn_relay_to_tun_loop] locks the
    state, and spawns its thread when there is a relay and a local configuration. *)
Definition main_spawn (w : tasks) : option tasks :=
  match main w with
  | Spawning guard_held =>
      reader ← spawn_relay_to_tun_loop guard_held (shared w);
      let reader := if poisoned w then None else reader in
      Some (set_main (match reader with
                      | Some (relay, device_id) => set_relay_loop w (new_thread (Connecting relay device_id))
                      | None => w
                      end) Free)
  | _ => None
  end.

(** The operations of the caller while the tasks run: path maintenance, a relay
    map and a new stored state; they fail on a poisoned lock. *)
Definition is_main_op (e : runtime_event) : bool :=
  match e with Maintain _ | RelayMap _ _ | Replace _ _ => true | _ => false end.

Definition main_run (w : tasks) (e : runtime_event) : option tasks :=
  match main w with
  | Free =>
      if is_main_op e then
        Some (if poisoned w then w
              else set_shared w (runtime_step os_send relay_connect relay_write (shared w) e))
      else None
  | _ => None
  end.

(** [TransportTasks::stop]: the flag, then [join] on every handle. *)
Definition main_stop (w : tasks) : option tasks :=
  match main w with Free => Some (set_main (set_stop w) (Joining handles)) | _ => None end.

Definition main_join (w : tasks) : option tasks :=
  match main w with
  | Joining (i :: rest) => if ended (handle_thread w i) then Some (set_main w (Joining rest)) else None
  | Joining [] => Some (set_main w Stopped)
  | _ => None
  end.

(** ** Steps *)

Inductive task_event : Type :=
| TunLoad | UdpLoad | RelayLoad
| TunObtain (read : io (option (list Z)))
| TunHand
| UdpObtain (now : Z) (recv : io (list Z * SocketAddr))
| UdpHand (ok : bool)
| RelayOpen (timeout : io unit)
| RelayLine
| RelayFill (read : io (list Z))
| RelayObtain (now : Z)
| RelayHand (ok : bool)
| MainSpawn
| MainRun (e : runtime_event)
| MainStop
| MainJoin.

(** The steps that lock the state. *)
Definition needs_lock (e : task_event) : bool :=
  match e with
  | TunObtain _ | TunHand | UdpObtain _ _ | UdpHand _ | RelayObtain _ | RelayHand _ => true
  | _ => false
  end.

(** One step of the threads; [None] when the event cannot happen. *)
Definition task_step (w : tasks) (e : task_event) : option tasks :=
  if needs_lock e && locked w then None
  else match e with
  | TunLoad => set_tun_loop w <$> load_stop w (tun_loop w)
  | UdpLoad => set_udp_loop w <$> load_stop w (udp_loop w)
  | RelayLoad => set_relay_loop w <$> load_stop w (relay_loop w)
  | TunObtain read => tun_obtain w read
  | TunHand => tun_hand w
  | UdpObtain now recv => udp_obtain w now recv
  | UdpHand ok => udp_hand w ok
  | RelayOpen timeout => relay_open w timeout
  | RelayLine => relay_line w
  | RelayFill read => relay_fill w read
  | RelayObtain now => relay_obtain w now
  | RelayHand ok => relay_hand w ok
  | MainSpawn => main_spawn w
  | MainRun e => main_run w e
  | MainStop => main_stop w
  | MainJoin => main_join w
  end.

Fixpoint run_tasks (w : tasks) (es : list task_event) : option tasks :=
  match es with
  | [] => Some w
  | e :: es => w ← task_step w e; run_tasks w es
  end.

End tasks.
