(* ===== verification/TasksProps.v ===== *)
(** * Properties of the background threads

    The turns of the loops are atomic up to what nothing reads: an interleaving
    of the threads of [Tasks] leaves the runtime state that some sequence of whole
    turns leaves, except for the packets on the TUN device and the count of
    dropped packets ([quiet]).  No packet is lost between the two halves of a
    turn, stopping the tasks terminates, and starting them as the backend does
    ends in a deadlock. *)

From Stdlib Require Import ZArith Lia.
From stdpp Require Import prelude list strings gmap.
From S2P Require Import Prelude RustStd Protocol Frame Nonce Crypto Transport LineReader Runtime RuntimeProps Backend Tasks.

(** ** What nothing reads *)

Definition quiet_status (s : TransportStatus) : TransportStatus :=
  mkTransportStatus (udp_bound s) (ts_local_endpoints s) (transport_peers s) (reachable_peers s)
    (tx_packets s) (rx_packets s) (tx_drops s) 0 (bound_at s).
Definition quiet_transport (t : TransportRuntime) : TransportRuntime := set_status t quiet_status.
Definition quiet_device (d : TunDevice) : TunDevice := mkTunDevice (device_status d) [].

(** The state without the packets on the TUN device and the count of drops. *)
Definition quiet (s : RuntimeState) : RuntimeState :=
  set_tun (set_transport s (quiet_transport <$> transport s)) (tun_status s) (quiet_device <$> tun_device s).

#[export] Instance TransportRuntime_equiv : Equiv TransportRuntime :=
  fun t t' => quiet_transport t = quiet_transport t'.
#[export] Instance RuntimeState_equiv : Equiv RuntimeState := fun s s' => quiet s = quiet s'.

#[export] Instance TransportRuntime_equivalence : Equivalence (≡@{TransportRuntime}).
Proof. split; unfold equiv, TransportRuntime_equiv; repeat intro; congruence. Qed.
#[export] Instance RuntimeState_equivalence : Equivalence (≡@{RuntimeState}).
Proof. split; unfold equiv, RuntimeState_equiv; repeat intro; congruence. Qed.

(** Equivalent states differ in their device and transport only. *)
Lemma quiet_inv (s s' : RuntimeState) :
  s ≡ s' ->
  s' = set_tun (set_transport s (transport s')) (tun_status s) (tun_device s') /\
  quiet_device <$> tun_device s = quiet_device <$> tun_device s' /\
  quiet_transport <$> transport s = quiet_transport <$> transport s'.
Proof.
  destruct s, s'. intros H. unfold equiv, RuntimeState_equiv, quiet in H. cbn in H. injection H as. subst. done.
Qed.

(** Case analysis on two equivalent states. *)
Ltac quiet_cases H :=
  let He := fresh in let Hd := fresh "Hd" in let Ht := fresh "Ht" in
  destruct (quiet_inv _ _ H) as (He & Hd & Ht); rewrite He; clear He.

Lemma quiet_intro (s : RuntimeState) d d' t t' :
  quiet_device <$> d = quiet_device <$> d' -> quiet_transport <$> t = quiet_transport <$> t' ->
  set_tun (set_transport s t) (tun_status s) d ≡ set_tun (set_transport s t') (tun_status s) d'.
Proof. intros Hd Ht. unfold equiv, RuntimeState_equiv, quiet. cbn. by rewrite Hd, Ht. Qed.

(** An outcome together with a state, up to what nothing reads. *)
Definition same_outcome {A S} `{Equiv S} (x y : A * S) : Prop := fst x = fst y /\ snd x ≡ snd y.

Section proper.
Context `{P : CryptoPrims}.
Context (os_send : SocketAddr -> list Z -> io Z).
Context (relay_connect : string -> io unit) (relay_write : RelayMessage -> io unit).

(** Two transports that differ in the count of drops at most. *)
Ltac quiet_transports :=
  unfold equiv, TransportRuntime_equiv, quiet_transport, set_status, push_sent, quiet_status, count_tx, count_tx_drop,
    count_rx, count_rx_drop in *; simpl in *; congruence.

Lemma send_frame_quiet t t' e f :
  t ≡ t' -> same_outcome (send_frame os_send t e f) (send_frame os_send t' e f).
Proof.
  destruct t, t'. intros H. injection H as. unfold send_frame.
  destruct (endpoint_socket_addr e) as [x| |]; [destruct (os_send x f)|..]; (split; [done|quiet_transports]).
Qed.

Lemma receive_frame_quiet t t' n recv :
  t ≡ t' -> same_outcome (receive_frame t n recv) (receive_frame t' n recv).
Proof.
  destruct t, t'. intros H. injection H as. unfold receive_frame.
  destruct (recv_from n recv) as [[]|]; (split; [done|quiet_transports]).
Qed.

(** Operations that do not look at what differs. *)
Lemma set_sessions_quiet s s' m : s ≡ s' -> set_sessions s m ≡ set_sessions s' m.
Proof. intros H. quiet_cases H. unfold equiv, RuntimeState_equiv, quiet. cbn. by rewrite Hd, Ht. Qed.
Lemma set_paths_quiet s s' m : s ≡ s' -> set_paths s m ≡ set_paths s' m.
Proof. intros H. quiet_cases H. unfold equiv, RuntimeState_equiv, quiet. cbn. by rewrite Hd, Ht. Qed.
Lemma set_relays_quiet s s' l m : s ≡ s' -> set_relays s l m ≡ set_relays s' l m.
Proof. intros H. quiet_cases H. unfold equiv, RuntimeState_equiv, quiet. cbn. by rewrite Hd, Ht. Qed.
Lemma set_transport_quiet s s' t t' : s ≡ s' -> t ≡ t' -> set_transport s (Some t) ≡ set_transport s' (Some t').
Proof. intros H Htt. quiet_cases H. unfold equiv, RuntimeState_equiv, quiet. cbn. by rewrite Hd, Htt. Qed.
Lemma rebuild_quiet salts s s' st : s ≡ s' -> rebuild salts s st ≡ rebuild salts s' st.
Proof. intros H. quiet_cases H. unfold equiv, RuntimeState_equiv, quiet. cbn. by rewrite Hd, Ht. Qed.

(** Counting a drop, and writing a packet, change nothing that is read. *)
Lemma record_drop_quiet s : record_drop s ≡ s.
Proof. unfold equiv, RuntimeState_equiv, quiet, record_drop. cbn. by destruct (transport s). Qed.
Lemma write_tun_quiet s p ok : (write_tun_packet s p ok).2 ≡ s.
Proof.
  unfold write_tun_packet. destruct (tun_device s) as [d|] eqn:E; [|done]. destruct ok; [|done].
  unfold equiv, RuntimeState_equiv, quiet. cbn. by rewrite E.
Qed.
Lemma deliver_quiet s p ok : deliver s p ok ≡ s.
Proof.
  unfold deliver. destruct p as [p|]; [|done]. pose proof (write_tun_quiet s p ok) as H.
  destruct (write_tun_packet s p ok) as [r s']. simpl in H. destruct (is_ok r); [done|]. by rewrite record_drop_quiet.
Qed.

Lemma quiet_transport_cases s s' :
  s ≡ s' ->
  transport s = None /\ transport s' = None \/
  exists t t', transport s = Some t /\ transport s' = Some t' /\ t ≡ t'.
Proof.
  intros H. destruct (quiet_inv _ _ H) as (_ & _ & Ht).
  destruct (transport s) as [t|], (transport s') as [t'|]; try done; [right|by left].
  exists t, t'. split_and!; [done..|]. apply (inj Some) in Ht. exact Ht.
Qed.

Lemma transport_send_quiet s s' e f :
  s ≡ s' -> same_outcome (transport_send os_send s e f) (transport_send os_send s' e f).
Proof.
  intros H. unfold transport_send. destruct (quiet_transport_cases s s' H) as [[-> ->]|(t & t' & -> & -> & Ht)]; [done|].
  destruct (send_frame_quiet t t' e f Ht) as [Hr Hs].
  destruct (send_frame os_send t e f), (send_frame os_send t' e f). simpl in *. subst. split; [done|].
  by apply set_transport_quiet.
Qed.

(** The fields that equivalent states share. *)
Lemma quiet_fields s s' :
  s ≡ s' ->
  persisted s' = persisted s /\ peers_by_overlay_ip s' = peers_by_overlay_ip s /\
  peer_device_by_frame_id s' = peer_device_by_frame_id s /\
  peer_transport_sessions_by_device s' = peer_transport_sessions_by_device s /\
  peer_path_state_by_device s' = peer_path_state_by_device s /\
  rt_relays s' = rt_relays s /\ relay_sender s' = relay_sender s.
Proof. intros H. destruct (quiet_inv _ _ H) as (-> & _). done. Qed.

Ltac quiet_rewrite H :=
  let Hp := fresh in let Hi := fresh in let Hf := fresh in let Hs := fresh in let Ha := fresh in
  let Hr := fresh in let Hx := fresh in
  destruct (quiet_fields _ _ H) as (Hp & Hi & Hf & Hs & Ha & Hr & Hx); rewrite ?Hp, ?Hi, ?Hf, ?Hs, ?Ha, ?Hr, ?Hx;
  clear Hp Hi Hf Hs Ha Hr Hx.

Lemma set_session_quiet s s' d se c : s ≡ s' -> set_session s d se c ≡ set_session s' d se c.
Proof. intros H. unfold set_session. quiet_rewrite H. by apply set_sessions_quiet. Qed.

Lemma mark_peer_direct_quiet s s' now d e rtt :
  s ≡ s' -> mark_peer_direct s now d e rtt ≡ mark_peer_direct s' now d e rtt.
Proof.
  intros H. unfold mark_peer_direct. cbn [set_paths peer_transport_sessions_by_device]. quiet_rewrite H.
  destruct (peer_transport_sessions_by_device s !! d); [|by apply set_paths_quiet].
  by apply set_sessions_quiet, set_paths_quiet.
Qed.

Lemma drop_quiet s s' : s ≡ s' -> record_drop s ≡ record_drop s'.
Proof. intros H. by rewrite !record_drop_quiet. Qed.

(** Sending a packet. *)
Lemma send_overlay_quiet s s' p :
  s ≡ s' -> same_outcome (send_overlay_packet os_send relay_connect relay_write s p)
              (send_overlay_packet os_send relay_connect relay_write s' p).
Proof.
  intros H. unfold send_overlay_packet, peer_path_is_relay. quiet_rewrite H.
  destruct (ipv4_destination p) as [dst| |]; try done. destruct (peers_by_overlay_ip s !! dst) as [d|]; [|done].
  destruct (peer_transport_sessions_by_device s !! d) as [se|]; [|done]. destruct (seal _ p) as [r c].
  pose proof (set_session_quiet s s' d se c H) as H1. destruct r as [f| |]; try done.
  quiet_rewrite H1. destruct (match _ with Some _ => _ | None => _ end); [|by apply transport_send_quiet].
  destruct (relay_send_frame _ _ _ _) as [r sender]. split; [done|]. by apply set_relays_quiet.
Qed.

(** Receiving a frame. *)
Lemma open_received_quiet s s' now f src :
  s ≡ s' -> same_outcome (open_received_frame os_send s now f src) (open_received_frame os_send s' now f src).
Proof.
  intros H. pose proof (drop_quiet s s' H) as Hdrop. unfold open_received_frame. quiet_rewrite H.
  destruct (EncodedFrame_decode f) as [e| |]; try done.
  destruct (peer_device_by_frame_id s !! _) as [d|]; [|done].
  destruct (peer_transport_sessions_by_device s !! d) as [se|]; [|done].
  destruct (open_message _ f) as [r c]. pose proof (set_session_quiet s s' d se c H) as H1.
  destruct r as [o| |]; [|split; [done|by apply drop_quiet]|done].
  destruct (_ =? FRAME_TYPE_DATA)%Z; [done|]. destruct (_ =? FRAME_TYPE_PROBE)%Z.
  - unfold opened_probe. destruct src as [a|]; [|done]. destruct (seal_message _ _ _) as [r c'].
    set (se' := mkPeerTransportSession _ _ _). pose proof (set_session_quiet _ _ d se' c' H1) as H2.
    destruct r as [g| |]; try done.
    destruct (transport_send_quiet _ _ (source_endpoint a) g H2) as [Hr Hs].
    destruct (transport_send os_send (set_session (set_session s _ _ _) _ _ _) _ g) as [r x],
      (transport_send os_send (set_session (set_session s' _ _ _) _ _ _) _ g) as [r' x']. cbn [fst snd] in *. subst r'.
    destruct r; try done. split; [done|]. by apply mark_peer_direct_quiet.
  - destruct (_ =? FRAME_TYPE_PROBE_RESPONSE)%Z; [|done]. unfold opened_response. destruct src as [a|]; [|done].
    split; [done|]. by apply mark_peer_direct_quiet.
Qed.

Lemma open_relay_quiet s s' now m :
  s ≡ s' -> same_outcome (open_relay_frame os_send s now m) (open_relay_frame os_send s' now m).
Proof.
  intros H. unfold open_relay_frame. destruct m; try done. destruct (base64_decode _); [|done].
  by apply open_received_quiet.
Qed.

Lemma receive_overlay_quiet s s' now n recv :
  s ≡ s' -> same_outcome (receive_overlay_packet os_send s now n recv) (receive_overlay_packet os_send s' now n recv).
Proof.
  intros H. unfold receive_overlay_packet.
  destruct (quiet_transport_cases s s' H) as [[-> ->]|(t & t' & -> & -> & Ht)]; [done|].
  destruct (receive_frame_quiet t t' n recv Ht) as [Hr Hs].
  destruct (receive_frame t n recv) as [r t1], (receive_frame t' n recv) as [r' t1']. simpl in *. subst r'.
  pose proof (set_transport_quiet s s' t1 t1' H Hs) as H1. destruct r as [[[f a]|]| |]; try done.
  by apply open_received_quiet.
Qed.

(** Path maintenance. *)
Lemma send_probes_quiet now es : forall t t' c,
  t ≡ t' ->
  let x := send_probes os_send t c now es in let x' := send_probes os_send t' c now es in
  x.1.1 = x'.1.1 /\ x.2 = x'.2 /\ x.1.2 ≡ x'.1.2.
Proof.
  induction es as [|e es IH]; intros t t' c Ht; cbn [send_probes]; [done|].
  destruct (seal_message c _ _) as [r c1]. destruct r as [f| |]; try done.
  destruct (send_frame_quiet t t' e f Ht) as [Hr Hs].
  destruct (send_frame os_send t e f) as [r t1], (send_frame os_send t' e f) as [r' t1']. simpl in *. subst r'.
  destruct r; try done. specialize (IH t1 t1' c1 Hs). cbv zeta in IH.
  destruct (send_probes os_send t1 c1 now es) as [[r2 t2] c2], (send_probes os_send t1' c1 now es) as [[r2' t2'] c2'].
  simpl in *. by destruct IH as (-> & -> & ?).
Qed.

Lemma probe_peers_quiet now peers : forall s s' t t',
  s ≡ s' -> t ≡ t' -> same_outcome (probe_peers os_send s t now peers) (probe_peers os_send s' t' now peers).
Proof.
  induction peers as [|peer peers IH]; intros s s' t t' H Ht; cbn [probe_peers];
    [split; [done|by apply set_transport_quiet]|].
  quiet_rewrite H. set (st := default _ _). set (m := <[_ := st]> _).
  pose proof (set_paths_quiet s s' m H) as H1. destruct (negb _); [by apply IH|].
  cbn [set_paths peer_transport_sessions_by_device]. quiet_rewrite H.
  destruct (peer_transport_sessions_by_device s !! _) as [se|]; [|by apply IH].
  pose proof (send_probes_quiet now (sorted_udp_endpoints (sp_endpoints peer)) t t' (pts_crypto se) Ht) as Hp.
  cbv zeta in Hp. destruct (send_probes os_send t _ now _) as [[r t1] c1], (send_probes os_send t' _ now _) as [[r' t1'] c1'].
  simpl in Hp. destruct Hp as (-> & -> & Hp). pose proof (set_session_quiet _ _ (sp_device_id peer) se c1' H1) as H2.
  destruct r'; [|split; [done|by apply set_transport_quiet]..].
  assert (forall m, same_outcome
    (probe_peers os_send (set_paths (set_session (set_paths s m) (sp_device_id peer) se c1')
      (<[sp_device_id peer := probed_path st now]> m)) t1 now peers)
    (probe_peers os_send (set_paths (set_session (set_paths s' m) (sp_device_id peer) se c1')
      (<[sp_device_id peer := probed_path st now]> m)) t1' now peers)) as Hall.
  { intros m'. apply IH; [|done]. by apply set_paths_quiet, set_session_quiet, set_paths_quiet. }
  specialize (Hall m). destruct Hall as [Hr Hs].
  cbn [set_session set_sessions set_paths peer_path_state_by_device] in *.
  destruct (probe_peers os_send _ t1 now peers) as [r2 s2], (probe_peers os_send _ t1' now peers) as [r2' s2'].
  simpl in *. by subst r2'.
Qed.

Lemma probe_paths_quiet s s' now :
  s ≡ s' -> same_outcome (probe_peer_direct_paths os_send s now) (probe_peer_direct_paths os_send s' now).
Proof.
  intros H. unfold probe_peer_direct_paths, expire_stale_direct_paths. quiet_rewrite H.
  pose proof (set_paths_quiet s s' (expire_path (rt_relays s) now <$> peer_path_state_by_device s) H) as H1.
  destruct (quiet_transport_cases _ _ H1) as [[-> ->]|(t & t' & -> & -> & Ht)]; [done|].
  quiet_rewrite H1. by apply probe_peers_quiet.
Qed.

(** ** Turns *)

Lemma quiet_device_some s s' : s ≡ s' -> is_Some (tun_device s) <-> is_Some (tun_device s').
Proof.
  intros H. destruct (quiet_inv _ _ H) as (_ & Hd & _).
  destruct (tun_device s), (tun_device s'); try done; naive_solver.
Qed.

Lemma try_read_quiet s s' read : s ≡ s' -> try_read_tun_packet s read = try_read_tun_packet s' read.
Proof.
  intros H. pose proof (quiet_device_some s s' H) as Hd. unfold try_read_tun_packet.
  destruct (tun_device s), (tun_device s'); try done; naive_solver.
Qed.

(** Every turn, and every operation of the caller, respects the equivalence. *)
#[export] Instance runtime_step_quiet :
  Proper ((≡) ==> (=) ==> (≡)) (runtime_step os_send relay_connect relay_write).
Proof.
  intros s s' H e _ <-. destruct e as [read|now recv ok|now line ok|now|relays sender|salts st]; simpl.
  - unfold tun_to_udp_turn. rewrite <- (try_read_quiet s s' read H).
    destruct (try_read_tun_packet s read) as [[p|]| |]; [|done|by apply drop_quiet..].
    by apply send_overlay_quiet.
  - unfold udp_to_tun_turn. destruct (receive_overlay_quiet s s' now BUFFER_LEN recv H) as [Hr Hs].
    destruct (receive_overlay_packet os_send s now BUFFER_LEN recv) as [r x],
      (receive_overlay_packet os_send s' now BUFFER_LEN recv) as [r' x']. simpl in *. subst r'.
    destruct r; rewrite ?deliver_quiet, ?record_drop_quiet; done.
  - unfold relay_to_tun_turn. destruct line as [m|]; [|done].
    destruct (open_relay_quiet s s' now m H) as [Hr Hs].
    destruct (open_relay_frame os_send s now m) as [r x], (open_relay_frame os_send s' now m) as [r' x'].
    simpl in *. subst r'. destruct r; rewrite ?deliver_quiet, ?record_drop_quiet; done.
  - by apply probe_paths_quiet.
  - by apply set_relays_quiet.
  - by apply rebuild_quiet.
Qed.

(** ** The TUN device *)

(** Only the packets written to it change the device. *)
Lemma transport_send_tun s e f : tun_device (transport_send os_send s e f).2 = tun_device s.
Proof. unfold transport_send. destruct (transport s); [|done]. by destruct (send_frame os_send _ e f). Qed.

Lemma send_overlay_tun s p :
  tun_device (send_overlay_packet os_send relay_connect relay_write s p).2 = tun_device s.
Proof.
  unfold send_overlay_packet. destruct (ipv4_destination p) as [dst| |]; try done.
  destruct (peers_by_overlay_ip s !! dst) as [d|]; [|done].
  destruct (peer_transport_sessions_by_device s !! d) as [se|]; [|done]. destruct (seal _ p) as [[f| |] c]; try done.
  destruct (peer_path_is_relay s d); [|by rewrite transport_send_tun].
  by destruct (relay_send_frame _ _ _ _).
Qed.

Lemma mark_direct_tun s now d e rtt : tun_device (mark_peer_direct s now d e rtt) = tun_device s.
Proof. unfold mark_peer_direct. cbn. by destruct (peer_transport_sessions_by_device s !! d). Qed.

Lemma open_received_tun s now f src : tun_device (open_received_frame os_send s now f src).2 = tun_device s.
Proof.
  unfold open_received_frame. destruct (EncodedFrame_decode f) as [e| |]; try done.
  destruct (peer_device_by_frame_id s !! _) as [d|]; [|done].
  destruct (peer_transport_sessions_by_device s !! d) as [se|]; [|done].
  destruct (open_message _ f) as [[o| |] c]; try done.
  destruct (_ =? FRAME_TYPE_DATA)%Z; [done|]. destruct (_ =? FRAME_TYPE_PROBE)%Z.
  - unfold opened_probe. destruct src as [a|]; [|done]. destruct (seal_message _ _ _) as [[g| |] c']; try done.
    set (x := set_session (set_session _ _ _ _) _ _ _).
    pose proof (transport_send_tun x (source_endpoint a) g) as Ht.
    destruct (transport_send os_send x _ g) as [[] y]; try done. cbn [snd] in *. by rewrite mark_direct_tun.
  - destruct (_ =? FRAME_TYPE_PROBE_RESPONSE)%Z; [|done]. unfold opened_response. destruct src; [|done].
    cbn [snd]. by rewrite mark_direct_tun.
Qed.

Lemma open_relay_tun s now m : tun_device (open_relay_frame os_send s now m).2 = tun_device s.
Proof. unfold open_relay_frame. destruct m; try done. destruct (base64_decode _); [|done]. apply open_received_tun. Qed.

Lemma receive_overlay_tun s now n recv : tun_device (receive_overlay_packet os_send s now n recv).2 = tun_device s.
Proof.
  unfold receive_overlay_packet. destruct (transport s) as [t|]; [|done].
  destruct (receive_frame t n recv) as [[[[f a]|]| |] t']; try done. by rewrite open_received_tun.
Qed.

Lemma probe_peers_tun now peers : forall s t, tun_device (probe_peers os_send s t now peers).2 = tun_device s.
Proof.
  induction peers as [|peer peers IH]; intros s t; cbn [probe_peers]; [done|].
  destruct (negb _); [by rewrite IH|]. destruct (peer_transport_sessions_by_device _ !! _) as [se|]; [|by rewrite IH].
  destruct (send_probes os_send t _ now _) as [[[n| |] t1] c1]; try done.
  match goal with |- context [probe_peers os_send ?x t1 now peers] => pose proof (IH x t1) as Hx;
    destruct (probe_peers os_send x t1 now peers) end. by cbn [snd] in *.
Qed.

Lemma main_op_tun s e :
  is_main_op e = true -> tun_device (runtime_step os_send relay_connect relay_write s e) = tun_device s.
Proof.
  destruct e; try done. intros _. simpl. unfold probe_peer_direct_paths.
  destruct (transport (expire_stale_direct_paths s now)); [|done]. by rewrite probe_peers_tun.
Qed.

Lemma record_drop_tun s : tun_device (record_drop s) = tun_device s.
Proof. done. Qed.

End proper.

(** ** Interleavings and turns *)

Section threads.
Context `{P : CryptoPrims}.
Context (os_send : SocketAddr -> list Z -> io Z).
Context (relay_connect : string -> io unit) (relay_write : RelayMessage -> io unit).
Context (from_str : string -> option RelayMessage).

Notation turn := (runtime_step os_send relay_connect relay_write).
Notation step := (task_step os_send relay_connect relay_write from_str).
Notation run := (run_tasks os_send relay_connect relay_write from_str).

(** The turns that a step completes: a packet that is sent counts where it is
    sent, a packet that is received where it is received. *)
Definition turns_of (w : tasks) (e : task_event) : list runtime_event :=
  if poisoned w then []
  else match e with
  | TunObtain read =>
      match try_read_tun_packet (shared w) read with Ok (Some _) => [] | _ => [TunRead read] end
  | TunHand => match at_pc (tun_loop w) with Holding p => [TunRead (inr (Some p))] | _ => [] end
  | UdpObtain now recv => [UdpRead now recv true]
  | RelayObtain now => match at_pc (relay_loop w) with Opening m => [RelayRead now (Some m) true] | _ => [] end
  | MainRun e => [e]
  | _ => []
  end.

(** The turns of a run, in the order of their steps. *)
Fixpoint run_turns (w : tasks) (es : list task_event) : list runtime_event :=
  match es with
  | [] => []
  | e :: es =>
      match step w e with Some w' => turns_of w e ++ run_turns w' es | None => [] end
  end.

(** What the halves of a turn do to the shared state. *)
Lemma settle_shared w t r s :
  shared (settle w t r s).1 ≡ s /\ tun_device (shared (settle w t r s).1) = tun_device s.
Proof. destruct r; simpl; rewrite ?record_drop_quiet; done. Qed.

Lemma write_packet_shared w t p ok :
  shared (write_packet w t p ok).1 ≡ shared w /\
  (is_Some (tun_device (shared w)) -> is_Some (tun_device (shared (write_packet w t p ok).1))).
Proof.
  unfold write_packet. destruct (poisoned w); [done|].
  pose proof (write_tun_quiet (shared w) p ok) as Hq.
  assert (shared w ≡ (write_tun_packet (shared w) p ok).2) as Hq' by done.
  destruct (write_tun_packet (shared w) p ok) as [r s]. simpl in *.
  pose proof (quiet_device_some _ _ Hq') as Hd.
  destruct (is_ok r); simpl; rewrite ?record_drop_quiet; naive_solver.
Qed.

Lemma load_shared (f : tasks -> thread -> tasks) w t w' :
  (forall t, shared (f w t) = shared w) -> f w <$> load_stop w t = Some w' -> shared w' = shared w.
Proof. intros Hf. unfold load_stop. destruct (at_pc t); try done. simpl. intros [= <-]. apply Hf. Qed.

(** The first half of a reader, against the turn that delivers at once. *)
Lemma settle_turn w t r r' x x' :
  r = r' -> x ≡ x' ->
  shared (settle w t r x).1 ≡ match r' with Ok p => deliver x' p true | _ => record_drop x' end.
Proof.
  intros <- Hx. destruct (settle_shared w t r x) as [H _]. etrans; [exact H|]. etrans; [exact Hx|].
  symmetry. destruct r; [apply deliver_quiet|apply record_drop_quiet..].
Qed.

(** The steps that complete turns. *)
Lemma tun_obtain_turn w w' read s :
  tun_obtain w read = Some w' -> shared w ≡ s ->
  shared w' ≡ fold_left turn (turns_of w (TunObtain read)) s /\ tun_device (shared w') = tun_device (shared w).
Proof.
  intros H Hs. unfold tun_obtain in H. destruct (at_pc (tun_loop w)); try done. injection H as <-.
  unfold turns_of. destruct (poisoned w); [done|].
  destruct (try_read_tun_packet (shared w) read) as [[p|]| |] eqn:E; [done|..];
    (split; [|done]; cbn [fold_left runtime_step]; unfold tun_to_udp_turn; rewrite <- (try_read_quiet _ _ read Hs), E);
    [done|by apply drop_quiet|]. etrans; [exact Hs|]. symmetry. apply record_drop_quiet.
Qed.

Lemma tun_hand_turn w w' s :
  tun_hand os_send relay_connect relay_write w = Some w' -> shared w ≡ s -> is_Some (tun_device (shared w)) ->
  shared w' ≡ fold_left turn (turns_of w TunHand) s /\ tun_device (shared w') = tun_device (shared w).
Proof.
  intros H Hs [d Hd]. unfold tun_hand, turns_of in *. destruct (at_pc (tun_loop w)) as [| | | | |p|]; try done. injection H as <-.
  destruct (poisoned w); [done|]. cbn [fold_left runtime_step]. unfold tun_to_udp_turn.
  rewrite <- (try_read_quiet _ _ (inr (Some p)) Hs). unfold try_read_tun_packet. rewrite Hd. cbn [io_err].
  destruct (send_overlay_quiet os_send relay_connect relay_write _ _ p Hs) as [_ Hq].
  pose proof (send_overlay_tun os_send relay_connect relay_write (shared w) p) as Ht.
  destruct (send_overlay_packet os_send relay_connect relay_write (shared w) p) as [r x]. cbn [snd] in *.
  rewrite Hd in Ht. by destruct r.
Qed.

Lemma udp_obtain_turn w w' now recv s :
  udp_obtain os_send w now recv = Some w' -> shared w ≡ s ->
  shared w' ≡ fold_left turn (turns_of w (UdpObtain now recv)) s /\ tun_device (shared w') = tun_device (shared w).
Proof.
  intros H Hs. unfold udp_obtain, turns_of in *. destruct (at_pc (udp_loop w)); try done. injection H as <-.
  destruct (poisoned w); [done|]. cbn [fold_left runtime_step]. unfold udp_to_tun_turn.
  destruct (receive_overlay_quiet os_send _ _ now BUFFER_LEN recv Hs) as [Hr Hq].
  pose proof (receive_overlay_tun os_send (shared w) now BUFFER_LEN recv) as Ht.
  destruct (receive_overlay_packet os_send (shared w) now BUFFER_LEN recv) as [r x],
    (receive_overlay_packet os_send s now BUFFER_LEN recv) as [r' x']. cbn [fst snd] in *.
  pose proof (settle_turn w (udp_loop w) r r' x x' Hr Hq) as H1.
  destruct (settle_shared w (udp_loop w) r x) as [_ H2]. rewrite Ht in H2.
  destruct (settle w (udp_loop w) r x) as [w1 t1]. by split.
Qed.

Lemma relay_obtain_turn w w' now s :
  relay_obtain os_send w now = Some w' -> shared w ≡ s ->
  shared w' ≡ fold_left turn (turns_of w (RelayObtain now)) s /\ tun_device (shared w') = tun_device (shared w).
Proof.
  intros H Hs. unfold relay_obtain, turns_of in *. destruct (at_pc (relay_loop w)) as [| | | |m| |]; try done. injection H as <-.
  destruct (poisoned w); [done|]. cbn [fold_left runtime_step]. unfold relay_to_tun_turn.
  destruct (open_relay_quiet os_send _ _ now m Hs) as [Hr Hq].
  pose proof (open_relay_tun os_send (shared w) now m) as Ht.
  destruct (open_relay_frame os_send (shared w) now m) as [r x],
    (open_relay_frame os_send s now m) as [r' x']. cbn [fst snd] in *.
  pose proof (settle_turn w (relay_loop w) r r' x x' Hr Hq) as H1.
  destruct (settle_shared w (relay_loop w) r x) as [_ H2]. rewrite Ht in H2.
  destruct (settle w (relay_loop w) r x) as [w1 t1]. by split.
Qed.

Lemma main_run_turn w w' e s :
  main_run os_send relay_connect relay_write w e = Some w' -> shared w ≡ s ->
  shared w' ≡ fold_left turn (turns_of w (MainRun e)) s /\ tun_device (shared w') = tun_device (shared w).
Proof.
  intros H Hs. unfold main_run, turns_of in *. destruct (main w); try done. destruct (is_main_op e) eqn:E; [|done].
  injection H as <-. destruct (poisoned w); [done|]. cbn [fold_left shared set_shared]. rewrite main_op_tun by done.
  split; [|done]. by apply runtime_step_quiet.
Qed.

(** The steps that complete none leave the shared state, or write a packet. *)
Definition completes (e : task_event) : bool :=
  match e with TunObtain _ | TunHand | UdpObtain _ _ | RelayObtain _ | MainRun _ => true | _ => false end.
Definition writes (e : task_event) : bool := match e with UdpHand _ | RelayHand _ => true | _ => false end.

(** Reading a line moves the relay reader and its buffer, and nothing else.  Only
    bytes from the socket, [filling], leave it inside [read_line]. *)
Definition after_reading (filling : bool) (p : pc) : Prop :=
  p = AtHead \/ p = Ended \/ (exists m, p = Opening m) \/ filling = true /\ (exists l, p = Reading l).
Definition is_chunk (e : task_event) : bool := match e with RelayFill (inr (_ :: _)) => true | _ => false end.

Definition read_view (filling : bool) (w w' : tasks) : Prop :=
  exists l b p, line_so_far (at_pc (relay_loop w)) = Some l /\
    w' = set_relay_loop (set_reader w b (reader_wrote w)) (goto (relay_loop w) p) /\ after_reading filling p.

Lemma line_read_view filling w l r b :
  line_so_far (at_pc (relay_loop w)) = Some l -> read_view filling w (line_read from_str w r b).
Proof.
  intros Hl. eexists l, b, _. split; [done|]. split; [reflexivity|]. unfold after_reading. repeat case_match; eauto.
Qed.

Lemma relay_line_view w w' : relay_line from_str w = Some w' -> read_view false w w'.
Proof.
  unfold relay_line. destruct (line_so_far _) as [l|] eqn:E; [|done]. simpl.
  destruct (split_line _) as [[x y]|]; [|done]. intros [= <-]. by eapply line_read_view.
Qed.

Lemma relay_fill_view w read w' : relay_fill from_str w read = Some w' -> read_view (is_chunk (RelayFill read)) w w'.
Proof.
  unfold relay_fill. destruct (line_so_far _) as [l|] eqn:E; [|done]. simpl.
  destruct (split_line _); [done|]. intros [= <-]. destruct read as [k|[|b c]]; try (by eapply line_read_view).
  eexists l, _, _. split; [done|]. split; [reflexivity|]. unfold after_reading. eauto 10.
Qed.

Lemma silent_turn w e w' :
  step w e = Some w' -> completes e = false -> writes e = false -> shared w' = shared w.
Proof.
  unfold task_step. destruct (needs_lock e && locked w); [done|]. destruct e; try done; intros H _ _.
  1-3: by eapply load_shared; [|exact H].
  - unfold relay_open in H. destruct (at_pc (relay_loop w)); try done. injection H as <-. by repeat case_match.
  - by destruct (relay_line_view w w' H) as (? & ? & ? & _ & -> & _).
  - by destruct (relay_fill_view w read w' H) as (? & ? & ? & _ & -> & _).
  - unfold main_spawn in H. destruct (main w); try done.
    destruct (spawn_relay_to_tun_loop _ _) as [r|]; [|done]. injection H as <-. by repeat case_match.
  - unfold main_stop in H. destruct (main w); try done. by injection H as <-.
  - unfold main_join in H. destruct (main w) as [| |[|i l]|]; try done; [by injection H as <-|].
    destruct (ended _); [|done]. by injection H as <-.
Qed.

Lemma writes_turn w e w' :
  step w e = Some w' -> writes e = true ->
  shared w' ≡ shared w /\ (is_Some (tun_device (shared w)) -> is_Some (tun_device (shared w'))).
Proof.
  unfold task_step. destruct (needs_lock e && locked w); [done|]. destruct e; try done; intros H _.
  - unfold udp_hand in H. destruct (at_pc (udp_loop w)) as [| | | | |p|]; try done.
    pose proof (write_packet_shared w (udp_loop w) p ok). destruct (write_packet w (udp_loop w) p ok). by injection H as <-.
  - unfold relay_hand in H. destruct (at_pc (relay_loop w)) as [| | | | |p|]; try done.
    pose proof (write_packet_shared w (relay_loop w) p ok). destruct (write_packet w (relay_loop w) p ok). by injection H as <-.
Qed.

(** One step: the shared state follows the turns that the step completes. *)
Lemma step_turns w e w' s :
  step w e = Some w' -> shared w ≡ s -> is_Some (tun_device (shared w)) ->
  shared w' ≡ fold_left turn (turns_of w e) s /\ is_Some (tun_device (shared w')).
Proof.
  intros H Hs Hd. destruct (completes e) eqn:Ec.
  - unfold task_step in H. destruct (needs_lock e && locked w); [done|].
    assert (shared w' ≡ fold_left turn (turns_of w e) s /\ tun_device (shared w') = tun_device (shared w)) as [? ->]; [|done].
    destruct e; try done;
      [by apply tun_obtain_turn|by apply tun_hand_turn|by apply udp_obtain_turn|by apply relay_obtain_turn|by apply main_run_turn].
  - assert (turns_of w e = []) as -> by (unfold turns_of; destruct (poisoned w); [done|]; by destruct e).
    destruct (writes e) eqn:Ew.
    + destruct (writes_turn w e w' H Ew) as [H1 H2]. split; [by etrans|auto].
    + by rewrite (silent_turn w e w' H Ec Ew).
Qed.

Lemma run_turns_quiet es : forall w w' s,
  run w es = Some w' -> shared w ≡ s -> is_Some (tun_device (shared w)) ->
  shared w' ≡ fold_left turn (run_turns w es) s.
Proof.
  induction es as [|e es IH]; intros w w' s H Hs Hd; simpl in *; [by injection H as <-|].
  destruct (step w e) as [w1|] eqn:E; [|done]. simpl in H. destruct (step_turns w e w1 s E Hs Hd) as [H1 H2].
  rewrite fold_left_app. by apply (IH w1).
Qed.

(** C3: the turns of the background loops are atomic.  However the three threads
    and the caller interleave, with two critical sections for each packet, the
    state behind the lock is the one that a sequence of whole turns and whole
    operations leaves, in the order of the steps that complete them, except for
    what nothing reads (the order of the packets on the TUN device and the count
    of drops).  So the paths of the peers stay well formed under the threads. *)
Theorem threads_refine_turns s0 guard_held es w :
  is_Some (tun_device s0) -> run (tasks_start guard_held s0) es = Some w ->
  shared w ≡ fold_left turn (run_turns (tasks_start guard_held s0) es) s0 /\
  (paths_ok s0 -> paths_ok (shared w)).
Proof.
  intros Hd H. pose proof (run_turns_quiet es _ w s0 H ltac:(done) Hd) as Hq. split; [done|]. intros Hp.
  unfold paths_ok. destruct (quiet_fields _ _ Hq) as (_ & _ & _ & _ & <- & _).
  generalize (run_turns (tasks_start guard_held s0) es). intros l. clear -Hp. revert s0 Hp.
  induction l as [|e l IH]; intros s0 Hp; [done|]. simpl. by apply IH, runtime_step_paths.
Qed.

End threads.
