(* ===== verification/TasksLife.v ===== *)
(** * The life of the background threads

    What happens to the packets between the two halves of a turn, how the
    threads end when the tasks are stopped, and what starting the tasks under the
    guard of the state leads to. *)

From Stdlib Require Import ZArith Lia.
From stdpp Require Import prelude list strings gmap.
From S2P Require Import Prelude RustStd Protocol Frame Nonce Crypto Transport LineReader Runtime RuntimeProps Backend Tasks TasksProps.

(** ** The moves of one thread *)

(** The packet a thread holds between its two critical sections. *)
Definition held (t : thread) : list (list Z) := match at_pc t with Holding p => [p] | _ => [] end.
Definition accepted (t : thread) : list (list Z) := (List.filter snd (handed t)).*1.

(** Every packet that the thread obtained was handed over, in order, but for the
    one in its hands. *)
Definition conserved (t : thread) : Prop := taken t = (handed t).*1 ++ held t.

Lemma conserved_goto t p : conserved t -> held t = [] -> (forall x, p <> Holding x) -> conserved (goto t p).
Proof. unfold conserved. simpl. intros -> -> Hp. unfold held. destruct p; simpl; try done. by destruct (Hp packet). Qed.

Lemma conserved_obtained t r : conserved t -> held t = [] -> conserved (obtained t r).
Proof.
  intros Hc Hh. destruct r as [p|]; [|by apply conserved_goto]. unfold conserved in *. simpl. by rewrite Hc, Hh, app_nil_r.
Qed.

Lemma conserved_hand t p b : conserved t -> at_pc t = Holding p -> conserved (hand_packet t p b).
Proof.
  unfold conserved, held. simpl. intros -> ->. by rewrite fmap_app, app_nil_r.
Qed.

Lemma accepted_hand t p b : accepted (hand_packet t p b) = accepted t ++ (if b then [p] else []).
Proof. unfold accepted. simpl. rewrite List.filter_app, fmap_app. simpl. by destruct b. Qed.

(** What a thread can do on its own: [reader] for the relay reader, [filling] when
    the socket gives it bytes, [stopped] and [failing] for the flag and the poisoned
    lock. *)
Inductive move (reader filling stopped failing : bool) (t : thread) : thread -> Prop :=
| move_load :
    at_pc t = AtHead -> move reader filling stopped failing t (goto t (if stopped then Ended else Obtaining))
| move_open r d p :
    reader = true -> at_pc t = Connecting r d -> p = AtHead \/ p = Ended -> move reader filling stopped failing t (goto t p)
| move_read l p :
    reader = true -> line_so_far (at_pc t) = Some l -> after_reading filling p ->
    move reader filling stopped failing t (goto t p)
| move_obtain r :
    at_pc t = Obtaining \/ reader = true /\ (exists m, at_pc t = Opening m) ->
    move reader filling stopped failing t (obtained t r)
| move_break :
    at_pc t = Obtaining \/ reader = true /\ (exists m, at_pc t = Opening m) ->
    move reader filling stopped failing t (goto t Ended)
| move_hand p b :
    at_pc t = Holding p -> failing = false -> move reader filling stopped failing t (hand_packet t p b)
| move_panic p b :
    at_pc t = Holding p -> failing = false -> move reader filling stopped failing t (goto (hand_packet t p b) Ended)
| move_lose p : at_pc t = Holding p -> failing = true -> move reader filling stopped failing t (goto t AtHead).

#[local] Hint Constructors move : core.

(** Only the relay reader connects, reads lines and opens relay messages. *)
Definition loop_pc (p : pc) : bool := match p with Connecting _ _ | Reading _ | Opening _ => false | _ => true end.

Lemma move_loop_pc filling stopped failing t t' :
  move false filling stopped failing t t' -> loop_pc (at_pc t) = true -> loop_pc (at_pc t') = true.
Proof. destruct 1 as [H|? ? ? [=]|? ? [=]|[p|] H| | | |]; try done. by destruct stopped. Qed.

Lemma line_so_far_Some p l : line_so_far p = Some l -> p = Obtaining \/ p = Reading l.
Proof. destruct p; try done; intros [= <-]; auto. Qed.

Lemma move_not_ended reader filling stopped failing t t' : move reader filling stopped failing t t' -> ended t = false.
Proof.
  intros Hm. unfold ended. destruct (at_pc t) eqn:E; try done.
  destruct Hm as [|? ? ? ? ? _|? ? ? Hl _|? [|(_ & ? & ?)]|[|(_ & ? & ?)]| | |]; try congruence.
  by rewrite E in Hl.
Qed.

Lemma line_so_far_held t l : line_so_far (at_pc t) = Some l -> held t = [].
Proof. unfold held. by destruct (at_pc t). Qed.

Lemma move_conserved reader filling stopped t t' : move reader filling stopped false t t' -> conserved t -> conserved t'.
Proof.
  intros Hm Hc. destruct Hm as [H|r d p _ H Hp|l p _ H Hp|r H|H|p b H _|p b H _|p H [=]].
  - apply conserved_goto; [done|unfold held; by rewrite H|by destruct stopped].
  - apply conserved_goto; [done|unfold held; by rewrite H|by destruct Hp; subst].
  - apply conserved_goto; [done|by eapply line_so_far_held|].
    by destruct Hp as [->|[->|[[? ->]|[_ [? ->]]]]].
  - apply conserved_obtained; [done|]. unfold held. by destruct H as [->|(_ & m & ->)].
  - apply conserved_goto; [done| |done]. unfold held. by destruct H as [->|(_ & m & ->)].
  - by apply conserved_hand.
  - apply conserved_goto; [by apply conserved_hand|done|done].
Qed.

(** A bound on the moves left to a thread once the flag is set, not counting those
    that fill the buffer of [read_line]. *)
Definition moves_left (t : thread) : nat :=
  match at_pc t with
  | Connecting _ _ => 2 | AtHead => 1 | Obtaining | Reading _ => 4 | Opening _ => 3 | Holding _ => 2 | Ended => 0
  end.

Lemma moves_left_bound t : (moves_left t <= 4)%nat.
Proof. unfold moves_left. destruct (at_pc t); lia. Qed.

Lemma move_left reader filling failing t t' :
  move reader filling true failing t t' -> (moves_left t' < moves_left t + if filling then 1 else 0)%nat.
Proof.
  unfold moves_left. destruct 1 as [H|r d p _ H Hp|l p _ H Hp|r H|H|p b H _|p b H _|p H _].
  - rewrite H. simpl. lia.
  - rewrite H. destruct Hp; subst; simpl; lia.
  - apply line_so_far_Some in H. assert (match at_pc t with Obtaining | Reading _ => True | _ => False end) as Hr
      by (destruct H as [-> | ->]; done).
    destruct Hp as [->|[->|[[? ->]|[-> [? ->]]]]]; simpl; destruct (at_pc t); try done; lia.
  - destruct H as [->|(_ & m & ->)], r; simpl; lia.
  - destruct H as [->|(_ & m & ->)]; simpl; lia.
  - rewrite H. simpl. lia.
  - rewrite H. simpl. lia.
  - rewrite H. simpl. lia.
Qed.

Section life.
Context `{P : CryptoPrims}.
Context (os_send : SocketAddr -> list Z -> io Z).
Context (relay_connect : string -> io unit) (relay_write : RelayMessage -> io unit).
Context (from_str : string -> option RelayMessage).

Notation step := (task_step os_send relay_connect relay_write from_str).
Notation run := (run_tasks os_send relay_connect relay_write from_str).

(** ** What a step changes *)

Definition same_threads (w w' : tasks) : Prop :=
  tun_loop w' = tun_loop w /\ udp_loop w' = udp_loop w /\ relay_loop w' = relay_loop w.

(** A step is a move of one thread, or a step of the caller; [filling] when it is
    bytes for [read_line]. *)
Inductive step_view (filling : bool) (w w' : tasks) : Prop :=
| view_tun :
    move false false (stop w) (poisoned w) (tun_loop w) (tun_loop w') -> udp_loop w' = udp_loop w ->
    relay_loop w' = relay_loop w -> stop w' = stop w -> main w' = main w -> step_view filling w w'
| view_udp :
    move false false (stop w) (poisoned w) (udp_loop w) (udp_loop w') -> tun_loop w' = tun_loop w ->
    relay_loop w' = relay_loop w -> stop w' = stop w -> main w' = main w -> step_view filling w w'
| view_relay :
    move true filling (stop w) (poisoned w) (relay_loop w) (relay_loop w') -> tun_loop w' = tun_loop w ->
    udp_loop w' = udp_loop w -> stop w' = stop w -> main w' = main w -> step_view filling w w'
| view_spawn :
    main w = Spawning false -> main w' = Free -> tun_loop w' = tun_loop w -> udp_loop w' = udp_loop w ->
    stop w' = stop w ->
    relay_loop w' = relay_loop w \/ (exists r d, relay_loop w' = new_thread (Connecting r d)) -> step_view filling w w'
| view_run : main w = Free -> main w' = Free -> same_threads w w' -> stop w' = stop w -> step_view filling w w'
| view_stop : main w = Free -> main w' = Joining handles -> same_threads w w' -> stop w' = true -> step_view filling w w'
| view_join i l :
    main w = Joining (i :: l) -> ended (handle_thread w i) = true -> main w' = Joining l -> same_threads w w' ->
    stop w' = stop w -> step_view filling w w'
| view_joined :
    main w = Joining [] -> main w' = Stopped -> same_threads w w' -> stop w' = stop w -> step_view filling w w'.

Lemma load_move reader filling w t t' : load_stop w t = Some t' -> move reader filling (stop w) (poisoned w) t t'.
Proof. unfold load_stop. destruct (at_pc t) eqn:E; try done. intros [= <-]. auto. Qed.

(** The halves of a reader touch neither the flag nor the caller nor the threads. *)
Definition untouched (w w' : tasks) : Prop := same_threads w w' /\ stop w' = stop w /\ main w' = main w.

Lemma settle_move reader filling w t r s :
  at_pc t = Obtaining \/ reader = true /\ (exists m, at_pc t = Opening m) ->
  untouched w (settle w t r s).1 /\ move reader filling (stop w) (poisoned w) t (settle w t r s).2.
Proof. intros H. destruct r; simpl; (split; [done|]); auto. by apply (move_obtain _ _ _ _ t None). Qed.

Lemma write_move reader filling w t p ok :
  at_pc t = Holding p ->
  untouched w (write_packet w t p ok).1 /\ move reader filling (stop w) (poisoned w) t (write_packet w t p ok).2.
Proof.
  intros H. unfold write_packet. destruct (poisoned w) eqn:E; [by split; [|eauto]|].
  destruct (write_tun_packet (shared w) p ok). simpl. split; [done|]. auto.
Qed.

Lemma tun_view w e w' :
  step w e = Some w' -> match e with TunObtain _ | TunHand => true | _ => false end = true -> step_view (is_chunk e) w w'.
Proof.
  unfold task_step. destruct (needs_lock e && locked w); [done|]. destruct e; try done; intros H _.
  - unfold tun_obtain in H. destruct (at_pc (tun_loop w)) eqn:E; try done. injection H as <-.
    destruct (poisoned w) eqn:Ep; [|destruct (try_read_tun_packet _ _)]; apply view_tun; simpl; auto.
    by apply (move_obtain _ _ _ _ (tun_loop w) None); auto.
  - unfold tun_hand in H. destruct (at_pc (tun_loop w)) eqn:E; try done. injection H as <-.
    destruct (poisoned w) eqn:Ep; [|destruct (send_overlay_packet _ _ _ _ _) as [[] x]];
      apply view_tun; simpl; rewrite ?Ep; eauto.
Qed.

Lemma udp_view w e w' :
  step w e = Some w' -> match e with UdpObtain _ _ | UdpHand _ => true | _ => false end = true -> step_view (is_chunk e) w w'.
Proof.
  unfold task_step. destruct (needs_lock e && locked w); [done|]. destruct e; try done; intros H _.
  - unfold udp_obtain in H. destruct (at_pc (udp_loop w)) eqn:E; try done. injection H as <-.
    destruct (poisoned w) eqn:Ep; [apply view_udp; simpl; auto|].
    destruct (receive_overlay_packet _ _ _ _ _) as [r x].
    destruct (settle_move false false w (udp_loop w) r x ltac:(auto)) as [((? & ? & ?) & ? & ?) Hm].
    destruct (settle w (udp_loop w) r x). by apply view_udp.
  - unfold udp_hand in H. destruct (at_pc (udp_loop w)) as [| | | | |p|] eqn:E; try done.
    destruct (write_move false false w (udp_loop w) p ok E) as [((? & ? & ?) & ? & ?) Hm].
    destruct (write_packet w (udp_loop w) p ok). injection H as <-. by apply view_udp.
Qed.

Lemma relay_view w e w' :
  step w e = Some w' ->
  match e with RelayOpen _ | RelayLine | RelayFill _ | RelayObtain _ | RelayHand _ => true | _ => false end = true ->
  step_view (is_chunk e) w w'.
Proof.
  unfold task_step. destruct (needs_lock e && locked w); [done|]. destruct e; try done; intros H _.
  - unfold relay_open in H. destruct (at_pc (relay_loop w)) eqn:E; try done. injection H as <-.
    repeat case_match; apply view_relay; simpl; eauto.
  - destruct (relay_line_view from_str w w' H) as (l & b & p & Hl & -> & Hp). apply view_relay; try done. by eapply move_read.
  - destruct (relay_fill_view from_str w read w' H) as (l & b & p & Hl & -> & Hp). apply view_relay; try done. by eapply move_read.
  - unfold relay_obtain in H. destruct (at_pc (relay_loop w)) as [| | | |m| |] eqn:E; try done. injection H as <-.
    destruct (poisoned w) eqn:Ep; [apply view_relay; simpl; eauto|].
    destruct (open_relay_frame _ _ _ _) as [r x].
    destruct (settle_move true (is_chunk (RelayObtain now)) w (relay_loop w) r x ltac:(eauto)) as [((? & ? & ?) & ? & ?) Hm].
    destruct (settle w (relay_loop w) r x). by apply view_relay.
  - unfold relay_hand in H. destruct (at_pc (relay_loop w)) as [| | | | |p|] eqn:E; try done.
    destruct (write_move true (is_chunk (RelayHand ok)) w (relay_loop w) p ok E) as [((? & ? & ?) & ? & ?) Hm].
    destruct (write_packet w (relay_loop w) p ok). injection H as <-. by apply view_relay.
Qed.

Lemma main_view w e w' :
  step w e = Some w' ->
  match e with MainSpawn | MainRun _ | MainStop | MainJoin => true | _ => false end = true -> step_view (is_chunk e) w w'.
Proof.
  unfold task_step. destruct (needs_lock e && locked w); [done|]. destruct e; try done; intros H _.
  - unfold main_spawn, spawn_relay_to_tun_loop, relock in H. destruct (main w) as [[]| | |] eqn:E; try done.
    simpl in H. injection H as <-. apply view_spawn; try done; repeat case_match; simpl; eauto.
  - unfold main_run in H. destruct (main w) eqn:E; try done. destruct (is_main_op e); [|done]. injection H as <-.
    by destruct (poisoned w); apply view_run.
  - unfold main_stop in H. destruct (main w) eqn:E; try done. injection H as <-. by apply view_stop.
  - unfold main_join in H. destruct (main w) as [| |[|i l]|] eqn:E; try done.
    + injection H as <-. by apply view_joined.
    + destruct (ended _) eqn:Ei; [|done]. injection H as <-. by eapply view_join.
Qed.

Lemma step_viewed w e w' : step w e = Some w' -> step_view (is_chunk e) w w'.
Proof.
  intros H. destruct e; try first [by eapply tun_view|by eapply udp_view|by eapply relay_view|by eapply main_view].
  all: cbn [task_step needs_lock andb] in H.
  - destruct (load_stop w (tun_loop w)) eqn:E; [|done]. injection H as <-. apply view_tun; try done. by apply load_move.
  - destruct (load_stop w (udp_loop w)) eqn:E; [|done]. injection H as <-. apply view_udp; try done. by apply load_move.
  - destruct (load_stop w (relay_loop w)) eqn:E; [|done]. injection H as <-. apply view_relay; try done. by apply load_move.
Qed.

(** ** Where the threads can be *)

(** The threads that were joined have returned, and the flag is set before. *)
Definition joined (w : tasks) : Prop :=
  match main w with
  | Spawning _ => relay_loop w = new_thread Ended
  | Free => True
  | Joining l =>
      stop w = true /\ exists k, l = drop k handles /\ forall i, (i < k)%nat -> ended (handle_thread w i) = true
  | Stopped => stop w = true /\ forall i, ended (handle_thread w i) = true
  end.

Record tasks_ok (w : tasks) : Prop := mkTasksOk {
  ok_tun : loop_pc (at_pc (tun_loop w)) = true;
  ok_udp : loop_pc (at_pc (udp_loop w)) = true;
  ok_main : joined w;
}.

Lemma joined_mono w w' :
  main w' = main w -> stop w' = stop w -> (forall i, ended (handle_thread w i) = true -> handle_thread w' i = handle_thread w i) ->
  joined w -> joined w'.
Proof.
  intros Hm Hs Ht. unfold joined. rewrite Hm, Hs. destruct (main w) as [| |l|]; try done.
  - intros Hr. specialize (Ht 2). simpl in Ht. rewrite Ht; [done|]. by rewrite Hr.
  - intros (? & k & ? & H). split; [done|]. exists k. split; [done|]. intros i Hi. rewrite Ht; auto.
  - intros (? & H). split; [done|]. intros i. rewrite Ht; auto.
Qed.

(** A step changes no thread that has returned, while the caller stays. *)
Lemma tasks_ok_step filling w w' : step_view filling w w' -> tasks_ok w -> tasks_ok w'.
Proof.
  intros Hv [Ht Hu Hj]. destruct Hv as [Hm E1 E2 E3 E4|Hm E1 E2 E3 E4|Hm E1 E2 E3 E4|M M' E1 E2 E3 E4|M M' E E3|M M' E E3|i l M He M' E E3|M M' E E3].
  - split; [by eapply move_loop_pc|by rewrite E1|]. apply (joined_mono w); try done.
    apply move_not_ended in Hm. intros [|[|[]]] He; simpl in *; congruence.
  - split; [by rewrite E1|by eapply move_loop_pc|]. apply (joined_mono w); try done.
    apply move_not_ended in Hm. intros [|[|[]]] He; simpl in *; congruence.
  - split; [by rewrite E1|by rewrite E2|]. apply (joined_mono w); try done.
    apply move_not_ended in Hm. intros [|[|[]]] He; simpl in *; congruence.
  - split; [by rewrite E1|by rewrite E2|]. unfold joined. by rewrite M'.
  - destruct E as (E1 & E2 & _). split; [by rewrite E1|by rewrite E2|]. unfold joined. by rewrite M'.
  - destruct E as (E1 & E2 & _). split; [by rewrite E1|by rewrite E2|]. unfold joined. rewrite M'.
    split; [done|]. exists 0. split; [done|lia].
  - destruct E as (E1 & E2 & E4). split; [by rewrite E1|by rewrite E2|]. unfold joined in *. rewrite M in Hj. rewrite M', E3.
    destruct Hj as (Hs & k & Hl & Hk). split; [done|].
    assert (forall i, handle_thread w' i = handle_thread w i) as Hh by (intros [|[|]]; simpl; congruence).
    destruct k as [|[|[|k]]]; simpl in Hl; simplify_eq.
    + exists 1. split; [done|]. intros i Hi. rewrite Hh. by replace i with 0 by lia.
    + exists 2. split; [done|]. intros i Hi. rewrite Hh. destruct i as [|[|]]; [apply Hk; lia|done|lia].
    + exists 3. split; [done|]. intros i Hi. rewrite Hh. destruct i as [|[|[|]]]; [apply Hk; lia..|done|lia].
    + by rewrite drop_nil in Hl.
  - destruct E as (E1 & E2 & E4). split; [by rewrite E1|by rewrite E2|]. unfold joined in *. rewrite M in Hj. rewrite M', E3.
    destruct Hj as (Hs & k & Hl & Hk). split; [done|].
    assert (3 <= k)%nat by (destruct k as [|[|[|k]]]; simpl in Hl; [done..|lia]).
    intros i. assert (handle_thread w' i = handle_thread w i) as -> by (destruct i as [|[|]]; simpl; congruence).
    destruct i as [|[|i]]; [apply Hk; lia..|]. apply (Hk 2). lia.
Qed.

Lemma run_ok es : forall w w', run w es = Some w' -> tasks_ok w -> tasks_ok w'.
Proof.
  induction es as [|e es IH]; intros w w' H Hok; simpl in H; [by injection H as <-|].
  destruct (step w e) as [w1|] eqn:E; [|done]. apply (IH w1); [done|].
  eapply tasks_ok_step; [by eapply step_viewed|done].
Qed.

Lemma tasks_ok_start guard_held s : tasks_ok (tasks_start guard_held s).
Proof. by split. Qed.

(** ** Packets *)

Lemma settle_handed w t r x :
  handed (settle w t r x).2 = handed t /\
  udp_loop (settle w t r x).1 = udp_loop w /\ relay_loop (settle w t r x).1 = relay_loop w.
Proof. by destruct r as [[p|]| |]. Qed.

(** Only the second halves of the readers hand packets to the device. *)
Lemma step_handed w e w' :
  step w e = Some w' -> writes e = false -> tasks_ok w ->
  handed (udp_loop w') = handed (udp_loop w) /\ handed (relay_loop w') = handed (relay_loop w).
Proof.
  unfold task_step. destruct (needs_lock e && locked w); [done|]. intros H Hw [_ _ Hj]. destruct e; try done.
  1-3: by (unfold load_stop in H; match type of H with context [at_pc ?t] => destruct (at_pc t) end; try done;
           injection H as <-).
  - unfold tun_obtain in H. destruct (at_pc (tun_loop w)); try done. injection H as <-. by repeat case_match.
  - unfold tun_hand in H. destruct (at_pc (tun_loop w)); try done. injection H as <-. by repeat case_match.
  - unfold udp_obtain in H. destruct (at_pc (udp_loop w)); try done. injection H as <-. destruct (poisoned w); [done|].
    destruct (receive_overlay_packet _ _ _ _ _) as [r x]. pose proof (settle_handed w (udp_loop w) r x) as (? & ? & ?).
    destruct (settle w (udp_loop w) r x). simpl in *. split; congruence.
  - unfold relay_open in H. destruct (at_pc (relay_loop w)); try done. injection H as <-. by repeat case_match.
  - by destruct (relay_line_view from_str w w' H) as (? & ? & ? & _ & -> & _).
  - by destruct (relay_fill_view from_str w read w' H) as (? & ? & ? & _ & -> & _).
  - unfold relay_obtain in H. destruct (at_pc (relay_loop w)); try done. injection H as <-. destruct (poisoned w); [done|].
    destruct (open_relay_frame _ _ _ _) as [r x]. pose proof (settle_handed w (relay_loop w) r x) as (? & ? & ?).
    destruct (settle w (relay_loop w) r x). simpl in *. split; congruence.
  - unfold main_spawn in H. unfold joined in Hj. destruct (main w); try done.
    destruct (spawn_relay_to_tun_loop _ _) as [r|]; [|done]. injection H as <-. repeat case_match; simpl; by rewrite ?Hj.
  - unfold main_run in H. destruct (main w); try done. destruct (is_main_op e); [|done]. injection H as <-. by destruct (poisoned w).
  - unfold main_stop in H. destruct (main w); try done. by injection H as <-.
  - unfold main_join in H. destruct (main w) as [| |[|i l]|]; try done; [by injection H as <-|].
    destruct (ended _); [|done]. by injection H as <-.
Qed.

Lemma step_device_kept w e w' :
  step w e = Some w' -> writes e = false -> is_Some (tun_device (shared w)) ->
  tun_device (shared w') = tun_device (shared w).
Proof.
  intros H Hw Hd. destruct (completes e) eqn:Ec; [|by rewrite (silent_turn _ _ _ _ w e w' H Ec Hw)].
  unfold task_step in H. destruct (needs_lock e && locked w); [done|]. assert (shared w ≡ shared w) as Hs by done.
  destruct e; try done.
  - eapply tun_obtain_turn; eauto.
  - by eapply (tun_hand_turn os_send relay_connect relay_write).
  - eapply udp_obtain_turn; eauto.
  - eapply relay_obtain_turn; eauto.
  - eapply main_run_turn; eauto.
Qed.

(** Writing a packet: the device has it when the thread's record says so. *)
Lemma write_packet_device w t p ok d :
  tun_device (shared w) = Some d ->
  exists l, tun_device (shared (write_packet w t p ok).1) = Some (mkTunDevice (device_status d) (tun_written d ++ l)) /\
    accepted (write_packet w t p ok).2 = accepted t ++ l /\
    udp_loop (write_packet w t p ok).1 = udp_loop w /\ relay_loop (write_packet w t p ok).1 = relay_loop w.
Proof.
  intros Hd. unfold write_packet. destruct (poisoned w).
  { exists []. rewrite !app_nil_r. by destruct d. }
  unfold write_tun_packet. rewrite Hd. destruct ok; simpl; rewrite accepted_hand.
  - by exists [p].
  - exists []. rewrite !app_nil_r. by destruct d.
Qed.

(** The packets [l] that were written since the start, against the records. *)
Definition written_by (d0 : TunDevice) (w : tasks) (l : list (list Z)) : Prop :=
  tun_device (shared w) = Some (mkTunDevice (device_status d0) (tun_written d0 ++ l)) /\
  l ≡ₚ accepted (udp_loop w) ++ accepted (relay_loop w) /\
  accepted (udp_loop w) `sublist_of` l /\ accepted (relay_loop w) `sublist_of` l.

Lemma written_by_step d0 w e w' l :
  step w e = Some w' -> tasks_ok w -> written_by d0 w l -> exists l', written_by d0 w' (l ++ l').
Proof.
  intros H Hok (Hd & Hp & Hu & Hr). destruct (writes e) eqn:Ew.
  - unfold task_step in H. destruct (needs_lock e && locked w); [done|]. destruct e; try done.
    + unfold udp_hand in H. destruct (at_pc (udp_loop w)) as [| | | | |p|]; try done.
      destruct (write_packet_device w (udp_loop w) p ok _ Hd) as (l' & H1 & H2 & _ & H3).
      destruct (write_packet w (udp_loop w) p ok) as [w1 t1]. injection H as <-. exists l'. simpl in *.
      unfold written_by. simpl. rewrite H1, H2, H3, app_assoc. split_and!; [done|rewrite Hp; solve_Permutation|by apply sublist_app|].
      by apply sublist_inserts_r.
    + unfold relay_hand in H. destruct (at_pc (relay_loop w)) as [| | | | |p|]; try done.
      destruct (write_packet_device w (relay_loop w) p ok _ Hd) as (l' & H1 & H2 & H3 & _).
      destruct (write_packet w (relay_loop w) p ok) as [w1 t1]. injection H as <-. exists l'. simpl in *.
      unfold written_by. simpl. rewrite H1, H2, H3, app_assoc. split_and!; [done|rewrite Hp; solve_Permutation| |by apply sublist_app].
      by apply sublist_inserts_r.
  - exists []. rewrite app_nil_r. unfold written_by, accepted.
    destruct (step_handed w e w' H Ew Hok) as [-> ->].
    rewrite (step_device_kept w e w' H Ew) by (by rewrite Hd). done.
Qed.

Lemma settle_poisoned w t r x : poisoned w = true -> poisoned (settle w t r x).1 = true.
Proof. by destruct r. Qed.

(** A poisoned lock stays poisoned. *)
Lemma poisoned_step w e w' : step w e = Some w' -> poisoned w' = false -> poisoned w = false.
Proof.
  intros H Hp'. destruct (poisoned w) eqn:Hp; [exfalso|done]. revert Hp'. apply eq_true_false_abs.
  unfold task_step in H. destruct (needs_lock e && locked w); [done|]. destruct e.
  1-3: by (unfold load_stop in H; match type of H with context [at_pc ?t] => destruct (at_pc t) end; try done;
           injection H as <-).
  - unfold tun_obtain in H. rewrite Hp in H. destruct (at_pc (tun_loop w)); try done. by injection H as <-.
  - unfold tun_hand in H. rewrite Hp in H. destruct (at_pc (tun_loop w)); try done. by injection H as <-.
  - unfold udp_obtain in H. rewrite Hp in H. destruct (at_pc (udp_loop w)); try done. by injection H as <-.
  - unfold udp_hand, write_packet in H. rewrite Hp in H. destruct (at_pc (udp_loop w)); try done. by injection H as <-.
  - unfold relay_open in H. destruct (at_pc (relay_loop w)); try done. injection H as <-. by repeat case_match.
  - by destruct (relay_line_view from_str w w' H) as (? & ? & ? & _ & -> & _).
  - by destruct (relay_fill_view from_str w read w' H) as (? & ? & ? & _ & -> & _).
  - unfold relay_obtain in H. rewrite Hp in H. destruct (at_pc (relay_loop w)); try done. by injection H as <-.
  - unfold relay_hand, write_packet in H. rewrite Hp in H. destruct (at_pc (relay_loop w)); try done. by injection H as <-.
  - unfold main_spawn in H. destruct (main w); try done.
    destruct (spawn_relay_to_tun_loop _ _) as [r|]; [|done]. injection H as <-. by repeat case_match.
  - unfold main_run in H. rewrite Hp in H. destruct (main w); try done. destruct (is_main_op e); [|done]. by injection H as <-.
  - unfold main_stop in H. destruct (main w); try done. by injection H as <-.
  - unfold main_join in H. destruct (main w) as [| |[|i l]|]; try done; [by injection H as <-|].
    destruct (ended _); [|done]. by injection H as <-.
Qed.

Definition all_conserved (w : tasks) : Prop :=
  conserved (tun_loop w) /\ conserved (udp_loop w) /\ conserved (relay_loop w).

Lemma conserved_step filling w w' : step_view filling w w' -> poisoned w = false -> all_conserved w -> all_conserved w'.
Proof.
  unfold all_conserved. intros Hv Hp (Ht & Hu & Hr).
  destruct Hv as [Hm E1 E2 _ _|Hm E1 E2 _ _|Hm E1 E2 _ _|_ _ E1 E2 _ E3
    |_ _ (E1 & E2 & E3) _|_ _ (E1 & E2 & E3) _|i l _ _ _ (E1 & E2 & E3) _|_ _ (E1 & E2 & E3) _].
  1-3: rewrite Hp in Hm; apply move_conserved in Hm; [|done]; rewrite E1, E2; done.
  1: destruct E3 as [E3|(r & d & E3)]; rewrite E1, E2, E3; done.
  all: rewrite E1, E2, E3; done.
Qed.

Lemma run_packets d0 es : forall w w' l,
  run w es = Some w' -> tasks_ok w -> written_by d0 w l -> all_conserved w -> poisoned w' = false ->
  (exists l', written_by d0 w' l') /\ all_conserved w' /\ poisoned w = false.
Proof.
  induction es as [|e es IH]; intros w w' l H Hok Hw Hc Hp; simpl in H; [by injection H as <-; eauto|].
  destruct (step w e) as [w1|] eqn:E; [|done]. simpl in H. destruct (written_by_step d0 w e w1 l E Hok Hw) as [l1 Hw1].
  pose proof (step_viewed w e w1 E) as Hv.
  assert (poisoned w1 = false) as Hp1.
  { clear -H Hp. revert w1 H. induction es as [|e' es IH']; intros w1 H; simpl in H; [by injection H as <-|].
    destruct (step w1 e') as [w2|] eqn:E; [|done]. simpl in H. eapply poisoned_step; [exact E|]. by apply IH'. }
  pose proof (poisoned_step w e w1 E Hp1) as Hp0.
  destruct (IH w1 w' _ H (tasks_ok_step _ w w1 Hv Hok) Hw1 (conserved_step _ w w1 Hv Hp0 Hc) Hp) as (? & ? & _). done.
Qed.

(** C7: no packet is lost or doubled between the two critical sections of a turn.
    However the threads interleave, and unless one of them panics, the packets
    that a loop obtained are those it handed over, in order, and the one in its
    hands; the TUN device holds, after the packets it had, those that the two
    readers wrote, each reader's in its order; and once the tasks are stopped no
    packet is in anybody's hands. *)
Theorem threads_conserve_packets s0 guard_held d0 es w :
  tun_device s0 = Some d0 -> run (tasks_start guard_held s0) es = Some w -> poisoned w = false ->
  Forall conserved [tun_loop w; udp_loop w; relay_loop w] /\
  (exists l, tun_device (shared w) = Some (mkTunDevice (device_status d0) (tun_written d0 ++ l)) /\
    l ≡ₚ accepted (udp_loop w) ++ accepted (relay_loop w) /\
    accepted (udp_loop w) `sublist_of` l /\ accepted (relay_loop w) `sublist_of` l) /\
  (main w = Stopped -> Forall (fun t => taken t = (handed t).*1) [tun_loop w; udp_loop w; relay_loop w]).
Proof.
  intros Hd H Hp. pose proof (tasks_ok_start guard_held s0) as Hok.
  assert (written_by d0 (tasks_start guard_held s0) []) as Hw.
  { split_and!; try done. simpl. rewrite Hd, app_nil_r. by destruct d0. }
  destruct (run_packets d0 es _ w [] H Hok Hw ltac:(done) Hp) as (Hl & (H1 & H2 & H3) & _).
  split_and!; [by repeat constructor|exact Hl|]. intros Hm.
  pose proof (ok_main _ (run_ok es _ _ H Hok)) as Hj. unfold joined in Hj. rewrite Hm in Hj. destruct Hj as [_ Hj].
  assert (forall t, conserved t -> ended t = true -> taken t = (handed t).*1) as Hend.
  { intros t Ht He. unfold conserved, held, ended in *. destruct (at_pc t); try done. by rewrite app_nil_r in Ht. }
  repeat constructor; apply Hend; try done; [apply (Hj 0)|apply (Hj 1)|apply (Hj 2)].
Qed.

(** ** Stopping *)

Definition main_left (m : main_pc) : nat :=
  match m with Joining l => S (length l) | _ => 0 end.
Definition steps_left (w : tasks) : nat :=
  moves_left (tun_loop w) + moves_left (udp_loop w) + moves_left (relay_loop w) + main_left (main w).

Definition stopping (w : tasks) : Prop :=
  stop w = true /\ match main w with Joining _ | Stopped => True | _ => False end.

(** Once the flag is set and the caller waits, every step brings the end closer, but
    for bytes that keep [read_line] inside a line. *)
Lemma stopping_step filling w w' :
  step_view filling w w' -> stopping w ->
  stopping w' /\ (steps_left w' < steps_left w + if filling then 1 else 0)%nat.
Proof.
  unfold stopping, steps_left. intros Hv [Hs Hm].
  destruct Hv as [Hv E1 E2 E3 E4|Hv E1 E2 E3 E4|Hv E1 E2 E3 E4|M M' E1 E2 E3 E4|M M' (E1 & E2 & E4) E3
    |M M' (E1 & E2 & E4) E3|i l M He M' (E1 & E2 & E4) E3|M M' (E1 & E2 & E4) E3]; try (by rewrite M in Hm).
  1-3: rewrite Hs in Hv; apply move_left in Hv; rewrite E1, E2, E3, E4; split; [done|lia].
  all: rewrite E1, E2, E3, E4, M, M'; simpl; split; [done|lia].
Qed.

(** The steps that give [read_line] bytes. *)
Definition chunks (es : list task_event) : nat := length (List.filter is_chunk es).

Lemma stopping_run es : forall w w',
  run w es = Some w' -> stopping w ->
  stopping w' /\ (length es + steps_left w' <= steps_left w + chunks es)%nat.
Proof.
  induction es as [|e es IH]; intros w w' H Hs; simpl in H; [injection H as <-; simpl; split; [done|lia]|].
  destruct (step w e) as [w1|] eqn:E; [|done]. simpl in H.
  destruct (stopping_step _ w w1 (step_viewed w e w1 E) Hs) as [Hs1 Hlt]. destruct (IH w1 w' H Hs1).
  unfold chunks in *. cbn [List.filter length]. split; [done|]. destruct (is_chunk e); cbn [length]; lia.
Qed.

(** What the device, the sockets and the clock answer to the next call of a thread. *)
Record answers : Type := mkAnswers {
  a_tun : io (option (list Z));
  a_udp : io (list Z * SocketAddr);
  a_now : Z;
  a_written : bool;
  a_timeout : io unit;
  a_relay : io (list Z);
}.

(** The next step of a thread that has not returned. *)
Definition next_of (w : tasks) (i : nat) (a : answers) : task_event :=
  match i, at_pc (handle_thread w i) with
  | 0, AtHead => TunLoad
  | 0, Obtaining => TunObtain (a_tun a)
  | 0, _ => TunHand
  | 1, AtHead => UdpLoad
  | 1, Obtaining => UdpObtain (a_now a) (a_udp a)
  | 1, _ => UdpHand (a_written a)
  | _, Connecting _ _ => RelayOpen (a_timeout a)
  | _, AtHead => RelayLoad
  | _, Opening _ => RelayObtain (a_now a)
  | _, Holding _ => RelayHand (a_written a)
  | _, _ => match split_line (reader_buffer w) with Some _ => RelayLine | None => RelayFill (a_relay a) end
  end%nat.

(** The step that the caller of [stop] waits for. *)
Definition awaited (w : tasks) (a : answers) : task_event :=
  match main w with
  | Joining (i :: _) => if ended (handle_thread w i) then MainJoin else next_of w i a
  | _ => MainJoin
  end.

(** Whatever is answered, no thread that the caller waits for is blocked. *)
Lemma stopping_progress w a :
  stopping w -> tasks_ok w -> main w <> Stopped -> exists w', step w (awaited w a) = Some w'.
Proof.
  intros [Hs Hm] [Ht Hu _] Hn. unfold task_step, awaited.
  assert (locked w = false) as Hl by (unfold locked; by destruct (main w)).
  rewrite Hl, andb_false_r. destruct (main w) as [| |[|i l]|] eqn:E; try done.
  { unfold main_join. rewrite E. by eexists. }
  destruct (ended (handle_thread w i)) eqn:Ei.
  { unfold main_join. rewrite E, Ei. by eexists. }
  destruct i as [|[|i]]; simpl in Ei; unfold ended, next_of in *; cbn [handle_thread].
  - unfold load_stop, tun_obtain, tun_hand. destruct (at_pc (tun_loop w)) eqn:Ep; try done; by eexists.
  - unfold load_stop, udp_obtain, udp_hand. destruct (at_pc (udp_loop w)) eqn:Ep; try done; try by eexists.
    destruct (write_packet _ _ _ _). by eexists.
  - unfold load_stop, relay_open, relay_obtain, relay_hand, relay_line, relay_fill.
    destruct (at_pc (relay_loop w)) eqn:Ep; try done; try (by eexists);
      try (destruct (split_line (reader_buffer w)) as [[x y]|] eqn:El; rewrite ?Ep, ?El; by eexists).
    destruct (write_packet _ _ _ _). by eexists.
Qed.

(** [stop] with nobody else running: the awaited steps, one by one. *)
Fixpoint await (w : tasks) (l : list answers) : option tasks :=
  match main w, l with
  | Stopped, _ | _, [] => Some w
  | _, a :: l => w ← step w (awaited w a); await w l
  end.

Definition is_bytes (a : answers) : bool := match a_relay a with inr (_ :: _) => true | _ => false end.

Lemma awaited_chunk w a : is_chunk (awaited w a) = true -> is_bytes a = true.
Proof.
  unfold awaited, next_of, is_bytes. destruct (main w) as [| |[|i l]|]; try done. destruct (ended _); [done|].
  destruct i as [|[|i]]; repeat case_match; done.
Qed.

Lemma await_returns l : forall w,
  stopping w -> tasks_ok w -> (steps_left w + length (List.filter is_bytes l) <= length l)%nat ->
  exists w', await w l = Some w' /\ main w' = Stopped /\ tasks_ok w'.
Proof.
  induction l as [|a l IH]; intros w Hs Hok Hn.
  - exists w. cbn [await]. destruct Hs as [Hs Hm]. unfold steps_left in Hn. simpl in Hn.
    destruct (main w) as [| |k|] eqn:E; try done. simpl in Hn. lia.
  - destruct (decide (main w = Stopped)) as [E|E]; [exists w; cbn [await]; by rewrite E|].
    destruct (stopping_progress w a Hs Hok E) as [w1 H1]. pose proof (step_viewed _ _ _ H1) as Hv.
    destruct (stopping_step _ w w1 Hv Hs) as [Hs1 Hlt]. pose proof (tasks_ok_step _ w w1 Hv Hok) as Hok1.
    destruct (IH w1 Hs1 Hok1) as (w' & H' & Hr).
    + cbn [List.filter length] in Hn. pose proof (awaited_chunk w a).
      destruct (is_chunk (awaited w a)); [rewrite H in Hn by done|destruct (is_bytes a)]; cbn [length] in Hn; lia.
    + exists w'. split; [|done]. cbn [await]. rewrite H1. by destruct (main w).
Qed.

(** The steps of the reader make up one call of [read_line] as [LineReader] has it. *)
Lemma read_line_steps reads : forall w line r b,
  line_so_far (at_pc (relay_loop w)) = Some line -> read_until (reader_buffer w) line reads = Some (r, b, []) ->
  exists es, run w es = Some (line_read from_str w r b) /\ (length es <= S (length reads))%nat.
Proof.
  assert (forall w line r b, line_so_far (at_pc (relay_loop w)) = Some line ->
    forall l, split_line (reader_buffer w) = Some (l, b) -> r = inr (line ++ l) ->
    run w [RelayLine] = Some (line_read from_str w r b)) as Hdone.
  { intros w line r b Hl l Hs ->. cbn [run_tasks task_step needs_lock andb]. unfold relay_line. by rewrite Hl; cbn; rewrite Hs. }
  induction reads as [|x reads IH]; intros w line r b Hl H; cbn [read_until] in H;
    destruct (split_line (reader_buffer w)) as [[l rest]|] eqn:Es; try done.
  1: injection H as <- <-; exists [RelayLine]; split; [by eapply Hdone|simpl; lia].
  assert (forall y w1, relay_fill from_str w y = Some w1 -> step w (RelayFill y) = Some w1) as Hf by done.
  destruct x as [k|[|c cs]].
  - injection H as <- <- ->. exists [RelayFill (inl k)]. split; [|simpl; lia]. cbn [run_tasks].
    erewrite Hf; [done|]. unfold relay_fill. rewrite Hl. cbn. by rewrite Es.
  - injection H as <- <- ->. exists [RelayFill (inr [])]. split; [|simpl; lia]. cbn [run_tasks].
    erewrite Hf; [done|]. unfold relay_fill. rewrite Hl. cbn. by rewrite Es.
  - set (w1 := set_relay_loop (set_reader w (c :: cs) (reader_wrote w))
      (goto (relay_loop w) (Reading (line ++ reader_buffer w)))).
    destruct (IH w1 (line ++ reader_buffer w) r b eq_refl H) as (es & Hes & Hn).
    exists (RelayFill (inr (c :: cs)) :: es). split; [|simpl; lia]. cbn [run_tasks].
    rewrite (Hf _ w1); [exact Hes|]. unfold relay_fill. rewrite Hl. cbn. by rewrite Es.
Qed.

(** Bytes without a newline keep the reader inside [read_line]. *)
Lemma fill_forever l : forall w x,
  line_so_far (at_pc (relay_loop w)) = Some x -> split_line (reader_buffer w) = None ->
  Forall (fun c => c <> [] /\ split_line c = None) l ->
  exists w', run w ((fun c => RelayFill (inr c)) <$> l) = Some w' /\ main w' = main w.
Proof.
  induction l as [|c l IH]; intros w x Hx Hb Hl; [by exists w|]. apply Forall_cons in Hl as [[Hc Hn] Hl].
  destruct c as [|b c]; [done|]. cbn [fmap list_fmap run_tasks].
  assert (step w (RelayFill (inr (b :: c))) = Some (set_relay_loop (set_reader w (b :: c) (reader_wrote w))
    (goto (relay_loop w) (Reading (x ++ reader_buffer w))))) as ->.
  { cbn [task_step needs_lock andb]. unfold relay_fill. rewrite Hx. cbn [mbind option_bind]. by rewrite Hb. }
  cbn [mbind option_bind]. by apply (IH (set_relay_loop (set_reader w (b :: c) (reader_wrote w))
    (goto (relay_loop w) (Reading (x ++ reader_buffer w)))) (x ++ reader_buffer w)).
Qed.

(** C12: when [TransportTasks::stop] returns.  Whatever the threads are doing when the
    flag is set: in every interleaving at most sixteen steps are left, not counting
    reads in which the relay sends bytes; when [stop] returns every thread has
    ended; and until then the thread it waits for can go on, whatever the device,
    the sockets and the relay answer.  So [stop] returns after sixteen calls more
    than those in which the relay sends bytes.  But [read_line] looks neither at the
    flag nor at its length: while the reader waits inside a line, a relay that goes
    on sending bytes without a newline keeps [stop] from returning, for any number
    of reads. *)
Theorem stop_terminates s0 guard_held es0 w w0 :
  run (tasks_start guard_held s0) es0 = Some w -> main_stop w = Some w0 ->
  (forall es w', run w0 es = Some w' ->
    (length es <= 16 + chunks es)%nat /\
    (main w' = Stopped -> Forall (fun t => ended t = true) [tun_loop w'; udp_loop w'; relay_loop w']) /\
    (main w' <> Stopped -> forall a, exists w'', step w' (awaited w' a) = Some w'')) /\
  (forall l, (16 + length (List.filter is_bytes l) <= length l)%nat ->
    exists w', await w0 l = Some w' /\ main w' = Stopped) /\
  (forall es w' x, run w0 es = Some w' -> line_so_far (at_pc (relay_loop w')) = Some x ->
    split_line (reader_buffer w') = None ->
    forall cs, Forall (fun c => c <> [] /\ split_line c = None) cs ->
    exists w'', run w' ((fun c => RelayFill (inr c)) <$> cs) = Some w'' /\ main w'' <> Stopped).
Proof.
  intros H0 H1. assert (stopping w0 /\ main w0 = Joining handles) as [Hs Hm].
  { unfold main_stop in H1. destruct (main w); try done. by injection H1 as <-. }
  assert (tasks_ok w0) as Hok.
  { eapply tasks_ok_step; [apply (step_viewed w MainStop); exact H1|]. eapply run_ok; [exact H0|apply tasks_ok_start]. }
  assert (steps_left w0 <= 16)%nat as Hn.
  { unfold steps_left. rewrite Hm. pose proof (moves_left_bound (tun_loop w0)).
    pose proof (moves_left_bound (udp_loop w0)). pose proof (moves_left_bound (relay_loop w0)). simpl. lia. }
  split_and!.
  - intros es w' H. destruct (stopping_run es w0 w' H Hs) as [Hs' Hl]. pose proof (run_ok es w0 w' H Hok) as Hok'.
    split_and!; [lia| |by intros; apply stopping_progress].
    intros Hm'. destruct Hok' as [_ _ Hj]. unfold joined in Hj. rewrite Hm' in Hj. destruct Hj as [_ Hj].
    repeat constructor; [apply (Hj 0)|apply (Hj 1)|apply (Hj 2)].
  - intros l Hl. destruct (await_returns l w0 Hs Hok) as (w' & ? & ? & _); [lia|by exists w'].
  - intros es w' x H Hx Hb cs Hcs. destruct (fill_forever cs w' x Hx Hb Hcs) as (w'' & H2 & E). exists w''. split; [done|].
    rewrite E. intros Hm'. destruct (run_ok es w0 w' H Hok) as [_ _ Hj]. unfold joined in Hj. rewrite Hm' in Hj.
    destruct Hj as [_ Hj]. specialize (Hj 2). unfold ended in Hj. simpl in Hj.
    apply line_so_far_Some in Hx as [Hx|Hx]; by rewrite Hx in Hj.
Qed.

(** ** Starting under the guard *)

(** The states of a start that waits for the lock its own thread holds. *)
Definition waiting (s : RuntimeState) (w : tasks) : Prop :=
  shared w = s /\ main w = Spawning true /\ stop w = false /\ relay_loop w = new_thread Ended /\
  (tun_loop w = new_thread AtHead \/ tun_loop w = new_thread Obtaining) /\
  (udp_loop w = new_thread AtHead \/ udp_loop w = new_thread Obtaining).

Definition loads_left (t : thread) : nat := match at_pc t with AtHead => 1 | _ => 0 end.

Lemma waiting_step s w e w' :
  waiting s w -> step w e = Some w' ->
  waiting s w' /\ (loads_left (tun_loop w') + loads_left (udp_loop w') < loads_left (tun_loop w) + loads_left (udp_loop w))%nat.
Proof.
  intros (Hs & Hm & Hf & Hr & Ht & Hu) H. unfold task_step, locked in H. rewrite Hm in H.
  destruct e; simpl in H; try done; unfold load_stop, relay_open, relay_line, relay_fill, main_spawn, main_run, main_stop, main_join in H;
    rewrite ?Hm, ?Hr, ?Hf in H; try done.
  - destruct Ht as [Ht|Ht]; rewrite Ht in H; [|done]. injection H as <-. unfold waiting. simpl. rewrite Ht. split; [by auto 10|unfold loads_left; simpl; lia].
  - destruct Hu as [Hu|Hu]; rewrite Hu in H; [|done]. injection H as <-. unfold waiting. simpl. rewrite Hu. split; [by auto 10|unfold loads_left; simpl; lia].
Qed.

(** C34: starting the tasks as the backend does, with the guard of the state held,
    stops everything.  From then on the only steps are the two loops loading the
    flag once; the caller never gets on, the state never changes, no packet is
    read, and no thread ends. *)
Theorem guarded_start_deadlocks s es w :
  run (tasks_start true s) es = Some w ->
  (length es <= 2)%nat /\ main w = Spawning true /\ shared w = s /\
  taken (tun_loop w) = [] /\ taken (udp_loop w) = [] /\ ended (tun_loop w) = false /\ ended (udp_loop w) = false.
Proof.
  assert (forall es w w', waiting s w -> run w es = Some w' -> waiting s w' /\
    (length es + (loads_left (tun_loop w') + loads_left (udp_loop w')) <= loads_left (tun_loop w) + loads_left (udp_loop w))%nat) as Hall.
  { clear. induction es as [|e es IH]; intros w w' Hw H; simpl in H; [injection H as <-; simpl; split; [done|lia]|].
    destruct (step w e) as [w1|] eqn:E; [|done]. simpl in H. destruct (waiting_step s w e w1 Hw E) as [Hw1 Hlt].
    destruct (IH w1 w' Hw1 H). simpl. split; [done|lia]. }
  intros H. destruct (Hall es (tasks_start true s) w) as [(Hs & Hm & _ & _ & Ht & Hu) Hl]; [|done|].
  { unfold waiting. by auto 10. }
  unfold loads_left at 3 4 in Hl. simpl in Hl. unfold ended. split_and!; [lia|done|done|by destruct Ht as [->| ->]|by destruct Hu as [->| ->]
    |by destruct Ht as [->| ->]|by destruct Hu as [->| ->]].
Qed.

End life.

(** ** Witnesses *)

Definition toy_send (a : SocketAddr) (f : list Z) : io Z := inr (Z.of_nat (length f)).
Definition toy_connect (a : string) : io unit := inr tt.
Definition toy_relay_write (m : RelayMessage) : io unit := inr tt.
Definition toy_from_str (s : string) : option RelayMessage := None.

(** The frame that the other end sends. *)
Definition toy_frame : list Z :=
  match @send_overlay_packet toy_prims toy_send toy_connect toy_relay_write state_a toy_packet with
  | (_, a) => match transport a with Some t => default [] (snd <$> head (sent t)) | None => [] end
  end.

Definition toy_device : TunDevice := mkTunDevice (TunStatus_configured "tfscale0") [].
Definition tasks_state : RuntimeState := set_tun state_b (Some (TunStatus_configured "tfscale0")) (Some toy_device).

(** A frame is received, and before its packet is written the other loop reads a
    packet, and paths are maintained; then the tasks are stopped. *)
Definition toy_schedule : list task_event :=
  [TunLoad; UdpLoad; MainSpawn; UdpObtain 0 (inr (toy_frame, mkSocketAddr (V4 (Ipv4 10 0 0 1)) 7777));
   TunObtain (inr (Some toy_packet)); MainRun (Maintain 5); TunHand].
Definition toy_end : list task_event := [UdpHand true; TunLoad; UdpLoad; MainJoin; MainJoin; MainJoin; MainJoin].

Definition toy_run (es : list task_event) : option tasks :=
  @run_tasks toy_prims toy_send toy_connect toy_relay_write toy_from_str (tasks_start false tasks_state) es.

(** What the witnesses look at. *)
Definition toy_view (w : tasks) : bool * list (list Z) * main_pc := (poisoned w, taken (udp_loop w), main w).

Lemma toy_run_stops : toy_view <$> toy_run (toy_schedule ++ MainStop :: toy_end) = Some (false, [toy_packet], Stopped).
Proof. vm_compute. reflexivity. Qed.

Lemma threads_refine_turns_witness :
  exists w, toy_run (toy_schedule ++ MainStop :: toy_end) = Some w /\ taken (udp_loop w) = [toy_packet] /\
    shared w ≡ fold_left (@runtime_step toy_prims toy_send toy_connect toy_relay_write)
      (@run_turns toy_prims toy_send toy_connect toy_relay_write toy_from_str (tasks_start false tasks_state)
        (toy_schedule ++ MainStop :: toy_end)) tasks_state.
Proof.
  pose proof toy_run_stops as Hv. destruct (toy_run (toy_schedule ++ MainStop :: toy_end)) as [w|] eqn:E; [|discriminate Hv].
  injection Hv as Hp Ht Hm. exists w. split; [reflexivity|]. split; [exact Ht|].
  apply (@threads_refine_turns toy_prims toy_send toy_connect toy_relay_write toy_from_str tasks_state false
    (toy_schedule ++ MainStop :: toy_end) w); [by exists toy_device|exact E].
Defined.

Lemma threads_conserve_packets_witness :
  exists w l, toy_run (toy_schedule ++ MainStop :: toy_end) = Some w /\ taken (udp_loop w) = [toy_packet] /\
    Forall conserved [tun_loop w; udp_loop w; relay_loop w] /\
    l ≡ₚ accepted (udp_loop w) ++ accepted (relay_loop w).
Proof.
  pose proof toy_run_stops as Hv. destruct (toy_run (toy_schedule ++ MainStop :: toy_end)) as [w|] eqn:E; [|discriminate Hv].
  injection Hv as Hp Ht Hm.
  destruct (@threads_conserve_packets toy_prims toy_send toy_connect toy_relay_write toy_from_str tasks_state false
    toy_device (toy_schedule ++ MainStop :: toy_end) w eq_refl E Hp) as (H1 & (l & _ & H2 & _) & _).
  exists w, l. split; [reflexivity|]. split; [exact Ht|]. split; [exact H1|exact H2].
Defined.

(** The relay reader is inside [read_line] when the tasks are stopped. *)
Definition stop_state : RuntimeState :=
  set_relays (@from_persisted toy_prims (fun _ => None) (mkCustomBackendState STATE_VERSION None
       (Some (mkLocalBackendConfig "dev_a" "tfscale0" (Ipv4 100 64 0 3) 7777)) []))
    [mkRelayConfig "relay_1" "tcp://127.0.0.1:40010" "local"] NullRelayFrameSender.
Definition stop_schedule : list task_event :=
  [MainSpawn; RelayOpen (inr tt); RelayLoad; RelayFill (inr [123; 34]%Z); UdpLoad].
Definition stop_run : option tasks :=
  @run_tasks toy_prims toy_send toy_connect toy_relay_write toy_from_str (tasks_start false stop_state) stop_schedule.
Definition relay_view_of (w : tasks) : main_pc * option (list Z) * option (list Z * list Z) :=
  (main w, line_so_far (at_pc (relay_loop w)), split_line (reader_buffer w)).

Lemma stop_run_reading : relay_view_of <$> stop_run = Some (Free, Some [], None).
Proof. vm_compute. reflexivity. Qed.

(** The device, the socket and the relay are silent. *)
Definition silence : answers := mkAnswers (inr None) (inl WouldBlock) 0 true (inr tt) (inl WouldBlock).

Lemma stop_terminates_witness :
  exists w, stop_run = Some w /\ let w0 := set_main (set_stop w) (Joining handles) in
    (exists w', @await toy_prims toy_send toy_connect toy_relay_write toy_from_str w0 (replicate 16 silence) = Some w' /\
       main w' = Stopped) /\
    exists w', @run_tasks toy_prims toy_send toy_connect toy_relay_write toy_from_str w0
         ((fun c => RelayFill (inr c)) <$> replicate 1000 [97%Z]) = Some w' /\ main w' <> Stopped.
Proof.
  pose proof stop_run_reading as Hv. destruct stop_run as [w|] eqn:E; [|discriminate Hv].
  injection Hv as Hm Hl Hb. exists w. split; [reflexivity|]. cbn zeta.
  destruct (@stop_terminates toy_prims toy_send toy_connect toy_relay_write toy_from_str stop_state false stop_schedule w
    (set_main (set_stop w) (Joining handles))) as (_ & H1 & H2); [exact E| |].
  - unfold main_stop. rewrite Hm. reflexivity.
  - split; [apply H1; vm_compute; lia|]. apply (H2 [] _ [] eq_refl Hl Hb).
    apply Forall_replicate. split; [discriminate|reflexivity].
Defined.

Lemma guarded_start_deadlocks_witness :
  exists w,
    @run_tasks toy_prims toy_send toy_connect toy_relay_write toy_from_str (tasks_start true tasks_state) [TunLoad; UdpLoad] = Some w /\
    main w = Spawning true /\ shared w = tasks_state.
Proof.
  eexists. split; [reflexivity|].
  destruct (@guarded_start_deadlocks toy_prims toy_send toy_connect toy_relay_write toy_from_str tasks_state [TunLoad; UdpLoad] _ eq_refl)
    as (_ & H1 & H2 & _).
  split; [exact H1|exact H2].
Defined.
