(* ===== verification/RelayServer.v ===== *)
(** * Relay service ([tfscale-relay/src/main.rs])

    Each TCP connection runs [handle_session] as a task of its own; the tasks
    share the map from device ids to the senders of the sessions' channels.  The
    model is a step function on the whole service: a step is what one task does
    between two suspension points, so that a run is an interleaving of the
    tasks.  A channel is identified with the connection that owns its receiver. *)

From Stdlib Require Import ZArith Lia.
From stdpp Require Import prelude list strings gmap.
From S2P Require Import Prelude RustStd Protocol.

(** ** State *)

Record RelayState : Type := mkRelayState {
  sessions : gmap string nat;
  routed_frames : Z;
  dropped_frames : Z;
}.

Definition RelayState_default : RelayState := mkRelayState ∅ 0 0.

(** Where a task is suspended: before the first line; in the loop; inside
    [route_frame], between the look-up of the sender and the use of the clone;
    after the loop, before [unregister]; finished. *)
Inductive phase : Type :=
| Greeting
| Serving (device_id : string)
| Routing (device_id : string) (frame : RelayMessage) (dest : string) (sender : option nat)
| Leaving (device_id : string)
| Finished.

(** A connection: its task, the queue of its channel, whether the receiver
    still exists, the device it registered, and what was written to the
    socket. *)
Record conn : Type := mkConn {
  task : phase;
  rx_queue : list RelayMessage;
  rx_open : bool;
  registered : option string;
  written : list RelayMessage;
}.

Record world : Type := mkWorld {
  relay : RelayState;
  conns : gmap nat conn;
}.

Definition new_conn : conn := mkConn Greeting [] true None [].
Definition init_world : world := mkWorld RelayState_default ∅.

Definition set_task (k : conn) (p : phase) : conn :=
  mkConn p (rx_queue k) (rx_open k) (registered k) (written k).
Definition write (k : conn) (m : RelayMessage) : conn :=
  mkConn (task k) (rx_queue k) (rx_open k) (registered k) (written k ++ [m]).
(** Returning from [handle_session] drops the receiver and its queue. *)
Definition finish (k : conn) : conn :=
  mkConn Finished (rx_queue k) false (registered k) (written k).

Definition set_conn (w : world) (c : nat) (k : conn) : world :=
  mkWorld (relay w) (<[c := k]> (conns w)).
Definition set_relay (w : world) (s : RelayState) : world := mkWorld s (conns w).

(** ** [RelayState] *)

Definition register (self : RelayState) (device_id : string) (sender : nat)
    : option nat * RelayState :=
  (sessions self !! device_id,
   mkRelayState (<[device_id := sender]> (sessions self)) (routed_frames self) (dropped_frames self)).

Definition unregister (self : RelayState) (device_id : string) : RelayState :=
  mkRelayState (delete device_id (sessions self)) (routed_frames self) (dropped_frames self).

Definition destination_of (m : RelayMessage) : option string :=
  match m with RelayFrame _ d _ => Some d | _ => None end.

(** [sender.send(frame).is_ok()]: the message is queued unless the receiver
    was dropped. *)
Definition channel_send (w : world) (sender : nat) (frame : RelayMessage) : option world :=
  match conns w !! sender with
  | Some k =>
      if rx_open k then
        Some (set_conn w sender
          (mkConn (task k) (rx_queue k ++ [frame]) (rx_open k) (registered k) (written k)))
      else None
  | None => None
  end.

(** [route_frame] after the look-up: the rest of the function on the cloned
    sender.  [AtomicU64::fetch_add] wraps. *)
Definition route_send (w : world) (sender : option nat) (frame : RelayMessage) : bool * world :=
  let dropped := (false, set_relay w (mkRelayState (sessions (relay w)) (routed_frames (relay w))
                                        (wrap64 (dropped_frames (relay w) + 1)))) in
  match sender with
  | Some sender =>
      match channel_send w sender frame with
      | Some w => (true, set_relay w (mkRelayState (sessions (relay w))
                     (wrap64 (routed_frames (relay w) + 1)) (dropped_frames (relay w))))
      | None => dropped
      end
  | None => dropped
  end.

(** The whole of [route_frame], when nothing runs in between. *)
Definition route_frame (w : world) (frame : RelayMessage) : bool * world :=
  match destination_of frame with
  | None => (false, w)
  | Some d => route_send w (sessions (relay w) !! d) frame
  end.

(** ** [handle_session] *)

(** Somebody still holds a sender of channel [c]: the map, or a task inside
    [route_frame]. *)
Definition holds_sender (c : nat) (k : conn) : bool :=
  match task k with Routing _ _ _ (Some s) => bool_decide (s = c) | _ => false end.

Definition has_sender (w : world) (c : nat) : bool :=
  bool_decide (map_Exists (fun _ s => s = c) (sessions (relay w))) ||
  bool_decide (map_Exists (fun _ k => holds_sender c k = true) (conns w)).

(** What wakes a task: a connection is accepted; a line, the end of the stream
    or a read error; the channel's receiver; the scheduler.  [wok] says whether
    the write that the step ends with, if any, succeeds. *)
Inductive event : Type :=
| Accept (c : nat)
| Line (c : nat) (line : string) (wok : bool)
| Eof (c : nat)
| ReadError (c : nat)
| Outbound (c : nat) (wok : bool)
| Resume (c : nat) (wok : bool).

Section server.
(** [serde_json::from_str::<RelayMessage>]. *)
Context (from_str : string -> option RelayMessage).

(** [write_message(..).await?], then the task continues as [p]; an error
    returns from [handle_session]. *)
Definition write_message (w : world) (c : nat) (k : conn) (m : RelayMessage) (wok : bool)
    (p : phase) : world :=
  if wok then set_conn w c (set_task (write k m) p) else set_conn w c (finish k).

(** The first line. *)
Definition greeting_line (w : world) (c : nat) (k : conn) (line : string) (wok : bool) : world :=
  match from_str line with
  | None => set_conn w c (finish k)
  | Some (RelayRegister device_id _) =>
      let k := mkConn (Serving device_id) [] true (Some device_id) (written k) in
      set_relay (set_conn w c k) (snd (register (relay w) device_id c))
  | Some _ =>
      let m := RelayError "first relay message must be register" in
      if wok then set_conn w c (finish (write k m)) else set_conn w c (finish k)
  end.

(** A line inside the loop. *)
Definition serving_line (w : world) (c : nat) (k : conn) (d : string) (line : string) (wok : bool)
    : world :=
  match from_str line with
  | None => set_conn w c (finish k)
  | Some (RelayFrame source destination payload) =>
      set_conn w c (set_task k (Routing d (RelayFrame source destination payload) destination
                                  (sessions (relay w) !! destination)))
  | Some (RelayRegister _ _) =>
      write_message w c k (RelayError "session is already registered") wok (Serving d)
  | Some (RelayError _) => w
  end.

(** The end of the [Frame] arm: the frame is sent, the clone dropped, and a
    frame that could not be delivered is reported. *)
Definition routing_resume (w : world) (c : nat) (d : string) (frame : RelayMessage) (dest : string)
    (sender : option nat) (wok : bool) : world :=
  let '(delivered, w) := route_send w sender frame in
  match conns w !! c with
  | Some k =>
      if delivered then set_conn w c (set_task k (Serving d))
      else write_message w c k (RelayError ("unknown destination device: " +:+ dest)) wok (Serving d)
  | None => w
  end.

(** [outbound = rx.recv()]. *)
Definition outbound (w : world) (c : nat) (k : conn) (d : string) (wok : bool) : option world :=
  match rx_queue k with
  | m :: queue =>
      let k := mkConn (task k) queue (rx_open k) (registered k) (written k) in
      Some (write_message w c k m wok (Serving d))
  | [] => if has_sender w c then None else Some (set_conn w c (set_task k (Leaving d)))
  end.

(** One step of the service; [None] when the event cannot happen. *)
Definition relay_step (w : world) (e : event) : option world :=
  match e with
  | Accept c => match conns w !! c with None => Some (set_conn w c new_conn) | Some _ => None end
  | Line c line wok =>
      k ← conns w !! c;
      match task k with
      | Greeting => Some (greeting_line w c k line wok)
      | Serving d => Some (serving_line w c k d line wok)
      | _ => None
      end
  | Eof c =>
      k ← conns w !! c;
      match task k with
      | Greeting => Some (set_conn w c (finish k))
      | Serving d => Some (set_conn w c (set_task k (Leaving d)))
      | _ => None
      end
  | ReadError c =>
      k ← conns w !! c;
      match task k with
      | Greeting | Serving _ => Some (set_conn w c (finish k))
      | _ => None
      end
  | Outbound c wok =>
      k ← conns w !! c;
      match task k with Serving d => outbound w c k d wok | _ => None end
  | Resume c wok =>
      k ← conns w !! c;
      match task k with
      | Routing d frame dest sender => Some (routing_resume w c d frame dest sender wok)
      | Leaving d => Some (set_relay (set_conn w c (finish k)) (unregister (relay w) d))
      | _ => None
      end
  end.

Fixpoint run (w : world) (es : list event) : option world :=
  match es with
  | [] => Some w
  | e :: es => w ← relay_step w e; run w es
  end.

(** The states of the service. *)
Inductive reachable : world -> Prop :=
| reach_init : reachable init_world
| reach_step w e w' : reachable w -> relay_step w e = Some w' -> reachable w'.

(** ** Invariant *)

(** A frame is only ever queued for, and written to, a connection that
    registered the frame's destination. *)
Definition frame_for (r : option string) (m : RelayMessage) : Prop :=
  match destination_of m with Some d => r = Some d | None => True end.

Definition queued_for (r : option string) (m : RelayMessage) : Prop :=
  is_Some r /\ destination_of m = r.

Lemma queued_frame_for r m : queued_for r m -> frame_for r m.
Proof. intros [[d ->] Hm]. unfold frame_for. by rewrite Hm. Qed.

(** Connection [c] registered device [d]. *)
Definition serves (m : gmap nat conn) (c : nat) (d : string) : Prop :=
  exists k, m !! c = Some k /\ registered k = Some d.

Definition task_ok (m : gmap nat conn) (k : conn) : Prop :=
  match task k with
  | Greeting => registered k = None /\ rx_queue k = [] /\ rx_open k = true
  | Serving d | Leaving d => registered k = Some d /\ rx_open k = true
  | Routing d frame dest sender =>
      registered k = Some d /\ rx_open k = true /\ destination_of frame = Some dest /\
      forall c, sender = Some c -> serves m c dest
  | Finished => rx_open k = false
  end.

Definition conn_ok (m : gmap nat conn) (k : conn) : Prop :=
  task_ok m k /\ Forall (queued_for (registered k)) (rx_queue k) /\
  Forall (frame_for (registered k)) (written k).

Definition relay_inv (w : world) : Prop :=
  (forall d c, sessions (relay w) !! d = Some c -> serves (conns w) c d) /\
  map_Forall (fun _ k => conn_ok (conns w) k) (conns w).

Lemma serves_insert m c k' c' d :
  (forall k, m !! c = Some k -> registered k = None \/ registered k' = registered k) ->
  serves m c' d -> serves (<[c := k']> m) c' d.
Proof.
  intros Hc (k & Hk & Hd). destruct (decide (c = c')) as [->|Hne].
  - exists k'. rewrite lookup_insert_eq. split; [done|].
    destruct (Hc k Hk) as [? | -> ]; congruence.
  - exists k. by rewrite lookup_insert_ne.
Qed.

Lemma task_ok_insert m c k' k :
  (forall k, m !! c = Some k -> registered k = None \/ registered k' = registered k) ->
  task_ok m k -> task_ok (<[c := k']> m) k.
Proof.
  intros Hc. unfold task_ok. destruct (task k); try done.
  intros (? & ? & ? & Hs). split_and!; try done. intros c' Hc'. by apply serves_insert, Hs.
Qed.

(** Replacing one connection by one that registered the same device. *)
Lemma relay_inv_set_conn w c k' :
  relay_inv w ->
  (forall k, conns w !! c = Some k -> registered k = None \/ registered k' = registered k) ->
  conn_ok (conns w) k' ->
  relay_inv (set_conn w c k').
Proof.
  intros [Hs Hm] Hc (Ht & Hq & Hw). split; simpl.
  - intros d c' Hd. by apply serves_insert, Hs.
  - apply map_Forall_insert_2.
    + split_and!; [by apply task_ok_insert|done..].
    + intros c' k (Ht' & ? & ?)%Hm. split_and!; [by apply task_ok_insert|done..].
Qed.

Lemma relay_inv_counters w s r d :
  relay_inv w -> s ⊆ sessions (relay w) -> relay_inv (set_relay w (mkRelayState s r d)).
Proof.
  intros [Hs Hm] Hsub. split; [|done]. intros d' c Hd. apply Hs.
  by eapply lookup_weaken.
Qed.

Lemma conn_ok_finish m k : conn_ok m k -> conn_ok m (finish k).
Proof. by intros (_ & ? & ?). Qed.

Lemma conn_ok_write m k msg :
  conn_ok m k -> frame_for (registered k) msg -> conn_ok m (write k msg).
Proof. intros (? & ? & ?) Hm. split_and!; [done..|]. simpl. apply Forall_app. auto. Qed.

Lemma relay_inv_write_message w c k k0 m wok d :
  relay_inv w -> conns w !! c = Some k0 -> registered k = registered k0 ->
  registered k = Some d -> rx_open k = true ->
  Forall (queued_for (Some d)) (rx_queue k) -> Forall (frame_for (Some d)) (written k) ->
  frame_for (Some d) m -> relay_inv (write_message w c k m wok (Serving d)).
Proof.
  intros Hi Hk Hreg Hd Ho Hq Hwr Hm. unfold write_message.
  destruct wok; apply relay_inv_set_conn; try done.
  - intros k1 Hk1. right. simpl. congruence.
  - split_and!; simpl; rewrite ?Hd; try done. apply Forall_app. auto.
  - intros k1 Hk1. right. simpl. congruence.
  - split_and!; simpl; by rewrite ?Hd.
Qed.

Lemma route_send_inv w sender frame d :
  relay_inv w -> destination_of frame = Some d ->
  (forall c, sender = Some c -> serves (conns w) c d) ->
  relay_inv (snd (route_send w sender frame)) /\
  forall c k, conns w !! c = Some k ->
    exists k', conns (snd (route_send w sender frame)) !! c = Some k' /\
      task k' = task k /\ registered k' = registered k /\ rx_open k' = rx_open k.
Proof.
  intros Hi Hd Hs. unfold route_send.
  assert (forall c k, conns w !! c = Some k -> exists k', conns w !! c = Some k' /\
      task k' = task k /\ registered k' = registered k /\ rx_open k' = rx_open k) as Hid by eauto.
  destruct sender as [c|]; [|by split; [apply relay_inv_counters|]].
  destruct (Hs c eq_refl) as (k & Hk & Hreg). unfold channel_send. rewrite Hk.
  destruct (rx_open k) eqn:Ho; [|by split; [apply relay_inv_counters|]].
  pose proof (proj2 Hi _ _ Hk) as (Ht & Hq & Hw). simpl. split.
  - apply relay_inv_counters; [|done]. apply relay_inv_set_conn; [done| |].
    + intros k1 Hk1. right. simpl. congruence.
    + unfold conn_ok, task_ok in *. simpl. split_and!; [|apply Forall_app; split; [done|]|done].
      * destruct (task k); rewrite ?Ho in *; try done. destruct Ht as (? & _). congruence.
      * constructor; [|done]. split; [by rewrite Hreg|congruence].
  - intros c' k' Hk'. destruct (decide (c = c')) as [->|Hne].
    + rewrite lookup_insert_eq. eexists; split; [done|]. simpl. simplify_eq. by rewrite Ho.
    + rewrite lookup_insert_ne by done. eauto.
Qed.

Lemma greeting_line_inv w c k line wok :
  relay_inv w -> conns w !! c = Some k -> task k = Greeting ->
  relay_inv (greeting_line w c k line wok).
Proof.
  intros Hi Hk Ht. pose proof (proj2 Hi _ _ Hk) as (Htk & Hq & Hw). unfold task_ok in Htk.
  rewrite Ht in Htk. destruct Htk as (Hreg & Hnil & Hop).
  assert (forall k', conn_ok (conns w) k' -> relay_inv (set_conn w c k')) as Hset.
  { intros k' Hk'. apply relay_inv_set_conn; [done| |done]. intros k1 Hk1. left. congruence. }
  assert (forall m, destination_of m = None -> conn_ok (conns w) (finish (write k m))) as Hfw.
  { intros m Hm. split_and!; simpl; [done..|]. apply Forall_app. split; [done|].
    constructor; [|done]. unfold frame_for. by rewrite Hm. }
  assert (conn_ok (conns w) (finish k)) as Hf by done.
  unfold greeting_line. destruct (from_str line) as [[d nk|src dst pl|e]|];
    try (destruct wok; apply Hset; auto; fail).
  assert (Forall (frame_for (Some d)) (written k)) as Hwd.
  { eapply Forall_impl; [exact Hw|]. intros m. unfold frame_for. rewrite Hreg.
    by destruct (destination_of m). }
  destruct (Hset (mkConn (Serving d) [] true (Some d) (written k))) as [Hs Hm]; [done|].
  split; [|done]. intros d' c'. simpl. destruct (decide (d = d')) as [->|Hne].
  - rewrite lookup_insert_eq. intros [= <-]. eexists. by rewrite lookup_insert_eq.
  - rewrite lookup_insert_ne by done. apply Hs.
Qed.

Lemma serving_line_inv w c k d line wok :
  relay_inv w -> conns w !! c = Some k -> task k = Serving d ->
  relay_inv (serving_line w c k d line wok).
Proof.
  intros Hi Hk Ht. pose proof (proj2 Hi _ _ Hk) as Hok.
  pose proof Hok as (Htk & Hq & Hw). unfold task_ok in Htk. rewrite Ht in Htk.
  destruct Htk as [Hreg Ho]. rewrite Hreg in *.
  assert (forall k', registered k' = registered k -> conn_ok (conns w) k' ->
    relay_inv (set_conn w c k')) as Hset.
  { intros k' Hr Hk'. apply relay_inv_set_conn; [done| |done]. intros k1 Hk1. right. congruence. }
  unfold serving_line. destruct (from_str line) as [[d' nk|src dst pl|e]|]; [| |done|].
  - by eapply relay_inv_write_message.
  - apply Hset; [done|]. split_and!; simpl; rewrite ?Hreg; try done.
    unfold task_ok. simpl. split_and!; try done. intros c' Hc'. by apply Hi.
  - apply Hset; [done|]. by apply conn_ok_finish.
Qed.

Lemma routing_resume_inv w c k d frame dest sender wok :
  relay_inv w -> conns w !! c = Some k -> task k = Routing d frame dest sender ->
  relay_inv (routing_resume w c d frame dest sender wok).
Proof.
  intros Hi Hk Ht. pose proof (proj2 Hi _ _ Hk) as (Htk & _ & _). unfold task_ok in Htk.
  rewrite Ht in Htk. destruct Htk as (Hreg & Ho & Hd & Hs).
  destruct (route_send_inv w sender frame dest Hi Hd Hs) as [Hi' Hconns].
  unfold routing_resume. destruct (route_send w sender frame) as [b w1]. simpl in *.
  destruct (Hconns c k Hk) as (k1 & Hk1 & Ht1 & Hr1 & Ho1). rewrite Hk1.
  pose proof (proj2 Hi' _ _ Hk1) as (_ & Hq & Hw). rewrite Hr1, Hreg in *.
  destruct b.
  - apply relay_inv_set_conn; [done| |].
    + intros k2 Hk2. right. simpl. congruence.
    + split_and!; simpl; rewrite ?Hr1; try done. unfold task_ok. simpl. by rewrite Ho1.
  - eapply relay_inv_write_message; try done. by rewrite Ho1.
Qed.

Lemma outbound_inv w c k d wok w' :
  relay_inv w -> conns w !! c = Some k -> task k = Serving d ->
  outbound w c k d wok = Some w' -> relay_inv w'.
Proof.
  intros Hi Hk Ht. pose proof (proj2 Hi _ _ Hk) as (Htk & Hq & Hw). unfold task_ok in Htk.
  rewrite Ht in Htk. destruct Htk as (Hreg & Ho). rewrite Hreg in *. unfold outbound.
  destruct (rx_queue k) as [|m queue] eqn:Eq.
  - destruct (has_sender w c); [done|]. intros [= <-]. apply relay_inv_set_conn; [done| |].
    + intros k2 Hk2. right. simpl. congruence.
    + split_and!; simpl; rewrite ?Hreg, ?Eq; done.
  - intros [= <-]. apply Forall_cons in Hq as [Hm%queued_frame_for Hq].
    by eapply relay_inv_write_message.
Qed.

Lemma relay_step_inv w e w' :
  relay_inv w -> relay_step w e = Some w' -> relay_inv w'.
Proof.
  intros Hi. destruct e as [c|c line wok|c|c|c wok|c wok]; simpl;
    destruct (conns w !! c) as [k|] eqn:Hk; simpl; try done.
  { intros [= <-]. apply relay_inv_set_conn; [done|congruence|]. split_and!; by constructor. }
  all: pose proof (proj2 Hi _ _ Hk) as (Htk & Hq & Hw); unfold task_ok in Htk.
  all: assert (relay_inv (set_conn w c (finish k))) as Hfin
    by (apply relay_inv_set_conn; [done|intros k1 Hk1; right; simpl; congruence|done]).
  all: destruct (task k) as [|d|d frame dest sender|d|] eqn:Ht; try done.
  - intros [= <-]. by apply greeting_line_inv.
  - intros [= <-]. by apply serving_line_inv.
  - by intros [= <-].
  - intros [= <-]. apply relay_inv_set_conn; [done|intros k1 Hk1; right; simpl; congruence|].
    by split_and!.
  - by intros [= <-].
  - by intros [= <-].
  - by apply outbound_inv.
  - intros [= <-]. by eapply routing_resume_inv.
  - intros [= <-]. apply (relay_inv_counters (set_conn w c (finish k))); [done|].
    simpl. apply delete_subseteq.
Qed.

Lemma reachable_inv w : reachable w -> relay_inv w.
Proof.
  induction 1 as [|w e w' _ IH Hstep]; [|by eapply relay_step_inv].
  split; [by intros d c|]. apply map_Forall_empty.
Qed.

(** ** Order of delivery *)

Definition is_frame (m : RelayMessage) : bool := bool_decide (is_Some (destination_of m)).

(** The frames accepted for a connection, in order: those already written to
    the socket, then those still queued. *)
Definition accepted_frames (k : conn) : list RelayMessage :=
  filter (fun m => is_frame m = true) (written k) ++ rx_queue k.

(** From [k] to [k'], what was accepted only grew at its end, as long as the
    receiver exists. *)
Definition extends (k k' : conn) : Prop :=
  rx_open k' = true -> rx_open k = true /\ accepted_frames k `prefix_of` accepted_frames k'.

Definition extends_all (m m' : gmap nat conn) : Prop :=
  forall c k, m !! c = Some k -> exists k', m' !! c = Some k' /\ extends k k'.

#[local] Instance extends_refl : Reflexive extends.
Proof. by intros k ?. Qed.
#[local] Instance extends_trans : Transitive extends.
Proof. intros a b c Hab Hbc Hc. destruct (Hbc Hc) as [Hb ?]. destruct (Hab Hb). split; [done|by etrans]. Qed.
#[local] Instance extends_all_preorder : PreOrder extends_all.
Proof.
  split.
  - intros m c k Hk. by exists k.
  - intros m1 m2 m3 H12 H23 c k Hk. destruct (H12 c k Hk) as (k2 & Hk2 & ?).
    destruct (H23 c k2 Hk2) as (k3 & Hk3 & ?). exists k3. split; [done|by etrans].
Qed.

Lemma extends_all_insert m c k k' :
  m !! c = Some k -> extends k k' -> extends_all m (<[c := k']> m).
Proof.
  intros Hk He c' k1 Hk1. destruct (decide (c = c')) as [->|Hne].
  - exists k'. rewrite lookup_insert_eq. by simplify_eq.
  - exists k1. by rewrite lookup_insert_ne.
Qed.

Lemma extends_task k p : extends k (set_task k p).
Proof. by intros ?. Qed.

Lemma extends_finish k : extends k (finish k).
Proof. by intros ?. Qed.

Lemma extends_write k m p :
  destination_of m = None -> extends k (set_task (write k m) p).
Proof.
  intros Hm ?. split; [done|]. unfold accepted_frames. simpl. rewrite filter_app.
  rewrite (filter_cons_False _ m) by (unfold is_frame; by rewrite Hm).
  rewrite filter_nil, app_nil_r. done.
Qed.

(** Moving the head of the queue to the socket. *)
Lemma extends_outbound k m queue p :
  rx_queue k = m :: queue -> is_frame m = true ->
  extends k (set_task (write (mkConn (task k) queue (rx_open k) (registered k) (written k)) m) p).
Proof.
  intros Hq Hm ?. split; [done|]. unfold accepted_frames. simpl. rewrite filter_app, Hq.
  by rewrite (filter_cons_True _ m), filter_nil, <- app_assoc by done.
Qed.

Lemma extends_write_message w c k m wok p :
  conns w !! c = Some k -> destination_of m = None ->
  extends_all (conns w) (conns (write_message w c k m wok p)).
Proof.
  intros Hk Hm. unfold write_message.
  destruct wok; (eapply extends_all_insert; [done|]); [by apply extends_write|apply extends_finish].
Qed.

Lemma extends_route_send w sender frame :
  extends_all (conns w) (conns (snd (route_send w sender frame))).
Proof.
  unfold route_send, channel_send. destruct sender as [c|]; [|done].
  destruct (conns w !! c) as [k|] eqn:Hk; [|done]. destruct (rx_open k) eqn:Ho; [|done].
  eapply extends_all_insert; [done|]. intros _. split; [done|]. unfold accepted_frames. simpl.
  rewrite app_assoc. by apply prefix_app_r.
Qed.

Lemma relay_step_extends w e w' :
  relay_inv w -> relay_step w e = Some w' -> extends_all (conns w) (conns w').
Proof.
  intros Hi. destruct e as [c|c line wok|c|c|c wok|c wok]; simpl;
    destruct (conns w !! c) as [k|] eqn:Hk; simpl; try done.
  { intros [= <-] c' k' Hk'. exists k'. simpl. split; [|done].
    rewrite lookup_insert_ne; [done|congruence]. }
  all: pose proof (proj2 Hi _ _ Hk) as (Htk & Hq & Hw); unfold task_ok in Htk.
  all: assert (forall k', extends k k' -> extends_all (conns w) (conns (set_conn w c k'))) as Hset
    by (intros; by eapply extends_all_insert).
  all: pose proof (extends_finish k) as Hfin.
  all: destruct (task k) as [|d|d frame dest sender|d|] eqn:Ht; try done.
  - intros [= <-]. unfold greeting_line.
    destruct Htk as (Hreg & Hnil & Hop). assert (forall m, extends k (finish (write k m))) as Hfw by (by intros m ?).
    destruct (from_str line) as [[]|]; try (destruct wok); try (by apply Hset).
    all: simpl; eapply extends_all_insert; [done|]; intros _.
    all: split; [done|unfold accepted_frames; simpl; by rewrite Hnil].
  - intros [= <-]. unfold serving_line. destruct (from_str line) as [[]|]; try done.
    all: try (by apply Hset). by apply extends_write_message.
  - intros [= <-]. by apply Hset.
  - intros [= <-]. by apply Hset.
  - intros [= <-]. by apply Hset.
  - intros [= <-]. by apply Hset.
  - unfold outbound. destruct (rx_queue k) as [|m queue] eqn:Eq.
    + destruct (has_sender w c); [done|]. intros [= <-]. by apply Hset.
    + intros [= <-]. unfold write_message. destruct wok; apply Hset; [|by intros ?].
      apply extends_outbound; [done|]. apply Forall_cons in Hq as [[[d' Hd'] Hm] _].
      unfold is_frame. apply bool_decide_eq_true. rewrite Hm, Hd'. by eexists.
  - intros [= <-]. pose proof (extends_route_send w sender frame) as Hr.
    unfold routing_resume. destruct (route_send w sender frame) as [b w1]. simpl in Hr.
    destruct (conns w1 !! c) as [k1|] eqn:Hk1; [|done]. etrans; [exact Hr|].
    destruct b; [by eapply extends_all_insert|by apply extends_write_message].
  - intros [= <-]. by apply Hset.
Qed.

Lemma run_reachable es w w' : reachable w -> run w es = Some w' -> reachable w'.
Proof.
  revert w. induction es as [|e es IH]; intros w Hr; simpl; [by intros [= <-]|].
  destruct (relay_step w e) as [w1|] eqn:E; simpl; [|done]. apply IH. by econstructor.
Qed.

Lemma run_extends es w w' : relay_inv w -> run w es = Some w' -> extends_all (conns w) (conns w').
Proof.
  revert w. induction es as [|e es IH]; intros w Hi; simpl; [by intros [= <-]|].
  destruct (relay_step w e) as [w1|] eqn:E; simpl; [|done]. intros Hrun.
  etrans; [by eapply relay_step_extends|]. eapply IH; [|done]. by eapply relay_step_inv.
Qed.

(** The open receiver that a frame for [d] reaches. *)
Definition open_receiver (w : world) (d : string) : option (nat * conn) :=
  c ← sessions (relay w) !! d;
  k ← conns w !! c;
  if rx_open k then Some (c, k) else None.

Lemma route_send_spec w d frame :
  route_send w (sessions (relay w) !! d) frame =
  match open_receiver w d with
  | Some (c, k) =>
      (true, mkWorld (mkRelayState (sessions (relay w)) (wrap64 (routed_frames (relay w) + 1))
                        (dropped_frames (relay w)))
               (<[c := mkConn (task k) (rx_queue k ++ [frame]) true (registered k) (written k)]>
                 (conns w)))
  | None =>
      (false, mkWorld (mkRelayState (sessions (relay w)) (routed_frames (relay w))
                         (wrap64 (dropped_frames (relay w) + 1))) (conns w))
  end.
Proof.
  unfold route_send, open_receiver, channel_send.
  destruct (sessions (relay w) !! d) as [c|]; [|done]. simpl.
  destruct (conns w !! c) as [k|]; [|done]. simpl. destruct (rx_open k) eqn:Ho; [|done].
  done.
Qed.

(** Changing what a task does next does not change who receives. *)
Lemma open_receiver_set_task w c k p d :
  conns w !! c = Some k ->
  match open_receiver w d with
  | Some (c', k') => exists k2, open_receiver (set_conn w c (set_task k p)) d = Some (c', k2) /\
      rx_queue k2 = rx_queue k'
  | None => open_receiver (set_conn w c (set_task k p)) d = None
  end.
Proof.
  intros Hk. unfold open_receiver. simpl. destruct (sessions (relay w) !! d) as [c'|]; [|done].
  simpl. destruct (decide (c' = c)) as [->|Hne].
  - rewrite lookup_insert_eq, Hk. simpl. destruct (rx_open k); [by eexists|done].
  - rewrite lookup_insert_ne by done. destruct (conns w !! c') as [k'|]; [|done]. simpl.
    destruct (rx_open k'); [by eexists|done].
Qed.

Lemma has_sender_false w c :
  (forall d, sessions (relay w) !! d <> Some c) ->
  map_Forall (fun _ k => holds_sender c k = false) (conns w) ->
  has_sender w c = false.
Proof.
  intros Hs Hc. unfold has_sender. rewrite !bool_decide_eq_false_2; [done| |].
  - intros (c' & k & Hk & Hh). rewrite (Hc _ _ Hk) in Hh. done.
  - intros (d & s & Hd & ->). by apply (Hs d).
Qed.

(** ** Properties *)

(** C13: no frame reaches the wrong device: in every state of the service, a
    frame queued for, or written to, a connection is addressed to the device
    that the connection registered. *)
Theorem relay_no_misdelivery w c k source destination payload :
  reachable w -> conns w !! c = Some k ->
  RelayFrame source destination payload ∈ written k ++ rx_queue k ->
  registered k = Some destination.
Proof.
  intros Hr Hk Hin. pose proof (proj2 (reachable_inv w Hr) _ _ Hk) as (_ & Hq & Hw).
  assert (frame_for (registered k) (RelayFrame source destination payload)) as H; [|done].
  apply elem_of_app in Hin as [Hin|Hin].
  - by apply (proj1 (Forall_forall _ _) Hw).
  - by apply queued_frame_for, (proj1 (Forall_forall _ _) Hq).
Qed.

(** C8: frames reach a connection in the order in which the service accepted
    them, none lost or repeated: over any run, as long as the receiver exists,
    the frames written to the socket followed by those queued only grow at the
    end. *)
Theorem relay_delivers_in_order w es w' c k k' :
  reachable w -> run w es = Some w' ->
  conns w !! c = Some k -> conns w' !! c = Some k' -> rx_open k' = true ->
  rx_open k = true /\ accepted_frames k `prefix_of` accepted_frames k'.
Proof.
  intros Hr Hrun Hk Hk' Ho.
  destruct (run_extends es w w' (reachable_inv w Hr) Hrun c k Hk) as (k1 & Hk1 & He).
  simplify_eq. by apply He.
Qed.

(** A frame sent by a registered session is handled as follows. If the
    destination has an open session, the frame is appended, as it is, to that
    session's queue and counted as routed. Otherwise nothing is queued, the frame
    is counted as dropped and the sender is told, or its session ends when that
    message cannot be written. *)
Theorem relay_frame_handled w c k d line source destination payload wok :
  reachable w -> conns w !! c = Some k -> task k = Serving d ->
  from_str line = Some (RelayFrame source destination payload) ->
  exists w', run w [Line c line wok; Resume c wok] = Some w' /\
    sessions (relay w') = sessions (relay w) /\
    match open_receiver w destination with
    | Some (c', k') =>
        (exists k'', conns w' !! c' = Some k'' /\
          rx_queue k'' = rx_queue k' ++ [RelayFrame source destination payload]) /\
        routed_frames (relay w') = wrap64 (routed_frames (relay w) + 1) /\
        dropped_frames (relay w') = dropped_frames (relay w)
    | None =>
        rx_queue <$> conns w' = rx_queue <$> conns w /\
        (exists k'', conns w' !! c = Some k'' /\
          if wok then task k'' = Serving d /\
            written k'' = written k ++ [RelayError ("unknown destination device: " +:+ destination)]
          else task k'' = Finished) /\
        routed_frames (relay w') = routed_frames (relay w) /\
        dropped_frames (relay w') = wrap64 (dropped_frames (relay w) + 1)
    end.
Proof.
  intros _ Hk Ht Hf. simpl. rewrite Hk. simpl. rewrite Ht. unfold serving_line. rewrite Hf. simpl.
  rewrite lookup_insert_eq. simpl.
  set (frame := RelayFrame source destination payload).
  set (k1 := set_task k (Routing d frame destination (sessions (relay w) !! destination))).
  unfold routing_resume.
  change (sessions (relay w) !! destination) with (sessions (relay (set_conn w c k1)) !! destination).
  rewrite route_send_spec. pose proof (open_receiver_set_task w c k
    (Routing d frame destination (sessions (relay w) !! destination)) destination Hk) as Ho.
  fold k1 in Ho. destruct (open_receiver w destination) as [[c' k']|].
  - destruct Ho as (k2 & -> & Hq). simpl. destruct (decide (c' = c)) as [->|Hne].
    + rewrite lookup_insert_eq. eexists; split_and!; [done..| |done|done]. simpl.
      rewrite lookup_insert_eq. eexists; split; [done|]. simpl. by rewrite Hq.
    + rewrite (lookup_insert_ne _ c' c), lookup_insert_eq by done.
      eexists; split_and!; [done..| |done|done]. simpl.
      rewrite lookup_insert_ne, lookup_insert_eq by done. eexists; split; [done|]. simpl. by rewrite Hq.
  - rewrite Ho. simpl. rewrite lookup_insert_eq. unfold write_message.
    destruct wok; (eexists; split_and!; [done..| | |done|done]); simpl;
      [|rewrite lookup_insert_eq; eauto| |rewrite lookup_insert_eq; eauto].
    all: rewrite !fmap_insert; simpl; rewrite insert_insert_eq; apply insert_id;
      by rewrite lookup_fmap, Hk.
Qed.

(** C38: a device that reconnects while its old session is open ends up
    unregistered with both sessions closed: registering drops the old sender, the
    old session ends and removes the new registration by its device id, which
    drops the new sender and ends the new session too. *)
Theorem relay_reconnect_unregisters w d c1 c2 k1 k2 line nk :
  reachable w -> c1 <> c2 ->
  conns w !! c1 = Some k1 -> task k1 = Serving d -> rx_queue k1 = [] ->
  conns w !! c2 = Some k2 -> task k2 = Greeting ->
  map_Forall (fun _ k => holds_sender c1 k = false /\ holds_sender c2 k = false) (conns w) ->
  from_str line = Some (RelayRegister d nk) ->
  exists w', run w [Line c2 line true; Outbound c1 true; Resume c1 true;
                    Outbound c2 true; Resume c2 true] = Some w' /\
    sessions (relay w') !! d = None /\
    (exists k, conns w' !! c1 = Some k /\ task k = Finished) /\
    (exists k, conns w' !! c2 = Some k /\ task k = Finished).
Proof.
  intros Hr Hne Hk1 Ht1 Hq1 Hk2 Ht2 Hns Hf.
  destruct (reachable_inv w Hr) as [Hs Hm].
  assert (forall d', sessions (relay w) !! d' = Some c1 -> d' = d) as Hc1.
  { intros d' Hd'. destruct (Hs d' c1 Hd') as (k & Hk & Hreg). simplify_eq.
    destruct (Hm _ _ Hk1) as (Htk & _). unfold task_ok in Htk. rewrite Ht1 in Htk.
    destruct Htk as [? _]. congruence. }
  assert (forall d', sessions (relay w) !! d' <> Some c2) as Hc2.
  { intros d' Hd'. destruct (Hs d' c2 Hd') as (k & Hk & Hreg). simplify_eq.
    destruct (Hm _ _ Hk2) as (Htk & _). unfold task_ok in Htk. rewrite Ht2 in Htk.
    destruct Htk as [? _]. congruence. }
  cbn [run relay_step]. rewrite Hk2. cbn [mbind option_bind]. rewrite Ht2. unfold greeting_line.
  rewrite Hf. cbn [mbind option_bind].
  set (k2' := mkConn (Serving d) [] true (Some d) (written k2)).
  cbn [set_relay set_conn conns relay register snd].
  rewrite lookup_insert_ne, Hk1 by done. cbn [mbind option_bind]. rewrite Ht1.
  unfold outbound. rewrite Hq1. rewrite has_sender_false; cycle 1.
  { simpl. intros d' Hd'. apply lookup_insert_Some in Hd' as [[_ ?]|[? ?%Hc1]]; congruence. }
  { simpl. apply map_Forall_insert_2; [done|]. intros c k Hk. by apply (Hns c k). }
  cbn [mbind option_bind set_conn conns relay]. rewrite lookup_insert_eq. simpl.
  rewrite (lookup_insert_ne _ c1 c2), (lookup_insert_ne _ c1 c2), lookup_insert_eq by done. simpl.
  rewrite has_sender_false; cycle 1.
  { simpl. intros d' Hd'. apply lookup_delete_Some in Hd' as [Hne' Hd'].
    rewrite lookup_insert_ne in Hd' by done. by apply (Hc2 d'). }
  { simpl. apply map_Forall_insert_2; [done|]. apply map_Forall_insert_2; [done|].
    apply map_Forall_insert_2; [done|]. intros c k Hk. by apply (Hns c k). }
  simpl. rewrite lookup_insert_eq. simpl. eexists. split_and!; [done|..]; simpl.
  - apply lookup_delete_eq.
  - rewrite lookup_insert_ne, lookup_insert_ne, lookup_insert_eq by done. eauto.
  - rewrite lookup_insert_eq. eauto.
Qed.

End server.

(** ** Witnesses *)

(** A parser for three lines. *)
Definition toy_from_str (line : string) : option RelayMessage :=
  if bool_decide (line = "a") then Some (RelayRegister "a" "key")
  else if bool_decide (line = "b") then Some (RelayRegister "b" "key")
  else if bool_decide (line = "a to b") then Some (RelayFrame "a" "b" "payload")
  else None.

Definition toy_after (es : list event) : world :=
  default init_world (run toy_from_str init_world es).

(** Devices a and b are registered by connections 1 and 2. *)
Definition toy_start : list event := [Accept 1; Line 1 "a" true; Accept 2; Line 2 "b" true].
Definition toy_send : list event := [Line 1 "a to b" true; Resume 1 true].

Lemma toy_reachable es :
  is_Some (run toy_from_str init_world es) -> reachable toy_from_str (toy_after es).
Proof.
  intros [w Hw]. unfold toy_after. rewrite Hw. eapply run_reachable; [apply reach_init|done].
Qed.

Lemma relay_no_misdelivery_witness :
  registered (mkConn (Serving "b") [RelayFrame "a" "b" "payload"] true (Some "b") []) = Some "b".
Proof.
  apply (relay_no_misdelivery toy_from_str (toy_after (toy_start ++ toy_send)) 2 _ "a" "b" "payload").
  - apply toy_reachable. vm_compute. by eexists.
  - by vm_compute.
  - by left.
Defined.

Lemma relay_delivers_in_order_witness :
  accepted_frames (mkConn (Serving "b") [RelayFrame "a" "b" "payload"] true (Some "b") []) `prefix_of`
  accepted_frames (mkConn (Serving "b") [RelayFrame "a" "b" "payload"] true (Some "b")
                     [RelayFrame "a" "b" "payload"]).
Proof.
  apply (relay_delivers_in_order toy_from_str (toy_after (toy_start ++ toy_send))
    (Outbound 2 true :: toy_send)
    (toy_after ((toy_start ++ toy_send) ++ Outbound 2 true :: toy_send)) 2).
  - apply toy_reachable. vm_compute. by eexists.
  - by vm_compute.
  - by vm_compute.
  - by vm_compute.
  - reflexivity.
Defined.

Lemma relay_frame_handled_witness :
  exists w', run toy_from_str (toy_after toy_start) toy_send = Some w' /\
    exists k'', conns w' !! 2%nat = Some k'' /\ rx_queue k'' = [RelayFrame "a" "b" "payload"].
Proof.
  destruct (relay_frame_handled toy_from_str (toy_after toy_start) 1
    (mkConn (Serving "a") [] true (Some "a") []) "a" "a to b" "a" "b" "payload" true)
    as (w' & Hrun & _ & H).
  - apply toy_reachable. vm_compute. by eexists.
  - by vm_compute.
  - reflexivity.
  - reflexivity.
  - exists w'. split; [exact Hrun|]. exact (proj1 H).
Defined.

Lemma relay_reconnect_unregisters_witness :
  exists w', run toy_from_str (toy_after (toy_start ++ [Accept 3]))
      [Line 3 "a" true; Outbound 1 true; Resume 1 true; Outbound 3 true; Resume 3 true] = Some w' /\
    sessions (relay w') !! "a" = None.
Proof.
  destruct (relay_reconnect_unregisters toy_from_str (toy_after (toy_start ++ [Accept 3])) "a" 1 3
    (mkConn (Serving "a") [] true (Some "a") []) new_conn "a" "key") as (w' & Hrun & Hs & _).
  - apply toy_reachable. vm_compute. by eexists.
  - lia.
  - by vm_compute.
  - reflexivity.
  - reflexivity.
  - by vm_compute.
  - reflexivity.
  - by_decide.
  - reflexivity.
  - by exists w'.
Defined.
