(* ===== verification/Dns.v ===== *)
(** * Local DNS proxy ([tfscale-agent/src/dns.rs])

    The agent answers A queries for names under the mesh suffix from the records
    of the network map.  A request is parsed from the datagram, the response
    repeats the question and appends at most one answer. *)

From Stdlib Require Import ZArith Lia.
From stdpp Require Import prelude list strings gmap.
From S2P Require Import Prelude RustStd Protocol.

Definition TYPE_A : Z := 1.
Definition CLASS_IN : Z := 1.
Definition RCODE_NXDOMAIN : Z := 3.
Definition RCODE_NOTIMP : Z := 4.
Definition RESPONSE_TTL_SECONDS : Z := 30.
Definition MAX_DNS_PACKET_SIZE : nat := 512.

Record DnsConfig : Type := mkDnsConfig { dc_listen : SocketAddr; dc_suffix : string }.
Record DnsRuntime : Type := mkDnsRuntime { records : list DnsRecord }.

Definition DnsRuntime_new (rs : list DnsRecord) : DnsRuntime := mkDnsRuntime rs.
Definition set_records (self : DnsRuntime) (rs : list DnsRecord) : DnsRuntime := mkDnsRuntime rs.

(** The errors of this file: [bail!] texts, or a UTF-8 error. *)
Definition bail {A} (s : string) : res message A := Err (MText s).

(** ** Names *)

(** The code of ['.']. *)
Definition DOT : Z := 46.

Definition normalize_name (value : string) : string :=
  to_ascii_lowercase (trim_end_matches DOT value).

Definition normalize_suffix (value : string) : string :=
  to_ascii_lowercase (trim_matches DOT value).

Definition record_matches (query_name : string) (r : DnsRecord) : bool :=
  eq_ignore_ascii_case (record_type r) "A" &&
  bool_decide (normalize_name (dns_name r) = query_name).

(** [iter().find(..)] *)
Fixpoint find {A} (f : A -> bool) (l : list A) : option A :=
  match l with
  | [] => None
  | x :: l => if f x then Some x else find f l
  end.

Definition resolve_a (records : list DnsRecord) (qname suffix : string) : option Ipv4Addr :=
  let query_name := normalize_name qname in
  if negb (ends_with query_name ("." +:+ normalize_suffix suffix)) then None
  else
    r ← find (record_matches query_name) records;
    parse_ipv4 (dns_value r).

(** ** Requests *)

Record DnsQuery : Type := mkDnsQuery {
  q_id : Z;
  qname : string;
  qtype : Z;
  qclass : Z;
  question_end : nat;
}.

(** [u16::from_be_bytes([packet[i], packet[i + 1]])] *)
Definition read_u16 (packet : list Z) (i : nat) : res message Z :=
  a ← index packet i;
  b ← index packet (i + 1);
  Ok (from_be_bytes [a; b]).

(** The loop over the labels.  Every iteration advances the offset, so that one
    more iteration than the packet has bytes is enough fuel. *)
Fixpoint parse_labels (fuel : nat) (packet : list Z) (offset : nat) (labels : list string)
    : res message (list string * nat) :=
  match fuel with
  | O => Panic
  | S fuel =>
      if (length packet <=? offset)%nat then bail "DNS question name is truncated"
      else
        len ← index packet offset;
        let offset := (offset + 1)%nat in
        if (len =? 0)%Z then Ok (labels, offset)
        else if negb (Z.land len 192 =? 0)%Z then
          bail "compressed DNS question names are not supported"
        else if (63 <? len)%Z || (length packet <? offset + Z.to_nat len)%nat then
          bail "invalid DNS label length"
        else
          bytes ← slice packet offset (offset + Z.to_nat len);
          label ← ok_or (MForeign EmptyString Utf8Error) (from_utf8 bytes);
          parse_labels fuel packet (offset + Z.to_nat len) (labels ++ [label])
  end.

Definition parse_query (packet : list Z) : res message DnsQuery :=
  if (length packet <? 12)%nat then bail "DNS packet is too short"
  else
    qdcount ← read_u16 packet 4;
    if negb (qdcount =? 1)%Z then bail "only one DNS question is supported"
    else
      id ← read_u16 packet 0;
      p ← parse_labels (S (length packet)) packet 12 [];
      let '(labels, offset) := p in
      if (length packet <? offset + 4)%nat then bail "DNS question type/class is truncated"
      else
        qtype ← read_u16 packet offset;
        qclass ← read_u16 packet (offset + 2);
        Ok (mkDnsQuery id (join "." labels) qtype qclass (offset + 4)).

(** ** Responses *)

Definition build_response (request : list Z) (records : list DnsRecord) (suffix : string)
    : res message (list Z) :=
  query ← parse_query request;
  let answer :=
    if (qtype query =? TYPE_A)%Z && (qclass query =? CLASS_IN)%Z
    then resolve_a records (qname query) suffix else None in
  let rcode :=
    if (qtype query =? TYPE_A)%Z then
      match answer with Some _ => 0%Z | None => RCODE_NXDOMAIN end
    else RCODE_NOTIMP in
  question ← slice request 12 (question_end query);
  let response :=
    to_be_bytes 2 (q_id query) ++
    to_be_bytes 2 (Z.lor (Z.lor (Z.lor 32768 1024) 128) rcode) ++
    to_be_bytes 2 1 ++
    to_be_bytes 2 (match answer with Some _ => 1 | None => 0 end) ++
    to_be_bytes 2 0 ++
    to_be_bytes 2 0 ++
    question in
  Ok (response ++
      match answer with
      | Some ipv4 =>
          to_be_bytes 2 49164 ++ to_be_bytes 2 TYPE_A ++ to_be_bytes 2 CLASS_IN ++
          to_be_bytes 4 RESPONSE_TTL_SECONDS ++ to_be_bytes 2 4 ++ octets ipv4
      | None => []
      end).

(** One turn of [run_dns_proxy]: the datagram, cut to the buffer, and the
    reply, if one is sent. *)
Definition dns_proxy_turn (config : DnsConfig) (runtime : DnsRuntime) (datagram : list Z)
    : res message (option (list Z)) :=
  match build_response (take MAX_DNS_PACKET_SIZE datagram) (records runtime) (dc_suffix config) with
  | Ok bytes => Ok (Some bytes)
  | Err _ => Ok None
  | Panic => Panic
  end.

(** ** The grammar of requests *)

Definition encode_label (l : string) : list Z :=
  Z.of_nat (length (as_bytes l)) :: as_bytes l.
Definition encode_name (labels : list string) : list Z :=
  concat (encode_label <$> labels) ++ [0%Z].

(** [std::str::from_utf8] accepts the bytes, one to 63 of them. *)
Definition wf_label (l : string) : Prop :=
  (1 <= length (as_bytes l) <= 63)%nat /\ utf8_valid (as_bytes l) = true.
#[export] Instance wf_label_dec l : Decision (wf_label l).
Proof. unfold wf_label. apply _. Defined.

(** A request with one question: the header (the flags and the other counts are
    not looked at), the question, and anything after it. *)
Definition encode_query (id : Z) (flags counts : list Z) (labels : list string) (qtype qclass : Z)
    (rest : list Z) : list Z :=
  to_be_bytes 2 id ++ flags ++ to_be_bytes 2 1 ++ counts ++
  encode_name labels ++ to_be_bytes 2 qtype ++ to_be_bytes 2 qclass ++ rest.

(** ** Lemmas on requests *)

Lemma length_encode_label l : length (encode_label l) = S (length (as_bytes l)).
Proof. done. Qed.

Lemma label_len_land n : (n <= 63)%nat -> Z.land (Z.of_nat n) 192 = 0%Z.
Proof. intros Hn. do 64 (destruct n as [|n]; [reflexivity|]). lia. Qed.

Lemma parse_labels_ok labels : forall fuel pre post acc,
  Forall wf_label labels -> (length labels < fuel)%nat ->
  parse_labels fuel (pre ++ encode_name labels ++ post) (length pre) acc =
  Ok (acc ++ labels, (length pre + length (encode_name labels))%nat).
Proof.
  induction labels as [|l labels IH]; intros fuel pre post acc Hwf Hfuel;
    destruct fuel as [|fuel]; simpl in Hfuel; try lia.
  - unfold encode_name. simpl. rewrite length_app. simpl.
    rewrite (proj2 (Nat.leb_gt _ _)) by lia.
    rewrite (index_ok _ _ 0%Z) by (by rewrite list_lookup_middle). simpl. by rewrite app_nil_r.
  - apply Forall_cons in Hwf as [[Hlen Hutf] Hwf].
    assert (encode_name (l :: labels) = encode_label l ++ encode_name labels) as ->.
    { unfold encode_name. rewrite fmap_cons. simpl. by rewrite <- !app_assoc. }
    cbn [parse_labels]. rewrite !length_app, length_encode_label, <- app_assoc.
    rewrite (proj2 (Nat.leb_gt _ _)) by lia. cbn [encode_label app].
    rewrite (index_ok _ _ (Z.of_nat (length (as_bytes l)))) by (by rewrite list_lookup_middle).
    cbn [mbind res_bind]. rewrite (proj2 (Z.eqb_neq _ _)) by lia.
    rewrite label_len_land, Nat2Z.id by lia. cbn [Z.eqb negb].
    rewrite (proj2 (Z.ltb_ge _ _)) by lia. rewrite (proj2 (Nat.ltb_ge _ _)) by lia. cbn [orb].
    rewrite slice_ok by (simpl; rewrite ?length_app; simpl; rewrite ?length_app; lia).
    rewrite (cons_middle _ pre), app_assoc, (drop_app_length' (pre ++ _)) by (rewrite length_app; simpl; lia).
    rewrite take_app_length' by lia. cbn [mbind res_bind]. unfold from_utf8. rewrite Hutf.
    cbn [ok_or mbind res_bind]. rewrite of_bytes_as_bytes.
    rewrite (app_assoc (pre ++ _)). set (pre' := (pre ++ _) ++ as_bytes l).
    assert (length pre + 1 + length (as_bytes l) = length pre')%nat as Hpre.
    { unfold pre'. rewrite !length_app. simpl. lia. }
    rewrite Hpre, IH by (done || lia). f_equal. f_equal; [by rewrite <- app_assoc|]. lia.
Qed.

Lemma parse_labels_no_panic fuel packet : forall offset acc,
  (length packet - offset < fuel)%nat -> parse_labels fuel packet offset acc <> Panic.
Proof.
  induction fuel as [|fuel IH]; intros offset acc Hf; [lia|]. simpl.
  destruct (length packet <=? offset)%nat eqn:E; [done|]. to_prop.
  destruct (@index_lt message _ packet offset E) as (len & -> & _). cbn [mbind res_bind].
  destruct (len =? 0)%Z eqn:?; [done|]. destruct (negb _); [done|].
  destruct (63 <? len)%Z eqn:?; [done|]. cbn [orb].
  destruct (length packet <? _)%nat eqn:E2; [done|]. to_prop.
  rewrite slice_ok by lia. cbn [mbind res_bind].
  destruct (from_utf8 _); [|done]. cbn [ok_or mbind res_bind]. apply IH. lia.
Qed.

Lemma parse_labels_inv fuel packet : Bytes packet -> forall offset acc ls off',
  parse_labels fuel packet offset acc = Ok (ls, off') ->
  exists labels, ls = acc ++ labels /\ Forall wf_label labels /\
    drop offset packet = encode_name labels ++ drop off' packet /\
    off' = (offset + length (encode_name labels))%nat /\ (off' <= length packet)%nat.
Proof.
  intros HB. induction fuel as [|fuel IH]; intros offset acc ls off' H; [done|]. simpl in H.
  destruct (length packet <=? offset)%nat eqn:E; [done|]. to_prop.
  destruct (@index_lt message _ packet offset E) as (len & Hi & Hl). rewrite Hi in H.
  cbn [mbind res_bind] in H. pose proof (Bytes_lookup _ _ _ HB Hl) as Hu8.
  destruct (len =? 0)%Z eqn:Hne; to_prop; [subst len|].
  - injection H as <- <-. exists []. unfold encode_name. simpl. rewrite app_nil_r.
    split_and!; try done; [|lia]. rewrite (drop_S _ _ _ Hl) . by rewrite Nat.add_1_r.
  - destruct (negb _); [done|]. destruct (63 <? len)%Z eqn:E63; [done|]. cbn [orb] in H.
    destruct (length packet <? _)%nat eqn:E2; [done|]. to_prop. rewrite slice_ok in H by lia.
    cbn [mbind res_bind] in H. unfold from_utf8 in H.
    replace (offset + 1 + Z.to_nat len - (offset + 1))%nat with (Z.to_nat len) in H by lia.
    set (bytes := take (Z.to_nat len) (drop (offset + 1) packet)) in *.
    destruct (utf8_valid bytes) eqn:Eu; [|done]. cbn [ok_or mbind res_bind] in H.
    apply IH in H as (labels & -> & Hwf & Hd & Hoff & Hle).
    assert (Bytes bytes) as HBb by (unfold bytes; auto with tfs).
    assert (length bytes = Z.to_nat len) as HLb.
    { unfold bytes. rewrite length_take, length_drop. lia. }
    unfold is_u8, u8_max in Hu8.
    exists (of_bytes bytes :: labels). unfold encode_name in *. rewrite fmap_cons. cbn [concat].
    rewrite !length_app, length_encode_label, as_bytes_of_bytes, HLb by done.
    split_and!; [by rewrite <- app_assoc| | |rewrite length_app in Hoff; lia|done].
    + constructor; [|done]. unfold wf_label. rewrite as_bytes_of_bytes, HLb, Eu by done. lia.
    + change (encode_label ?b) with (Z.of_nat (length (as_bytes b)) :: as_bytes b).
      rewrite as_bytes_of_bytes, HLb, Z2Nat.id by (done || lia).
      rewrite (drop_S _ _ _ Hl). rewrite <- !app_assoc in *. rewrite <- Hd. cbn [app]. f_equal. rewrite <- Nat.add_1_r.
      unfold bytes. by rewrite <- (drop_drop packet (Z.to_nat len) (offset + 1)), take_drop.
Qed.

Lemma read_u16_app pre x post :
  is_u16 x -> read_u16 (pre ++ to_be_bytes 2 x ++ post) (length pre) = Ok x.
Proof.
  intros Hx. pose proof (from_to_be_bytes 2 x) as Hr. unfold read_u16.
  pose proof (length_to_be_bytes 2 x) as HL. revert Hr HL. generalize (to_be_bytes 2 x).
  intros l Hr HL. destruct l as [|a [|b [|c l]]]; try done.
  rewrite (index_ok _ (length pre) a) by (cbn [app]; by rewrite list_lookup_middle).
  rewrite (index_ok _ _ b); cycle 1.
  { rewrite lookup_app_r by lia. by replace (length pre + 1 - length pre)%nat with 1%nat by lia. }
  cbn [mbind res_bind]. rewrite Hr; [done|]. unfold is_u16, u16_max in Hx. simpl. lia.
Qed.

Lemma read_u16_inv packet i x :
  Bytes packet -> read_u16 packet i = Ok x ->
  is_u16 x /\ drop i packet = to_be_bytes 2 x ++ drop (i + 2) packet.
Proof.
  unfold read_u16. intros HB H. unfold index in H.
  destruct (packet !! i) as [a|] eqn:Ea; [|done]. cbn [mbind res_bind] in H.
  destruct (packet !! (i + 1)%nat) as [b|] eqn:Eb; [|done]. cbn [mbind res_bind] in H.
  apply (inj Ok) in H as <-.
  assert (Bytes [a; b]) as Hab by (repeat constructor; by eapply Bytes_lookup).
  pose proof (from_be_bytes_bound [a; b] Hab) as Hb.
  change 2%nat with (length [a; b]). rewrite (to_from_be_bytes [a; b] Hab). unfold is_u16, u16_max. split.
  - simpl length in Hb. change (2 ^ (8 * Z.of_nat 2))%Z with 65536%Z in Hb. lia.
  - rewrite Nat.add_1_r in Eb. rewrite (drop_S _ _ _ Ea), (drop_S _ _ _ Eb).
    by replace (i + length [a; b])%nat with (S (S i)) by (simpl; lia).
Qed.

(** The parts of a request, well formed. *)
Definition wf_query (id : Z) (flags counts : list Z) (labels : list string) (ty cl : Z) : Prop :=
  is_u16 id /\ is_u16 ty /\ is_u16 cl /\ length flags = 2%nat /\ length counts = 6%nat /\
  Forall wf_label labels.
#[export] Instance wf_query_dec id flags counts labels ty cl :
  Decision (wf_query id flags counts labels ty cl).
Proof. unfold wf_query. apply _. Defined.

Definition query_of (id : Z) (labels : list string) (ty cl : Z) : DnsQuery :=
  mkDnsQuery id (join "." labels) ty cl (12 + length (encode_name labels) + 4).

Lemma length_encode_name labels : (length labels < length (encode_name labels))%nat.
Proof.
  unfold encode_name. rewrite length_app. cbn [length].
  induction labels as [|l labels IH]; [simpl; lia|]. rewrite fmap_cons. cbn [concat length].
  rewrite length_app, length_encode_label. lia.
Qed.

Lemma parse_query_encode id flags counts labels ty cl rest :
  wf_query id flags counts labels ty cl ->
  parse_query (encode_query id flags counts labels ty cl rest) = Ok (query_of id labels ty cl).
Proof.
  intros (Hid & Hty & Hcl & Hf & Hc & Hl). unfold parse_query, encode_query.
  set (body := encode_name labels ++ to_be_bytes 2 ty ++ to_be_bytes 2 cl ++ rest).
  assert (length body = length (encode_name labels) + 4 + length rest)%nat as HLb.
  { unfold body. rewrite !length_app, !length_to_be_bytes. lia. }
  assert (length (to_be_bytes 2 id ++ flags ++ to_be_bytes 2 1 ++ counts ++ body) = 12 + length body)%nat as HL.
  { rewrite !length_app, !length_to_be_bytes, Hf, Hc. lia. }
  rewrite HL, HLb. rewrite (proj2 (Nat.ltb_ge _ _)) by lia.
  assert (length (to_be_bytes 2 id ++ flags) = 4%nat) as H4 by (rewrite length_app, length_to_be_bytes, Hf; done).
  pose proof (read_u16_app (to_be_bytes 2 id ++ flags) 1 (counts ++ body)) as H1.
  rewrite H4, <- !app_assoc in H1. rewrite H1 by (unfold is_u16, u16_max; lia).
  cbn [mbind res_bind Z.eqb Pos.eqb negb].
  pose proof (read_u16_app [] id (flags ++ to_be_bytes 2 1 ++ counts ++ body) Hid) as H0.
  cbn [app length] in H0. rewrite H0. cbn [mbind res_bind].
  set (pre := to_be_bytes 2 id ++ flags ++ to_be_bytes 2 1 ++ counts).
  assert (to_be_bytes 2 id ++ flags ++ to_be_bytes 2 1 ++ counts ++ body = pre ++ body) as ->.
  { unfold pre. by rewrite <- !app_assoc. }
  assert (length pre = 12%nat) as Hpre.
  { unfold pre. rewrite !length_app, !length_to_be_bytes, Hf, Hc. done. }
  pose proof (length_encode_name labels) as Hen.
  pose proof (parse_labels_ok labels (S (12 + (length (encode_name labels) + 4 + length rest))) pre
    (to_be_bytes 2 ty ++ to_be_bytes 2 cl ++ rest) [] Hl ltac:(lia)) as H3.
  rewrite Hpre in H3. unfold body. rewrite H3. rewrite <- Hpre. cbn [mbind res_bind app]. rewrite (proj2 (Nat.ltb_ge _ _)) by lia.
  rewrite <- length_app, app_assoc, read_u16_app by done. cbn [mbind res_bind].
  pose proof (read_u16_app ((pre ++ encode_name labels) ++ to_be_bytes 2 ty) cl rest Hcl) as H2.
  rewrite length_app, length_to_be_bytes, <- !app_assoc in H2. rewrite <- !app_assoc, H2.
  cbn [mbind res_bind]. unfold query_of. rewrite length_app, Hpre. do 2 f_equal. 
Qed.

Lemma parse_query_inv packet q :
  Bytes packet -> parse_query packet = Ok q ->
  exists id flags counts labels ty cl rest, wf_query id flags counts labels ty cl /\
    packet = encode_query id flags counts labels ty cl rest /\ q = query_of id labels ty cl.
Proof.
  intros HB H. unfold parse_query in H.
  destruct (length packet <? 12)%nat eqn:E12; [done|]. to_prop.
  destruct (read_u16 packet 4) as [qd| |] eqn:E4; try done. cbn [mbind res_bind] in H.
  destruct (qd =? 1)%Z eqn:Eqd; [|done]. to_prop. subst qd. cbn [negb] in H.
  destruct (read_u16 packet 0) as [id| |] eqn:E0; try done. cbn [mbind res_bind] in H.
  destruct (parse_labels _ _ _ _) as [[labels off]| |] eqn:El; try done. cbn [mbind res_bind] in H.
  destruct (length packet <? off + 4)%nat eqn:Eo; [done|]. to_prop.
  destruct (read_u16 packet off) as [ty| |] eqn:Ety; try done. cbn [mbind res_bind] in H.
  destruct (read_u16 packet (off + 2)) as [cl| |] eqn:Ecl; try done. cbn [mbind res_bind] in H.
  apply (inj Ok) in H as <-.
  apply parse_labels_inv in El as (labels' & Hls & Hwf & Hd & Hoff & Hle); [|done].
  simpl in Hls. subst labels'.
  apply read_u16_inv in E4 as [_ D4], E0 as [Hid D0], Ety as [Hty Dty], Ecl as [Hcl Dcl]; try done.
  rewrite drop_0 in D0.
  exists id, (take 2 (drop 2 packet)), (take 6 (drop 6 packet)), labels, ty, cl, (drop (off + 2 + 2) packet).
  split_and!.
  - unfold wf_query. rewrite !length_take, !length_drop. split_and!; (done || lia).
  - unfold encode_query. rewrite D0 at 1. f_equal. simpl Nat.add.
    rewrite <- (take_drop 2 (drop 2 packet)) at 1. f_equal. rewrite drop_drop. simpl Nat.add.
    rewrite D4. f_equal. simpl Nat.add. rewrite <- (take_drop 6 (drop 6 packet)) at 1. f_equal.
    rewrite drop_drop. simpl Nat.add. rewrite Hd. f_equal. rewrite Dty. f_equal. done.
  - unfold query_of. subst off. done.
Qed.

Lemma parse_query_no_panic packet : Bytes packet -> parse_query packet <> Panic.
Proof.
  intros HB. unfold parse_query. destruct (length packet <? 12)%nat eqn:E; [done|]. to_prop.
  assert (forall i, (i + 1 < length packet)%nat -> exists x, read_u16 packet i = Ok x) as Hr.
  { intros i Hi. unfold read_u16.
    destruct (@index_lt message _ packet i) as (a & -> & _); [lia|].
    destruct (@index_lt message _ packet (i + 1)) as (b & -> & _); [lia|]. by eexists. }
  destruct (Hr 4%nat) as [qd ->]; [lia|]. destruct (Hr 0%nat) as [id ->]; [lia|].
  cbn [mbind res_bind]. destruct (negb _); [done|].
  pose proof (parse_labels_no_panic (S (length packet)) packet 12 [] ltac:(lia)) as Hnp.
  destruct (parse_labels _ _ _ _) as [[labels off]| |]; try done. cbn [mbind res_bind].
  destruct (length packet <? off + 4)%nat eqn:Eo; [done|]. to_prop.
  destruct (Hr off) as [ty ->]; [lia|]. destruct (Hr (off + 2)%nat) as [cl ->]; [lia|]. done.
Qed.

(** The answer and the response code of a query. *)
Definition answer_of (q : DnsQuery) (records : list DnsRecord) (suffix : string) : option Ipv4Addr :=
  if (qtype q =? TYPE_A)%Z && (qclass q =? CLASS_IN)%Z
  then resolve_a records (qname q) suffix else None.

Definition rcode_of (q : DnsQuery) (answer : option Ipv4Addr) : Z :=
  if (qtype q =? TYPE_A)%Z then
    match answer with Some _ => 0%Z | None => RCODE_NXDOMAIN end
  else RCODE_NOTIMP.

(** The bytes after the question: one A record with a 30 second TTL that points
    back at the name of the question, or nothing. *)
Definition answer_section (answer : option Ipv4Addr) : list Z :=
  match answer with
  | Some ipv4 => [192; 12; 0; 1; 0; 1; 0; 0; 0; 30; 0; 4]%Z ++ octets ipv4
  | None => []
  end.

Definition response_flags (rcode : Z) : list Z := to_be_bytes 2 (33920 + rcode).
Definition response_counts (answer : option Ipv4Addr) : list Z :=
  to_be_bytes 2 (match answer with Some _ => 1 | None => 0 end) ++ [0; 0; 0; 0]%Z.

Lemma build_response_encode id flags counts labels ty cl rest records suffix :
  wf_query id flags counts labels ty cl ->
  let q := query_of id labels ty cl in
  let answer := answer_of q records suffix in
  build_response (encode_query id flags counts labels ty cl rest) records suffix =
  Ok (encode_query id (response_flags (rcode_of q answer)) (response_counts answer) labels ty cl
        (answer_section answer)).
Proof.
  intros Hwf. cbv zeta. unfold build_response. rewrite parse_query_encode by done.
  cbn [mbind res_bind]. fold (answer_of (query_of id labels ty cl) records suffix).
  set (a := answer_of _ _ _). fold (rcode_of (query_of id labels ty cl) a).
  destruct Hwf as (_ & _ & _ & Hf & Hc & _).
  set (pre := to_be_bytes 2 id ++ flags ++ to_be_bytes 2 1 ++ counts).
  set (body := encode_name labels ++ to_be_bytes 2 ty ++ to_be_bytes 2 cl).
  assert (encode_query id flags counts labels ty cl rest = pre ++ body ++ rest) as ->.
  { unfold encode_query, pre, body. by rewrite <- !app_assoc. }
  assert (length pre = 12%nat) as Hpre.
  { unfold pre. rewrite !length_app, !length_to_be_bytes, Hf, Hc. done. }
  assert (length body = length (encode_name labels) + 4)%nat as Hbody.
  { unfold body. rewrite !length_app, !length_to_be_bytes. lia. }
  cbn [query_of question_end].
  rewrite slice_ok by (rewrite ?length_app, ?Hpre, ?Hbody; lia). cbn [mbind res_bind].
  rewrite drop_app_length' by done. rewrite take_app_length' by lia.
  assert (Z.lor (Z.lor (Z.lor 32768 1024) 128) (rcode_of (query_of id labels ty cl) a) =
    33920 + rcode_of (query_of id labels ty cl) a)%Z as ->.
  { unfold rcode_of. destruct (_ =? _)%Z; [by destruct a|done]. }
  f_equal. unfold encode_query, response_flags, response_counts, body.
  rewrite <- !app_assoc. do 7 f_equal.
Qed.

Lemma response_wf id flags counts labels ty cl r answer :
  wf_query id flags counts labels ty cl ->
  wf_query id (response_flags r) (response_counts answer) labels ty cl.
Proof.
  intros (? & ? & ? & _ & _ & ?). unfold wf_query, response_flags, response_counts.
  rewrite length_app, !length_to_be_bytes. by split_and!.
Qed.

(** ** Lemmas on names *)

Lemma lower_byte_dot b : (DOT =? lower_byte b)%Z = (DOT =? b)%Z.
Proof.
  unfold lower_byte, in_range, DOT. destruct ((65 <=? b)%Z && (b <=? 90)%Z) eqn:E; [|done].
  to_prop. destruct (Z.eqb_spec 46 (b + 32)), (Z.eqb_spec 46 b); lia.
Qed.

Lemma drop_while_lower l :
  drop_while (Z.eqb DOT) (map lower_byte l) = map lower_byte (drop_while (Z.eqb DOT) l).
Proof.
  induction l as [|b l IH]; [done|]. cbn [map drop_while]. rewrite lower_byte_dot.
  by destruct (DOT =? b)%Z.
Qed.

Lemma drop_while_Bytes f l : Bytes l -> Bytes (drop_while f l).
Proof. induction 1; simpl; [constructor|]. destruct (f x); [done|by constructor]. Qed.

Lemma normalize_name_lower s : normalize_name (to_ascii_lowercase s) = normalize_name s.
Proof.
  unfold normalize_name, trim_end_matches. rewrite as_bytes_lowercase, <- map_rev, drop_while_lower.
  rewrite <- map_rev. apply as_bytes_inj. rewrite !as_bytes_lowercase.
  rewrite !as_bytes_of_bytes.
  - rewrite map_map. apply map_ext. apply lower_byte_idem.
  - apply Forall_rev, drop_while_Bytes, Forall_rev, as_bytes_Bytes.
  - apply map_lower_Bytes, Forall_rev, drop_while_Bytes, Forall_rev, as_bytes_Bytes.
Qed.

Lemma normalize_name_dot s : normalize_name (s +:+ ".") = normalize_name s.
Proof.
  unfold normalize_name, trim_end_matches. rewrite as_bytes_app, rev_app_distr. done.
Qed.

Lemma find_Some {A} (f : A -> bool) l x :
  find f l = Some x <->
  exists pre post, l = pre ++ x :: post /\ f x = true /\ Forall (fun y => f y = false) pre.
Proof.
  induction l as [|y l IH]; simpl.
  - split; [done|]. by intros ([|] & post & ? & _).
  - destruct (f y) eqn:E.
    + split; [intros [= ->]; by exists [], l|].
      intros ([|z pre] & post & [= -> ->] & Hx & Hpre); [done|].
      apply Forall_cons in Hpre as [? _]. congruence.
    + rewrite IH. split.
      * intros (pre & post & -> & Hx & Hpre). exists (y :: pre), post. auto.
      * intros ([|z pre] & post & [= -> ->] & Hx & Hpre); [congruence|].
        apply Forall_cons in Hpre as [_ Hpre]. by exists pre, post.
Qed.

(** ** Properties *)

(** C15: the request parser accepts exactly the requests of the grammar: a header
    with one question whose name is a sequence of uncompressed, valid UTF-8
    labels of 1 to 63 bytes, its type and class; and it returns the parts of the
    request and the offset where the question ends. *)
Theorem dns_parse_exact packet q :
  Bytes packet ->
  (parse_query packet = Ok q <->
   exists id flags counts labels ty cl rest, wf_query id flags counts labels ty cl /\
     packet = encode_query id flags counts labels ty cl rest /\ q = query_of id labels ty cl).
Proof.
  intros HB. split; [by apply parse_query_inv|].
  intros (id & flags & counts & labels & ty & cl & rest & Hwf & -> & ->). by apply parse_query_encode.
Qed.

(** The proxy survives any datagram: for every datagram, set of records and
    suffix a turn of the proxy ends without a panic (no index or slice out of
    range, no loop without end), with a reply or by ignoring the datagram. *)
Theorem dns_proxy_total config runtime datagram :
  Bytes datagram -> exists reply, dns_proxy_turn config runtime datagram = Ok reply.
Proof.
  intros HB. unfold dns_proxy_turn. set (request := take _ datagram).
  assert (Bytes request) as HBr by (unfold request; auto with tfs).
  pose proof (parse_query_no_panic request HBr) as Hnp.
  destruct (parse_query request) as [q|e|] eqn:E; [| |done].
  - apply parse_query_inv in E as (id & flags & counts & labels & ty & cl & rest & Hwf & -> & _); [|done].
    rewrite build_response_encode by done. by eexists.
  - unfold build_response. rewrite E. by eexists.
Qed.

(** C30: the response to a request repeats its question (it parses to the same
    id, name, type and class), carries the response code (answer found, no such
    name, not implemented for other types than A), and ends with exactly one A
    record for the resolved address, or with nothing. *)
Theorem dns_response_correct request q records suffix :
  Bytes request -> parse_query request = Ok q ->
  let answer := answer_of q records suffix in
  exists response, build_response request records suffix = Ok response /\
    parse_query response = Ok q /\
    take 2 (drop 2 response) = response_flags (rcode_of q answer) /\
    take 6 (drop 6 response) = response_counts answer /\
    drop (question_end q) response = answer_section answer.
Proof.
  intros HB Hq. cbv zeta.
  apply parse_query_inv in Hq as (id & flags & counts & labels & ty & cl & rest & Hwf & -> & ->); [|done].
  rewrite build_response_encode by done. eexists; split; [done|].
  set (a := answer_of _ _ _). set (fl := response_flags _).
  pose proof (response_wf id flags counts labels ty cl (rcode_of (query_of id labels ty cl) a) a Hwf) as Hwf'.
  fold fl in Hwf'. split; [by apply parse_query_encode|].
  destruct Hwf' as (_ & _ & _ & Hf & Hc & _). unfold encode_query. split_and!.
  - by rewrite drop_app_length', take_app_length'.
  - rewrite !app_assoc, <- (app_assoc _ (response_counts a)), <- !app_assoc.
    rewrite (app_assoc (to_be_bytes 2 id)), (app_assoc (to_be_bytes 2 id ++ fl)).
    rewrite drop_app_length'; [by rewrite take_app_length'|].
    by rewrite !length_app, !length_to_be_bytes, Hf.
  - rewrite !app_assoc. apply drop_app_length'.
    rewrite !length_app, !length_to_be_bytes, Hf, Hc. simpl. lia.
Qed.

(** Name resolution: a query under the mesh suffix resolves to the address of
    the first A record of that name, and to nothing else; letter case and one
    trailing dot of the query do not matter. *)
Theorem resolve_a_correct records qname suffix ip :
  (resolve_a records qname suffix = Some ip <->
   ends_with (normalize_name qname) ("." +:+ normalize_suffix suffix) = true /\
   exists pre r post, records = pre ++ r :: post /\
     Forall (fun r' => record_matches (normalize_name qname) r' = false) pre /\
     eq_ignore_ascii_case (record_type r) "A" = true /\
     normalize_name (dns_name r) = normalize_name qname /\
     parse_ipv4 (dns_value r) = Some ip) /\
  resolve_a records (to_ascii_lowercase qname) suffix = resolve_a records qname suffix /\
  resolve_a records (qname +:+ ".") suffix = resolve_a records qname suffix.
Proof.
  unfold resolve_a. rewrite normalize_name_lower, normalize_name_dot. split; [|done].
  destruct (ends_with _ _); simpl; [|by split; [|intros [? _]]]. rewrite bind_Some. split.
  - intros (r & Hr & Hip). apply find_Some in Hr as (pre & post & -> & Hm & Hpre).
    unfold record_matches in Hm. apply andb_true_iff in Hm as [? ?%bool_decide_eq_true].
    split; [done|]. by exists pre, r, post.
  - intros (_ & pre & r & post & -> & Hpre & Hty & Hn & Hip). exists r. split; [|done].
    apply find_Some. exists pre, post. split_and!; [done| |done].
    unfold record_matches. rewrite Hty. by apply bool_decide_eq_true.
Qed.

(** ** Witnesses *)

Definition toy_request : list Z :=
  encode_query 4660 [1; 0]%Z [0; 0; 0; 0; 0; 0]%Z ["DevBox"; "mesh"] TYPE_A CLASS_IN [7%Z].
Definition toy_records : list DnsRecord := [mkDnsRecord "dev_1" "devbox.mesh" "A" "100.64.0.2"].

Lemma dns_parse_exact_witness :
  parse_query toy_request = Ok (query_of 4660 ["DevBox"; "mesh"] TYPE_A CLASS_IN).
Proof.
  apply (dns_parse_exact toy_request).
  - by_decide.
  - exists 4660%Z, [1; 0]%Z, [0; 0; 0; 0; 0; 0]%Z, ["DevBox"; "mesh"], TYPE_A, CLASS_IN, [7%Z].
    split; [by_decide|by split].
Defined.

Lemma dns_proxy_total_witness :
  exists reply, dns_proxy_turn (mkDnsConfig (mkSocketAddr (V4 LOCALHOST) 53) "mesh")
    (DnsRuntime_new toy_records) toy_request = Ok reply.
Proof. apply dns_proxy_total. by_decide. Defined.

Lemma dns_response_correct_witness :
  exists response, build_response toy_request toy_records "mesh." = Ok response /\
    drop 29 response = [192; 12; 0; 1; 0; 1; 0; 0; 0; 30; 0; 4; 100; 64; 0; 2]%Z.
Proof.
  destruct (dns_response_correct toy_request (query_of 4660 ["DevBox"; "mesh"] TYPE_A CLASS_IN)
    toy_records "mesh.") as (response & Hr & _ & _ & _ & Hd).
  - by_decide.
  - by vm_compute.
  - exists response. split; [exact Hr|]. etransitivity; [exact Hd|]. by vm_compute.
Defined.
