(* ===== verification/ControlDb.v ===== *)
(** * Control plane: the database ([tfscale-control/migrations/*.sql])

    The tables as lists of rows in insertion order, the statements of the
    handlers as functions on them, with the uniqueness constraints of the
    schema, and transactions that roll back.  The [network_backends] table is
    never used by the code and is left out.

    Not modelled: I/O errors and lock timeouts of the database. *)

From Stdlib Require Import ZArith Lia.
From stdpp Require Import prelude list strings gmap.
From S2P Require Import Prelude RustStd Protocol.

(** ** Errors of the handlers *)

Record ApiError : Type := mkApiError { status : Z; error_message : message }.

Definition bad_request (m : string) : ApiError := mkApiError 400 (MText m).
Definition unauthorized (m : string) : ApiError := mkApiError 401 (MText m).
Definition not_found (m : string) : ApiError := mkApiError 404 (MText m).
Definition conflict (m : string) : ApiError := mkApiError 409 (MText m).
Definition internal (m : string) : ApiError := mkApiError 500 (MText m).
(** [From<sqlx::Error> for ApiError], for a violated constraint *)
Definition unique_failed (constraint : string) : ApiError :=
  mkApiError 500 (MForeign EmptyString (SqlError constraint)).
(** [fetch_one] on an empty result *)
Definition row_not_found : ApiError := mkApiError 500 (MForeign EmptyString (SqlError "RowNotFound")).

#[export] Instance ApiError_eq_dec : EqDecision ApiError.
Proof. solve_decision. Defined.

(** ** Tables *)

Record AuthKeyRow : Type := mkAuthKeyRow {
  ak_id : string; ak_key_hash : string; ak_description : option string;
  ak_expires_at : option string; ak_used_at : option string; ak_reusable : Z;
  ak_created_at : string; ak_revoked_at : option string;
}.

Record DeviceRow : Type := mkDeviceRow {
  d_id : string; d_network_id : string; d_hostname : string; d_machine_key : string;
  d_node_key : string; d_backend_type : string; d_backend_public_credential : string;
  d_ipv4 : string; d_os : string; d_arch : string; d_client_version : string;
  d_last_seen_at : option string; d_created_at : string; d_updated_at : string;
  d_deleted_at : option string;
}.

Record IpRow : Type := mkIpRow {
  ip_id : string; ip_network_id : string; ip_device_id : string; ip_ip : string;
  ip_state : string; ip_created_at : string; ip_released_at : option string;
}.

Record EndpointRow : Type := mkEndpointRow {
  e_id : string; e_device_id : string; e_kind : string; e_address : string; e_port : Z;
  e_protocol : string; e_source : option string; e_latency_ms : option Z;
  e_last_seen_at : string; e_priority : option Z; e_expires_at : option string;
}.

Record DnsRow : Type := mkDnsRow {
  r_id : string; r_network_id : string; r_device_id : string; r_name : string;
  r_type : string; r_value : string; r_created_at : string; r_updated_at : string;
}.

Record db : Type := mkDb {
  auth_keys : list AuthKeyRow;
  devices : list DeviceRow;
  ip_allocations : list IpRow;
  endpoints : list EndpointRow;
  dns_records : list DnsRow;
}.

Definition empty_db : db := mkDb [] [] [] [] [].

Definition set_auth_keys (d : db) (x : list AuthKeyRow) : db :=
  mkDb x (devices d) (ip_allocations d) (endpoints d) (dns_records d).
Definition set_devices (d : db) (x : list DeviceRow) : db :=
  mkDb (auth_keys d) x (ip_allocations d) (endpoints d) (dns_records d).
Definition set_ip_allocations (d : db) (x : list IpRow) : db :=
  mkDb (auth_keys d) (devices d) x (endpoints d) (dns_records d).
Definition set_endpoints (d : db) (x : list EndpointRow) : db :=
  mkDb (auth_keys d) (devices d) (ip_allocations d) x (dns_records d).
Definition set_dns_records (d : db) (x : list DnsRow) : db :=
  mkDb (auth_keys d) (devices d) (ip_allocations d) (endpoints d) x.

(** ** The monad of the handlers: state, errors, transactions *)

Definition M (A : Type) : Type := db -> res ApiError A * db.

#[export] Instance M_ret : MRet M := fun A a d => (Ok a, d).
#[export] Instance M_bind : MBind M := fun A B f m d =>
  match m d with
  | (Ok a, d) => f a d
  | (Err e, d) => (Err e, d)
  | (Panic, d) => (Panic, d)
  end.

Definition raise {A} (e : ApiError) : M A := fun d => (Err e, d).
Definition lift {A} (r : res ApiError A) : M A := fun d => (r, d).
(** A query that only reads. *)
Definition query {A} (f : db -> A) : M A := fun d => (Ok (f d), d).
Definition modify (f : db -> db) : M unit := fun d => (Ok tt, f d).
(** [pool.begin() .. tx.commit()]: an early return drops the transaction, which
    rolls it back. *)
Definition transaction {A} (body : M A) : M A := fun d =>
  match body d with (Ok a, d') => (Ok a, d') | (r, _) => (r, d) end.

(** [INSERT] into a table with uniqueness constraints: each constraint is a name
    and the test that an existing row collides with the new one. *)
Fixpoint violated {A} (cs : list (string * (A -> A -> bool))) (row : A) (rows : list A)
    : option string :=
  match cs with
  | [] => None
  | (name, same) :: cs =>
      if existsb (same row) rows then Some name else violated cs row rows
  end.

Definition insert_row {A} (cs : list (string * (A -> A -> bool))) (row : A) (rows : list A)
    : res ApiError (list A) :=
  match violated cs row rows with
  | Some name => Err (unique_failed name)
  | None => Ok (rows ++ [row])
  end.

Definition same {A} (f : A -> string) (x y : A) : bool := bool_decide (f x = f y).

(** The constraints of the schema. [lower] is SQLite's, on ASCII letters. *)
Definition lower (s : string) : string := to_ascii_lowercase s.

Definition auth_key_constraints : list (string * (AuthKeyRow -> AuthKeyRow -> bool)) :=
  [("auth_keys.id", same ak_id); ("auth_keys.key_hash", same ak_key_hash)].
Definition device_constraints : list (string * (DeviceRow -> DeviceRow -> bool)) :=
  [("devices.id", same d_id); ("devices.machine_key", same d_machine_key);
   ("devices.ipv4", same d_ipv4)].
Definition ip_constraints : list (string * (IpRow -> IpRow -> bool)) :=
  [("ip_allocations.id", same ip_id); ("ip_allocations.ip", same ip_ip)].
Definition same_name (x y : DnsRow) : bool :=
  same r_network_id x y && bool_decide (lower (r_name x) = lower (r_name y)) && same r_type x y.
Definition same_device_type (x y : DnsRow) : bool := same r_device_id x y && same r_type x y.
Definition dns_constraints : list (string * (DnsRow -> DnsRow -> bool)) :=
  [("dns_records.id", same r_id); ("index 'idx_dns_records_network_name_type'", same_name);
   ("index 'idx_dns_records_device_type'", same_device_type)].

Definition insert_auth_key (row : AuthKeyRow) : M unit := fun d =>
  match insert_row auth_key_constraints row (auth_keys d) with
  | Ok rows => (Ok tt, set_auth_keys d rows)
  | Err e => (Err e, d) | Panic => (Panic, d)
  end.

Definition insert_device (row : DeviceRow) : M unit := fun d =>
  match insert_row device_constraints row (devices d) with
  | Ok rows => (Ok tt, set_devices d rows)
  | Err e => (Err e, d) | Panic => (Panic, d)
  end.

Definition insert_ip_allocation (row : IpRow) : M unit := fun d =>
  match insert_row ip_constraints row (ip_allocations d) with
  | Ok rows => (Ok tt, set_ip_allocations d rows)
  | Err e => (Err e, d) | Panic => (Panic, d)
  end.

(** [UPDATE .. SET .. WHERE ..]: the rows and the number of rows changed. *)
Definition update_where {A} (p : A -> bool) (f : A -> A) (rows : list A) : list A :=
  map (fun r => if p r then f r else r) rows.
Definition count_where {A} (p : A -> bool) (rows : list A) : nat :=
  length (List.filter p rows).

(** [INSERT INTO dns_records .. ON CONFLICT(device_id, type) DO UPDATE SET name,
    value, updated_at]: the conflict target is looked at first; the updated row
    must not collide with the name of another row. *)
Definition upsert_dns (row : DnsRow) : M unit := fun d =>
  if existsb (same_device_type row) (dns_records d) then
    let f r := mkDnsRow (r_id r) (r_network_id r) (r_device_id r) (r_name row) (r_type r)
                 (r_value row) (r_created_at r) (r_updated_at row) in
    let others := List.filter (fun r => negb (same_device_type row r)) (dns_records d) in
    let updated := List.filter (same_device_type row) (dns_records d) in
    if existsb (fun r => existsb (same_name (f r)) others) updated then
      (Err (unique_failed "index 'idx_dns_records_network_name_type'"), d)
    else (Ok tt, set_dns_records d (update_where (same_device_type row) f (dns_records d)))
  else
    match insert_row dns_constraints row (dns_records d) with
    | Ok rows => (Ok tt, set_dns_records d rows)
    | Err e => (Err e, d) | Panic => (Panic, d)
    end.

(** [INSERT INTO endpoints .. ON CONFLICT(id) DO UPDATE SET ..]: the owner and
    the latency of an existing row stay. *)
Definition upsert_endpoint (row : EndpointRow) : M unit := fun d =>
  if existsb (same e_id row) (endpoints d) then
    let f r := mkEndpointRow (e_id r) (e_device_id r) (e_kind row) (e_address row) (e_port row)
                 (e_protocol row) (e_source row) (e_latency_ms r) (e_last_seen_at row)
                 (e_priority row) (e_expires_at row) in
    (Ok tt, set_endpoints d (update_where (same e_id row) f (endpoints d)))
  else (Ok tt, set_endpoints d (endpoints d ++ [row])).

(** ** Lemmas: the monad *)

Lemma M_bind_Ok {A B} (m : M A) (f : A -> M B) d b d' :
  (m ≫= f) d = (Ok b, d') -> exists a d1, m d = (Ok a, d1) /\ f a d1 = (Ok b, d').
Proof. unfold mbind, M_bind. destruct (m d) as [[a|e|] d1]; try done. eauto. Qed.

Lemma M_bind_run {A B} (m : M A) (f : A -> M B) d a d1 :
  m d = (Ok a, d1) -> (m ≫= f) d = f a d1.
Proof. unfold mbind, M_bind. by intros ->. Qed.

Lemma transaction_Ok {A} (body : M A) d a d' :
  transaction body d = (Ok a, d') -> body d = (Ok a, d').
Proof. unfold transaction. by destruct (body d) as [[| |] ?]. Qed.

Lemma transaction_rollback {A} (body : M A) d r d' :
  transaction body d = (r, d') -> is_ok r = false -> d' = d.
Proof. unfold transaction. destruct (body d) as [[| |] ?]; intros [= <- <-]; done. Qed.

(** ** Lemmas: tables *)

Lemma same_false {A} (f : A -> string) x l :
  existsb (same f x) l = false <-> f x ∉ f <$> l.
Proof.
  rewrite list_elem_of_fmap. split.
  - intros H (y & Hy & Hin). assert (existsb (same f x) l = true); [|congruence].
    apply existsb_exists. exists y. split; [by apply list_elem_of_In|]. by apply bool_decide_eq_true.
  - intros H. apply not_true_iff_false. intros (y & Hin & Hs)%existsb_exists. apply H.
    exists y. unfold same in Hs. to_prop. split; [done|]. by apply list_elem_of_In.
Qed.

Lemma insert_row_Ok {A} cs (row : A) rows rows' :
  insert_row cs row rows = Ok rows' ->
  rows' = rows ++ [row] /\ Forall (fun c => existsb (snd c row) rows = false) cs.
Proof.
  unfold insert_row. destruct (violated cs row rows) eqn:Hv; [done|]. intros [= <-]. split; [done|].
  revert Hv. induction cs as [|[name s] cs IH]; simpl; [by constructor|].
  destruct (existsb (s row) rows) eqn:E; [done|]. intros H. constructor; auto.
Qed.

Lemma insert_row_free {A} cs (row : A) rows :
  Forall (fun c => existsb (snd c row) rows = false) cs -> insert_row cs row rows = Ok (rows ++ [row]).
Proof.
  intros H. unfold insert_row. assert (violated cs row rows = None) as ->; [|done].
  induction H as [|[name s] cs Hs _ IH]; simpl in *; [done|]. by rewrite Hs.
Qed.

Lemma NoDup_snoc {A} (l : list A) x : NoDup l -> x ∉ l -> NoDup (l ++ [x]).
Proof.
  intros Hl Hx. apply NoDup_app. split_and!; [done| |apply NoDup_singleton].
  intros y Hy ->%list_elem_of_singleton. done.
Qed.

(** Updates that keep a column keep its list of values. *)
Lemma fmap_update_where {A B} (g : A -> B) p f (l : list A) :
  (forall x, g (f x) = g x) -> g <$> update_where p f l = g <$> l.
Proof.
  intros Hf. unfold update_where. induction l as [|x l IH]; [done|]. simpl.
  destruct (p x); rewrite ?Hf; by f_equal.
Qed.

Lemma elem_of_update_where {A} p f (l : list A) x :
  x ∈ update_where p f l <-> exists y, y ∈ l /\ x = (if p y then f y else y).
Proof.
  unfold update_where. rewrite list_elem_of_In, in_map_iff. setoid_rewrite <- list_elem_of_In.
  naive_solver.
Qed.

Lemma elem_of_bfilter {A} (p : A -> bool) (l : list A) x :
  x ∈ List.filter p l <-> x ∈ l /\ p x = true.
Proof. by rewrite !list_elem_of_In, filter_In. Qed.

Lemma NoDup_fmap_filter {A B} (g : A -> B) (p : A -> bool) (l : list A) :
  NoDup (g <$> l) -> NoDup (g <$> List.filter p l).
Proof.
  induction l as [|x l IH]; [done|]. rewrite fmap_cons, NoDup_cons. intros [Hx Hl]. simpl.
  destruct (p x); [|auto]. rewrite fmap_cons, NoDup_cons. split; [|auto].
  intros (y & Hy & Hin)%list_elem_of_fmap. apply Hx. apply list_elem_of_fmap.
  exists y. split; [done|]. by apply elem_of_bfilter in Hin as [? _].
Qed.

Lemma find_elem_of {A} (p : A -> bool) l x : List.find p l = Some x -> x ∈ l /\ p x = true.
Proof. intros [? ?]%find_some. by rewrite list_elem_of_In. Qed.

Lemma find_None_elem {A} (p : A -> bool) l x : List.find p l = None -> x ∈ l -> p x = false.
Proof. intros H ?%list_elem_of_In. by eapply find_none. Qed.

(** A column is duplicate-free when its values determine another column that
    is. *)
Lemma NoDup_fmap_determines {A B C} (g : A -> B) (h : A -> C) (l : list A) :
  NoDup (g <$> l) -> (forall x y, x ∈ l -> y ∈ l -> h x = h y -> g x = g y) -> NoDup (h <$> l).
Proof.
  induction l as [|x l IH]; intros Hg Hd; [apply NoDup_nil_2|].
  rewrite fmap_cons in Hg. apply NoDup_cons in Hg as [Hx Hg]. rewrite fmap_cons. apply NoDup_cons. split.
  - intros (y & Hy & Hin)%list_elem_of_fmap. apply Hx. rewrite (Hd x y); [|by left|by right|done].
    by apply list_elem_of_fmap_2.
  - apply IH; [done|]. intros y z Hy Hz. apply Hd; by right.
Qed.
