(* ===== verification/Control.v ===== *)
(** * Control plane: handlers ([tfscale-control/src/main.rs])

    One definition per handler, in the monad of [ControlDb].  Fresh UUID texts
    and the current time, in seconds, are arguments; SHA-256, the hexadecimal
    encoding and SQLite's date functions are the operations of [ControlEnv]. *)

From Stdlib Require Import ZArith Lia.
From stdpp Require Import prelude list strings gmap.
From S2P Require Import Prelude RustStd Protocol ControlDb.

Class ControlEnv : Type := {
  (** [hex::encode(Sha256::digest(bytes))] *)
  sha256_hex : list Z -> string;
  (** [CURRENT_TIMESTAMP] and [datetime('now', ..)]: the text of a time *)
  timestamp : Z -> string;
  (** [unixepoch(text)], [None] for NULL *)
  unixepoch : string -> option Z;
}.

Record AppState : Type := mkAppState {
  udp_probe_addr : SocketAddr;
  relays : list RelayMetadata;
}.

Record NetworkMapQuery : Type := mkNetworkMapQuery { nmq_device_id : string; nmq_node_key : string }.

(** [define_id!]: the prefix, an underscore and the simple UUID text. *)
Definition new_id (prefix uuid : string) : string := prefix +:+ "_" +:+ uuid.
Definition NET_DEFAULT : string := "net_default".

(** ** Names *)

(** [byte.is_ascii_lowercase() || byte.is_ascii_digit() || byte == b'-'] *)
Definition hostname_byte (b : Z) : bool := in_range 97 122 b || in_range 48 57 b || (b =? 45)%Z.

Definition normalize_hostname (value : string) : res ApiError string :=
  let hostname := to_ascii_lowercase (trim value) in
  if is_empty hostname then Err (bad_request "hostname is required")
  else if (63 <? str_len hostname)%Z then
    Err (bad_request "hostname must be 63 characters or fewer")
  else if starts_with hostname "-" || ends_with hostname "-" then
    Err (bad_request "hostname cannot start or end with '-'")
  else if negb (forallb hostname_byte (as_bytes hostname)) then
    Err (bad_request "hostname can contain only lowercase letters, digits, and '-'")
  else Ok hostname.

Definition dns_name (hostname : string) : string := hostname +:+ ".mesh".

(** The first [n] characters of a UTF-8 text. *)
Fixpoint take_chars (n : nat) (l : list Z) : list Z :=
  match l with
  | [] => []
  | b :: r =>
      if utf8_cont b then b :: take_chars n r
      else match n with O => [] | S n => b :: take_chars n r end
  end.

(** [rsplit_once(c).map(|(_, suffix)| suffix)] *)
Fixpoint after_last (c : Z) (l : list Z) : option (list Z) :=
  match l with
  | [] => None
  | b :: r => match after_last c r with
              | Some s => Some s
              | None => if (b =? c)%Z then Some r else None
              end
  end.

Definition device_dns_suffix (device_id : string) : string :=
  of_bytes (take_chars 8 (default (as_bytes device_id) (after_last 95 (as_bytes device_id)))).

Definition relay_metadata_from_urls (urls : list string) : list RelayMetadata :=
  imap (fun index url => mkRelayMetadata ("relay_" +:+ dec (Z.of_nat index + 1)) url "default" true) urls.

Section handlers.
Context `{E : ControlEnv}.

Definition hash_secret (secret : string) : string := sha256_hex (as_bytes secret).

Definition endpoint_id (device_id : string) (endpoint : EndpointPayload) (source : string) : string :=
  "ep_" +:+ sha256_hex (as_bytes device_id ++ as_bytes "|" ++ as_bytes (epp_kind endpoint) ++
    as_bytes "|" ++ as_bytes (epp_address endpoint) ++ as_bytes "|" ++
    as_bytes (dec (epp_port endpoint)) ++ as_bytes "|" ++ as_bytes (epp_protocol endpoint) ++
    as_bytes "|" ++ as_bytes source).

(** ** Queries *)

Definition live (r : DeviceRow) : bool := bool_decide (d_deleted_at r = None).

Definition device_summary (r : DeviceRow) : DeviceSummary :=
  mkDeviceSummary (d_id r) (d_hostname r) (d_ipv4 r) (d_os r) (d_arch r) (d_backend_type r)
    (d_last_seen_at r).

Definition dns_record (r : DnsRow) : DnsRecord :=
  mkDnsRecord (r_device_id r) (r_name r) (r_type r) (r_value r).

(** [ORDER BY name ASC, type ASC] *)
Definition dns_order (x y : DnsRow) : bool :=
  if bool_decide (r_name x = r_name y) then str_leb (r_type x) (r_type y)
  else str_leb (r_name x) (r_name y).

Definition load_dns_records : M (list DnsRecord) :=
  query (fun d => map dns_record (sort_by dns_order (dns_records d))).

(** [row.get::<i64>("port") as u16], [value as i32] *)
Definition as_u16 (z : Z) : Z := (z mod 65536)%Z.
Definition as_i32 (z : Z) : Z := ((z + 2147483648) mod 4294967296 - 2147483648)%Z.

Definition endpoint_payload (r : EndpointRow) : EndpointPayload :=
  mkEndpointPayload (e_kind r) (e_address r) (as_u16 (e_port r)) (e_protocol r) (e_source r)
    (as_i32 <$> e_priority r) (e_expires_at r).

Definition endpoint_order (x y : EndpointRow) : bool :=
  if bool_decide (e_kind x = e_kind y) then str_leb (e_address x) (e_address y)
  else str_leb (e_kind x) (e_kind y).

(** [expires_at <= CURRENT_TIMESTAMP]: texts are compared byte by byte. *)
Definition expired (now : Z) (r : EndpointRow) : bool :=
  match e_expires_at r with Some t => str_leb t (timestamp now) | None => false end.

Definition load_endpoints (now : Z) (device_id : string) : M (list EndpointPayload) :=
  query (fun d => map endpoint_payload (sort_by endpoint_order
    (List.filter (fun r => bool_decide (e_device_id r = device_id) && negb (expired now r))
       (endpoints d)))).

Definition epoch_sum (l : list string) : Z :=
  foldr (fun t acc => default 0 (unixepoch t) + acc)%Z 0%Z l.

Definition network_map_version : M Z :=
  query (fun d =>
    let live_devices := List.filter live (devices d) in
    (Z.of_nat (length live_devices) + epoch_sum (map d_updated_at live_devices) +
     Z.of_nat (length (endpoints d)) + epoch_sum (map e_last_seen_at (endpoints d)) +
     Z.of_nat (length (dns_records d)) + epoch_sum (map r_updated_at (dns_records d)))%Z).

Definition find_existing_device (machine_key : string) : M (option RegisterDeviceResponse) :=
  query (fun d =>
    (fun r => mkRegisterDeviceResponse (d_id r) (d_node_key r) (d_ipv4 r) (d_network_id r) 5) <$>
    List.find (fun r => bool_decide (d_machine_key r = machine_key) && live r) (devices d)).

Definition validate_device_node_key (device_id node_key : string) : M unit :=
  row ← query (fun d => List.find (fun r => bool_decide (d_id r = device_id) &&
                          bool_decide (d_node_key r = node_key) && live r) (devices d));
  match row with
  | None => raise (unauthorized "invalid device credentials")
  | Some _ => mret tt
  end.

Definition validate_auth_key (auth_key : string) : M unit :=
  row ← query (fun d => List.find (fun r => bool_decide (ak_key_hash r = hash_secret auth_key))
                          (auth_keys d));
  match row with
  | None => raise (unauthorized "invalid auth key")
  | Some row =>
      if bool_decide (is_Some (ak_revoked_at row)) then raise (unauthorized "auth key revoked")
      else if (ak_reusable row =? 0)%Z && bool_decide (is_Some (ak_used_at row)) then
        raise (unauthorized "auth key already used")
      else mret tt
  end.

Definition allocate_ipv4 : M string :=
  count ← query (fun d => Z.of_nat (length (ip_allocations d)));
  let host_octet := (count + 2)%Z in
  if (254 <? host_octet)%Z then raise (internal "default MVP address pool is exhausted")
  else mret ("100.64.0." +:+ dec host_octet).

(** [load_device_summary] and [load_device_summary_tx]: the same query on the
    pool and inside a transaction. *)
Definition load_device_summary (device_id : string) : M DeviceSummary :=
  row ← query (fun d => List.find (fun r => bool_decide (d_id r = device_id) && live r) (devices d));
  match row with
  | None => raise (not_found "device not found")
  | Some row => mret (device_summary row)
  end.

(** ** DNS names *)

Definition dns_name_available (network_id device_id name : string) : M bool :=
  query (fun d => negb (existsb (fun r => bool_decide (r_network_id r = network_id) &&
    bool_decide (lower (r_name r) = lower name) && bool_decide (r_type r = "A") &&
    negb (bool_decide (r_device_id r = device_id))) (dns_records d))).

(** The loop [for attempt in 2..=99]. *)
Fixpoint try_attempts (network_id device_id hostname suffix : string) (attempts : list nat)
    : M string :=
  match attempts with
  | [] => raise (conflict "could not allocate unique DNS name for hostname")
  | attempt :: rest =>
      let candidate := dns_name (hostname +:+ "-" +:+ suffix +:+ "-" +:+ dec (Z.of_nat attempt)) in
      available ← dns_name_available network_id device_id candidate;
      if available : bool then mret candidate
      else try_attempts network_id device_id hostname suffix rest
  end.

Definition available_dns_name (network_id device_id hostname : string) : M string :=
  let base_name := dns_name hostname in
  available ← dns_name_available network_id device_id base_name;
  if available : bool then mret base_name
  else
    let suffix := device_dns_suffix device_id in
    let suffixed_name := dns_name (hostname +:+ "-" +:+ suffix) in
    available ← dns_name_available network_id device_id suffixed_name;
    if available : bool then mret suffixed_name
    else try_attempts network_id device_id hostname suffix (seq 2 98).

Definition upsert_device_dns_record (now : Z) (uuid : string)
    (network_id device_id hostname ipv4 : string) : M unit :=
  name ← available_dns_name network_id device_id hostname;
  upsert_dns (mkDnsRow (new_id "dns" uuid) network_id device_id name "A" ipv4
                (timestamp now) (timestamp now)).

(** ** Handlers *)

Definition create_auth_key (now : Z) (uuid1 uuid2 : string) : M CreateAuthKeyResponse :=
  let id := new_id "ak" uuid1 in
  let key := new_id "tfk" uuid2 in
  _ ← insert_auth_key (mkAuthKeyRow id (hash_secret key) None None None 0 (timestamp now) None);
  mret (mkCreateAuthKeyResponse id key).

Definition list_devices : M (list DeviceSummary) :=
  query (fun d => map device_summary
    (sort_by (fun x y => str_leb (d_hostname x) (d_hostname y)) (List.filter live (devices d)))).

Definition list_dns_records : M (list DnsRecord) :=
  query (fun d => map dns_record (sort_by dns_order (dns_records d))).

Definition list_relays (state : AppState) : list RelayMetadata := relays state.

Definition set_deleted (now : Z) (r : DeviceRow) : DeviceRow :=
  mkDeviceRow (d_id r) (d_network_id r) (d_hostname r) (d_machine_key r) (d_node_key r)
    (d_backend_type r) (d_backend_public_credential r) (d_ipv4 r) (d_os r) (d_arch r)
    (d_client_version r) (d_last_seen_at r) (d_created_at r) (timestamp now) (Some (timestamp now)).
Definition set_hostname (now : Z) (hostname : string) (r : DeviceRow) : DeviceRow :=
  mkDeviceRow (d_id r) (d_network_id r) hostname (d_machine_key r) (d_node_key r)
    (d_backend_type r) (d_backend_public_credential r) (d_ipv4 r) (d_os r) (d_arch r)
    (d_client_version r) (d_last_seen_at r) (d_created_at r) (timestamp now) (d_deleted_at r).
Definition set_seen (now : Z) (r : DeviceRow) : DeviceRow :=
  mkDeviceRow (d_id r) (d_network_id r) (d_hostname r) (d_machine_key r) (d_node_key r)
    (d_backend_type r) (d_backend_public_credential r) (d_ipv4 r) (d_os r) (d_arch r)
    (d_client_version r) (Some (timestamp now)) (d_created_at r) (timestamp now) (d_deleted_at r).

(** [UPDATE devices SET .. WHERE id = ? AND deleted_at IS NULL], with the number
    of rows affected. *)
Definition update_device (device_id : string) (f : DeviceRow -> DeviceRow) : M nat := fun d =>
  let p r := bool_decide (d_id r = device_id) && live r in
  (Ok (count_where p (devices d)), set_devices d (update_where p f (devices d))).

Definition delete_device (now : Z) (device_id : string) : M Z :=
  transaction (
    affected ← update_device device_id (set_deleted now);
    if (affected =? 0)%nat then raise (not_found "device not found")
    else
      _ ← modify (fun d => set_dns_records d
            (List.filter (fun r => negb (bool_decide (r_device_id r = device_id))) (dns_records d)));
      mret 204%Z).

Definition rename_device (now : Z) (uuid : string) (device_id : string) (request : RenameDeviceRequest)
    : M DeviceSummary :=
  hostname ← lift (normalize_hostname (rn_hostname request));
  _ ← transaction (
    affected ← update_device device_id (set_hostname now hostname);
    if (affected =? 0)%nat then raise (not_found "device not found")
    else
      device ← load_device_summary device_id;
      upsert_device_dns_record now uuid NET_DEFAULT (ds_id device) (ds_hostname device)
        (ds_ipv4 device));
  load_device_summary device_id.

(** The UUID texts a registration draws. *)
Record RegisterIds : Type := mkRegisterIds {
  u_device : string; u_node : string; u_dns : string; u_ip : string }.

(** The part of [register_device] inside the transaction. *)
Definition register_commit (now : Z) (ids : RegisterIds) (request : RegisterDeviceRequest)
    (hostname ipv4 : string) : M RegisterDeviceResponse :=
  let device_id := new_id "dev" (u_device ids) in
  let node_key := new_id "node" (u_node ids) in
  transaction (
    _ ← insert_device (mkDeviceRow device_id NET_DEFAULT hostname (rd_machine_key request) node_key
          (rd_backend_type request) (rd_backend_public_credential request) ipv4 (rd_os request)
          (rd_arch request) (rd_client_version request) (Some (timestamp now)) (timestamp now)
          (timestamp now) None);
    _ ← upsert_device_dns_record now (u_dns ids) NET_DEFAULT device_id hostname ipv4;
    _ ← insert_ip_allocation (mkIpRow (new_id "ip" (u_ip ids)) NET_DEFAULT device_id ipv4
          "assigned" (timestamp now) None);
    _ ← modify (fun d => set_auth_keys d
          (update_where (fun r => bool_decide (ak_key_hash r = hash_secret (rd_auth_key request)))
            (fun r => mkAuthKeyRow (ak_id r) (ak_key_hash r) (ak_description r) (ak_expires_at r)
                        (Some (default (timestamp now) (ak_used_at r))) (ak_reusable r)
                        (ak_created_at r) (ak_revoked_at r)) (auth_keys d)));
    mret (mkRegisterDeviceResponse device_id node_key ipv4 NET_DEFAULT 5)).

Definition register_device (now : Z) (ids : RegisterIds) (request : RegisterDeviceRequest)
    : M RegisterDeviceResponse :=
  existing ← find_existing_device (rd_machine_key request);
  match existing with
  | Some existing => mret existing
  | None =>
      _ ← validate_auth_key (rd_auth_key request);
      hostname ← lift (normalize_hostname (rd_hostname request));
      ipv4 ← allocate_ipv4;
      register_commit now ids request hostname ipv4
  end.

(** The row of a reported endpoint. *)
Definition endpoint_row (now : Z) (device_id : string) (endpoint : EndpointPayload) : EndpointRow :=
  let source := default "local" (epp_source endpoint) in
  mkEndpointRow (endpoint_id device_id endpoint source) device_id (epp_kind endpoint)
    (epp_address endpoint) (epp_port endpoint) (epp_protocol endpoint) (Some source) None
    (timestamp now) (epp_priority endpoint)
    (match epp_expires_at endpoint with
     | Some t => Some t
     | None => if negb (bool_decide (source = "local")) then Some (timestamp (now + 60)) else None
     end).

Fixpoint upsert_endpoints (now : Z) (device_id : string) (l : list EndpointPayload) : M unit :=
  match l with
  | [] => mret tt
  | endpoint :: l =>
      _ ← upsert_endpoint (endpoint_row now device_id endpoint);
      upsert_endpoints now device_id l
  end.

Definition heartbeat (now : Z) (request : HeartbeatRequest) : M HeartbeatResponse :=
  _ ← validate_device_node_key (hb_device_id request) (hb_node_key request);
  _ ← transaction (
    _ ← update_device (hb_device_id request) (set_seen now);
    _ ← modify (fun d => set_endpoints d
          (List.filter (fun r => negb (bool_decide (e_device_id r = hb_device_id request) &&
                                       expired now r)) (endpoints d)));
    upsert_endpoints now (hb_device_id request) (hb_endpoints request));
  version ← network_map_version;
  mret (mkHeartbeatResponse true version).

Definition endpoint_probe (state : AppState) (addr : SocketAddr) (request : EndpointProbeRequest)
    : M EndpointProbeResponse :=
  _ ← validate_device_node_key (epq_device_id request) (epq_node_key request);
  if negb (bool_decide (epq_protocol request = "udp")) then
    raise (bad_request "only udp endpoint probing is supported")
  else
    mret (mkEndpointProbeResponse (ip_to_string (ip addr)) (sa_port addr) (epq_protocol request)
            (Some (ip_to_string (ip (udp_probe_addr state)))) (Some (sa_port (udp_probe_addr state)))).

(** The loop over the peer rows of [network_map]. *)
Fixpoint load_peers (now : Z) (rows : list DeviceRow) : M (list NetworkMapPeer) :=
  match rows with
  | [] => mret []
  | row :: rows =>
      endpoints ← load_endpoints now (d_id row);
      peers ← load_peers now rows;
      mret (mkNetworkMapPeer (d_id row) (d_hostname row) (d_ipv4 row) (d_backend_type row)
              (d_backend_public_credential row) endpoints [d_ipv4 row +:+ "/32"] :: peers)
  end.

Definition network_map (now : Z) (state : AppState) (q : NetworkMapQuery) : M NetworkMapResponse :=
  _ ← validate_device_node_key (nmq_device_id q) (nmq_node_key q);
  self_row ← query (fun d => List.find (fun r => bool_decide (d_id r = nmq_device_id q) && live r)
                               (devices d));
  match self_row with
  | None => raise row_not_found
  | Some self_row =>
      peer_rows ← query (fun d => sort_by (fun x y => str_leb (d_hostname x) (d_hostname y))
        (List.filter (fun r => negb (bool_decide (d_id r = nmq_device_id q)) && live r) (devices d)));
      peers ← load_peers now peer_rows;
      version ← network_map_version;
      records ← load_dns_records;
      mret (mkNetworkMapResponse version
              (mkNetworkMapSelf (d_id self_row) (d_hostname self_row) (d_ipv4 self_row)
                 (d_backend_type self_row)) peers records (relays state))
  end.

End handlers.

(** ** The UDP probe ([run_udp_endpoint_probe]) *)

Definition PROBE_REQUEST : string := "tfscale-public-probe-v1".

(** One turn of the loop: the reply to a datagram, if any. *)
Definition udp_probe_turn (datagram : list Z) (source : SocketAddr) : option (list Z) :=
  if bool_decide (take 256 datagram = as_bytes PROBE_REQUEST) then
    Some (as_bytes (PROBE_REQUEST +:+ " " +:+ ip_to_string (ip source) +:+ " " +:+ dec (sa_port source)))
  else None.

(** ** Migrations *)

Record Migration : Type := mkMigration { mig_version : Z; mig_name : string; mig_sql : string }.

(** The texts of [migrations/*.sql]. *)
Definition sql_0001 : string :=
"CREATE TABLE IF NOT EXISTS auth_keys (
    id TEXT PRIMARY KEY,
    key_hash TEXT NOT NULL UNIQUE,
    description TEXT,
    expires_at TEXT,
    used_at TEXT,
    reusable INTEGER NOT NULL DEFAULT 0,
    created_at TEXT NOT NULL DEFAULT CURRENT_TIMESTAMP,
    revoked_at TEXT
);

CREATE TABLE IF NOT EXISTS devices (
    id TEXT PRIMARY KEY,
    network_id TEXT NOT NULL,
    hostname TEXT NOT NULL,
    machine_key TEXT NOT NULL UNIQUE,
    node_key TEXT NOT NULL,
    backend_type TEXT NOT NULL,
    backend_public_credential TEXT NOT NULL,
    ipv4 TEXT NOT NULL UNIQUE,
    os TEXT NOT NULL,
    arch TEXT NOT NULL,
    client_version TEXT NOT NULL,
    last_seen_at TEXT,
    created_at TEXT NOT NULL DEFAULT CURRENT_TIMESTAMP,
    updated_at TEXT NOT NULL DEFAULT CURRENT_TIMESTAMP,
    deleted_at TEXT
);

CREATE TABLE IF NOT EXISTS ip_allocations (
    id TEXT PRIMARY KEY,
    network_id TEXT NOT NULL,
    device_id TEXT NOT NULL,
    ip TEXT NOT NULL UNIQUE,
    state TEXT NOT NULL,
    created_at TEXT NOT NULL DEFAULT CURRENT_TIMESTAMP,
    released_at TEXT
);

CREATE TABLE IF NOT EXISTS network_backends (
    id TEXT PRIMARY KEY,
    network_id TEXT NOT NULL,
    backend_type TEXT NOT NULL,
    capabilities TEXT NOT NULL DEFAULT '{}',
    config TEXT NOT NULL DEFAULT '{}',
    created_at TEXT NOT NULL DEFAULT CURRENT_TIMESTAMP,
    updated_at TEXT NOT NULL DEFAULT CURRENT_TIMESTAMP
);

CREATE TABLE IF NOT EXISTS endpoints (
    id TEXT PRIMARY KEY,
    device_id TEXT NOT NULL,
    kind TEXT NOT NULL,
    address TEXT NOT NULL,
    port INTEGER NOT NULL,
    protocol TEXT NOT NULL,
    source TEXT,
    latency_ms INTEGER,
    last_seen_at TEXT NOT NULL DEFAULT CURRENT_TIMESTAMP
);
".

Definition sql_0002 : string :=
"ALTER TABLE endpoints ADD COLUMN priority INTEGER;
ALTER TABLE endpoints ADD COLUMN expires_at TEXT;
".

Definition sql_0003 : string :=
"CREATE TABLE IF NOT EXISTS dns_records (
    id TEXT PRIMARY KEY,
    network_id TEXT NOT NULL,
    device_id TEXT NOT NULL,
    name TEXT NOT NULL,
    type TEXT NOT NULL,
    value TEXT NOT NULL,
    created_at TEXT NOT NULL DEFAULT CURRENT_TIMESTAMP,
    updated_at TEXT NOT NULL DEFAULT CURRENT_TIMESTAMP
);

CREATE UNIQUE INDEX IF NOT EXISTS idx_dns_records_network_name_type
ON dns_records(network_id, lower(name), type);

CREATE UNIQUE INDEX IF NOT EXISTS idx_dns_records_device_type
ON dns_records(device_id, type);
".

Definition sql_0004 : string :=
"CREATE INDEX IF NOT EXISTS idx_endpoints_device_expiry
ON endpoints (device_id, expires_at);
".

Definition MIGRATIONS : list Migration :=
  [mkMigration 1 "initial" sql_0001; mkMigration 2 "endpoint_metadata" sql_0002;
   mkMigration 3 "dns_records" sql_0003; mkMigration 4 "endpoint_lookup_index" sql_0004].

Definition migration_statements (sql : string) : list string :=
  List.filter (fun s => negb (is_empty s)) (map trim (split 59 sql)).

Section migrations.
(** Executing a statement on the rest of the database, [None] on an error. *)
Context {S : Type} (execute : string -> S -> option S).

(** The rows of [schema_migrations] and the rest of the database. *)
Definition schema : Type := list (Z * string) * S.

Definition migration_applied (s : schema) (version : Z) : bool :=
  existsb (fun row => (fst row =? version)%Z) (fst s).

Fixpoint execute_all (statements : list string) (s : S) : option S :=
  match statements with
  | [] => Some s
  | statement :: rest => s ← execute statement s; execute_all rest s
  end.

(** The loop over the migrations: [true] when all of them were applied, [false]
    when one failed (its transaction is rolled back). *)
Fixpoint apply_migrations (migrations : list Migration) (s : schema) : bool * schema :=
  match migrations with
  | [] => (true, s)
  | m :: rest =>
      if migration_applied s (mig_version m) then apply_migrations rest s
      else
        match execute_all (migration_statements (mig_sql m)) (snd s) with
        | Some s' => apply_migrations rest (fst s ++ [(mig_version m, mig_name m)], s')
        | None => (false, s)
        end
  end.

(** [init_schema], after the table of migrations was created. *)
Definition init_schema (s : schema) : bool * schema := apply_migrations MIGRATIONS s.
End migrations.
