(* ===== verification/ControlInv.v ===== *)
(** * Control plane: the database invariant

    What the rows of the database satisfy after any sequence of requests, also
    when requests run concurrently: the reads of a registration happen before
    its transaction, so its commit works with an address chosen earlier. *)

From Stdlib Require Import ZArith Lia.
From stdpp Require Import prelude list strings gmap.
From S2P Require Import Prelude RustStd Protocol ControlDb Control.

(** The [k]-th address of the pool. *)
Definition pool_ip (k : nat) : string := "100.64.0." +:+ dec (Z.of_nat k + 2).

Lemma pool_ip_inj j k : pool_ip j = pool_ip k -> j = k.
Proof. unfold pool_ip. intros H%(inj (String.append _))%dec_inj; lia. Qed.

Record db_inv (d : db) : Prop := mk_db_inv {
  inv_key_hashes : NoDup (ak_key_hash <$> auth_keys d);
  inv_device_ids : NoDup (d_id <$> devices d);
  inv_machine_keys : NoDup (d_machine_key <$> devices d);
  inv_device_ips : d_ipv4 <$> devices d = pool_ip <$> seq 0 (length (devices d));
  inv_allocations : ip_ip <$> ip_allocations d = d_ipv4 <$> devices d;
  inv_pool : (length (devices d) <= 253)%nat;
  inv_endpoints : NoDup (e_id <$> endpoints d);
  inv_dns_devices : NoDup (r_device_id <$> dns_records d);
  inv_dns_names : NoDup ((fun r => lower (r_name r)) <$> dns_records d);
  inv_dns_live : forall r, r ∈ dns_records d ->
    r_type r = "A" /\ r_network_id r = NET_DEFAULT /\
    exists v, v ∈ devices d /\ live v = true /\ d_id v = r_device_id r /\ d_ipv4 v = r_value r;
  inv_live_dns : forall v, v ∈ devices d -> live v = true -> d_id v ∈ r_device_id <$> dns_records d;
}.

Lemma db_inv_empty : db_inv empty_db.
Proof.
  split; simpl; try apply NoDup_nil_2; try done; try lia.
  all: intros ? H; by apply elem_of_nil in H.
Qed.

(** Changes of other columns. *)
Lemma db_inv_auth_keys d x :
  db_inv d -> NoDup (ak_key_hash <$> x) -> db_inv (set_auth_keys d x).
Proof. intros [] ?. by split. Qed.

Lemma db_inv_endpoints d x : db_inv d -> NoDup (e_id <$> x) -> db_inv (set_endpoints d x).
Proof. intros [] ?. by split. Qed.

(** Updating live devices without touching their keys and addresses. *)
Lemma db_inv_update_devices d p f :
  db_inv d ->
  (forall v, d_id (f v) = d_id v /\ d_machine_key (f v) = d_machine_key v /\
             d_ipv4 (f v) = d_ipv4 v /\ live (f v) = live v) ->
  db_inv (set_devices d (update_where p f (devices d))).
Proof.
  intros [] Hf.
  assert (length (update_where p f (devices d)) = length (devices d)) as HL
    by (unfold update_where; by rewrite length_map).
  split; simpl; rewrite ?HL, ?fmap_update_where; try done; try (intros; apply Hf).
  - intros r Hr. destruct (inv_dns_live0 r Hr) as (Ht & Hn & v & Hv & Hl & Hid & Hip).
    split_and!; [done..|]. exists (if p v then f v else v). split.
    + apply elem_of_update_where. eauto.
    + destruct (Hf v) as (? & ? & ? & ?). destruct (p v); split_and!; congruence.
  - intros v (w & Hw & ->)%elem_of_update_where Hl. destruct (Hf w) as (? & ? & ? & ?).
    assert (live w = true) by (destruct (p w); congruence).
    replace (d_id (if p w then f w else w)) with (d_id w) by (destruct (p w); congruence). auto.
Qed.

Section invariant.
Context `{E : ControlEnv}.

(** ** DNS names *)

(** No other device of the network uses the name. *)
Definition name_free (d : db) (network_id device_id name : string) : Prop :=
  forall r, r ∈ dns_records d -> r_network_id r = network_id -> r_type r = "A" ->
    r_device_id r <> device_id -> lower (r_name r) <> lower name.

Lemma dns_name_available_true d net dev name d' :
  dns_name_available net dev name d = (Ok true, d') -> d' = d /\ name_free d net dev name.
Proof.
  unfold dns_name_available, query. intros [= Hb <-]. split; [done|].
  apply negb_true_iff in Hb. intros r Hr Hn Ht Hd Hl.
  assert (existsb (fun r => bool_decide (r_network_id r = net) &&
    bool_decide (lower (r_name r) = lower name) && bool_decide (r_type r = "A") &&
    negb (bool_decide (r_device_id r = dev))) (dns_records d) = true); [|congruence].
  apply existsb_exists. exists r. split; [by apply list_elem_of_In|].
  rewrite !bool_decide_eq_true_2, bool_decide_eq_false_2 by done. done.
Qed.

Lemma dns_name_available_read d net dev name r d' :
  dns_name_available net dev name d = (r, d') -> d' = d.
Proof. unfold dns_name_available, query. by intros [= <- <-]. Qed.

Lemma try_attempts_spec d net dev host suffix attempts r d' :
  try_attempts net dev host suffix attempts d = (r, d') ->
  d' = d /\ match r with
            | Ok name => name_free d net dev name
            | Err e => e = conflict "could not allocate unique DNS name for hostname"
            | Panic => False
            end.
Proof.
  induction attempts as [|a rest IH]; simpl.
  - unfold raise. by intros [= <- <-].
  - unfold mbind, M_bind. set (c := dns_name _).
    destruct (dns_name_available net dev c d) as [r1 d1] eqn:Ea.
    pose proof (dns_name_available_read _ _ _ _ _ _ Ea) as ->.
    destruct r1 as [[]|e|]; [|exact IH|unfold dns_name_available, query in Ea; done..].
    intros [= <- <-]. by apply dns_name_available_true in Ea as [_ ?].
Qed.

Lemma available_dns_name_spec d net dev host r d' :
  available_dns_name net dev host d = (r, d') ->
  d' = d /\ match r with
            | Ok name => name_free d net dev name
            | Err e => e = conflict "could not allocate unique DNS name for hostname"
            | Panic => False
            end.
Proof.
  unfold available_dns_name. unfold mbind, M_bind.
  destruct (dns_name_available net dev (dns_name host) d) as [r1 d1] eqn:E1.
  pose proof (dns_name_available_read _ _ _ _ _ _ E1) as ->.
  destruct r1 as [[]|e|]; [| |unfold dns_name_available, query in E1; done..].
  { intros [= <- <-]. by apply dns_name_available_true in E1 as [_ ?]. }
  set (c := dns_name (host +:+ _)).
  destruct (dns_name_available net dev c d) as [r2 d2] eqn:E2.
  pose proof (dns_name_available_read _ _ _ _ _ _ E2) as ->.
  destruct r2 as [[]|e|]; [| |unfold dns_name_available, query in E2; done..].
  { intros [= <- <-]. by apply dns_name_available_true in E2 as [_ ?]. }
  apply try_attempts_spec.
Qed.

(** The DNS table on its own: one record per device, names unique up to letter
    case, all of type A in the default network. *)
Definition dns_ok (l : list DnsRow) : Prop :=
  NoDup (r_device_id <$> l) /\ NoDup ((fun r => lower (r_name r)) <$> l) /\
  Forall (fun r => r_type r = "A" /\ r_network_id r = NET_DEFAULT) l.

Lemma db_inv_dns_ok d : db_inv d -> dns_ok (dns_records d).
Proof.
  intros []. split_and!; [done..|]. apply Forall_forall. intros r Hr.
  by destruct (inv_dns_live0 r Hr) as (? & ? & _).
Qed.

Lemma same_device_type_iff l row r :
  dns_ok l -> r_type row = "A" -> r ∈ l ->
  same_device_type row r = true <-> r_device_id r = r_device_id row.
Proof.
  intros (_ & _ & Hall) Ht Hr. apply (proj1 (Forall_forall _ _) Hall) in Hr as [Htr _].
  unfold same_device_type, same. rewrite andb_true_iff, !bool_decide_eq_true. naive_solver congruence.
Qed.

Definition set_record (row r : DnsRow) : DnsRow :=
  mkDnsRow (r_id r) (r_network_id r) (r_device_id r) (r_name row) (r_type r) (r_value row)
    (r_created_at r) (r_updated_at row).

(** The DNS table after the record of a device was inserted or changed. *)
Definition dns_upserted (row : DnsRow) (old new : list DnsRow) : Prop :=
  (r_device_id row ∈ r_device_id <$> old /\
     new = update_where (same_device_type row) (set_record row) old) \/
  (r_device_id row ∉ r_device_id <$> old /\ new = old ++ [row]).

Lemma existsb_same_device_type l row :
  dns_ok l -> r_type row = "A" ->
  existsb (same_device_type row) l = bool_decide (r_device_id row ∈ r_device_id <$> l).
Proof.
  intros Hi Ht. apply eq_true_iff_eq. rewrite existsb_exists, bool_decide_eq_true, list_elem_of_fmap.
  split.
  - intros (r & Hr%list_elem_of_In & Hs). apply (same_device_type_iff l) in Hs; eauto.
  - intros (r & Heq & Hr). exists r. split; [by apply list_elem_of_In|].
    by apply (same_device_type_iff l).
Qed.

Lemma upsert_dns_Ok d row d' :
  dns_ok (dns_records d) -> r_type row = "A" -> upsert_dns row d = (Ok tt, d') ->
  exists new, d' = set_dns_records d new /\ dns_upserted row (dns_records d) new.
Proof.
  intros Hi Ht. unfold upsert_dns, dns_upserted. rewrite existsb_same_device_type by done.
  case_bool_decide as Hin.
  - destruct (existsb _ _); [done|]. intros [= <-]. eauto.
  - destruct (insert_row _ _ _) eqn:Hr; try done. intros [= <-].
    apply insert_row_Ok in Hr as [-> _]. eauto.
Qed.

(** A record with a free name and a fresh id is never refused. *)
Lemma upsert_dns_total d row :
  dns_ok (dns_records d) -> r_type row = "A" -> r_network_id row = NET_DEFAULT ->
  r_id row ∉ r_id <$> dns_records d ->
  name_free d NET_DEFAULT (r_device_id row) (r_name row) ->
  exists d', upsert_dns row d = (Ok tt, d').
Proof.
  intros Hi Ht Hn Hid Hfree. unfold upsert_dns. rewrite existsb_same_device_type by done.
  assert (forall r, r ∈ dns_records d -> r_device_id r <> r_device_id row ->
    lower (r_name r) <> lower (r_name row)) as Hne.
  { intros r Hr Hd. apply Hfree; try done; apply (proj1 (Forall_forall _ _) (proj2 (proj2 Hi))) in Hr as []; done. }
  case_bool_decide as Hin.
  - destruct (existsb _ _) eqn:Hx; [|by eexists].
    apply existsb_exists in Hx as (r & Hr & Hx). apply existsb_exists in Hx as (r' & Hr' & Hs).
    apply list_elem_of_In, elem_of_bfilter in Hr' as [Hr' Hdt].
    unfold same_name in Hs. to_prop. simpl in *. exfalso. apply (Hne r' Hr'); [|done].
    intros Heq. apply (same_device_type_iff (dns_records d) row) in Heq; [congruence|done..].
  - rewrite insert_row_free; [by eexists|]. repeat constructor; simpl.
    + by apply same_false.
    + apply not_true_iff_false. intros (r & Hr%list_elem_of_In & Hs)%existsb_exists.
      unfold same_name in Hs. to_prop. apply (Hne r Hr); [|done].
      intros Heq. apply Hin. rewrite <- Heq. by apply list_elem_of_fmap_2.
    + rewrite existsb_same_device_type by done. by apply bool_decide_eq_false.
Qed.

Lemma elem_of_dns_upserted row old new r :
  dns_ok old -> r_type row = "A" -> dns_upserted row old new -> r ∈ new ->
  (r ∈ old /\ r_device_id r <> r_device_id row) \/
  (r_device_id r = r_device_id row /\ r_value r = r_value row /\ r_name r = r_name row /\
   (r = row \/ exists r', r' ∈ old /\ r = set_record row r')).
Proof.
  intros Hi Ht [[Hin ->]|[Hout ->]] Hr.
  - apply elem_of_update_where in Hr as (r' & Hr' & ->).
    destruct (same_device_type row r') eqn:Es.
    + apply (same_device_type_iff old) in Es; [|done..]. right. simpl. eauto 10.
    + left. split; [done|]. intros Heq. apply (same_device_type_iff old row) in Heq; [congruence|done..].
  - apply elem_of_app in Hr as [Hr| ->%list_elem_of_singleton]; [left|right; auto].
    split; [done|]. intros Heq. apply Hout. rewrite <- Heq. by apply list_elem_of_fmap_2.
Qed.

Lemma dns_upserted_devices row old new :
  dns_upserted row old new ->
  forall x, x ∈ r_device_id <$> new <-> x ∈ r_device_id <$> old \/ x = r_device_id row.
Proof.
  intros [[Hin ->]|[Hout ->]] x.
  - rewrite fmap_update_where by done. naive_solver.
  - rewrite fmap_app, elem_of_app. simpl. by rewrite list_elem_of_singleton.
Qed.

(** At most one record changes, so that a free name keeps the names unique. *)
Lemma dns_upserted_ok d row new :
  dns_ok (dns_records d) -> r_type row = "A" -> r_network_id row = NET_DEFAULT ->
  name_free d NET_DEFAULT (r_device_id row) (r_name row) ->
  dns_upserted row (dns_records d) new -> dns_ok new.
Proof.
  intros Hi Ht Hn Hfree Hu. pose proof Hi as (Hd & Hnm & Hall).
  assert (forall r, r ∈ dns_records d -> r_device_id r <> r_device_id row ->
    lower (r_name r) <> lower (r_name row)) as Hne.
  { intros r Hr Hd'. apply Hfree; try done; apply (proj1 (Forall_forall _ _) Hall) in Hr as []; done. }
  assert (NoDup (r_device_id <$> new)) as Hdn.
  { destruct Hu as [[Hin ->]|[Hout ->]]; [by rewrite fmap_update_where|].
    rewrite fmap_app. by apply NoDup_snoc. }
  split_and!; [done| |].
  - apply (NoDup_fmap_determines r_device_id); [done|]. intros x y Hx Hy Hl.
    destruct (elem_of_dns_upserted row _ new x Hi Ht Hu Hx) as [[Hx' Hdx]|(Hdx & _ & Hnx & _)];
      destruct (elem_of_dns_upserted row _ new y Hi Ht Hu Hy) as [[Hy' Hdy]|(Hdy & _ & Hny & _)].
    + f_equal. by apply (NoDup_fmap_inj (fun r => lower (r_name r)) (dns_records d)).
    + rewrite Hny in Hl. by apply Hne in Hl.
    + rewrite Hnx in Hl. by apply eq_sym, Hne in Hl.
    + congruence.
  - apply Forall_forall. intros r Hr. rewrite Forall_forall in Hall.
    destruct (elem_of_dns_upserted row _ new r Hi Ht Hu Hr) as [[? _]|(_ & _ & _ & [->|(r' & Hr' & ->)])];
      [auto|done|by apply (Hall r')].
Qed.

(** ** Registration *)

(** The rows a registration writes. *)
Definition new_device (now : Z) (ids : RegisterIds) (request : RegisterDeviceRequest)
    (hostname ipv4 : string) : DeviceRow :=
  mkDeviceRow (new_id "dev" (u_device ids)) NET_DEFAULT hostname (rd_machine_key request)
    (new_id "node" (u_node ids)) (rd_backend_type request) (rd_backend_public_credential request)
    ipv4 (rd_os request) (rd_arch request) (rd_client_version request) (Some (timestamp now))
    (timestamp now) (timestamp now) None.

Definition mark_used (now : Z) (auth_key : string) (rows : list AuthKeyRow) : list AuthKeyRow :=
  update_where (fun r => bool_decide (ak_key_hash r = hash_secret auth_key))
    (fun r => mkAuthKeyRow (ak_id r) (ak_key_hash r) (ak_description r) (ak_expires_at r)
                (Some (default (timestamp now) (ak_used_at r))) (ak_reusable r)
                (ak_created_at r) (ak_revoked_at r)) rows.

Definition registered_response (ids : RegisterIds) (ipv4 : string) : RegisterDeviceResponse :=
  mkRegisterDeviceResponse (new_id "dev" (u_device ids)) (new_id "node" (u_node ids)) ipv4 NET_DEFAULT 5.

Lemma register_commit_Ok now ids request hostname ipv4 d resp d' :
  db_inv d -> register_commit now ids request hostname ipv4 d = (Ok resp, d') ->
  exists name,
    resp = registered_response ids ipv4 /\
    let v := new_device now ids request hostname ipv4 in
    auth_keys d' = mark_used now (rd_auth_key request) (auth_keys d) /\
    devices d' = devices d ++ [v] /\
    ip_allocations d' = ip_allocations d ++
      [mkIpRow (new_id "ip" (u_ip ids)) NET_DEFAULT (d_id v) ipv4 "assigned" (timestamp now) None] /\
    endpoints d' = endpoints d /\
    dns_records d' = dns_records d ++
      [mkDnsRow (new_id "dns" (u_dns ids)) NET_DEFAULT (d_id v) name "A" ipv4 (timestamp now) (timestamp now)] /\
    name_free d NET_DEFAULT (d_id v) name /\
    d_id v ∉ d_id <$> devices d /\ d_machine_key v ∉ d_machine_key <$> devices d /\
    d_ipv4 v ∉ d_ipv4 <$> devices d.
Proof.
  intros Hi H. unfold register_commit in H. apply transaction_Ok in H.
  fold (new_device now ids request hostname ipv4) in H. set (v := new_device _ _ _ _ _) in *.
  apply M_bind_Ok in H as ([] & d1 & H1 & H).
  unfold insert_device in H1. destruct (insert_row _ _ _) eqn:Hr; try done. injection H1 as <-.
  apply insert_row_Ok in Hr as [-> Hc]. inversion Hc as [|? ? Hc1 Hc']; subst.
  inversion Hc' as [|? ? Hc2 Hc'']; subst. inversion Hc'' as [|? ? Hc3 _]; subst. simpl in *.
  apply same_false in Hc1, Hc2, Hc3.
  apply M_bind_Ok in H as ([] & d2 & H2 & H). unfold upsert_device_dns_record in H2.
  apply M_bind_Ok in H2 as (name & d2' & Hn & H2).
  apply available_dns_name_spec in Hn as [-> Hfree]. simpl in Hfree.
  pose proof (db_inv_dns_ok d Hi) as Hdns.
  apply upsert_dns_Ok in H2 as (new & -> & Hu); [|done|done].
  assert (d_id v ∉ r_device_id <$> dns_records d) as Hdout.
  { intros (r & Heq & Hr)%list_elem_of_fmap. destruct (inv_dns_live d Hi r Hr) as (_ & _ & w & Hw & _ & Hid & _).
    apply Hc1. rewrite Heq, <- Hid. by apply list_elem_of_fmap_2. }
  destruct Hu as [[Hin _]|[_ ->]]; [done|].
  apply M_bind_Ok in H as ([] & d3 & H3 & H). unfold insert_ip_allocation in H3.
  destruct (insert_row _ _ _) eqn:Hr; try done. injection H3 as <-. apply insert_row_Ok in Hr as [-> _].
  apply M_bind_Ok in H as ([] & d4 & H4 & H). unfold modify in H4. injection H4 as <-.
  injection H as <- <-. exists name. by split_and!.
Qed.

Lemma db_inv_register d d' now key v name ipid dnsid ipv4 c :
  db_inv d -> ipv4 = pool_ip c -> (c <= length (devices d))%nat -> (c < 253)%nat ->
  auth_keys d' = mark_used now key (auth_keys d) ->
  devices d' = devices d ++ [v] ->
  ip_allocations d' = ip_allocations d ++ [mkIpRow ipid NET_DEFAULT (d_id v) ipv4 "assigned" (timestamp now) None] ->
  endpoints d' = endpoints d ->
  dns_records d' = dns_records d ++
    [mkDnsRow dnsid NET_DEFAULT (d_id v) name "A" ipv4 (timestamp now) (timestamp now)] ->
  name_free d NET_DEFAULT (d_id v) name -> live v = true -> d_ipv4 v = ipv4 ->
  d_id v ∉ d_id <$> devices d -> d_machine_key v ∉ d_machine_key <$> devices d ->
  d_ipv4 v ∉ d_ipv4 <$> devices d ->
  c = length (devices d) /\ db_inv d'.
Proof.
  intros Hi Hip Hc Hc253 Hk Hd Hal Hep Hdns Hfree Hlive Hvip Hid Hmk Hipout.
  assert (c = length (devices d)) as Hceq.
  { destruct (decide (c = length (devices d))); [done|]. destruct Hipout.
    rewrite (inv_device_ips d Hi), Hvip, Hip. apply list_elem_of_fmap_2, elem_of_seq. lia. }
  split; [done|]. pose proof (db_inv_dns_ok d Hi) as Hok.
  destruct (dns_upserted_ok d (mkDnsRow dnsid NET_DEFAULT (d_id v) name "A" ipv4 (timestamp now) (timestamp now))
    (dns_records d')) as (Hn1 & Hn2 & _); try done.
  { right. split; [|done]. simpl. intros (r & Heq & Hr)%list_elem_of_fmap.
    destruct (inv_dns_live d Hi r Hr) as (_ & _ & w & Hw & _ & Hwid & _).
    apply Hid. rewrite Heq, <- Hwid. by apply list_elem_of_fmap_2. }
  destruct Hi. split; rewrite ?Hk, ?Hd, ?Hal, ?Hep; rewrite ?fmap_app; simpl.
  - unfold mark_used. by rewrite fmap_update_where.
  - by apply NoDup_snoc.
  - by apply NoDup_snoc.
  - rewrite length_app. simpl. rewrite Nat.add_1_r, seq_S, fmap_app, inv_device_ips0. simpl.
    by rewrite Hvip, Hip, Hceq.
  - by rewrite inv_allocations0, Hvip.
  - rewrite length_app. simpl. lia.
  - done.
  - done.
  - done.
  - intros r. rewrite Hdns. intros [Hr| ->%list_elem_of_singleton]%elem_of_app.
    + destruct (inv_dns_live0 r Hr) as (? & ? & w & ? & ? & ? & ?). split_and!; [done..|].
      exists w. split_and!; try done. apply elem_of_app. by left.
    + split_and!; [done..|]. exists v. split_and!; try done. apply elem_of_app. right. by left.
  - intros w [Hw| ->%list_elem_of_singleton]%elem_of_app Hl; rewrite Hdns, fmap_app, elem_of_app.
    + left. auto.
    + right. by left.
Qed.

Lemma allocate_ipv4_Ok d ipv4 d' :
  allocate_ipv4 d = (Ok ipv4, d') ->
  d' = d /\ ipv4 = pool_ip (length (ip_allocations d)) /\ (length (ip_allocations d) < 253)%nat.
Proof.
  unfold allocate_ipv4, mbind, M_bind, query, raise, mret, M_ret. destruct (254 <? _)%Z eqn:Hc; [done|].
  to_prop. intros [= <- <-]. split_and!; [done..|lia].
Qed.

Lemma inv_allocations_length d : db_inv d -> length (ip_allocations d) = length (devices d).
Proof. intros Hi. pose proof (inv_allocations d Hi) as H%(f_equal length). by rewrite !length_fmap in H. Qed.

(** What every step of the service keeps: the invariant, and the devices (a
    device is never removed, only marked). *)
Definition keeps (d d' : db) : Prop := db_inv d' /\ (length (devices d) <= length (devices d'))%nat.

Lemma register_commit_keeps now ids request hostname ipv4 c d r d' :
  db_inv d -> ipv4 = pool_ip c -> (c <= length (devices d))%nat -> (c < 253)%nat ->
  register_commit now ids request hostname ipv4 d = (r, d') -> keeps d d'.
Proof.
  intros Hi Hip Hc Hc253 H. destruct (is_ok r) eqn:Hr; cycle 1.
  { apply transaction_rollback in H as ->; [|done]. by split. }
  destruct r as [resp|e|]; try done.
  apply register_commit_Ok in H as (name & _ & Hk & Hd & Hal & Hep & Hdns & Hfree & Hid & Hmk & Hipo); [|done].
  split; [|rewrite Hd, length_app; lia]. eapply db_inv_register; try done.
Qed.

Lemma insert_auth_key_keeps row d r d' : db_inv d -> insert_auth_key row d = (r, d') -> keeps d d'.
Proof.
  intros Hi. unfold insert_auth_key. destruct (insert_row _ _ _) eqn:Hr; intros [= <- <-]; [|by split..].
  apply insert_row_Ok in Hr as [-> Hc]. inversion Hc as [|? ? _ Hc']; subst.
  inversion Hc' as [|? ? Hh _]; subst. simpl in Hh. apply same_false in Hh.
  split; [|done]. apply db_inv_auth_keys; [done|]. rewrite fmap_app. apply NoDup_snoc; [by destruct Hi|done].
Qed.

Lemma create_auth_key_keeps now u1 u2 d r d' :
  db_inv d -> create_auth_key now u1 u2 d = (r, d') -> keeps d d'.
Proof.
  intros Hi. unfold create_auth_key, mbind, M_bind.
  destruct (insert_auth_key _ d) as [r1 d1] eqn:H1. apply insert_auth_key_keeps in H1; [|done].
  destruct r1; by intros [= <- <-].
Qed.

Lemma length_update_where {A} p f (l : list A) : length (update_where p f l) = length l.
Proof. unfold update_where. apply length_map. Qed.

Lemma upsert_endpoint_keeps row d r d' : db_inv d -> upsert_endpoint row d = (r, d') -> keeps d d'.
Proof.
  intros Hi. unfold upsert_endpoint. destruct (existsb _ _) eqn:Hx; intros [= <- <-]; (split; [|done]).
  - apply db_inv_endpoints; [done|]. rewrite fmap_update_where by done. by destruct Hi.
  - apply db_inv_endpoints; [done|]. rewrite fmap_app. apply NoDup_snoc; [by destruct Hi|].
    by apply same_false.
Qed.

Lemma upsert_endpoints_keeps now dev l d r d' :
  db_inv d -> upsert_endpoints now dev l d = (r, d') -> keeps d d'.
Proof.
  revert d. induction l as [|e l IH]; intros d Hi; simpl; [by intros [= <- <-]|].
  unfold mbind, M_bind. destruct (upsert_endpoint _ d) as [r1 d1] eqn:H1.
  apply upsert_endpoint_keeps in H1 as [Hi1 Hl1]; [|done].
  destruct r1; intros H; [|by injection H as <- <-..].
  apply IH in H as [? ?]; [|done]. split; [done|lia].
Qed.

Lemma heartbeat_keeps now request d r d' : db_inv d -> heartbeat now request d = (r, d') -> keeps d d'.
Proof.
  intros Hi. unfold heartbeat. unfold mbind at 1, M_bind at 1.
  destruct (validate_device_node_key _ _ d) as [r0 d0] eqn:H0.
  assert (d0 = d) as ->.
  { unfold validate_device_node_key, mbind, M_bind, query, raise, mret, M_ret in H0.
    by destruct (List.find _ _); injection H0 as <- <-. }
  destruct r0; [|by intros [= <- <-]..]. unfold mbind at 1, M_bind at 1.
  destruct (transaction _ d) as [r1 d1] eqn:H1.
  assert (keeps d d1) as Hk.
  { destruct (is_ok r1) eqn:Hr1; [|apply transaction_rollback in H1 as ->; [by split|done]].
    destruct r1 as [[]| |]; try done. apply transaction_Ok in H1.
    apply M_bind_Ok in H1 as (n & d2 & H2 & H1). unfold update_device in H2. injection H2 as _ <-.
    apply M_bind_Ok in H1 as ([] & d3 & H3 & H1). unfold modify in H3. injection H3 as <-.
    apply upsert_endpoints_keeps in H1 as [? Hl].
    - split; [done|]. simpl in Hl. by rewrite length_update_where in Hl.
    - apply (db_inv_endpoints (set_devices d _)); [by apply db_inv_update_devices|].
      apply NoDup_fmap_filter. by destruct Hi. }
  destruct r1; [|by intros [= <- <-]..]. by intros [= <- <-].
Qed.

(** Renaming: the device row and the record of a live device change. *)
Lemma rename_tx_keeps now uuid device_id hostname d d' :
  db_inv d ->
  (affected ← update_device device_id (set_hostname now hostname);
   if (affected =? 0)%nat then raise (not_found "device not found")
   else
     device ← load_device_summary device_id;
     upsert_device_dns_record now uuid NET_DEFAULT (ds_id device) (ds_hostname device)
       (ds_ipv4 device)) d = (Ok tt, d') -> keeps d d'.
Proof.
  intros Hi H. apply M_bind_Ok in H as (n & d1 & H1 & H). unfold update_device in H1.
  injection H1 as _ <-. destruct (n =? 0)%nat; [done|].
  set (d1 := set_devices d _) in H.
  assert (db_inv d1) as Hi1 by (by apply db_inv_update_devices).
  apply M_bind_Ok in H as (dev & d2 & H2 & H). unfold load_device_summary in H2.
  apply M_bind_Ok in H2 as (row & d2' & Hq & H2). injection Hq as Hf <-.
  destruct row as [v|]; [|done]. injection H2 as <- <-.
  apply find_elem_of in Hf as [Hv Hp]. apply andb_true_iff in Hp as [_ Hlive].
  unfold upsert_device_dns_record in H. apply M_bind_Ok in H as (name & d3 & Hn & H).
  apply available_dns_name_spec in Hn as [-> Hfree].
  pose proof (db_inv_dns_ok d1 Hi1) as Hok.
  apply upsert_dns_Ok in H as (new & -> & Hu); [|done|done].
  assert (dns_ok new) as (Hn1 & Hn2 & Hn3)
    by (eapply (dns_upserted_ok d1); [exact Hok| | | |exact Hu]; done).
  split; [|simpl; by rewrite length_update_where].
  destruct Hi1. split; simpl in *; try done.
  - intros r Hr. pose proof (proj1 (Forall_forall _ _) Hn3 r Hr) as [? ?]. split_and!; [done..|].
    eapply elem_of_dns_upserted in Hu as [[Hr' _]|(Hd & Hval & _)]; [| |exact Hok|done|exact Hr].
    + by destruct (inv_dns_live0 r Hr') as (_ & _ & ?).
    + exists v. by split_and!.
  - intros w Hw Hl. apply (dns_upserted_devices _ _ _ Hu). left. by apply inv_live_dns0.
Qed.

Lemma rename_device_keeps now uuid device_id request d r d' :
  db_inv d -> rename_device now uuid device_id request d = (r, d') -> keeps d d'.
Proof.
  intros Hi. unfold rename_device. unfold mbind at 1, M_bind at 1. unfold lift.
  destruct (normalize_hostname _) as [hostname|e|]; [|by intros [= <- <-]..].
  unfold mbind at 1, M_bind at 1. destruct (transaction _ d) as [r1 d1] eqn:H1.
  assert (keeps d d1) as Hk.
  { destruct (is_ok r1) eqn:Hr1; [|apply transaction_rollback in H1 as ->; [by split|done]].
    destruct r1 as [[]| |]; try done. apply transaction_Ok in H1. by eapply rename_tx_keeps. }
  destruct r1; [|by intros [= <- <-]..].
  unfold load_device_summary, mbind, M_bind, query, raise, mret, M_ret.
  destruct (List.find _ _); by intros [= <- <-].
Qed.

Lemma delete_device_keeps now device_id d r d' :
  db_inv d -> delete_device now device_id d = (r, d') -> keeps d d'.
Proof.
  intros Hi H. destruct (is_ok r) eqn:Hr; [|apply transaction_rollback in H as ->; [by split|done]].
  destruct r as [code| |]; try done. apply transaction_Ok in H.
  apply M_bind_Ok in H as (n & d1 & H1 & H). unfold update_device in H1. injection H1 as _ <-.
  destruct (n =? 0)%nat; [done|]. apply M_bind_Ok in H as ([] & d2 & H2 & H). injection H2 as <-.
  injection H as <- <-.
  set (p := fun r => bool_decide (d_id r = device_id) && live r).
  split; [|simpl; by rewrite length_update_where].
  destruct Hi. split; simpl; rewrite ?length_update_where, ?fmap_update_where; try done.
  - by apply NoDup_fmap_filter.
  - by apply NoDup_fmap_filter.
  - intros r [Hr' Hne]%elem_of_bfilter. apply negb_true_iff, bool_decide_eq_false in Hne.
    destruct (inv_dns_live0 r Hr') as (? & ? & v & Hv & Hl & Hid & Hip). split_and!; [done..|].
    exists v. split_and!; try done. apply elem_of_update_where. exists v. split; [done|].
    unfold p. rewrite bool_decide_eq_false_2; [done|congruence].
  - intros v (w & Hw & ->)%elem_of_update_where.
    destruct (p w) eqn:Ep; [done|]. unfold p in Ep. intros Hl.
    apply inv_live_dns0 in Hw as (r & Heq & Hr')%list_elem_of_fmap; [|done].
    apply list_elem_of_fmap. exists r. split; [done|]. apply elem_of_bfilter. split; [done|].
    apply negb_true_iff, bool_decide_eq_false. rewrite Hl, andb_true_r in Ep. to_prop. congruence.
Qed.

(** ** Runs of the service *)

(** A registration between its reads and its transaction: what it will write. *)
Record pending : Type := mkPending {
  p_now : Z; p_ids : RegisterIds; p_request : RegisterDeviceRequest;
  p_hostname : string; p_ipv4 : string;
}.

(** A step of the service: a whole handler, or one of the two halves of a
    registration (its reads end with [allocate_ipv4]), so that registrations may
    overlap with anything.  [snd] is the database after a handler, whatever its
    answer. *)
Inductive control_step : db * list pending -> db * list pending -> Prop :=
| step_create now u1 u2 d ps :
    control_step (d, ps) (snd (create_auth_key now u1 u2 d), ps)
| step_delete now id d ps :
    control_step (d, ps) (snd (delete_device now id d), ps)
| step_rename now uuid id request d ps :
    control_step (d, ps) (snd (rename_device now uuid id request d), ps)
| step_heartbeat now request d ps :
    control_step (d, ps) (snd (heartbeat now request d), ps)
| step_allocate p d ps :
    allocate_ipv4 d = (Ok (p_ipv4 p), d) -> control_step (d, ps) (d, p :: ps)
| step_commit p d ps1 ps2 :
    control_step (d, ps1 ++ p :: ps2)
      (snd (register_commit (p_now p) (p_ids p) (p_request p) (p_hostname p) (p_ipv4 p) d), ps1 ++ ps2).

Inductive control_reachable : db * list pending -> Prop :=
| control_start : control_reachable (empty_db, [])
| control_next s s' : control_reachable s -> control_step s s' -> control_reachable s'.

Definition pending_ok (d : db) (p : pending) : Prop :=
  exists c, p_ipv4 p = pool_ip c /\ (c <= length (devices d))%nat /\ (c < 253)%nat.

Lemma control_step_inv s s' :
  control_step s s' -> db_inv (fst s) -> Forall (pending_ok (fst s)) (snd s) ->
  db_inv (fst s') /\ Forall (pending_ok (fst s')) (snd s').
Proof.
  intros Hs Hi Hp.
  assert (forall d d' ps, keeps d d' -> Forall (pending_ok d) ps -> db_inv d' /\ Forall (pending_ok d') ps) as Hk.
  { intros d d' ps [? Hl] Hps. split; [done|]. eapply Forall_impl; [exact Hps|].
    intros p (c & ? & ? & ?). exists c. split_and!; [done|lia|done]. }
  destruct Hs as [now u1 u2 d ps|now id d ps|now uuid id request d ps|now request d ps|p d ps Ha|p d ps1 ps2];
    simpl in *.
  - apply (Hk d); [|done]. by eapply create_auth_key_keeps, surjective_pairing.
  - apply (Hk d); [|done]. by eapply delete_device_keeps, surjective_pairing.
  - apply (Hk d); [|done]. by eapply rename_device_keeps, surjective_pairing.
  - apply (Hk d); [|done]. by eapply heartbeat_keeps, surjective_pairing.
  - split; [done|]. constructor; [|done]. apply allocate_ipv4_Ok in Ha as (_ & Hip & Hlt).
    rewrite (inv_allocations_length d Hi) in Hip, Hlt. by exists (length (devices d)).
  - apply Forall_app in Hp as [Hp1 Hp2]. apply Forall_cons in Hp2 as [(c & Hip & Hc & Hlt) Hp2].
    apply (Hk d); [|by apply Forall_app]. by eapply register_commit_keeps, surjective_pairing.
Qed.

Lemma control_reachable_inv s :
  control_reachable s -> db_inv (fst s) /\ Forall (pending_ok (fst s)) (snd s).
Proof.
  induction 1 as [|s s' _ [IH1 IH2] Hstep]; [|by eapply control_step_inv].
  split; [apply db_inv_empty|constructor].
Qed.

End invariant.
