(* ===== verification/ControlProps.v ===== *)
(** * Control plane: properties of the handlers

    The laws of the parameters ([ControlEnvLaws]), lemmas on what a successful or
    refused handler did, the properties, and a concrete environment and database
    for the witnesses. *)

From Stdlib Require Import ZArith Lia.
From stdpp Require Import prelude list strings gmap.
From S2P Require Import Prelude RustStd Protocol ControlDb Control ControlInv.

(** What the code relies on of SQLite's date functions: a timestamp text denotes
    its time, up to the year 9999. *)
Definition END_OF_TIME : Z := 253402300800.
Class ControlEnvLaws (E : ControlEnv) : Prop := {
  unixepoch_timestamp t : (0 <= t < END_OF_TIME)%Z -> unixepoch (timestamp t) = Some t;
}.

(** ** Host names *)

Definition valid_hostname (h : string) : Prop :=
  (1 <= str_len h <= 63)%Z /\ forallb hostname_byte (as_bytes h) = true /\
  starts_with h "-" = false /\ ends_with h "-" = false.

Lemma hostname_byte_range b : hostname_byte b = true -> (45 <= b <= 122)%Z /\ lower_byte b = b.
Proof.
  unfold hostname_byte, lower_byte, in_range. intros H.
  rewrite !orb_true_iff, !andb_true_iff, !Z.leb_le, Z.eqb_eq in H. split; [lia|].
  destruct ((65 <=? b)%Z && (b <=? 90)%Z) eqn:E; [|done]. to_prop. lia.
Qed.

(** A valid host name is its own normal form. *)
Lemma valid_hostname_fixed h : valid_hostname h -> to_ascii_lowercase (trim h) = h.
Proof.
  intros (_ & Hb & _). rewrite forallb_forall in Hb.
  assert (Forall (fun b => hostname_byte b = true) (as_bytes h)) as Hall.
  { apply Forall_forall. intros b Hin. apply Hb. by apply list_elem_of_In. }
  unfold trim. rewrite trim_visible.
  - rewrite of_bytes_as_bytes. apply as_bytes_inj. rewrite as_bytes_lowercase.
    rewrite <- (map_id (as_bytes h)) at 2. apply map_ext_in. intros b Hin.
    by apply hostname_byte_range, Hb.
  - eapply Forall_impl; [exact Hall|]. intros b [? _]%hostname_byte_range. unfold visible. lia.
Qed.

Lemma str_len_pos h : is_empty h = false <-> (1 <= str_len h)%Z.
Proof. unfold str_len. destruct h; simpl; split; (done || lia). Qed.

Lemma normalize_hostname_Ok value h :
  normalize_hostname value = Ok h <-> h = to_ascii_lowercase (trim value) /\ valid_hostname h.
Proof.
  unfold normalize_hostname, valid_hostname. set (x := to_ascii_lowercase (trim value)).
  split.
  - intros H. destruct (is_empty x) eqn:E1; [done|]. destruct (63 <? str_len x)%Z eqn:E2; [done|].
    destruct (starts_with x "-") eqn:E3; [done|]. destruct (ends_with x "-") eqn:E4; [done|].
    destruct (forallb hostname_byte (as_bytes x)) eqn:E5; [|done]. cbn in H.
    apply (inj Ok) in H as <-. apply str_len_pos in E1. to_prop. split_and!; (done || lia).
  - intros (-> & Hlen & Hb & Hs & He). rewrite (proj2 (str_len_pos x)) by lia.
    rewrite (proj2 (Z.ltb_ge _ _)) by lia. by rewrite Hs, He, Hb.
Qed.

Section registration.
Context `{E : ControlEnv}.

(** Looking for a DNS name only reads the DNS table. *)
Lemma try_attempts_ext net dev host suffix attempts d1 d2 :
  dns_records d1 = dns_records d2 ->
  fst (try_attempts net dev host suffix attempts d1) = fst (try_attempts net dev host suffix attempts d2).
Proof.
  intros H. induction attempts as [|a rest IH]; [done|]. cbn [try_attempts].
  unfold mbind, M_bind, dns_name_available, query. rewrite H. by destruct (negb _).
Qed.

Lemma available_dns_name_ext net dev host d1 d2 :
  dns_records d1 = dns_records d2 ->
  fst (available_dns_name net dev host d1) = fst (available_dns_name net dev host d2).
Proof.
  intros H. pose proof (try_attempts_ext net dev host (device_dns_suffix dev) (seq 2 98) d1 d2 H) as Ht.
  unfold available_dns_name. revert Ht. generalize (seq 2 98). intros attempts Ht.
  unfold mbind, M_bind, dns_name_available, query. rewrite H.
  destruct (negb _); [done|]. rewrite H. by destruct (negb _).
Qed.

Lemma available_dns_name_run net dev host d name :
  fst (available_dns_name net dev host d) = Ok name ->
  available_dns_name net dev host d = (Ok name, d).
Proof.
  intros H. destruct (available_dns_name net dev host d) as [r d'] eqn:Ea.
  apply available_dns_name_spec in Ea as [-> _]. simpl in H. by subst.
Qed.

(** The UUIDs drawn by a registration are new. *)
Definition fresh_ids (ids : RegisterIds) (d : db) : Prop :=
  new_id "dev" (u_device ids) ∉ d_id <$> devices d /\
  new_id "dns" (u_dns ids) ∉ r_id <$> dns_records d /\
  new_id "ip" (u_ip ids) ∉ ip_id <$> ip_allocations d.

(** The transaction of a registration succeeds when machine and ids are new, the
    address is the next one of the pool and a DNS name can be found. *)
Lemma register_commit_success now ids request hostname d name :
  db_inv d -> fresh_ids ids d -> rd_machine_key request ∉ d_machine_key <$> devices d ->
  fst (available_dns_name NET_DEFAULT (new_id "dev" (u_device ids)) hostname d) = Ok name ->
  exists d', register_commit now ids request hostname (pool_ip (length (devices d))) d =
    (Ok (registered_response ids (pool_ip (length (devices d)))), d').
Proof.
  intros Hi (Hid & Hdns & Hip) Hmk Hname. set (ipv4 := pool_ip (length (devices d))).
  assert (ipv4 ∉ d_ipv4 <$> devices d) as Hfree.
  { rewrite (inv_device_ips d Hi). intros (k & Hk & Hin)%list_elem_of_fmap.
    apply pool_ip_inj in Hk. apply elem_of_seq in Hin. lia. }
  unfold register_commit, transaction. fold (new_device now ids request hostname ipv4).
  set (v := new_device now ids request hostname ipv4).
  unfold insert_device at 1. erewrite M_bind_run; cycle 1.
  { rewrite insert_row_free; [done|]. repeat constructor; simpl; by apply same_false. }
  set (d1 := set_devices d _).
  assert (available_dns_name NET_DEFAULT (new_id "dev" (u_device ids)) hostname d1 = (Ok name, d1)) as Hn1.
  { apply available_dns_name_run. by rewrite (available_dns_name_ext _ _ _ d1 d). }
  pose proof (available_dns_name_spec _ _ _ _ _ _ Hn1) as [_ Hnf].
  destruct (upsert_dns_total d1 (mkDnsRow (new_id "dns" (u_dns ids)) NET_DEFAULT (d_id v) name "A" ipv4
      (timestamp now) (timestamp now))) as [d2 Hu]; try done.
  { apply (db_inv_dns_ok d Hi). }
  erewrite M_bind_run; cycle 1.
  { unfold upsert_device_dns_record. erewrite M_bind_run by exact Hn1. exact Hu. }
  apply upsert_dns_Ok in Hu as (new & -> & _); [|apply (db_inv_dns_ok d Hi)|done].
  erewrite M_bind_run; cycle 1.
  { unfold insert_ip_allocation. rewrite insert_row_free; [done|]. simpl.
    repeat constructor; simpl; apply same_false; [done|]. simpl. by rewrite (inv_allocations d Hi). }
  by eexists.
Qed.

Lemma find_existing_None mk d :
  (forall v, v ∈ devices d -> d_machine_key v = mk -> live v = false) ->
  find_existing_device mk d = (Ok None, d).
Proof.
  intros H. unfold find_existing_device, query. destruct (List.find _ _) as [v|] eqn:Ef; [|done].
  apply find_elem_of in Ef as [Hv Hp]. to_prop. rewrite (H v) in * by done. done.
Qed.

Lemma find_existing_unknown mk d :
  mk ∉ d_machine_key <$> devices d -> find_existing_device mk d = (Ok None, d).
Proof.
  intros Hout. apply find_existing_None. intros v Hv Heq. destruct Hout. rewrite <- Heq.
  by apply list_elem_of_fmap_2.
Qed.

Lemma find_existing_unique d v :
  db_inv d -> v ∈ devices d -> live v = true ->
  find_existing_device (d_machine_key v) d =
    (Ok (Some (mkRegisterDeviceResponse (d_id v) (d_node_key v) (d_ipv4 v) (d_network_id v) 5)), d).
Proof.
  intros Hi Hv Hl. unfold find_existing_device, query. destruct (List.find _ _) as [w|] eqn:Ef.
  - apply find_elem_of in Ef as [Hw Hp]. to_prop.
    assert (w = v) as ->; [|done].
    by apply (NoDup_fmap_inj d_machine_key (devices d)); [apply inv_machine_keys|..].
  - apply (find_None_elem _ _ v) in Ef; [|done]. simpl in Ef.
    rewrite bool_decide_eq_true_2, Hl in Ef by done. done.
Qed.

(** What a successful registration is: the machine was known, or it is added. *)
Lemma register_device_Ok now ids request d resp d' :
  register_device now ids request d = (Ok resp, d') ->
  (d' = d /\ find_existing_device (rd_machine_key request) d = (Ok (Some resp), d)) \/
  (exists hostname, normalize_hostname (rd_hostname request) = Ok hostname /\
    validate_auth_key (rd_auth_key request) d = (Ok tt, d) /\
    (length (ip_allocations d) < 253)%nat /\
    register_commit now ids request hostname (pool_ip (length (ip_allocations d))) d = (Ok resp, d')).
Proof.
  intros H. unfold register_device in H. apply M_bind_Ok in H as (ex & d0 & H0 & H).
  assert (d0 = d) as -> by (unfold find_existing_device, query in H0; by injection H0).
  destruct ex as [ex|]; [injection H as <- <-; by left|]. right.
  apply M_bind_Ok in H as ([] & d1 & H1 & H).
  assert (d1 = d) as ->.
  { unfold validate_auth_key, mbind, M_bind, query, raise, mret, M_ret in H1.
    destruct (List.find _ _); [|done]. repeat (destruct (_ : bool); try done). by injection H1. }
  apply M_bind_Ok in H as (hostname & d2 & H2 & H). unfold lift in H2. injection H2 as Hn <-.
  apply M_bind_Ok in H as (ipv4 & d3 & H3 & H). apply allocate_ipv4_Ok in H3 as (-> & -> & Hlt).
  by exists hostname.
Qed.

End registration.

Section handler_lemmas.
Context `{E : ControlEnv}.

Lemma validate_auth_key_row key d d' :
  validate_auth_key key d = (Ok tt, d') ->
  exists row, row ∈ auth_keys d /\ ak_key_hash row = hash_secret key /\ ak_revoked_at row = None /\
    (ak_reusable row = 0%Z -> ak_used_at row = None).
Proof.
  unfold validate_auth_key, mbind, M_bind, query, raise, mret, M_ret.
  destruct (List.find _ _) as [row|] eqn:Ef; [|done]. apply find_elem_of in Ef as [Hin Hh]. to_prop.
  case_bool_decide as Hrev; [done|]. destruct (ak_reusable row =? 0)%Z eqn:Er; cbn [andb].
  - case_bool_decide as Hu; [done|]. intros _. exists row.
    split_and!; try done; [by apply eq_None_not_Some|]. intros _. by apply eq_None_not_Some.
  - intros _. exists row. to_prop. split_and!; try done. by apply eq_None_not_Some.
Qed.

(** A spent single-use key. *)
Lemma validate_auth_key_spent key d row t :
  NoDup (ak_key_hash <$> auth_keys d) -> row ∈ auth_keys d -> ak_key_hash row = hash_secret key ->
  ak_reusable row = 0%Z -> ak_revoked_at row = None -> ak_used_at row = Some t ->
  validate_auth_key key d = (Err (unauthorized "auth key already used"), d).
Proof.
  intros Hnd Hin Hh Hr Hrev Hu.
  unfold validate_auth_key, mbind, M_bind, query, raise, mret, M_ret.
  destruct (List.find _ _) as [row'|] eqn:Ef.
  - apply find_elem_of in Ef as [Hin' Hh']. to_prop.
    assert (row' = row) as -> by (apply (NoDup_fmap_inj ak_key_hash (auth_keys d)); congruence).
    rewrite bool_decide_eq_false_2 by (rewrite Hrev; by intros [? ?]).
    rewrite Hr, bool_decide_eq_true_2 by (rewrite Hu; by eexists). done.
  - apply (find_None_elem _ _ row) in Ef; [|done]. simpl in Ef. to_prop. congruence.
Qed.

Lemma validate_auth_key_read key d :
  exists r, validate_auth_key key d = (r, d) /\ (r = Ok tt \/ exists e, r = Err e).
Proof.
  unfold validate_auth_key, mbind, M_bind, query, raise, mret, M_ret.
  destruct (List.find _ _); [|by eauto]. repeat split_guard; eauto.
Qed.

Lemma normalize_hostname_no_panic value :
  (exists h, normalize_hostname value = Ok h) \/ exists e, normalize_hostname value = Err e.
Proof. unfold normalize_hostname. repeat split_guard; eauto. Qed.

(** A registration of an unknown machine with a rejected key. *)
Lemma register_device_rejected now ids request d e :
  find_existing_device (rd_machine_key request) d = (Ok None, d) ->
  validate_auth_key (rd_auth_key request) d = (Err e, d) ->
  register_device now ids request d = (Err e, d).
Proof.
  intros Hf Hv. unfold register_device. rewrite (M_bind_run _ _ _ _ _ Hf).
  unfold mbind, M_bind. by rewrite Hv.
Qed.

Lemma find_existing_fst mk d r : fst (find_existing_device mk d) = r -> find_existing_device mk d = (r, d).
Proof. by intros <-. Qed.

Lemma validate_device_node_key_iff id key d :
  validate_device_node_key id key d = (Ok tt, d) <->
  exists v, v ∈ devices d /\ d_id v = id /\ d_node_key v = key /\ live v = true.
Proof.
  unfold validate_device_node_key, mbind, M_bind, query, raise, mret, M_ret. split.
  - destruct (List.find _ _) as [v|] eqn:Ef; [|done]. intros _.
    apply find_elem_of in Ef as [Hin Hp]. to_prop. eauto.
  - intros (v & Hv & <- & <- & Hl). destruct (List.find _ _) as [w|] eqn:Ef; [done|].
    apply (find_None_elem _ _ v) in Ef; [|done]. simpl in Ef.
    rewrite !bool_decide_eq_true_2, Hl in Ef by done. done.
Qed.

Lemma validate_device_node_key_Err id key d :
  (forall v, v ∈ devices d -> d_id v = id -> d_node_key v = key -> live v = false) ->
  validate_device_node_key id key d = (Err (unauthorized "invalid device credentials"), d).
Proof.
  intros H. unfold validate_device_node_key, mbind, M_bind, query, raise, mret, M_ret.
  destruct (List.find _ _) as [v|] eqn:Ef; [|done]. apply find_elem_of in Ef as [Hin Hp]. to_prop.
  rewrite (H v) in * by done. done.
Qed.

Lemma count_where_pos {A} (p : A -> bool) l x : x ∈ l -> p x = true -> count_where p l <> 0%nat.
Proof.
  intros Hx Hp Hz. apply nil_length_inv in Hz. assert (x ∈ List.filter p l) as Hin by (by apply elem_of_bfilter).
  rewrite Hz in Hin. by apply elem_of_nil in Hin.
Qed.

(** What deleting a live device does. *)
Definition after_delete (now : Z) (device_id : string) (d : db) : db :=
  set_dns_records (set_devices d
    (update_where (fun r => bool_decide (d_id r = device_id) && live r) (set_deleted now) (devices d)))
    (List.filter (fun r => negb (bool_decide (r_device_id r = device_id))) (dns_records d)).

Lemma delete_device_run now d v :
  v ∈ devices d -> live v = true ->
  delete_device now (d_id v) d = (Ok 204%Z, after_delete now (d_id v) d).
Proof.
  intros Hv Hl. unfold delete_device, transaction.
  unfold update_device at 1. unfold mbind at 1, M_bind at 1.
  destruct (count_where _ _ =? 0)%nat eqn:Hc; [|done]. to_prop.
  exfalso. revert Hc. apply (count_where_pos _ _ v); [done|]. by rewrite bool_decide_eq_true_2, Hl.
Qed.

Lemma after_delete_not_live now device_id d w :
  w ∈ devices (after_delete now device_id d) -> d_id w = device_id -> live w = false.
Proof.
  simpl. intros (u & Hu & ->)%elem_of_update_where.
  destruct (bool_decide (d_id u = device_id) && live u) eqn:Ep; [done|].
  intros <-. by rewrite bool_decide_eq_true_2 in Ep.
Qed.

(** The peers of a network map. *)
Definition peer_of (now : Z) (d : db) (v : DeviceRow) : NetworkMapPeer :=
  mkNetworkMapPeer (d_id v) (d_hostname v) (d_ipv4 v) (d_backend_type v) (d_backend_public_credential v)
    (map endpoint_payload (sort_by endpoint_order
       (List.filter (fun r => bool_decide (e_device_id r = d_id v) && negb (expired now r)) (endpoints d))))
    [d_ipv4 v +:+ "/32"].

Lemma load_peers_run now rows d : load_peers now rows d = (Ok (peer_of now d <$> rows), d).
Proof.
  induction rows as [|v rows IH]; [done|]. cbn [load_peers].
  unfold load_endpoints at 1. unfold mbind, M_bind, query. by rewrite IH.
Qed.

Lemma network_map_Ok now state q d m d' :
  network_map now state q d = (Ok m, d') ->
  exists self, self ∈ devices d /\ d' = d /\
    m = mkNetworkMapResponse (default 0%Z (res_ok (fst (network_map_version d))))
      (mkNetworkMapSelf (d_id self) (d_hostname self) (d_ipv4 self) (d_backend_type self))
      (peer_of now d <$> sort_by (fun x y => str_leb (d_hostname x) (d_hostname y))
        (List.filter (fun r => negb (bool_decide (d_id r = nmq_device_id q)) && live r) (devices d)))
      (map dns_record (sort_by dns_order (dns_records d))) (relays state).
Proof.
  unfold network_map. intros H. apply M_bind_Ok in H as ([] & d1 & H1 & H).
  assert (d1 = d) as ->.
  { unfold validate_device_node_key, mbind, M_bind, query, raise, mret, M_ret in H1.
    by destruct (List.find _ _); injection H1. }
  apply M_bind_Ok in H as (row & d2 & H2 & H). injection H2 as Hf <-.
  destruct row as [self|]; [|done]. apply find_elem_of in Hf as [Hs _].
  unfold mbind, M_bind, query at 1 in H. rewrite load_peers_run in H.
  injection H as <- <-. by exists self.
Qed.

(** Rejecting a device that was deleted. *)
Lemma insert_row_violated {A} cs (row : A) rows c :
  c ∈ cs -> existsb (snd c row) rows = true -> exists name, insert_row cs row rows = Err (unique_failed name).
Proof.
  intros Hc Hx. unfold insert_row. assert (exists name, violated cs row rows = Some name) as [name ->]; [|by eexists].
  induction Hc as [c cs|c [n s] cs Hc IH]; simpl.
  - destruct c as [n s]. simpl in *. rewrite Hx. by eexists.
  - destruct (existsb (s row) rows); [by eexists|auto].
Qed.

Lemma register_commit_machine_taken now ids request hostname ipv4 d :
  rd_machine_key request ∈ d_machine_key <$> devices d ->
  exists name, register_commit now ids request hostname ipv4 d = (Err (unique_failed name), d).
Proof.
  intros Hin. unfold register_commit, transaction, insert_device. unfold mbind at 1, M_bind at 1.
  destruct (insert_row_violated device_constraints (new_device now ids request hostname ipv4) (devices d)
    ("devices.machine_key", same d_machine_key)) as [name Hn].
  - right. by left.
  - apply not_false_iff_true. by intros ?%same_false.
  - fold (new_device now ids request hostname ipv4). rewrite Hn. by exists name.
Qed.

End handler_lemmas.

(** ** Properties *)

Section properties.
Context `{E : ControlEnv}.

(** C6: in every state the service reaches, with registrations overlapping each
    other and all other requests, the database invariant holds: device ids,
    machine keys and key hashes are unique, the [k]-th device has the [k]-th
    address of the pool and at most 253 are given out, and the DNS records are in
    one-to-one correspondence with the live devices, with their addresses and
    with names unique up to letter case. *)
Theorem control_invariant d ps : control_reachable (d, ps) -> db_inv d.
Proof. apply control_reachable_inv. Qed.

(** C21: registering a new machine with a valid key adds a live device with the
    next address of the pool and a DNS record for it, and answers with that
    identity. *)
Theorem register_creates_device now ids request d hostname name :
  db_inv d -> rd_machine_key request ∉ d_machine_key <$> devices d ->
  validate_auth_key (rd_auth_key request) d = (Ok tt, d) ->
  normalize_hostname (rd_hostname request) = Ok hostname ->
  (length (devices d) < 253)%nat -> fresh_ids ids d ->
  fst (available_dns_name NET_DEFAULT (new_id "dev" (u_device ids)) hostname d) = Ok name ->
  let ipv4 := pool_ip (length (devices d)) in
  let v := new_device now ids request hostname ipv4 in
  exists d', register_device now ids request d = (Ok (registered_response ids ipv4), d') /\
    db_inv d' /\ devices d' = devices d ++ [v] /\ live v = true /\
    exists r, r ∈ dns_records d' /\ r_device_id r = d_id v /\ r_value r = ipv4.
Proof.
  intros Hi Hmk Hkey Hhost Hpool Hfresh Hname ipv4 v. unfold register_device.
  rewrite (M_bind_run _ _ _ _ _ (find_existing_unknown _ _ Hmk)).
  rewrite (M_bind_run _ _ _ _ _ Hkey).
  rewrite (M_bind_run (lift _) _ d hostname d) by (unfold lift; by rewrite Hhost).
  rewrite (M_bind_run allocate_ipv4 _ d ipv4 d); cycle 1.
  { unfold allocate_ipv4, mbind, M_bind, query. rewrite (inv_allocations_length d Hi).
    by rewrite (proj2 (Z.ltb_ge _ _)) by lia. }
  destruct (register_commit_success now ids request hostname d name) as [d' Hc]; try done.
  exists d'. split; [exact Hc|].
  pose proof (register_commit_keeps now ids request hostname ipv4 (length (devices d)) d _ d' Hi
    eq_refl ltac:(lia) Hpool Hc) as [Hi' _].
  apply register_commit_Ok in Hc as (n & _ & _ & Hd & _ & _ & Hdns & _); [|done].
  split_and!; try done. eexists. rewrite Hdns. split; [apply elem_of_app; right; by left|done].
Qed.

(** Registration is idempotent per machine: once a registration succeeded,
    registering the same machine again returns the same device id, node key and
    address and changes nothing, whatever auth key and host name it sends. *)
Theorem register_idempotent now ids request d resp d' now' ids' request' :
  db_inv d -> register_device now ids request d = (Ok resp, d') ->
  rd_machine_key request' = rd_machine_key request ->
  register_device now' ids' request' d' = (Ok resp, d').
Proof.
  intros Hi H Hmk. unfold register_device at 1. rewrite Hmk.
  apply register_device_Ok in H as [[-> Hf]|(hostname & _ & _ & Hlt & Hc)].
  - by rewrite (M_bind_run _ _ _ _ _ Hf).
  - rewrite (inv_allocations_length d Hi) in Hc, Hlt.
    pose proof (register_commit_keeps _ _ _ _ _ _ d _ d' Hi eq_refl ltac:(done) Hlt Hc) as [Hi' _].
    apply register_commit_Ok in Hc as (name & -> & _ & Hd & _); [|done].
    set (v := new_device _ _ _ _ _) in Hd.
    assert (v ∈ devices d') as Hv by (rewrite Hd; apply elem_of_app; right; by left).
    change (rd_machine_key request) with (d_machine_key v).
    by rewrite (M_bind_run _ _ _ _ _ (find_existing_unique d' v Hi' Hv eq_refl)).
Qed.

(** A single-use key registers one machine: after it registered a new
    machine, a registration of another machine with it is refused with 401 and
    changes nothing. *)
Theorem single_use_key_spent now ids request d resp d' row now' ids' request' :
  db_inv d -> rd_machine_key request ∉ d_machine_key <$> devices d ->
  register_device now ids request d = (Ok resp, d') ->
  row ∈ auth_keys d -> ak_key_hash row = hash_secret (rd_auth_key request) -> ak_reusable row = 0%Z ->
  rd_auth_key request' = rd_auth_key request ->
  rd_machine_key request' ∉ d_machine_key <$> devices d' ->
  register_device now' ids' request' d' = (Err (unauthorized "auth key already used"), d').
Proof.
  intros Hi Hmk H Hrow Hh Hr Hkey Hmk'.
  apply register_device_Ok in H as [[-> Hf]|(hostname & _ & Hv & _ & Hc)];
    [by rewrite find_existing_unknown in Hf|].
  apply validate_auth_key_row in Hv as (row' & Hrow' & Hh' & Hrev & _).
  assert (row' = row) as -> by (apply (NoDup_fmap_inj ak_key_hash (auth_keys d)); [apply Hi| | |]; congruence).
  apply register_commit_Ok in Hc as (name & _ & Hk & _); [|done].
  apply register_device_rejected; [by apply find_existing_unknown|]. rewrite Hkey.
  eapply (validate_auth_key_spent _ _ (mkAuthKeyRow (ak_id row) (ak_key_hash row) (ak_description row)
    (ak_expires_at row) (Some (default (timestamp now) (ak_used_at row))) (ak_reusable row)
    (ak_created_at row) (ak_revoked_at row))); try done; rewrite Hk; unfold mark_used.
  - rewrite fmap_update_where by done. apply Hi.
  - apply elem_of_update_where. exists row. split; [done|]. by rewrite bool_decide_eq_true_2.
Qed.

(** C40: the pool never recovers: once 253 devices were registered, no
    registration of an unknown machine succeeds, also after devices were
    deleted. *)
Theorem pool_exhausted now device_id d ids request now' :
  db_inv d -> length (devices d) = 253%nat ->
  let d1 := snd (delete_device now device_id d) in
  rd_machine_key request ∉ d_machine_key <$> devices d1 ->
  exists e, register_device now' ids request d1 = (Err e, d1).
Proof.
  intros Hi HL d1 Hmk.
  destruct (delete_device_keeps now device_id d _ d1 Hi (surjective_pairing _)) as [Hi1 Hl1].
  pose proof (inv_pool d1 Hi1) as Hp. unfold register_device.
  rewrite (M_bind_run _ _ _ _ _ (find_existing_unknown _ _ Hmk)).
  unfold mbind at 1, M_bind at 1.
  destruct (validate_auth_key_read (rd_auth_key request) d1) as (r & -> & [->|[e ->]]); [|by eexists].
  unfold mbind at 1, M_bind at 1, lift. destruct (normalize_hostname_no_panic (rd_hostname request)) as [[h ->]|[e ->]];
    [|by eexists].
  unfold allocate_ipv4, mbind, M_bind, query, raise. rewrite (inv_allocations_length d1 Hi1).
  rewrite (proj2 (Z.ltb_lt _ _)) by lia. by eexists.
Qed.

(** A deleted machine cannot come back: after a device was deleted, every
    registration of its machine is refused and changes nothing; with a valid key
    and host name and addresses left, it fails on a uniqueness constraint of the
    devices table. *)
Theorem deleted_machine_locked_out now d v now' ids request :
  db_inv d -> v ∈ devices d -> live v = true -> rd_machine_key request = d_machine_key v ->
  let d1 := snd (delete_device now (d_id v) d) in
  exists e, register_device now' ids request d1 = (Err e, d1) /\
    (validate_auth_key (rd_auth_key request) d1 = (Ok tt, d1) ->
     is_ok (normalize_hostname (rd_hostname request)) = true -> (length (devices d) < 253)%nat ->
     exists name, e = unique_failed name).
Proof.
  intros Hi Hv Hl Hmk d1.
  destruct (delete_device_keeps now (d_id v) d _ d1 Hi (surjective_pairing _)) as [Hi1 _].
  assert (d1 = after_delete now (d_id v) d) as Ed1 by (unfold d1; by rewrite (delete_device_run now d v Hv Hl)).
  assert (set_deleted now v ∈ devices d1) as Hv1.
  { rewrite Ed1. apply elem_of_update_where. exists v. split; [done|]. by rewrite bool_decide_eq_true_2, Hl. }
  assert (find_existing_device (rd_machine_key request) d1 = (Ok None, d1)) as Hf.
  { apply find_existing_None. intros w Hw Hwk. rewrite Hmk in Hwk.
    by rewrite (NoDup_fmap_inj d_machine_key (devices d1) w (set_deleted now v) (inv_machine_keys d1 Hi1) Hw Hv1 Hwk). }
  assert (length (devices d1) = length (devices d)) as HL by (rewrite Ed1; apply length_update_where).
  unfold register_device. rewrite (M_bind_run _ _ _ _ _ Hf). unfold mbind at 1, M_bind at 1.
  destruct (validate_auth_key_read (rd_auth_key request) d1) as (r & -> & [->|[e ->]]);
    [|by eexists; split; [done|]].
  unfold mbind at 1, M_bind at 1, lift.
  destruct (normalize_hostname_no_panic (rd_hostname request)) as [[h Hh]|[e Hh]]; rewrite Hh;
    [|by eexists; split; [done|]].
  unfold mbind, M_bind. destruct (allocate_ipv4 d1) as [ra da] eqn:Ea.
  unfold allocate_ipv4, mbind, M_bind, query, raise, mret, M_ret in Ea.
  rewrite (inv_allocations_length d1 Hi1), HL in Ea.
  destruct (254 <? _)%Z eqn:Hc; injection Ea as <- <-.
  - eexists. split; [done|]. to_prop. intros _ _ ?. lia.
  - destruct (register_commit_machine_taken now' ids request h
      ("100.64.0." +:+ dec (Z.of_nat (length (devices d)) + 2)) d1) as [name Hn].
    { rewrite Hmk. change (d_machine_key v) with (d_machine_key (set_deleted now v)). by apply list_elem_of_fmap_2. }
    rewrite Hn. by eexists; split; [done|]; eauto.
Qed.

(** C32: deleting a live device succeeds and takes it out of the network: its
    credentials no longer work, its DNS record is gone, and it is in neither the
    device list nor the network map of any other device; other devices stay. *)
Theorem delete_device_effects now d v now' state q key m d2 :
  db_inv d -> v ∈ devices d -> live v = true ->
  let d1 := after_delete now (d_id v) d in
  delete_device now (d_id v) d = (Ok 204%Z, d1) /\
  validate_device_node_key (d_id v) key d1 = (Err (unauthorized "invalid device credentials"), d1) /\
  d_id v ∉ r_device_id <$> dns_records d1 /\
  (forall l, list_devices d1 = (Ok l, d1) -> d_id v ∉ ds_id <$> l) /\
  (network_map now' state q d1 = (Ok m, d2) -> d_id v ∉ nmp_device_id <$> nm_peers m) /\
  (forall w, w ∈ devices d -> d_id w <> d_id v -> w ∈ devices d1).
Proof.
  intros Hi Hv Hl d1. split_and!; [by apply delete_device_run| | | | |].
  - apply validate_device_node_key_Err. intros w Hw Hid _. by eapply after_delete_not_live.
  - simpl. intros (r & Heq & Hr)%list_elem_of_fmap. apply elem_of_bfilter in Hr as [_ Hr].
    apply negb_true_iff in Hr. to_prop. congruence.
  - intros l [= <-] (s & Heq & Hs)%list_elem_of_fmap. apply list_elem_of_In, in_map_iff in Hs as (w & <- & Hw).
    apply list_elem_of_In, elem_of_sort_by, elem_of_bfilter in Hw as [Hw Hlw].
    by rewrite (after_delete_not_live now (d_id v) d w) in Hlw.
  - intros Hm (p & Heq & Hp)%list_elem_of_fmap. apply network_map_Ok in Hm as (self & _ & _ & ->).
    simpl in Hp. apply list_elem_of_fmap in Hp as (w & -> & Hw).
    apply elem_of_sort_by, elem_of_bfilter in Hw as [Hw Hpw]. to_prop.
    by rewrite (after_delete_not_live now (d_id v) d w) in *.
  - intros w Hw Hne. apply elem_of_update_where. exists w. split; [done|].
    by rewrite bool_decide_eq_false_2.
Qed.

(** C20: the network map of a device with the right node key lists exactly the
    other live devices, each with its address, credential, unexpired endpoints
    and its own address as the only route, and all DNS records; the query changes
    nothing. Without the right key it is refused with 401. *)
Theorem network_map_correct now state q d :
  db_inv d ->
  (forall self, self ∈ devices d -> live self = true -> d_id self = nmq_device_id q ->
     d_node_key self = nmq_node_key q ->
     exists m, network_map now state q d = (Ok m, d) /\
       nms_device_id (nm_self_device m) = d_id self /\ nms_ipv4 (nm_self_device m) = d_ipv4 self /\
       nm_peers m ≡ₚ peer_of now d <$>
         List.filter (fun r => negb (bool_decide (d_id r = nmq_device_id q)) && live r) (devices d) /\
       nm_dns_records m ≡ₚ dns_record <$> dns_records d /\ nm_relays m = relays state) /\
  ((forall v, v ∈ devices d -> d_id v = nmq_device_id q -> d_node_key v = nmq_node_key q -> live v = false) ->
   network_map now state q d = (Err (unauthorized "invalid device credentials"), d)).
Proof.
  intros Hi. split.
  - intros self Hs Hl Hid Hkey. unfold network_map.
    rewrite (M_bind_run _ _ _ _ _ (proj2 (validate_device_node_key_iff _ _ _)
      (ex_intro _ self (conj Hs (conj Hid (conj Hkey Hl)))))).
    destruct (List.find (fun r => bool_decide (d_id r = nmq_device_id q) && live r) (devices d))
      as [w|] eqn:Ef; cycle 1.
    { apply (find_None_elem _ _ self) in Ef; [|done]. simpl in Ef.
      by rewrite bool_decide_eq_true_2, Hl in Ef. }
    rewrite (M_bind_run (query _) _ d (Some w) d) by (unfold query; by rewrite Ef).
    apply find_elem_of in Ef as [Hw Hp]. to_prop.
    assert (w = self) as -> by (apply (NoDup_fmap_inj d_id (devices d)); [apply Hi| | |]; congruence).
    unfold mbind, M_bind, query at 1. rewrite load_peers_run. eexists. split; [done|]. simpl.
    split_and!; [done..| | |done].
    + apply fmap_Permutation, sort_by_perm.
    + change (map dns_record ?l) with (dns_record <$> l). apply fmap_Permutation, sort_by_perm.
  - intros Hno. unfold network_map, mbind, M_bind.
    by rewrite (validate_device_node_key_Err _ _ _ Hno).
Qed.

(** Host names: the accepted ones are exactly those whose trimmed, lower-case
    form has 1 to 63 letters, digits and inner hyphens; the result is that form,
    and it is accepted again unchanged. *)
Theorem hostname_normal_form value h :
  (normalize_hostname value = Ok h <-> h = to_ascii_lowercase (trim value) /\ valid_hostname h) /\
  (normalize_hostname value = Ok h -> normalize_hostname h = Ok h).
Proof.
  split; [apply normalize_hostname_Ok|]. intros [_ Hv]%normalize_hostname_Ok.
  apply normalize_hostname_Ok. by rewrite valid_hostname_fixed.
Qed.

(** Two registrations that overlap can both use a single-use key: when the
    second validates the key before the first commits, and allocates its address
    afterwards, both succeed. *)
Theorem single_use_key_race now ids1 ids2 req1 req2 d resp1 d1 h2 name row :
  db_inv d -> row ∈ auth_keys d -> ak_reusable row = 0%Z ->
  ak_key_hash row = hash_secret (rd_auth_key req1) -> rd_auth_key req2 = rd_auth_key req1 ->
  rd_machine_key req1 ∉ d_machine_key <$> devices d ->
  register_device now ids1 req1 d = (Ok resp1, d1) ->
  rd_machine_key req2 ∉ d_machine_key <$> devices d1 ->
  fresh_ids ids2 d1 -> (length (devices d1) < 253)%nat ->
  fst (available_dns_name NET_DEFAULT (new_id "dev" (u_device ids2)) h2 d1) = Ok name ->
  (* the second request: the key is validated in [d], the rest runs in [d1] *)
  validate_auth_key (rd_auth_key req2) d = (Ok tt, d) /\
  exists ipv4 resp2 d2, allocate_ipv4 d1 = (Ok ipv4, d1) /\
    register_commit now ids2 req2 h2 ipv4 d1 = (Ok resp2, d2) /\
    length (devices d2) = (length (devices d) + 2)%nat.
Proof.
  intros Hi Hrow Hr Hh Hkey Hmk1 H1 Hmk2 Hfresh Hpool Hname. rewrite Hkey.
  apply register_device_Ok in H1 as [[-> Hf]|(h1 & _ & Hv & Hlt & Hc)];
    [by rewrite find_existing_unknown in Hf|].
  split; [done|]. rewrite (inv_allocations_length d Hi) in Hc, Hlt.
  pose proof (register_commit_keeps _ _ _ _ _ _ d _ d1 Hi eq_refl ltac:(done) Hlt Hc) as [Hi1 _].
  apply register_commit_Ok in Hc as (n1 & _ & _ & Hd1 & _); [|done].
  destruct (register_commit_success now ids2 req2 h2 d1 name) as [d2 Hc2]; try done.
  do 3 eexists. split_and!; [|exact Hc2|].
  - unfold allocate_ipv4, mbind, M_bind, query. rewrite (inv_allocations_length d1 Hi1).
    by rewrite (proj2 (Z.ltb_ge _ _)) by lia.
  - apply register_commit_Ok in Hc2 as (n2 & _ & _ & Hd2 & _); [|done].
    rewrite Hd2, Hd1, !length_app. simpl. lia.
Qed.

End properties.

Section version.
Context `{E : ControlEnv, HL : !ControlEnvLaws E}.

Lemma filter_all {A} (p : A -> bool) l : (forall x, x ∈ l -> p x = true) -> List.filter p l = l.
Proof.
  induction l as [|x l IH]; [done|]. intros H. simpl. rewrite (H x) by (by left). f_equal.
  apply IH. intros y Hy. apply H. by right.
Qed.

(** Touching one live device moves its time in the sum of all times. *)
Lemma version_update now t0 d v :
  db_inv d -> v ∈ devices d -> live v = true -> (0 <= t0 < now)%Z -> (now < END_OF_TIME)%Z -> d_updated_at v = timestamp t0 ->
  let p r := bool_decide (d_id r = d_id v) && live r in
  let after := update_where p (set_seen now) (devices d) in
  length (List.filter live after) = length (List.filter live (devices d)) /\
  epoch_sum (map d_updated_at (List.filter live after)) =
    (epoch_sum (map d_updated_at (List.filter live (devices d))) + (now - t0))%Z.
Proof.
  intros Hi Hv Hl Ht Hend Hupd p after. pose proof (inv_device_ids d Hi) as Hnd. unfold after. clear after Hi.
  induction (devices d) as [|w l IH]; [by apply elem_of_nil in Hv|].
  rewrite fmap_cons in Hnd. apply NoDup_cons in Hnd as [Hw Hnd].
  unfold update_where in *. cbn [map].
  assert (live (if p w then set_seen now w else w) = live w) as Hlw by (by destruct (p w)).
  cbn [List.filter]. rewrite Hlw. apply elem_of_cons in Hv as [->|Hv].
  - assert (map (fun r => if p r then set_seen now r else r) l = l) as ->.
    { rewrite <- (map_id l) at 2. apply map_ext_in. intros r Hr. unfold p.
      rewrite bool_decide_eq_false_2; [done|]. intros Heq. apply Hw. rewrite <- Heq.
      apply list_elem_of_fmap_2. by apply list_elem_of_In. }
    rewrite Hl. unfold p. rewrite bool_decide_eq_true_2, Hl by done. cbn [map length epoch_sum foldr andb].
    split; [done|]. cbn [d_updated_at set_seen]. rewrite Hupd, !unixepoch_timestamp by lia. simpl. lia.
  - assert (p w = false) as Hpw.
    { unfold p. rewrite bool_decide_eq_false_2; [done|]. intros Heq. apply Hw. rewrite Heq.
      by apply list_elem_of_fmap_2. }
    rewrite Hpw. destruct (IH Hv Hnd) as [HLn HE]. destruct (live w); cbn [map length epoch_sum foldr].
    + unfold epoch_sum in HE. rewrite HE, HLn. split; [done|lia].
    + done.
Qed.

(** Every heartbeat changes the network map version, although nothing that
    the map contains changed: a heartbeat without endpoints, of a device last
    updated at [t0], adds the seconds since then to the version. *)
Theorem heartbeat_advances_version now t0 d v request :
  db_inv d -> v ∈ devices d -> live v = true ->
  hb_device_id request = d_id v -> hb_node_key request = d_node_key v -> hb_endpoints request = [] ->
  (0 <= t0 < now)%Z -> (now < END_OF_TIME)%Z -> d_updated_at v = timestamp t0 ->
  Forall (fun r => expired now r = false) (endpoints d) ->
  exists version resp d', network_map_version d = (Ok version, d) /\
    heartbeat now request d = (Ok resp, d') /\
    hbr_network_map_version resp = (version + (now - t0))%Z /\
    dns_records d' = dns_records d /\ endpoints d' = endpoints d /\
    (fun r => (d_id r, d_hostname r, d_ipv4 r, d_deleted_at r)) <$> devices d' =
    (fun r => (d_id r, d_hostname r, d_ipv4 r, d_deleted_at r)) <$> devices d.
Proof.
  intros Hi Hv Hl Hid Hkey Hep Ht Hend Hupd Hexp. do 3 eexists. split; [done|].
  unfold heartbeat. rewrite (M_bind_run _ _ d tt d); cycle 1.
  { apply validate_device_node_key_iff. exists v. by rewrite Hid, Hkey. }
  rewrite Hep, Hid. cbn [upsert_endpoints].
  assert (List.filter (fun r => negb (bool_decide (e_device_id r = d_id v) && expired now r)) (endpoints d)
    = endpoints d) as Hf.
  { apply filter_all. intros r Hr. by rewrite (proj1 (Forall_forall _ _) Hexp r Hr), andb_false_r. }
  unfold mbind, M_bind, transaction, update_device, modify, mret, M_ret, network_map_version, query.
  cbn [endpoints set_devices]. rewrite Hf. split; [done|]. cbn [hbr_network_map_version set_endpoints devices dns_records endpoints].
  split_and!; [|done|done|].
  - cbn [set_devices devices dns_records]. pose proof (version_update now t0 d v Hi Hv Hl Ht Hend Hupd) as [-> ->]. lia.
  - by apply fmap_update_where.
Qed.

End version.

Section migrations.
Context {S : Type} (execute : string -> S -> option S).

Lemma migration_applied_app s row s' version :
  migration_applied (S := S) s version = true -> migration_applied (S := S) (fst s ++ row, s') version = true.
Proof. unfold migration_applied. simpl. rewrite existsb_app. by intros ->. Qed.

Lemma apply_migrations_applied ms s s' b version :
  apply_migrations execute ms s = (b, s') ->
  migration_applied s version = true -> migration_applied s' version = true.
Proof.
  revert s. induction ms as [|m ms IH]; intros s; simpl; [by intros [= <- <-]|].
  destruct (migration_applied s (mig_version m)); [apply IH|].
  destruct (execute_all _ _ _); [|by intros [= <- <-]]. intros H Ha.
  eapply IH; [exact H|]. by apply migration_applied_app.
Qed.

Lemma apply_migrations_true ms s s' :
  apply_migrations execute ms s = (true, s') ->
  Forall (fun m => migration_applied s' (mig_version m) = true) ms.
Proof.
  revert s. induction ms as [|m ms IH]; intros s; simpl; [by constructor|].
  destruct (migration_applied s (mig_version m)) eqn:Ea.
  - intros H. constructor; [by eapply apply_migrations_applied|by eapply IH].
  - destruct (execute_all _ _ _) as [s1|]; [|done]. intros H. constructor; [|by eapply IH].
    eapply apply_migrations_applied; [exact H|]. unfold migration_applied. simpl.
    rewrite existsb_app. simpl. by rewrite Z.eqb_refl, orb_true_r.
Qed.

Lemma apply_migrations_done ms s :
  Forall (fun m => migration_applied s (mig_version m) = true) ms ->
  apply_migrations execute ms s = (true, s).
Proof. induction 1 as [|m ms Hm _ IH]; simpl; [done|]. by rewrite Hm. Qed.

Lemma apply_migrations_false ms s s' :
  apply_migrations execute ms s = (false, s') ->
  exists pre m post, ms = pre ++ m :: post /\
    Forall (fun m => migration_applied s' (mig_version m) = true) pre /\
    migration_applied s' (mig_version m) = false.
Proof.
  revert s. induction ms as [|m ms IH]; intros s; simpl; [done|].
  destruct (migration_applied s (mig_version m)) eqn:Ea.
  - intros H. destruct (IH s H) as (pre & m' & post & -> & Hp & Hm). exists (m :: pre), m', post.
    split_and!; [done| |done]. constructor; [by eapply apply_migrations_applied|done].
  - destruct (execute_all _ _ _) as [s1|].
    + intros H. destruct (IH _ H) as (pre & m' & post & -> & Hp & Hm). exists (m :: pre), m', post.
      split_and!; [done| |done]. constructor; [|done].
      eapply apply_migrations_applied; [exact H|]. unfold migration_applied. simpl.
      rewrite existsb_app. simpl. by rewrite Z.eqb_refl, orb_true_r.
    + intros [= <-]. by exists [], m, ms.
Qed.

(** The schema set-up can be restarted at will: when it succeeds, all four
    migrations are recorded and running it again changes nothing; when a
    statement fails, the migrations before it are recorded and kept and the
    failing one is not, so that the next start resumes there. *)
Theorem init_schema_restartable s b s' :
  init_schema execute s = (b, s') ->
  if b then
    Forall (fun m => migration_applied s' (mig_version m) = true) MIGRATIONS /\
    init_schema execute s' = (true, s')
  else
    exists pre m post, MIGRATIONS = pre ++ m :: post /\
      Forall (fun m => migration_applied s' (mig_version m) = true) pre /\
      migration_applied s' (mig_version m) = false /\
      init_schema execute s' = apply_migrations execute (m :: post) s'.
Proof.
  unfold init_schema. intros H. destruct b.
  - pose proof (apply_migrations_true _ _ _ H) as Hall. split; [done|]. by apply apply_migrations_done.
  - destruct (apply_migrations_false _ _ _ H) as (pre & m & post & Heq & Hpre & Hm).
    exists pre, m, post. split_and!; [done..|]. rewrite Heq.
    clear -Hpre. induction Hpre as [|x pre Hx _ IH]; [done|]. cbn [app apply_migrations]. by rewrite Hx.
Qed.

End migrations.

(** ** Witnesses *)

(** An environment: digests are the texts themselves, times are decimal. *)
Definition toy_env : ControlEnv := {|
  sha256_hex := of_bytes;
  timestamp := dec;
  unixepoch := parse_uint u64_max;
|}.

Lemma toy_env_laws : ControlEnvLaws toy_env.
Proof.
  split. intros t Ht. simpl. apply parse_uint_dec. unfold END_OF_TIME in Ht. unfold u64_max. lia.
Qed.

#[local] Existing Instance toy_env.

Definition toy_ids (s : string) : RegisterIds :=
  mkRegisterIds (s +:+ "1") (s +:+ "2") (s +:+ "3") (s +:+ "4").
Definition toy_register (key machine : string) : RegisterDeviceRequest :=
  mkRegisterDeviceRequest key " DevBox" machine "tfscale" "cred" "linux" "x86_64" "0.1".

(** A database with one key, [tfk_u]; the same after machine m1 registered with
    it. *)
Definition toy_db0 : db := snd (create_auth_key 10 "i" "u" empty_db).
Definition toy_db1 : db := snd (register_device 20 (toy_ids "a") (toy_register "tfk_u" "m1") toy_db0).
Definition toy_device : DeviceRow := new_device 20 (toy_ids "a") (toy_register "tfk_u" "m1") "devbox" (pool_ip 0).

Lemma toy_db0_inv : db_inv toy_db0.
Proof. by eapply create_auth_key_keeps; [apply db_inv_empty|apply surjective_pairing]. Qed.

Lemma toy_db1_inv : db_inv toy_db1.
Proof.
  eapply (register_commit_keeps 20 (toy_ids "a") (toy_register "tfk_u" "m1") "devbox" (pool_ip 0) 0 toy_db0);
    [apply toy_db0_inv|done|lia|lia|]. by vm_compute.
Qed.

Lemma control_invariant_witness : db_inv toy_db0.
Proof.
  apply (control_invariant toy_db0 []). eapply control_next; [apply control_start|apply step_create].
Defined.

Lemma register_creates_device_witness :
  exists d', register_device 20 (toy_ids "a") (toy_register "tfk_u" "m1") toy_db0 =
    (Ok (mkRegisterDeviceResponse "dev_a1" "node_a2" "100.64.0.2" "net_default" 5), d') /\
    devices d' = [toy_device].
Proof.
  destruct (register_creates_device 20 (toy_ids "a") (toy_register "tfk_u" "m1") toy_db0 "devbox" "devbox.mesh")
    as (d' & Hr & _ & Hd & _).
  - apply toy_db0_inv.
  - by_decide.
  - by vm_compute.
  - by vm_compute.
  - by_decide.
  - unfold fresh_ids. split_and!; by_decide.
  - by vm_compute.
  - by exists d'.
Defined.

Lemma register_idempotent_witness :
  register_device 30 (toy_ids "b") (toy_register "no key" "m1") toy_db1 =
    (Ok (mkRegisterDeviceResponse "dev_a1" "node_a2" "100.64.0.2" "net_default" 5), toy_db1).
Proof.
  apply (register_idempotent 20 (toy_ids "a") (toy_register "tfk_u" "m1") toy_db0);
    [apply toy_db0_inv|by vm_compute|reflexivity].
Defined.

Lemma single_use_key_spent_witness :
  register_device 30 (toy_ids "b") (toy_register "tfk_u" "m2") toy_db1 =
    (Err (unauthorized "auth key already used"), toy_db1).
Proof.
  apply (single_use_key_spent 20 (toy_ids "a") (toy_register "tfk_u" "m1") toy_db0
    (mkRegisterDeviceResponse "dev_a1" "node_a2" "100.64.0.2" "net_default" 5) toy_db1
    (mkAuthKeyRow "ak_i" "tfk_u" None None None 0 "10" None)).
  - apply toy_db0_inv.
  - by_decide.
  - by vm_compute.
  - by left.
  - by vm_compute.
  - reflexivity.
  - reflexivity.
  - by_decide.
Defined.

Lemma deleted_machine_locked_out_witness :
  exists e, register_device 50 (toy_ids "b") (toy_register "tfk_u" "m1")
    (snd (delete_device 40 "dev_a1" toy_db1)) = (Err e, snd (delete_device 40 "dev_a1" toy_db1)).
Proof.
  destruct (deleted_machine_locked_out 40 toy_db1 toy_device 50 (toy_ids "b") (toy_register "tfk_u" "m1"))
    as (e & He & _); [apply toy_db1_inv|by left|reflexivity|reflexivity|]. by exists e.
Defined.

Lemma delete_device_effects_witness :
  delete_device 40 "dev_a1" toy_db1 = (Ok 204%Z, after_delete 40 "dev_a1" toy_db1).
Proof.
  apply (delete_device_effects 40 toy_db1 toy_device 50 (mkAppState (mkSocketAddr (V4 LOCALHOST) 1) [])
    (mkNetworkMapQuery "x" "y") "k" (mkNetworkMapResponse 0 (mkNetworkMapSelf "a" "b" "c" "d") [] [] []) toy_db1);
    [apply toy_db1_inv|by left|reflexivity].
Defined.

Lemma network_map_correct_witness :
  exists m, network_map 30 (mkAppState (mkSocketAddr (V4 LOCALHOST) 1) [])
      (mkNetworkMapQuery "dev_a1" "node_a2") toy_db1 = (Ok m, toy_db1) /\
    nms_ipv4 (nm_self_device m) = "100.64.0.2".
Proof.
  destruct (proj1 (network_map_correct 30 (mkAppState (mkSocketAddr (V4 LOCALHOST) 1) [])
    (mkNetworkMapQuery "dev_a1" "node_a2") toy_db1 toy_db1_inv) toy_device) as (m & Hm & _ & Hip & _);
    [by left|reflexivity..|]. by exists m.
Defined.

Lemma single_use_key_race_witness :
  validate_auth_key "tfk_u" toy_db0 = (Ok tt, toy_db0) /\
  exists ipv4 resp2 d2, allocate_ipv4 toy_db1 = (Ok ipv4, toy_db1) /\
    register_commit 20 (toy_ids "b") (toy_register "tfk_u" "m2") "devbox" ipv4 toy_db1 = (Ok resp2, d2) /\
    length (devices d2) = 2%nat.
Proof.
  apply (single_use_key_race 20 (toy_ids "a") (toy_ids "b") (toy_register "tfk_u" "m1")
    (toy_register "tfk_u" "m2") toy_db0
    (mkRegisterDeviceResponse "dev_a1" "node_a2" "100.64.0.2" "net_default" 5) toy_db1 "devbox" "devbox-b1.mesh"
    (mkAuthKeyRow "ak_i" "tfk_u" None None None 0 "10" None)).
  - apply toy_db0_inv.
  - by left.
  - reflexivity.
  - by vm_compute.
  - reflexivity.
  - by_decide.
  - by vm_compute.
  - by_decide.
  - unfold fresh_ids. split_and!; by_decide.
  - by_decide.
  - by vm_compute.
Defined.

Lemma heartbeat_advances_version_witness :
  exists version resp d', network_map_version toy_db1 = (Ok version, toy_db1) /\
    heartbeat 30 (mkHeartbeatRequest "dev_a1" "node_a2" [] (mkBackendStatusPayload "t" "i" true)) toy_db1 =
      (Ok resp, d') /\ hbr_network_map_version resp = (version + 10)%Z.
Proof.
  destruct (@heartbeat_advances_version toy_env toy_env_laws 30 20 toy_db1 toy_device
    (mkHeartbeatRequest "dev_a1" "node_a2" [] (mkBackendStatusPayload "t" "i" true)))
    as (version & resp & d' & Hv & Hh & Hw & _).
  - apply toy_db1_inv.
  - by left.
  - reflexivity.
  - reflexivity.
  - reflexivity.
  - reflexivity.
  - lia.
  - by_decide.
  - by vm_compute.
  - by_decide.
  - by exists version, resp, d'.
Defined.

Lemma init_schema_restartable_witness :
  exists s', init_schema (fun stmt n => Some (n + 1)%nat) ([], 0%nat) = (true, s') /\
    init_schema (fun stmt n => Some (n + 1)%nat) s' = (true, s') /\ snd s' = 11%nat.
Proof.
  eexists. split; [by vm_compute|]. split; [|by vm_compute].
  apply (init_schema_restartable (fun stmt n => Some (n + 1)%nat) ([], 0%nat) true). by vm_compute.
Defined.

(** A database whose 253 devices were all deleted. *)
Definition toy_deleted (k : nat) : DeviceRow :=
  mkDeviceRow (dec (Z.of_nat k)) NET_DEFAULT "h" (dec (Z.of_nat k)) "n" "tfscale" "cred" (pool_ip k)
    "linux" "x86_64" "0.1" None "1" "2" (Some "2").
Definition toy_full : db :=
  mkDb [] (toy_deleted <$> seq 0 253)
    ((fun k => mkIpRow (dec (Z.of_nat k)) NET_DEFAULT (dec (Z.of_nat k)) (pool_ip k) "assigned" "1" None) <$> seq 0 253)
    [] [].

Lemma toy_full_inv : db_inv toy_full.
Proof.
  split; try by_decide; try by vm_compute.
  - intros r Hr. by apply elem_of_nil in Hr.
  - intros v (k & -> & _)%list_elem_of_fmap Hl. done.
Qed.

Lemma pool_exhausted_witness :
  exists e, register_device 50 (toy_ids "b") (toy_register "tfk_u" "m1")
    (snd (delete_device 40 "0" toy_full)) = (Err e, snd (delete_device 40 "0" toy_full)).
Proof.
  apply (pool_exhausted 40 "0" toy_full (toy_ids "b") (toy_register "tfk_u" "m1") 50);
    [apply toy_full_inv|by vm_compute|by_decide].
Defined.
