(* ===== verification/BackendProps.v ===== *)
(** * Custom backend: properties of the operations

    What a backend keeps when its runtime state is rebuilt ([rebuilt]), the
    stability of credentials, the lock that is taken twice, and the probe of the
    public address against the server of the control plane.  The witnesses use a
    state file format of their own, a state as a number in binary. *)

From Stdlib Require Import ZArith Lia Ascii.
From stdpp Require Import prelude list strings gmap.
From S2P Require Import Prelude RustStd Protocol Frame Nonce Crypto Transport Runtime RuntimeProps.
From S2P Require Import Backend ControlDb Control.

(** ** Rebuilding sessions *)

(** The parts of a stored peer that its session is built from. *)
Definition same_peer (p q : StoredPeerSession) : Prop :=
  sp_device_id p = sp_device_id q /\ sp_public_key p = sp_public_key q /\
  sp_endpoints p = sp_endpoints q /\ sp_overlay_ip p = sp_overlay_ip q.

(** A rebuilt session: the keys of the old one and an empty window. *)
Definition rebuilt (old new : PeerTransportSession) : Prop :=
  same_keys (pts_crypto old) (pts_crypto new) /\ pts_endpoint new = pts_endpoint old /\
  receive_window (pts_crypto new) = ReplayWindow_default /\ counter (send_nonces (pts_crypto new)) = 0%Z.

Definition rebuilt_map (m1 m2 : gmap string PeerTransportSession) : Prop :=
  forall d se, m1 !! d = Some se -> exists se', m2 !! d = Some se' /\ rebuilt se se'.

Section rebuild.
Context `{P : CryptoPrims}.

Lemma new_rebuilt salt1 x k c1 c2 i j s :
  PeerCryptoSession_new salt1 k c1 c2 i j = Ok s ->
  exists t, PeerCryptoSession_new (Some x) k c1 c2 i j = Ok t /\ same_keys s t /\
    receive_window t = ReplayWindow_default /\ counter (send_nonces t) = 0%Z.
Proof.
  unfold PeerCryptoSession_new. destruct (shared_secret k c2) as [y| |]; try done. cbn [mbind res_bind].
  destruct (derive_session_key _ _ _ _ _) as [key| |]; try done. cbn [mbind res_bind].
  destruct (derive_direction_prefix y i j) as [p| |]; try done. cbn [mbind res_bind].
  destruct (derive_direction_prefix y j i) as [q| |]; try done. cbn [mbind res_bind].
  unfold SendNonceState_new. destruct salt1; try done. cbn [ok_or mbind res_bind].
  intros [= <-]. by eexists.
Qed.

Lemma build_sessions_rebuilt salts1 salts2 lid key identity peers1 peers2 :
  Forall2 same_peer peers1 peers2 -> (forall d, is_Some (salts2 d)) ->
  forall m1 m2 out1, rebuilt_map m1 m2 ->
  build_sessions salts1 lid key identity peers1 m1 = Ok out1 ->
  exists out2, build_sessions salts2 lid key identity peers2 m2 = Ok out2 /\ rebuilt_map out1 out2.
Proof.
  intros Hall Hs. induction Hall as [|p q peers1 peers2 (Hid & Hkey & Hep & Hip) _ IH];
    intros m1 m2 out1 Hm H; simpl in *.
  { injection H as <-. eauto. }
  rewrite <- Hid, <- Hkey, <- Hep, <- Hip. destruct (from_device_id _ _) as [pid| |]; try done.
  cbn [mbind res_bind] in *. destruct (select_udp_endpoint _) as [ep|]; [|by eapply IH].
  destruct (PeerCryptoSession_new (salts1 _) _ _ _ _ _) as [c| |] eqn:Ec; try done.
  cbn [mbind res_bind] in H. destruct (Hs (sp_device_id p)) as [x Hx].
  destruct (new_rebuilt _ x _ _ _ _ _ _ Ec) as (t & Ht & Hk & Hw & Hc). rewrite Hx, Ht. cbn [mbind res_bind].
  eapply IH; [|exact H]. intros d se. destruct (decide (sp_device_id p = d)) as [->|Hne].
  - rewrite !lookup_insert_eq. intros [= <-]. eexists; split; [done|]. by split_and!.
  - rewrite !lookup_insert_ne by done. apply Hm.
Qed.

Lemma build_peer_transport_sessions_rebuilt salts1 salts2 st1 st2 out1 :
  st_identity st1 = st_identity st2 -> st_local_config st1 = st_local_config st2 ->
  Forall2 same_peer (st_peers st1) (st_peers st2) -> (forall d, is_Some (salts2 d)) ->
  build_peer_transport_sessions salts1 st1 = Ok out1 ->
  exists out2, build_peer_transport_sessions salts2 st2 = Ok out2 /\ rebuilt_map out1 out2.
Proof.
  intros Hi Hc Hp Hs. unfold build_peer_transport_sessions. rewrite <- Hi, <- Hc.
  destruct (st_identity st1), (st_local_config st1); try (intros [= <-]; by exists ∅).
  destruct (from_device_id _ _); try done. cbn [mbind res_bind].
  destruct (decode_key _); try done. cbn [mbind res_bind].
  apply build_sessions_rebuilt; [done..|]. by intros d se.
Qed.

Lemma build_sessions_bad_peer salts lid key identity peers : forall m peer e,
  peer ∈ peers -> from_device_id uuid_parse (sp_device_id peer) = Err e ->
  is_ok (build_sessions salts lid key identity peers m) = false.
Proof.
  induction peers as [|p peers IH]; intros m peer e Hin He; [by apply elem_of_nil in Hin|]. simpl.
  apply elem_of_cons in Hin as [->|Hin]; [by rewrite He|].
  destruct (from_device_id _ (sp_device_id p)); try done. cbn [mbind res_bind].
  destruct (select_udp_endpoint _); [|by eapply IH].
  destruct (PeerCryptoSession_new _ _ _ _ _ _); try done. cbn [mbind res_bind]. by eapply IH.
Qed.

Lemma derive_encoded `{HL : !CryptoLaws P} secret :
  Bytes secret -> length secret = 32%nat ->
  derive_public_credential (encode_key secret) = Ok (encode_public_credential (x25519_public secret)).
Proof.
  intros Hb Hl. unfold derive_public_credential, decode_key, decode_base64_key, encode_key.
  rewrite base64_roundtrip by done. cbn [ok_or mbind res_bind]. unfold key32. by rewrite Hl.
Qed.

End rebuild.

(** The answer of the probe server fits the buffer of the probe. *)
Lemma probe_response_fits a port :
  Ipv4_wf a -> is_u16 port -> (length (encode_probe_response (mkSocketAddr (V4 a) port)) <= 256)%nat.
Proof.
  destruct a as [a b c d]. intros Ha Hp. unfold Ipv4_wf, octets, Bytes in Ha. rewrite !Forall_cons in Ha.
  destruct Ha as (Ha & Hb & Hc & Hd & _). apply octet_text_length in Ha, Hb, Hc, Hd. apply port_text_length in Hp.
  unfold encode_probe_response. cbn [ip sa_port ip_to_string]. unfold ipv4_to_string.
  rewrite !as_bytes_app, !length_app. change (length (as_bytes ".")) with 1%nat.
  change (length (as_bytes " ")) with 1%nat. change (length (as_bytes "tfscale-public-probe-v1 ")) with 24%nat.
  lia.
Qed.

(** ** Properties *)

Section properties.
Context `{P : CryptoPrims}.
Context (os_send : SocketAddr -> list Z -> io Z).
Context (to_json : CustomBackendState -> string) (from_json : string -> option CustomBackendState).
(** The state file can be read back. *)
Context (json_roundtrip : forall s, from_json (to_json s) = Some s).
Context (salts : string -> option (list Z)).

(** C37: applying a peer map resets the runtime: afterwards no relay is known and
    the relay sender is the null one, also when a relay map was applied just
    before; every path is unknown; and replay protection is lost, since a frame
    that a session opened before is opened again by the session that replaces it.
    TUN device, transport and tasks are kept. *)
Theorem peer_map_resets_runtime now peers relays self self1 state sessions ss0 d se s' f o s'' :
  load_state from_json self = Ok state ->
  collect_res (peer_to_session now) peers = Ok sessions -> Forall2 same_peer (st_peers state) sessions ->
  apply_peer_map to_json from_json salts fs_ok now peers (apply_relay_map relays self) = (Ok tt, self1) ->
  (forall d, is_Some (salts d)) -> build_peer_transport_sessions salts state = Ok ss0 ->
  ss0 !! d = Some se -> same_keys (pts_crypto se) s' -> open_message s' f = (Ok o, s'') ->
  rt_relays (runtime self1) = [] /\ relay_sender (runtime self1) = NullRelayFrameSender /\
  transport (runtime self1) = transport (runtime self) /\
  tun_device (runtime self1) = tun_device (runtime self) /\
  transport_tasks (runtime self1) = transport_tasks (runtime self) /\
  (forall d' p, peer_path_state_by_device (runtime self1) !! d' = Some p -> p = PeerPathState_default) /\
  exists se1 t, peer_transport_sessions_by_device (runtime self1) !! d = Some se1 /\
    open_message (pts_crypto se1) f = (Ok o, t).
Proof.
  intros Hload Hcol Hsame Happ Hsalts Hbuild Hd Hkeys Hopen. unfold apply_peer_map in Happ.
  change (load_state from_json (apply_relay_map relays self)) with (load_state from_json self) in Happ.
  rewrite Hload in Happ. cbn [mbind res_bind] in Happ. rewrite Hcol in Happ. cbn [mbind res_bind] in Happ.
  unfold replace_state, save_state in Happ. cbn [fs_ok fs_create_dir fs_write fs_rename fs_chmod io_err mbind res_bind] in Happ.
  apply pair_equal_spec in Happ as [_ <-].
  set (st2 := mkCustomBackendState _ _ _ _).
  destruct (build_peer_transport_sessions_rebuilt salts salts state st2 ss0) as (out2 & Hb2 & Hm); try done.
  destruct (Hm d se Hd) as (se1 & Hse1 & Hk1 & _ & Hw1 & _).
  split_and!; try done.
  - intros d' p. cbn [runtime set_runtime set_disk rebuild set_tasks set_transport set_tun
      peer_path_state_by_device from_persisted]. unfold collect_map.
    assert (forall l (m : gmap string PeerPathState),
      (forall d' p, m !! d' = Some p -> p = PeerPathState_default) ->
      fold_left (fun m kv => <[fst kv := snd kv]> m)
        ((fun peer => (sp_device_id peer, PeerPathState_default)) <$> l) m !! d' = Some p ->
      p = PeerPathState_default) as Hf.
    { induction l as [|peer l IH]; intros m Hmm; [apply Hmm|]. simpl. apply IH.
      intros d2 p2 [[_ <-]|[_ ?]]%lookup_insert_Some; [done|by eapply Hmm]. }
    apply Hf. by intros ? ?.
  - destruct (open_again s' (pts_crypto se1) f o s'') as [t Ht]; [|done|done|].
    { destruct Hkeys as (? & ? & ? & ?), Hk1 as (? & ? & ? & ?). unfold same_keys. split_and!; congruence. }
    exists se1, t. split; [|done]. cbn [runtime set_runtime set_disk rebuild set_tasks set_transport set_tun
      peer_transport_sessions_by_device from_persisted]. by rewrite Hb2.
Qed.

(** Setting up the interface never returns: when the TUN device can be
    created and the socket bound, [apply_local_config] waits for the mutex of the
    runtime state that it holds itself. *)
Theorem local_config_deadlocks state device t config self :
  load_state from_json self = Ok state -> tun_setup_enabled self = true ->
  apply_local_config to_json from_json salts fs_ok (Ok device) (Ok t) config self = None.
Proof.
  intros Hload Hen. unfold apply_local_config. rewrite Hload.
  unfold replace_state, save_state. cbn [fs_ok fs_create_dir fs_write fs_rename fs_chmod io_err mbind res_bind].
  set (st2 := mkCustomBackendState _ _ _ _).
  assert (validate_state_version st2 = Ok tt) as Hv.
  { unfold load_state in Hload. unfold validate_state_version, st2 in *. cbn [st_version].
    destruct (disk self) as [text|]; [|by injection Hload as <-].
    destruct (from_json text) as [s0|]; [|done]. cbn [ok_or mbind res_bind] in Hload.
    destruct (negb _) eqn:E in Hload; [done|]. injection Hload as <-. by rewrite E. }
  unfold load_state. cbn [disk set_runtime set_disk]. rewrite json_roundtrip.
  cbn [ok_or mbind res_bind]. rewrite Hv. cbn [mbind res_bind st_local_config st2 tun_setup_enabled set_runtime set_disk].
  rewrite Hen. cbn [negb]. unfold set_tun_device, start_transport_tasks, bind_transport.
  cbn [runtime set_runtime set_tun transport_tasks tun_device transport].
  rewrite (bool_decide_eq_false_2 (Some device = None)) by done. rewrite orb_false_r.
  destruct (bool_decide _ || _); [|done]. cbn [mbind option_bind].
  unfold start_transport_tasks. cbn [runtime set_runtime stop_transport_tasks set_tasks set_transport
    transport_tasks tun_device transport set_tun].
  rewrite (bool_decide_eq_false_2 (is_Some None)) by (by intros [? ?]).
  by rewrite !(bool_decide_eq_false_2 (Some _ = None)) by done.
Qed.

(** Credentials are created once: the first call on a fresh backend creates an
    identity and stores it, and every later call returns the same credential and
    leaves the file alone; the credential is the one derived from the stored
    private key. *)
Theorem credentials_stable `{HL : !CryptoLaws P} now uuid secret self c self1 now' uuid' secret' fs' :
  length secret = 32%nat -> Bytes secret -> disk self = None ->
  ensure_credentials to_json from_json salts fs_ok now uuid secret self = (Ok c, self1) ->
  c = mkBackendCredential (encode_public_credential (x25519_public secret)) /\
  exists self2, ensure_credentials to_json from_json salts fs' now' uuid' secret' self1 = (Ok c, self2) /\
    disk self2 = disk self1.
Proof.
  intros Hl Hb Hd H. unfold ensure_credentials, load_state in H. rewrite Hd in H.
  cbn [CustomBackendState_default st_identity] in H.
  unfold replace_state, save_state in H. cbn [fs_ok fs_create_dir fs_write fs_rename fs_chmod io_err mbind res_bind] in H.
  apply pair_equal_spec in H as [Hc <-]. cbn [fmap res_fmap generate_identity public_key] in Hc.
  apply (inj Ok) in Hc as <-. split; [done|].
  unfold ensure_credentials, load_state. cbn [disk set_runtime set_disk]. rewrite json_roundtrip.
  cbn [ok_or mbind res_bind]. match goal with |- context [validate_state_version ?x] =>
    change (validate_state_version x) with (Ok (E := BackendError) tt) end.
  cbn [mbind res_bind st_identity generate_identity private_key public_key].
  rewrite derive_encoded by done. rewrite bool_decide_eq_true_2 by done. cbn [negb].
  eexists. by split.
Qed.

(** One peer whose device id is not a UUID disables the data plane: no session
    is built for any peer, so that every packet is refused. *)
Theorem bad_peer_disables_all relay_connect relay_write st peer e packet :
  peer ∈ st_peers st -> from_device_id uuid_parse (sp_device_id peer) = Err e ->
  peer_transport_sessions_by_device (from_persisted salts st) = ∅ /\
  is_ok (fst (send_overlay_packet os_send relay_connect relay_write (from_persisted salts st) packet)) = false.
Proof.
  intros Hin He. assert (peer_transport_sessions_by_device (from_persisted salts st) = ∅) as H0.
  { cbn [from_persisted peer_transport_sessions_by_device]. unfold build_peer_transport_sessions.
    destruct (st_identity st) as [i|], (st_local_config st) as [c|]; try done.
    destruct (from_device_id _ (lc_device_id c)); try done. cbn [mbind res_bind].
    destruct (decode_key _); try done. cbn [mbind res_bind].
    pose proof (build_sessions_bad_peer salts a a0 i (st_peers st) ∅ peer e Hin He) as Hb.
    by destruct (build_sessions _ _ _ _ _ _). }
  split; [done|]. unfold send_overlay_packet. destruct (ipv4_destination packet); try done.
  destruct (_ !! _); [|done]. rewrite H0. by rewrite lookup_empty.
Qed.

(** A public endpoint probe observes the sender: the probe server of the
    control plane answers a request with the address it came from, and the backend
    reads exactly that address from the answer, whatever datagrams of other
    sources arrive before it. *)
Theorem public_probe_observes_source self server addr port skipped rest :
  Ipv4_wf addr -> is_u16 port ->
  Forall (fun a => match a with
                   | (inr (_, source), _) => source <> server
                   | (inl k, passed) => k = WouldBlock /\ passed = false
                   end) skipped ->
  exists reply t, udp_probe_turn PUBLIC_ENDPOINT_PROBE_REQUEST (mkSocketAddr (V4 addr) port) = Some reply /\
    probe_loop self server (skipped ++ (inr (reply, server), false) :: rest) =
    Some (Ok (Some (mkPublicEndpointProbe (mkEndpoint Public (V4 addr) port Udp))), t).
Proof.
  intros Ha Hp Hsk. exists (encode_probe_response (mkSocketAddr (V4 addr) port)).
  assert (forall self, exists t, probe_loop self server
    (skipped ++ (inr (encode_probe_response (mkSocketAddr (V4 addr) port), server), false) :: rest) =
    Some (decode_probe_response (encode_probe_response (mkSocketAddr (V4 addr) port)), t)) as Hl.
  { induction Hsk as [|[[k|[bytes source]] passed] l Hx _ IH]; intros s0; cbn [app probe_loop].
    - rewrite bool_decide_eq_true_2 by done. rewrite take_ge by (by apply (probe_response_fits addr port)). by eexists.
    - destruct Hx as [-> ->]. apply IH.
    - rewrite bool_decide_eq_false_2 by done. apply IH. }
  destruct (Hl self) as [t Ht]. exists t. rewrite Ht, decode_encode_probe by done. by split.
Qed.

End properties.

(** ** Witnesses

    A state file format: a state as a number, written in binary. *)

#[export] Instance CustomIdentity_eq_dec : EqDecision CustomIdentity.
Proof. solve_decision. Defined.
#[export] Instance LocalBackendConfig_eq_dec : EqDecision LocalBackendConfig.
Proof. solve_decision. Defined.
#[export] Instance StoredPeerSession_eq_dec : EqDecision StoredPeerSession.
Proof. solve_decision. Defined.
#[export] Instance CustomBackendState_eq_dec : EqDecision CustomBackendState.
Proof. solve_decision. Defined.

#[export] Instance CustomIdentity_countable : Countable CustomIdentity.
Proof.
  refine (inj_countable' (fun x => (key_id x, scheme x, private_key x, public_key x,
      created_at_unix_seconds x, rotated_from x))
    (fun '(a, b, c, d, e, f) => mkCustomIdentity a b c d e f) _). by intros [].
Defined.
#[export] Instance LocalBackendConfig_countable : Countable LocalBackendConfig.
Proof.
  refine (inj_countable' (fun x => (lc_device_id x, lc_interface_name x, lc_overlay_ip x, lc_listen_port x))
    (fun '(a, b, c, d) => mkLocalBackendConfig a b c d) _). by intros [].
Defined.
#[export] Instance IpAddr_countable : Countable IpAddr.
Proof.
  refine (inj_countable' (fun x => match x with V4 a => inl a | V6 l => inr l end)
    (fun x => match x with inl a => V4 a | inr l => V6 l end) _). by intros [].
Defined.
#[export] Instance Endpoint_countable : Countable Endpoint.
Proof.
  refine (inj_countable' (fun x =>
      (match ep_kind x with Lan => 0 | Public => 1 | Ipv6Kind => 2 | Relay => 3 end, ep_address x, ep_port x,
       bool_decide (ep_protocol x = Udp)))
    (fun '(k, a, p, u) => mkEndpoint
      (match k with 0 => Lan | 1 => Public | 2 => Ipv6Kind | _ => Relay end) a p (if u : bool then Udp else Tcp)) _).
  by intros [[] a p []].
Defined.
#[export] Instance StoredPeerSession_countable : Countable StoredPeerSession.
Proof.
  refine (inj_countable' (fun x => (sp_device_id x, sp_hostname x, sp_overlay_ip x, sp_public_key x,
      sp_endpoints x, sp_allowed_routes x, sp_last_updated_at_unix_seconds x))
    (fun '(a, b, c, d, e, f, g) => mkStoredPeerSession a b c d e f g) _). by intros [].
Defined.
#[export] Instance CustomBackendState_countable : Countable CustomBackendState.
Proof.
  refine (inj_countable' (fun x => (st_version x, st_identity x, st_local_config x, st_peers x))
    (fun '(a, b, c, d) => mkCustomBackendState a b c d) _). by intros [].
Defined.

Fixpoint binary (p : positive) : string :=
  match p with
  | xH => EmptyString
  | xO q => String "0"%char (binary q)
  | xI q => String "1"%char (binary q)
  end.
Fixpoint unbinary (s : string) : positive :=
  match s with
  | EmptyString => xH
  | String c s => if bool_decide (c = "0"%char) then xO (unbinary s) else xI (unbinary s)
  end.
Definition toy_to_json (s : CustomBackendState) : string := binary (encode s).
Definition toy_from_json (t : string) : option CustomBackendState := decode (unbinary t).

Lemma unbinary_binary p : unbinary (binary p) = p.
Proof. induction p as [p IH|p IH|]; simpl; by rewrite ?IH. Qed.

Lemma toy_json_roundtrip s : toy_from_json (toy_to_json s) = Some s.
Proof. unfold toy_from_json, toy_to_json. rewrite unbinary_binary. apply decode_encode. Qed.

Definition toy_device_a : string := "dev_aaaaaaaaaaaaaaaa".
Definition toy_device_b : string := "dev_bbbbbbbbbbbbbbbb".
Definition toy_credential (key : list Z) : string := @encode_public_credential toy_prims key.
Definition toy_identity : CustomIdentity :=
  mkCustomIdentity "kid_1" IDENTITY_SCHEME (of_bytes key_a) (toy_credential key_a) 0 None.
Definition toy_config : LocalBackendConfig :=
  mkLocalBackendConfig toy_device_a "tfscale0" (Ipv4 100 64 0 2) 7777.
Definition toy_peer (device : string) : StoredPeerSession :=
  mkStoredPeerSession device "b" toy_overlay (toy_credential key_b) [toy_endpoint] [] 0.
Definition toy_state (device : string) : CustomBackendState :=
  mkCustomBackendState STATE_VERSION (Some toy_identity) (Some toy_config) [toy_peer device].
Definition toy_salts (d : string) : option (list Z) := Some (replicate 8 4%Z).
Definition toy_backend : CustomBackend :=
  mkCustomBackend "tfscale0" (Some (toy_to_json (toy_state toy_device_b)))
    (@from_persisted toy_prims toy_salts (toy_state toy_device_b)) true.
Definition toy_tun : TunDevice := mkTunDevice (TunStatus_configured "tfscale0") [].

Lemma toy_backend_loads : load_state toy_from_json toy_backend = Ok (toy_state toy_device_b).
Proof. unfold load_state. cbn [disk toy_backend]. by rewrite toy_json_roundtrip. Qed.

Lemma local_config_deadlocks_witness :
  @apply_local_config toy_prims toy_to_json toy_from_json toy_salts fs_ok (Ok toy_tun) (Ok toy_transport)
    toy_config toy_backend = None.
Proof.
  apply (@local_config_deadlocks toy_prims toy_to_json toy_from_json toy_json_roundtrip toy_salts
    (toy_state toy_device_b)); [apply toy_backend_loads|reflexivity].
Defined.

(** The backend after its first [ensure_credentials]. *)
Definition credentials_call (self : CustomBackend) (now : Z) (uuid : string) (key : list Z)
    : res BackendError BackendCredential * CustomBackend :=
  @ensure_credentials toy_prims toy_to_json toy_from_json toy_salts fs_ok now uuid key self.

Lemma credentials_call_first :
  credentials_call (with_state_path "tfscale0" None) 0 "1" key_a =
  (Ok (mkBackendCredential (toy_credential key_a)),
   snd (credentials_call (with_state_path "tfscale0" None) 0 "1" key_a)).
Proof. unfold credentials_call, ensure_credentials, load_state. reflexivity. Qed.

Lemma credentials_stable_witness :
  exists self2,
    credentials_call (snd (credentials_call (with_state_path "tfscale0" None) 0 "1" key_a)) 9 "2" key_b =
    (Ok (mkBackendCredential (toy_credential key_a)), self2) /\
    disk self2 = disk (snd (credentials_call (with_state_path "tfscale0" None) 0 "1" key_a)).
Proof.
  refine (proj2 (@credentials_stable toy_prims toy_to_json toy_from_json toy_json_roundtrip toy_salts toy_laws
    0 "1" key_a (with_state_path "tfscale0" None) _ _ 9 "2" key_b fs_ok eq_refl _ eq_refl credentials_call_first)).
  by_decide.
Defined.

Lemma bad_peer_disables_all_witness :
  peer_transport_sessions_by_device (@from_persisted toy_prims toy_salts (toy_state "dev_bad")) = ∅.
Proof.
  apply (@bad_peer_disables_all toy_prims (fun _ _ => inr 0%Z) toy_salts (fun _ => inr tt) (fun _ => inr tt)
    (toy_state "dev_bad") (toy_peer "dev_bad") (failed_with UuidError) toy_packet);
    [by left|reflexivity].
Defined.

Lemma public_probe_observes_source_witness :
  let server := mkSocketAddr (V4 (Ipv4 10 0 0 1)) 9999 in
  let other := mkSocketAddr (V4 (Ipv4 10 0 0 8)) 53 in
  exists reply t,
    udp_probe_turn PUBLIC_ENDPOINT_PROBE_REQUEST (mkSocketAddr (V4 (Ipv4 203 0 113 7)) 41641) = Some reply /\
    probe_loop toy_transport server [(inr ([1%Z], other), false); (inl WouldBlock, false); (inr (reply, server), false)] =
    Some (Ok (Some (mkPublicEndpointProbe (mkEndpoint Public (V4 (Ipv4 203 0 113 7)) 41641 Udp))), t).
Proof.
  apply (public_probe_observes_source toy_transport (mkSocketAddr (V4 (Ipv4 10 0 0 1)) 9999)
    (Ipv4 203 0 113 7) 41641 [(inr ([1%Z], mkSocketAddr (V4 (Ipv4 10 0 0 8)) 53), false); (inl WouldBlock, false)] []).
  - by_decide.
  - by_decide.
  - repeat constructor. congruence.
Defined.

Definition toy_peer_config : PeerConfig :=
  mkPeerConfig toy_device_b "b" toy_overlay (mkBackendCredential (toy_credential key_b)) [toy_endpoint] [].
Definition peer_map_call : res BackendError unit * CustomBackend :=
  @apply_peer_map toy_prims toy_to_json toy_from_json toy_salts fs_ok 60 [toy_peer_config]
    (apply_relay_map [toy_relay] toy_backend).

Lemma load_state_relay_map from_json relays self :
  load_state from_json (apply_relay_map relays self) = load_state from_json self.
Proof. done. Qed.

Lemma peer_map_call_ok :
  @apply_peer_map toy_prims toy_to_json toy_from_json toy_salts fs_ok 60 [toy_peer_config]
    (apply_relay_map [toy_relay] toy_backend) = (Ok tt, snd peer_map_call).
Proof.
  unfold peer_map_call, apply_peer_map. rewrite load_state_relay_map, toy_backend_loads. reflexivity.
Qed.

(** The session of the stored peer, and a frame that the peer seals for it. *)
Definition toy_session (self peer : list Z) (i j : string) : PeerCryptoSession :=
  match @PeerCryptoSession_new toy_prims (Some (replicate 8 4%Z)) self (toy_credential self)
          (toy_credential peer) (as_bytes i) (as_bytes j) with
  | Ok s => s
  | _ => end_a 0
  end.
Definition toy_local : PeerCryptoSession := toy_session key_a key_b "aaaaaaaaaaaaaaaa" "bbbbbbbbbbbbbbbb".
Definition toy_remote : PeerCryptoSession := toy_session key_b key_a "bbbbbbbbbbbbbbbb" "aaaaaaaaaaaaaaaa".
Definition toy_sealed : list Z :=
  default [] (res_ok (fst (@seal_message toy_prims toy_remote [1%Z] FRAME_TYPE_DATA))).

Lemma peer_map_resets_runtime_witness :
  rt_relays (runtime (snd peer_map_call)) = [] /\
  exists se1 t, peer_transport_sessions_by_device (runtime (snd peer_map_call)) !! toy_device_b = Some se1 /\
    @open_message toy_prims (pts_crypto se1) toy_sealed = (Ok (mkOpenFrame 1 [1%Z]), t).
Proof.
  destruct (@peer_map_resets_runtime toy_prims toy_to_json toy_from_json toy_salts
    60 [toy_peer_config] [toy_relay] toy_backend (snd peer_map_call) (toy_state toy_device_b)
    [mkStoredPeerSession toy_device_b "b" toy_overlay (toy_credential key_b) [toy_endpoint] [] 60]
    {[toy_device_b := mkPeerTransportSession toy_overlay toy_endpoint toy_local]} toy_device_b
    (mkPeerTransportSession toy_overlay toy_endpoint toy_local) toy_local toy_sealed
    (mkOpenFrame 1 [1%Z]) (snd (@open_message toy_prims toy_local toy_sealed)))
    as (Hr & _ & _ & _ & _ & _ & Hs).
  - apply toy_backend_loads.
  - by vm_compute.
  - by repeat constructor.
  - apply peer_map_call_ok.
  - by eexists.
  - by vm_compute.
  - by vm_compute.
  - by split_and!.
  - by vm_compute.
  - by split.
Defined.
