(* ===== verification/RelayPath.v ===== *)
(** * A packet over the relay

    The sending backend, the relay service and the receiving backend together. *)

From Stdlib Require Import ZArith Lia.
From stdpp Require Import prelude list strings gmap.
From S2P Require Import Prelude RustStd Protocol Frame Nonce Crypto Transport Runtime RuntimeProps RelayServer BackendProps.

Section relay_path.
Context `{P : CryptoPrims, HL : !CryptoLaws P}.
Context (os_send : SocketAddr -> list Z -> io Z).
Context (relay_connect : string -> io unit) (relay_write : RelayMessage -> io unit).
(** [serde_json] on the lines of the relay protocol. *)
Context (to_line : RelayMessage -> string) (from_str : string -> option RelayMessage).

(** The wire form of a data frame is made of bytes. *)
Lemma wire_frame_Bytes s n m f :
  wf_id (local_id s) -> wf_id (peer_id s) -> wf_nonce n -> Bytes m ->
  wire_frame s n FRAME_TYPE_DATA m = Some f -> Bytes f.
Proof.
  intros [_ Hl] [_ Hp] [_ Hn] Hm. unfold wire_frame. destruct (aead_encrypt _ _ _ _) as [c|] eqn:E; [|done].
  cbn [mbind option_bind]. intros [= <-]. unfold header_bytes, Bytes in *.
  cbn [source destination nonce FrameHeader_new app]. rewrite !Forall_cons, !Forall_app.
  split_and!; try done; try by_decide. by eapply aead_bytes.
Qed.

(** The message that carries a packet: sent with success, it is the next one on the
    connection to the relay. *)
Lemma relay_send packet a dst devb sa trs config :
  ipv4_destination packet = Ok dst -> (Z.of_nat (length packet) <= u32_max)%Z ->
  peers_by_overlay_ip a !! dst = Some devb -> peer_transport_sessions_by_device a !! devb = Some sa ->
  peer_path_is_relay a devb = true -> relay_sender a = TcpSender trs -> trs_connected trs = true ->
  (forall m, relay_write m = inr tt) -> st_local_config (persisted a) = Some config ->
  wf_session (pts_crypto sa) -> (counter (send_nonces (pts_crypto sa)) < u64_max)%Z ->
  exists n a' nn f trs', send_overlay_packet os_send relay_connect relay_write a packet = (Ok n, a') /\
    wire_frame (pts_crypto sa) nn FRAME_TYPE_DATA packet = Some f /\ wf_nonce nn /\
    nonce_counter nn = counter (send_nonces (pts_crypto sa)) /\
    take 8 nn = direction_prefix (send_nonces (pts_crypto sa)) /\
    relay_sender a' = TcpSender trs' /\
    trs_written trs' = trs_written trs ++ [RelayFrame (lc_device_id config) devb (base64_encode f)].
Proof.
  intros Hdst Hlen Hip Hsa Hr Hsnd Hconn Hw Hcfg Hwf Hc.
  destruct (seal_message_ok (pts_crypto sa) packet FRAME_TYPE_DATA Hwf Hc eq_refl Hlen)
    as (nn & f & s' & Hseal & Hwire & Hn & Hnc & Hpre & _).
  unfold send_overlay_packet. rewrite Hdst, Hip, Hsa. unfold seal. rewrite Hseal, Hr.
  cbn [set_session set_sessions persisted relay_sender rt_relays]. rewrite Hcfg, Hsnd.
  unfold relay_send_frame, tcp_send_frame, ensure_connected. rewrite Hconn, Hconn. unfold write_relay_message.
  rewrite Hw. eexists _, _, nn, f, _. split_and!; done.
Qed.

(** A frame for another session with an empty queue passes through the relay. *)
Lemma relay_forward w ca ka cb kb d devb source payload :
  let m := RelayFrame source devb payload in
  from_str (to_line m) = Some m -> conns w !! ca = Some ka -> task ka = Serving d -> ca <> cb ->
  open_receiver w devb = Some (cb, kb) -> task kb = Serving devb -> rx_queue kb = [] ->
  exists w' kb', run from_str w [Line ca (to_line m) true; Resume ca true; Outbound cb true] = Some w' /\
    conns w' !! cb = Some kb' /\ written kb' = written kb ++ [m] /\ task kb' = Serving devb /\
    routed_frames (relay w') = wrap64 (routed_frames (relay w) + 1) /\
    dropped_frames (relay w') = dropped_frames (relay w).
Proof.
  intros m Hline Hka Hta Hne Ho Htb Hq. unfold open_receiver in Ho.
  destruct (sessions (relay w) !! devb) as [c|] eqn:Hs; [|done]. cbn [mbind option_bind] in Ho.
  destruct (conns w !! c) as [k|] eqn:Hk; [|done]. cbn [mbind option_bind] in Ho.
  destruct (rx_open k) eqn:Hopen; [|done]. injection Ho as -> ->.
  cbn [run relay_step]. rewrite Hka. cbn [mbind option_bind]. rewrite Hta. unfold serving_line. rewrite Hline.
  cbn [m mbind option_bind run relay_step set_conn conns relay]. rewrite lookup_insert_eq. cbn [mbind option_bind set_task task].
  unfold routing_resume, route_send. rewrite Hs. unfold channel_send. cbn [set_conn conns relay].
  rewrite lookup_insert_ne, Hk, Hopen by done. cbn [set_relay set_conn conns relay].
  rewrite lookup_insert_ne, lookup_insert_eq by done. cbn [mbind option_bind run relay_step set_conn conns relay].
  rewrite lookup_insert_ne by done. cbn [set_relay set_conn conns]. rewrite lookup_insert_eq.
  cbn [mbind option_bind task]. rewrite Htb.
  unfold outbound. cbn [rx_queue]. rewrite Hq. cbn [app]. unfold write_message.
  eexists _, _. split; [reflexivity|]. cbn [set_conn conns relay]. rewrite lookup_insert_eq. split_and!; done.
Qed.

(** C10: a packet reaches the other backend over the relay.  The sender's path to the
    peer is the relay and its connection is up; the relay has open sessions of both
    devices, and nothing waits for the receiver.  Then sending the packet writes one
    message to the relay; the relay writes that message, unchanged, to the receiver's
    connection, counts it as routed and drops nothing; and the receiver, on reading
    it, writes exactly the packet to its interface. *)
Theorem relayed_packet_delivered a b packet dst devb sa trs config deva sb dev w ca ka cb kb d :
  ipv4_destination packet = Ok dst -> Bytes packet -> (Z.of_nat (length packet) <= u32_max)%Z ->
  peers_by_overlay_ip a !! dst = Some devb -> peer_transport_sessions_by_device a !! devb = Some sa ->
  peer_path_is_relay a devb = true -> relay_sender a = TcpSender trs -> trs_connected trs = true ->
  (forall m, relay_write m = inr tt) -> st_local_config (persisted a) = Some config ->
  wf_session (pts_crypto sa) -> (counter (send_nonces (pts_crypto sa)) < u64_max)%Z ->
  peer_device_by_frame_id b !! local_id (pts_crypto sa) = Some deva ->
  peer_transport_sessions_by_device b !! deva = Some sb -> mirrored (pts_crypto sa) (pts_crypto sb) ->
  window_before (receive_window (pts_crypto sb)) (counter (send_nonces (pts_crypto sa))) ->
  tun_device b = Some dev -> (forall m, from_str (to_line m) = Some m) ->
  conns w !! ca = Some ka -> task ka = Serving d -> ca <> cb ->
  open_receiver w devb = Some (cb, kb) -> task kb = Serving devb -> rx_queue kb = [] ->
  exists n a' trs' m, send_overlay_packet os_send relay_connect relay_write a packet = (Ok n, a') /\
    relay_sender a' = TcpSender trs' /\ trs_written trs' = trs_written trs ++ [m] /\
    (exists w' kb', run from_str w [Line ca (to_line m) true; Resume ca true; Outbound cb true] = Some w' /\
       conns w' !! cb = Some kb' /\ written kb' = written kb ++ [m] /\
       routed_frames (relay w') = wrap64 (routed_frames (relay w) + 1) /\
       dropped_frames (relay w') = dropped_frames (relay w)) /\
    forall now, exists dev', tun_device (relay_to_tun_turn os_send b now (from_str (to_line m)) true) = Some dev' /\
      tun_written dev' = tun_written dev ++ [packet].
Proof.
  intros Hdst HB Hlen Hip Hsa Hr Hsnd Hconn Hw Hcfg Hwf Hc Hfid Hsb Hm Hwin Htun Hline Hka Hta Hne Ho Htb Hq.
  destruct (relay_send packet a dst devb sa trs config Hdst Hlen Hip Hsa Hr Hsnd Hconn Hw Hcfg Hwf Hc)
    as (n & a' & nn & f & trs' & Hsend & Hwire & Hn & Hnc & Hpre & Hs' & Hwr).
  set (msg := RelayFrame (lc_device_id config) devb (base64_encode f)) in *.
  destruct (relay_forward w ca ka cb kb d devb (lc_device_id config) (base64_encode f) (Hline msg) Hka Hta Hne Ho Htb Hq)
    as (w' & kb' & Hrun & Hkb' & Hwritten & _ & Hcount & Hdrop).
  exists n, a', trs', msg. split_and!; try done; [by exists w', kb'|].
  intros now. destruct Hwf as (Hl & Hp & _).
  assert (Hfb : Bytes f) by exact (wire_frame_Bytes _ _ _ _ Hl Hp Hn HB Hwire).
  destruct (open_received_wire os_send b now None (pts_crypto sa) sb deva nn packet f) as (c & _ & Hopen); try done.
  { by rewrite Hnc. }
  rewrite Hline. unfold relay_to_tun_turn, open_relay_frame, msg. rewrite base64_roundtrip by done.
  rewrite Hopen. unfold deliver, write_tun_packet. cbn [set_session set_sessions tun_device]. rewrite Htun.
  eexists. split; [done|]. done.
Qed.

End relay_path.

(** ** Witness *)

#[local] Instance RelayMessage_countable : Countable RelayMessage.
Proof.
  refine (inj_countable' (fun m => match m with
      | RelayRegister d k => inl (d, k)
      | RelayFrame x y p => inr (inl (x, y, p))
      | RelayError t => inr (inr t)
      end)
    (fun m => match m with
      | inl (d, k) => RelayRegister d k
      | inr (inl (x, y, p)) => RelayFrame x y p
      | inr (inr t) => RelayError t
      end) _). by intros [].
Defined.

Definition relay_to_line (m : RelayMessage) : string := binary (encode m).
Definition relay_from_str (t : string) : option RelayMessage := decode (unbinary t).

Lemma relay_line_roundtrip m : relay_from_str (relay_to_line m) = Some m.
Proof. unfold relay_from_str, relay_to_line. rewrite unbinary_binary. apply decode_encode. Qed.

(** The states of the direct delivery, with the path on the relay and an interface. *)
Definition relayed : PeerPathState := mkPeerPathState PathRelay None None None None 6 0 None.
Definition toy_sender : TcpRelayFrameSender := mkTcpRelayFrameSender toy_relay "a" "key" true [].
Definition relayed_config : LocalBackendConfig := mkLocalBackendConfig "a" "tfscale0" (Ipv4 100 64 0 2) 7777.
Definition relayed_a : RuntimeState :=
  mkRuntimeState (mkCustomBackendState STATE_VERSION None (Some relayed_config) []) ∅ {[toy_overlay := "b"]} ∅ ∅ ∅
    {["b" := mkPeerTransportSession toy_overlay toy_endpoint (end_a 5)]} {["b" := relayed]} [toy_relay] None None
    (Some toy_transport) None (TcpSender toy_sender).
Definition toy_tun : TunDevice := mkTunDevice (TunStatus_configured "tfscale0") [].
Definition relayed_b : RuntimeState :=
  mkRuntimeState CustomBackendState_default ∅ ∅ ∅ ∅ {[id_a := "a"]}
    {["a" := mkPeerTransportSession (Ipv4 100 64 0 2) toy_endpoint (end_b ReplayWindow_default)]} ∅ [] None (Some toy_tun)
    (Some toy_transport) None NullRelayFrameSender.

Lemma relayed_packet_delivered_witness :
  exists n a' trs' m,
    @send_overlay_packet toy_prims (fun _ f => inr (Z.of_nat (length f))) (fun _ => inr tt) (fun _ => inr tt)
      relayed_a toy_packet = (Ok n, a') /\
    relay_sender a' = TcpSender trs' /\ trs_written trs' = [m] /\
    (exists w' kb', run relay_from_str (toy_after toy_start)
         [Line 1 (relay_to_line m) true; Resume 1 true; Outbound 2 true] = Some w' /\
       conns w' !! 2%nat = Some kb' /\ written kb' = [m] /\
       routed_frames (relay w') = 1%Z /\ dropped_frames (relay w') = 0%Z) /\
    forall now, exists dev',
      tun_device (@relay_to_tun_turn toy_prims (fun _ f => inr (Z.of_nat (length f))) relayed_b now
        (relay_from_str (relay_to_line m)) true) = Some dev' /\
      tun_written dev' = [toy_packet].
Proof.
  apply (@relayed_packet_delivered toy_prims toy_laws (fun _ f => inr (Z.of_nat (length f)))
    (fun _ => inr tt) (fun _ => inr tt) relay_to_line relay_from_str relayed_a relayed_b toy_packet toy_overlay "b"
    (mkPeerTransportSession toy_overlay toy_endpoint (end_a 5)) toy_sender relayed_config "a"
    (mkPeerTransportSession (Ipv4 100 64 0 2) toy_endpoint (end_b ReplayWindow_default)) toy_tun (toy_after toy_start)
    1 (mkConn (Serving "a") [] true (Some "a") []) 2 (mkConn (Serving "b") [] true (Some "b") []) "a");
    try reflexivity.
  - by_decide.
  - by_decide.
  - unfold wf_session, wf_send. split_and!; by_decide.
  - apply ends_mirrored.
  - apply relay_line_roundtrip.
  - lia.
Defined.
