(* ===== verification/RelayReader.v ===== *)
(** * The lines of the relay, read by the backend ([lib.rs], [main.rs] of the relay)

    The relay writes a message as one line of JSON; the relay reader of the
    backend reads lines under a timeout ([LineReader]).  The messages arrive, in
    order, however TCP cuts the bytes, as long as no pause of more than the timeout
    falls inside a line; a pause inside a line loses the message. *)

From Stdlib Require Import ZArith Lia.
From stdpp Require Import prelude list strings gmap.
From S2P Require Import Prelude RustStd Protocol Frame Nonce Crypto Transport LineReader Runtime RuntimeProps BackendProps RelayServer RelayPath.

Section reader.
(** [serde_json::to_string] and [serde_json::from_str] on relay messages: a
    message is written without a newline, as UTF-8, and a trailing newline is
    white space to the parser. *)
Context (to_string : RelayMessage -> string) (from_str : string -> option RelayMessage).
Context (serde_one_line : forall m, Forall (fun b => b <> NEWLINE) (as_bytes (to_string m))).
Context (serde_utf8 : forall m, utf8_valid (as_bytes (to_string m) ++ [NEWLINE]) = true).
Context (serde_roundtrip : forall m, from_str (of_bytes (as_bytes (to_string m) ++ [NEWLINE])) = Some m).

(** [write_message] and [write_relay_message]: the text and a newline. *)
Definition line_bytes (m : RelayMessage) : list Z := as_bytes (to_string m) ++ [NEWLINE].

(** The messages the reader parses. *)
Definition messages_read (reads : list (io (list Z))) : list RelayMessage :=
  omap from_str (reader_lines (turns_enough [] reads) [] reads).

Lemma messages_read_spec reads : messages_read reads = omap from_str (lines_spec [] (flatten reads)).
Proof. unfold messages_read. by rewrite reader_lines_spec. Qed.

Lemma lines_spec_message m items :
  lines_spec [] ((Byte <$> line_bytes m) ++ items) = of_bytes (line_bytes m) :: lines_spec [] items.
Proof.
  unfold line_bytes. rewrite lines_spec_line by done. simpl. unfold from_utf8. by rewrite serde_utf8.
Qed.

Lemma lines_spec_pauses n items : lines_spec [] (replicate n Pause ++ items) = lines_spec [] items.
Proof. by induction n. Qed.

(** Messages, each after some pauses. *)
Definition arrival (l : list (nat * RelayMessage)) : list item :=
  concat ((fun x => replicate x.1 Pause ++ (Byte <$> line_bytes x.2)) <$> l).

Lemma lines_spec_arrival l items :
  lines_spec [] (arrival l ++ items) = ((fun m => of_bytes (line_bytes m)) <$> l.*2) ++ lines_spec [] items.
Proof.
  induction l as [|[n m] l IH]; [done|]. unfold arrival in *. cbn [fmap list_fmap concat fst snd].
  by rewrite <- !app_assoc, lines_spec_pauses, lines_spec_message, IH.
Qed.

Lemma omap_messages (l : list RelayMessage) : omap from_str ((fun m => of_bytes (line_bytes m)) <$> l) = l.
Proof.
  induction l as [|m l IH]; [done|]. cbn [fmap list_fmap omap list_omap].
  rewrite (serde_roundtrip m : from_str (of_bytes (line_bytes m)) = Some m). by f_equal.
Qed.

(** C17: the messages of the relay arrive.  However the stream is cut into chunks,
    and whatever pauses there are between the lines, the relay reader parses
    exactly the messages that the relay wrote, in order. *)
Theorem relay_messages_arrive l reads :
  flatten reads = arrival l -> messages_read reads = l.*2.
Proof.
  intros H. rewrite messages_read_spec, H. rewrite <- (app_nil_r (arrival l)), lines_spec_arrival. simpl.
  by rewrite app_nil_r, omap_messages.
Qed.

(** C36: a pause of more than 250 ms inside a line loses the message.  The bytes
    before the pause are dropped with the string they were read into; the rest of
    the line is parsed as a line of its own, and the messages after it arrive, or,
    when the cut leaves no UTF-8, the reader ends and nothing arrives any more. *)
Theorem paused_message_lost l m a b l' reads :
  as_bytes (to_string m) = a ++ b ->
  flatten reads = arrival l ++ (Byte <$> a) ++ Pause :: (Byte <$> b ++ [NEWLINE]) ++ arrival l' ->
  messages_read reads =
    l.*2 ++ if utf8_valid (b ++ [NEWLINE]) then option_list (from_str (of_bytes (b ++ [NEWLINE]))) ++ l'.*2 else [].
Proof.
  intros Hm H. rewrite messages_read_spec, H, lines_spec_arrival.
  pose proof (serde_one_line m) as Hn. rewrite Hm in Hn. apply Forall_app in Hn as [Ha Hb].
  rewrite lines_spec_bytes by done. cbn [lines_spec]. rewrite lines_spec_line by done. simpl.
  rewrite omap_app, omap_messages. f_equal. unfold from_utf8. destruct (utf8_valid (b ++ [NEWLINE])); [|done].
  rewrite <- (app_nil_r (arrival l')), lines_spec_arrival. cbn [lines_spec]. rewrite app_nil_r.
  cbn [omap list_omap]. pose proof (omap_messages (l'.*2)) as Hl. cbn [omap list_omap] in Hl.
  by destruct (from_str _); cbn [option_list app]; rewrite Hl.
Qed.

End reader.

(** ** Witnesses *)

(** A message as a number in binary, read back only from its own text. *)
Definition line_from_str (t : string) : option RelayMessage :=
  let text := of_bytes (removelast (as_bytes t)) in
  m ← relay_from_str text; if bool_decide (relay_to_line m = text) then Some m else None.

Lemma binary_visible p : Forall visible (as_bytes (binary p)).
Proof. induction p as [p IH|p IH|]; simpl; constructor; try done; unfold visible; vm_compute; done. Qed.

Lemma visible_byte b : visible b -> (0 <= b < 128)%Z /\ b <> NEWLINE.
Proof. unfold visible, NEWLINE. lia. Qed.

Lemma toy_one_line m : Forall (fun b => b <> NEWLINE) (as_bytes (relay_to_line m)).
Proof. eapply Forall_impl; [apply binary_visible|]. intros b Hb. by apply visible_byte. Qed.

Lemma toy_utf8 m : utf8_valid (as_bytes (relay_to_line m) ++ [NEWLINE]) = true.
Proof.
  apply utf8_ascii, Forall_app. split; [|by repeat constructor].
  eapply Forall_impl; [apply binary_visible|]. intros b Hb. by apply visible_byte.
Qed.

Lemma toy_roundtrip m : line_from_str (of_bytes (as_bytes (relay_to_line m) ++ [NEWLINE])) = Some m.
Proof.
  unfold line_from_str. rewrite as_bytes_of_bytes.
  - rewrite removelast_last, of_bytes_as_bytes, relay_line_roundtrip. simpl. by rewrite bool_decide_eq_true_2.
  - apply Bytes_app. split; [apply as_bytes_Bytes|]. by repeat constructor.
Qed.

Definition toy_message : RelayMessage := RelayError "x".
Definition toy_bytes : list Z := line_bytes relay_to_line toy_message.

(** Two messages in three chunks, with a pause between the messages. *)
Lemma relay_messages_arrive_witness :
  messages_read line_from_str
    [inr (take 5 toy_bytes); inr (drop 5 toy_bytes); inl WouldBlock; inr toy_bytes] = [toy_message; toy_message].
Proof.
  apply (relay_messages_arrive relay_to_line line_from_str toy_one_line toy_utf8 toy_roundtrip
    [(0, toy_message); (1, toy_message)]). vm_compute. reflexivity.
Defined.

(** The same message twice, the first one with a pause inside. *)
Lemma paused_message_lost_witness :
  messages_read line_from_str
    [inr (take 5 toy_bytes); inl WouldBlock; inr (drop 5 toy_bytes); inr toy_bytes] = [toy_message].
Proof.
  rewrite (paused_message_lost relay_to_line line_from_str toy_one_line toy_utf8 toy_roundtrip [] toy_message
    (take 5 toy_bytes) (removelast (drop 5 toy_bytes)) [(0, toy_message)]); vm_compute; reflexivity.
Defined.
