(* ===== verification/Mesh.v ===== *)
(** * From peer maps to sessions

    Custom backends that were given each other as peers: what [apply_peer_map]
    leaves in the runtime state for a peer of the map, and that two backends which
    know each other hold the two ends of the same session. *)

From Stdlib Require Import ZArith Lia.
From stdpp Require Import prelude list strings gmap.
From S2P Require Import Prelude RustStd Protocol Frame Nonce Crypto Transport Runtime RuntimeProps Backend BackendProps.

(** ** Maps collected from lists *)

Section collect.
Context {K A : Type} `{Countable K}.

Lemma collect_map_acc (l : list (K * A)) (m : gmap K A) k v :
  NoDup (fst <$> l) ->
  ((k, v) ∈ l -> fold_left (fun m kv => <[fst kv := snd kv]> m) l m !! k = Some v) /\
  (k ∉ fst <$> l -> fold_left (fun m kv => <[fst kv := snd kv]> m) l m !! k = m !! k).
Proof.
  revert m. induction l as [|[k' v'] l IH]; intros m Hn; [by split; [intros ?%elem_of_nil|]|].
  cbn [fmap list_fmap fst] in Hn. apply NoDup_cons in Hn as [Hk' Hn]. cbn [fold_left fst snd].
  destruct (IH (<[k' := v']> m) Hn) as [Hin Hout]. split.
  - intros [[= -> ->]|Hl]%elem_of_cons; [|by apply Hin]. rewrite (proj2 (IH (<[k' := v']> m) Hn)) by done.
    apply lookup_insert_eq.
  - cbn [fmap list_fmap fst]. intros Hx. apply not_elem_of_cons in Hx as [Hne Hx].
    rewrite Hout by done. by apply lookup_insert_ne.
Qed.

Lemma collect_map_lookup (l : list (K * A)) k v :
  NoDup (fst <$> l) -> (k, v) ∈ l -> collect_map l !! k = Some v.
Proof. intros Hn Hl. by apply (collect_map_acc l ∅ k v Hn). Qed.

End collect.

(** ** Sessions of a peer map *)

Section sessions.
Context `{P : CryptoPrims, HL : !CryptoLaws P}.

(** A random salt of a session. *)
Definition salt_ok (salt : option (list Z)) : Prop :=
  exists l, salt = Some l /\ length l = SESSION_SALT_LEN /\ Bytes l.

Lemma hkdf_expand_ok n secret salt info :
  (n <= 255 * 32)%nat -> exists out, hkdf_expand n secret salt info = Ok out /\ length out = n /\ Bytes out.
Proof. intros Hn. unfold hkdf_expand. destruct (hkdf_total salt secret info n Hn) as (out & -> & H). by exists out. Qed.

(** A session with any peer whose credential can be read: it is well formed and
    new. *)
Lemma new_total salt k c1 c2 pk i j :
  salt_ok salt -> decode_public_credential c2 = Ok pk -> wf_id i -> wf_id j ->
  exists s, PeerCryptoSession_new salt k c1 c2 i j = Ok s /\ wf_session s /\ local_id s = i /\
    receive_window s = ReplayWindow_default /\ counter (send_nonces s) = 0%Z.
Proof.
  intros (l & -> & Hl & HB) Hc Hi Hj. unfold PeerCryptoSession_new, shared_secret. rewrite Hc.
  cbn [mbind res_bind]. unfold derive_session_key, derive_direction_prefix.
  destruct (hkdf_expand_ok 32 (x25519 k pk) SESSION_SALT
    (append_sorted_pair (append_sorted_pair SESSION_INFO_PREFIX i j) (as_bytes c1) (as_bytes c2)))
    as (key & -> & _); [lia|]. cbn [mbind res_bind].
  destruct (hkdf_expand_ok 8 (x25519 k pk) SESSION_SALT (DIRECTION_INFO_PREFIX ++ i ++ j)) as (p & -> & Hp & HBp); [lia|].
  destruct (hkdf_expand_ok 8 (x25519 k pk) SESSION_SALT (DIRECTION_INFO_PREFIX ++ j ++ i)) as (q & -> & _); [lia|].
  cbn [mbind res_bind SendNonceState_new ok_or]. eexists. split; [done|]. split_and!; try done.
Qed.

Lemma validate_decode c : validate_public_credential c = Ok tt -> exists pk, decode_public_credential c = Ok pk.
Proof.
  unfold validate_public_credential, decode_public_credential. destruct (strip_prefix _ c) as [e|]; [|done].
  cbn [ok_or mbind res_bind]. destruct (decode_base64_key e) as [b| |]; [|done..]. cbn [mbind res_bind].
  unfold key32. destruct (length b =? 32)%nat; [|done]. by eexists.
Qed.

(** A peer that a session can be built for. *)
Definition peer_ok (p : StoredPeerSession) : Prop :=
  (exists i, from_device_id uuid_parse (sp_device_id p) = Ok i /\ wf_id i) /\
  exists pk, decode_public_credential (sp_public_key p) = Ok pk.

Section build.
Context (salts : string -> option (list Z)) (lid : FrameDeviceId) (key : list Z) (identity : CustomIdentity).
Context (salts_ok : forall d, salt_ok (salts d)) (lid_wf : wf_id lid).

Lemma build_sessions_other peers : forall m out d,
  build_sessions salts lid key identity peers m = Ok out -> d ∉ sp_device_id <$> peers -> out !! d = m !! d.
Proof.
  induction peers as [|p peers IH]; intros m out d H Hd; simpl in H; [by injection H as <-|].
  cbn [fmap list_fmap] in Hd. apply not_elem_of_cons in Hd as [Hne Hd].
  destruct (from_device_id _ _) as [i| |]; [|done..]. cbn [mbind res_bind] in H.
  destruct (select_udp_endpoint _) as [ep|]; [|by eapply IH].
  destruct (PeerCryptoSession_new _ _ _ _ _ _) as [c| |]; [|done..]. cbn [mbind res_bind] in H.
  rewrite (IH _ _ _ H Hd). by apply lookup_insert_ne.
Qed.

(** All peers get their sessions: the one of a peer is made from its credential. *)
Lemma build_sessions_total peers : forall m,
  Forall peer_ok peers -> NoDup (sp_device_id <$> peers) ->
  exists out, build_sessions salts lid key identity peers m = Ok out /\
    forall p i ep, p ∈ peers -> from_device_id uuid_parse (sp_device_id p) = Ok i ->
      select_udp_endpoint (sp_endpoints p) = Some ep ->
      exists c, out !! sp_device_id p = Some (mkPeerTransportSession (sp_overlay_ip p) ep c) /\
        PeerCryptoSession_new (salts (sp_device_id p)) key (public_key identity) (sp_public_key p) lid i = Ok c /\
        wf_session c /\ local_id c = lid /\
        receive_window c = ReplayWindow_default /\ counter (send_nonces c) = 0%Z.
Proof.
  induction peers as [|p peers IH]; intros m Hok Hn.
  { exists m. split; [done|]. by intros p i ep Hp%elem_of_nil. }
  apply Forall_cons in Hok as [[(i & Hi & Hwi) (pk & Hpk)] Hok]. cbn [fmap list_fmap] in Hn.
  apply NoDup_cons in Hn as [Hp Hn]. cbn [build_sessions]. rewrite Hi. cbn [mbind res_bind].
  destruct (select_udp_endpoint (sp_endpoints p)) as [ep|] eqn:Eep.
  - destruct (new_total (salts (sp_device_id p)) key (public_key identity) (sp_public_key p) pk lid i)
      as (c & Hc & Hwf); [done..|]. rewrite Hc. cbn [mbind res_bind].
    destruct (IH (<[sp_device_id p := mkPeerTransportSession (sp_overlay_ip p) ep c]> m) Hok Hn) as (out & Hout & Hin).
    exists out. split; [done|]. intros p' i' ep' [->|Hp']%elem_of_cons Hi' Hep'; [|by apply Hin].
    rewrite Hi in Hi'. rewrite Eep in Hep'. injection Hi' as <-. injection Hep' as <-.
    exists c. split; [|split; [exact Hc|exact Hwf]]. rewrite (build_sessions_other _ _ _ _ Hout Hp). apply lookup_insert_eq.
  - destruct (IH m Hok Hn) as (out & Hout & Hin). exists out. split; [done|].
    intros p' i' ep' [->|Hp']%elem_of_cons Hi' Hep'; [congruence|by apply Hin].
Qed.

End build.
End sessions.

(** ** Nodes *)

(** A backend as the other one sees it: the device, its overlay address and its
    stored state. *)
Record node : Type := mkNode { n_device : string; n_ip : Ipv4Addr; n_state : CustomBackendState }.

(** The probes that one round of maintenance sends at most. *)
Definition probes (endpoints : list (list Endpoint)) : Z :=
  foldr (fun l n => Z.of_nat (length (sorted_udp_endpoints l)) + n)%Z 0%Z endpoints.

Lemma probes_nonneg l : (0 <= probes l)%Z.
Proof. induction l as [|p l IH]; cbn [probes foldr]; [lia|]. fold (probes l). lia. Qed.

(** Sealing, whether it succeeds or not, changes nothing but the nonces. *)
Lemma seal_nonces `{P : CryptoPrims} s m t r s' :
  seal_message s m t = (r, s') ->
  exists sn, s' = set_send_nonces s sn /\ direction_prefix sn = direction_prefix (send_nonces s) /\
    (wf_send (send_nonces s) -> wf_send sn).
Proof.
  unfold seal_message. destruct (SendNonceState_next (send_nonces s)) as [next sn] eqn:E. intros [= _ <-].
  exists sn. split; [done|]. split.
  - unfold SendNonceState_next in E. destruct (_ =? _)%Z; by injection E as _ <-.
  - intros Hw. destruct next as [n| |]; [by destruct (SendNonceState_next_wf _ _ _ Hw E) as (_ & ? & _)|..];
      unfold SendNonceState_next in E; destruct (_ =? _)%Z; try done; by simplify_eq.
Qed.

(** ** Backends that were given each other *)

Section backends.
Context `{P : CryptoPrims, HL : !CryptoLaws P}.
Context (to_json : CustomBackendState -> string) (from_json : string -> option CustomBackendState).

(** A device: its secret key, its identifier and its overlay address. *)
Record party : Type := mkParty { secret : list Z; device : string; overlay : Ipv4Addr }.

Definition credential (p : party) : string := encode_public_credential (x25519_public (secret p)).

(** The backend of [p]: its stored state has the keys and the device identifier of
    [p], and its socket is bound. *)
Definition configured (p : party) (self : CustomBackend) : Prop :=
  length (secret p) = 32%nat /\ is_Some (transport (runtime self)) /\
  exists st idn config, load_state from_json self = Ok st /\
    st_identity st = Some idn /\ decode_key (private_key idn) = Ok (secret p) /\ public_key idn = credential p /\
    st_local_config st = Some config /\ lc_device_id config = device p.

(** A peer map with readable and different device identifiers and different
    addresses. *)
Definition peer_map_ok (peers : list PeerConfig) : Prop :=
  Forall (fun p => exists i, from_device_id uuid_parse (pc_device_id p) = Ok i) peers /\
  NoDup (from_device_id uuid_parse <$> (pc_device_id <$> peers)) /\
  NoDup (pc_overlay_ip <$> peers).

(** The map has the device [q], with a UDP endpoint. *)
Definition knows (peers : list PeerConfig) (q : party) : Prop :=
  exists p, p ∈ peers /\ pc_device_id p = device q /\ pc_overlay_ip p = overlay q /\
    bc_public (pc_public_credential p) = credential q /\ existsb is_udp (pc_endpoints p) = true.

Lemma select_udp_some eps :
  existsb is_udp eps = true -> exists ep, select_udp_endpoint eps = Some ep /\ is_udp ep = true.
Proof.
  unfold select_udp_endpoint. induction eps as [|e eps IH]; [done|]. cbn [existsb List.filter].
  destruct (is_udp e) eqn:Ee; cbn [orb]; [intros _|exact IH]. cbn [min_by_rank].
  destruct (existsb is_udp eps) eqn:Ex.
  - destruct (IH eq_refl) as (ep & -> & Hep). destruct (_ <=? _)%Z; eauto.
  - assert (List.filter is_udp eps = []) as ->; [|by exists e].
    clear IH. induction eps as [|e' eps IH]; [done|]. cbn [existsb List.filter] in *.
    destruct (is_udp e'); [done|by apply IH].
Qed.

(** What is stored of a peer map. *)
Lemma stored_peers now peers ss :
  collect_res (peer_to_session now) peers = Ok ss ->
  sp_device_id <$> ss = pc_device_id <$> peers /\ sp_overlay_ip <$> ss = pc_overlay_ip <$> peers /\
  sp_endpoints <$> ss = pc_endpoints <$> peers /\
  Forall (fun s => exists pk, decode_public_credential (sp_public_key s) = Ok pk) ss /\
  forall p, p ∈ peers -> exists s, s ∈ ss /\ sp_device_id s = pc_device_id p /\ sp_overlay_ip s = pc_overlay_ip p /\
    sp_public_key s = bc_public (pc_public_credential p) /\ sp_endpoints s = pc_endpoints p.
Proof.
  intros H%collect_res_ok. induction H as [|p s peers ss Hp _ (I1 & I2 & I3 & I4 & I5)].
  { split_and!; try done. by intros p ?%elem_of_nil. }
  unfold peer_to_session in Hp. destruct (validate_public_credential _) as [[]| |] eqn:Ev; [|done..].
  cbn [mbind res_bind] in Hp. injection Hp as <-. apply validate_decode in Ev.
  cbn [fmap list_fmap sp_device_id sp_overlay_ip sp_endpoints] in *. split_and!; [by f_equal..| |].
  - by constructor.
  - intros p' [->|Hp']%elem_of_cons; [by eexists; split; [left|]|].
    destruct (I5 p' Hp') as (s & Hs & Hrest). exists s. split; [by right|done].
Qed.

Lemma frame_ids_lookup ss s i :
  NoDup ((fun p => from_device_id uuid_parse (sp_device_id p)) <$> ss) -> s ∈ ss ->
  from_device_id uuid_parse (sp_device_id s) = Ok i ->
  collect_map (omap (fun peer => (fun frame_id => (frame_id, sp_device_id peer)) <$>
    res_ok (from_device_id uuid_parse (sp_device_id peer))) ss) !! i = Some (sp_device_id s).
Proof.
  intros Hn Hs Hi. apply collect_map_lookup; [|apply list_elem_of_omap; exists s; by rewrite Hi].
  clear Hs Hi s. induction ss as [|s ss IH]; [constructor|]. cbn [fmap list_fmap] in Hn.
  apply NoDup_cons in Hn as [Hs Hn]. cbn [omap list_omap].
  destruct (from_device_id uuid_parse (sp_device_id s)) as [j| |] eqn:Ej; cbn [res_ok fmap option_fmap option_map]; [|by apply IH..].
  cbn [fmap list_fmap fst]. constructor; [|by apply IH]. intros Hj. apply Hs.
  apply list_elem_of_fmap in Hj as ([j' d] & -> & (p & Hp & Hpj)%list_elem_of_omap).
  apply list_elem_of_fmap. exists p. split; [|done]. cbn [fst].
  destruct (from_device_id uuid_parse (sp_device_id p)); [|done..]. cbn in Hpj. by injection Hpj as -> _.
Qed.

(** What the backend of [p] has for the device [q] once it was given a map with [q]. *)
Record ready (p q : party) (salt : option (list Z)) (peers : list PeerConfig) (x : RuntimeState) (ip iq : FrameDeviceId)
    (s : PeerTransportSession) : Prop := mkReady {
  ready_endpoints : sp_endpoints <$> st_peers (persisted x) = pc_endpoints <$> peers;
  ready_ip : peers_by_overlay_ip x !! overlay q = Some (device q);
  ready_session : peer_transport_sessions_by_device x !! device q = Some s;
  ready_path : peer_path_is_relay x (device q) = false;
  ready_relays : rt_relays x = [];
  ready_transport : is_Some (transport x);
  ready_udp : is_udp (pts_endpoint s) = true;
  ready_frame_id : peer_device_by_frame_id x !! iq = Some (device q);
  ready_new : PeerCryptoSession_new salt (secret p) (credential p) (credential q) ip iq = Ok (pts_crypto s);
  ready_wf : wf_session (pts_crypto s);
  ready_local : local_id (pts_crypto s) = ip;
  ready_window : receive_window (pts_crypto s) = ReplayWindow_default;
  ready_counter : counter (send_nonces (pts_crypto s)) = 0%Z;
}.

Lemma device_id_wf d i : from_device_id uuid_parse d = Ok i -> wf_id i.
Proof.
  unfold from_device_id. destruct (strip_prefix _ d) as [e|]; [|done]. cbn [ok_or mbind res_bind].
  destruct (uuid_parse e) as [l|] eqn:E; [|done]. intros [= <-]. by eapply uuid_wf.
Qed.

(** The device identifiers of a map can be read. *)
Lemma knows_id peers q : peer_map_ok peers -> knows peers q -> exists i, from_device_id uuid_parse (device q) = Ok i.
Proof.
  intros (Hid & _) (p & Hp & <- & _). by apply (proj1 (Forall_forall _ _) Hid).
Qed.

Lemma apply_peer_map_runtime salts fs now peers self self' :
  apply_peer_map to_json from_json salts fs now peers self = (Ok tt, self') ->
  exists st ss, load_state from_json self = Ok st /\ collect_res (peer_to_session now) peers = Ok ss /\
    runtime self' = rebuild salts (runtime self)
      (mkCustomBackendState (st_version st) (st_identity st) (st_local_config st) ss).
Proof.
  unfold apply_peer_map. destruct (load_state from_json self) as [st| |]; [|done..]. cbn [mbind res_bind].
  destruct (collect_res _ _) as [ss| |]; [|done..]. cbn [mbind res_bind]. unfold replace_state, save_state.
  destruct (_ ← io_err (fs_create_dir fs); _) as [[]| |]; [|done..].
  destruct (io_err (fs_chmod fs)) as [[]| |]; [|done..]. intros [= <-]. by exists st, ss.
Qed.

Lemma peer_map_ready p q salts fs now peers self self' ip iq :
  configured p self -> peer_map_ok peers -> knows peers q -> (forall d, salt_ok (salts d)) ->
  from_device_id uuid_parse (device p) = Ok ip -> from_device_id uuid_parse (device q) = Ok iq ->
  apply_peer_map to_json from_json salts fs now peers self = (Ok tt, self') ->
  exists s, ready p q (salts (device q)) peers (runtime self') ip iq s.
Proof.
  intros (_ & Ht & st0 & idn & config & Hload & Hidn & Hkey & Hpub & Hconf & Hdev) (Hids & Hnid & Hnip) Hq Hsalts Hip Hiq Hmap.
  destruct (apply_peer_map_runtime _ _ _ _ _ _ Hmap) as (st & ss & Hst & Hss & ->). rewrite Hload in Hst. injection Hst as <-.
  destruct (stored_peers _ _ _ Hss) as (Hd & Hi & He & Hc & Hin).
  destruct Hq as (pq & Hpq & Hqd & Hqi & Hqc & Hqe). destruct (Hin pq Hpq) as (sq & Hsq & Sd & Si & Sc & Se).
  assert (NoDup ((fun p => from_device_id uuid_parse (sp_device_id p)) <$> ss)) as Hnid'.
  { change (NoDup (from_device_id uuid_parse ∘ sp_device_id <$> ss)). by rewrite list_fmap_compose, Hd. }
  assert (NoDup (sp_device_id <$> ss)) as Hnd.
  { rewrite <- Hd in Hnid. by eapply NoDup_fmap_1. }
  assert (Forall peer_ok ss) as Hok.
  { apply Forall_forall. intros s Hs. split; [|by apply (proj1 (Forall_forall _ _) Hc)].
    assert (sp_device_id s ∈ pc_device_id <$> peers) as (p' & Hp' & Hin')%list_elem_of_fmap.
    { rewrite <- Hd. apply list_elem_of_fmap. by exists s. }
    rewrite Hp'. destruct (proj1 (Forall_forall _ _) Hids _ Hin') as [i Hi']. exists i. split; [done|by eapply device_id_wf]. }
  destruct (select_udp_some _ Hqe) as (ep & Hep & Hudp).
  set (st' := mkCustomBackendState _ _ _ ss).
  destruct (build_sessions_total salts ip (secret p) idn Hsalts (device_id_wf _ _ Hip) ss ∅ Hok Hnd) as (out & Hout & Hget).
  assert (build_peer_transport_sessions salts st' = Ok out) as Hb.
  { unfold build_peer_transport_sessions. cbn [st_identity st_local_config st_peers st']. rewrite Hidn, Hconf, Hdev, Hip, Hkey.
    exact Hout. }
  rewrite <- Hqd, <- Sd in Hiq. destruct (Hget sq iq ep Hsq Hiq) as (c & Hc' & Hnew & Hwf & Hl & Hw & H0); [by rewrite Se|].
  rewrite Sd, Hqd in Hc', Hnew. rewrite Si, Hqi in Hc'. rewrite Sc, Hqc, Hpub in Hnew.
  exists (mkPeerTransportSession (overlay q) ep c).
  split; try done; cbn [rebuild from_persisted set_tasks set_transport set_tun persisted st_peers st' peers_by_overlay_ip
    peer_transport_sessions_by_device peer_device_by_frame_id peer_path_state_by_device].
  - apply collect_map_lookup.
    + rewrite <- list_fmap_compose. change (NoDup (sp_overlay_ip <$> ss)). by rewrite Hi.
    + apply list_elem_of_fmap. exists sq. by rewrite Si, Hqi, Sd, Hqd.
  - change (default ∅ (res_ok (build_peer_transport_sessions salts st')) !! device q =
      Some (mkPeerTransportSession (overlay q) ep c)). by rewrite Hb.
  - unfold peer_path_is_relay. cbn [rebuild from_persisted set_tasks set_transport set_tun peer_path_state_by_device st_peers].
    rewrite (collect_map_lookup _ (device q) PeerPathState_default); [done| |].
    + rewrite <- list_fmap_compose. change (NoDup (sp_device_id <$> ss)). done.
    + apply list_elem_of_fmap. exists sq. by rewrite Sd, Hqd.
  - rewrite <- Hqd, <- Sd. by apply frame_ids_lookup.
Qed.

Definition node_of (p : party) (x : RuntimeState) : node := mkNode (device p) (overlay p) (persisted x).

(** Two backends that know each other have the two ends of the same sessions. *)
Lemma ready_mirrored p q salt1 salt2 ps qs x y ip iq sx sy :
  length (secret p) = 32%nat -> length (secret q) = 32%nat -> salt_ok salt1 -> salt_ok salt2 ->
  ready p q salt1 ps x ip iq sx -> ready q p salt2 qs y iq ip sy ->
  mirrored (pts_crypto sx) (pts_crypto sy) /\ mirrored (pts_crypto sy) (pts_crypto sx).
Proof.
  intros Hp Hq (l1 & -> & _) (l2 & -> & _) Hx Hy.
  destruct (sessions_mirrored (secret p) (secret q) ip iq l1 l2 Hp Hq) as (s & t & Hs & Ht & Hst & Hts & _).
  pose proof (ready_new _ _ _ _ _ _ _ _ Hx) as Ex. pose proof (ready_new _ _ _ _ _ _ _ _ Hy) as Ey.
  unfold credential in Ex, Ey. rewrite Hs in Ex. rewrite Ht in Ey. injection Ex as ->. by injection Ey as ->.
Qed.

End backends.

(** ** Witness *)

Definition party_a : party := mkParty key_a toy_device_a (Ipv4 100 64 0 2).
Definition party_b : party := mkParty key_b toy_device_b toy_overlay.

Definition mesh_state (p : party) : CustomBackendState :=
  mkCustomBackendState STATE_VERSION
    (Some (mkCustomIdentity "kid" IDENTITY_SCHEME (of_bytes (secret p)) (@credential toy_prims p) 0 None))
    (Some (mkLocalBackendConfig (device p) "tfscale0" (overlay p) 7777)) [].
Definition mesh_backend (p : party) : CustomBackend :=
  mkCustomBackend "tfscale0" (Some (toy_to_json (mesh_state p)))
    (set_transport RuntimeState_default (Some toy_transport)) false.
Definition mesh_peer (q : party) : PeerConfig :=
  mkPeerConfig (device q) "host" (overlay q) (mkBackendCredential (@credential toy_prims q)) [toy_endpoint] [].
(** A third device in both maps. *)
Definition party_c : party := mkParty key_b "dev_cccccccccccccccc" (Ipv4 100 64 0 4).

(** The backend of [p] after it was given a map with [q]. *)
Definition mesh_after (p q : party) : CustomBackend :=
  snd (@apply_peer_map toy_prims toy_to_json toy_from_json toy_salts fs_ok 60 [mesh_peer q; mesh_peer party_c] (mesh_backend p)).

Lemma mesh_loads p : load_state toy_from_json (mesh_backend p) = Ok (mesh_state p).
Proof. unfold load_state. cbn [disk mesh_backend]. by rewrite toy_json_roundtrip. Qed.

Definition back_packet : list Z := [69; 0; 0; 20; 0; 0; 0; 0; 64; 17; 0; 0; 100; 64; 0; 3; 100; 64; 0; 2]%Z.

Lemma mesh_configured p : Bytes (secret p) -> length (secret p) = 32%nat -> @configured toy_prims toy_from_json p (mesh_backend p).
Proof.
  intros HB Hl. split; [done|]. split; [by eexists|]. exists (mesh_state p). do 2 eexists. split; [apply mesh_loads|].
  split; [done|]. split; [|done]. unfold decode_key, decode_base64_key. cbn [base64_decode toy_prims private_key].
  rewrite as_bytes_of_bytes by done. cbn [ok_or mbind res_bind]. unfold key32. by rewrite Hl.
Qed.

Lemma mesh_apply_a :
  @apply_peer_map toy_prims toy_to_json toy_from_json toy_salts fs_ok 60 [mesh_peer party_b; mesh_peer party_c]
    (mesh_backend party_a) = (Ok tt, mesh_after party_a party_b).
Proof. unfold mesh_after, apply_peer_map. rewrite mesh_loads. reflexivity. Qed.

Lemma mesh_apply_b :
  @apply_peer_map toy_prims toy_to_json toy_from_json toy_salts fs_ok 60 [mesh_peer party_a; mesh_peer party_c]
    (mesh_backend party_b) = (Ok tt, mesh_after party_b party_a).
Proof. unfold mesh_after, apply_peer_map. rewrite mesh_loads. reflexivity. Qed.
