(* ===== verification/Channel.v ===== *)
(** * Two backends over an unreliable network

    Two custom backends whose datagrams are lost, duplicated and reordered at will.
    What one end has sent is on the wire; any datagram of the wire arrives at the
    other end any number of times, at any later moment and from any address.  Data
    frames, probes and the answers to probes take the same way, so the paths of
    both ends move while packets are under way.

    The theorem is that of a channel: what is handed out is what was sent, at most
    once, and for certain unless a datagram that was sent 64 or more later arrived
    before. *)

From Stdlib Require Import ZArith Lia.
From stdpp Require Import prelude list strings gmap.
From S2P Require Import Prelude RustStd Protocol Frame Nonce Crypto Transport Runtime RuntimeProps Backend BackendProps Mesh.

(** ** The network *)

(** One end: its state, its datagrams on the wire, each with the packet for the
    other end that it carries, and the datagrams of the other end that arrived. *)
Record endpt : Type := mkEndpt {
  e_state : RuntimeState;
  e_wire : list (list Z * option (list Z));
  e_seen : list nat;
}.

Definition sent_of (x : RuntimeState) : list (SocketAddr * list Z) :=
  match transport x with Some t => sent t | None => [] end.

(** The datagrams that were sent between two states. *)
Definition new_datagrams (x x' : RuntimeState) : list (list Z) :=
  snd <$> drop (length (sent_of x)) (sent_of x').

Definition emit (packet : option (list Z)) (e : endpt) (x' : RuntimeState) : endpt :=
  mkEndpt x' (e_wire e ++ ((fun f => (f, packet)) <$> new_datagrams (e_state e) x')) (e_seen e).

(** A packet is sent; an end maintains its paths; the [i]-th datagram of the other
    end arrives. *)
Inductive net_event : Type :=
| Send (from_a : bool) (packet : list Z)
| Tick (on_a : bool) (now : Z)
| Arrive (at_a : bool) (i : nat) (now : Z) (source : SocketAddr).

(** What is seen of the network: whether a packet for the other end was accepted and
    how many datagrams it became; what a datagram carried, which ones came before it
    and what was handed out. *)
Inductive observation : Type :=
| Taken (for_peer ok : bool) (datagrams : nat)
| Handed (carried : option (list Z)) (i : nat) (before : list nat) (out : option (list Z)).

Section network.
Context `{P : CryptoPrims}.
Context (os_send : SocketAddr -> list Z -> io Z).
Context (relay_connect : string -> io unit) (relay_write : RelayMessage -> io unit).

(** [peer] is the overlay address of the other end. *)
Definition end_send (peer : Ipv4Addr) (e : endpt) (packet : list Z) : observation * endpt :=
  let '(r, x') := send_overlay_packet os_send relay_connect relay_write (e_state e) packet in
  let for_peer := bool_decide (ipv4_destination packet = Ok peer) in
  (Taken for_peer (is_ok r) (length (new_datagrams (e_state e) x')),
   emit (if for_peer then Some packet else None) e x').

Definition end_tick (e : endpt) (now : Z) : endpt :=
  emit None e (snd (probe_peer_direct_paths os_send (e_state e) now)).

Definition end_receive (e other : endpt) (i : nat) (now : Z) (source : SocketAddr)
    : option observation * endpt :=
  match e_wire other !! i with
  | None => (None, e)
  | Some (datagram, carried) =>
      let '(r, x') := receive_overlay_packet os_send (e_state e) now BUFFER_LEN (inr (datagram, source)) in
      let e' := emit None e x' in
      (Some (Handed carried i (e_seen e) (match r with Ok out => out | _ => None end)),
       mkEndpt (e_state e') (e_wire e') (e_seen e ++ [i]))
  end.

Context (ip_a ip_b : Ipv4Addr).

Definition net_step (a b : endpt) (e : net_event) : list observation * endpt * endpt :=
  match e with
  | Send true packet => let '(o, a) := end_send ip_b a packet in ([o], a, b)
  | Send false packet => let '(o, b) := end_send ip_a b packet in ([o], a, b)
  | Tick true now => ([], end_tick a now, b)
  | Tick false now => ([], a, end_tick b now)
  | Arrive true i now source => let '(o, a) := end_receive a b i now source in (option_list o, a, b)
  | Arrive false i now source => let '(o, b) := end_receive b a i now source in (option_list o, a, b)
  end.

Fixpoint net_run (a b : endpt) (events : list net_event) : list observation :=
  match events with
  | [] => []
  | e :: events => let '(os, a, b) := net_step a b e in os ++ net_run a b events
  end.
End network.

(** ** The promise *)

(** A packet for the other end becomes one datagram.  A datagram without a packet
    hands out nothing.  One with a packet hands out that packet or nothing, nothing
    when it arrived before, and the packet when it did not and no datagram that is 64
    or more later arrived before it. *)
Definition promised (o : observation) : Prop :=
  match o with
  | Taken for_peer ok datagrams => for_peer = true -> ok = true /\ datagrams = 1%nat
  | Handed None _ _ out => out = None
  | Handed (Some packet) i before out =>
      (out = None \/ out = Some packet) /\ (i ∈ before -> out = None) /\
      (i ∉ before -> Forall (fun j => j < i + 64)%nat before -> out = Some packet)
  end.

(** Packets for the other end have at most 1424 bytes, and the clock is that of the
    code, in milliseconds of 128 bits. *)
Definition event_ok (ip_a ip_b : Ipv4Addr) (e : net_event) : Prop :=
  match e with
  | Send from_a packet =>
      ipv4_destination packet = Ok (if from_a : bool then ip_b else ip_a) -> (Z.of_nat (length packet) <= 1424)%Z
  | Tick _ now | Arrive _ _ now _ => (0 <= now <= u128_max)%Z
  end.

(** ** Frames on the wire *)

Section wire.
Context `{P : CryptoPrims, HL : !CryptoLaws P}.

(** A session with the keys of another one: nonces and window may differ. *)
Definition same_keys (s t : PeerCryptoSession) : Prop :=
  local_id t = local_id s /\ peer_id t = peer_id s /\ cipher t = cipher s /\
  direction_prefix (send_nonces t) = direction_prefix (send_nonces s) /\
  receive_direction_prefix t = receive_direction_prefix s.

Lemma same_keys_wire s t n ty m : same_keys s t -> wire_frame t n ty m = wire_frame s n ty m.
Proof. intros (Hl & Hp & Hc & _). unfold wire_frame. by rewrite Hl, Hp, Hc. Qed.

Lemma same_keys_seal s t sn :
  same_keys s t -> direction_prefix sn = direction_prefix (send_nonces t) -> same_keys s (set_send_nonces t sn).
Proof. intros (H1 & H2 & H3 & H4 & H5) Hd. split_and!; cbn; congruence. Qed.

Lemma same_keys_window s t w : same_keys s t -> same_keys s (set_receive_window t w).
Proof. done. Qed.

(** What sealing does, whenever it succeeds. *)
Lemma seal_message_inv s m ty f s' :
  wf_session s -> known_type ty = true -> seal_message s m ty = (Ok f, s') ->
  exists n sn, s' = set_send_nonces s sn /\ wire_frame s n ty m = Some f /\ wf_nonce n /\
    nonce_counter n = counter (send_nonces s) /\ take 8 n = direction_prefix (send_nonces s) /\
    wf_send sn /\ counter sn = (counter (send_nonces s) + 1)%Z /\ direction_prefix sn = direction_prefix (send_nonces s).
Proof.
  intros (Hl & Hp & Hs) Ht. unfold seal_message. destruct (SendNonceState_next (send_nonces s)) as [r sn] eqn:E.
  intros [= H <-]. destruct r as [n| |]; [|done..]. cbn [mbind res_bind] in H.
  destruct (SendNonceState_next_wf _ _ _ Hs E) as (Hn & Hsn & Hcn & Hc1 & _ & Hdp & _).
  assert (take 8 n = direction_prefix (send_nonces s)) as Hpre.
  { unfold SendNonceState_next in E. destruct (_ =? _)%Z; [done|]. injection E as <- _.
    apply take_app_length'. destruct Hs as [Hs _]. by rewrite Hs. }
  destruct (wf_header_new s n ty Hl Hp Hn Ht) as [Hwf Hacc].
  cbn [set_send_nonces local_id peer_id cipher] in H. set (h := FrameHeader_new (local_id s) (peer_id s) n ty) in *.
  rewrite (FrameHeader_encode_ok h) in H by done. cbn [mbind res_bind] in H.
  destruct (aead_encrypt _ _ _ _) as [c|] eqn:Ec; [|done]. cbn [ok_or mbind res_bind] in H.
  unfold EncodedFrame_encode in H. cbn [Frame.header] in H. rewrite (FrameHeader_encode_ok h) in H by done.
  cbn [mbind res_bind ciphertext] in H. injection H as <-. exists n, sn. split_and!; try done.
  unfold wire_frame. fold h. by rewrite Ec.
Qed.

(** Nothing in the buffer is a frame for the device [i]. *)
Definition foreign (i : FrameDeviceId) (f : list Z) : Prop :=
  forall e, EncodedFrame_decode (take BUFFER_LEN f) = Ok e -> destination (header e) <> i.

Lemma wire_foreign s n ty m f i :
  wf_session s -> wf_nonce n -> known_type ty = true -> wire_frame s n ty m = Some f -> peer_id s <> i -> foreign i f.
Proof.
  intros (Hl & Hp & _) Hn Ht Hw Hi e. destruct (wf_header_new s n ty Hl Hp Hn Ht) as [Hwf Hacc].
  unfold wire_frame in Hw. set (h := FrameHeader_new _ _ _ _) in *. destruct (aead_encrypt _ _ _ _) as [c|]; [|done].
  cbn [mbind option_bind] in Hw. apply (inj Some) in Hw as <-. pose proof (length_header_bytes h Hwf) as HL'.
  rewrite take_app_ge by (rewrite HL'; unfold HEADER_LEN, BUFFER_LEN; lia).
  set (c' := take _ c). pose proof (frame_encode_decode (mkEncodedFrame h c') Hwf Hacc) as Hd.
  cbn [Frame.header ciphertext] in Hd. rewrite Hd. by intros [= <-].
Qed.

(** A frame of the session [s] with the counter [c], and the packet it carries. *)
Definition peer_frame (s : PeerCryptoSession) (c : Z) (f : list Z) (carried : option (list Z)) : Prop :=
  exists n ty m, wire_frame s n ty m = Some f /\ wf_nonce n /\ take 8 n = direction_prefix (send_nonces s) /\
    nonce_counter n = c /\ known_type ty = true /\ (Z.of_nat (length m) <= 1424)%Z /\
    carried = if (ty =? FRAME_TYPE_DATA)%Z then Some m else None.

(** The wire of a sender that has sealed [k] frames with the session [s]: the counters
    of the datagrams that are frames of it. *)
Inductive wired (s : PeerCryptoSession) : Z -> list (list Z * option (list Z)) -> list (option Z) -> Prop :=
| wired_nil : wired s 0 [] []
| wired_foreign k w cs f : wired s k w cs -> foreign (peer_id s) f -> wired s k (w ++ [(f, None)]) (cs ++ [None])
| wired_frame k w cs f carried :
    wired s k w cs -> peer_frame s k f carried -> wired s (k + 1) (w ++ [(f, carried)]) (cs ++ [Some k]).

Lemma lookup_snoc {A} (l : list A) x i y :
  (l ++ [x]) !! i = Some y -> l !! i = Some y \/ i = length l /\ y = x.
Proof.
  intros [H|[H1 H2]]%lookup_app_Some; [by left|]. right. apply list_lookup_singleton_Some in H2 as [? <-].
  split; [lia|done].
Qed.

Lemma wired_length s k w cs : wired s k w cs -> length w = length cs.
Proof. induction 1; rewrite ?length_app; cbn; lia. Qed.

Lemma wired_lookup s k w cs i f carried oc :
  wired s k w cs -> w !! i = Some (f, carried) -> cs !! i = Some oc ->
  match oc with
  | None => foreign (peer_id s) f /\ carried = None
  | Some c => peer_frame s c f carried
  end.
Proof.
  induction 1 as [|k w cs g Hw IH Hg|k w cs g p Hw IH Hg]; [done|..]; intros Hf Hc;
    apply wired_length in Hw; apply lookup_snoc in Hf as [Hf|[-> [= -> ->]]].
  all: apply lookup_snoc in Hc as [Hc|[Hi ->]]; first [by apply IH|done|idtac].
  all: repeat match goal with H : _ !! _ = Some _ |- _ => apply lookup_lt_Some in H end; lia.
Qed.

(** Counters are handed out in the order of the wire, one by one. *)
Lemma wired_counter s k w cs i c :
  wired s k w cs -> cs !! i = Some (Some c) -> (c < k /\ k <= c + Z.of_nat (length cs - i))%Z.
Proof.
  induction 1 as [|k w cs f Hw IH Hf|k w cs f p Hw IH Hf]; [done|..]; intros [Hc|[-> Hc]]%lookup_snoc;
    rewrite ?length_app; cbn [length]; try (pose proof (lookup_lt_Some _ _ _ Hc); specialize (IH Hc); lia); [done|].
  injection Hc as ->. lia.
Qed.

Lemma wired_order s k w cs i j c d :
  wired s k w cs -> cs !! i = Some (Some c) -> cs !! j = Some (Some d) -> (i < j)%nat ->
  (c < d <= c + Z.of_nat (j - i))%Z.
Proof.
  induction 1 as [|k w cs f Hw IH Hf|k w cs f p Hw IH Hf]; [done|..];
    intros [Hc|[-> Hc]]%lookup_snoc [Hd|[-> Hd]]%lookup_snoc Hij; try done; try by apply IH.
  - injection Hd as ->. pose proof (wired_counter _ _ _ _ _ _ Hw Hc). lia.
  - apply lookup_lt_Some in Hd. lia.
  - lia.
Qed.

(** ** The receiving end *)

(** The window of the receiver after the datagrams [seen] arrived: it has accepted
    counters of those only, and each of those that is a frame was accepted or is too
    old by now. *)
Definition heard (cs : list (option Z)) (w : ReplayWindow) (seen : list nat) : Prop :=
  Forall (fun j => j < length cs)%nat seen /\
  exists acc, represents w acc /\ (forall a, a ∈ acc -> exists j, j ∈ seen /\ cs !! j = Some (Some a)) /\
    (forall j c, j ∈ seen -> cs !! j = Some (Some c) -> c ∈ acc \/ is_stale acc c).

Lemma heard_nil : heard [] ReplayWindow_default [].
Proof.
  split; [constructor|]. exists ∅. split; [apply represents_default|]. split; [set_solver|].
  by intros j c ?%elem_of_nil.
Qed.

Lemma heard_app cs cs' w seen : heard cs w seen -> heard (cs ++ cs') w seen.
Proof.
  intros [Hb (acc & Hr & H1 & H2)]. split.
  { eapply Forall_impl; [exact Hb|]. intros j Hj. cbn beta in Hj. rewrite length_app. lia. }
  exists acc. split_and!; [done| |].
  - intros a (j & Hj & Hc)%H1. exists j. split; [done|]. by apply lookup_app_l_Some.
  - intros j c Hj. rewrite lookup_app_l; [by apply H2|]. exact (proj1 (Forall_forall _ _) Hb j Hj).
Qed.

Lemma heard_foreign cs w seen i : cs !! i = Some None -> heard cs w seen -> heard cs w (seen ++ [i]).
Proof.
  intros Hi [Hb (acc & Hr & H1 & H2)]. split.
  { apply Forall_app. split; [done|]. constructor; [by eapply lookup_lt_Some|constructor]. }
  exists acc. split_and!; [done| |].
  - intros a (j & Hj & Hc)%H1. exists j. split; [apply elem_of_app; by left|done].
  - intros j c [Hj|Hj%list_elem_of_singleton]%elem_of_app; [by apply H2|]. subst j. by rewrite Hi.
Qed.

Lemma is_stale_mono acc acc' c : acc ⊆ acc' -> is_stale acc c -> is_stale acc' c.
Proof. intros Hs (h & Hh & Hc). exists h. split; [by apply Hs|done]. Qed.

(** What becomes of the verdict on a frame. *)
Lemma heard_verdict s k wi cs seen acc i c v acc' :
  wired s k wi cs -> (forall a, a ∈ acc -> exists j, j ∈ seen /\ cs !! j = Some (Some a)) ->
  (forall j c, j ∈ seen -> cs !! j = Some (Some c) -> c ∈ acc \/ is_stale acc c) ->
  cs !! i = Some (Some c) -> window_spec acc c = (v, acc') ->
  (i ∈ seen -> v <> Fresh) /\ (i ∉ seen -> Forall (fun j => j < i + 64)%nat seen -> v = Fresh).
Proof.
  intros Hw H1 H2 Hi Hv. unfold window_spec in Hv. split.
  - intros Hs. destruct (H2 i c Hs Hi) as [Ha|Ha].
    + case_decide; [by injection Hv as <- _|]. rewrite decide_True in Hv by done. by injection Hv as <- _.
    + rewrite decide_True in Hv by done. by injection Hv as <- _.
  - intros Hs Hb. rewrite !decide_False in Hv; [by injection Hv as <- _| |].
    + intros (j & Hj & Hc)%H1. destruct (Nat.lt_trichotomy i j) as [Hij|[->|Hij]]; [|done|].
      * pose proof (wired_order _ _ _ _ _ _ _ _ Hw Hi Hc Hij). lia.
      * pose proof (wired_order _ _ _ _ _ _ _ _ Hw Hc Hi Hij). lia.
    + intros (h & (j & Hj & Hc)%H1 & Hge). cbn beta in Hge. unfold REPLAY_WINDOW_BITS in Hge.
      destruct (Nat.lt_trichotomy i j) as [Hij|[->|Hij]]; [|done|].
      * pose proof (wired_order _ _ _ _ _ _ _ _ Hw Hi Hc Hij).
        pose proof (proj1 (Forall_forall _ _) Hb j Hj). cbn beta in *. lia.
      * pose proof (wired_order _ _ _ _ _ _ _ _ Hw Hc Hi Hij). lia.
Qed.

(** A frame of the wire arrives at a session that can open it. *)
Lemma heard_open s k wi cs seen t f e m i c :
  wired s k wi cs -> heard cs (receive_window t) seen -> cs !! i = Some (Some c) ->
  authenticate t f = Ok (e, m) -> nonce_counter (nonce (header e)) = c ->
  exists v w, open_message t f =
      (verdict_result v ≫= (fun _ => Ok (mkOpenFrame (message_type (header e)) m)), set_receive_window t w) /\
    heard cs w (seen ++ [i]) /\ (i ∈ seen -> v <> Fresh) /\
    (i ∉ seen -> Forall (fun j => j < i + 64)%nat seen -> v = Fresh).
Proof.
  intros Hw [Hb (acc & Hr & H1 & H2)] Hi Ha Hc. pose proof (open_message_spec t f e m acc Hr Ha) as Ho.
  rewrite Hc in Ho. destruct (window_spec acc c) as [v acc'] eqn:Ev. destruct Ho as (w & Hw' & Ho).
  exists v, w. split; [done|]. split; [|by eapply heard_verdict].
  split. { apply Forall_app. split; [done|]. constructor; [by eapply lookup_lt_Some|constructor]. }
  exists acc'. split; [done|]. pose proof (window_spec_mono _ _ _ _ Ev) as Hm. split.
  - intros a Haa. assert (acc' ⊆ {[c]} ∪ acc) as Hsub.
    { pose proof (window_spec_subset acc c) as Hs. by rewrite Ev in Hs. }
    apply Hsub, elem_of_union in Haa as [Haa%elem_of_singleton|Haa].
    + subst a. exists i. split; [apply elem_of_app; right; by apply list_elem_of_singleton|done].
    + destruct (H1 a Haa) as (j & Hj & Hcj). exists j. split; [apply elem_of_app; by left|done].
  - intros j c' [Hj|Hj%list_elem_of_singleton]%elem_of_app Hcj.
    + destruct (H2 j c' Hj Hcj); [left; by apply Hm|right; by eapply is_stale_mono].
    + subst j. rewrite Hi in Hcj. injection Hcj as <-. unfold window_spec in Ev.
      repeat case_decide; injection Ev as _ <-; [by right|by left|left; set_solver].
Qed.

End wire.

(** ** What an operation does to one end *)

(** Changes that do not concern the sessions, the wire or the peer [d]. *)
Record alike (d : string) (x x' : RuntimeState) : Prop := mkAlike {
  al_persisted : persisted x' = persisted x;
  al_ips : peers_by_overlay_ip x' = peers_by_overlay_ip x;
  al_frame_ids : peer_device_by_frame_id x' = peer_device_by_frame_id x;
  al_relays : rt_relays x' = rt_relays x;
  al_sessions : peer_transport_sessions_by_device x' = peer_transport_sessions_by_device x;
  al_sent : sent_of x' = sent_of x;
  al_transport : is_Some (transport x) -> is_Some (transport x');
  al_path : rt_relays x = [] -> peer_path_is_relay x d = false -> peer_path_is_relay x' d = false;
}.

Lemma alike_refl d x : alike d x x.
Proof. by split. Qed.

Lemma alike_trans d x y z : alike d x y -> alike d y z -> alike d x z.
Proof. intros [] []. split; try congruence; [by auto|]. intros. apply al_path1; [congruence|auto]. Qed.

Lemma alike_status d x t f : transport x = Some t -> alike d x (set_transport x (Some (set_status t f))).
Proof. intros Ht. split; try done. unfold sent_of. cbn [set_transport transport]. by rewrite Ht. Qed.

Lemma alike_drop d x : alike d x (record_drop x).
Proof.
  unfold record_drop. destruct (transport x) as [t|] eqn:E; cbn [fmap option_fmap option_map]; [by apply alike_status|].
  split; try done; [|by rewrite E]. unfold sent_of. cbn [set_transport transport]. by rewrite E.
Qed.

Lemma alike_relay d x sender : alike d x (set_relays x (rt_relays x) sender).
Proof. by split. Qed.

Lemma alike_paths d x m :
  (rt_relays x = [] -> peer_path_is_relay x d = false -> peer_path_is_relay (set_paths x m) d = false) ->
  alike d x (set_paths x m).
Proof. by split. Qed.

Lemma alike_same_path d x d' s :
  current_path s = current_path (default PeerPathState_default (peer_path_state_by_device x !! d')) ->
  alike d x (set_paths x (<[d' := s]> (peer_path_state_by_device x))).
Proof.
  intros Hs. apply alike_paths. intros _. unfold peer_path_is_relay.
  cbn [set_paths peer_path_state_by_device]. destruct (decide (d' = d)) as [->|Hne].
  - rewrite lookup_insert_eq, Hs. by destruct (peer_path_state_by_device x !! d).
  - by rewrite lookup_insert_ne.
Qed.

Lemma alike_expire d x now : alike d x (expire_stale_direct_paths x now).
Proof.
  apply alike_paths. intros Hr. unfold peer_path_is_relay. cbn [set_paths peer_path_state_by_device].
  rewrite lookup_fmap, Hr. destruct (peer_path_state_by_device x !! d) as [s|]; [|done]. cbn [fmap option_fmap option_map].
  intros Hs. unfold expire_path. destruct (negb _); [done|]. by destruct (_ <=? _)%Z.
Qed.

Lemma alike_same_session d x d' s :
  peer_transport_sessions_by_device x !! d' = Some s -> alike d x (set_session x d' s (pts_crypto s)).
Proof.
  intros Hs. split; try done. cbn [set_session set_sessions peer_transport_sessions_by_device].
  destruct s. by apply insert_id.
Qed.

Section ends.
Context `{P : CryptoPrims, HL : !CryptoLaws P}.

(** The end [X] with the peer [Y]: its session for [Y] has the keys of [s0], and no
    other session of it makes frames for [Y]. *)
Record half (X Y : node) (s0 : PeerCryptoSession) (x : RuntimeState) (s : PeerTransportSession) : Prop := mkHalf {
  half_persisted : persisted x = n_state X;
  half_ip ip : peers_by_overlay_ip x !! ip = Some (n_device Y) <-> ip = n_ip Y;
  half_session : peer_transport_sessions_by_device x !! n_device Y = Some s;
  half_path : peer_path_is_relay x (n_device Y) = false;
  half_relays : rt_relays x = [];
  half_udp : is_udp (pts_endpoint s) = true;
  half_transport : is_Some (transport x);
  half_frame_id : peer_device_by_frame_id x !! peer_id s0 = Some (n_device Y);
  half_keys : same_keys s0 (pts_crypto s);
  half_wf : wf_session (pts_crypto s);
  half_others d s' : d <> n_device Y -> peer_transport_sessions_by_device x !! d = Some s' ->
    wf_session (pts_crypto s') /\ local_id (pts_crypto s') = local_id s0 /\ peer_id (pts_crypto s') <> peer_id s0;
}.

Lemma half_alike X Y s0 x x' s : alike (n_device Y) x x' -> half X Y s0 x s -> half X Y s0 x' s.
Proof.
  intros [] []. split; try congruence; try done; [|by auto..|].
  - intros ip. rewrite al_ips0. apply half_ip0.
  - intros d s' Hd Hs. rewrite al_sessions0 in Hs. by eapply half_others0.
Qed.

(** A session may get new nonces or a new window. *)
Definition refreshed (c c' : PeerCryptoSession) : Prop :=
  wf_session c -> wf_session c' /\ same_keys c c'.

Lemma same_keys_trans s t u : same_keys s t -> same_keys t u -> same_keys s u.
Proof. intros (A1 & A2 & A3 & A4 & A5) (B1 & B2 & B3 & B4 & B5). split_and!; congruence. Qed.

Lemma half_set_peer X Y s0 x s c :
  refreshed (pts_crypto s) c -> half X Y s0 x s ->
  half X Y s0 (set_session x (n_device Y) s c) (mkPeerTransportSession (pts_overlay_ip s) (pts_endpoint s) c).
Proof.
  intros Hr []. destruct (Hr half_wf0) as [Hw Hk].
  split; try done; cbn [set_session set_sessions peer_transport_sessions_by_device pts_crypto].
  - apply lookup_insert_eq.
  - by eapply same_keys_trans.
  - intros d s' Hd. rewrite lookup_insert_ne by done. by apply half_others0.
Qed.

Lemma half_set_other X Y s0 x s d s' c :
  d <> n_device Y -> peer_transport_sessions_by_device x !! d = Some s' -> refreshed (pts_crypto s') c ->
  half X Y s0 x s -> half X Y s0 (set_session x d s' c) s.
Proof.
  intros Hd Hs' Hr []. destruct (half_others0 d s' Hd Hs') as (Hw & Hl & Hp). destruct (Hr Hw) as [Hw' (Kl & Kp & _)].
  split; try done; cbn [set_session set_sessions peer_transport_sessions_by_device].
  - by rewrite lookup_insert_ne.
  - intros e t He. destruct (decide (e = d)) as [->|Hne]; [|rewrite lookup_insert_ne by done; by apply half_others0].
    rewrite lookup_insert_eq. intros [= <-]. cbn [pts_crypto]. split_and!; [done|congruence|congruence].
Qed.

Lemma half_push X Y s0 x s t t' : transport x = Some t -> half X Y s0 x s -> half X Y s0 (set_transport x (Some t')) s.
Proof. intros Ht []. by split. Qed.

(** ** Frames that go out *)

(** The wire of a sender grows by [fs], while it seals frames for its peer. *)
Definition goes (s0 : PeerCryptoSession) (carried : option (list Z)) (k k' : Z) (fs : list (list Z)) : Prop :=
  forall w cs, wired s0 k w cs -> exists cs', wired s0 k' (w ++ ((fun f => (f, carried)) <$> fs)) (cs ++ cs').

Lemma goes_nil s0 carried k : goes s0 carried k k [].
Proof. intros w cs H. exists []. by rewrite !app_nil_r. Qed.

Lemma goes_app s0 carried k k1 k2 fs gs :
  goes s0 carried k k1 fs -> goes s0 carried k1 k2 gs -> goes s0 carried k k2 (fs ++ gs).
Proof.
  intros H1 H2 w cs Hw. destruct (H1 w cs Hw) as (c1 & Hw1). destruct (H2 _ _ Hw1) as (c2 & Hw2).
  exists (c1 ++ c2). by rewrite fmap_app, !app_assoc in *.
Qed.

Lemma goes_foreign s0 k f : foreign (peer_id s0) f -> goes s0 None k k [f].
Proof. intros Hf w cs Hw. exists [None]. by constructor. Qed.

Lemma goes_frame s0 carried k f : peer_frame s0 k f carried -> goes s0 carried k (k + 1) [f].
Proof. intros Hf w cs Hw. exists [Some k]. by constructor. Qed.

(** What [n] seals or fewer do to the end [X]: its frames for [Y] go out in the
    order of their counters, and nothing else on its wire is for [Y]. *)
Definition frames_sent (s : PeerTransportSession) : Z := counter (send_nonces (pts_crypto s)).

Definition moves (X Y : node) (s0 : PeerCryptoSession) (carried : option (list Z)) (n : Z) (x x' : RuntimeState) : Prop :=
  forall s, half X Y s0 x s -> (frames_sent s + n <= u64_max)%Z ->
  exists s' fs, half X Y s0 x' s' /\ receive_window (pts_crypto s') = receive_window (pts_crypto s) /\
    sent_of x' = sent_of x ++ fs /\ goes s0 carried (frames_sent s) (frames_sent s') (snd <$> fs) /\
    (frames_sent s <= frames_sent s' <= frames_sent s + n)%Z.

Lemma moves_alike X Y s0 carried x x' : alike (n_device Y) x x' -> moves X Y s0 carried 0 x x'.
Proof.
  intros Ha s Hs _. exists s, []. split_and!; [by eapply half_alike|done| |apply goes_nil|lia|lia].
  by rewrite app_nil_r, (al_sent _ _ _ Ha).
Qed.

Lemma moves_trans X Y s0 carried n m x y z :
  (0 <= m)%Z -> moves X Y s0 carried n x y -> moves X Y s0 carried m y z -> moves X Y s0 carried (n + m) x z.
Proof.
  intros Hm Hxy Hyz s Hs Hn. destruct (Hxy s Hs ltac:(lia)) as (s1 & f1 & H1 & W1 & S1 & G1 & C1).
  destruct (Hyz s1 H1 ltac:(lia)) as (s2 & f2 & H2 & W2 & S2 & G2 & C2).
  exists s2, (f1 ++ f2). split_and!; [done|congruence|by rewrite S2, S1, app_assoc| |lia|lia].
  rewrite fmap_app. by eapply goes_app.
Qed.

Lemma moves_le X Y s0 carried n m x y : (n <= m)%Z -> moves X Y s0 carried n x y -> moves X Y s0 carried m x y.
Proof.
  intros Hn H s Hs Hm. destruct (H s Hs ltac:(lia)) as (s' & fs & H1 & H2 & H3 & H4 & H5).
  exists s', fs. split_and!; [done..|lia|lia].
Qed.

(** ** Sealing *)

Lemma seal_refreshed s m ty r s' :
  seal_message s m ty = (r, s') -> refreshed s s' /\ receive_window s' = receive_window s.
Proof.
  intros H%seal_nonces. destruct H as (sn & -> & Hd & Hw). split; [|done].
  intros (Hl & Hp & Hs). split; [by split_and!; auto|]. by split_and!.
Qed.

(** The state after a frame was sealed by the session [sd] and handed to the
    socket. *)
Definition pushed (x : RuntimeState) (d : string) (sd : PeerTransportSession) (c : PeerCryptoSession)
    (t : TransportRuntime) (addr : SocketAddr) (f : list Z) : RuntimeState :=
  set_transport (set_session x d sd c) (Some (set_status (push_sent t addr f) count_tx)).

(** What a message for the device [d] carries. *)
Definition carries (d : string) (Y : node) (ty : Z) (m : list Z) (carried : option (list Z)) : Prop :=
  (d = n_device Y -> (Z.of_nat (length m) <= 1424)%Z /\ carried = if (ty =? FRAME_TYPE_DATA)%Z then Some m else None) /\
  (d <> n_device Y -> carried = None).

Lemma moves_seal_ok X Y s0 carried x d sd m ty f c t addr :
  peer_transport_sessions_by_device x !! d = Some sd -> seal_message (pts_crypto sd) m ty = (Ok f, c) ->
  known_type ty = true -> carries d Y ty m carried -> transport x = Some t ->
  moves X Y s0 carried 1 x (pushed x d sd c t addr f).
Proof.
  intros Hsd Hseal Hty [Hpeer Hother] Ht s Hs Hn. destruct (seal_refreshed _ _ _ _ _ Hseal) as [Hr Hw].
  assert (sent_of (pushed x d sd c t addr f) = sent_of x ++ [(addr, f)]) as Hsent by (unfold sent_of; by rewrite Ht).
  destruct (decide (d = n_device Y)) as [->|Hd].
  - assert (sd = s) as -> by (destruct Hs; congruence). destruct (Hpeer eq_refl) as [Hlen Hc].
    pose proof (half_wf _ _ _ _ _ Hs) as Hwf.
    destruct (seal_message_inv _ _ _ _ _ Hwf Hty Hseal) as (n & sn & -> & Hwire & Hnn & Hnc & Hpre & _ & Hc1 & _).
    exists (mkPeerTransportSession (pts_overlay_ip s) (pts_endpoint s) (set_send_nonces (pts_crypto s) sn)), [(addr, f)].
    assert (frames_sent (mkPeerTransportSession (pts_overlay_ip s) (pts_endpoint s) (set_send_nonces (pts_crypto s) sn)) =
      (frames_sent s + 1)%Z) as Hk by exact Hc1.
    split_and!; [eapply half_push; [exact Ht|by apply half_set_peer]|done|exact Hsent| |lia|lia].
    rewrite Hk. apply goes_frame. pose proof (half_keys _ _ _ _ _ Hs) as HK.
    exists n, ty, m. rewrite <- (same_keys_wire _ _ _ _ _ HK). destruct HK as (_ & _ & _ & <- & _). by split_and!.
  - destruct (half_others _ _ _ _ _ Hs d sd Hd Hsd) as (Hwf & _ & Hp).
    destruct (seal_message_inv _ _ _ _ _ Hwf Hty Hseal) as (n & sn & _ & Hwire & Hnn & _).
    exists s, [(addr, f)]. split_and!; [eapply half_push; [exact Ht|by apply half_set_other]|done|exact Hsent| |lia|lia].
    rewrite (Hother Hd). apply goes_foreign. by eapply wire_foreign.
Qed.

(** A seal for the peer does not fail before the last counter. *)
Lemma seal_peer_ok X Y s0 x s m ty :
  half X Y s0 x s -> (frames_sent s < u64_max)%Z -> known_type ty = true -> (Z.of_nat (length m) <= 1424)%Z ->
  exists f c, seal_message (pts_crypto s) m ty = (Ok f, c).
Proof.
  intros Hs Hn Ht Hm. destruct (seal_message_ok (pts_crypto s) m ty (half_wf _ _ _ _ _ Hs) Hn Ht) as (n & f & c & H & _).
  - unfold u32_max. lia.
  - by exists f, c.
Qed.

(** A frame that is sealed and not sent is none for the peer. *)
Lemma moves_seal_other X Y s0 x d sd m ty r c :
  d <> n_device Y -> peer_transport_sessions_by_device x !! d = Some sd -> seal_message (pts_crypto sd) m ty = (r, c) ->
  moves X Y s0 None 1 x (set_session x d sd c).
Proof.
  intros Hd Hsd Hseal s Hs Hn. destruct (seal_refreshed _ _ _ _ _ Hseal) as [Hr _].
  exists s, []. split_and!; [by apply half_set_other|done|by rewrite app_nil_r|apply goes_nil|lia|lia].
Qed.

Lemma moves_seal_err X Y s0 carried x d sd m ty r c :
  peer_transport_sessions_by_device x !! d = Some sd -> seal_message (pts_crypto sd) m ty = (r, c) ->
  known_type ty = true -> carries d Y ty m carried -> (forall f, r <> Ok f) ->
  moves X Y s0 carried 1 x (set_session x d sd c).
Proof.
  intros Hsd Hseal Hty [Hpeer Hother] Hr s Hs Hn. destruct (decide (d = n_device Y)) as [->|Hd].
  - assert (sd = s) as -> by (destruct Hs; congruence).
    destruct (seal_peer_ok X Y s0 x s m ty Hs) as (f & c' & Hok); [lia|done|by apply Hpeer|].
    rewrite Hseal in Hok. injection Hok as -> _. by destruct (Hr f).
  - rewrite (Hother Hd). by eapply moves_seal_other.
Qed.

End ends.

(** ** Operations of one end *)

Section operations.
Context `{P : CryptoPrims, HL : !CryptoLaws P}.
Context (os_send : SocketAddr -> list Z -> io Z).
Context (relay_connect : string -> io unit) (relay_write : RelayMessage -> io unit).
Context (socket_ok : forall addr f, exists n, os_send addr f = inr n).

Lemma send_frame_udp t ep f :
  is_udp ep = true -> exists n addr, send_frame os_send t ep f = (Ok n, set_status (push_sent t addr f) count_tx).
Proof.
  intros Hu. unfold send_frame, endpoint_socket_addr. rewrite Hu. cbn [negb].
  destruct (socket_ok (mkSocketAddr (ep_address ep) (ep_port ep)) f) as [n Hn]. exists n. eexists. by rewrite Hn.
Qed.

Lemma transport_send_udp x t ep f :
  transport x = Some t -> is_udp ep = true ->
  exists n addr, transport_send os_send x ep f = (Ok n, set_transport x (Some (set_status (push_sent t addr f) count_tx))).
Proof.
  intros Ht Hu. destruct (send_frame_udp t ep f Hu) as (n & addr & Hs). exists n, addr.
  unfold transport_send. by rewrite Ht, Hs.
Qed.

(** Handing an endpoint that is no UDP one to the socket changes nothing. *)
Lemma transport_send_cases x t ep f r x' :
  transport x = Some t -> transport_send os_send x ep f = (r, x') ->
  x' = set_transport x (Some t) \/
  exists addr, x' = set_transport x (Some (set_status (push_sent t addr f) count_tx)).
Proof.
  intros Ht. unfold transport_send. rewrite Ht. destruct (is_udp ep) eqn:Hu.
  - destruct (send_frame_udp t ep f Hu) as (n & addr & ->). intros [= _ <-]. right. by exists addr.
  - unfold send_frame, endpoint_socket_addr. rewrite Hu. cbn [negb]. intros [= _ <-]. by left.
Qed.

Lemma moves_id X Y s0 carried n x : (0 <= n)%Z -> moves X Y s0 carried n x x.
Proof. intros Hn. eapply moves_le; [exact Hn|]. apply moves_alike, alike_refl. Qed.

Lemma alike_transport d x t : transport x = Some t -> alike d x (set_transport x (Some t)).
Proof. intros Ht. split; try done. unfold sent_of. by rewrite Ht. Qed.

(** Sending any packet. *)
Lemma moves_send X Y s0 x packet r x' :
  (ipv4_destination packet = Ok (n_ip Y) -> (Z.of_nat (length packet) <= 1424)%Z) ->
  send_overlay_packet os_send relay_connect relay_write x packet = (r, x') ->
  moves X Y s0 (if bool_decide (ipv4_destination packet = Ok (n_ip Y)) then Some packet else None) 1 x x'.
Proof.
  intros Hlen Hsend s Hs Hn. set (carried := if bool_decide _ then _ else _).
  unfold send_overlay_packet in Hsend. destruct (ipv4_destination packet) as [dst| |] eqn:Edst.
  2,3: injection Hsend as _ <-; by apply moves_id.
  destruct (peers_by_overlay_ip x !! dst) as [d|] eqn:Hd; [|injection Hsend as _ <-; by apply moves_id].
  destruct (peer_transport_sessions_by_device x !! d) as [sd|] eqn:Hsd; [|injection Hsend as _ <-; by apply moves_id].
  assert (carries d Y FRAME_TYPE_DATA packet carried) as Hcar.
  { pose proof (half_ip _ _ _ _ _ Hs dst) as Hip. unfold carried. split.
    - intros ->. apply Hip in Hd as ->. by rewrite bool_decide_eq_true_2 by done; auto.
    - intros Hne. rewrite bool_decide_eq_false_2; [done|]. intros [= ->]. rewrite (proj2 Hip eq_refl) in Hd. congruence. }
  destruct (seal (pts_crypto sd) packet) as [r0 c] eqn:Es. unfold seal in Es. destruct r0 as [f|e|].
  2,3: injection Hsend as _ <-; by eapply (moves_seal_err X Y s0 carried).
  destruct (half_transport _ _ _ _ _ Hs) as [t Ht]. destruct (peer_path_is_relay x d) eqn:Hrel.
  - assert (d <> n_device Y) as Hne by (intros ->; by rewrite (half_path _ _ _ _ _ Hs) in Hrel).
    destruct (relay_send_frame _ _ _ _) as [r1 sender]. injection Hsend as _ <-. rewrite (proj2 Hcar Hne).
    eapply (moves_trans X Y s0 None 1 0); [lia|by eapply moves_seal_other| |done..].
    apply moves_alike. exact (alike_relay (n_device Y) (set_session x d sd c) sender).
  - destruct (transport_send_cases (set_session x d sd c) t _ _ _ _ Ht Hsend) as [->|[addr ->]]; [|by eapply (moves_seal_ok X Y s0 carried)].
    destruct (decide (d = n_device Y)) as [->|Hne].
    + assert (sd = s) as -> by (destruct Hs; congruence).
      destruct (transport_send_udp (set_session x (n_device Y) s c) t (pts_endpoint s) f Ht (half_udp _ _ _ _ _ Hs))
        as (n & addr & Hok). rewrite Hok in Hsend. injection Hsend as _ Hx. rewrite <- Hx.
      by eapply (moves_seal_ok X Y s0 carried).
    + rewrite (proj2 Hcar Hne). eapply (moves_trans X Y s0 None 1 0); [lia|by eapply moves_seal_other| |done..].
      apply moves_alike. by apply alike_transport.
Qed.

(** A packet for the peer goes out as one datagram. *)
Lemma send_to_peer X Y s0 x s packet :
  half X Y s0 x s -> (frames_sent s < u64_max)%Z -> ipv4_destination packet = Ok (n_ip Y) ->
  (Z.of_nat (length packet) <= 1424)%Z ->
  exists n x' d, send_overlay_packet os_send relay_connect relay_write x packet = (Ok n, x') /\
    sent_of x' = sent_of x ++ [d].
Proof.
  intros Hs Hn Hdst Hlen. destruct (seal_peer_ok X Y s0 x s packet FRAME_TYPE_DATA Hs Hn eq_refl Hlen) as (f & c & Hseal).
  unfold send_overlay_packet. rewrite Hdst, (proj2 (half_ip _ _ _ _ _ Hs (n_ip Y)) eq_refl), (half_session _ _ _ _ _ Hs).
  unfold seal. rewrite Hseal, (half_path _ _ _ _ _ Hs). destruct (half_transport _ _ _ _ _ Hs) as [t Ht].
  destruct (transport_send_udp (set_session x (n_device Y) s c) t (pts_endpoint s) f Ht (half_udp _ _ _ _ _ Hs))
    as (n & addr & ->). exists n. eexists _, (addr, f). split; [done|]. unfold sent_of. by rewrite Ht.
Qed.

(** ** Probes *)

Lemma probe_length now : (0 <= now <= u128_max)%Z -> (Z.of_nat (length (as_bytes ("probe " +:+ dec now))) <= 1424)%Z.
Proof. intros H%dec_length. rewrite as_bytes_app, length_app. cbn [as_bytes length]. lia. Qed.

Lemma probe_response_length payload now :
  (0 <= now <= u128_max)%Z -> (Z.of_nat (length (encode_probe_response_payload payload now)) <= 1424)%Z.
Proof.
  intros Hn. unfold encode_probe_response_payload. set (v := default now _).
  assert (0 <= v <= u128_max)%Z as Hv.
  { unfold v. destruct (strip_prefix_l _ _) as [l|]; [|done]. cbn [mbind option_bind].
    destruct (from_utf8 l) as [t|]; [|done]. cbn [mbind option_bind].
    destruct (parse_uint u128_max t) as [z|] eqn:E; [|done]. by apply parse_uint_bound in E. }
  apply dec_length in Hv. rewrite as_bytes_app, length_app. cbn [as_bytes length]. lia.
Qed.

Lemma set_session_twice x d s c c' :
  set_session (set_session x d s c) d (mkPeerTransportSession (pts_overlay_ip s) (pts_endpoint s) c) c' = set_session x d s c'.
Proof.
  unfold set_session, set_sessions. cbn [pts_overlay_ip pts_endpoint peer_transport_sessions_by_device persisted peers_by_device
    peers_by_overlay_ip peer_crypto_material_by_device peer_udp_endpoints_by_device peer_device_by_frame_id
    peer_path_state_by_device rt_relays tun_status tun_device transport transport_tasks relay_sender].
  by rewrite insert_insert_eq.
Qed.

(** The probes of one peer: the loop has the transport apart from the state. *)
Lemma moves_send_probes X Y s0 d now eps : forall x t sd r t' c,
  (0 <= now <= u128_max)%Z -> Forall (fun ep => is_udp ep = true) eps ->
  peer_transport_sessions_by_device x !! d = Some sd ->
  send_probes os_send t (pts_crypto sd) now eps = (r, t', c) ->
  moves X Y s0 None (Z.of_nat (length eps)) (set_transport x (Some t)) (set_transport (set_session x d sd c) (Some t')).
Proof.
  induction eps as [|ep eps IH]; intros x t sd r t' c Hnow Hu Hsd H; cbn [send_probes] in H.
  { injection H as _ <- <-. apply moves_alike. exact (alike_same_session (n_device Y) (set_transport x (Some t)) d sd Hsd). }
  apply Forall_cons in Hu as [Hep Hu]. cbn [length].
  destruct (seal_message (pts_crypto sd) _ _) as [r0 c0] eqn:Es.
  assert (carries d Y FRAME_TYPE_PROBE (as_bytes ("probe " +:+ dec now)) None) as Hcar.
  { split; [|done]. intros _. split; [by apply probe_length|done]. }
  destruct r0 as [f|e|].
  2,3: injection H as _ <- <-; eapply moves_le; [|by eapply (moves_seal_err X Y s0 None (set_transport x (Some t)))]; lia.
  destruct (send_frame_udp t ep f Hep) as (n & addr & Hsf). rewrite Hsf in H.
  set (t1 := set_status (push_sent t addr f) count_tx) in H.
  destruct (send_probes os_send t1 c0 now eps) as [[r2 t2] c2] eqn:E2. injection H as _ <- <-.
  set (x1 := set_session x d sd c0). set (sd1 := mkPeerTransportSession (pts_overlay_ip sd) (pts_endpoint sd) c0).
  rewrite <- (set_session_twice x d sd c0 c2). fold x1 sd1.
  pose proof (moves_seal_ok X Y s0 None (set_transport x (Some t)) d sd _ _ f c0 t addr Hsd Es eq_refl Hcar eq_refl) as M1.
  pose proof (IH x1 t1 sd1 r2 t2 c2 Hnow Hu (lookup_insert_eq _ _ _) E2) as M2.
  replace (Z.of_nat (S (length eps))) with (1 + Z.of_nat (length eps))%Z by lia.
  exact (moves_trans X Y s0 None 1 (Z.of_nat (length eps)) _ _ _ (Nat2Z.is_nonneg _) M1 M2).
Qed.

Lemma sorted_udp eps : Forall (fun ep => is_udp ep = true) (sorted_udp_endpoints eps).
Proof.
  apply Forall_forall. intros ep. unfold sorted_udp_endpoints.
  rewrite elem_of_sort_by, list_elem_of_In, filter_In. by intros [].
Qed.

Lemma moves_probe_peers X Y s0 now peers : forall x t r x',
  (0 <= now <= u128_max)%Z -> probe_peers os_send x t now peers = (r, x') ->
  moves X Y s0 None (probes (sp_endpoints <$> peers)) (set_transport x (Some t)) x'.
Proof.
  induction peers as [|p peers IH]; intros x t r x' Hnow H; cbn [probe_peers] in H.
  { injection H as _ <-. by apply moves_id. }
  cbn [fmap list_fmap probes foldr]. fold (probes (sp_endpoints <$> peers)). set (k := probes (sp_endpoints <$> peers)).
  set (st := default PeerPathState_default _) in H. set (x1 := set_paths x _) in H.
  assert (moves X Y s0 None 0 (set_transport x (Some t)) (set_transport x1 (Some t))) as M1.
  { apply moves_alike. by apply (alike_same_path (n_device Y) (set_transport x (Some t))). }
  set (n := Z.of_nat (length (sorted_udp_endpoints (sp_endpoints p)))).
  pose proof (probes_nonneg (sp_endpoints <$> peers)) as Hpos. fold k in Hpos.
  assert (forall y, moves X Y s0 None k (set_transport x1 (Some t)) y -> moves X Y s0 None (n + k) (set_transport x (Some t)) y) as Hrest.
  { intros y Hy. eapply moves_le; [|exact (moves_trans _ _ _ _ _ _ _ _ _ Hpos M1 Hy)]. lia. }
  destruct (negb _); [by eapply Hrest, IH|].
  destruct (peer_transport_sessions_by_device x1 !! sp_device_id p) as [se|] eqn:Hse; [|by eapply Hrest, IH].
  destruct (send_probes os_send t (pts_crypto se) now _) as [[r0 t0] c] eqn:Ep.
  pose proof (moves_send_probes X Y s0 (sp_device_id p) now _ x1 t se r0 t0 c Hnow (sorted_udp _) Hse Ep) as M2. fold n in M2.
  assert (moves X Y s0 None (0 + n) (set_transport x (Some t)) (set_transport (set_session x1 (sp_device_id p) se c) (Some t0))) as M3
    by (eapply moves_trans; [lia|exact M1|exact M2]).
  destruct r0 as [j| |]; [|injection H as _ <-; eapply moves_le; [|exact M3]; lia..].
  destruct (probe_peers os_send _ t0 now peers) as [r1 x2] eqn:E. injection H as _ <-. apply IH in E; [|done].
  eapply moves_le; [|eapply (moves_trans _ _ _ _ (0 + n) (0 + k)); [lia|exact M3|eapply moves_trans; [exact Hpos| |exact E]]]; [lia|].
  apply moves_alike, (alike_same_path (n_device Y) (set_transport (set_session x1 (sp_device_id p) se c) (Some t0))).
  cbn [probed_path current_path set_session set_sessions set_transport peer_path_state_by_device x1 set_paths].
  by rewrite lookup_insert_eq.
Qed.

(** Path maintenance. *)
Lemma moves_maintain X Y s0 x now r x' :
  (0 <= now <= u128_max)%Z -> persisted x = n_state X -> probe_peer_direct_paths os_send x now = (r, x') ->
  moves X Y s0 None (probes (sp_endpoints <$> st_peers (n_state X))) x x'.
Proof.
  intros Hnow Hp. unfold probe_peer_direct_paths. set (x1 := expire_stale_direct_paths x now).
  assert (moves X Y s0 None 0 x x1) as M1 by apply moves_alike, alike_expire.
  destruct (transport x1) as [t|] eqn:Et; [|intros [= _ <-]; eapply moves_le; [apply probes_nonneg|exact M1]].
  intros H. change (persisted x1) with (persisted x) in H. rewrite Hp in H.
  pose proof (moves_probe_peers X Y s0 now _ x1 t r x' Hnow H) as M2. pose proof (probes_nonneg (sp_endpoints <$> st_peers (n_state X))).
  eapply (moves_trans _ _ _ _ 0); [done|exact M1|].
  eapply (moves_trans _ _ _ _ 0); [done| |exact M2]. apply moves_alike. by apply alike_transport.
Qed.

(** ** Receiving *)

Lemma half_mark X Y s0 x s now ep rtt :
  is_udp ep = true -> half X Y s0 x s ->
  half X Y s0 (mark_peer_direct x now (n_device Y) ep rtt) (mkPeerTransportSession (pts_overlay_ip s) ep (pts_crypto s)) /\
  sent_of (mark_peer_direct x now (n_device Y) ep rtt) = sent_of x.
Proof.
  intros Hu Hs. unfold mark_peer_direct. cbn [set_paths peer_transport_sessions_by_device].
  rewrite (half_session _ _ _ _ _ Hs). split; [|done]. destruct Hs.
  split; try done; cbn [set_sessions set_paths peer_transport_sessions_by_device].
  - apply lookup_insert_eq.
  - unfold peer_path_is_relay. cbn [set_sessions set_paths peer_path_state_by_device]. by rewrite lookup_insert_eq.
  - intros d s' Hd. rewrite lookup_insert_ne by done. by apply half_others0.
Qed.

Lemma half_local X Y s0 x s d s' :
  half X Y s0 x s -> peer_transport_sessions_by_device x !! d = Some s' -> local_id (pts_crypto s') = local_id s0.
Proof.
  intros [] Hs'. destruct (decide (d = n_device Y)) as [->|Hd]; [|by eapply half_others0].
  rewrite half_session0 in Hs'. injection Hs' as <-. apply half_keys0.
Qed.

(** A datagram that is no frame for this device is dropped. *)
Lemma open_foreign X Y s0 x s now f src r x' :
  half X Y s0 x s -> (forall e, EncodedFrame_decode f = Ok e -> destination (header e) <> local_id s0) ->
  open_received_frame os_send x now f src = (r, x') -> alike (n_device Y) x x' /\ forall o, r <> Ok o.
Proof.
  intros Hs Hf. unfold open_received_frame. destruct (EncodedFrame_decode f) as [e| |] eqn:Ed.
  2: by intros [= <- <-]; split; [apply alike_drop|].
  2: by intros [= <- <-]; split; [apply alike_refl|].
  destruct (peer_device_by_frame_id x !! _) as [d|]; [|by intros [= <- <-]; split; [apply alike_drop|]].
  destruct (peer_transport_sessions_by_device x !! d) as [sd|] eqn:Hsd; [|by intros [= <- <-]; split; [apply alike_drop|]].
  assert (exists m, open_message (pts_crypto sd) f = (Err m, pts_crypto sd)) as [m ->].
  { unfold open_message, authenticate. rewrite Ed. cbn [mbind res_bind].
    destruct (bool_decide (source _ <> _)); [by eexists|]. rewrite bool_decide_eq_true_2; [by eexists|].
    rewrite (half_local _ _ _ _ _ _ _ Hs Hsd). by apply Hf. }
  intros [= <- <-]. split; [|done]. eapply alike_trans; [by apply alike_same_session|apply alike_drop].
Qed.

(** A probe is answered, and both ends of it are direct from now on. *)
Lemma probe_answered X Y s0 x s now m source r x' :
  half X Y s0 x s -> (frames_sent s + 1 <= u64_max)%Z -> (0 <= now <= u128_max)%Z ->
  opened_probe os_send x now (n_device Y) s m (Some source) = (r, x') ->
  r = Ok None /\ exists s' fs, half X Y s0 x' s' /\ receive_window (pts_crypto s') = receive_window (pts_crypto s) /\
    sent_of x' = sent_of x ++ fs /\ goes s0 None (frames_sent s) (frames_sent s') (snd <$> fs) /\
    (frames_sent s <= frames_sent s' <= frames_sent s + 1)%Z.
Proof.
  intros Hs Hn Hnow H. pose proof (probe_response_length m now Hnow) as Hlen.
  destruct (seal_peer_ok X Y s0 x s _ FRAME_TYPE_PROBE_RESPONSE Hs ltac:(lia) eq_refl Hlen) as (f & c & Hseal).
  destruct (half_transport _ _ _ _ _ Hs) as [t Ht]. unfold opened_probe in H. rewrite Hseal in H.
  destruct (transport_send_udp (set_session x (n_device Y) s c) t (source_endpoint source) f Ht eq_refl) as (n & addr & Hsend).
  rewrite Hsend in H. injection H as <- <-. split; [done|].
  assert (carries (n_device Y) Y FRAME_TYPE_PROBE_RESPONSE (encode_probe_response_payload m now) None) as Hcar by by split.
  destruct (moves_seal_ok X Y s0 None x (n_device Y) s _ _ f c t addr (half_session _ _ _ _ _ Hs) Hseal eq_refl Hcar Ht s Hs Hn)
    as (s' & fs & H1 & H2 & H3 & H4 & H5).
  destruct (half_mark X Y s0 _ s' now (source_endpoint source) None eq_refl H1) as [H6 H7].
  exists (mkPeerTransportSession (pts_overlay_ip s') (source_endpoint source) (pts_crypto s')), fs.
  split_and!; [exact H6|exact H2|etrans; [exact H7|exact H3]|exact H4|apply H5|apply H5].
Qed.

(** What one end makes of a datagram of the other one. *)
Definition received (X Y : node) (s0 : PeerCryptoSession) (cs : list (option Z)) (x : RuntimeState) (s : PeerTransportSession)
    (carried : option (list Z)) (i : nat) (seen : list nat) (r : res BackendError (option (list Z))) (x' : RuntimeState)
    : Prop :=
  exists s' fs, half X Y s0 x' s' /\ heard cs (receive_window (pts_crypto s')) (seen ++ [i]) /\
    sent_of x' = sent_of x ++ fs /\ goes s0 None (frames_sent s) (frames_sent s') (snd <$> fs) /\
    (frames_sent s <= frames_sent s' <= frames_sent s + 1)%Z /\
    promised (Handed carried i seen (match r with Ok out => out | _ => None end)).

(** A frame that the window accepts, by its type. *)
Lemma fresh_frame X Y s0 cs x s ty m carried i seen now source r x' :
  half X Y s0 x s -> heard cs (receive_window (pts_crypto s)) (seen ++ [i]) -> i ∉ seen ->
  (frames_sent s + 1 <= u64_max)%Z -> (0 <= now <= u128_max)%Z -> known_type ty = true ->
  carried = (if (ty =? FRAME_TYPE_DATA)%Z then Some m else None) ->
  (if (ty =? FRAME_TYPE_DATA)%Z then (Ok (Some m), x)
   else if (ty =? FRAME_TYPE_PROBE)%Z then opened_probe os_send x now (n_device Y) s m (Some source)
   else if (ty =? FRAME_TYPE_PROBE_RESPONSE)%Z then opened_response x now (n_device Y) m (Some source)
   else (Err (failed ("unsupported opened frame message type: " +:+ dec ty)), x)) = (r, x') ->
  received X Y s0 cs x s carried i seen r x'.
Proof.
  intros Hs Hh Hi Hn Hnow Hty Hcar H. destruct (ty =? FRAME_TYPE_DATA)%Z eqn:E1; [|destruct (ty =? FRAME_TYPE_PROBE)%Z eqn:E2].
  - injection H as <- <-. exists s, []. subst carried. split_and!; [done|done|by rewrite app_nil_r|apply goes_nil|lia|lia|].
    split_and!; [by right|done|done].
  - destruct (probe_answered _ _ _ _ _ _ _ _ _ _ Hs Hn Hnow H) as (-> & s' & fs & H1 & H2 & H3 & H4 & H5).
    exists s', fs. subst carried. by rewrite H2.
  - destruct (ty =? FRAME_TYPE_PROBE_RESPONSE)%Z eqn:E3.
    + unfold opened_response in H. injection H as <- <-.
      destruct (half_mark X Y s0 x s now (source_endpoint source) (probe_response_rtt_ms m now) eq_refl Hs) as [H1 H2].
      eexists _, []. split_and!; [exact H1|exact Hh|by rewrite app_nil_r|apply goes_nil|unfold frames_sent; cbn [pts_crypto]; lia..|by subst carried].
    + unfold known_type in Hty. by rewrite E1, E2, E3 in Hty.
Qed.

(** Any datagram of the other end. *)
Lemma receive_datagram X Y s0 t0 k w cs x s f carried i seen now src r x' :
  half X Y s0 x s -> mirrored t0 s0 -> wired t0 k w cs -> heard cs (receive_window (pts_crypto s)) seen ->
  w !! i = Some (f, carried) -> (frames_sent s + 1 <= u64_max)%Z -> (0 <= now <= u128_max)%Z ->
  receive_overlay_packet os_send x now BUFFER_LEN (inr (f, src)) = (r, x') ->
  received X Y s0 cs x s carried i seen r x'.
Proof.
  intros Hs Hm Hw Hh Hi Hn Hnow H. destruct (half_transport _ _ _ _ _ Hs) as [t Ht].
  unfold receive_overlay_packet in H. rewrite Ht in H. unfold receive_frame, recv_from in H.
  set (x1 := set_transport x _) in H. pose proof (alike_status (n_device Y) x t count_rx Ht) as A1. fold x1 in A1.
  pose proof (half_alike _ _ _ _ _ _ A1 Hs) as Hs1. pose proof (al_sent _ _ _ A1) as S1.
  assert (exists oc, cs !! i = Some oc) as [oc Hc].
  { apply lookup_lt_is_Some. rewrite <- (wired_length _ _ _ _ Hw). by eapply lookup_lt_Some. }
  pose proof (wired_lookup _ _ _ _ _ _ _ _ Hw Hi Hc) as Hf. destruct oc as [c|].
  - destruct Hf as (n & ty & m & Hwire & Hnn & Hpre & Hnc & Hty & Hlen & Hcar).
    pose proof (half_keys _ _ _ _ _ Hs) as HK. pose proof (half_wf _ _ _ _ _ Hs) as (Wl & Wp & _).
    destruct HK as (Kl & Kp & Kc & Kd & Kr). destruct Hm as (M1 & M2 & M3 & M4 & M5).
    assert (wf_id (local_id t0) /\ wf_id (peer_id t0)) as [Wl0 Wp0] by (split; congruence).
    rewrite take_ge in H by (rewrite (wire_frame_length _ _ _ _ _ Wl0 Wp0 Hnn Hwire); unfold HEADER_LEN, BUFFER_LEN; lia).
    destruct (authenticate_wire t0 (pts_crypto s) n ty m f) as [ct Ha]; try done; [split_and!; congruence|congruence|].
    destruct (heard_open t0 k w cs seen (pts_crypto s) f _ m i c Hw Hh Hc Ha Hnc) as (v & win & Ho & Hh' & Hold & Hnew).
    unfold open_received_frame in H. rewrite (authenticate_decode _ _ _ _ Ha) in H.
    cbn [header source FrameHeader_new] in H. rewrite M1, (half_frame_id _ _ _ _ _ Hs1), (half_session _ _ _ _ _ Hs1), Ho in H.
    cbn [header FrameHeader_new message_type] in H.
    set (x2 := set_session x1 _ _ _) in H. set (s2 := mkPeerTransportSession _ _ _) in H.
    assert (half X Y s0 x2 s2) as Hs2 by by apply half_set_peer.
    destruct v; cbn [verdict_result mbind res_bind of_message_type of_plaintext] in H.
    + assert (received X Y s0 cs x2 s2 carried i seen r x') as (s' & fs & R).
      { eapply fresh_frame; try done. intros Hin. by destruct (Hold Hin). }
      exists s', fs. change (sent_of x2) with (sent_of x1) in R. by rewrite S1 in R.
    + injection H as <- <-. exists s2, []. split_and!; [|exact Hh'| |apply goes_nil|unfold frames_sent; cbn [s2 pts_crypto set_receive_window send_nonces]; lia..|].
      * eapply half_alike; [apply alike_drop|exact Hs2].
      * rewrite app_nil_r, (al_sent _ _ _ (alike_drop (n_device Y) x2)). exact S1.
      * destruct carried; [|done]. split_and!; [by left|done|]. intros H1 H2. by specialize (Hnew H1 H2).
    + injection H as <- <-. exists s2, []. split_and!; [|exact Hh'| |apply goes_nil|unfold frames_sent; cbn [s2 pts_crypto set_receive_window send_nonces]; lia..|].
      * eapply half_alike; [apply alike_drop|exact Hs2].
      * rewrite app_nil_r, (al_sent _ _ _ (alike_drop (n_device Y) x2)). exact S1.
      * destruct carried; [|done]. split_and!; [by left|done|]. intros H1 H2. by specialize (Hnew H1 H2).
  - destruct Hf as [Hf ->]. destruct Hm as (_ & M2 & _). rewrite M2 in Hf.
    destruct (open_foreign X Y s0 x1 s now _ _ r x' Hs1 Hf H) as [A2 Hr].
    exists s, []. split_and!; [by eapply half_alike|by apply heard_foreign| |apply goes_nil|lia|lia|].
    + rewrite app_nil_r, (al_sent _ _ _ A2). exact S1.
    + destruct r as [o| |]; [by destruct (Hr o)|done..].
Qed.

End operations.

(** ** The two ends together *)

Section channel.
Context `{P : CryptoPrims, HL : !CryptoLaws P}.
Context (os_send : SocketAddr -> list Z -> io Z).
Context (relay_connect : string -> io unit) (relay_write : RelayMessage -> io unit).
Context (socket_ok : forall addr f, exists n, os_send addr f = inr n).

(** The wire of one end, and what the other end has heard of it. *)
Definition one_way (s0 : PeerCryptoSession) (s t : PeerTransportSession) (from to : endpt) : Prop :=
  exists cs, wired s0 (frames_sent s) (e_wire from) cs /\ heard cs (receive_window (pts_crypto t)) (e_seen to).

Definition linked (X Y : node) (n : Z) (a b : endpt) : Prop :=
  exists sx0 sy0 sx sy, half X Y sx0 (e_state a) sx /\ half Y X sy0 (e_state b) sy /\
    mirrored sx0 sy0 /\ mirrored sy0 sx0 /\ one_way sx0 sx sy a b /\ one_way sy0 sy sx b a /\
    (frames_sent sx <= n /\ frames_sent sy <= n)%Z.

Lemma linked_sym X Y n a b : linked X Y n a b -> linked Y X n b a.
Proof. intros (sx0 & sy0 & sx & sy & ? & ? & ? & ? & ? & ? & ? & ?). by exists sy0, sx0, sy, sx. Qed.

Lemma linked_le X Y n m a b : (n <= m)%Z -> linked X Y n a b -> linked X Y m a b.
Proof.
  intros Hn (sx0 & sy0 & sx & sy & ? & ? & ? & ? & ? & ? & ? & ?). exists sx0, sy0, sx, sy. split_and!; try done; lia.
Qed.

Lemma new_datagrams_app x x' fs : sent_of x' = sent_of x ++ fs -> new_datagrams x x' = snd <$> fs.
Proof. intros H. unfold new_datagrams. by rewrite H, drop_app_length. Qed.

(** What one end sends goes on its wire. *)
Lemma one_way_emit s0 s s' t carried from to x' fs :
  sent_of x' = sent_of (e_state from) ++ fs -> goes s0 carried (frames_sent s) (frames_sent s') (snd <$> fs) ->
  one_way s0 s t from to -> one_way s0 s' t (emit carried from x') to.
Proof.
  intros Hsent Hg (cs & Hw & Hh). destruct (Hg _ _ Hw) as (cs' & Hw'). exists (cs ++ cs').
  unfold emit. cbn [e_wire]. rewrite (new_datagrams_app _ _ _ Hsent). split; [done|by apply heard_app].
Qed.

Lemma linked_moves X Y n k a b carried x' :
  (forall s0, moves X Y s0 carried k (e_state a) x') -> linked X Y n a b -> (n + k <= u64_max)%Z -> (0 <= k)%Z ->
  linked X Y (n + k) (emit carried a x') b.
Proof.
  intros Hm (sx0 & sy0 & sx & sy & Hx & Hy & M1 & M2 & W1 & W2 & N1 & N2) Hn Hk.
  destruct (Hm sx0 sx Hx ltac:(lia)) as (s' & fs & H1 & H2 & H3 & H4 & H5).
  exists sx0, sy0, s', sy. split_and!; try done; [by eapply one_way_emit| |lia|lia].
  destruct W2 as (cs & W2 & Hh). exists cs. by rewrite H2.
Qed.

Lemma linked_send X Y n a b packet :
  linked X Y n a b -> (n + 1 <= u64_max)%Z ->
  (ipv4_destination packet = Ok (n_ip Y) -> (Z.of_nat (length packet) <= 1424)%Z) ->
  promised (fst (end_send os_send relay_connect relay_write (n_ip Y) a packet)) /\
  linked X Y (n + 1) (snd (end_send os_send relay_connect relay_write (n_ip Y) a packet)) b.
Proof.
  intros Hl Hn Hlen. unfold end_send.
  destruct (send_overlay_packet os_send relay_connect relay_write (e_state a) packet) as [r x'] eqn:Es. cbn [fst snd]. split.
  - intros Hd%bool_decide_eq_true. destruct Hl as (sx0 & sy0 & sx & sy & Hx & _ & _ & _ & _ & _ & N1 & _).
    destruct (send_to_peer os_send relay_connect relay_write socket_ok X Y sx0 (e_state a) sx packet Hx ltac:(lia) Hd (Hlen Hd))
      as (m & x1 & d & Hok & Hsent). rewrite Es in Hok. injection Hok as -> ->.
    by rewrite (new_datagrams_app _ _ _ Hsent).
  - apply linked_moves; [|done|lia|lia]. intros s0. by eapply moves_send.
Qed.

(** The frames that an event makes one end seal at most. *)
Definition event_cost (X Y : node) : Z :=
  (1 + probes (sp_endpoints <$> st_peers (n_state X)) + probes (sp_endpoints <$> st_peers (n_state Y)))%Z.

Lemma linked_tick X Y n k a b now :
  linked X Y n a b -> (probes (sp_endpoints <$> st_peers (n_state X)) <= k)%Z -> (n + k <= u64_max)%Z ->
  (0 <= now <= u128_max)%Z -> linked X Y (n + k) (end_tick os_send a now) b.
Proof.
  intros Hl Hk Hn Hnow. pose proof (probes_nonneg (sp_endpoints <$> st_peers (n_state X))).
  assert (persisted (e_state a) = n_state X) as Hp by (destruct Hl as (sx0 & sy0 & sx & sy & [] & _); done).
  unfold end_tick. destruct (probe_peer_direct_paths os_send (e_state a) now) as [r x'] eqn:E. cbn [snd].
  eapply linked_le; [|apply (linked_moves X Y n (probes (sp_endpoints <$> st_peers (n_state X)))); [|done|lia|lia]]; [lia|].
  intros s0. by eapply moves_maintain.
Qed.

Lemma linked_receive X Y n a b i now source :
  linked X Y n a b -> (n + 1 <= u64_max)%Z -> (0 <= now <= u128_max)%Z ->
  Forall promised (option_list (fst (end_receive os_send a b i now source))) /\
  linked X Y (n + 1) (snd (end_receive os_send a b i now source)) b.
Proof.
  intros Hl Hn Hnow. unfold end_receive. destruct (e_wire b !! i) as [[f carried]|] eqn:Hi.
  2: { split; [constructor|]. eapply linked_le; [|exact Hl]. lia. }
  destruct (receive_overlay_packet os_send (e_state a) now BUFFER_LEN (inr (f, source))) as [r x'] eqn:Er. cbn [fst snd].
  destruct Hl as (sx0 & sy0 & sx & sy & Hx & Hy & M1 & M2 & W1 & (cs & W2 & Hh) & N1 & N2).
  destruct (receive_datagram os_send socket_ok X Y sx0 sy0 _ _ cs (e_state a) sx f carried i (e_seen a) now source r x'
    Hx M2 W2 Hh Hi ltac:(lia) Hnow Er) as (s' & fs & H1 & H2 & H3 & H4 & H5 & H6).
  split; [by repeat constructor|]. exists sx0, sy0, s', sy. cbn [e_state e_wire e_seen].
  split_and!; try done; [| |lia|lia].
  - destruct (one_way_emit sx0 sx s' sy None a b x' fs H3 H4 W1) as (cs' & H7 & H8). by exists cs'.
  - by exists cs.
Qed.

(** The frames that an event makes one end seal at most. *)
Lemma linked_run X Y events : forall n a b,
  linked X Y n a b -> Forall (event_ok (n_ip X) (n_ip Y)) events ->
  (n + Z.of_nat (length events) * event_cost X Y <= u64_max)%Z ->
  Forall promised (net_run os_send relay_connect relay_write (n_ip X) (n_ip Y) a b events).
Proof.
  assert (1 <= event_cost X Y /\ probes (sp_endpoints <$> st_peers (n_state X)) <= event_cost X Y /\
          probes (sp_endpoints <$> st_peers (n_state Y)) <= event_cost X Y)%Z as (Hc1 & HcX & HcY).
  { unfold event_cost. pose proof (probes_nonneg (sp_endpoints <$> st_peers (n_state X))).
    pose proof (probes_nonneg (sp_endpoints <$> st_peers (n_state Y))). lia. }
  induction events as [|e events IH]; intros n a b Hl Hok Hn; [constructor|].
  apply Forall_cons in Hok as [He Hok]. cbn [length] in Hn.
  assert (n + event_cost X Y + Z.of_nat (length events) * event_cost X Y <= u64_max)%Z as Hn' by lia.
  assert (n + 1 <= u64_max)%Z as Hlt by nia. assert (n + event_cost X Y <= u64_max)%Z as Hct by nia.
  destruct e as [[] packet|[] now|[] i now source]; cbn [net_run net_step event_ok] in *.
  - destruct (linked_send X Y n a b packet Hl Hlt He) as [Hp Hl'].
    destruct (end_send _ _ _ _ a packet) as [o a']. apply Forall_app. split; [by repeat constructor|].
    apply (IH (n + event_cost X Y)%Z); [|done..]. eapply linked_le; [|exact Hl']. lia.
  - destruct (linked_send Y X n b a packet (linked_sym _ _ _ _ _ Hl) Hlt He) as [Hp Hl'].
    destruct (end_send _ _ _ _ b packet) as [o b']. apply Forall_app. split; [by repeat constructor|].
    apply (IH (n + event_cost X Y)%Z); [|done..]. apply linked_sym. eapply linked_le; [|exact Hl']. lia.
  - apply (IH (n + event_cost X Y)%Z); [by apply linked_tick|done..].
  - apply (IH (n + event_cost X Y)%Z); [by apply linked_sym, linked_tick; [apply linked_sym|..]|done..].
  - destruct (linked_receive X Y n a b i now source Hl Hlt He) as [Hp Hl'].
    destruct (end_receive _ a b i now source) as [o a']. apply Forall_app. split; [done|].
    apply (IH (n + event_cost X Y)%Z); [|done..]. eapply linked_le; [|exact Hl']. lia.
  - destruct (linked_receive Y X n b a i now source (linked_sym _ _ _ _ _ Hl) Hlt He) as [Hp Hl'].
    destruct (end_receive _ b a i now source) as [o b']. apply Forall_app. split; [done|].
    apply (IH (n + event_cost X Y)%Z); [|done..]. apply linked_sym. eapply linked_le; [|exact Hl']. lia.
Qed.

End channel.

(** ** From peer maps to the network *)

Section start.
Context `{P : CryptoPrims, HL : !CryptoLaws P}.
Context (to_json : CustomBackendState -> string) (from_json : string -> option CustomBackendState).

Lemma new_ids salt k c1 c2 i j s : PeerCryptoSession_new salt k c1 c2 i j = Ok s -> local_id s = i /\ peer_id s = j.
Proof. unfold PeerCryptoSession_new. intros H. by inv_ok. Qed.

(** Every session comes from a peer of the list. *)
Lemma build_sessions_from salts lid key identity peers : forall m out d s,
  build_sessions salts lid key identity peers m = Ok out -> out !! d = Some s ->
  m !! d = Some s \/ exists p i, p ∈ peers /\ sp_device_id p = d /\ from_device_id uuid_parse d = Ok i /\
    PeerCryptoSession_new (salts d) key (public_key identity) (sp_public_key p) lid i = Ok (pts_crypto s).
Proof.
  induction peers as [|p peers IH]; intros m out d s H Hd; cbn [build_sessions] in H; [injection H as <-; by left|].
  destruct (from_device_id uuid_parse (sp_device_id p)) as [i| |] eqn:Ei; [|done..]. cbn [mbind res_bind] in H.
  destruct (select_udp_endpoint _) as [ep|].
  - destruct (PeerCryptoSession_new _ _ _ _ _ _) as [c| |] eqn:Ec; [|done..]. cbn [mbind res_bind] in H.
    destruct (IH _ _ _ _ H Hd) as [Hm|(q & j & Hq & Hrest)]; [|right; exists q, j; split; [by right|done]].
    destruct (decide (sp_device_id p = d)) as [<-|Hne]; [|left; by rewrite lookup_insert_ne in Hm].
    rewrite lookup_insert_eq in Hm. injection Hm as <-. right. exists p, i. by split_and!; [left|..].
  - destruct (IH _ _ _ _ H Hd) as [Hm|(q & j & Hq & Hrest)]; [by left|]. right. exists q, j. split; [by right|done].
Qed.

(** A collected map has the pairs of its list only. *)
Lemma collect_map_inv {K A} `{Countable K} (l : list (K * A)) k v : collect_map l !! k = Some v -> (k, v) ∈ l.
Proof.
  unfold collect_map. assert (forall m : gmap K A, fold_left (fun m kv => <[fst kv := snd kv]> m) l m !! k = Some v ->
    m !! k = Some v \/ (k, v) ∈ l) as Hall; [|intros [H1|?]%Hall; [by rewrite lookup_empty in H1|done]].
  induction l as [|[k' v'] l IH]; intros m; cbn [fold_left]; [by left|].
  intros [Hm|Hl]%IH; [|right; by right]. cbn [fst snd] in Hm. destruct (decide (k' = k)) as [->|Hne].
  - rewrite lookup_insert_eq in Hm. injection Hm as ->. right. by left.
  - rewrite lookup_insert_ne in Hm by done. by left.
Qed.

(** The backend of [p] after it was given a map with [q] is an end of a channel. *)
Lemma peer_map_half p q salts fs now peers self self' ip iq :
  configured from_json p self -> peer_map_ok peers -> knows peers q -> (forall d, salt_ok (salts d)) ->
  from_device_id uuid_parse (device p) = Ok ip -> from_device_id uuid_parse (device q) = Ok iq ->
  apply_peer_map to_json from_json salts fs now peers self = (Ok tt, self') ->
  exists s, ready p q (salts (device q)) peers (runtime self') ip iq s /\
    forall st, half (node_of p (runtime self')) (mkNode (device q) (overlay q) st) (pts_crypto s) (runtime self') s.
Proof.
  intros Hcfg Hmap Hq Hsalts Hip Hiq Happ.
  destruct (peer_map_ready to_json from_json p q salts fs now peers self self' ip iq Hcfg Hmap Hq Hsalts Hip Hiq Happ) as [s Hr].
  exists s. split; [done|]. intros st. destruct Hcfg as (_ & _ & st0 & idn & config & Hload & Hidn & Hkey & Hpub & Hconf & Hdev).
  destruct Hmap as (Hids & Hnid & Hnip).
  destruct (apply_peer_map_runtime _ _ _ _ _ _ _ _ Happ) as (st1 & ss & Hst & Hss & Hrt). rewrite Hload in Hst. injection Hst as <-.
  destruct (stored_peers _ _ _ Hss) as (Hd & Hi & He & Hc & Hin). destruct Hr.
  destruct (new_ids _ _ _ _ _ _ _ ready_new) as [_ Hpid].
  assert (NoDup (sp_device_id <$> ss)) as Hnd by (rewrite Hd; by eapply NoDup_fmap_1).
  destruct Hq as (pq & Hpq & Hqd & Hqi & _). destruct (Hin pq Hpq) as (sq & Hsq & Sd & Si & _).
  split; try done; cbn [n_device n_ip node_of n_state].
  - intros o. split; [|by intros ->]. rewrite Hrt. intros Ho%collect_map_inv.
    apply list_elem_of_fmap in Ho as (so & [= -> Hso] & Hin'). cbn [st_peers] in Hin'.
    assert (so = sq) as ->; [|by rewrite Si, Hqi].
    eapply (NoDup_fmap_inj sp_device_id ss); [done..|congruence].
  - by rewrite Hpid.
  - intros d s' Hne Hs'. rewrite Hrt in Hs'.
    change (default ∅ (res_ok (build_peer_transport_sessions salts
      (mkCustomBackendState (st_version st0) (st_identity st0) (st_local_config st0) ss))) !! d = Some s') in Hs'.
    unfold build_peer_transport_sessions in Hs'. cbn [st_identity st_local_config st_peers] in Hs'.
    rewrite Hidn, Hconf, Hdev, Hip, Hkey in Hs'. cbn [mbind res_bind] in Hs'.
    destruct (build_sessions salts ip (secret p) idn ss ∅) as [out| |] eqn:Eb; cbn [res_ok default] in Hs'; [|by rewrite lookup_empty in Hs'..].
    destruct (build_sessions_from _ _ _ _ _ _ _ _ _ Eb Hs') as [Hm|(p' & i & Hp' & <- & Hid & Hnew)]; [by rewrite lookup_empty in Hm|].
    destruct (proj1 (Forall_forall _ _) Hc p' Hp') as [pk Hpk].
    destruct (new_total (salts (sp_device_id p')) (secret p) (public_key idn) (sp_public_key p') pk ip i) as (c & Hc' & Hwf & _);
      [done..|by eapply device_id_wf|by eapply device_id_wf|].
    rewrite Hnew in Hc'. injection Hc' as <-. destruct (new_ids _ _ _ _ _ _ _ Hnew) as [Hl Hp]. split_and!; [done|congruence|].
    rewrite Hpid, Hp. intros ->. apply Hne. rewrite <- Hd in Hnid. rewrite <- list_fmap_compose in Hnid.
    assert (p' = sq) as ->; [|congruence].
    eapply (NoDup_fmap_inj (from_device_id uuid_parse ∘ sp_device_id) ss); [done..|]. cbn. rewrite Hid, Sd, Hqd. by symmetry.
Qed.

Definition new_end (self : CustomBackend) : endpt := mkEndpt (runtime self) [] [].

(** Two backends that were given each other's addresses and credentials are the two
    ends of a channel.  Each has its keys, its device identifier and a bound socket,
    and its peer map, with different devices and addresses, has the other one with
    its credential and a UDP endpoint among any others.  After [apply_peer_map] on
    both sides the two ends send packets and maintain their paths, and the network
    delivers any of their datagrams at any time, in any order and any number of
    times, from any address, data, probes and answers to probes alike.  Then every
    packet for the other end becomes a datagram; a datagram hands out nothing but
    the packet it carries, at most once, and it does unless a datagram that was sent
    64 or more later came first; until one end has sealed 2^64 frames. *)
Theorem configured_backends_channel os_send relay_connect relay_write pa pb salts_a salts_b fs_a fs_b now_a now_b
    peers_a peers_b self_a self_b a b events :
  (forall addr f, exists n, os_send addr f = inr n) ->
  (forall d, salt_ok (salts_a d)) -> (forall d, salt_ok (salts_b d)) ->
  configured from_json pa self_a -> peer_map_ok peers_a -> knows peers_a pb ->
  configured from_json pb self_b -> peer_map_ok peers_b -> knows peers_b pa ->
  apply_peer_map to_json from_json salts_a fs_a now_a peers_a self_a = (Ok tt, a) ->
  apply_peer_map to_json from_json salts_b fs_b now_b peers_b self_b = (Ok tt, b) ->
  Forall (event_ok (overlay pa) (overlay pb)) events ->
  (Z.of_nat (length events) * (1 + probes (pc_endpoints <$> peers_a) + probes (pc_endpoints <$> peers_b)) <= u64_max)%Z ->
  Forall promised (net_run os_send relay_connect relay_write (overlay pa) (overlay pb) (new_end a) (new_end b) events).
Proof.
  intros Hos Hsa Hsb Ha Hpa Hkb Hb Hpb Hka Hma Hmb Hok Hn.
  destruct (knows_id _ _ Hpa Hkb) as [ib Hib]. destruct (knows_id _ _ Hpb Hka) as [ia Hia].
  destruct (peer_map_half pa pb _ _ _ _ _ _ _ _ Ha Hpa Hkb Hsa Hia Hib Hma) as (sa & Ra & Fa).
  destruct (peer_map_half pb pa _ _ _ _ _ _ _ _ Hb Hpb Hka Hsb Hib Hia Hmb) as (sb & Rb & Fb).
  apply (linked_run os_send relay_connect relay_write Hos (node_of pa (runtime a)) (node_of pb (runtime b)) events 0).
  - destruct (ready_mirrored pa pb _ _ _ _ _ _ _ _ _ _ (proj1 Ha) (proj1 Hb) (Hsa _) (Hsb _) Ra Rb) as [Hab Hba].
    exists (pts_crypto sa), (pts_crypto sb), sa, sb. destruct Ra, Rb. unfold frames_sent, new_end.
    split_and!; [apply Fa|apply Fb|done|done| | |lia|lia].
    + exists []. unfold frames_sent. rewrite ready_counter, ready_window0. split; [constructor|apply heard_nil].
    + exists []. unfold frames_sent. rewrite ready_counter0, ready_window. split; [constructor|apply heard_nil].
  - exact Hok.
  - unfold event_cost, node_of. cbn [n_state].
    rewrite (ready_endpoints _ _ _ _ _ _ _ _ Ra), (ready_endpoints _ _ _ _ _ _ _ _ Rb). lia.
Qed.

End start.

(** ** Witness *)

(** Two packets one way, of which the second arrives first and one arrives twice; a
    probe, its answer and a packet back; and a packet on the path that was found. *)
Definition channel_events : list net_event :=
  let src := mkSocketAddr (V4 (Ipv4 10 0 0 9)) 7777 in
  [Send true toy_packet; Send true toy_packet; Arrive false 1 5 src; Arrive false 0 6 src; Arrive false 1 7 src;
   Tick true 8; Arrive false 2 9 src; Arrive true 0 10 src; Send false back_packet; Arrive true 1 11 src;
   Send true toy_packet; Arrive false 3 12 src; Arrive false 4 12 src; Arrive false 99 12 src].

Definition channel_run (p q : party) (a b : CustomBackend) (events : list net_event) : list observation :=
  @net_run toy_prims (fun _ _ => inr 0%Z) (fun _ => inr tt) (fun _ => inr tt) (overlay p) (overlay q)
    (new_end a) (new_end b) events.

Lemma configured_backends_channel_witness :
  Forall promised (channel_run party_a party_b (mesh_after party_a party_b) (mesh_after party_b party_a) channel_events).
Proof.
  apply (@configured_backends_channel toy_prims toy_laws toy_to_json toy_from_json (fun _ _ => inr 0%Z) (fun _ => inr tt)
    (fun _ => inr tt) party_a party_b toy_salts toy_salts fs_ok fs_ok 60 60 [mesh_peer party_b; mesh_peer party_c]
    [mesh_peer party_a; mesh_peer party_c] (mesh_backend party_a) (mesh_backend party_b)
    (mesh_after party_a party_b) (mesh_after party_b party_a) channel_events);
    [| | | | | | | | |exact mesh_apply_a|exact mesh_apply_b| |].
  - intros. by eexists.
  - intros d. eexists. split; [done|by_decide].
  - intros d. eexists. split; [done|by_decide].
  - apply mesh_configured; by_decide.
  - split; [|by_decide]. repeat constructor; eexists; reflexivity.
  - exists (mesh_peer party_b). split; [by left|]. split_and!; reflexivity.
  - apply mesh_configured; by_decide.
  - split; [|by_decide]. repeat constructor; eexists; reflexivity.
  - exists (mesh_peer party_a). split; [by left|]. split_and!; reflexivity.
  - repeat constructor; done.
  - by_decide.
Defined.

(** What the two ends saw of it. *)
Example channel_observed :
  channel_run party_a party_b (mesh_after party_a party_b) (mesh_after party_b party_a) channel_events =
  let there := Some toy_packet in let back := Some back_packet in
  [Taken true true 1; Taken true true 1; Handed there 1 [] there; Handed there 0 [1%nat] there;
   Handed there 1 [1%nat; 0%nat] None; Handed None 2 [1%nat; 0%nat; 1%nat] None; Handed None 0 [] None;
   Taken true true 1; Handed back 1 [0%nat] back; Taken true true 1;
   Handed None 3 [1%nat; 0%nat; 1%nat; 2%nat] None; Handed there 4 [1%nat; 0%nat; 1%nat; 2%nat; 3%nat] there].
Proof. vm_compute. reflexivity. Qed.
