(* ===== verification/NetBackend.v ===== *)
(** * The backend interface ([tfscale-net/src/lib.rs])

    The [NetworkBackend] trait as a class of operations on a backend's state, what
    a client may rely on ([BackendContract]), and the two implementations of the
    repository: the mock of [tfscale_net::testing] and [CustomBackend].

    An operation returns [None] when it never returns. *)

From Stdlib Require Import ZArith Lia.
From stdpp Require Import prelude list strings gmap.
From S2P Require Import Prelude RustStd Protocol Frame Nonce Crypto Transport Runtime RuntimeProps Backend.

(** ** The interface *)

(** A call on a state: never returning, or a result and the new state. *)
Definition call (St E A : Type) : Type := St -> option (res E A * St).

Class NetworkBackend (B : Type) : Type := {
  nb_backend_type : B -> BackendType;
  nb_capabilities : B -> BackendCapabilities;
  nb_ensure_credentials : call B BackendError BackendCredential;
  nb_apply_local_config : LocalBackendConfig -> call B BackendError unit;
  nb_apply_relay_map : list RelayConfig -> call B BackendError unit;
  nb_apply_peer_map : list PeerConfig -> call B BackendError unit;
  nb_local_endpoints : call B BackendError (list Endpoint);
  nb_probe_public_endpoint : SocketAddr -> Z -> call B BackendError (option PublicEndpointProbe);
  nb_maintain_peer_paths : call B BackendError unit;
  nb_status : call B BackendError BackendStatus;
  nb_shutdown : call B BackendError unit;
}.

(** What a client sees of a backend's configuration, and how the operations that
    configure it change that when they succeed. *)
Class BackendContract (B : Type) `{NetworkBackend B} : Type := {
  view_config : B -> option LocalBackendConfig;
  view_peers : B -> list PeerConfig;
  contract_local_config c b b' :
    nb_apply_local_config c b = Some (Ok tt, b') -> view_config b' = Some c /\ view_peers b' = view_peers b;
  contract_relay_map l b b' :
    nb_apply_relay_map l b = Some (Ok tt, b') -> view_config b' = view_config b /\ view_peers b' = view_peers b;
  contract_peer_map l b b' :
    nb_apply_peer_map l b = Some (Ok tt, b') -> view_config b' = view_config b /\ view_peers b' = l;
  contract_maintain b b' :
    nb_maintain_peer_paths b = Some (Ok tt, b') -> view_config b' = view_config b /\ view_peers b' = view_peers b;
}.

(** A call that returns, with a result or an error but no panic. *)
Definition answers {St E A} (o : option (res E A * St)) : Prop := exists r s, o = Some (r, s) /\ r <> Panic.

(** A backend whose operations all return. *)
Class BackendReturns (B : Type) `{NetworkBackend B} : Prop := {
  returns_ensure_credentials b : answers (nb_ensure_credentials b);
  returns_apply_local_config c b : answers (nb_apply_local_config c b);
  returns_apply_relay_map l b : answers (nb_apply_relay_map l b);
  returns_apply_peer_map l b : answers (nb_apply_peer_map l b);
  returns_local_endpoints b : answers (nb_local_endpoints b);
  returns_probe_public_endpoint a t b : answers (nb_probe_public_endpoint a t b);
  returns_maintain_peer_paths b : answers (nb_maintain_peer_paths b);
  returns_status b : answers (nb_status b);
  returns_shutdown b : answers (nb_shutdown b);
}.

Definition BackendCapabilities_default : BackendCapabilities :=
  mkBackendCapabilities false false false false false false.

(** ** The mock backend ([tfscale_net::testing]) *)

Record MockBackendState : Type := mkMockBackendState {
  ensure_credentials_calls : Z;
  local_configs : list LocalBackendConfig;
  relay_maps : list (list RelayConfig);
  peer_maps : list (list PeerConfig);
  maintain_peer_paths_calls : Z;
  shutdown_calls : Z;
}.

Definition MockBackendState_default : MockBackendState := mkMockBackendState 0 [] [] [] 0 0.

Record MockBackend : Type := mkMockBackend {
  mock_state : MockBackendState;
  mock_credential : BackendCredential;
  mock_backend_type : BackendType;
  mock_capabilities : BackendCapabilities;
  mock_endpoints : list Endpoint;
}.

Definition MockBackend_new (public_credential : string) : MockBackend :=
  mkMockBackend MockBackendState_default (mkBackendCredential public_credential) (CustomType "mock")
    (mkBackendCapabilities false false false true true false) [].

Definition with_endpoints (self : MockBackend) (endpoints : list Endpoint) : MockBackend :=
  mkMockBackend (mock_state self) (mock_credential self) (mock_backend_type self) (mock_capabilities self)
    endpoints.

Definition snapshot (self : MockBackend) : MockBackendState := mock_state self.

Definition set_mock (self : MockBackend) (s : MockBackendState) : MockBackend :=
  mkMockBackend s (mock_credential self) (mock_backend_type self) (mock_capabilities self)
    (mock_endpoints self).

Definition mock_ensure_credentials : call MockBackend BackendError BackendCredential := fun self =>
  let s := mock_state self in
  Some (Ok (mock_credential self), set_mock self (mkMockBackendState (ensure_credentials_calls s + 1)
    (local_configs s) (relay_maps s) (peer_maps s) (maintain_peer_paths_calls s) (shutdown_calls s))).

Definition mock_apply_local_config (config : LocalBackendConfig) : call MockBackend BackendError unit :=
  fun self =>
  let s := mock_state self in
  Some (Ok tt, set_mock self (mkMockBackendState (ensure_credentials_calls s)
    (local_configs s ++ [config]) (relay_maps s) (peer_maps s) (maintain_peer_paths_calls s)
    (shutdown_calls s))).

Definition mock_apply_relay_map (relays : list RelayConfig) : call MockBackend BackendError unit :=
  fun self =>
  let s := mock_state self in
  Some (Ok tt, set_mock self (mkMockBackendState (ensure_credentials_calls s) (local_configs s)
    (relay_maps s ++ [relays]) (peer_maps s) (maintain_peer_paths_calls s) (shutdown_calls s))).

Definition mock_apply_peer_map (peers : list PeerConfig) : call MockBackend BackendError unit :=
  fun self =>
  let s := mock_state self in
  Some (Ok tt, set_mock self (mkMockBackendState (ensure_credentials_calls s) (local_configs s)
    (relay_maps s) (peer_maps s ++ [peers]) (maintain_peer_paths_calls s) (shutdown_calls s))).

Definition mock_maintain_peer_paths : call MockBackend BackendError unit := fun self =>
  let s := mock_state self in
  Some (Ok tt, set_mock self (mkMockBackendState (ensure_credentials_calls s) (local_configs s)
    (relay_maps s) (peer_maps s) (maintain_peer_paths_calls s + 1) (shutdown_calls s))).

Definition mock_status : call MockBackend BackendError BackendStatus := fun self =>
  Some (Ok (mkBackendStatus (mock_backend_type self) "mock0" true None []), self).

Definition mock_shutdown : call MockBackend BackendError unit := fun self =>
  let s := mock_state self in
  Some (Ok tt, set_mock self (mkMockBackendState (ensure_credentials_calls s) (local_configs s)
    (relay_maps s) (peer_maps s) (maintain_peer_paths_calls s) (shutdown_calls s + 1))).

#[export] Instance MockBackend_backend : NetworkBackend MockBackend := {
  nb_backend_type := mock_backend_type;
  nb_capabilities := mock_capabilities;
  nb_ensure_credentials := mock_ensure_credentials;
  nb_apply_local_config := mock_apply_local_config;
  nb_apply_relay_map := mock_apply_relay_map;
  nb_apply_peer_map := mock_apply_peer_map;
  nb_local_endpoints self := Some (Ok (mock_endpoints self), self);
  nb_probe_public_endpoint _ _ self := Some (Ok None, self);
  nb_maintain_peer_paths := mock_maintain_peer_paths;
  nb_status := mock_status;
  nb_shutdown := mock_shutdown;
}.

#[export] Instance MockBackend_returns : BackendReturns MockBackend.
Proof. split; intros; eexists _, _; split; try reflexivity; done. Qed.

#[export] Program Instance MockBackend_contract : BackendContract MockBackend := {
  view_config b := last (local_configs (mock_state b));
  view_peers b := default [] (last (peer_maps (mock_state b)));
}.
Next Obligation. intros c b b' [= <-]. cbn. by rewrite last_snoc. Qed.
Next Obligation. by intros l b b' [= <-]. Qed.
Next Obligation. intros l b b' [= <-]. cbn. by rewrite last_snoc. Qed.
Next Obligation. by intros b b' [= <-]. Qed.

(** ** The custom backend *)

(** What the operating system, the clock and the random source answer during one
    call. *)
Record CustomEnv : Type := mkCustomEnv {
  ce_fs : fs_answers;
  ce_now : Z;
  ce_uuid : string;
  ce_secret : list Z;
  ce_salts : string -> option (list Z);
  ce_tun : TunConfig -> res BackendError TunDevice;
  ce_bind : Z -> res BackendError TransportRuntime;
  ce_send : SocketAddr -> list Z -> io Z;
  ce_probe : list (io (list Z * SocketAddr) * bool);
  ce_ended : io unit;
}.

(** A custom backend and the number of calls made on it so far. *)
Record CustomRun : Type := mkCustomRun { cr_backend : CustomBackend; cr_calls : nat }.

Definition custom_capabilities : BackendCapabilities :=
  mkBackendCapabilities false true false true false true.

(** The stored form of a peer, without the time it was stored. *)
Definition stored_peer (s : StoredPeerSession) : PeerConfig :=
  mkPeerConfig (sp_device_id s) (sp_hostname s) (sp_overlay_ip s) (mkBackendCredential (sp_public_key s))
    (sp_endpoints s) (sp_allowed_routes s).

Section custom.
Context `{P : CryptoPrims}.
Context (to_json : CustomBackendState -> string) (from_json : string -> option CustomBackendState).
Context (display : message -> string).
(** The answers during the n-th call. *)
Context (env : nat -> CustomEnv).

(** One call with the answers that are due. *)
Definition custom_call {A} (f : CustomEnv -> CustomBackend -> option (res BackendError A * CustomBackend))
    : call CustomRun BackendError A := fun b =>
  '(r, self) ← f (env (cr_calls b)) (cr_backend b);
  Some (r, mkCustomRun self (S (cr_calls b))).

Definition custom_backend : NetworkBackend CustomRun := {|
  nb_backend_type _ := CustomType "tfscale";
  nb_capabilities _ := custom_capabilities;
  nb_ensure_credentials := custom_call (fun e self =>
    Some (ensure_credentials to_json from_json (ce_salts e) (ce_fs e) (ce_now e) (ce_uuid e) (ce_secret e) self));
  nb_apply_local_config c := custom_call (fun e self =>
    apply_local_config to_json from_json (ce_salts e) (ce_fs e) (ce_tun e (from_local_config c))
      (ce_bind e (lc_listen_port c)) c self);
  nb_apply_relay_map l := custom_call (fun e self => Some (Ok tt, apply_relay_map l self));
  nb_apply_peer_map l := custom_call (fun e self =>
    Some (apply_peer_map to_json from_json (ce_salts e) (ce_fs e) (ce_now e) l self));
  nb_local_endpoints := custom_call (fun e self => Some (Ok (backend_local_endpoints self), self));
  nb_probe_public_endpoint a t := custom_call (fun e self =>
    probe_public_endpoint_blocking (ce_send e) a (ce_probe e) self);
  nb_maintain_peer_paths := custom_call (fun e self => Some (maintain_peer_paths (ce_send e) (ce_now e) self));
  nb_status := custom_call (fun e self =>
    Some (backend_status from_json (ce_salts e) display self, self));
  nb_shutdown := custom_call (fun e self => Some (shutdown (ce_ended e) self));
|}.

(** What is stored. *)
Definition stored_state (b : CustomRun) : option CustomBackendState := res_ok (load_state from_json (cr_backend b)).

(** ** The state file under the operations *)

Lemma load_state_version self st :
  load_state from_json self = Ok st -> validate_state_version st = Ok tt.
Proof.
  unfold load_state. destruct (disk self) as [t|]; [|by intros [= <-]].
  destruct (from_json t) as [s|]; [|done]. cbn [ok_or mbind res_bind].
  destruct (validate_state_version s) as [[]| |] eqn:E; try done. cbn [mbind res_bind]. by intros [= <-].
Qed.

Lemma start_transport_tasks_disk self r self' :
  start_transport_tasks self = Some (r, self') -> disk self' = disk self.
Proof. unfold start_transport_tasks. destruct (_ || _); [by intros [= _ <-]|done]. Qed.

Lemma bind_transport_disk self bound r self' :
  bind_transport self bound = Some (r, self') -> disk self' = disk self.
Proof.
  unfold bind_transport. destruct bound; [|by intros [= _ <-]..].
  intros H%start_transport_tasks_disk. by rewrite H.
Qed.

Context (json_roundtrip : forall s, from_json (to_json s) = Some s).

Lemma replace_state_load salts fs self st self' :
  validate_state_version st = Ok tt ->
  replace_state to_json salts fs self st = (Ok tt, self') -> load_state from_json self' = Ok st.
Proof.
  intros Hv. unfold replace_state, save_state.
  destruct (_ ← io_err (fs_create_dir fs); _) as [[]| |]; [|done..].
  destruct (io_err (fs_chmod fs)) as [[]| |]; [|done..].
  intros [= <-]. unfold load_state. cbn [disk set_runtime set_disk]. rewrite json_roundtrip.
  cbn [ok_or mbind res_bind]. by rewrite Hv.
Qed.

Lemma apply_local_config_state salts fs dev bound c self self' st :
  load_state from_json self = Ok st ->
  apply_local_config to_json from_json salts fs dev bound c self = Some (Ok tt, self') ->
  load_state from_json self' = Ok (mkCustomBackendState (st_version st) (st_identity st) (Some c) (st_peers st)).
Proof.
  intros Hl. pose proof (load_state_version self st Hl) as Hv. unfold apply_local_config. rewrite Hl.
  set (st' := mkCustomBackendState _ _ _ _). destruct (replace_state _ _ _ _ _) as [r self1] eqn:Er.
  destruct r as [[]| |]; [|done..]. assert (load_state from_json self1 = Ok st') as H1.
  { by eapply replace_state_load; [|exact Er]. }
  rewrite H1. cbn [st_local_config st'].
  assert (forall self2, disk self2 = disk self1 -> load_state from_json self2 = Ok st') as Hd.
  { intros self2 H2. unfold load_state in *. by rewrite H2. }
  destruct (negb _).
  - destruct (bind_transport self1 bound) as [[r2 self2]|] eqn:Eb; [|done]. apply bind_transport_disk in Eb.
    cbn [mbind option_bind]. destruct r2 as [[]| |]; [|done..]. intros [= <-]. by apply Hd.
  - destruct dev as [d| |]; [|done..].
    destruct (set_tun_device self1 d) as [[r2 self2]|] eqn:Et; [|done]. apply start_transport_tasks_disk in Et.
    cbn [mbind option_bind]. destruct r2 as [[]| |]; [|done..]. intros Eb%bind_transport_disk. apply Hd.
    by rewrite Eb, Et.
Qed.

Lemma peer_to_session_stored now peers sessions :
  collect_res (peer_to_session now) peers = Ok sessions -> stored_peer <$> sessions = peers.
Proof.
  revert sessions. induction peers as [|p peers IH]; intros sessions H; simpl in H; [by injection H as <-|].
  destruct (peer_to_session now p) as [q| |] eqn:Eq; [|done..]. unfold peer_to_session in Eq.
  destruct (validate_public_credential _); [|done..]. cbn [mbind res_bind] in H, Eq. injection Eq as <-.
  destruct (collect_res _ _) as [l| |]; [|done..]. cbn [mbind res_bind] in H. injection H as <-.
  cbn [fmap list_fmap]. rewrite (IH l eq_refl). by destruct p as [? ? ? [] ? ?].
Qed.

Lemma apply_peer_map_state salts fs now peers self self' :
  apply_peer_map to_json from_json salts fs now peers self = (Ok tt, self') ->
  exists st sessions, load_state from_json self = Ok st /\ stored_peer <$> sessions = peers /\
    load_state from_json self' = Ok (mkCustomBackendState (st_version st) (st_identity st) (st_local_config st) sessions).
Proof.
  unfold apply_peer_map. destruct (load_state from_json self) as [st| |] eqn:El; [|done..].
  cbn [mbind res_bind]. destruct (collect_res _ _) as [sessions| |] eqn:Ec; [|done..]. cbn [mbind res_bind].
  intros H. exists st, sessions. split_and!; [done|by apply (peer_to_session_stored now)|].
  eapply replace_state_load; [|exact H]. exact (load_state_version _ _ El).
Qed.

(** The custom backend keeps the contract: its configuration is the stored one. *)
Definition custom_contract : @BackendContract CustomRun custom_backend.
Proof.
  refine (@Build_BackendContract CustomRun custom_backend
    (fun b => stored_state b ≫= st_local_config)
    (fun b => default [] ((fun st => stored_peer <$> st_peers st) <$> stored_state b)) _ _ _ _);
    cbn [nb_apply_local_config nb_apply_relay_map nb_apply_peer_map nb_maintain_peer_paths custom_backend];
    unfold custom_call, stored_state.
  - intros c b b' H. destruct (load_state from_json (cr_backend b)) as [st| |] eqn:El.
    2,3: unfold apply_local_config in H; by rewrite El in H.
    destruct (apply_local_config _ _ _ _ _ _ _ _) as [[r self]|] eqn:Ea; [|done].
    cbn [mbind option_bind] in H. injection H as -> <-. cbn [cr_backend].
    by rewrite (apply_local_config_state _ _ _ _ _ _ _ _ El Ea).
  - by intros l b b' [= <-].
  - intros l b b' H. cbn [mbind option_bind] in H. destruct (apply_peer_map _ _ _ _ _ _ _) as [r self] eqn:Ea.
    injection H as -> <-. cbn [cr_backend].
    destruct (apply_peer_map_state _ _ _ _ _ _ Ea) as (st & sessions & -> & <- & ->). done.
  - intros b b' H. cbn [mbind option_bind] in H. unfold maintain_peer_paths in H.
    destruct (probe_peer_direct_paths _ _ _) as [r s]. cbn [mbind option_bind] in H. by injection H as _ <-.
Defined.

End custom.
