(* ===== verification/Platform.v ===== *)
(** * Platform TUN devices ([tun.rs], [platform/mod.rs], [linux.rs], [macos.rs])

    Setting up and taking down the interface through the TUN library and the
    [ip], [ifconfig] and [route] programs.  The programs run so far are recorded;
    what a program and the TUN library answer are parameters. *)

From Stdlib Require Import ZArith Lia.
From stdpp Require Import prelude list strings gmap.
From S2P Require Import Prelude RustStd RustText Protocol Frame Nonce Crypto Transport Runtime.

(** ** Commands *)

Record PlannedCommand : Type := mkPlannedCommand { program : string; args : list string }.

#[export] Instance PlannedCommand_eq_dec : EqDecision PlannedCommand.
Proof. solve_decision. Defined.

(** [std::process::Output]: whether the program could be started, its exit and
    what it wrote to the error stream. *)
Inductive output : Type :=
| NotStarted (k : io_kind)
| Exited (success : bool) (stderr : list Z).

(** The operating system of the target. *)
Inductive target_os : Type := OsLinux | OsMacos | OsOther (name : string).

Definition OS (t : target_os) : string :=
  match t with OsLinux => "linux" | OsMacos => "macos" | OsOther n => n end.

Section commands.
(** The output of a program, given the programs that ran before it. *)
Context (exec : list PlannedCommand -> PlannedCommand -> output).

(** The state of a run: the commands executed so far. *)
Definition run_command (command : PlannedCommand) (log : list PlannedCommand)
    : res BackendError unit * list PlannedCommand :=
  match exec log command with
  | NotStarted NotFound => (Err (MissingCommand (MText (program command))), log)
  | NotStarted k => (Err (failed_with (IoError k)), log)
  | Exited success stderr =>
      if negb success then
        let text := trim (from_utf8_lossy stderr) in
        (Err (failed (program command +:+ " " +:+ join " " (args command) +:+ " failed" +:+
                      (if is_empty text then EmptyString else ": ") +:+ text)), log ++ [command])
      else (Ok tt, log ++ [command])
  end.

(** [for command in commands { run_command(&command)?; }] *)
Fixpoint run_all (commands : list PlannedCommand) (log : list PlannedCommand)
    : res BackendError unit * list PlannedCommand :=
  match commands with
  | [] => (Ok tt, log)
  | c :: rest =>
      match run_command c log with
      | (Ok _, log) => run_all rest log
      | (r, log) => (r, log)
      end
  end.

(** [for command in commands { let _ = run_command(&command); }] *)
Fixpoint run_ignoring (commands : list PlannedCommand) (log : list PlannedCommand) : list PlannedCommand :=
  match commands with
  | [] => log
  | c :: rest => run_ignoring rest (snd (run_command c log))
  end.

(** ** Linux *)

Record LinuxTunDevice : Type := mkLinuxTunDevice {
  linux_interface_name : string;
  linux_cleanup : list PlannedCommand;
}.

Definition linux_plan_ip_commands (config : TunConfig) : list PlannedCommand :=
  [ mkPlannedCommand "ip" ["addr"; "replace"; ipv4_to_string (tc_overlay_ip config) +:+ "/32"; "dev";
                           tc_interface_name config];
    mkPlannedCommand "ip" ["link"; "set"; tc_interface_name config; "up"];
    mkPlannedCommand "ip" ["route"; "replace"; overlay_cidr config; "dev"; tc_interface_name config] ].

Definition linux_plan_cleanup_commands (config : TunConfig) : list PlannedCommand :=
  [ mkPlannedCommand "ip" ["route"; "del"; overlay_cidr config; "dev"; tc_interface_name config];
    mkPlannedCommand "ip" ["link"; "del"; tc_interface_name config] ].

(** [exists] says whether [/dev/net/tun] is there; [build] and [nonblocking] are
    the answers of the TUN library. *)
Definition linux_configure_tun_device (exists_ : bool) (build nonblocking : io unit)
    : res BackendError unit :=
  if negb exists_ then Err (MissingCommand (MText "missing Linux TUN device: /dev/net/tun"))
  else
    match build with
    | inl k => Err (CommandFailed (MForeign "failed to create TUN device: " (IoError k)))
    | inr _ => io_err nonblocking
    end.

Definition linux_configure_tun (exists_ : bool) (build nonblocking : io unit) (config : TunConfig)
    (log : list PlannedCommand) : res BackendError LinuxTunDevice * list PlannedCommand :=
  match linux_configure_tun_device exists_ build nonblocking with
  | Ok _ =>
      match run_all (linux_plan_ip_commands config) log with
      | (Ok _, log) =>
          (Ok (mkLinuxTunDevice (tc_interface_name config) (linux_plan_cleanup_commands config)), log)
      | (Err e, log) => (Err e, log)
      | (Panic, log) => (Panic, log)
      end
  | Err e => (Err e, log)
  | Panic => (Panic, log)
  end.

Definition linux_status (self : LinuxTunDevice) : TunStatus := TunStatus_configured (linux_interface_name self).

(** [recv] and [send] of the TUN library; elsewhere the calls are refused. *)
Definition linux_read_packet (t : target_os) (recv : io (list Z)) : res BackendError (list Z) :=
  match t with
  | OsLinux => io_err recv
  | _ => Err (UnsupportedPlatform (MText ("Linux TUN read cannot run on " +:+ OS t)))
  end.
Definition linux_try_read_packet (t : target_os) (recv : io (list Z)) : res BackendError (option (list Z)) :=
  match t with
  | OsLinux =>
      match recv with
      | inr bytes => Ok (Some bytes)
      | inl WouldBlock => Ok None
      | inl k => Err (failed_with (IoError k))
      end
  | _ => Err (UnsupportedPlatform (MText ("Linux TUN read cannot run on " +:+ OS t)))
  end.
Definition linux_write_packet (t : target_os) (send : io Z) : res BackendError Z :=
  match t with
  | OsLinux => io_err send
  | _ => Err (UnsupportedPlatform (MText ("Linux TUN write cannot run on " +:+ OS t)))
  end.

Definition linux_shutdown (self : LinuxTunDevice) (log : list PlannedCommand)
    : res BackendError unit * list PlannedCommand :=
  (Ok tt, run_ignoring (linux_cleanup self) log).

(** ** macOS *)

Record MacosTunDevice : Type := mkMacosTunDevice {
  macos_interface_name : string;
  macos_cleanup : list PlannedCommand;
}.

(** Only a name that starts with [utun] is asked for. *)
Definition requested_utun_name (config : TunConfig) : option string :=
  if starts_with (tc_interface_name config) "utun" then Some (tc_interface_name config) else None.

Definition macos_plan_ifconfig_commands (config : TunConfig) (interface_name : string) : list PlannedCommand :=
  [ mkPlannedCommand "ifconfig" [interface_name; "inet"; ipv4_to_string (tc_overlay_ip config);
      ipv4_to_string (tc_overlay_ip config); "netmask"; "255.255.255.255"; "up"] ].

Definition macos_plan_route_commands (config : TunConfig) (interface_name : string) : list PlannedCommand :=
  [ mkPlannedCommand "route" ["-n"; "add"; "-net"; overlay_cidr config; "-interface"; interface_name] ].

Definition macos_plan_cleanup_commands (config : TunConfig) (interface_name : string) : list PlannedCommand :=
  [ mkPlannedCommand "route" ["-n"; "delete"; "-net"; overlay_cidr config; "-interface"; interface_name];
    mkPlannedCommand "ifconfig" [interface_name; "down"] ].

(** [build], given the name asked for, answers with a device; what is known of it is
    the answer of its [name()], the name that the system chose, or an error. *)
Definition macos_configure_tun_device (build : option string -> io (io string)) (nonblocking : io unit)
    (config : TunConfig) : res BackendError (io string) :=
  match build (requested_utun_name config) with
  | inl k => Err (CommandFailed (MForeign "failed to create utun device: " (IoError k)))
  | inr device => _ ← io_err nonblocking; Ok device
  end.

Definition macos_configure_tun (build : option string -> io (io string)) (nonblocking : io unit)
    (config : TunConfig) (log : list PlannedCommand)
    : res BackendError MacosTunDevice * list PlannedCommand :=
  match (name ← macos_configure_tun_device build nonblocking config; io_err name) with
  | Ok interface_name =>
      match run_all (macos_plan_ifconfig_commands config interface_name) log with
      | (Ok _, log) =>
          match run_all (macos_plan_route_commands config interface_name) log with
          | (Ok _, log) =>
              (Ok (mkMacosTunDevice interface_name (macos_plan_cleanup_commands config interface_name)), log)
          | (Err e, log) => (Err e, log)
          | (Panic, log) => (Panic, log)
          end
      | (Err e, log) => (Err e, log)
      | (Panic, log) => (Panic, log)
      end
  | Err e => (Err e, log)
  | Panic => (Panic, log)
  end.

Definition macos_status (self : MacosTunDevice) : TunStatus := TunStatus_configured (macos_interface_name self).

Definition macos_read_packet (t : target_os) (recv : io (list Z)) : res BackendError (list Z) :=
  match t with
  | OsMacos => io_err recv
  | _ => Err (UnsupportedPlatform (MText ("macOS TUN read cannot run on " +:+ OS t)))
  end.
Definition macos_try_read_packet (t : target_os) (recv : io (list Z)) : res BackendError (option (list Z)) :=
  match t with
  | OsMacos =>
      match recv with
      | inr bytes => Ok (Some bytes)
      | inl WouldBlock => Ok None
      | inl k => Err (failed_with (IoError k))
      end
  | _ => Err (UnsupportedPlatform (MText ("macOS TUN read cannot run on " +:+ OS t)))
  end.
Definition macos_write_packet (t : target_os) (send : io Z) : res BackendError Z :=
  match t with
  | OsMacos => io_err send
  | _ => Err (UnsupportedPlatform (MText ("macOS TUN write cannot run on " +:+ OS t)))
  end.

Definition macos_shutdown (self : MacosTunDevice) (log : list PlannedCommand)
    : res BackendError unit * list PlannedCommand :=
  (Ok tt, run_ignoring (macos_cleanup self) log).

(** ** [PlatformTunDevice] and [configure_tun]: the choice of the target *)

Definition unsupported_platform_error (t : target_os) : BackendError :=
  UnsupportedPlatform (MText ("TUN setup is not supported on " +:+ OS t)).

Inductive PlatformTunDevice : Type :=
| LinuxDevice (d : LinuxTunDevice)
| MacosDevice (d : MacosTunDevice)
| NoDevice (name : string).

(** The operating system a device belongs to. *)
Definition device_os (d : PlatformTunDevice) : target_os :=
  match d with LinuxDevice _ => OsLinux | MacosDevice _ => OsMacos | NoDevice n => OsOther n end.

(** What the TUN library answers when the interface is created. *)
Record tun_answers : Type := mkTunAnswers {
  dev_net_tun : bool;
  tun_build : option string -> io (io string);
  tun_nonblocking : io unit;
}.

Definition configure_tun (t : target_os) (a : tun_answers) (config : TunConfig) (log : list PlannedCommand)
    : res BackendError PlatformTunDevice * list PlannedCommand :=
  match t with
  | OsLinux =>
      let '(r, log) := linux_configure_tun (dev_net_tun a)
        (match tun_build a (Some (tc_interface_name config)) with inr _ => inr tt | inl k => inl k end)
        (tun_nonblocking a) config log in
      (LinuxDevice <$> r, log)
  | OsMacos =>
      let '(r, log) := macos_configure_tun (tun_build a) (tun_nonblocking a) config log in
      (MacosDevice <$> r, log)
  | OsOther _ => (Err (unsupported_platform_error t), log)
  end.

Definition platform_status (self : PlatformTunDevice) : TunStatus :=
  match self with
  | LinuxDevice d => linux_status d
  | MacosDevice d => macos_status d
  | NoDevice n => TunStatus_failed "unsupported" (BackendError_display (unsupported_platform_error (OsOther n)))
  end.

Definition platform_read_packet (self : PlatformTunDevice) (recv : io (list Z)) : res BackendError (list Z) :=
  match self with
  | LinuxDevice _ => linux_read_packet OsLinux recv
  | MacosDevice _ => macos_read_packet OsMacos recv
  | NoDevice n => Err (unsupported_platform_error (OsOther n))
  end.

Definition platform_try_read_packet (self : PlatformTunDevice) (recv : io (list Z))
    : res BackendError (option (list Z)) :=
  match self with
  | LinuxDevice _ => linux_try_read_packet OsLinux recv
  | MacosDevice _ => macos_try_read_packet OsMacos recv
  | NoDevice n => Err (unsupported_platform_error (OsOther n))
  end.

Definition platform_write_packet (self : PlatformTunDevice) (send : io Z) : res BackendError Z :=
  match self with
  | LinuxDevice _ => linux_write_packet OsLinux send
  | MacosDevice _ => macos_write_packet OsMacos send
  | NoDevice n => Err (unsupported_platform_error (OsOther n))
  end.

Definition platform_shutdown (self : PlatformTunDevice) (log : list PlannedCommand)
    : res BackendError unit * list PlannedCommand :=
  match self with
  | LinuxDevice d => linux_shutdown d log
  | MacosDevice d => macos_shutdown d log
  | NoDevice n => (Err (unsupported_platform_error (OsOther n)), log)
  end.

(** [TunDevice::configure]: the device as the runtime state keeps it. *)
Definition TunDevice_configure (t : target_os) (a : tun_answers) (config : TunConfig)
    (log : list PlannedCommand) : res BackendError TunDevice * list PlannedCommand :=
  let '(r, log) := configure_tun t a config log in
  ((fun d => mkTunDevice (platform_status d) []) <$> r, log).

End commands.

(** ** Properties *)

(** The commands of a set-up and of a shutdown, for the interface [name]. *)
Definition setup_plan (t : target_os) (config : TunConfig) (name : string) : list PlannedCommand :=
  match t with
  | OsLinux => linux_plan_ip_commands config
  | OsMacos => macos_plan_ifconfig_commands config name ++ macos_plan_route_commands config name
  | OsOther _ => []
  end.
Definition cleanup_plan (t : target_os) (config : TunConfig) (name : string) : list PlannedCommand :=
  match t with
  | OsLinux => linux_plan_cleanup_commands config
  | OsMacos => macos_plan_cleanup_commands config name
  | OsOther _ => []
  end.

(** The name the interface has: the one configured, or on macOS the one that the
    system chose. *)
Definition tun_name (t : target_os) (a : tun_answers) (config : TunConfig) : option string :=
  match t with
  | OsLinux => Some (tc_interface_name config)
  | OsMacos => match tun_build a (requested_utun_name config) with inr (inr name) => Some name | _ => None end
  | OsOther _ => None
  end.

Section lemmas.
Context (exec : list PlannedCommand -> PlannedCommand -> output).

Lemma run_all_prefix cs log r log' :
  run_all exec cs log = (r, log') ->
  exists ran, log' = log ++ ran /\ ran `prefix_of` cs /\ (r = Ok tt -> ran = cs) /\ r <> Panic.
Proof.
  revert log. induction cs as [|c cs IH]; intros log H; simpl in H.
  { injection H as <- <-. exists []. rewrite app_nil_r. split_and!; done. }
  unfold run_command in H. destruct (exec log c) as [k|[] err]; simpl in H.
  - exists []. rewrite app_nil_r. destruct k; injection H as <- <-; split_and!; try done; apply prefix_nil.
  - destruct (IH _ H) as (ran & -> & Hp & Hok & Hn). exists (c :: ran). rewrite <- app_assoc.
    split_and!; try done; [by apply prefix_cons|intros Hr; by rewrite (Hok Hr)].
  - injection H as <- <-. exists [c]. split_and!; try done. apply prefix_cons, prefix_nil.
Qed.

Lemma run_ignoring_started cs log :
  (forall l c k, exec l c <> NotStarted k) -> run_ignoring exec cs log = log ++ cs.
Proof.
  intros Hs. revert log. induction cs as [|c cs IH]; intros log; simpl; [by rewrite app_nil_r|].
  assert (snd (run_command exec c log) = log ++ [c]) as ->.
  { unfold run_command. destruct (exec log c) as [k|[] err] eqn:E; [by destruct (Hs log c k)|done..]. }
  by rewrite IH, <- app_assoc.
Qed.

(** A step of a set-up that runs [cs], and then goes on. *)
Lemma run_all_app cs1 cs2 log :
  run_all exec (cs1 ++ cs2) log =
    match run_all exec cs1 log with (Ok _, log) => run_all exec cs2 log | (r, log) => (r, log) end.
Proof.
  revert log. induction cs1 as [|c cs1 IH]; intros log; [done|]. cbn [app run_all].
  destruct (run_command exec c log) as [[?|?|] log1]; [apply IH|done..].
Qed.

(** Both targets: the interface is made, the plan is run, the device is kept. *)
Lemma configure_tun_runs t a config log r log' :
  configure_tun exec t a config log = (r, log') ->
  (log' = log /\ exists e, r = Err e) \/
  exists name r0, tun_name t a config = Some name /\ run_all exec (setup_plan t config name) log = (r0, log') /\
    match r0 with
    | Ok _ => exists d, r = Ok d /\ platform_status d = TunStatus_configured name /\ device_os d = t /\
        forall l, platform_shutdown exec d l = (Ok tt, run_ignoring exec (cleanup_plan t config name) l)
    | Err e => r = Err e
    | Panic => r = Panic
    end.
Proof.
  destruct t as [| |n]; cbn [configure_tun tun_name setup_plan cleanup_plan].
  - unfold linux_configure_tun, linux_configure_tun_device.
    destruct (dev_net_tun a); cbn [negb]; [|intros [= <- <-]; left; naive_solver].
    destruct (tun_build a _) as [k|nm]; [intros [= <- <-]; left; naive_solver|].
    destruct (tun_nonblocking a) as [k|[]]; cbn [io_err]; [intros [= <- <-]; left; naive_solver|].
    destruct (run_all exec (linux_plan_ip_commands config) log) as [r0 log1] eqn:E. intros H. right.
    exists (tc_interface_name config), r0. destruct r0; injection H as <- <-; split_and!; try done.
    eexists. split_and!; done.
  - unfold macos_configure_tun, macos_configure_tun_device.
    destruct (tun_build a _) as [k|named]; [intros [= <- <-]; left; naive_solver|].
    destruct (tun_nonblocking a) as [k|[]]; [intros [= <- <-]; left; naive_solver|].
    destruct named as [k|nm]; [intros [= <- <-]; left; naive_solver|].
    cbn -[macos_plan_ifconfig_commands macos_plan_route_commands run_all]. intros H. right.
    destruct (run_all exec (macos_plan_ifconfig_commands config nm ++ macos_plan_route_commands config nm) log)
      as [r0 log1] eqn:E.
    exists nm, r0. split; [done|]. pose proof E as Erun. rewrite run_all_app in E.
    destruct (run_all exec (macos_plan_ifconfig_commands config nm) log) as [[?|?|] l1];
      [rewrite E in H|injection E as <- <-..]; try destruct r0; injection H as <- <-; rewrite Erun; split; try done.
    eexists. split_and!; done.
  - intros [= <- <-]. left. naive_solver.
Qed.

End lemmas.

(** C23: the interface is set up and taken down as planned.  A set-up runs a prefix
    of its plan, in order, after the interface was made and only then; when it
    succeeds it has run all of it, and it fails with an error, never a panic.  The
    device then reports the name of the interface; its shutdown always succeeds,
    and runs every cleanup command, for that interface, even if some of them fail. *)
Theorem tun_lifecycle exec t a config log r log' :
  configure_tun exec t a config log = (r, log') ->
  r <> Panic /\
  exists ran, log' = log ++ ran /\
    (ran <> [] -> exists name, tun_name t a config = Some name /\ ran `prefix_of` setup_plan t config name) /\
    forall d, r = Ok d -> exists name, tun_name t a config = Some name /\
      ran = setup_plan t config name /\ platform_status d = TunStatus_configured name /\
      forall l, fst (platform_shutdown exec d l) = Ok tt /\
        ((forall l' c k, exec l' c <> NotStarted k) ->
         snd (platform_shutdown exec d l) = l ++ cleanup_plan t config name).
Proof.
  intros H. destruct (configure_tun_runs exec t a config log r log' H)
    as [[-> [e ->]]|(name & r0 & Hname & Hrun & Hr)].
  { split; [done|]. exists []. rewrite app_nil_r. split_and!; done. }
  destruct (run_all_prefix exec _ _ _ _ Hrun) as (ran & -> & Hp & Hok & Hnp).
  split; [destruct r0; [destruct Hr as (d & -> & _)|subst r..]; done|].
  exists ran. split; [done|]. split; [intros _; by exists name|].
  intros d ->. destruct r0 as [[]|e|]; [|done..]. destruct Hr as (d' & [= <-] & Hst & _ & Hsh).
  exists name. split_and!; [done|by apply Hok|done|]. intros l. rewrite Hsh. split; [done|].
  intros Hs. by rewrite (run_ignoring_started exec _ _ Hs).
Qed.

Lemma tun_lifecycle_witness :
  let config := mkTunConfig "utun7" (Ipv4 100 64 0 1) 41641 "100.64.0.0/10" in
  let answers := mkTunAnswers true (fun _ => inr (inr "utun7")) (inr tt) in
  let exec (_ : list PlannedCommand) (_ : PlannedCommand) := Exited true [] in
  exists d ran, configure_tun exec OsMacos answers config [] = (Ok d, ran) /\
    snd (platform_shutdown exec d ran) = ran ++ cleanup_plan OsMacos config "utun7".
Proof.
  intros config answers exec. eexists _, _. split; [reflexivity|].
  destruct (tun_lifecycle exec OsMacos answers config [] _ _ eq_refl) as (_ & ran & _ & _ & H).
  destruct (H _ eq_refl) as (name & [= <-] & _ & _ & Hs). apply Hs. intros; discriminate.
Defined.
