(* ===== verification/Http.v ===== *)
(** * HTTP between the programs

    Requests and responses as [reqwest] and [axum] carry them: a method, an URL,
    query parameters and a JSON body.  A body is the value that [serde_json] writes
    and reads back, tagged with its type: a body of another type is not read. *)

From Stdlib Require Import ZArith Lia.
From stdpp Require Import prelude list strings.
From S2P Require Import Prelude RustStd Protocol.

Inductive Method : Type := GET | POST | PATCH | DELETE.

#[export] Instance Method_eq_dec : EqDecision Method.
Proof. solve_decision. Defined.

Inductive Body : Type :=
| NoBody
| RegisterDeviceRequestBody (b : RegisterDeviceRequest)
| HeartbeatRequestBody (b : HeartbeatRequest)
| EndpointProbeRequestBody (b : EndpointProbeRequest)
| RenameDeviceRequestBody (b : RenameDeviceRequest)
| HealthBody (ok : bool)
| CreateAuthKeyResponseBody (b : CreateAuthKeyResponse)
| RegisterDeviceResponseBody (b : RegisterDeviceResponse)
| HeartbeatResponseBody (b : HeartbeatResponse)
| EndpointProbeResponseBody (b : EndpointProbeResponse)
| NetworkMapResponseBody (b : NetworkMapResponse)
| DeviceSummaryBody (b : DeviceSummary)
| DeviceSummariesBody (b : list DeviceSummary)
| DnsRecordsBody (b : list DnsRecord)
| RelaysBody (b : list RelayMetadata)
| ErrorBody (error : message)
| TextBody (text : string).

Record HttpRequest : Type := mkHttpRequest {
  method : Method;
  url : string;
  query_params : list (string * string);
  request_body : Body;
}.

Record HttpResponse : Type := mkHttpResponse { status_code : Z; response_body : Body }.

(** [StatusCode::is_success] *)
Definition is_success (code : Z) : bool := in_range 200 299 code.

(** A server with its state: what it answers to a request, [None] when it never
    answers, [inl] when the connection fails. *)
Class HttpServer (Srv : Type) : Type :=
  http_send : HttpRequest -> Srv -> option ((unit + HttpResponse) * Srv).

(** The errors of [reqwest]. *)
Inductive http_error : Type :=
| SendFailed
| StatusError (code : Z)
| DecodeFailed.

#[export] Instance http_error_eq_dec : EqDecision http_error.
Proof. solve_decision. Defined.

(** [Response::error_for_status]: client and server errors are errors. *)
Definition error_for_status (r : HttpResponse) : res http_error HttpResponse :=
  if in_range 400 599 (status_code r) then Err (StatusError (status_code r)) else Ok r.

(** [Response::json], for a reader of the type that is asked for. *)
Definition json {A} (read : Body -> option A) (r : HttpResponse) : res http_error A :=
  ok_or DecodeFailed (read (response_body r)).

Definition as_register (b : Body) : option RegisterDeviceResponse :=
  match b with RegisterDeviceResponseBody x => Some x | _ => None end.
Definition as_probe (b : Body) : option EndpointProbeResponse :=
  match b with EndpointProbeResponseBody x => Some x | _ => None end.
Definition as_network_map (b : Body) : option NetworkMapResponse :=
  match b with NetworkMapResponseBody x => Some x | _ => None end.
Definition as_auth_key (b : Body) : option CreateAuthKeyResponse :=
  match b with CreateAuthKeyResponseBody x => Some x | _ => None end.
Definition as_device (b : Body) : option DeviceSummary :=
  match b with DeviceSummaryBody x => Some x | _ => None end.
Definition as_devices (b : Body) : option (list DeviceSummary) :=
  match b with DeviceSummariesBody x => Some x | _ => None end.
Definition as_dns_records (b : Body) : option (list DnsRecord) :=
  match b with DnsRecordsBody x => Some x | _ => None end.
Definition as_relays (b : Body) : option (list RelayMetadata) :=
  match b with RelaysBody x => Some x | _ => None end.
