(* ===== verification/SystemFiles.v ===== *)
(** * Resolver and service files ([tfscale-agent/src/resolver.rs], [service.rs])

    The files that the agent writes for the system resolver and for systemd, the
    commands it runs, and what it reports about them.  The host is its files,
    their permissions and the commands that ran; faults of the file system and
    the outcomes of commands are parameters. *)

From Stdlib Require Import ZArith Lia Ascii.
From stdpp Require Import prelude list strings gmap.
From S2P Require Import Prelude RustStd RustText Protocol Platform Http.

(** ** Errors of the agent ([anyhow::Error]) *)

Inductive anyhow : Type :=
| AText (s : string)
| AContext (s : string) (e : foreign_error)
| AForeign (e : foreign_error)
| ABackend (e : BackendError)
| AHttp (e : http_error).

#[export] Instance anyhow_eq_dec : EqDecision anyhow.
Proof. solve_decision. Defined.

(** ** The host *)

Record host : Type := mkHost {
  files : gmap string string;
  modes : gmap string Z;
  ran : list (list string);
}.

(** [fs::write]: done, refused when the file is opened, or broken off after some
    bytes.  A new file gets the default mode. *)
Inductive write_answer : Type := Written | NotOpened (k : io_kind) | Torn (k : io_kind) (n : nat).

Definition DEFAULT_MODE : Z := 420.

Definition put_file (h : host) (path content : string) : host :=
  mkHost (<[path := content]> (files h))
    (match files h !! path with Some _ => modes h | None => <[path := DEFAULT_MODE]> (modes h) end) (ran h).

Definition file_write (a : write_answer) (path content : string) (h : host) : (io_kind + unit) * host :=
  match a with
  | Written => (inr tt, put_file h path content)
  | NotOpened k => (inl k, h)
  | Torn k n => (inl k, put_file h path (of_bytes (take n (as_bytes content))))
  end.

(** [fs::remove_file], [fs::read_to_string] and [Path::exists], with a fault or as
    the files have it. *)
Definition file_remove (fault : option io_kind) (path : string) (h : host) : (io_kind + unit) * host :=
  match fault, files h !! path with
  | Some k, _ => (inl k, h)
  | None, None => (inl NotFound, h)
  | None, Some _ => (inr tt, mkHost (delete path (files h)) (delete path (modes h)) (ran h))
  end.

Definition file_read (fault : option io_kind) (path : string) (h : host) : io_kind + string :=
  match fault, files h !! path with
  | Some k, _ => inl k
  | None, None => inl NotFound
  | None, Some content => inr content
  end.

Definition file_exists (path : string) (h : host) : bool := bool_decide (is_Some (files h !! path)).

Definition set_mode (path : string) (mode : Z) (h : host) : host :=
  mkHost (files h) (<[path := mode]> (modes h)) (ran h).

(** [Path::parent] of a path that does not end in a slash. *)
Definition path_parent (path : string) : option string :=
  match rev (drop_while (fun b => negb (b =? 47)%Z) (rev (as_bytes path))) with
  | [] => None
  | [_] => Some "/"
  | l => Some (of_bytes (removelast l))
  end.

(** The outcome of running a command: not started, or its exit status with its
    text. *)
Inductive status_answer : Type :=
| NoStatus (k : io_kind)
| ExitStatus (success : bool) (text : string).

Section system.
(** The status of a command, given the ones that ran before. *)
Context (exec : list (list string) -> list string -> status_answer).

(** The loop of [run_reload_commands] and of [run_commands], which differ in their
    texts. *)
Fixpoint run_steps (what : string) (commands : list (list string)) (h : host) : res anyhow unit * host :=
  match commands with
  | [] => (Ok tt, h)
  | command :: rest =>
      match command with
      | [] => run_steps what rest h
      | _ :: _ =>
          match exec (ran h) command with
          | NoStatus k =>
              (Err (AContext ("failed to run " +:+ what +:+ " command: " +:+ join " " command) (IoError k)), h)
          | ExitStatus success text =>
              let h := mkHost (files h) (modes h) (ran h ++ [command]) in
              if negb success then
                (Err (AText (what +:+ " command failed with status " +:+ text +:+ ": " +:+ join " " command)), h)
              else run_steps what rest h
          end
      end
  end.

(** ** Resolver *)

Record ResolverConfig : Type := mkResolverConfig { rv_suffix : string; nameserver : string; rv_port : Z }.

Definition ResolverConfig_default : ResolverConfig := mkResolverConfig "mesh" "127.0.0.1" 1053.

Inductive ResolverPlatform : Type := LinuxSystemdResolved | MacosResolver.

Record ResolverPlan : Type := mkResolverPlan {
  rp_platform : ResolverPlatform;
  config_path : string;
  install_content : string;
  reload_commands : list (list string);
  uninstall_paths : list string;
}.

Record ResolverStatus : Type := mkResolverStatus {
  rs_platform : string;
  rs_config_path : string;
  rs_installed : bool;
  content_matches : bool;
  rs_message : option message;
}.

Definition LINUX_RESOLVED_CONF : string := "/etc/systemd/resolved.conf.d/tfscale-magicdns.conf".
Definition MACOS_RESOLVER_DIR : string := "/etc/resolver".

Definition nl : string := of_bytes [10%Z].

Definition linux_systemd_resolved_plan (config : ResolverConfig) : ResolverPlan :=
  mkResolverPlan LinuxSystemdResolved LINUX_RESOLVED_CONF
    ("[Resolve]" +:+ nl +:+ "DNS=" +:+ nameserver config +:+ ":" +:+ dec (rv_port config) +:+ nl +:+
     "Domains=~" +:+ rv_suffix config +:+ nl)
    [["systemctl"; "reload"; "systemd-resolved"]] [LINUX_RESOLVED_CONF].

Definition macos_resolver_plan (config : ResolverConfig) : ResolverPlan :=
  let path := path_join MACOS_RESOLVER_DIR (rv_suffix config) in
  mkResolverPlan MacosResolver path
    ("nameserver " +:+ nameserver config +:+ nl +:+ "port " +:+ dec (rv_port config) +:+ nl) [] [path].

Definition resolver_current_platform_plan (t : target_os) (config : ResolverConfig) : ResolverPlan :=
  match t with
  | OsMacos => macos_resolver_plan config
  | _ => linux_systemd_resolved_plan config
  end.

Definition resolver_platform_label (p : ResolverPlatform) : string :=
  match p with LinuxSystemdResolved => "linux-systemd-resolved" | MacosResolver => "macos-resolver" end.

Definition run_reload_commands (plan : ResolverPlan) : host -> res anyhow unit * host :=
  run_steps "resolver reload" (reload_commands plan).

(** [mkdir] is the answer of [create_dir_all]. *)
Definition resolver_install (mkdir : io_kind + unit) (w : write_answer) (plan : ResolverPlan) (h : host)
    : res anyhow unit * host :=
  let made :=
    match path_parent (config_path plan), mkdir with
    | Some parent, inl k => Err (AContext ("failed to create resolver config dir " +:+ parent) (IoError k))
    | _, _ => Ok tt
    end in
  match made with
  | Ok _ =>
      match file_write w (config_path plan) (install_content plan) h with
      | (inr _, h) => run_reload_commands plan h
      | (inl k, h) =>
          (Err (AContext ("failed to write resolver config " +:+ config_path plan) (IoError k)), h)
      end
  | Err e => (Err e, h)
  | Panic => (Panic, h)
  end.

Fixpoint remove_paths (faults : string -> option io_kind) (paths : list string) (h : host)
    : res anyhow unit * host :=
  match paths with
  | [] => (Ok tt, h)
  | path :: rest =>
      match file_remove (faults path) path h with
      | (inr _, h) => remove_paths faults rest h
      | (inl NotFound, h) => remove_paths faults rest h
      | (inl k, h) => (Err (AContext ("failed to remove resolver config " +:+ path) (IoError k)), h)
      end
  end.

Definition resolver_uninstall (faults : string -> option io_kind) (plan : ResolverPlan) (h : host)
    : res anyhow unit * host :=
  match remove_paths faults (uninstall_paths plan) h with
  | (Ok _, h) => run_reload_commands plan h
  | (r, h) => (r, h)
  end.

Definition resolver_status (fault : option io_kind) (plan : ResolverPlan) (h : host) : ResolverStatus :=
  let label := resolver_platform_label (rp_platform plan) in
  match file_read fault (config_path plan) h with
  | inr content =>
      let same := bool_decide (content = install_content plan) in
      mkResolverStatus label (config_path plan) true same
        (Some (MText (if same then "resolver config is installed"
                      else "resolver config exists but does not match tf-scale plan")))
  | inl NotFound =>
      mkResolverStatus label (config_path plan) false false (Some (MText "resolver config is not installed"))
  | inl k =>
      mkResolverStatus label (config_path plan) false false
        (Some (MForeign "failed to read resolver config: " (IoError k)))
  end.

(** ** Service *)

Record ServiceConfig : Type := mkServiceConfig {
  binary_path : string;
  state_dir : string;
  sc_control_url : string;
  sc_login_key : string;
  sc_dns_listen : SocketAddr;
}.

Inductive ServicePlatform : Type := LinuxSystemd | Unsupported.

#[export] Instance ServicePlatform_eq_dec : EqDecision ServicePlatform.
Proof. solve_decision. Defined.

Record ServicePlan : Type := mkServicePlan {
  sp_platform : ServicePlatform;
  unit_path : string;
  unit_content : string;
  env_path : string;
  env_content : string;
  install_commands : list (list string);
  uninstall_commands : list (list string);
}.

Record ServiceStatus : Type := mkServiceStatus {
  ss_platform : string;
  ss_unit_path : string;
  ss_env_path : string;
  ss_installed : bool;
  env_installed : bool;
  enabled : option bool;
  active : option bool;
  ss_message : option string;
}.

Definition SERVICE_NAME : string := "tfscale-agent".
Definition SYSTEMD_UNIT_PATH : string := "/etc/systemd/system/tfscale-agent.service".
Definition SYSTEMD_ENV_PATH : string := "/etc/tfscale/agent.env".

(** [is_ascii_alphanumeric() || matches!(ch, '/' | ':' | '.' | '_' | '-' | '=')] *)
Definition plain_byte (b : Z) : bool :=
  in_range 48 57 b || in_range 65 90 b || in_range 97 122 b ||
  existsb (Z.eqb b) [47; 58; 46; 95; 45; 61]%Z.

Definition apostrophe : string := of_bytes [39%Z].
Definition quote : string := of_bytes [34%Z].
Definition backslash : string := of_bytes [92%Z].

Definition escape_systemd_arg (value : string) : string :=
  if forallb plain_byte (as_bytes value) then value
  else apostrophe +:+
       replace 39 (apostrophe +:+ backslash +:+ apostrophe +:+ apostrophe) value +:+ apostrophe.

Definition systemd_env_value (value : string) : string :=
  if forallb plain_byte (as_bytes value) then value
  else quote +:+
       replace 34 (backslash +:+ quote) (replace 92 (backslash +:+ backslash) value) +:+ quote.

Definition linux_systemd_unit (config : ServiceConfig) : string :=
  let binary := escape_systemd_arg (binary_path config) in
  let state_dir := escape_systemd_arg (state_dir config) in
  let dns_listen := escape_systemd_arg (socket_addr_to_string (sc_dns_listen config)) in
  let env_path := escape_systemd_arg SYSTEMD_ENV_PATH in
  "[Unit]" +:+ nl +:+
  "Description=tf-scale agent" +:+ nl +:+
  "After=network-online.target" +:+ nl +:+
  "Wants=network-online.target" +:+ nl +:+
  nl +:+
  "[Service]" +:+ nl +:+
  "Type=simple" +:+ nl +:+
  "EnvironmentFile=" +:+ env_path +:+ nl +:+
  "ExecStart=" +:+ binary +:+ " --state-dir " +:+ state_dir +:+
    " up --login-key ${TFSCALE_LOGIN_KEY} --control-url ${TFSCALE_CONTROL_URL} --dns-listen " +:+
    dns_listen +:+ nl +:+
  "Restart=on-failure" +:+ nl +:+
  "RestartSec=3" +:+ nl +:+
  nl +:+
  "[Install]" +:+ nl +:+
  "WantedBy=multi-user.target" +:+ nl.

Definition linux_systemd_env (config : ServiceConfig) : string :=
  "TFSCALE_LOGIN_KEY=" +:+ systemd_env_value (sc_login_key config) +:+ nl +:+
  "TFSCALE_CONTROL_URL=" +:+ systemd_env_value (sc_control_url config) +:+ nl.

Definition linux_systemd_plan (config : ServiceConfig) : ServicePlan :=
  mkServicePlan LinuxSystemd SYSTEMD_UNIT_PATH (linux_systemd_unit config) SYSTEMD_ENV_PATH
    (linux_systemd_env config)
    [["systemctl"; "daemon-reload"]; ["systemctl"; "enable"; SERVICE_NAME]]
    [["systemctl"; "disable"; "--now"; SERVICE_NAME]; ["systemctl"; "daemon-reload"]].

Definition unsupported_plan (config : ServiceConfig) : ServicePlan :=
  mkServicePlan Unsupported SYSTEMD_UNIT_PATH EmptyString SYSTEMD_ENV_PATH EmptyString [] [].

Definition service_current_platform_plan (t : target_os) (config : ServiceConfig) : ServicePlan :=
  match t with OsLinux => linux_systemd_plan config | _ => unsupported_plan config end.

Definition service_platform_label (p : ServicePlatform) : string :=
  match p with LinuxSystemd => "linux-systemd" | Unsupported => "unsupported" end.

Definition run_commands (commands : list (list string)) : host -> res anyhow unit * host :=
  run_steps "service" commands.

Definition ensure_supported (plan : ServicePlan) : res anyhow unit :=
  if bool_decide (sp_platform plan = Unsupported)
  then Err (AText "service install is not supported on this platform yet") else Ok tt.

(** [chmod] is the answer of [set_permissions], on Unix. *)
Definition write_env_file (w : write_answer) (chmod : io_kind + unit) (plan : ServicePlan) (h : host)
    : res anyhow unit * host :=
  match file_write w (env_path plan) (env_content plan) h with
  | (inl k, h) => (Err (AContext ("failed to write service env file " +:+ env_path plan) (IoError k)), h)
  | (inr _, h) =>
      match chmod with
      | inl k =>
          (Err (AContext ("failed to set service env file permissions " +:+ env_path plan) (IoError k)), h)
      | inr _ => (Ok tt, set_mode (env_path plan) 384 h)
      end
  end.

(** What the file system answers while a service is installed. *)
Record install_answers : Type := mkInstallAnswers {
  mkdir_unit : io_kind + unit; mkdir_env : io_kind + unit;
  write_unit : write_answer; write_env : write_answer; chmod_env : io_kind + unit }.

Definition install_files (a : install_answers) (plan : ServicePlan) (h : host) : res anyhow unit * host :=
  match path_parent (unit_path plan), mkdir_unit a with
  | Some parent, inl k => (Err (AContext ("failed to create service dir " +:+ parent) (IoError k)), h)
  | _, _ =>
      match path_parent (env_path plan), mkdir_env a with
      | Some parent, inl k => (Err (AContext ("failed to create service env dir " +:+ parent) (IoError k)), h)
      | _, _ =>
          match file_write (write_unit a) (unit_path plan) (unit_content plan) h with
          | (inl k, h) => (Err (AContext ("failed to write service unit " +:+ unit_path plan) (IoError k)), h)
          | (inr _, h) => write_env_file (write_env a) (chmod_env a) plan h
          end
      end
  end.

Definition service_install (a : install_answers) (plan : ServicePlan) (h : host) : res anyhow unit * host :=
  match ensure_supported plan with
  | Ok _ =>
      match install_files a plan h with
      | (Ok _, h) => run_commands (install_commands plan) h
      | (r, h) => (r, h)
      end
  | Err e => (Err e, h)
  | Panic => (Panic, h)
  end.

(** [remove_file] where a missing file is fine. *)
Definition remove_if_present (fault : option io_kind) (what path : string) (h : host) : res anyhow unit * host :=
  match file_remove fault path h with
  | (inr _, h) => (Ok tt, h)
  | (inl NotFound, h) => (Ok tt, h)
  | (inl k, h) => (Err (AContext ("failed to remove service " +:+ what +:+ " " +:+ path) (IoError k)), h)
  end.

Definition service_uninstall (unit_fault env_fault : option io_kind) (plan : ServicePlan) (h : host)
    : res anyhow unit * host :=
  match ensure_supported plan with
  | Ok _ =>
      let '(_, h) := run_commands (uninstall_commands plan) h in
      match remove_if_present unit_fault "unit" (unit_path plan) h with
      | (Ok _, h) =>
          match remove_if_present env_fault "env file" (env_path plan) h with
          | (Ok _, h) => run_commands [["systemctl"; "daemon-reload"]] h
          | (r, h) => (r, h)
          end
      | (r, h) => (r, h)
      end
  | Err e => (Err e, h)
  | Panic => (Panic, h)
  end.

(** [output] is what [systemctl <command> tfscale-agent] answers: not started, or
    whether it succeeded and its standard output. *)
Definition systemctl_bool (command : string) (output : option (bool * list Z)) : option bool * option string :=
  match output with
  | None => (None, Some ("systemctl " +:+ command +:+ " is not available"))
  | Some (success, stdout) =>
      let value := trim (from_utf8_lossy stdout) in
      let says c l := bool_decide (command = c) && existsb (fun v => bool_decide (value = v)) l in
      if says "is-enabled" ["enabled"] then (Some true, None)
      else if says "is-enabled" ["disabled"; "static"; "indirect"] then (Some false, None)
      else if says "is-active" ["active"] then (Some true, None)
      else if says "is-active" ["inactive"; "failed"; "activating"; "deactivating"] then (Some false, None)
      else if success then (Some true, None)
      else (Some false, None)
  end.

Definition service_status (is_enabled is_active : option (bool * list Z)) (plan : ServicePlan) (h : host)
    : ServiceStatus :=
  let installed := file_exists (unit_path plan) h in
  let env_installed := file_exists (env_path plan) h in
  let '(enabled, enabled_message) := systemctl_bool "is-enabled" is_enabled in
  let '(active, active_message) := systemctl_bool "is-active" is_active in
  let message :=
    match enabled_message, active_message with
    | Some m, _ => Some m
    | None, Some m => Some m
    | None, None => Some (if installed then "service unit is installed" else "service unit is not installed")
    end in
  mkServiceStatus (service_platform_label (sp_platform plan)) (unit_path plan) (env_path plan)
    installed env_installed enabled active message.

End system.

(** ** Lemmas: quoting *)

Lemma plain_byte_safe b : plain_byte b = true -> (b <> 32 /\ b <> 39 /\ b <> 34 /\ b <> 10)%Z.
Proof. intros H. split_and!; intros ->; done. Qed.

(** A plain text ends at the first byte that is not plain. *)
Lemma plain_split c l l' r r' :
  plain_byte c = false -> forallb plain_byte l = true -> forallb plain_byte l' = true ->
  l ++ c :: r = l' ++ c :: r' -> l = l' /\ r = r'.
Proof.
  intros Hc Hl Hl'. apply cut_first; intros Hin%list_elem_of_In;
    [pose proof (proj1 (forallb_forall _ _) Hl c Hin)|pose proof (proj1 (forallb_forall _ _) Hl' c Hin)]; congruence.
Qed.

(** The bodies of the two kinds of quotes. *)
Definition env_body (l : list Z) : list Z := replace_byte 34 [92; 34]%Z (replace_byte 92 [92; 92]%Z l).
Definition arg_body (l : list Z) : list Z := replace_byte 39 [39; 92; 39; 39]%Z l.

Lemma env_body_cons b l :
  env_body (b :: l) = (if (b =? 92)%Z then [92; 92]%Z else if (b =? 34)%Z then [92; 34]%Z else [b]) ++ env_body l.
Proof.
  unfold env_body. assert (replace_byte 92 [92; 92]%Z (b :: l) =
    (if (b =? 92)%Z then [92; 92]%Z else [b]) ++ replace_byte 92 [92; 92]%Z l) as -> by done.
  unfold replace_byte at 1. rewrite flat_map_app. fold (replace_byte 34 [92; 34]%Z).
  destruct (Z.eqb_spec b 92) as [-> |H92]; [done|]. cbn [flat_map app]. by destruct (Z.eqb_spec b 34).
Qed.

(** A quoted value ends at its closing quote, and loses nothing. *)
Lemma env_body_inj l : forall l' r r', env_body l ++ 34%Z :: r = env_body l' ++ 34%Z :: r' -> l = l' /\ r = r'.
Proof.
  induction l as [|b l IH]; intros [|b' l'] r r'; rewrite ?env_body_cons; intros H.
  - by injection H as ->.
  - destruct (Z.eqb_spec b' 92), (Z.eqb_spec b' 34); cbn [app env_body replace_byte flat_map] in H; congruence.
  - destruct (Z.eqb_spec b 92), (Z.eqb_spec b 34); cbn [app env_body replace_byte flat_map] in H; congruence.
  - assert (b = b' /\ env_body l ++ 34%Z :: r = env_body l' ++ 34%Z :: r') as [-> [-> ->]%IH]; [|done].
    destruct (Z.eqb_spec b 92), (Z.eqb_spec b 34), (Z.eqb_spec b' 92), (Z.eqb_spec b' 34);
      cbn [app] in H; split; congruence.
Qed.

(** A quoted argument does when no backslash follows. *)
Lemma arg_body_inj c : (c <> 92)%Z -> forall l l' r r',
  arg_body l ++ 39%Z :: c :: r = arg_body l' ++ 39%Z :: c :: r' -> l = l' /\ r = r'.
Proof.
  intros Hc. assert (forall b l, arg_body (b :: l) = (if (b =? 39)%Z then [39; 92; 39; 39]%Z else [b]) ++ arg_body l) as Hcons
    by done.
  induction l as [|b l IH]; intros [|b' l'] r r'; rewrite ?Hcons; intros H.
  - by injection H as ->.
  - destruct (Z.eqb_spec b' 39); cbn [app arg_body replace_byte flat_map] in H; congruence.
  - destruct (Z.eqb_spec b 39); cbn [app arg_body replace_byte flat_map] in H; congruence.
  - assert (b = b' /\ arg_body l ++ 39%Z :: c :: r = arg_body l' ++ 39%Z :: c :: r') as [-> [-> ->]%IH]; [|done].
    destruct (Z.eqb_spec b 39), (Z.eqb_spec b' 39); cbn [app] in H; try (split; congruence).
Qed.

Lemma replace_byte_Bytes c by_ l : Bytes by_ -> Bytes l -> Bytes (replace_byte c by_ l).
Proof.
  intros Hb Hl. unfold Bytes in *. induction Hl as [|b l Hx _ IH]; [constructor|]. cbn [replace_byte flat_map].
  apply Forall_app. split; [|done]. destruct (_ =? _)%Z; [done|constructor; [done|constructor]].
Qed.

Lemma as_bytes_replace c by_ s :
  as_bytes (replace c by_ s) = replace_byte c (as_bytes by_) (as_bytes s).
Proof. unfold replace. apply as_bytes_of_bytes, replace_byte_Bytes; apply as_bytes_Bytes. Qed.

Lemma env_value_inj v v' r r' :
  as_bytes (systemd_env_value v) ++ 10%Z :: r = as_bytes (systemd_env_value v') ++ 10%Z :: r' -> v = v' /\ r = r'.
Proof.
  assert (forall v, as_bytes (quote +:+ replace 34 (backslash +:+ quote) (replace 92 (backslash +:+ backslash) v) +:+ quote) =
    34%Z :: env_body (as_bytes v) ++ [34%Z]) as Hq.
  { intros x. rewrite !as_bytes_app, !as_bytes_replace. reflexivity. }
  unfold systemd_env_value. destruct (forallb plain_byte (as_bytes v)) eqn:E, (forallb plain_byte (as_bytes v')) eqn:E';
    rewrite ?Hq; intros H.
  - by apply plain_split in H as [->%as_bytes_inj ->].
  - exfalso. destruct (as_bytes v) as [|b l]; cbn in H; [congruence|]. injection H as -> _. done.
  - exfalso. destruct (as_bytes v') as [|b l]; cbn in H; [congruence|]. injection H as <- _. done.
  - rewrite <- !app_comm_cons, <- !app_assoc in H. injection H as H. cbn [app] in H.
    apply env_body_inj in H as [->%as_bytes_inj H]. by injection H as ->.
Qed.

Lemma escape_arg_inj c v v' r r' :
  plain_byte c = false -> (c <> 92)%Z -> (c <> 39)%Z ->
  as_bytes (escape_systemd_arg v) ++ c :: r = as_bytes (escape_systemd_arg v') ++ c :: r' -> v = v' /\ r = r'.
Proof.
  intros Hp Hc H39.
  assert (forall v, as_bytes (apostrophe +:+ replace 39 (apostrophe +:+ backslash +:+ apostrophe +:+ apostrophe) v +:+ apostrophe) =
    39%Z :: arg_body (as_bytes v) ++ [39%Z]) as Hq.
  { intros x. rewrite !as_bytes_app, !as_bytes_replace. reflexivity. }
  unfold escape_systemd_arg. destruct (forallb plain_byte (as_bytes v)) eqn:E, (forallb plain_byte (as_bytes v')) eqn:E';
    rewrite ?Hq; intros H.
  - by apply plain_split in H as [->%as_bytes_inj ->].
  - exfalso. destruct (as_bytes v) as [|b l]; cbn in H; [congruence|]. injection H as -> _. done.
  - exfalso. destruct (as_bytes v') as [|b l]; cbn in H; [congruence|]. injection H as <- _. done.
  - rewrite <- !app_comm_cons, <- !app_assoc in H. injection H as H. cbn [app] in H.
    apply arg_body_inj in H as [->%as_bytes_inj ->]; done.
Qed.

Section lifecycle.
Context (exec : list (list string) -> list string -> status_answer).

Lemma run_steps_files what cs h r h' :
  run_steps exec what cs h = (r, h') -> files h' = files h /\ modes h' = modes h.
Proof.
  revert h. induction cs as [|c cs IH]; intros h H; simpl in H; [by injection H as _ <-|].
  destruct c as [|p args]; [by apply IH|]. destruct (exec _ _) as [k|ok text]; [by injection H as _ <-|].
  destruct ok; [by apply IH in H|by injection H as _ <-].
Qed.

(** A command whose status is a success is run, and after the first that fails
    none. *)
Lemma run_steps_ran what cs h h' :
  Forall (fun c => c <> []) cs -> run_steps exec what cs h = (Ok tt, h') -> ran h' = ran h ++ cs.
Proof.
  intros Hne. revert h. induction Hne as [|c cs Hc _ IH]; intros h H; simpl in H;
    [injection H as <-; by rewrite app_nil_r|].
  destruct c as [|p args]; [done|]. destruct (exec _ _) as [k|ok text]; [done|]. destruct ok; [|done].
  apply IH in H. rewrite H. cbn [ran]. by rewrite <- app_assoc.
Qed.

Lemma remove_if_present_ok fault what path h h' :
  remove_if_present fault what path h = (Ok tt, h') -> files h' !! path = None -> files h' = delete path (files h).
Proof.
  unfold remove_if_present, file_remove. destruct fault as [k|].
  - destruct k; try done. intros [= <-] Hn. by rewrite delete_id.
  - destruct (files h !! path) eqn:E; intros [= <-] Hn; [done|]. by rewrite delete_id.
Qed.

End lifecycle.

(** ** Properties *)

(** The resolver configuration is installed and removed as a whole.  Whatever
    was there before, and whatever the commands answer: an install that succeeds
    leaves exactly the plan's content at the plan's path, has run the reload
    commands, and is reported as installed and matching; one that fails changes no
    other file.  An uninstall that succeeds leaves everything but that path as it
    was, and is reported as not installed. *)
Theorem resolver_lifecycle exec t config mkdir w h r h1 :
  let plan := resolver_current_platform_plan t config in
  resolver_install exec mkdir w plan h = (r, h1) ->
  delete (config_path plan) (files h1) = delete (config_path plan) (files h) /\
  (r = Ok tt ->
   files h1 = <[config_path plan := install_content plan]> (files h) /\
   ran h1 = ran h ++ reload_commands plan /\
   rs_installed (resolver_status None plan h1) = true /\
   content_matches (resolver_status None plan h1) = true) /\
  forall h2, resolver_uninstall exec (fun _ => None) plan h1 = (Ok tt, h2) ->
    files h2 = delete (config_path plan) (files h) /\
    rs_installed (resolver_status None plan h2) = false.
Proof.
  intros plan Hi.
  assert (Hpaths : uninstall_paths plan = [config_path plan]) by (by destruct t).
  assert (Hne : Forall (fun c => c <> []) (reload_commands plan))
    by (destruct t; simpl; rewrite ?Forall_cons; split_and?; done).
  assert (Hd : delete (config_path plan) (files h1) = delete (config_path plan) (files h) /\
    (r = Ok tt -> files h1 = <[config_path plan := install_content plan]> (files h) /\
       ran h1 = ran h ++ reload_commands plan)).
  { unfold resolver_install, file_write in Hi.
    repeat case_match; simplify_eq; try (split; [done|by intros]);
      try (split; [cbn [put_file files]; by rewrite delete_insert_eq|done]);
      try (match goal with H : run_reload_commands _ _ _ = _ |- _ =>
        destruct (run_steps_files _ _ _ _ _ _ H) as [Hf _]; rewrite Hf; cbn [put_file files];
        split; [by rewrite delete_insert_eq|intros ->; split; [done|]];
        by rewrite (run_steps_ran _ _ _ _ _ Hne H) end). }
  destruct Hd as [Hd Hok]. split; [done|]. split.
  - intros Hr. destruct (Hok Hr) as [Hf Hran]. split_and!; try done;
      unfold resolver_status, file_read; rewrite Hf, lookup_insert_eq; [done|].
    cbn [content_matches]. by apply bool_decide_eq_true_2.
  - intros h2 Hu. unfold resolver_uninstall in Hu. rewrite Hpaths in Hu. cbn [remove_paths] in Hu.
    assert (files h2 = delete (config_path plan) (files h1)) as Hf.
    { unfold file_remove in Hu. destruct (files h1 !! config_path plan) eqn:E;
        destruct (run_steps_files _ _ _ _ _ _ Hu) as [-> _]; [done|]. by rewrite delete_id. }
    rewrite Hf, Hd. split; [done|].
    unfold resolver_status, file_read. by rewrite Hf, lookup_delete_eq.
Qed.

Definition all_succeed (_ : list (list string)) (_ : list string) : status_answer := ExitStatus true "exit status: 0".
Definition empty_host : host := mkHost ∅ ∅ [].

Lemma resolver_lifecycle_witness :
  let plan := resolver_current_platform_plan OsLinux ResolverConfig_default in
  exists h1, resolver_install all_succeed (inr tt) Written plan empty_host = (Ok tt, h1) /\
    content_matches (resolver_status None plan h1) = true.
Proof.
  intros plan. eexists. split; [reflexivity|].
  refine (proj2 (proj2 (proj2 (proj1 (proj2
    (resolver_lifecycle all_succeed OsLinux ResolverConfig_default (inr tt) Written empty_host _ _ eq_refl)) _)))).
  reflexivity.
Defined.

Lemma remove_if_present_files what path h :
  exists h', remove_if_present None what path h = (Ok tt, h') /\ files h' = delete path (files h) /\ ran h' = ran h.
Proof.
  unfold remove_if_present, file_remove. destruct (files h !! path) eqn:E; eexists; split_and!; try done.
  by rewrite delete_id.
Qed.

Lemma str_app_inj (s x y : string) : s +:+ x = s +:+ y -> x = y.
Proof. intros H%(f_equal as_bytes). rewrite !as_bytes_app in H. by apply app_inv_head in H as ->%as_bytes_inj. Qed.

(** The value and what follows it, when both are known to be followed by [sep]. *)
Lemma escape_arg_app c v v' sep x x' :
  plain_byte c = false -> (c <> 92)%Z -> (c <> 39)%Z -> head (as_bytes sep) = Some c ->
  escape_systemd_arg v +:+ sep +:+ x = escape_systemd_arg v' +:+ sep +:+ x' -> v = v' /\ x = x'.
Proof.
  intros Hp Hc H39 Hs H%(f_equal as_bytes). rewrite !as_bytes_app in H.
  destruct (as_bytes sep) as [|b l]; [done|]. injection Hs as ->. cbn [app] in H.
  apply escape_arg_inj in H as [-> H]; try done. by apply app_inv_head in H as ->%as_bytes_inj.
Qed.

Lemma env_value_app v v' x x' :
  systemd_env_value v +:+ nl +:+ x = systemd_env_value v' +:+ nl +:+ x' -> v = v' /\ x = x'.
Proof.
  intros H%(f_equal as_bytes). rewrite !as_bytes_app in H. change (as_bytes nl) with [10%Z] in H. cbn [app] in H.
  by apply env_value_inj in H as [-> ->%as_bytes_inj].
Qed.

Lemma str_app_empty (s : string) : s +:+ EmptyString = s.
Proof. apply as_bytes_inj. rewrite as_bytes_app. apply app_nil_r. Qed.

(** The two files say which service was configured. *)
Lemma service_files_inj c c' :
  Ip_wf (ip (sc_dns_listen c)) -> is_u16 (sa_port (sc_dns_listen c)) ->
  Ip_wf (ip (sc_dns_listen c')) -> is_u16 (sa_port (sc_dns_listen c')) ->
  linux_systemd_unit c = linux_systemd_unit c' -> linux_systemd_env c = linux_systemd_env c' -> c = c'.
Proof.
  intros H1 H2 H3 H4 Hu He. unfold linux_systemd_unit in Hu. cbv zeta in Hu.
  do 17 (apply str_app_inj in Hu).
  apply (escape_arg_app 32) in Hu as [Hb Hu]; try done. apply (escape_arg_app 32) in Hu as [Hs Hu]; try done.
  apply (escape_arg_app 10) in Hu as [Hd _]; try done.
  unfold linux_systemd_env in He. apply str_app_inj in He. apply env_value_app in He as [Hk He].
  apply str_app_inj in He. rewrite <- (str_app_empty nl) in He. apply env_value_app in He as [Hc _].
  apply (f_equal parse_socket_addr) in Hd. rewrite !parse_socket_addr_to_string in Hd by done. injection Hd as Hd.
  destruct c, c'. simpl in *. congruence.
Qed.


Definition sample_service : ServiceConfig :=
  mkServiceConfig "/usr/local/bin/tfscale-agent" "/var/lib/tfscale" "http://127.0.0.1:8080" "tfkey_1"
    (mkSocketAddr (V4 (Ipv4 127 0 0 1)) 1053).

