(* ===== verification/Agent.v ===== *)
(** * The agent ([tfscale-agent/src/main.rs])

    Registration, synchronisation with the control plane and the main loop, over
    any backend ([NetworkBackend]) and any server ([HttpServer]).

    A computation of the agent works on a [world]: the backend, the server at the
    other end, the files of the host, the records of the DNS proxy and the version
    of the last network map.  It returns [None] when it never returns: [reqwest] is
    used without a timeout, and a backend operation may block for ever. *)

From Stdlib Require Import ZArith Lia.
From stdpp Require Import prelude list strings gmap.
From S2P Require Import Prelude RustStd RustText Protocol Platform Http SystemFiles Dns NetBackend.

(** ** Constants *)

Definition DEFAULT_INTERFACE_NAME : string := "tfscale0".
Definition DEFAULT_LISTEN_PORT : Z := 51820.
Definition DEFAULT_DNS_LISTEN : string := "127.0.0.1:1053".
Definition DEFAULT_DNS_SUFFIX : string := "mesh".
(** Instants and durations are in nanoseconds. *)
Definition from_secs (s : Z) : Z := (s * 1000000000)%Z.
Definition DIRECT_PATH_MAINTENANCE_INTERVAL : Z := 250000000.
Definition CARGO_PKG_VERSION : string := "0.1.0".

(** ** Agent state *)

Record AgentState : Type := mkAgentState {
  as_machine_key : string;
  as_backend_public_credential : string;
  as_device_id : option string;
  as_node_key : option string;
  as_network_id : option string;
  as_ipv4 : option string;
  as_poll_interval_seconds : Z;
  as_dns_records : list DnsRecord;
  as_dns_enabled : bool;
  as_dns_listen : string;
  as_dns_healthy : bool;
  as_dns_message : option string;
}.

Definition AgentState_default : AgentState :=
  mkAgentState EmptyString EmptyString None None None None 0 [] false EmptyString false None.

Definition AgentState_new (uuid : string) : AgentState :=
  mkAgentState ("machine_" +:+ uuid) EmptyString None None None None 5 [] false DEFAULT_DNS_LISTEN false None.

Definition set_credential (s : AgentState) (c : string) : AgentState :=
  mkAgentState (as_machine_key s) c (as_device_id s) (as_node_key s) (as_network_id s) (as_ipv4 s)
    (as_poll_interval_seconds s) (as_dns_records s) (as_dns_enabled s) (as_dns_listen s) (as_dns_healthy s)
    (as_dns_message s).
Definition set_registration (s : AgentState) (r : RegisterDeviceResponse) : AgentState :=
  mkAgentState (as_machine_key s) (as_backend_public_credential s) (Some (rr_device_id r))
    (Some (rr_node_key r)) (Some (rr_network_id r)) (Some (rr_ipv4 r)) (rr_poll_interval_seconds r)
    (as_dns_records s) (as_dns_enabled s) (as_dns_listen s) (as_dns_healthy s) (as_dns_message s).
Definition set_dns_status (s : AgentState) (listen : string) (healthy : bool) (m : string) : AgentState :=
  mkAgentState (as_machine_key s) (as_backend_public_credential s) (as_device_id s) (as_node_key s)
    (as_network_id s) (as_ipv4 s) (as_poll_interval_seconds s) (as_dns_records s) true listen healthy (Some m).
Definition set_dns_snapshot (s : AgentState) (rs : list DnsRecord) : AgentState :=
  mkAgentState (as_machine_key s) (as_backend_public_credential s) (as_device_id s) (as_node_key s)
    (as_network_id s) (as_ipv4 s) (as_poll_interval_seconds s) rs (as_dns_enabled s) (as_dns_listen s)
    (as_dns_healthy s) (as_dns_message s).

Definition state_file (state_dir : string) : string := path_join state_dir "state.json".

(** [HOME] is the value of the environment variable. *)
Definition default_state_dir (HOME : option string) : string := path_join (default "." HOME) ".tfscale".

(** The variable [HOSTNAME], and what the program [hostname] wrote. *)
Definition hostname (HOSTNAME : option string) (output : option (list Z)) : string :=
  let nonempty s := if is_empty s then None else Some s in
  match (value ← HOSTNAME; nonempty value) with
  | Some value => value
  | None =>
      match (stdout ← output; value ← from_utf8 stdout; nonempty (trim value)) with
      | Some value => value
      | None => "tfscale-node"
      end
  end.

Definition dns_listen_parts (value : string) : string * Z :=
  match parse_socket_addr value with
  | Some addr => (ip_to_string (ip addr), sa_port addr)
  | None => ("127.0.0.1", 1053%Z)
  end.

Definition dns_resolver_plan (t : target_os) (state : AgentState) : ResolverPlan :=
  let '(nameserver, port) := dns_listen_parts (as_dns_listen state) in
  resolver_current_platform_plan t (mkResolverConfig DEFAULT_DNS_SUFFIX nameserver port).

(** [exe] is the answer of [std::env::current_exe]. *)
Definition current_exe (exe : io_kind + string) : res anyhow string :=
  match exe with
  | inr path => Ok path
  | inl k => Err (AContext "failed to find current executable path" (IoError k))
  end.

Definition service_plan (t : target_os) (exe : io_kind + string) (state_dir control_url login_key : string)
    (dns_listen : SocketAddr) : res anyhow ServicePlan :=
  binary_path ← current_exe exe;
  Ok (service_current_platform_plan t (mkServiceConfig binary_path state_dir control_url login_key dns_listen)).

(** ** Conversions between the protocol and the backend *)

Definition parse_endpoint_kind (value : string) : res anyhow EndpointKind :=
  if bool_decide (value = "lan") then Ok Lan
  else if bool_decide (value = "public") then Ok Public
  else if bool_decide (value = "ipv6") then Ok Ipv6Kind
  else if bool_decide (value = "relay") then Ok Relay
  else Err (AText ("unsupported endpoint kind: " +:+ value)).

Definition endpoint_kind_to_payload (value : EndpointKind) : string :=
  match value with Lan => "lan" | Public => "public" | Ipv6Kind => "ipv6" | Relay => "relay" end.

Definition parse_transport_protocol (value : string) : res anyhow TransportProtocol :=
  if bool_decide (value = "udp") then Ok Udp
  else if bool_decide (value = "tcp") then Ok Tcp
  else Err (AText ("unsupported endpoint protocol: " +:+ value)).

Definition transport_protocol_to_payload (value : TransportProtocol) : string :=
  match value with Udp => "udp" | Tcp => "tcp" end.

Definition endpoint_to_payload (e : Endpoint) : EndpointPayload :=
  mkEndpointPayload (endpoint_kind_to_payload (ep_kind e)) (ip_to_string (ep_address e)) (ep_port e)
    (transport_protocol_to_payload (ep_protocol e)) (Some "local") (Some 100%Z) None.

Definition endpoint_from_backend_probe (e : Endpoint) : EndpointPayload :=
  mkEndpointPayload (endpoint_kind_to_payload (ep_kind e)) (ip_to_string (ep_address e)) (ep_port e)
    (transport_protocol_to_payload (ep_protocol e)) (Some "stun") (Some 50%Z) None.

Definition endpoint_from_probe_response (r : EndpointProbeResponse) : option EndpointPayload :=
  if (epr_observed_port r =? 0)%Z then None
  else Some (mkEndpointPayload "public" (epr_observed_address r) (epr_observed_port r) (epr_protocol r)
               (Some "stun") (Some 50%Z) None).

Definition udp_probe_server (r : EndpointProbeResponse) : res anyhow (option SocketAddr) :=
  match epr_udp_probe_address r with
  | None => Ok None
  | Some address =>
      match epr_udp_probe_port r with
      | None => Ok None
      | Some port =>
          ip ← ok_or (AForeign AddrParseError) (parse_ip address);
          Ok (Some (mkSocketAddr ip port))
      end
  end.

Definition endpoint_to_config (e : EndpointPayload) : res anyhow Endpoint :=
  kind ← parse_endpoint_kind (epp_kind e);
  address ← ok_or (AContext ("invalid endpoint address: " +:+ epp_address e) AddrParseError)
    (parse_ip (epp_address e));
  protocol ← parse_transport_protocol (epp_protocol e);
  Ok (mkEndpoint kind address (epp_port e) protocol).

Definition peer_to_config (p : NetworkMapPeer) : res anyhow PeerConfig :=
  overlay_ip ← ok_or (AContext ("invalid peer overlay IP: " +:+ nmp_ipv4 p) AddrParseError)
    (parse_ipv4 (nmp_ipv4 p));
  endpoints ← collect_res endpoint_to_config (nmp_endpoints p);
  Ok (mkPeerConfig (nmp_device_id p) (nmp_hostname p) overlay_ip
        (mkBackendCredential (nmp_backend_public_credential p)) endpoints (nmp_allowed_routes p)).

Definition network_map_to_peer_configs (peers : list NetworkMapPeer) : res anyhow (list PeerConfig) :=
  collect_res peer_to_config peers.

Definition network_map_to_relay_configs (relays : list RelayMetadata) : list RelayConfig :=
  map (fun r => mkRelayConfig (rm_relay_id r) (rm_url r) (rm_region r)) (List.filter rm_healthy relays).

Definition device_credentials (state : AgentState) : res anyhow (string * string) :=
  device_id ← ok_or (AText "agent state is missing device ID") (as_device_id state);
  node_key ← ok_or (AText "agent state is missing node key") (as_node_key state);
  Ok (device_id, node_key).

(** The configuration that a state gives the backend. *)
Definition local_config_of (state : AgentState) : res anyhow LocalBackendConfig :=
  text ← ok_or (AText "agent state is missing assigned overlay IP") (as_ipv4 state);
  overlay_ip ← ok_or (AContext "agent state contains invalid overlay IP" AddrParseError) (parse_ipv4 text);
  device_id ← ok_or (AText "agent state is missing device ID") (as_device_id state);
  Ok (mkLocalBackendConfig device_id DEFAULT_INTERFACE_NAME overlay_ip DEFAULT_LISTEN_PORT).

(** ** Timers of the loop *)

(** The largest [Instant] of a Unix target: signed 64-bit seconds. *)
Definition INSTANT_MAX : Z := ((2 ^ 63 - 1) * 1000000000 + 999999999)%Z.

(** [Instant + Duration] panics on overflow. *)
Definition instant_add {E} (now d : Z) : res E Z := if (now + d <=? INSTANT_MAX)%Z then Ok (now + d)%Z else Panic.

Definition agent_loop_sleep_duration (now next_sync_at next_path_maintenance_at : Z) : Z :=
  Z.max 0 (Z.min next_sync_at next_path_maintenance_at - now)%Z.

Record AgentLoopTick : Type := mkAgentLoopTick { tick_sync : bool; tick_maintain_paths : bool }.

(** The two timers: the next synchronisation and the next path maintenance. *)
Record timers : Type := mkTimers { next_sync_at : Z; next_path_maintenance_at : Z }.

Definition next_agent_loop_tick {E} (now sync_interval : Z) (t : timers) : res E (AgentLoopTick * timers) :=
  let sync := (next_sync_at t <=? now)%Z in
  ns ← (if sync then instant_add now sync_interval else Ok (next_sync_at t));
  let maintain_paths := (next_path_maintenance_at t <=? now)%Z in
  nm ← (if maintain_paths then instant_add now DIRECT_PATH_MAINTENANCE_INTERVAL
        else Ok (next_path_maintenance_at t));
  Ok (mkAgentLoopTick sync maintain_paths, mkTimers ns nm).

(** A turn of the loop: the shutdown flag is set; or it is not, the sleep starts
    [busy] after the last wake-up and ends [late] later than asked. *)
Inductive loop_turn : Type := ShutdownRequested | Wake (busy late : Z).
Inductive loop_end : Type := StillRunning | LoopStopped.

(** The instant after the sleep, where [clock] is the one of the last wake-up. *)
Definition wake_time (t : timers) (clock busy late : Z) : Z :=
  let before := (clock + busy)%Z in
  (before + agent_loop_sleep_duration before (next_sync_at t) (next_path_maintenance_at t) + late)%Z.

Definition initial_timers {E} (now sync_interval : Z) : res E timers :=
  ns ← instant_add now sync_interval;
  nm ← instant_add now DIRECT_PATH_MAINTENANCE_INTERVAL;
  Ok (mkTimers ns nm).

Definition sync_interval_of (state : AgentState) : Z := from_secs (Z.max (as_poll_interval_seconds state) 1).

(** ** The computations of the agent *)

Record world (B Srv : Type) : Type := mkWorld {
  w_backend : B;
  w_server : Srv;
  w_host : host;
  w_dns : DnsRuntime;
  w_last : option Z;
  w_saves : nat;
  w_out : list string;
}.
Arguments mkWorld {B Srv}.
Arguments w_backend {B Srv} _.
Arguments w_server {B Srv} _.
Arguments w_host {B Srv} _.
Arguments w_dns {B Srv} _.
Arguments w_last {B Srv} _.
Arguments w_saves {B Srv} _.
Arguments w_out {B Srv} _.

(** What the machine answers: [uname] facts, the environment, and the file system,
    save by save. *)
Record machine : Type := mkMachine {
  m_os : target_os;
  m_arch : string;
  m_hostname : option string;
  m_hostname_output : option (list Z);
  m_uuid : string;
  m_read_fault : option io_kind;
  m_save : nat -> (io_kind + unit) * write_answer;
  m_dns_bind : io_kind + unit;
}.

Section agent.
Context {B Srv : Type} `{NB : NetworkBackend B} `{HS : HttpServer Srv}.
(** [serde_json] on the state file, and the text of an error. *)
Context (to_json : AgentState -> string) (from_json : string -> option AgentState).
Context (display : message -> string).
Context (m : machine).

Definition AM (A : Type) : Type := world B Srv -> option (res anyhow A * world B Srv).

#[local] Instance AM_ret : MRet AM := fun A a w => Some (Ok a, w).
#[local] Instance AM_bind : MBind AM := fun A A' f c w =>
  '(r, w) ← c w;
  match r with
  | Ok a => f a w
  | Err e => Some (Err e, w)
  | Panic => Some (Panic, w)
  end.

Definition of_res {A} (r : res anyhow A) : AM A := fun w => Some (r, w).

(** A call on the backend. *)
Definition on_backend {A} (f : call B BackendError A) : AM A := fun w =>
  '(r, b) ← f (w_backend w);
  Some (map_err ABackend r,
        mkWorld b (w_server w) (w_host w) (w_dns w) (w_last w) (w_saves w) (w_out w)).

(** [send().await?] *)
Definition send (q : HttpRequest) : AM HttpResponse := fun w =>
  '(r, s) ← http_send q (w_server w);
  Some (match r with inr response => Ok response | inl _ => Err (AHttp SendFailed) end,
        mkWorld (w_backend w) s (w_host w) (w_dns w) (w_last w) (w_saves w) (w_out w)).

Definition println (line : string) : AM unit := fun w =>
  Some (Ok tt, mkWorld (w_backend w) (w_server w) (w_host w) (w_dns w) (w_last w) (w_saves w)
                 (w_out w ++ [line])).

Definition set_dns_records (rs : list DnsRecord) : AM unit := fun w =>
  Some (Ok tt, mkWorld (w_backend w) (w_server w) (w_host w) (set_records (w_dns w) rs) (w_last w)
                 (w_saves w) (w_out w)).

Definition set_last (v : Z) : AM unit := fun w =>
  Some (Ok tt, mkWorld (w_backend w) (w_server w) (w_host w) (w_dns w) (Some v) (w_saves w) (w_out w)).

(** [if let Err(error) = ... { warn!(..) }] *)
Definition attempt {A} (c : AM A) : AM unit := fun w =>
  '(r, w) ← c w;
  Some (match r with Panic => Panic | _ => Ok tt end, w).

(** ** The state file *)

Definition AgentState_load (state_dir : string) (h : host) : res anyhow (option AgentState) :=
  let path := state_file state_dir in
  if negb (file_exists path h) then Ok None
  else
    match file_read (m_read_fault m) path h with
    | inl k => Err (AForeign (IoError k))
    | inr text => state ← ok_or (AForeign JsonError) (from_json text); Ok (Some state)
    end.

Definition AgentState_save (state_dir : string) (self : AgentState) : AM unit := fun w =>
  let '(mkdir, written) := m_save m (w_saves w) in
  match mkdir with
  | inl k => Some (Err (AForeign (IoError k)),
      mkWorld (w_backend w) (w_server w) (w_host w) (w_dns w) (w_last w) (S (w_saves w)) (w_out w))
  | inr _ =>
      let '(r, h) := file_write written (state_file state_dir) (to_json self) (w_host w) in
      Some (match r with inr _ => Ok tt | inl k => Err (AForeign (IoError k)) end,
        mkWorld (w_backend w) (w_server w) h (w_dns w) (w_last w) (S (w_saves w)) (w_out w))
  end.

Definition save_dns_snapshot (state_dir : string) (state : AgentState) (dns_records : list DnsRecord) : AM unit :=
  AgentState_save state_dir (set_dns_snapshot state dns_records).

(** ** Registration *)

Definition ensure_backend_credentials (state : AgentState) : AM AgentState :=
  if is_empty (as_backend_public_credential state) || bool_decide (as_device_id state = None) then
    credential ← on_backend nb_ensure_credentials;
    mret (set_credential state (bc_public credential))
  else mret state.

Definition register_request (login_key : string) (state : AgentState) : RegisterDeviceRequest :=
  mkRegisterDeviceRequest login_key (hostname (m_hostname m) (m_hostname_output m)) (as_machine_key state)
    "tfscale" (as_backend_public_credential state) (OS (m_os m)) (m_arch m) CARGO_PKG_VERSION.

(** [.error_for_status()?.json().await?] *)
Definition read_json {A} (read : Body -> option A) (response : HttpResponse) : AM A :=
  of_res (map_err AHttp (response ← error_for_status response; json read response)).

Definition register_agent_if_needed (state_dir control_url login_key : string) (state : AgentState)
    : AM AgentState :=
  if bool_decide (is_Some (as_device_id state)) then mret state
  else
    response ← send (mkHttpRequest POST (control_url +:+ "/v1/agent/register") []
      (RegisterDeviceRequestBody (register_request login_key state)));
    response ← read_json as_register response;
    let state := set_registration state response in
    _ ← AgentState_save state_dir state;
    mret state.

(** ** Heartbeat *)

Definition agent_probe_public_endpoint (control_url device_id node_key : string) : AM (option EndpointPayload) :=
  response ← send (mkHttpRequest POST (control_url +:+ "/v1/agent/endpoint-probe") []
    (EndpointProbeRequestBody (mkEndpointProbeRequest device_id node_key "udp")));
  response ← read_json as_probe response;
  server ← of_res (udp_probe_server response);
  match server with
  | Some probe_server =>
      probe ← on_backend (nb_probe_public_endpoint probe_server (from_secs 1));
      match probe with
      | Some p => mret (Some (endpoint_from_backend_probe (observed_endpoint p)))
      | None => mret (endpoint_from_probe_response response)
      end
  | None => mret (endpoint_from_probe_response response)
  end.

(** A probe that fails is only logged. *)
Definition discovered_endpoints (control_url device_id node_key : string) (endpoints : list EndpointPayload)
    : AM (list EndpointPayload) := fun w =>
  '(r, w) ← agent_probe_public_endpoint control_url device_id node_key w;
  Some (match r with
        | Ok (Some endpoint) => Ok (endpoints ++ [endpoint])
        | Ok None => Ok endpoints
        | Err _ => Ok endpoints
        | Panic => Panic
        end, w).

Definition send_heartbeat (control_url : string) (state : AgentState) : AM unit :=
  '(device_id, node_key) ← of_res (device_credentials state);
  status ← on_backend nb_status;
  local ← on_backend nb_local_endpoints;
  endpoints ← discovered_endpoints control_url device_id node_key (map endpoint_to_payload local);
  response ← send (mkHttpRequest POST (control_url +:+ "/v1/agent/heartbeat") []
    (HeartbeatRequestBody (mkHeartbeatRequest device_id node_key endpoints
      (mkBackendStatusPayload (BackendType_as_str (bs_backend_type status)) (bs_interface_name status)
         (bs_healthy status)))));
  _ ← of_res (map_err AHttp (error_for_status response));
  mret tt.

(** ** The network map *)

Definition fetch_network_map (control_url : string) (state : AgentState) : AM NetworkMapResponse :=
  '(device_id, node_key) ← of_res (device_credentials state);
  response ← send (mkHttpRequest GET (control_url +:+ "/v1/agent/network-map")
    [("device_id", device_id); ("node_key", node_key)] NoBody);
  read_json as_network_map response.

Definition apply_network_map_to_backend (state : AgentState) (map : NetworkMapResponse) : AM unit :=
  config ← of_res (local_config_of state);
  _ ← on_backend (nb_apply_local_config config);
  _ ← on_backend (nb_apply_relay_map (network_map_to_relay_configs (nm_relays map)));
  peers ← of_res (network_map_to_peer_configs (nm_peers map));
  on_backend (nb_apply_peer_map peers).

Definition apply_network_map_if_changed (state_dir : string) (state : AgentState) (map : NetworkMapResponse)
    : AM unit := fun w =>
  if bool_decide (w_last w = Some (nm_network_map_version map)) then Some (Ok tt, w)
  else
    (_ ← apply_network_map_to_backend state map;
     _ ← save_dns_snapshot state_dir state (nm_dns_records map);
     _ ← set_dns_records (nm_dns_records map);
     set_last (nm_network_map_version map)) w.

Definition apply_network_map_and_maintain_paths (state_dir : string) (state : AgentState)
    (map : NetworkMapResponse) : AM unit :=
  _ ← apply_network_map_if_changed state_dir state map;
  _ ← on_backend nb_maintain_peer_paths;
  mret tt.

Definition sync_agent_once (state_dir control_url : string) (state : AgentState) : AM unit :=
  _ ← send_heartbeat control_url state;
  map ← fetch_network_map control_url state;
  apply_network_map_and_maintain_paths state_dir state map.

(** ** The loop *)

Fixpoint agent_loop (state_dir control_url : string) (state : AgentState) (turns : list loop_turn)
    (t : timers) (clock : Z) : AM loop_end :=
  match turns with
  | [] => mret StillRunning
  | ShutdownRequested :: _ => _ ← on_backend nb_shutdown; mret LoopStopped
  | Wake busy late :: turns =>
      let now := wake_time t clock busy late in
      '(tick, t) ← of_res (next_agent_loop_tick now (sync_interval_of state) t);
      _ ← (if tick_sync tick then attempt (sync_agent_once state_dir control_url state) else mret tt);
      _ ← (if tick_maintain_paths tick then attempt (on_backend nb_maintain_peer_paths) else mret tt);
      agent_loop state_dir control_url state turns t now
  end.

(** [start] is the instant at which the loop starts. *)
Definition run_agent_loop (state_dir control_url : string) (state : AgentState) (start : Z)
    (turns : list loop_turn) : AM loop_end :=
  t ← of_res (initial_timers start (sync_interval_of state));
  agent_loop state_dir control_url state turns t start.

(** ** [agent up] *)

(** Loading the state, making the DNS runtime and starting the DNS proxy. *)
Definition dns_started (dns_listen : SocketAddr) (state : AgentState) : AgentState :=
  match m_dns_bind m with
  | inr _ => set_dns_status state (socket_addr_to_string dns_listen) true "DNS proxy listening"
  | inl k => set_dns_status state (socket_addr_to_string dns_listen) false
               ("DNS proxy failed to bind: " +:+ display (MForeign EmptyString (IoError k)))
  end.

Definition start_dns (rs : list DnsRecord) : AM unit := fun w =>
  Some (Ok tt, mkWorld (w_backend w) (w_server w) (w_host w) (DnsRuntime_new rs) (w_last w) (w_saves w) (w_out w)).

Definition agent_up (state_dir control_url login_key : string) (dns_listen : SocketAddr) (start : Z)
    (turns : list loop_turn) : AM (AgentState * loop_end) := fun w =>
  (loaded ← of_res (AgentState_load state_dir (w_host w));
   let state := default (AgentState_new (m_uuid m)) loaded in
   _ ← start_dns (as_dns_records state);
   let state := dns_started dns_listen state in
   state ← ensure_backend_credentials state;
   _ ← AgentState_save state_dir state;
   state ← register_agent_if_needed state_dir control_url login_key state;
   _ ← println ("agent registered: device=" +:+ default "-" (as_device_id state) +:+ " ipv4=" +:+
                default "-" (as_ipv4 state) +:+ " network=" +:+ default "-" (as_network_id state));
   _ ← sync_agent_once state_dir control_url state;
   e ← run_agent_loop state_dir control_url state start turns;
   mret (state, e))
  (mkWorld (w_backend w) (w_server w) (w_host w) (w_dns w) None (w_saves w) (w_out w)).

End agent.

#[export] Existing Instances AM_ret AM_bind.
