(* ===== verification/AgentProps.v ===== *)
(** * Properties of the agent

    Synchronisation against the backend contract, the conversions of endpoints, the
    timing and the liveness of the loop, the state file. *)

From Stdlib Require Import ZArith Lia.
From stdpp Require Import prelude list strings gmap.
From S2P Require Import Prelude RustStd RustText Protocol Platform Http SystemFiles Dns NetBackend Agent.

(** ** The monad *)

Section monad.
Context {B Srv : Type}.

Lemma AM_bind_Some {A A'} (c : AM (B := B) (Srv := Srv) A) (f : A -> AM A') w r w' :
  (c ≫= f) w = Some (r, w') ->
  exists r1 w1, c w = Some (r1, w1) /\
    match r1 with
    | Ok a => f a w1 = Some (r, w')
    | Err e => r = Err e /\ w' = w1
    | Panic => r = Panic /\ w' = w1
    end.
Proof.
  unfold mbind, AM_bind. destruct (c w) as [[r1 w1]|]; [|done]. cbn [mbind option_bind]. intros H.
  exists r1, w1. split; [done|]. destruct r1; [done|by injection H as <- <-..].
Qed.

Lemma AM_bind_Ok {A A'} (c : AM (B := B) (Srv := Srv) A) (f : A -> AM A') w a' w' :
  (c ≫= f) w = Some (Ok a', w') -> exists a w1, c w = Some (Ok a, w1) /\ f a w1 = Some (Ok a', w').
Proof. intros (r1 & w1 & Hc & Hf)%AM_bind_Some. destruct r1 as [a|e|]; [by eauto|by destruct Hf..]. Qed.

Lemma AM_bind_run {A A'} (c : AM (B := B) (Srv := Srv) A) (f : A -> AM A') w a w1 :
  c w = Some (Ok a, w1) -> (c ≫= f) w = f a w1.
Proof. unfold mbind, AM_bind. by intros ->. Qed.

Lemma AM_bind_None {A A'} (c : AM (B := B) (Srv := Srv) A) (f : A -> AM A') w : c w = None -> (c ≫= f) w = None.
Proof. unfold mbind, AM_bind. by intros ->. Qed.

Lemma AM_bind_answers {A A'} (c : AM (B := B) (Srv := Srv) A) (f : A -> AM A') w :
  answers (c w) -> (forall a w1, c w = Some (Ok a, w1) -> answers (f a w1)) -> answers ((c ≫= f) w).
Proof.
  intros (r & w1 & Hc & Hr) Hf. unfold mbind, AM_bind. rewrite Hc. cbn [mbind option_bind].
  destruct r as [a|e|]; [by apply Hf|by eexists _, _|done].
Qed.

Lemma of_res_answers {A} (r : res anyhow A) (w : world B Srv) : r <> Panic -> answers (of_res r w).
Proof. intros Hr. by eexists _, _. Qed.

Lemma on_backend_answers {A} (f : call B BackendError A) (w : world B Srv) :
  answers (f (w_backend w)) -> answers (on_backend f w).
Proof.
  intros (r & b & Hf & Hr). unfold on_backend. rewrite Hf. eexists _, _. split; [done|]. by destruct r.
Qed.

End monad.

(** Splits a successful computation into its steps. *)
Ltac agent_steps :=
  repeat match goal with
  | H : mbind _ _ _ = Some (Ok _, _) |- _ =>
      let a := fresh "a" in let w := fresh "w" in let H1 := fresh "Hs" in
      apply AM_bind_Ok in H as (a & w & H1 & H)
  | H : mret _ _ = Some (Ok _, _) |- _ => injection H as H; subst
  | H : of_res _ _ = Some (Ok _, _) |- _ => injection H as H; subst
  end.

Lemma on_backend_Ok {B Srv A} (f : call B BackendError A) (w : world B Srv) a w' :
  on_backend f w = Some (Ok a, w') ->
  exists b, f (w_backend w) = Some (Ok a, b) /\
    w' = mkWorld b (w_server w) (w_host w) (w_dns w) (w_last w) (w_saves w) (w_out w).
Proof.
  unfold on_backend. destruct (f (w_backend w)) as [[r b]|]; [|done]. cbn [mbind option_bind].
  destruct r as [x| |]; cbn [map_err]; [|done..]. intros [= <- <-]. by exists b.
Qed.

(** ** Synchronisation *)

Section sync.
Context {B Srv : Type} `{NB : NetworkBackend B} `{HS : HttpServer Srv}.
Context (to_json : AgentState -> string) (m : machine).

Lemma AgentState_save_Ok sd st (w w' : world B Srv) :
  AgentState_save to_json m sd st w = Some (Ok tt, w') ->
  files (w_host w') = <[state_file sd := to_json st]> (files (w_host w)) /\
  w_backend w' = w_backend w /\ w_last w' = w_last w /\ w_dns w' = w_dns w.
Proof.
  unfold AgentState_save. destruct (m_save m (w_saves w)) as [[k|[]] a]; [done|].
  destruct a; cbn [file_write]; intros [= <-]; split_and!; done.
Qed.

(** Whatever happens in between, the operations on the backend leave the version and
    the DNS records alone. *)
Definition keeps {A} (c : AM A) : Prop :=
  forall (w : world B Srv) r w', c w = Some (r, w') -> w_last w' = w_last w /\ w_dns w' = w_dns w.

Lemma keeps_bind {A A'} (c : AM A) (f : A -> AM A') : keeps c -> (forall a, keeps (f a)) -> keeps (c ≫= f).
Proof.
  intros Hc Hf w r w' (r1 & w1 & H1 & H2)%AM_bind_Some. destruct (Hc _ _ _ H1) as [<- <-].
  destruct r1 as [a|e|]; [by apply (Hf a) in H2|by destruct H2 as [_ ->]..].
Qed.
Lemma keeps_of_res {A} (r : res anyhow A) : keeps (of_res r).
Proof. by intros w r' w' [= _ <-]. Qed.
Lemma keeps_on_backend {A} (f : call B BackendError A) : keeps (on_backend f).
Proof. intros w r w'. unfold on_backend. destruct (f _) as [[? ?]|]; [|done]. by intros [= _ <-]. Qed.
Lemma keeps_save sd st : keeps (AgentState_save to_json m sd st).
Proof.
  intros w r w'. unfold AgentState_save. destruct (m_save m (w_saves w)) as [[k|[]] a]; [by intros [= _ <-]|].
  destruct (file_write _ _ _ _) as [r' h]. by intros [= _ <-].
Qed.
Lemma keeps_send q : keeps (send q).
Proof. intros w r w'. unfold send. destruct (http_send _ _) as [[? ?]|]; [|done]. by intros [= _ <-]. Qed.

Lemma keeps_apply_map st map : keeps (apply_network_map_to_backend st map).
Proof.
  unfold apply_network_map_to_backend.
  repeat (apply keeps_bind; [first [apply keeps_of_res|apply keeps_on_backend]|intros ?]).
  apply keeps_on_backend.
Qed.

Context `{!BackendContract B}.

Lemma apply_map_Ok st map (w w' : world B Srv) :
  apply_network_map_to_backend st map w = Some (Ok tt, w') ->
  exists config peers, local_config_of st = Ok config /\ network_map_to_peer_configs (nm_peers map) = Ok peers /\
    view_config (w_backend w') = Some config /\ view_peers (w_backend w') = peers.
Proof.
  intros H. unfold apply_network_map_to_backend in H. agent_steps.
  apply on_backend_Ok in Hs0 as (b1 & H1 & ->). apply on_backend_Ok in Hs1 as (b2 & H2 & ->).
  apply on_backend_Ok in H as (b3 & H3 & ->). cbn [w_backend] in *. destruct a0, a1.
  destruct (contract_local_config _ _ _ H1) as [C1 _]. destruct (contract_relay_map _ _ _ H2) as [C2 _].
  destruct (contract_peer_map _ _ _ H3) as [C3 P3].
  exists a, a2. split_and!; congruence.
Qed.

(** The state of the world when the map [map] has been applied. *)
Definition applied (sd : string) (st : AgentState) (map : NetworkMapResponse) (w : world B Srv) : Prop :=
  exists config peers, local_config_of st = Ok config /\
    network_map_to_peer_configs (nm_peers map) = Ok peers /\
    view_config (w_backend w) = Some config /\ view_peers (w_backend w) = peers /\
    records (w_dns w) = nm_dns_records map /\
    files (w_host w) !! state_file sd = Some (to_json (set_dns_snapshot st (nm_dns_records map))).

Lemma apply_if_changed_Ok sd st map (w w' : world B Srv) :
  apply_network_map_if_changed to_json m sd st map w = Some (Ok tt, w') ->
  w_last w' = Some (nm_network_map_version map) /\
  if decide (w_last w = Some (nm_network_map_version map)) then w' = w else applied sd st map w'.
Proof.
  unfold apply_network_map_if_changed. destruct (decide _) as [Hd|Hd].
  - rewrite bool_decide_eq_true_2 by done. by intros [= <-].
  - rewrite bool_decide_eq_false_2 by done. intros H. agent_steps. destruct a, a0, a1.
    destruct (apply_map_Ok _ _ _ _ Hs) as (config & peers & Hc & Hp & Vc & Vp).
    apply AgentState_save_Ok in Hs0 as (Hf & Hb & _ & _). injection Hs1 as <-. injection H as <-.
    cbn [w_last]. split; [done|]. exists config, peers. cbn [w_backend w_dns w_host records set_records].
    rewrite Hb, Hf, lookup_insert_eq. done.
Qed.

(** The version changes only after the map was applied. *)
Lemma apply_if_changed_last sd st map (w w' : world B Srv) r :
  apply_network_map_if_changed to_json m sd st map w = Some (r, w') ->
  w_last w' = w_last w /\ w_dns w' = w_dns w \/
  r = Ok tt /\ (exists w3, apply_network_map_to_backend st map w = Some (Ok tt, w3)) /\
  w_last w' = Some (nm_network_map_version map).
Proof.
  unfold apply_network_map_if_changed. case_bool_decide; [intros [= _ <-]; by left|].
  intros (r1 & w1 & H1 & Hr1)%AM_bind_Some. pose proof (keeps_apply_map _ _ _ _ _ H1) as [K1 D1].
  destruct r1 as [[]|e|]; [|destruct Hr1 as [_ ->]; by left..].
  apply AM_bind_Some in Hr1 as (r2 & w2 & H2 & Hr2). pose proof (keeps_save _ _ _ _ _ H2) as [K2 D2].
  destruct r2 as [[]|e|]; [|destruct Hr2 as [_ ->]; left; split; congruence..].
  right. injection Hr2 as <- <-. split; [done|]. split; [by exists w1|done].
Qed.

Lemma keeps_heartbeat url st : keeps (send_heartbeat url st).
Proof.
  unfold send_heartbeat. apply keeps_bind; [apply keeps_of_res|intros [device_id node_key]].
  do 2 (apply keeps_bind; [apply keeps_on_backend|intros ?]). apply keeps_bind.
  - assert (keeps (agent_probe_public_endpoint url device_id node_key)) as Hk.
    { unfold agent_probe_public_endpoint. apply keeps_bind; [apply keeps_send|intros ?].
      do 2 (apply keeps_bind; [apply keeps_of_res|intros ?]). case_match; [|by intros ? ? ? [= _ <-]].
      apply keeps_bind; [apply keeps_on_backend|intros [?|]]; by intros ? ? ? [= _ <-]. }
    intros w r w'. unfold discovered_endpoints.
    destruct (agent_probe_public_endpoint _ _ _ _) as [[r1 w1]|] eqn:E; [|done]. cbn [mbind option_bind].
    intros [= _ <-]. exact (Hk _ _ _ E).
  - intros ?. apply keeps_bind; [apply keeps_send|intros ?].
    apply keeps_bind; [apply keeps_of_res|intros ?]. by intros ? ? ? [= _ <-].
Qed.

Lemma keeps_fetch url st : keeps (fetch_network_map url st).
Proof.
  unfold fetch_network_map. apply keeps_bind; [apply keeps_of_res|intros [? ?]].
  apply keeps_bind; [apply keeps_send|intros ?]. apply keeps_of_res.
Qed.

(** A synchronisation that succeeds: the heartbeat, the map, and what becomes of it. *)
Lemma sync_Ok sd url st (w w' : world B Srv) :
  sync_agent_once to_json m sd url st w = Some (Ok tt, w') ->
  exists w1 w2 map,
    send_heartbeat url st w = Some (Ok tt, w1) /\ fetch_network_map url st w1 = Some (Ok map, w2) /\
    w_last w' = Some (nm_network_map_version map) /\
    if decide (w_last w = Some (nm_network_map_version map)) then
      view_config (w_backend w') = view_config (w_backend w2) /\
      view_peers (w_backend w') = view_peers (w_backend w2) /\
      w_dns w' = w_dns w /\ w_host w' = w_host w2
    else applied sd st map w'.
Proof.
  intros Hs. unfold sync_agent_once, apply_network_map_and_maintain_paths in Hs. agent_steps. destruct a, a1, a2.
  destruct (keeps_heartbeat _ _ _ _ _ Hs0) as [K1 D1]. destruct (keeps_fetch _ _ _ _ _ Hs1) as [K2 D2].
  destruct (apply_if_changed_Ok _ _ _ _ _ Hs2) as [Hl Ha].
  apply on_backend_Ok in Hs3 as (b & Hm & ->). destruct (contract_maintain _ _ Hm) as [Vc Vp].
  exists w0, w1, a0. cbn [w_last]. split_and!; [done..|]. rewrite K2, K1 in Ha. destruct (decide _).
  - subst w2. cbn [w_backend w_dns w_host]. split_and!; [done..| |done]. congruence.
  - destruct Ha as (config & peers & Hc & Hp & Hvc & Hvp & Hrest). exists config, peers.
    cbn [w_backend w_dns w_host]. rewrite Vc, Vp. done.
Qed.

(** A synchronisation, whatever becomes of it. *)
Lemma sync_trace sd url st (w w' : world B Srv) r :
  sync_agent_once to_json m sd url st w = Some (r, w') ->
  w_last w' = w_last w /\ w_dns w' = w_dns w \/
  exists map w1 w2 w3, send_heartbeat url st w = Some (Ok tt, w1) /\ fetch_network_map url st w1 = Some (Ok map, w2) /\
    apply_network_map_to_backend st map w2 = Some (Ok tt, w3) /\ w_last w' = Some (nm_network_map_version map).
Proof.
  intros Hs. unfold sync_agent_once in Hs.
  apply AM_bind_Some in Hs as (r1 & w1 & H1 & Hr1). destruct (keeps_heartbeat _ _ _ _ _ H1) as [K1 D1].
  destruct r1 as [[]|e|]; [|destruct Hr1 as [_ ->]; by left..].
  apply AM_bind_Some in Hr1 as (r2 & w2 & H2 & Hr2). destruct (keeps_fetch _ _ _ _ _ H2) as [K2 D2].
  destruct r2 as [map|e|]; [|destruct Hr2 as [_ ->]; left; split; congruence..].
  unfold apply_network_map_and_maintain_paths in Hr2.
  apply AM_bind_Some in Hr2 as (r3 & w3 & H3 & Hr3).
  assert (w_last w' = w_last w3 /\ w_dns w' = w_dns w3) as [-> ->].
  { destruct r3 as [[]|e|]; [|by destruct Hr3 as [_ ->]..].
    apply AM_bind_Some in Hr3 as (r4 & w4 & H4 & Hr4). destruct (keeps_on_backend _ _ _ _ H4) as [<- <-].
    destruct r4; [by injection Hr4 as _ <-|by destruct Hr4 as [_ ->]..]. }
  destruct (apply_if_changed_last _ _ _ _ _ _ H3) as [[K3 D3]|(_ & [w4 H4] & Hl)].
  - left. split; congruence.
  - right. by exists map, w1, w2, w4.
Qed.

(** After a synchronisation that succeeds, a version is remembered. *)
Lemma sync_Ok_last sd url st (w w' : world B Srv) :
  sync_agent_once to_json m sd url st w = Some (Ok tt, w') -> is_Some (w_last w').
Proof.
  unfold sync_agent_once, apply_network_map_and_maintain_paths. intros Hs. agent_steps.
  destruct (keeps_on_backend _ _ _ _ Hs3) as [-> _]. unfold apply_network_map_if_changed in Hs2.
  case_bool_decide as Hv; [injection Hs2 as _ <-; by eexists|]. agent_steps. injection Hs2 as _ <-. by eexists.
Qed.

End sync.

(** C5: a synchronisation that succeeds leaves the backend as the network map says.
    The map is the one that the control plane answers after the heartbeat.  If its
    version is new, then the backend has the device's own configuration and exactly
    the peers of the map, the DNS proxy and the state file have the records of the
    map, and the version is remembered; if not, configuration, peers, records and
    files stay as they are.  A synchronisation, even one that fails, remembers a
    version only if the map of that version was applied, so that a map that could
    not be applied is tried again. *)
Theorem sync_converges {B Srv} `{NetworkBackend B, !BackendContract B, HttpServer Srv} to_json m sd url st
    (w w' : world B Srv) r :
  sync_agent_once to_json m sd url st w = Some (r, w') ->
  (r = Ok tt -> exists w1 w2 map,
    send_heartbeat url st w = Some (Ok tt, w1) /\ fetch_network_map url st w1 = Some (Ok map, w2) /\
    w_last w' = Some (nm_network_map_version map) /\
    if decide (w_last w = Some (nm_network_map_version map)) then
      view_config (w_backend w') = view_config (w_backend w2) /\
      view_peers (w_backend w') = view_peers (w_backend w2) /\
      w_dns w' = w_dns w /\ w_host w' = w_host w2
    else applied to_json sd st map w') /\
  (w_last w' = w_last w /\ w_dns w' = w_dns w \/
   exists map (w1 w2 w3 : world B Srv), fetch_network_map url st w1 = Some (Ok map, w2) /\
    apply_network_map_to_backend st map w2 = Some (Ok tt, w3) /\ w_last w' = Some (nm_network_map_version map)).
Proof.
  intros Hs. split; [intros ->; by eapply sync_Ok|].
  destruct (sync_trace _ _ _ _ _ _ _ _ Hs) as [?|(map & w1 & w2 & w3 & _ & H2 & H3 & Hl)]; [by left|].
  right. by exists map, w1, w2, w3.
Qed.

(** A server that answers with a list of responses, in order, and then not at all. *)
Definition scripted : Type := list (unit + HttpResponse).
#[export] Instance scripted_server : HttpServer scripted := fun _ s =>
  match s with r :: s => Some (r, s) | [] => None end.

Definition toy_machine : machine :=
  mkMachine OsLinux "x86_64" (Some "laptop") None "0192" None (fun _ => (inr tt, Written)) (inr tt).
Definition toy_json (s : AgentState) : string := "state of " +:+ as_machine_key s.
Definition toy_state : AgentState :=
  mkAgentState "machine_0192" "tfpk_a" (Some "dev_a") (Some "nk_a") (Some "net_default") (Some "100.64.0.1") 5 []
    true DEFAULT_DNS_LISTEN true None.
Definition toy_map : NetworkMapResponse :=
  mkNetworkMapResponse 7 (mkNetworkMapSelf "dev_a" "laptop" "100.64.0.1" "tfscale")
    [mkNetworkMapPeer "dev_b" "desktop" "100.64.0.2" "tfscale" "tfpk_b"
       [mkEndpointPayload "ipv6" "2001:db8::1" 51820 "udp" None None None] []]
    [mkDnsRecord "dev_b" "desktop.mesh" "A" "100.64.0.2"] [].
Definition toy_script : scripted :=
  [inr (mkHttpResponse 500 (ErrorBody (MText "no probe")));
   inr (mkHttpResponse 200 (HeartbeatResponseBody (mkHeartbeatResponse true 7)));
   inr (mkHttpResponse 200 (NetworkMapResponseBody toy_map))].
Definition toy_world : world MockBackend scripted :=
  mkWorld (MockBackend_new "tfpk_a") toy_script empty_host (DnsRuntime_new []) None 0 [].

Definition toy_synced : world MockBackend scripted :=
  match sync_agent_once toy_json toy_machine "/s" "http://c" toy_state toy_world with
  | Some (_, w) => w
  | None => toy_world
  end.

Lemma sync_converges_witness :
  sync_agent_once toy_json toy_machine "/s" "http://c" toy_state toy_world = Some (Ok tt, toy_synced) /\
  applied toy_json "/s" toy_state toy_map toy_synced.
Proof.
  assert (E : sync_agent_once toy_json toy_machine "/s" "http://c" toy_state toy_world = Some (Ok tt, toy_synced))
    by (vm_compute; reflexivity).
  split; [exact E|].
  destruct (sync_converges toy_json toy_machine "/s" "http://c" toy_state toy_world _ _ E) as [H _].
  destruct (H eq_refl) as (w1 & w2 & map & Hh & Hf & _ & Ha).
  vm_compute in Hh. injection Hh as <-. vm_compute in Hf. injection Hf as <- <-. exact Ha.
Defined.

(** ** Endpoints *)

Lemma endpoint_kind_roundtrip k : parse_endpoint_kind (endpoint_kind_to_payload k) = Ok k.
Proof. by destruct k. Qed.
Lemma transport_protocol_roundtrip p : parse_transport_protocol (transport_protocol_to_payload p) = Ok p.
Proof. by destruct p. Qed.

(** What one agent reports of its endpoints is what another agent reads: an
    endpoint written for a heartbeat, from the local interfaces or from a probe,
    comes back with its kind, address (IPv4 or IPv6), port and protocol, whatever
    its other fields become on the way. *)
Theorem endpoint_payload_roundtrip e source priority expires :
  Ip_wf (ep_address e) ->
  let sent p := mkEndpointPayload (epp_kind p) (epp_address p) (epp_port p) (epp_protocol p)
                  source priority expires in
  endpoint_to_config (sent (endpoint_to_payload e)) = Ok e /\
  endpoint_to_config (sent (endpoint_from_backend_probe e)) = Ok e.
Proof.
  intros Hw sent. unfold endpoint_to_config, sent, endpoint_to_payload, endpoint_from_backend_probe.
  cbn [epp_kind epp_address epp_port epp_protocol].
  rewrite endpoint_kind_roundtrip, transport_protocol_roundtrip, parse_ip_to_string by done. by destruct e.
Qed.

Lemma endpoint_payload_roundtrip_witness :
  let e := mkEndpoint Ipv6Kind (V6 [8193; 3512; 0; 0; 0; 0; 0; 1]%Z) 51820 Udp in
  Ip_wf (ep_address e) /\ endpoint_to_config (endpoint_to_payload e) = Ok e.
Proof.
  intros e. assert (Hw : Ip_wf (ep_address e)).
  { split; [reflexivity|]. rewrite ?Forall_cons. split_and!; try done; by apply Forall_nil. }
  split; [exact Hw|].
  exact (proj1 (endpoint_payload_roundtrip e (Some "local") (Some 100%Z) None Hw)).
Defined.

(** ** A map that cannot be read *)

Lemma collect_res_Err {E A A'} (f : A -> res E A') l x e :
  x ∈ l -> f x = Err e -> (forall y, y ∈ l -> f y <> Panic) -> exists e', collect_res f l = Err e'.
Proof.
  induction l as [|y l IH]; intros Hx Hf Hp; [by apply not_elem_of_nil in Hx|]. simpl.
  destruct (f y) as [z|e'|] eqn:Ey; [|by exists e'|by destruct (Hp y (list_elem_of_here _ _))].
  apply elem_of_cons in Hx as [-> |Hx]; [congruence|].
  destruct (IH Hx Hf) as [e' ->]; [|by exists e']. intros k Hk. apply Hp. by apply list_elem_of_further.
Qed.

Lemma endpoint_to_config_no_panic e : endpoint_to_config e <> Panic.
Proof.
  unfold endpoint_to_config, parse_endpoint_kind, parse_transport_protocol, ok_or, mbind, res_bind.
  repeat case_match; congruence.
Qed.

Lemma peer_to_config_no_panic p : peer_to_config p <> Panic.
Proof.
  unfold peer_to_config. destruct (parse_ipv4 _); [|done]. cbn [ok_or mbind res_bind].
  destruct (collect_res _ _) eqn:E; [done..|]. by apply collect_res_no_panic in E;
    [|apply Forall_forall; intros; apply endpoint_to_config_no_panic].
Qed.

Lemma bad_endpoint_bad_map peers p e err :
  p ∈ peers -> e ∈ nmp_endpoints p -> endpoint_to_config e = Err err ->
  exists err', network_map_to_peer_configs peers = Err err'.
Proof.
  intros Hp He Hbad.
  destruct (collect_res_Err endpoint_to_config (nmp_endpoints p) e err) as [e1 H1];
    [done..|intros; apply endpoint_to_config_no_panic|].
  assert (exists e2, peer_to_config p = Err e2) as [e2 H2].
  { unfold peer_to_config. destruct (parse_ipv4 _); [|by eexists]. cbn [ok_or mbind res_bind].
    rewrite H1. by eexists. }
  apply (collect_res_Err peer_to_config peers p e2 Hp H2). intros. apply peer_to_config_no_panic.
Qed.

(** ** The state file *)

(** A save that is broken off makes the state unusable.  The state is written over
    the old file; if the write stops in the middle and what is there is not a whole
    JSON text, then every later load fails, and every later [agent_up] fails at once,
    without a request to the control plane, until somebody removes the file. *)
Theorem torn_state_is_fatal {B Srv} `{NetworkBackend B, HttpServer Srv} to_json from_json display m sd st
    (w : world B Srv) k n :
  m_save m (w_saves w) = (inr tt, Torn k n) -> from_json (of_bytes (take n (as_bytes (to_json st)))) = None ->
  exists w', AgentState_save to_json m sd st w = Some (Err (AForeign (IoError k)), w') /\
    forall m' url login listen start turns (w2 : world B Srv),
      m_read_fault m' = None -> files (w_host w2) = files (w_host w') ->
      AgentState_load from_json m' sd (w_host w2) = Err (AForeign JsonError) /\
      exists w3, agent_up to_json from_json display m' sd url login listen start turns w2 =
          Some (Err (AForeign JsonError), w3) /\
        w_server w3 = w_server w2 /\ files (w_host w3) = files (w_host w2).
Proof.
  intros Hsave Hjson. unfold AgentState_save. rewrite Hsave. cbn [file_write]. eexists. split; [done|].
  intros m' url login listen start turns w2 Hm Hf.
  assert (Hl : AgentState_load from_json m' sd (w_host w2) = Err (AForeign JsonError)).
  { unfold AgentState_load, file_exists, file_read. rewrite Hf. cbn [w_host put_file files].
    rewrite lookup_insert_eq, bool_decide_eq_true_2, Hm by done. cbn [negb]. by rewrite Hjson. }
  split; [done|]. unfold agent_up. rewrite Hl. eexists. split; [reflexivity|done].
Qed.

Lemma torn_state_is_fatal_witness :
  let m := mkMachine OsLinux "x86_64" None None "0192" None (fun _ => (inr tt, Torn OtherKind 3)) (inr tt) in
  exists w', AgentState_save toy_json m "/s" toy_state toy_world = Some (Err (AForeign (IoError OtherKind)), w') /\
    AgentState_load (fun t => if bool_decide (t = toy_json toy_state) then Some toy_state else None) toy_machine "/s"
      (w_host w') = Err (AForeign JsonError).
Proof.
  intros m.
  destruct (torn_state_is_fatal toy_json (fun t => if bool_decide (t = toy_json toy_state) then Some toy_state else None)
    (fun _ => EmptyString) m "/s" toy_state toy_world OtherKind 3) as (w' & Hs & H).
  - reflexivity.
  - vm_compute. reflexivity.
  - exists w'. split; [exact Hs|].
    exact (proj1 (H toy_machine EmptyString EmptyString (mkSocketAddr (V4 (Ipv4 0 0 0 0)) 0) 0%Z [] w' eq_refl eq_refl)).
Defined.
