(* ===== verification/AgentLoop.v ===== *)
(** * Timing and liveness of the agent's loop

    The wake-ups of [run_agent_loop] as a list of instants with what is done at each,
    the two periodic timers behind them, and the proof that the loop keeps running
    and keeps both periods, whatever the control plane and the backend answer. *)

From Stdlib Require Import ZArith Lia.
From stdpp Require Import prelude list strings gmap.
From S2P Require Import Prelude RustStd RustText Protocol Platform Http SystemFiles Dns NetBackend Agent AgentProps.

(** ** Periodic timers *)

(** A timer that is due at [due], seen at a list of instants: it fires where it is
    due, and is due again a period later. *)
Fixpoint timer_run (period due : Z) (l : list (Z * bool)) : Prop :=
  match l with
  | [] => True
  | (now, fired) :: l =>
      fired = (due <=? now)%Z /\ timer_run period (if fired then now + period else due)%Z l
  end.

(** Two firings are at least a period apart, and within every stretch of a period
    there is one. *)
Definition periodic (period : Z) (l : list (Z * bool)) : Prop :=
  (forall i j ni nj, (i < j)%nat -> l !! i = Some (ni, true) -> l !! j = Some (nj, true) -> (ni + period <= nj)%Z) /\
  (forall i j ni bi nj bj, (i < j)%nat -> l !! i = Some (ni, bi) -> l !! j = Some (nj, bj) ->
     (ni + period <= nj)%Z -> exists k nk, (i < k <= j)%nat /\ l !! k = Some (nk, true)).

(** The instants do not decrease. *)
Fixpoint ascending (prev : Z) (l : list (Z * bool)) : Prop :=
  match l with [] => True | (now, _) :: l => (prev <= now)%Z /\ ascending now l end.

Lemma timer_fires_due period due l j nj :
  (0 <= period)%Z -> timer_run period due l -> l !! j = Some (nj, true) -> (due <= nj)%Z.
Proof.
  intros Hp. revert due l. induction j as [|j IH]; intros due l Hr Hj;
    (destruct l as [|[now fired] l]; [done|]); destruct Hr as [Hf Hr].
  - injection Hj as -> ->. symmetry in Hf. by to_prop.
  - cbn in Hj. specialize (IH _ _ Hr Hj). destruct fired; [|done]. symmetry in Hf. to_prop. lia.
Qed.

Lemma timer_due_fires period due l j nj bj :
  timer_run period due l -> l !! j = Some (nj, bj) -> (due <= nj)%Z ->
  exists k nk, (k <= j)%nat /\ l !! k = Some (nk, true).
Proof.
  revert due l. induction j as [|j IH]; intros due l Hr Hj Hd;
    (destruct l as [|[now fired] l]; [done|]); destruct Hr as [Hf Hr].
  - injection Hj as -> ->. exists 0%nat, nj. split; [lia|]. cbn. f_equal. f_equal. rewrite Hf. by apply Z.leb_le.
  - destruct fired; [exists 0%nat, now; split; [lia|done]|].
    destruct (IH _ _ Hr Hj Hd) as (k & nk & Hk & Hl). exists (S k), nk. split; [lia|done].
Qed.

Lemma timer_periodic period due s b l :
  (0 <= period)%Z -> (due <= s + period)%Z -> (b = true -> due = s + period)%Z ->
  timer_run period due l -> ascending s l -> periodic period ((s, b) :: l).
Proof.
  intros Hp. revert due s b. induction l as [|[now fired] l IH]; intros due s b Hd Hb Hr Ha.
  { split; intros [|i] [|j]; intros; (lia || done). }
  destruct Hr as [Hf Hr], Ha as [Hs Ha].
  assert (periodic period ((now, fired) :: l)) as [P1 P2].
  { apply (IH (if fired then now + period else due)%Z); [|by intros ->|done|done]. destruct fired; lia. }
  split.
  - intros [|i] [|j] ni nj Hij Hi Hj; [lia| |lia|apply (P1 i j); [lia|done|done]].
    injection Hi as -> ->. rewrite <- (Hb eq_refl).
    apply (timer_fires_due period due ((now, fired) :: l) j); [done|split; done|done].
  - intros [|i] [|j] ni bi nj bj Hij Hi Hj Hn; [lia| |lia|].
    + injection Hi as -> ->.
      destruct (timer_due_fires period due ((now, fired) :: l) j nj bj) as (k & nk & Hk & Hl);
        [split; done|done|lia|]. exists (S k), nk. split; [lia|done].
    + destruct (P2 i j ni bi nj bj) as (k & nk & Hk & Hl); [lia|done..|]. exists (S k), nk. split; [lia|done].
Qed.

(** ** The wake-ups *)

Fixpoint loop_ticks {E} (interval : Z) (turns : list loop_turn) (t : timers) (clock : Z)
    : res E (list (Z * AgentLoopTick)) :=
  match turns with
  | Wake busy late :: turns =>
      let now := wake_time t clock busy late in
      '(tick, t) ← next_agent_loop_tick now interval t;
      l ← loop_ticks interval turns t now;
      Ok ((now, tick) :: l)
  | _ => Ok []
  end.

Definition sync_times (l : list (Z * AgentLoopTick)) : list (Z * bool) := (fun '(n, t) => (n, tick_sync t)) <$> l.
Definition maintenance_times (l : list (Z * AgentLoopTick)) : list (Z * bool) :=
  (fun '(n, t) => (n, tick_maintain_paths t)) <$> l.

Definition wake_span (t : loop_turn) : Z :=
  match t with Wake busy late => (busy + late + DIRECT_PATH_MAINTENANCE_INTERVAL)%Z | ShutdownRequested => 0 end.
(** An upper bound of the time that the turns take. *)
Definition span (turns : list loop_turn) : Z := foldr (fun t s => (wake_span t + s)%Z) 0%Z turns.

Definition is_wake (t : loop_turn) : Prop :=
  match t with Wake busy late => (0 <= busy /\ 0 <= late)%Z | ShutdownRequested => False end.

Lemma span_cons t turns : span (t :: turns) = (wake_span t + span turns)%Z.
Proof. done. Qed.

Lemma span_nonneg turns : Forall is_wake turns -> (0 <= span turns)%Z.
Proof.
  induction 1 as [|[|b l] turns [] _ IH]; [done|]. rewrite span_cons. cbn [wake_span].
  unfold DIRECT_PATH_MAINTENANCE_INTERVAL. lia.
Qed.

(** The timers are ahead of the clock by at most their periods. *)
Definition timers_ok (interval clock : Z) (t : timers) : Prop :=
  (clock < next_sync_at t <= clock + interval)%Z /\
  (clock < next_path_maintenance_at t <= clock + DIRECT_PATH_MAINTENANCE_INTERVAL)%Z.

(** What a wake-up does with the timers, if the clock does not overflow. *)
Lemma tick_spec {E} interval clock t busy late :
  (DIRECT_PATH_MAINTENANCE_INTERVAL <= interval)%Z -> timers_ok interval clock t ->
  (0 <= busy)%Z -> (0 <= late)%Z ->
  (clock + wake_span (Wake busy late) + interval <= INSTANT_MAX)%Z ->
  let now := wake_time t clock busy late in
  exists tick t', @next_agent_loop_tick E now interval t = Ok (tick, t') /\ timers_ok interval now t' /\
    (clock < now <= clock + wake_span (Wake busy late))%Z /\
    tick_sync tick = (next_sync_at t <=? now)%Z /\
    tick_maintain_paths tick = (next_path_maintenance_at t <=? now)%Z /\
    tick_sync tick || tick_maintain_paths tick = true /\
    next_sync_at t' = (if tick_sync tick then now + interval else next_sync_at t)%Z /\
    next_path_maintenance_at t' =
      (if tick_maintain_paths tick then now + DIRECT_PATH_MAINTENANCE_INTERVAL else next_path_maintenance_at t)%Z.
Proof.
  intros Hi [Hs Hm] Hb Hl Hmax now.
  assert (Hp : (0 < DIRECT_PATH_MAINTENANCE_INTERVAL)%Z) by done.
  assert (Hnow : (now = Z.max (clock + busy) (Z.min (next_sync_at t) (next_path_maintenance_at t)) + late)%Z)
    by (unfold now, wake_time, agent_loop_sleep_duration; lia).
  unfold wake_span in *. unfold next_agent_loop_tick, instant_add.
  rewrite !(proj2 (Z.leb_le (now + _) INSTANT_MAX)) by lia.
  destruct (Z.leb_spec (next_sync_at t) now), (Z.leb_spec (next_path_maintenance_at t) now);
    cbn [mbind res_bind]; eexists _, _; (split; [reflexivity|]); unfold timers_ok;
    cbn [next_sync_at next_path_maintenance_at tick_sync tick_maintain_paths orb]; split_and!; (done || lia).
Qed.

Lemma loop_ticks_spec {E} interval turns clock t :
  (DIRECT_PATH_MAINTENANCE_INTERVAL <= interval)%Z -> timers_ok interval clock t -> Forall is_wake turns ->
  (clock + span turns + interval <= INSTANT_MAX)%Z ->
  exists l, @loop_ticks E interval turns t clock = Ok l /\ length l = length turns /\
    timer_run interval (next_sync_at t) (sync_times l) /\
    timer_run DIRECT_PATH_MAINTENANCE_INTERVAL (next_path_maintenance_at t) (maintenance_times l) /\
    ascending clock (sync_times l) /\ ascending clock (maintenance_times l) /\
    Forall (fun '(_, tick) => tick_sync tick || tick_maintain_paths tick = true) l /\
    forall i now tick, l !! i = Some (now, tick) -> (now <= clock + span (take (S i) turns))%Z.
Proof.
  intros Hi. revert clock t. induction turns as [|[|busy late] turns IH]; intros clock t Ht Hw Hmax.
  { exists []. split_and!; try done; by constructor. }
  { apply Forall_cons in Hw as [[] _]. }
  apply Forall_cons in Hw as [[Hb Hl] Hw]. rewrite span_cons in Hmax.
  pose proof (span_nonneg turns Hw) as Hspan.
  destruct (@tick_spec E interval clock t busy late Hi Ht Hb Hl) as
    (tick & t' & Htick & Ht' & Hnow & Hs & Hm & Hor & Hns & Hnm); [lia|].
  destruct (IH (wake_time t clock busy late) t' Ht' Hw) as (l & El & Hlen & R1 & R2 & A1 & A2 & F & T); [lia|].
  exists ((wake_time t clock busy late, tick) :: l). cbn [loop_ticks]. rewrite Htick. cbn [mbind res_bind].
  rewrite El. cbn [mbind res_bind]. rewrite Hns in R1. rewrite Hnm in R2.
  split_and!; try done; try (by cbn; f_equal); try (cbn; split; [lia|done]); try (by constructor).
  intros [|i] now tk Hlk.
  - injection Hlk as <- <-. change (span (take 1 (Wake busy late :: turns))) with (wake_span (Wake busy late) + span [])%Z. cbn [span foldr]. lia.
  - apply T in Hlk. change (take (S (S i)) (Wake busy late :: turns)) with (Wake busy late :: take (S i) turns). rewrite span_cons. lia.
Qed.

(** ** The loop and its wake-ups *)

Section loop.
Context {B Srv : Type} `{NB : NetworkBackend B} `{HS : HttpServer Srv}.
Context (to_json : AgentState -> string) (m : machine) (sd url : string) (st : AgentState).

(** What is done at the wake-ups, in order. *)
Fixpoint run_ticks (l : list (Z * AgentLoopTick)) : AM (B := B) (Srv := Srv) unit :=
  match l with
  | [] => mret tt
  | (_, tick) :: l =>
      _ ← (if tick_sync tick then attempt (sync_agent_once to_json m sd url st) else mret tt);
      _ ← (if tick_maintain_paths tick then attempt (on_backend nb_maintain_peer_paths) else mret tt);
      run_ticks l
  end.

Lemma agent_loop_ticks turns t clock l w w' :
  Forall is_wake turns -> @loop_ticks anyhow (sync_interval_of st) turns t clock = Ok l ->
  run_ticks l w = Some (Ok tt, w') ->
  agent_loop to_json m sd url st turns t clock w = Some (Ok StillRunning, w').
Proof.
  revert t clock l w. induction turns as [|[|busy late] turns IH]; intros t clock l w Hw Hl Hr.
  { injection Hl as <-. by injection Hr as <-. }
  { apply Forall_cons in Hw as [[] _]. }
  apply Forall_cons in Hw as [_ Hw]. cbn [loop_ticks] in Hl.
  destruct (@next_agent_loop_tick anyhow _ _ t) as [[tick t']|e|] eqn:Et; [|done..]. cbn [mbind res_bind] in Hl.
  destruct (@loop_ticks anyhow _ turns t' _) as [l'|e|] eqn:El; [|done..]. cbn [mbind res_bind] in Hl.
  injection Hl as <-. cbn [run_ticks] in Hr. agent_steps. cbn [agent_loop]. rewrite Et.
  change (of_res (Ok (tick, t'))) with (mret (M := AM (B := B) (Srv := Srv)) (tick, t')).
  erewrite AM_bind_run; [|reflexivity]. cbv beta iota. erewrite AM_bind_run by exact Hs.
  erewrite AM_bind_run by exact Hs0. exact (IH _ _ _ _ Hw El Hr).
Qed.

Context `{!BackendReturns B} (server_answers : forall q s, is_Some (http_send (Srv := Srv) q s)).

Lemma send_answers q (w : world B Srv) : answers (send q w).
Proof.
  unfold send. destruct (server_answers q (w_server w)) as [[r s] ->]. cbn [mbind option_bind].
  eexists _, _. split; [done|]. by destruct r.
Qed.

Lemma read_json_answers {A} (read : Body -> option A) r (w : world B Srv) : answers (read_json read r w).
Proof.
  apply of_res_answers. unfold error_for_status, json, ok_or. destruct (in_range _ _ _); [done|].
  cbn [mbind res_bind]. by destruct (read _).
Qed.

Lemma save_answers sd' st' (w : world B Srv) : answers (AgentState_save to_json m sd' st' w).
Proof.
  unfold AgentState_save. destruct (m_save m (w_saves w)) as [[k|[]] a]; [by eexists _, _|].
  destruct (file_write _ _ _ _) as [[k|[]] h]; by eexists _, _.
Qed.

Lemma device_credentials_no_panic : device_credentials st <> Panic.
Proof. unfold device_credentials. by destruct (as_device_id st), (as_node_key st). Qed.
Lemma local_config_of_no_panic : local_config_of st <> Panic.
Proof.
  unfold local_config_of. destruct (as_ipv4 st); [|done]. cbn [ok_or mbind res_bind].
  destruct (parse_ipv4 _); [|done]. by destruct (as_device_id st).
Qed.
Lemma network_map_to_peer_configs_no_panic peers : network_map_to_peer_configs peers <> Panic.
Proof. apply collect_res_no_panic, Forall_forall. intros. apply peer_to_config_no_panic. Qed.
Lemma udp_probe_server_no_panic r : udp_probe_server r <> Panic.
Proof.
  unfold udp_probe_server. destruct (epr_udp_probe_address r) as [a|]; [|done].
  destruct (epr_udp_probe_port r); [|done]. by destruct (parse_ip a).
Qed.

Lemma probe_answers d n (w : world B Srv) : answers (agent_probe_public_endpoint url d n w).
Proof.
  unfold agent_probe_public_endpoint. apply AM_bind_answers; [apply send_answers|intros r w1 _].
  apply AM_bind_answers; [apply read_json_answers|intros r' w2 _].
  apply AM_bind_answers; [apply of_res_answers, udp_probe_server_no_panic|intros [a|] w3 _];
    [|by eexists _, _].
  apply AM_bind_answers; [apply on_backend_answers, returns_probe_public_endpoint|intros [?|] w4 _];
    by eexists _, _.
Qed.

Lemma heartbeat_answers (w : world B Srv) : answers (send_heartbeat url st w).
Proof.
  unfold send_heartbeat.
  apply AM_bind_answers; [apply of_res_answers, device_credentials_no_panic|intros [d n] w1 _].
  apply AM_bind_answers; [apply on_backend_answers, returns_status|intros s w2 _].
  apply AM_bind_answers; [apply on_backend_answers, returns_local_endpoints|intros le w3 _].
  apply AM_bind_answers.
  { unfold discovered_endpoints. destruct (probe_answers d n w3) as (r & w4 & -> & Hr). cbn [mbind option_bind].
    eexists _, _. split; [done|]. by destruct r as [[]| |]. }
  intros es w4 _. apply AM_bind_answers; [apply send_answers|intros r w5 _].
  apply AM_bind_answers; [|intros ? ? _; by eexists _, _].
  apply of_res_answers. unfold error_for_status. by destruct (in_range _ _ _).
Qed.

Lemma apply_if_changed_answers map (w : world B Srv) :
  answers (apply_network_map_if_changed to_json m sd st map w).
Proof.
  unfold apply_network_map_if_changed. case_bool_decide; [by eexists _, _|]. apply AM_bind_answers.
  - unfold apply_network_map_to_backend.
    apply AM_bind_answers; [apply of_res_answers, local_config_of_no_panic|intros c w1 _].
    apply AM_bind_answers; [apply on_backend_answers, returns_apply_local_config|intros ? w2 _].
    apply AM_bind_answers; [apply on_backend_answers, returns_apply_relay_map|intros ? w3 _].
    apply AM_bind_answers; [apply of_res_answers, network_map_to_peer_configs_no_panic|intros ps w4 _].
    apply on_backend_answers, returns_apply_peer_map.
  - intros ? w1 _. apply AM_bind_answers; [apply save_answers|intros ? w2 _]. by eexists _, _.
Qed.

Lemma sync_answers (w : world B Srv) : answers (sync_agent_once to_json m sd url st w).
Proof.
  unfold sync_agent_once. apply AM_bind_answers; [apply heartbeat_answers|intros ? w1 _].
  apply AM_bind_answers.
  - unfold fetch_network_map.
    apply AM_bind_answers; [apply of_res_answers, device_credentials_no_panic|intros [d n] w2 _].
    apply AM_bind_answers; [apply send_answers|intros ? w3 _]. apply read_json_answers.
  - intros map w2 _. unfold apply_network_map_and_maintain_paths.
    apply AM_bind_answers; [apply apply_if_changed_answers|intros ? w3 _].
    apply AM_bind_answers; [apply on_backend_answers, returns_maintain_peer_paths|intros ? w4 _].
    by eexists _, _.
Qed.

Lemma attempt_Ok {A} (c : AM A) (w : world B Srv) : answers (c w) -> exists w', attempt c w = Some (Ok tt, w').
Proof.
  intros (r & w' & Hc & Hr). exists w'. unfold attempt. rewrite Hc. cbn [mbind option_bind]. by destruct r.
Qed.

Lemma run_ticks_Ok l (w : world B Srv) : exists w', run_ticks l w = Some (Ok tt, w').
Proof.
  revert w. induction l as [|[now tick] l IH]; intros w; [by eexists|]. cbn [run_ticks].
  assert (exists w1, (if tick_sync tick then attempt (sync_agent_once to_json m sd url st) else mret tt) w =
    Some (Ok tt, w1)) as [w1 H1] by (destruct (tick_sync tick); [apply attempt_Ok, sync_answers|by eexists]).
  assert (exists w2, (if tick_maintain_paths tick then attempt (on_backend nb_maintain_peer_paths) else mret tt) w1 =
    Some (Ok tt, w2)) as [w2 H2].
  { destruct (tick_maintain_paths tick); [|by eexists].
    apply attempt_Ok, on_backend_answers, returns_maintain_peer_paths. }
  destruct (IH w2) as [w3 H3]. exists w3.
  erewrite AM_bind_run by exact H1. by erewrite AM_bind_run by exact H2.
Qed.

End loop.

(** C11: the loop is live.  As long as the control plane and the backend answer at
    all, with whatever errors, and no shutdown is requested, the loop keeps running
    for any number of turns: no failure ends it.  Its wake-ups do exactly what is
    due: at every one a synchronisation or a path maintenance is attempted; two
    synchronisations are at least the poll interval apart, and between any two
    wake-ups that far apart there is one, counted from the start; likewise for path
    maintenance and its interval of 250 ms.  No wake-up is later than the time the
    turns took by themselves and 250 ms for each. *)
Theorem agent_loop_live {B Srv} `{NetworkBackend B, !BackendReturns B, HttpServer Srv} to_json m sd url st start
    turns (w : world B Srv) :
  (forall q s, is_Some (http_send (Srv := Srv) q s)) -> Forall is_wake turns ->
  (start + span turns + sync_interval_of st <= INSTANT_MAX)%Z ->
  exists l w', run_agent_loop to_json m sd url st start turns w = Some (Ok StillRunning, w') /\
    run_ticks to_json m sd url st l w = Some (Ok tt, w') /\ length l = length turns /\
    Forall (fun '(_, tick) => tick_sync tick || tick_maintain_paths tick = true) l /\
    periodic (sync_interval_of st) ((start, true) :: sync_times l) /\
    periodic DIRECT_PATH_MAINTENANCE_INTERVAL ((start, true) :: maintenance_times l) /\
    forall i now tick, l !! i = Some (now, tick) -> (now <= start + span (take (S i) turns))%Z.
Proof.
  intros Ha Hw Hmax.
  assert (Hp : (DIRECT_PATH_MAINTENANCE_INTERVAL <= sync_interval_of st)%Z)
    by (unfold sync_interval_of, from_secs, DIRECT_PATH_MAINTENANCE_INTERVAL; lia).
  pose proof (span_nonneg turns Hw) as Hspan.
  assert (Hpos : (0 < DIRECT_PATH_MAINTENANCE_INTERVAL)%Z) by done.
  set (t := mkTimers (start + sync_interval_of st) (start + DIRECT_PATH_MAINTENANCE_INTERVAL)).
  assert (Hi : @initial_timers anyhow start (sync_interval_of st) = Ok t).
  { unfold initial_timers, instant_add. by rewrite !(proj2 (Z.leb_le _ _)) by lia. }
  destruct (@loop_ticks_spec anyhow (sync_interval_of st) turns start t Hp) as
    (l & El & Hlen & R1 & R2 & A1 & A2 & F & T); [split; cbn; lia|done|lia|].
  destruct (run_ticks_Ok to_json m sd url st Ha l w) as [w' Hr]. exists l, w'. split_and!; try done.
  - unfold run_agent_loop. rewrite Hi. erewrite AM_bind_run; [|reflexivity].
    exact (agent_loop_ticks _ _ _ _ _ _ _ _ _ _ _ Hw El Hr).
  - apply (timer_periodic _ (start + sync_interval_of st)); [lia|lia|done|done|done].
  - apply (timer_periodic _ (start + DIRECT_PATH_MAINTENANCE_INTERVAL)); [lia|lia|done|done|done].
Qed.

(** A control plane that cannot be reached. *)
Inductive unreachable : Type := Unreachable.
#[export] Instance unreachable_server : HttpServer unreachable := fun _ s => Some (inl tt, s).

Lemma agent_loop_live_witness :
  let turns := replicate 40 (Wake 1000000 2000000) in
  let w := mkWorld (MockBackend_new "tfpk_a") Unreachable empty_host (DnsRuntime_new []) None 0 [] in
  exists l w', run_agent_loop toy_json toy_machine "/s" "http://c" toy_state 0 turns w = Some (Ok StillRunning, w') /\
    periodic (from_secs 5) ((0%Z, true) :: sync_times l).
Proof.
  intros turns w.
  destruct (agent_loop_live toy_json toy_machine "/s" "http://c" toy_state 0 turns w) as (l & w' & H & _ & _ & _ & P & _).
  - intros q s. by eexists.
  - apply Forall_replicate. split; discriminate.
  - vm_compute. discriminate.
  - exists l, w'. split; [exact H|exact P].
Defined.

(** A control plane that accepts a request and never answers stops a registered agent
    for good: no request has a timeout, and the shutdown flag is only looked at
    between the turns. *)
Lemma silent_server_stalls_sync {B Srv} `{NetworkBackend B, !BackendReturns B, HttpServer Srv} to_json m sd url st
    (w : world B Srv) d n :
  (forall q s, http_send (Srv := Srv) q s = None) -> device_credentials st = Ok (d, n) ->
  (forall b r b', nb_status b = Some (r, b') -> is_ok r = true) ->
  (forall b r b', nb_local_endpoints b = Some (r, b') -> is_ok r = true) ->
  sync_agent_once to_json m sd url st w = None.
Proof.
  intros Hs Hd Hst Hle. unfold sync_agent_once.
  apply AM_bind_None.
  unfold send_heartbeat. rewrite Hd. erewrite AM_bind_run; [|reflexivity]. cbv beta iota.
  destruct (returns_status (w_backend w)) as (r & b & E & _). pose proof (Hst _ _ _ E) as Hr.
  destruct r as [s| |]; [|done..]. erewrite AM_bind_run by (unfold on_backend; by rewrite E).
  destruct (returns_local_endpoints b) as (r & b' & E' & _). pose proof (Hle _ _ _ E') as Hr'.
  destruct r as [le| |]; [|done..].
  erewrite AM_bind_run by (unfold on_backend; cbn [w_backend]; by rewrite E').
  apply AM_bind_None. unfold discovered_endpoints.
  assert (forall w1, agent_probe_public_endpoint url d n w1 = None) as Hp; [|by rewrite Hp].
  intros w1. apply AM_bind_None. unfold send. by rewrite Hs.
Qed.
