(* ===== verification/AgentCli.v ===== *)
(** * The agent's command line ([tfscale-agent/src/main.rs])

    The doctor, the status and the plans, what they print, and [main].  Every command
    builds a new [CustomBackend] on the state directory. *)

From Stdlib Require Import ZArith Lia.
From stdpp Require Import prelude list strings gmap.
From S2P Require Import Prelude RustStd RustText Protocol Frame Nonce Crypto Transport Runtime Backend Platform Http SystemFiles Dns NetBackend Agent.

(** ** Status *)

Record DnsStatusOutput : Type := mkDnsStatusOutput {
  do_enabled : bool;
  do_listen : string;
  do_healthy : bool;
  do_records : nat;
  do_message : option string;
  do_resolver : ResolverStatus;
}.

Record BackendStatusOutput : Type := mkBackendStatusOutput {
  bo_backend_type : string;
  bo_interface_name : string;
  bo_healthy : bool;
  bo_message : option string;
  bo_peers : list PeerPathDiagnostic;
}.

Record AgentStatusOutput : Type := mkAgentStatusOutput {
  ao_device_id : option string;
  ao_network_id : option string;
  ao_ipv4 : option string;
  ao_dns_records : list DnsRecord;
  ao_dns : DnsStatusOutput;
  ao_backend_public_credential_present : bool;
  ao_backend : BackendStatusOutput;
}.

(** [AgentStatusOutput::from_state_and_status], with the status of the resolver. *)
Definition status_output (resolver : ResolverStatus) (state : AgentState) (status : BackendStatus)
    : AgentStatusOutput :=
  mkAgentStatusOutput (as_device_id state) (as_network_id state) (as_ipv4 state) (as_dns_records state)
    (mkDnsStatusOutput (as_dns_enabled state) (as_dns_listen state) (as_dns_healthy state)
       (length (as_dns_records state)) (as_dns_message state) resolver)
    (negb (is_empty (as_backend_public_credential state)))
    (mkBackendStatusOutput (BackendType_as_str (bs_backend_type status)) (bs_interface_name status)
       (bs_healthy status) (bs_message status) (bs_peers status)).

(** ** Doctor *)

Inductive DoctorLevel : Type := LevelOk | LevelWarn | LevelFail.

#[export] Instance DoctorLevel_eq_dec : EqDecision DoctorLevel.
Proof. solve_decision. Defined.

Definition label (l : DoctorLevel) : string :=
  match l with LevelOk => "OK" | LevelWarn => "WARN" | LevelFail => "FAIL" end.

Record DoctorCheck : Type := mkDoctorCheck {
  dk_id : string;
  dk_level : DoctorLevel;
  dk_summary : string;
  dk_detail : option string;
  dk_suggestion : option string;
}.

Record AgentDoctorReport : Type := mkAgentDoctorReport {
  dr_overall : DoctorLevel;
  dr_checks : list DoctorCheck;
  dr_next_steps : list string;
}.

Definition nat_dec (n : nat) : string := dec (Z.of_nat n).

Definition registered (state : AgentState) : bool :=
  bool_decide (is_Some (as_device_id state)) && bool_decide (is_Some (as_node_key state)) &&
  bool_decide (is_Some (as_network_id state)) && bool_decide (is_Some (as_ipv4 state)).

Definition check_registered (state : AgentState) : DoctorCheck :=
  if registered state then
    mkDoctorCheck "state.registered" LevelOk
      (default "-" (as_device_id state) +:+ " " +:+ default "-" (as_ipv4 state)) (as_network_id state) None
  else
    mkDoctorCheck "state.registered" LevelFail "agent is not registered" None
      (Some "run tfscale-agent up --login-key <key>").

Definition check_backend (status : BackendStatus) : DoctorCheck :=
  mkDoctorCheck "backend.healthy" (if bs_healthy status then LevelOk else LevelFail)
    (BackendType_as_str (bs_backend_type status) +:+ " " +:+ bs_interface_name status) (bs_message status)
    (if bs_healthy status then None else Some "check TUN permissions and backend status message").

Definition count_path (k : PeerPathDiagnosticKind) (peers : list PeerPathDiagnostic) : nat :=
  length (List.filter (fun p => bool_decide (pd_path p = k)) peers).

Definition check_backend_peers (status : BackendStatus) : DoctorCheck :=
  let direct := count_path DiagDirect (bs_peers status) in
  let relay := count_path DiagRelay (bs_peers status) in
  let unknown := count_path DiagUnknown (bs_peers status) in
  mkDoctorCheck "backend.peers" (if (0 <? unknown)%nat then LevelWarn else LevelOk)
    ("direct=" +:+ nat_dec direct +:+ " relay=" +:+ nat_dec relay +:+ " unknown=" +:+ nat_dec unknown)
    (Some ("total=" +:+ nat_dec (length (bs_peers status))))
    (if (0 <? unknown)%nat then Some "wait for endpoint probing or check relay availability" else None).

Definition check_dns_listener (state : AgentState) : DoctorCheck :=
  if negb (as_dns_enabled state) then
    mkDoctorCheck "dns.listener" LevelWarn "DNS listener has not been started"
      (Some ("listen=" +:+ as_dns_listen state)) (Some "run tfscale-agent up to start MagicDNS")
  else
    mkDoctorCheck "dns.listener" (if as_dns_healthy state then LevelOk else LevelFail)
      (as_dns_listen state +:+ " records=" +:+ nat_dec (length (as_dns_records state))) (as_dns_message state)
      (if as_dns_healthy state
       then Some ("test with: dig @" +:+ as_dns_listen state +:+ " <hostname>." +:+ DEFAULT_DNS_SUFFIX +:+ " A")
       else Some "check whether the DNS port is already in use").

Definition check_dns_snapshot (state : AgentState) : DoctorCheck :=
  match as_dns_records state with
  | [] =>
      mkDoctorCheck "dns.snapshot" LevelWarn "no DNS records in local snapshot" None
        (Some "check tfscalectl dns records and wait for agent sync")
  | record :: _ =>
      mkDoctorCheck "dns.snapshot" LevelOk ("records=" +:+ nat_dec (length (as_dns_records state)))
        (Some ("example=" +:+ Protocol.dns_name record +:+ " -> " +:+ dns_value record)) None
  end.

Definition overall_level (checks : list DoctorCheck) : DoctorLevel :=
  if existsb (fun c => bool_decide (dk_level c = LevelFail)) checks then LevelFail
  else if existsb (fun c => bool_decide (dk_level c = LevelWarn)) checks then LevelWarn
  else LevelOk.

Definition next_steps (checks : list DoctorCheck) : list string := dedup (omap dk_suggestion checks).

(** What a command prints: lines of text, text without a line end, or a value as
    pretty-printed JSON. *)
Inductive json_value : Type :=
| JsonDoctor (r : AgentDoctorReport)
| JsonResolver (s : ResolverStatus)
| JsonService (s : ServiceStatus)
| JsonStatus (s : AgentStatusOutput).

Inductive printed : Type := Line (s : string) | Text (s : string) | Json (v : json_value).

Definition print_doctor_report (report : AgentDoctorReport) : list printed :=
  [Line ("tf-scale doctor overall=" +:+ label (dr_overall report)); Line EmptyString] ++
  flat_map (fun check =>
    Line (pad_right 4 (label (dk_level check)) +:+ " " +:+ pad_right 22 (dk_id check) +:+ " " +:+ dk_summary check) ::
    match dk_detail check with
    | Some detail => [Line ("     " +:+ pad_right 22 EmptyString +:+ " " +:+ detail)]
    | None => []
    end) (dr_checks report) ++
  match dr_next_steps report with
  | [] => []
  | steps => [Line EmptyString; Line "Next:"] ++ map (fun step => Line ("  " +:+ step)) steps
  end.

Definition commands_lines (title : string) (commands : list (list string)) : list printed :=
  match commands with [] => [] | _ => Line title :: map (fun c => Line (join " " c)) commands end.

Definition print_dns_resolver_plan (t : target_os) (state : AgentState) : list printed :=
  let plan := dns_resolver_plan t state in
  [Line ("platform=" +:+ resolver_platform_label (rp_platform plan)); Line ("config_path=" +:+ config_path plan);
   Line "install_content:"; Text (install_content plan)] ++
  commands_lines "reload_commands:" (reload_commands plan) ++
  match uninstall_paths plan with [] => [] | paths => Line "uninstall_paths:" :: map Line paths end.

Definition print_service_plan (plan : ServicePlan) : list printed :=
  [Line ("platform=" +:+ service_platform_label (sp_platform plan)); Line ("unit_path=" +:+ unit_path plan);
   Line "unit_content:"; Text (unit_content plan)] ++
  commands_lines "install_commands:" (install_commands plan) ++
  commands_lines "uninstall_commands:" (uninstall_commands plan).

Definition optional_bool_label (value : option bool) : string :=
  match value with Some true => "true" | Some false => "false" | None => "unknown" end.

Definition print_service_status (s : ServiceStatus) (json : bool) : list printed :=
  if json then [Json (JsonService s)]
  else
    [Line ("platform=" +:+ ss_platform s +:+ " installed=" +:+ show_bool (ss_installed s) +:+
           " env_installed=" +:+ show_bool (env_installed s) +:+
           " enabled=" +:+ optional_bool_label (enabled s) +:+ " active=" +:+ optional_bool_label (active s) +:+
           " unit_path=" +:+ ss_unit_path s +:+ " env_path=" +:+ ss_env_path s +:+
           " message=" +:+ default EmptyString (ss_message s))].

(** ** Commands *)

Inductive DnsCommand : Type := DnsPlan | DnsInstall | DnsUninstall | DnsStatus (json : bool).
Inductive ServiceCommand : Type :=
| ServicePlanCmd (login_key control_url : string) (dns_listen : SocketAddr)
| ServiceInstall (login_key control_url : string) (dns_listen : SocketAddr)
| ServiceUninstall
| ServiceStatusCmd (json : bool).
Inductive Command : Type :=
| Up (login_key control_url : string) (dns_listen : SocketAddr)
| Down
| DnsCmd (command : DnsCommand)
| ServiceCmd (command : ServiceCommand)
| Doctor (json : bool)
| Status (json : bool).
Record Cli : Type := mkCli { cli_state_dir : option string; cli_command : Command }.

(** What the system answers to a command that is not [up]. *)
Record cli_answers : Type := mkCliAnswers {
  ca_home : option string;
  ca_exe : io_kind + string;
  ca_exec : list (list string) -> list string -> status_answer;
  ca_mkdir : io_kind + unit;
  ca_write : write_answer;
  ca_remove : string -> option io_kind;
  ca_resolver_read : option io_kind;
  ca_install : install_answers;
  ca_enabled : option (bool * list Z);
  ca_active : option (bool * list Z);
  ca_ended : io unit;
}.

Section cli.
Context `{P : CryptoPrims}.
Context (state_to_json : CustomBackendState -> string) (state_from_json : string -> option CustomBackendState).
Context (salts : string -> option (list Z)).
Context (to_json : AgentState -> string) (from_json : string -> option AgentState).
Context (display : message -> string).
Context (m : machine) (a : cli_answers).

Definition check_dns_system_resolver (h : host) (state : AgentState) : DoctorCheck :=
  let plan := dns_resolver_plan (m_os m) state in
  let status := resolver_status (ca_resolver_read a) plan h in
  if rs_installed status && content_matches status then
    mkDoctorCheck "dns.system_resolver" LevelOk ("installed path=" +:+ rs_config_path status)
      (Some ("platform=" +:+ rs_platform status)) None
  else if rs_installed status then
    mkDoctorCheck "dns.system_resolver" LevelWarn ("installed but content differs path=" +:+ rs_config_path status)
      (display <$> rs_message status) (Some "run tfscale-agent dns install to refresh resolver config")
  else
    mkDoctorCheck "dns.system_resolver" LevelWarn ("not installed; planned path=" +:+ rs_config_path status)
      (Some ("platform=" +:+ rs_platform status))
      (Some "run tfscale-agent dns install to enable system hostname resolution").

Definition from_state_and_status (h : host) (state : AgentState) (status : BackendStatus) : AgentDoctorReport :=
  let checks := [check_registered state; check_backend status; check_backend_peers status;
                 check_dns_listener state; check_dns_snapshot state; check_dns_system_resolver h state] in
  mkAgentDoctorReport (overall_level checks) checks (next_steps checks).

Definition print_dns_resolver_status (h : host) (state : AgentState) (json : bool) : list printed :=
  let status := resolver_status (ca_resolver_read a) (dns_resolver_plan (m_os m) state) h in
  if json then [Json (JsonResolver status)]
  else
    [Line ("platform=" +:+ rs_platform status +:+ " installed=" +:+ show_bool (rs_installed status) +:+
           " content_matches=" +:+ show_bool (content_matches status) +:+
           " config_path=" +:+ rs_config_path status +:+
           " message=" +:+ default EmptyString (display <$> rs_message status))].

Definition install_dns_resolver (state : AgentState) (h : host) : res anyhow (list printed) * host :=
  let plan := dns_resolver_plan (m_os m) state in
  let '(r, h) := resolver_install (ca_exec a) (ca_mkdir a) (ca_write a) plan h in
  ((fun _ => [Line ("DNS resolver installed: platform=" +:+ resolver_platform_label (rp_platform plan) +:+
                    " config_path=" +:+ config_path plan)]) <$> r, h).

Definition uninstall_dns_resolver (state : AgentState) (h : host) : res anyhow (list printed) * host :=
  let plan := dns_resolver_plan (m_os m) state in
  let '(r, h) := resolver_uninstall (ca_exec a) (ca_remove a) plan h in
  ((fun _ => [Line ("DNS resolver uninstalled: platform=" +:+ resolver_platform_label (rp_platform plan) +:+
                    " config_path=" +:+ config_path plan)]) <$> r, h).

Definition install_service (state_dir control_url login_key : string) (dns_listen : SocketAddr) (h : host)
    : res anyhow (list printed) * host :=
  match service_plan (m_os m) (ca_exe a) state_dir control_url login_key dns_listen with
  | Ok plan =>
      let '(r, h) := service_install (ca_exec a) (ca_install a) plan h in
      ((fun _ => [Line ("agent service installed: platform=" +:+ service_platform_label (sp_platform plan) +:+
                        " unit_path=" +:+ unit_path plan)]) <$> r, h)
  | Err e => (Err e, h)
  | Panic => (Panic, h)
  end.

(** The plan that [uninstall_service] and [print_service_status] use. *)
Definition unused_plan : res anyhow ServicePlan :=
  binary_path ← current_exe (ca_exe a);
  dns_listen ← ok_or (AForeign AddrParseError) (parse_socket_addr DEFAULT_DNS_LISTEN);
  Ok (service_current_platform_plan (m_os m)
        (mkServiceConfig binary_path (default_state_dir (ca_home a)) "http://127.0.0.1:8080" "unused" dns_listen)).

Definition uninstall_service (h : host) : res anyhow (list printed) * host :=
  match unused_plan with
  | Ok plan =>
      let '(r, h) := service_uninstall (ca_exec a) (ca_remove a (unit_path plan)) (ca_remove a (env_path plan)) plan h in
      ((fun _ => [Line ("agent service uninstalled: platform=" +:+ service_platform_label (sp_platform plan) +:+
                        " unit_path=" +:+ unit_path plan)]) <$> r, h)
  | Err e => (Err e, h)
  | Panic => (Panic, h)
  end.

(** A new backend on the state directory, whose state file has the content [disk]. *)
Definition new_backend (disk : option string) : CustomBackend := with_state_path DEFAULT_INTERFACE_NAME disk.

(** [AgentState::load(&state_dir)?.unwrap_or_default()] *)
Definition load_or_default (state_dir : string) (h : host) : res anyhow AgentState :=
  loaded ← AgentState_load from_json m state_dir h;
  Ok (default AgentState_default loaded).

Definition print_status (h : host) (state : AgentState) (status : BackendStatus) (json : bool) : list printed :=
  if json then
    [Json (JsonStatus (status_output
       (resolver_status (ca_resolver_read a) (dns_resolver_plan (m_os m) state) h) state status))]
  else
    [Line ("device=" +:+ default "-" (as_device_id state) +:+ " ipv4=" +:+ default "-" (as_ipv4 state) +:+
           " backend=" +:+ BackendType_as_str (bs_backend_type status) +:+ " interface=" +:+ bs_interface_name status +:+
           " healthy=" +:+ show_bool (bs_healthy status) +:+ " message=" +:+
           default EmptyString (bs_message status))].

(** The arms of [main]: what a successful run prints, and the files it leaves. *)

Definition run_down (disk : option string) : res anyhow (list printed) :=
  _ ← map_err ABackend (fst (shutdown (ca_ended a) (new_backend disk)));
  Ok [Line "agent backend stopped"].

Definition run_dns (state_dir : string) (command : DnsCommand) (h : host) : res anyhow (list printed) * host :=
  match load_or_default state_dir h with
  | Ok state =>
      match command with
      | DnsPlan => (Ok (print_dns_resolver_plan (m_os m) state), h)
      | DnsInstall => install_dns_resolver state h
      | DnsUninstall => uninstall_dns_resolver state h
      | DnsStatus json => (Ok (print_dns_resolver_status h state json), h)
      end
  | Err e => (Err e, h)
  | Panic => (Panic, h)
  end.

Definition run_service (state_dir : string) (command : ServiceCommand) (h : host)
    : res anyhow (list printed) * host :=
  match command with
  | ServicePlanCmd login_key control_url dns_listen =>
      (print_service_plan <$> service_plan (m_os m) (ca_exe a) state_dir control_url login_key dns_listen, h)
  | ServiceInstall login_key control_url dns_listen =>
      install_service state_dir control_url login_key dns_listen h
  | ServiceUninstall => uninstall_service h
  | ServiceStatusCmd json =>
      ((fun plan => print_service_status (service_status (ca_enabled a) (ca_active a) plan h) json) <$> unused_plan, h)
  end.

Definition run_doctor (state_dir : string) (json : bool) (disk : option string) (h : host)
    : res anyhow (list printed) :=
  status ← map_err ABackend (backend_status state_from_json salts display (new_backend disk));
  state ← load_or_default state_dir h;
  let report := from_state_and_status h state status in
  Ok (if json then [Json (JsonDoctor report)] else print_doctor_report report).

Definition run_status (state_dir : string) (json : bool) (disk : option string) (h : host)
    : res anyhow (list printed) :=
  status ← map_err ABackend (backend_status state_from_json salts display (new_backend disk));
  state ← load_or_default state_dir h;
  Ok (print_status h state status json).

(** For [up], [server] is the control plane, [env] what the custom backend meets call
    by call, and the turns of the loop start at [start]. *)
Definition run_up {Srv} `{HttpServer Srv} (server : Srv) (env : nat -> CustomEnv) (start : Z)
    (turns : list loop_turn) (state_dir control_url login_key : string) (dns_listen : SocketAddr)
    (disk : option string) (h : host) : option (res anyhow (list printed) * host) :=
  match agent_up (NB := custom_backend state_to_json state_from_json display env) to_json from_json display m
          state_dir control_url login_key dns_listen start turns
          (mkWorld (mkCustomRun (new_backend disk) 0) server h (DnsRuntime_new []) None 0 []) with
  | Some (r, w) => Some ((fun _ => map Line (w_out w)) <$> r, w_host w)
  | None => None
  end.

Definition run_main {Srv} `{HttpServer Srv} (server : Srv) (env : nat -> CustomEnv) (start : Z)
    (turns : list loop_turn) (cli : Cli) (disk : option string) (h : host)
    : option (res anyhow (list printed) * host) :=
  let state_dir := default (default_state_dir (ca_home a)) (cli_state_dir cli) in
  match cli_command cli with
  | Up login_key control_url dns_listen =>
      run_up server env start turns state_dir control_url login_key dns_listen disk h
  | Down => Some (run_down disk, h)
  | DnsCmd command => Some (run_dns state_dir command h)
  | ServiceCmd command => Some (run_service state_dir command h)
  | Doctor json => Some (run_doctor state_dir json disk h, h)
  | Status json => Some (run_status state_dir json disk h, h)
  end.

End cli.

(** ** Properties *)

Lemma overall_level_spec checks l :
  overall_level checks = l <->
  match l with
  | LevelFail => exists c, c ∈ checks /\ dk_level c = LevelFail
  | LevelWarn => (forall c, c ∈ checks -> dk_level c <> LevelFail) /\ exists c, c ∈ checks /\ dk_level c = LevelWarn
  | LevelOk => forall c, c ∈ checks -> dk_level c = LevelOk
  end.
Proof.
  assert (Hex : forall v, existsb (fun c => bool_decide (dk_level c = v)) checks = true <->
    exists c, c ∈ checks /\ dk_level c = v).
  { intros v. rewrite existsb_exists. setoid_rewrite bool_decide_eq_true. setoid_rewrite list_elem_of_In. done. }
  unfold overall_level.
  destruct (existsb (fun c => bool_decide (dk_level c = LevelFail)) checks) eqn:Ef;
    [apply Hex in Ef|rewrite <- not_true_iff_false, Hex in Ef].
  { destruct Ef as (c & Hc & Hf). destruct l; split; try done; try (by exists c).
    - intros H. specialize (H c Hc). congruence.
    - intros [H _]. by destruct (H c Hc). }
  destruct (existsb (fun c => bool_decide (dk_level c = LevelWarn)) checks) eqn:Ew;
    [apply Hex in Ew|rewrite <- not_true_iff_false, Hex in Ew].
  - destruct Ew as (c & Hc & Hw). destruct l; split; try done.
    + intros H. specialize (H c Hc). congruence.
    + intros _. split; [|by exists c]. intros d Hd Hl. apply Ef. by exists d.
  - destruct l; split; try done.
    + intros _ c Hc. destruct (dk_level c) eqn:E; [done|destruct Ew|destruct Ef]; by exists c.
    + intros [_ (c & Hc & Hw)]. destruct Ew. by exists c.
Qed.

Lemma elem_of_dedup {A} `{EqDecision A} (l : list A) x : x ∈ dedup l <-> x ∈ l.
Proof.
  induction l as [|y [|z l] IH]; [done..|]. cbn [dedup] in *. destruct (decide (y = z)) as [-> |Hn].
  - rewrite IH, !elem_of_cons. naive_solver.
  - by rewrite !(elem_of_cons _ x y), IH.
Qed.

(** The doctor's verdict.  It fails exactly when the device is not registered, the
    backend is not healthy or the DNS proxy could not be started; otherwise it warns
    exactly when a peer has no path, the DNS proxy was never started, there are no
    records or the resolver is not set up as planned; and for every check that is not
    fine the next steps have its suggestion. *)
Theorem doctor_verdict display m a h state status :
  let report := from_state_and_status display m a h state status in
  let resolver := resolver_status (ca_resolver_read a) (dns_resolver_plan (m_os m) state) h in
  dr_overall report =
    (if negb (registered state) || negb (bs_healthy status) ||
        (as_dns_enabled state && negb (as_dns_healthy state)) then LevelFail
     else if (0 <? count_path DiagUnknown (bs_peers status))%nat || negb (as_dns_enabled state) ||
             bool_decide (as_dns_records state = []) || negb (rs_installed resolver && content_matches resolver)
     then LevelWarn else LevelOk) /\
  forall c, c ∈ dr_checks report -> dk_level c <> LevelOk ->
    exists step, dk_suggestion c = Some step /\ step ∈ dr_next_steps report.
Proof.
  intros report resolver. split.
  - unfold report, from_state_and_status, overall_level, check_registered, check_backend, check_backend_peers,
      check_dns_listener, check_dns_snapshot, check_dns_system_resolver. fold resolver.
    destruct (registered state), (bs_healthy status), (0 <? _)%nat, (as_dns_enabled state), (as_dns_healthy state),
      (as_dns_records state), (rs_installed resolver), (content_matches resolver); reflexivity.
  - intros c Hc Hl. assert (exists step, dk_suggestion c = Some step) as [step Hs].
    { unfold report, from_state_and_status in Hc. cbn [dr_checks] in Hc. rewrite !elem_of_cons in Hc.
      destruct Hc as [-> |[-> |[-> |[-> |[-> |[-> |Hc]]]]]]; [..|by apply not_elem_of_nil in Hc].
      all: revert Hl; unfold check_registered, check_backend, check_backend_peers, check_dns_listener,
        check_dns_snapshot, check_dns_system_resolver; repeat case_match; cbn [dk_level dk_suggestion]; naive_solver. }
    exists step. split; [done|]. unfold report, from_state_and_status in *. cbn [dr_checks dr_next_steps] in *.
    unfold next_steps. apply elem_of_dedup, list_elem_of_omap. by exists c.
Qed.

(** A command in its own process does not see the running agent's backend: the
    backend it builds has no interface, no socket and no tasks.  So [doctor] and
    [status], whenever they get as far as a report, call the backend unhealthy and the
    doctor fails, whatever the agent does; and [down] reports success without
    shutting down any device or changing anything that is stored. *)
Theorem commands_miss_running_agent `{CryptoPrims} from_custom salts from_json display m a sd disk h :
  (forall out, run_doctor from_custom salts from_json display m a sd true disk h = Ok out ->
     exists report, out = [Json (JsonDoctor report)] /\ dr_overall report = LevelFail) /\
  (forall out, run_status from_custom salts from_json display m a sd true disk h = Ok out ->
     exists o, out = [Json (JsonStatus o)] /\ bo_healthy (ao_backend o) = false) /\
  run_down a disk = Ok [Line "agent backend stopped"] /\
  shutdown (ca_ended a) (new_backend disk) = (Ok tt, new_backend disk).
Proof.
  assert (Hst : forall s, backend_status from_custom salts display (new_backend disk) = Ok s ->
    bs_healthy s = false).
  { intros s. unfold backend_status. destruct (load_state _ _); [|done..]. cbn [mbind res_bind].
    by intros [= <-]. }
  split_and!; [| |done|done].
  - intros out. unfold run_doctor. destruct (backend_status _ _ _ _) as [s| |] eqn:Es; [|done..].
    cbn [map_err mbind res_bind]. destruct (load_or_default _ _ _ _) as [st| |]; [|done..]. cbn [mbind res_bind].
    intros [= <-]. eexists. split; [reflexivity|]. apply overall_level_spec.
    exists (check_backend s). split; [set_solver|]. unfold check_backend. cbn [dk_level]. by rewrite (Hst s eq_refl).
  - intros out. unfold run_status. destruct (backend_status _ _ _ _) as [s| |] eqn:Es; [|done..].
    cbn [map_err mbind res_bind]. destruct (load_or_default _ _ _ _) as [st| |]; [|done..]. cbn [mbind res_bind].
    intros [= <-]. eexists. split; [reflexivity|]. exact (Hst s eq_refl).
Qed.

Definition toy_answers : cli_answers :=
  mkCliAnswers None (inr "/usr/bin/tfscale-agent") all_succeed (inr tt) Written (fun _ => None) None
    (mkInstallAnswers (inr tt) (inr tt) Written Written (inr tt)) None None (inr tt).

Definition plain_machine (t : target_os) : machine :=
  mkMachine t "x86_64" None None "0192" None (fun _ => (inr tt, Written)) (inr tt).

Lemma commands_miss_running_agent_witness :
  let doctor := run_doctor (P := toy_prims) (fun _ => None) (fun _ => None) (fun _ => None) (fun _ => EmptyString)
    (plain_machine OsLinux) toy_answers "/s" true None empty_host in
  exists out report, doctor = Ok out /\ out = [Json (JsonDoctor report)] /\ dr_overall report = LevelFail.
Proof.
  intros doctor. destruct doctor as [out| |] eqn:E; [|vm_compute in E; discriminate E..].
  destruct (commands_miss_running_agent (H := toy_prims) (fun _ => None) (fun _ => None) (fun _ => None)
    (fun _ => EmptyString) (plain_machine OsLinux) toy_answers "/s" None empty_host) as [H _].
  destruct (H out E) as (report & H1 & H2). exists out, report. split_and!; [reflexivity|exact H1|exact H2].
Defined.

(** The resolver is pointed at the DNS proxy.  For the state that [agent_up]
    leaves, whether or not the proxy could bind, the plan for the system resolver
    names the address and the port that were asked for, IPv6 included, and the zone
    that the proxy answers. *)
Theorem resolver_points_at_proxy display m listen state :
  Ip_wf (ip listen) -> is_u16 (sa_port listen) ->
  dns_resolver_plan (m_os m) (dns_started display m listen state) =
    resolver_current_platform_plan (m_os m)
      (mkResolverConfig DEFAULT_DNS_SUFFIX (ip_to_string (ip listen)) (sa_port listen)).
Proof.
  intros Hip Hport. unfold dns_resolver_plan.
  assert (as_dns_listen (dns_started display m listen state) = socket_addr_to_string listen) as ->
    by (unfold dns_started; by destruct (m_dns_bind m)).
  unfold dns_listen_parts. by rewrite parse_socket_addr_to_string.
Qed.

Lemma resolver_points_at_proxy_witness :
  let m := plain_machine OsMacos in
  let listen := mkSocketAddr (V4 (Ipv4 127 0 0 1)) 5353 in
  dns_resolver_plan (m_os m) (dns_started (fun _ => EmptyString) m listen AgentState_default) =
    macos_resolver_plan (mkResolverConfig "mesh" (ip_to_string (V4 (Ipv4 127 0 0 1))) 5353).
Proof.
  intros m listen. apply (resolver_points_at_proxy (fun _ => EmptyString) m listen AgentState_default).
  - cbn. unfold Ipv4_wf. by_decide.
  - by_decide.
Defined.
