(* ===== verification/AgentCustom.v ===== *)
(** * The agent on its own backend

    The composition of [agent_up] with [CustomBackend]: what the agent's operations
    keep of the backend, and the consequence of the backend's deadlock for the
    agent. *)

From Stdlib Require Import ZArith Lia.
From stdpp Require Import prelude list strings gmap.
From S2P Require Import Prelude RustStd RustText Protocol Frame Nonce Crypto Transport Runtime RuntimeProps Backend BackendProps Platform Http SystemFiles Dns NetBackend Agent AgentProps AgentCli.

(** ** Properties of the backend that a computation keeps *)

Section preserves.
Context {B Srv : Type} `{NB : NetworkBackend B} `{HS : HttpServer Srv}.
Context (P : B -> Prop).

Definition preserves {A} (c : AM A) : Prop :=
  forall (w : world B Srv) r w', c w = Some (r, w') -> P (w_backend w) -> P (w_backend w').

Lemma preserves_bind {A A'} (c : AM A) (f : A -> AM A') :
  preserves c -> (forall a, preserves (f a)) -> preserves (c ≫= f).
Proof.
  intros Hc Hf w r w' (r1 & w1 & H1 & H2)%AM_bind_Some HP. apply (Hc _ _ _ H1) in HP.
  destruct r1 as [a|e|]; [by apply (Hf a) in H2; auto|by destruct H2 as [_ ->]..].
Qed.
Lemma preserves_ret {A} (a : A) : preserves (mret a).
Proof. by intros w r w' [= _ <-]. Qed.
Lemma preserves_of_res {A} (r : res anyhow A) : preserves (of_res r).
Proof. by intros w r' w' [= _ <-]. Qed.
Lemma preserves_on_backend {A} (f : call B BackendError A) :
  (forall b r b', f b = Some (r, b') -> P b -> P b') -> preserves (on_backend f).
Proof.
  intros Hf w r w'. unfold on_backend. destruct (f _) as [[r0 b]|] eqn:E; [|done]. intros [= _ <-]. exact (Hf _ _ _ E).
Qed.
Lemma preserves_send q : preserves (send q).
Proof. intros w r w'. unfold send. destruct (http_send _ _) as [[? ?]|]; [|done]. by intros [= _ <-]. Qed.
Lemma preserves_save to_json m sd st : preserves (AgentState_save to_json m sd st).
Proof.
  intros w r w'. unfold AgentState_save. destruct (m_save m (w_saves w)) as [[k|[]] a]; [by intros [= _ <-]|].
  destruct (file_write _ _ _ _) as [r' h]. by intros [= _ <-].
Qed.

Context (Hstatus : forall b r b', nb_status b = Some (r, b') -> P b -> P b').
Context (Hlocal : forall b r b', nb_local_endpoints b = Some (r, b') -> P b -> P b').
Context (Hprobe : forall a t b r b', nb_probe_public_endpoint a t b = Some (r, b') -> P b -> P b').
Context (Hcredentials : forall b r b', nb_ensure_credentials b = Some (r, b') -> P b -> P b').

Lemma preserves_heartbeat url st : preserves (send_heartbeat url st).
Proof.
  unfold send_heartbeat. apply preserves_bind; [apply preserves_of_res|intros [d n]].
  do 2 (apply preserves_bind; [by apply preserves_on_backend|intros ?]).
  apply preserves_bind.
  - assert (preserves (agent_probe_public_endpoint url d n)) as Hk.
    { unfold agent_probe_public_endpoint. apply preserves_bind; [apply preserves_send|intros ?].
      do 2 (apply preserves_bind; [apply preserves_of_res|intros ?]). case_match; [|apply preserves_ret].
      apply preserves_bind; [apply preserves_on_backend, Hprobe|intros [?|]]; apply preserves_ret. }
    intros w r w'. unfold discovered_endpoints.
    destruct (agent_probe_public_endpoint _ _ _ _) as [[r1 w1]|] eqn:E; [|done]. intros [= _ <-]. exact (Hk _ _ _ E).
  - intros ?. apply preserves_bind; [apply preserves_send|intros ?].
    apply preserves_bind; [apply preserves_of_res|intros ?]. apply preserves_ret.
Qed.

Lemma preserves_fetch url st : preserves (fetch_network_map url st).
Proof.
  unfold fetch_network_map. apply preserves_bind; [apply preserves_of_res|intros [? ?]].
  apply preserves_bind; [apply preserves_send|intros ?]. apply preserves_of_res.
Qed.

Lemma preserves_ensure st : preserves (ensure_backend_credentials st).
Proof.
  unfold ensure_backend_credentials. destruct (_ || _); [|apply preserves_ret].
  apply preserves_bind; [by apply preserves_on_backend|intros ?]. apply preserves_ret.
Qed.

Lemma preserves_register to_json m sd url login st : preserves (register_agent_if_needed to_json m sd url login st).
Proof.
  unfold register_agent_if_needed. case_bool_decide; [apply preserves_ret|].
  apply preserves_bind; [apply preserves_send|intros ?]. apply preserves_bind; [apply preserves_of_res|intros ?].
  apply preserves_bind; [apply preserves_save|intros ?]. apply preserves_ret.
Qed.

(** If the local configuration can never be applied, no synchronisation that sees a
    new map succeeds. *)
Lemma stuck_sync to_json m sd url st (w w' : world B Srv) r :
  (forall c b b', P b -> nb_apply_local_config c b <> Some (Ok tt, b')) -> P (w_backend w) -> w_last w = None ->
  sync_agent_once to_json m sd url st w = Some (r, w') -> r <> Ok tt.
Proof.
  intros Hstuck HP Hlast Hs ->. unfold sync_agent_once, apply_network_map_and_maintain_paths in Hs. agent_steps.
  destruct (keeps_heartbeat _ _ _ _ _ Hs0) as [K1 _]. destruct (keeps_fetch _ _ _ _ _ Hs1) as [K2 _].
  pose proof (preserves_fetch _ _ _ _ _ Hs1 (preserves_heartbeat _ _ _ _ _ Hs0 HP)) as HP'.
  unfold apply_network_map_if_changed in Hs2. rewrite bool_decide_eq_false_2 in Hs2 by congruence.
  unfold apply_network_map_to_backend in Hs2. agent_steps.
  match goal with H : on_backend (nb_apply_local_config _) _ = Some (Ok ?u, _) |- _ =>
    destruct u; apply on_backend_Ok in H as (b & Hb & _); exact (Hstuck _ _ _ HP' Hb) end.
Qed.

Lemma keeps_ensure st : keeps (ensure_backend_credentials (B := B) (Srv := Srv) st).
Proof.
  unfold ensure_backend_credentials. destruct (_ || _); [|by intros w r w' [= _ <-]].
  apply keeps_bind; [apply keeps_on_backend|intros ?]. by intros w r w' [= _ <-].
Qed.

Lemma keeps_register to_json m sd url login st :
  keeps (register_agent_if_needed (B := B) (Srv := Srv) to_json m sd url login st).
Proof.
  unfold register_agent_if_needed. case_bool_decide; [by intros w r w' [= _ <-]|].
  apply keeps_bind; [apply keeps_send|intros ?]. apply keeps_bind; [apply keeps_of_res|intros ?].
  apply keeps_bind; [apply keeps_save|intros ?]. by intros w r w' [= _ <-].
Qed.

(** Then the agent never gets as far as its loop. *)
Lemma stuck_agent to_json from_json display m sd url login listen start turns (w w' : world B Srv) r :
  (forall c b b', P b -> nb_apply_local_config c b <> Some (Ok tt, b')) -> P (w_backend w) ->
  agent_up to_json from_json display m sd url login listen start turns w = Some (r, w') -> forall x, r <> Ok x.
Proof.
  intros Hstuck HP H x ->. unfold agent_up in H.
  agent_steps. injection Hs0 as <- <-. injection Hs4 as <- <-.
  destruct (keeps_ensure _ _ _ _ Hs1) as [K1 _]. destruct (keeps_save _ _ _ _ _ _ _ Hs2) as [K2 _].
  destruct (keeps_register _ _ _ _ _ _ _ _ _ Hs3) as [K3 _].
  pose proof (preserves_register _ _ _ _ _ _ _ _ _ Hs3
    (preserves_save _ _ _ _ _ _ _ Hs2 (preserves_ensure _ _ _ _ Hs1 HP))) as HP'.
  destruct a5. by apply (stuck_sync _ _ _ _ _ _ _ _ Hstuck) in Hs5; [|done|cbn [w_last] in *; congruence].
Qed.

End preserves.

(** ** The custom backend *)

Section custom.
Context `{Pr : CryptoPrims}.
Context (to_custom : CustomBackendState -> string) (from_custom : string -> option CustomBackendState).
Context (display : message -> string) (env : nat -> CustomEnv).

#[local] Instance the_backend : NetworkBackend CustomRun := custom_backend to_custom from_custom display env.

(** With a guard held, the tasks can only be "started" where nothing starts. *)
Lemma start_transport_tasks_Ok self self' :
  start_transport_tasks self = Some (Ok tt, self') ->
  self' = self /\ (is_Some (transport_tasks (runtime self)) \/ tun_device (runtime self) = None \/
                   transport (runtime self) = None).
Proof.
  unfold start_transport_tasks. destruct (_ || _) eqn:E; [|done]. intros [= <-]. split; [done|].
  apply orb_true_iff in E as [[E|E]%orb_true_iff|E]; apply bool_decide_eq_true in E; auto.
Qed.

(** Where the interface is to be set up, the configuration is never applied with
    success, whatever the operating system answers. *)
Lemma local_config_never_Ok salts fs device bound config self self' :
  tun_setup_enabled self = true ->
  apply_local_config to_custom from_custom salts fs device bound config self <> Some (Ok tt, self').
Proof.
  intros Hen. unfold apply_local_config. destruct (load_state from_custom self) as [st| |]; [|done..].
  destruct (replace_state _ _ _ _ _) as [r self1] eqn:Er. destruct r as [[]| |]; [|done..].
  assert (tun_setup_enabled self1 = true) as Hen1.
  { unfold replace_state, save_state in Er. destruct (_ ← io_err (fs_create_dir fs); _) as [[]| |];
      [destruct (io_err (fs_chmod fs)) as [[]| |]|..]; by simplify_eq. }
  destruct (load_state from_custom self1) as [st1| |]; [|done..]. destruct (st_local_config st1); [|done].
  rewrite Hen1. cbn [negb]. destruct device as [dev| |]; [|done..]. unfold set_tun_device.
  destruct (start_transport_tasks _) as [[r2 self2]|] eqn:Es; [|done]. cbn [mbind option_bind].
  destruct r2 as [[]| |]; [|done..]. apply start_transport_tasks_Ok in Es as [-> _].
  unfold bind_transport. destruct bound as [t| |]; [|done..]. intros Hs.
  apply start_transport_tasks_Ok in Hs as [_ [H|[H|H]]]; [by destruct H|done..].
Qed.

Definition sets_up_tun (b : CustomRun) : Prop := tun_setup_enabled (cr_backend b) = true.

Lemma custom_call_keeps {A} (f : CustomEnv -> CustomBackend -> option (res BackendError A * CustomBackend)) b r b' :
  (forall e self r self', f e self = Some (r, self') -> tun_setup_enabled self' = tun_setup_enabled self) ->
  custom_call env f b = Some (r, b') -> sets_up_tun b -> sets_up_tun b'.
Proof.
  intros Hf. unfold custom_call. destruct (f _ _) as [[r0 self]|] eqn:E; [|done]. intros [= _ <-].
  unfold sets_up_tun. cbn [cr_backend]. by rewrite (Hf _ _ _ _ E).
Qed.

Lemma custom_status_keeps b r b' : nb_status b = Some (r, b') -> sets_up_tun b -> sets_up_tun b'.
Proof. apply custom_call_keeps. by intros e self r0 self' [= _ <-]. Qed.
Lemma custom_local_keeps b r b' : nb_local_endpoints b = Some (r, b') -> sets_up_tun b -> sets_up_tun b'.
Proof. apply custom_call_keeps. by intros e self r0 self' [= _ <-]. Qed.
Lemma custom_probe_keeps a t b r b' : nb_probe_public_endpoint a t b = Some (r, b') -> sets_up_tun b -> sets_up_tun b'.
Proof.
  apply custom_call_keeps. intros e self r0 self'. unfold probe_public_endpoint_blocking.
  destruct (transport _) as [t0|]; [|by intros [= _ <-]].
  destruct (transport_probe_public_endpoint _ _ _ _) as [[res t1]|]; [|done]. cbn [mbind option_bind].
  unfold start_transport_tasks. destruct (_ || _); [|done]. cbn [mbind option_bind]. by intros [= _ <-].
Qed.
Lemma custom_credentials_keeps b r b' : nb_ensure_credentials b = Some (r, b') -> sets_up_tun b -> sets_up_tun b'.
Proof.
  apply custom_call_keeps. intros e self r0 self' [= H]. unfold ensure_credentials in H.
  destruct (load_state _ _) as [st| |]; [|by injection H as _ <-..]. destruct (st_identity st) as [i|].
  - destruct (derive_public_credential _); [|by injection H as _ <-..]. destruct (negb _); by injection H as _ <-.
  - destruct (replace_state _ _ _ _ _) as [r1 self1] eqn:Er. injection H as _ <-.
    unfold replace_state, save_state in Er. destruct (_ ← io_err (fs_create_dir (ce_fs e)); _) as [[]| |];
      [destruct (io_err (fs_chmod (ce_fs e))) as [[]| |]|..]; by injection Er as _ <-.
Qed.

End custom.

(** C35: [tfscale-agent up] never gets as far as its loop.  Whatever the control plane,
    the operating system and the stored state are, the command does not end with
    success and does not reach its loop: it fails, or it never returns.  It never
    returns when everything works: with a readable state, a writable disk, a working
    interface and a free port, applying the local configuration waits for ever for
    a lock that it holds itself. *)
Theorem agent_up_never_ready `{CryptoPrims} {Srv} `{HttpServer Srv} to_custom from_custom to_json from_json display m
    (server : Srv) env start turns sd url login listen disk h :
  (forall r h', run_up to_custom from_custom to_json from_json display m server env start turns sd url login listen
     disk h = Some (r, h') -> forall out, r <> Ok out) /\
  ((forall s, from_custom (to_custom s) = Some s) ->
   forall (w : world CustomRun Srv) config st,
     let e := env (cr_calls (w_backend w)) in
     sets_up_tun (w_backend w) -> load_state from_custom (cr_backend (w_backend w)) = Ok st ->
     ce_fs e = fs_ok -> (exists dev, ce_tun e (from_local_config config) = Ok dev) ->
     (exists t, ce_bind e (lc_listen_port config) = Ok t) ->
     on_backend (nb_apply_local_config (NetworkBackend := custom_backend to_custom from_custom display env) config) w
       = None).
Proof.
  split.
  - intros r h' H1 out ->. unfold run_up in H1.
    destruct (agent_up _ _ _ _ _ _ _ _ _ _ _) as [[r w]|] eqn:E; [|done]. injection H1 as Hr _.
    destruct r as [x| |]; [|done..].
    refine (stuck_agent (NB := custom_backend to_custom from_custom display env) sets_up_tun
      (custom_status_keeps to_custom from_custom display env) (custom_local_keeps to_custom from_custom display env)
      (custom_probe_keeps to_custom from_custom display env) (custom_credentials_keeps to_custom from_custom display env)
      _ _ _ _ _ _ _ _ _ _ _ _ _ _ _ E x eq_refl).
    + intros c b b' Hb. unfold nb_apply_local_config, custom_backend, custom_call.
      destruct (apply_local_config _ _ _ _ _ _ _ _) as [[r0 self]|] eqn:Ea; [|done]. intros [= -> <-].
      exact (local_config_never_Ok _ _ _ _ _ _ _ _ _ Hb Ea).
    + done.
  - intros Hjson w config st e Hen Hl Hfs [dev Hdev] [t Ht]. unfold on_backend.
    assert (nb_apply_local_config (NetworkBackend := custom_backend to_custom from_custom display env) config
      (w_backend w) = None) as ->; [|done].
    unfold nb_apply_local_config, custom_backend, custom_call. fold e. rewrite Hfs, Hdev, Ht.
    by rewrite (local_config_deadlocks to_custom from_custom Hjson _ st).
Qed.

Definition toy_custom_env (_ : nat) : CustomEnv :=
  mkCustomEnv fs_ok 0 "1" key_a toy_salts (fun _ => Ok toy_tun) (fun _ => Ok toy_transport) (fun _ _ => inr 0%Z) []
    (inr tt).

Lemma agent_up_never_ready_witness :
  on_backend (Srv := scripted) (nb_apply_local_config
      (NetworkBackend := custom_backend (P := toy_prims) toy_to_json toy_from_json (fun _ => EmptyString) toy_custom_env)
      toy_config)
    (mkWorld (mkCustomRun (new_backend None) 0) [] empty_host (DnsRuntime_new []) None 0 []) = None.
Proof.
  apply (proj2 (agent_up_never_ready (H := toy_prims) (Srv := scripted) toy_to_json toy_from_json toy_json
    (fun _ => None) (fun _ => EmptyString) toy_machine [] toy_custom_env 0 [] "/s" "http://c" "key"
    (mkSocketAddr (V4 (Ipv4 127 0 0 1)) 1053) None empty_host) toy_json_roundtrip) with (st := CustomBackendState_default).
  - reflexivity.
  - reflexivity.
  - reflexivity.
  - by exists toy_tun.
  - by exists toy_transport.
Defined.
