(* ===== verification/ControlHttp.v ===== *)
(** * The control plane as an HTTP server ([tfscale-control/src/main.rs], [serve])

    The routes of [serve], the reading of path, query and body, and the responses,
    over the handlers of [Control].  Path parameters are taken as they are written:
    percent-encoding is not modelled. *)

From Stdlib Require Import ZArith Lia.
From stdpp Require Import prelude list strings gmap.
From S2P Require Import Prelude RustStd Protocol ControlDb Control ControlInv Http.

(** ** Routes *)

Inductive route : Type :=
| RHealthz | RAuthKeys | RDevices | RDnsRecords | RRelays | RDevice (device_id : string)
| RRegister | RHeartbeat | RNetworkMap | REndpointProbe.

Definition static_routes : list (string * route) :=
  [("/healthz", RHealthz); ("/v1/auth-keys", RAuthKeys); ("/v1/devices", RDevices);
   ("/v1/dns/records", RDnsRecords); ("/v1/relays", RRelays); ("/v1/agent/register", RRegister);
   ("/v1/agent/heartbeat", RHeartbeat); ("/v1/agent/network-map", RNetworkMap);
   ("/v1/agent/endpoint-probe", REndpointProbe)].

(** One path segment: not empty, and without a slash. *)
Definition segment (s : string) : bool := negb (is_empty s) && forallb (fun b => negb (b =? 47)%Z) (as_bytes s).

Fixpoint lookup_route (path : string) (l : list (string * route)) : option route :=
  match l with
  | [] => None
  | (p, r) :: l => if bool_decide (path = p) then Some r else lookup_route path l
  end.

Definition find_route (path : string) : option route :=
  match lookup_route path static_routes with
  | Some r => Some r
  | None =>
      match strip_prefix "/v1/devices/" path with
      | Some device_id => if segment device_id then Some (RDevice device_id) else None
      | None => None
      end
  end.

(** ** Responses *)

Definition NOT_FOUND : HttpResponse := mkHttpResponse 404 NoBody.
Definition METHOD_NOT_ALLOWED : HttpResponse := mkHttpResponse 405 NoBody.
(** The rejections of the extractors, with the text of [axum]. *)
Definition bad_query (text : Z -> string) : HttpResponse := mkHttpResponse 400 (TextBody (text 400%Z)).
Definition bad_json (text : Z -> string) (b : Body) : HttpResponse :=
  let code := match b with NoBody => 415%Z | _ => 422%Z end in
  mkHttpResponse code (TextBody (text code)).

(** [IntoResponse for ApiError] *)
Definition into_response (e : ApiError) : HttpResponse := mkHttpResponse (status e) (ErrorBody (error_message e)).

Definition query_param (name : string) (q : list (string * string)) : option string :=
  snd <$> List.find (fun p => bool_decide (fst p = name)) q.

(** What the server meets while it handles a request: the time, fresh UUID texts and
    the address of the client. *)
Record request_env : Type := mkRequestEnv {
  q_now : Z;
  q_ids : RegisterIds;
  q_addr : SocketAddr;
}.

(** The database, and the number of requests so far. *)
Record ControlServer : Type := mkControlServer { cs_db : db; cs_requests : nat }.

Section serve.
Context `{E : ControlEnv}.
Context (base : string) (state : AppState) (env : nat -> request_env).
(** The texts of the extractors' rejections, by status. *)
Context (text : Z -> string).

(** A handler's result as a response; a handler that panics drops the connection. *)
Definition respond {A} (wrap : A -> HttpResponse) (m : M A) (d : db) : (unit + HttpResponse) * db :=
  let '(r, d) := m d in
  (match r with
   | Ok a => inr (wrap a)
   | Err e => inr (into_response e)
   | Panic => inl tt
   end, d).

Definition json_ok (b : Body) : HttpResponse := mkHttpResponse 200 b.

Definition handle (e : request_env) (r : route) (q : HttpRequest) (d : db) : (unit + HttpResponse) * db :=
  let now := q_now e in
  match r, method q with
  | RHealthz, GET => (inr (json_ok (HealthBody true)), d)
  | RAuthKeys, POST =>
      respond (fun x => json_ok (CreateAuthKeyResponseBody x)) (create_auth_key now (u_device (q_ids e)) (u_node (q_ids e))) d
  | RDevices, GET => respond (fun x => json_ok (DeviceSummariesBody x)) list_devices d
  | RDnsRecords, GET => respond (fun x => json_ok (DnsRecordsBody x)) list_dns_records d
  | RRelays, GET => (inr (json_ok (RelaysBody (list_relays state))), d)
  | RDevice device_id, DELETE => respond (fun code => mkHttpResponse code NoBody) (delete_device now device_id) d
  | RDevice device_id, PATCH =>
      match request_body q with
      | RenameDeviceRequestBody b =>
          respond (fun x => json_ok (DeviceSummaryBody x)) (rename_device now (u_dns (q_ids e)) device_id b) d
      | b => (inr (bad_json text b), d)
      end
  | RRegister, POST =>
      match request_body q with
      | RegisterDeviceRequestBody b =>
          respond (fun x => json_ok (RegisterDeviceResponseBody x)) (register_device now (q_ids e) b) d
      | b => (inr (bad_json text b), d)
      end
  | RHeartbeat, POST =>
      match request_body q with
      | HeartbeatRequestBody b => respond (fun x => json_ok (HeartbeatResponseBody x)) (heartbeat now b) d
      | b => (inr (bad_json text b), d)
      end
  | RNetworkMap, GET =>
      match query_param "device_id" (query_params q), query_param "node_key" (query_params q) with
      | Some device_id, Some node_key =>
          respond (fun x => json_ok (NetworkMapResponseBody x))
            (network_map now state (mkNetworkMapQuery device_id node_key)) d
      | _, _ => (inr (bad_query text), d)
      end
  | REndpointProbe, POST =>
      match request_body q with
      | EndpointProbeRequestBody b =>
          respond (fun x => json_ok (EndpointProbeResponseBody x)) (endpoint_probe state (q_addr e) b) d
      | b => (inr (bad_json text b), d)
      end
  | _, _ => (inr METHOD_NOT_ALLOWED, d)
  end.

(** The server behind the address [base]. *)
#[export] Instance control_server : HttpServer ControlServer := fun q s =>
  match strip_prefix base (url q) with
  | None => Some (inl tt, s)
  | Some path =>
      let '(response, d) :=
        match find_route path with
        | Some r => handle (env (cs_requests s)) r q (cs_db s)
        | None => (inr NOT_FOUND, cs_db s)
        end in
      Some (response, mkControlServer d (S (cs_requests s)))
  end.

End serve.

(** ** Handlers answer properly

    [proper m]: [m] returns, and its errors are HTTP errors other than a refusal.
    [still m]: [m] only reads.  [certain m]: [m] succeeds.  [atomic m]: when [m]
    fails it has changed nothing. *)

Definition http_error_status (code : Z) : bool := in_range 400 599 code.
Definition other_error (e : ApiError) : bool := http_error_status (status e) && negb (status e =? 401)%Z.

Definition proper {A} (m : M A) : Prop :=
  forall d, match fst (m d) with Ok _ => True | Err e => other_error e = true | Panic => False end.
Definition still {A} (m : M A) : Prop := forall d, snd (m d) = d.
Definition certain {A} (m : M A) : Prop := forall d, is_ok (fst (m d)) = true.
Definition atomic {A} (m : M A) : Prop := forall d, is_ok (fst (m d)) = false -> snd (m d) = d.

Create HintDb proper.

Lemma proper_ret {A} (a : A) : proper (mret a).
Proof. done. Qed.
Lemma proper_raise {A} e : other_error e = true -> proper (@raise A e).
Proof. by intros H d. Qed.
Lemma proper_query {A} (f : db -> A) : proper (query f).
Proof. done. Qed.
Lemma proper_modify f : proper (modify f).
Proof. done. Qed.
Lemma proper_bind {A B} (m : M A) (f : A -> M B) : proper m -> (forall a, proper (f a)) -> proper (m ≫= f).
Proof.
  intros Hm Hf d. unfold mbind, M_bind. specialize (Hm d). destruct (m d) as [[a|e|] d']; [apply Hf|done..].
Qed.
Lemma proper_transaction {A} (m : M A) : proper m -> proper (transaction m).
Proof. intros Hm d. unfold transaction. specialize (Hm d). by destruct (m d) as [[a|e|] d']. Qed.
Lemma proper_if {A} (b : bool) (m n : M A) : proper m -> proper n -> proper (if b then m else n).
Proof. by destruct b. Qed.
Lemma proper_update id f : proper (update_device id f).
Proof. done. Qed.

Lemma insert_row_proper {A} cs (row : A) rows :
  match insert_row cs row rows with Ok _ => True | Err e => other_error e = true | Panic => False end.
Proof. unfold insert_row. by destruct (violated cs row rows). Qed.

Lemma proper_insert_auth_key row : proper (insert_auth_key row).
Proof.
  intros d. unfold insert_auth_key. pose proof (insert_row_proper auth_key_constraints row (auth_keys d)).
  by destruct (insert_row _ _ _).
Qed.
Lemma proper_insert_device row : proper (insert_device row).
Proof.
  intros d. unfold insert_device. pose proof (insert_row_proper device_constraints row (devices d)).
  by destruct (insert_row _ _ _).
Qed.
Lemma proper_insert_ip row : proper (insert_ip_allocation row).
Proof.
  intros d. unfold insert_ip_allocation. pose proof (insert_row_proper ip_constraints row (ip_allocations d)).
  by destruct (insert_row _ _ _).
Qed.
Lemma proper_upsert_dns row : proper (upsert_dns row).
Proof.
  intros d. unfold upsert_dns. destruct (existsb (same_device_type row) (dns_records d)).
  - by destruct (existsb _ _).
  - pose proof (insert_row_proper dns_constraints row (dns_records d)). by destruct (insert_row _ _ _).
Qed.
Lemma proper_upsert_endpoint row : proper (upsert_endpoint row).
Proof. intros d. unfold upsert_endpoint. by destruct (existsb _ _). Qed.

#[export] Hint Resolve proper_ret proper_query proper_modify proper_update proper_insert_auth_key
  proper_insert_device proper_insert_ip proper_upsert_dns proper_upsert_endpoint : proper.

(** Goes through the steps of a handler. *)
Ltac proper_step :=
  first
    [ solve [eauto with proper]
    | apply proper_raise; reflexivity
    | apply proper_transaction
    | apply proper_bind; [|intros ?]
    | apply proper_if
    | match goal with |- proper (match ?x with _ => _ end) => destruct x end ].
Ltac solve_proper_handler := repeat proper_step.

Lemma still_bind {A B} (m : M A) (f : A -> M B) : still m -> (forall a, still (f a)) -> still (m ≫= f).
Proof. intros Hm Hf d. unfold mbind, M_bind. specialize (Hm d). destruct (m d) as [[a|e|] d']; simpl in *; [by rewrite Hf|done..]. Qed.
Lemma still_match {A B} (m : M A) (f : B -> M A) (x : option B) :
  still m -> (forall b, still (f b)) -> still (match x with None => m | Some b => f b end).
Proof. by destruct x. Qed.

Lemma atomic_still {A} (m : M A) : still m -> atomic m.
Proof. intros Hm d _. apply Hm. Qed.
Lemma atomic_transaction {A} (m : M A) : atomic (transaction m).
Proof. intros d. unfold transaction. by destruct (m d) as [[a|e|] d']. Qed.
Lemma atomic_after {A B} (m : M A) (f : A -> M B) : still m -> (forall a, atomic (f a)) -> atomic (m ≫= f).
Proof.
  intros Hm Hf d. unfold mbind, M_bind. specialize (Hm d). destruct (m d) as [[a|e|] d']; simpl in *; subst; [apply Hf|done..].
Qed.
Lemma atomic_before {A B} (m : M A) (f : A -> M B) : atomic m -> (forall a, certain (f a)) -> atomic (m ≫= f).
Proof.
  intros Hm Hf d. unfold mbind, M_bind. specialize (Hm d). destruct (m d) as [[a|e|] d'] eqn:E; simpl in *; [|by auto..].
  specialize (Hf a d'). by rewrite Hf.
Qed.

Section handlers.
Context `{E : ControlEnv}.

(** ** Who is let in *)

(** The device with this identifier and node key, not deleted. *)
Definition knows_device (d : db) (device_id node_key : string) : bool :=
  existsb (fun v => live v && bool_decide (d_id v = device_id) && bool_decide (d_node_key v = node_key)) (devices d).
(** A key that was created, not revoked, and reusable or not used yet. *)
Definition usable_key (d : db) (key : string) : bool :=
  existsb (fun k => bool_decide (ak_key_hash k = hash_secret key) && bool_decide (ak_revoked_at k = None) &&
    (negb (ak_reusable k =? 0)%Z || bool_decide (ak_used_at k = None))) (auth_keys d).
(** A machine that is registered already. *)
Definition knows_machine (d : db) (machine_key : string) : bool :=
  existsb (fun v => live v && bool_decide (d_machine_key v = machine_key)) (devices d).

Lemma validate_device_run d id key :
  validate_device_node_key id key d =
  (if knows_device d id key then Ok tt else Err (unauthorized "invalid device credentials"), d).
Proof.
  unfold validate_device_node_key, mbind, M_bind, query, knows_device.
  destruct (List.find _ (devices d)) as [v|] eqn:F.
  - apply List.find_some in F as [Hin Hv]. rewrite (proj2 (existsb_exists _ _)); [done|]. exists v. split; [done|].
    by rewrite !andb_true_iff in *; naive_solver.
  - destruct (existsb _ _) eqn:Ex; [|done]. apply existsb_exists in Ex as (v & Hin & Hv).
    pose proof (List.find_none _ _ F v Hin) as Hn. cbv beta in Hn. rewrite !andb_true_iff in Hv.
    destruct Hv as [[H1 H2] H3]. by rewrite H1, H2, H3 in Hn.
Qed.

Lemma validate_key_run d key :
  db_inv d -> exists e, status e = 401%Z /\ validate_auth_key key d = (if usable_key d key then Ok tt else Err e, d).
Proof.
  intros Hi. unfold validate_auth_key, mbind, M_bind, query, usable_key.
  destruct (List.find _ (auth_keys d)) as [k|] eqn:F.
  - apply List.find_some in F as [Hin Hk]. to_prop.
    assert (existsb (fun k => bool_decide (ak_key_hash k = hash_secret key) && bool_decide (ak_revoked_at k = None) &&
      (negb (ak_reusable k =? 0)%Z || bool_decide (ak_used_at k = None))) (auth_keys d) =
      bool_decide (ak_revoked_at k = None) && (negb (ak_reusable k =? 0)%Z || bool_decide (ak_used_at k = None))) as ->.
    { apply eq_iff_eq_true. rewrite existsb_exists. split.
      - intros (k' & Hin' & Hk'). rewrite !andb_true_iff in *. destruct Hk' as [[Hh H1] H2]. to_prop.
        assert (k' = k) as ->; [|by split; [apply bool_decide_eq_true_2|]].
        apply (NoDup_fmap_inj ak_key_hash (auth_keys d)); [apply Hi|by apply list_elem_of_In..|congruence].
      - intros H. exists k. split; [done|]. by rewrite bool_decide_eq_true_2. }
    destruct (ak_revoked_at k) as [t|]; [exists (unauthorized "auth key revoked"); by split|].
    destruct (ak_used_at k) as [t|], (ak_reusable k =? 0)%Z; exists (unauthorized "auth key already used"); by split.
  - exists (unauthorized "invalid auth key"). split; [done|]. destruct (existsb _ _) eqn:Ex; [|done].
    apply existsb_exists in Ex as (k & Hin & Hk). pose proof (List.find_none _ _ F k Hin) as Hn. cbv beta in Hn.
    rewrite !andb_true_iff in Hk. destruct Hk as [[Hk _] _]. by rewrite Hk in Hn.
Qed.

(** ** The handlers, one by one *)

(** What a handler that lets in those with [ok] does: the others are refused, and
    every failure leaves the database as it was. *)
Definition answers_well {A} (ok : bool) (m : M A) (d : db) : Prop :=
  match m d with
  | (Ok _, _) => ok = true
  | (Err e, d') => http_error_status (status e) = true /\ d' = d /\ (status e = 401%Z <-> ok = false)
  | (Panic, _) => False
  end.

Lemma proper_answers {A} (m : M A) d : proper m -> atomic m -> answers_well true m d.
Proof.
  intros Hp Ha. specialize (Hp d). specialize (Ha d). unfold answers_well, other_error in *.
  destruct (m d) as [[a|e|] d']; simpl in *; [done| |done]. to_prop. split_and!; [done|by apply Ha|]. split; [done|by intros].
Qed.

Lemma guarded_answers {A} (ok : bool) (e : ApiError) (m : M A) (guard : M unit) d :
  guard d = (if ok then Ok tt else Err e, d) -> status e = 401%Z -> proper m -> atomic m ->
  answers_well ok (guard ≫= fun _ => m) d.
Proof.
  intros Hg He Hp Ha. pose proof (proper_answers m d Hp Ha) as Hm. unfold answers_well, mbind, M_bind in *. rewrite Hg.
  destruct ok; [exact Hm|]. by rewrite He.
Qed.

Lemma proper_summary id : proper (load_device_summary id).
Proof. unfold load_device_summary. solve_proper_handler. Qed.
Lemma proper_normalize v : proper (lift (normalize_hostname v)).
Proof.
  intros d. unfold lift, normalize_hostname.
  destruct (is_empty _); [done|]. destruct (63 <? _)%Z; [done|]. destruct (_ || _); [done|]. by destruct (negb _).
Qed.
Lemma proper_try_attempts n id h s l : proper (try_attempts n id h s l).
Proof.
  induction l as [|a l IH]; cbn [try_attempts]; [by apply proper_raise|].
  apply proper_bind; [apply proper_query|intros []]; [apply proper_ret|done].
Qed.
Lemma proper_upsert_device_dns now uuid n id h ip : proper (upsert_device_dns_record now uuid n id h ip).
Proof.
  unfold upsert_device_dns_record, available_dns_name, dns_name_available.
  pose proof proper_try_attempts. solve_proper_handler.
Qed.
Lemma proper_endpoints now id l : proper (upsert_endpoints now id l).
Proof. induction l as [|x l IH]; cbn [upsert_endpoints]; solve_proper_handler. Qed.
Lemma proper_load_peers now l : proper (load_peers now l).
Proof. induction l as [|x l IH]; cbn [load_peers]; unfold load_endpoints; solve_proper_handler. Qed.
Lemma still_load_peers now l : still (load_peers now l).
Proof.
  induction l as [|x l IH]; cbn [load_peers]; [done|]. apply still_bind; [done|intros ?].
  by apply still_bind; [exact IH|intros ?].
Qed.

#[local] Hint Resolve proper_summary proper_normalize proper_upsert_device_dns proper_endpoints proper_load_peers : proper.

Lemma proper_create now u1 u2 : proper (create_auth_key now u1 u2).
Proof. unfold create_auth_key. solve_proper_handler. Qed.
Lemma proper_delete now id : proper (delete_device now id).
Proof. unfold delete_device. solve_proper_handler. Qed.
Lemma proper_rename now u id q : proper (rename_device now u id q).
Proof. unfold rename_device. solve_proper_handler. Qed.

Lemma create_auth_key_answers now u1 u2 d : answers_well true (create_auth_key now u1 u2) d.
Proof.
  apply proper_answers; [apply proper_create|]. unfold create_auth_key. apply atomic_before; [|done].
  intros x. unfold insert_auth_key. by destruct (insert_row _ _ _).
Qed.

Lemma delete_device_answers now id d : answers_well true (delete_device now id) d.
Proof. apply proper_answers; [apply proper_delete|apply atomic_transaction]. Qed.

Lemma still_available_name n id h : still (available_dns_name n id h).
Proof.
  assert (forall s l, still (try_attempts n id h s l)) as Ht.
  { intros s l. induction l as [|a l IH]; cbn [try_attempts]; [done|]. by apply still_bind; [done|intros []]. }
  unfold available_dns_name. apply still_bind; [done|intros []]; [done|]. by apply still_bind; [done|intros []].
Qed.

(** The summary that is loaded after the transaction is there. *)
Lemma rename_device_answers now u id q d : answers_well true (rename_device now u id q) d.
Proof.
  apply proper_answers; [apply proper_rename|]. unfold rename_device. apply atomic_after; [done|intros h].
  intros x. match goal with |- context [transaction ?b] => set (body := b) end. unfold mbind, M_bind.
  destruct (transaction body x) as [[[]|e|] x'] eqn:T; cbn [fst snd];
    [|by intros _; apply (transaction_rollback _ _ _ _ T)..].
  apply transaction_Ok in T. apply M_bind_Ok in T as (n & x1 & _ & T). destruct (n =? 0)%nat; [done|].
  apply M_bind_Ok in T as (v & x2 & Hv & T).
  assert (x2 = x1) as -> by (unfold load_device_summary, mbind, M_bind, query in Hv; by destruct (List.find _ _); injection Hv).
  assert (devices x' = devices x1) as Hd.
  { apply M_bind_Ok in T as (name & x3 & Hn & T).
    assert (x3 = x1) as ->.
    { pose proof (still_available_name NET_DEFAULT (ds_id v) (ds_hostname v) x1) as Hs. by rewrite Hn in Hs. }
    unfold upsert_dns in T. repeat case_match; by simplify_eq/=. }
  unfold load_device_summary, mbind, M_bind, query in *. rewrite Hd. by destruct (List.find _ _).
Qed.

Lemma register_device_answers now ids q d :
  db_inv d -> answers_well (knows_machine d (rd_machine_key q) || usable_key d (rd_auth_key q)) (register_device now ids q) d.
Proof.
  intros Hi. unfold answers_well, register_device, mbind at 1, M_bind at 1, find_existing_device, query, knows_machine.
  destruct (List.find _ (devices d)) as [v|] eqn:F; cbn [fmap option_fmap option_map].
  - apply List.find_some in F as [Hin Hv]. rewrite (proj2 (existsb_exists _ _)); [done|]. exists v. split; [done|].
    by rewrite andb_comm.
  - assert (existsb (fun v => live v && bool_decide (d_machine_key v = rd_machine_key q)) (devices d) = false) as ->.
    { apply not_true_iff_false. intros (v & Hin & Hv)%existsb_exists. pose proof (List.find_none _ _ F v Hin) as Hn.
      cbv beta in Hn. by rewrite andb_comm, Hv in Hn. }
    cbn [orb]. destruct (validate_key_run d (rd_auth_key q) Hi) as (e & He & Hrun).
    apply (guarded_answers _ e _ _ d Hrun He).
    + unfold allocate_ipv4, register_commit. solve_proper_handler.
    + apply atomic_after; [done|intros h]. apply atomic_after; [|intros ip; apply atomic_transaction].
      intros x. unfold allocate_ipv4, mbind, M_bind, query. by destruct (254 <? _)%Z.
Qed.

Lemma heartbeat_guards now q d :
  answers_well (knows_device d (hb_device_id q) (hb_node_key q)) (heartbeat now q) d.
Proof.
  apply (guarded_answers _ _ _ _ d (validate_device_run d _ _)); [done| |].
  - unfold network_map_version. solve_proper_handler.
  - apply atomic_before; [apply atomic_transaction|]. intros ? x. done.
Qed.

Lemma endpoint_probe_answers st addr q d :
  answers_well (knows_device d (epq_device_id q) (epq_node_key q)) (endpoint_probe st addr q) d /\ still (endpoint_probe st addr q).
Proof.
  split.
  - apply (guarded_answers _ _ _ _ d (validate_device_run d _ _)); [done|solve_proper_handler|].
    apply atomic_still. intros x. by destruct (negb _).
  - intros x. unfold endpoint_probe, mbind, M_bind. rewrite validate_device_run.
    destruct (knows_device _ _ _); [|done]. by destruct (negb _).
Qed.

Lemma network_map_answers now st q d :
  answers_well (knows_device d (nmq_device_id q) (nmq_node_key q)) (network_map now st q) d /\ still (network_map now st q).
Proof.
  assert (still (self_row ← query (fun d => List.find (fun r => bool_decide (d_id r = nmq_device_id q) && live r) (devices d));
    match self_row with
    | None => raise row_not_found
    | Some self_row =>
        peer_rows ← query (fun d => sort_by (fun x y => str_leb (d_hostname x) (d_hostname y))
          (List.filter (fun r => negb (bool_decide (d_id r = nmq_device_id q)) && live r) (devices d)));
        peers ← load_peers now peer_rows;
        version ← network_map_version;
        records ← load_dns_records;
        mret (mkNetworkMapResponse version
                (mkNetworkMapSelf (d_id self_row) (d_hostname self_row) (d_ipv4 self_row)
                   (d_backend_type self_row)) peers records (relays st))
    end)) as Hs.
  { apply still_bind; [done|intros r]. apply still_match; [done|intros v]. apply still_bind; [done|intros ps].
    apply still_bind; [apply still_load_peers|intros ?]. by repeat (apply still_bind; [done|intros ?]). }
  split.
  - apply (guarded_answers _ _ _ _ d (validate_device_run d _ _)); [done| |by apply atomic_still].
    unfold network_map_version, load_dns_records. solve_proper_handler.
  - intros x. unfold network_map. unfold mbind at 1, M_bind at 1. rewrite validate_device_run.
    destruct (knows_device _ _ _); [apply Hs|done].
Qed.

End handlers.

#[export] Hint Resolve proper_create proper_delete proper_rename : proper.

Lemma delete_device_status `{ControlEnv} now id d code d' :
  delete_device now id d = (Ok code, d') -> code = 204%Z.
Proof.
  intros Hd%transaction_Ok. apply M_bind_Ok in Hd as (n & d2 & _ & Hd). destruct (n =? 0)%nat; [done|].
  apply M_bind_Ok in Hd as (u & d3 & _ & Hd). by injection Hd as <- _.
Qed.

(** ** Properties *)

(** Who may send a request: devices with their credentials, machines with a key, and
    anybody else the requests that ask for none. *)
Definition authorized `{ControlEnv} (d : db) (r : route) (q : HttpRequest) : bool :=
  match r, method q, request_body q with
  | RHeartbeat, POST, HeartbeatRequestBody b => knows_device d (hb_device_id b) (hb_node_key b)
  | REndpointProbe, POST, EndpointProbeRequestBody b => knows_device d (epq_device_id b) (epq_node_key b)
  | RRegister, POST, RegisterDeviceRequestBody b => knows_machine d (rd_machine_key b) || usable_key d (rd_auth_key b)
  | RNetworkMap, GET, _ =>
      match query_param "device_id" (query_params q), query_param "node_key" (query_params q) with
      | Some device_id, Some node_key => knows_device d device_id node_key
      | _, _ => true
      end
  | _, _, _ => true
  end.

(** A response that is as it should be: [ok] for who asked, [d] and [d'] the
    database before and after. *)
Definition fitting (ok get : bool) (d : db) (x : (unit + HttpResponse) * db) : Prop :=
  exists r d', x = (inr r, d') /\ (status_code r = 401%Z <-> ok = false) /\
    (is_success (status_code r) = false -> d' = d) /\ (get = true -> d' = d).

Lemma respond_fitting {A} ok get (wrap : A -> HttpResponse) (m : M A) d :
  answers_well ok m d -> (get = true -> still m) ->
  (forall a d', m d = (Ok a, d') -> is_success (status_code (wrap a)) = true) -> fitting ok get d (respond wrap m d).
Proof.
  unfold answers_well, respond, fitting. intros Hm Hg Hw. destruct (m d) as [[a|e|] d'] eqn:Em; [| |done].
  - specialize (Hw a d' eq_refl). eexists _, _. split; [done|]. rewrite Hm. split_and!.
    + split; [|done]. intros Hx. by rewrite Hx in Hw.
    + by rewrite Hw.
    + intros Hget. specialize (Hg Hget d). by rewrite Em in Hg.
  - destruct Hm as (He & -> & H401). by eexists _, _.
Qed.

Lemma plain_fitting get d r : status_code r <> 401%Z -> fitting true get d (inr r, d).
Proof. intros Hr. exists r, d. split; [done|]. split_and!; try done. Qed.

Lemma handle_fitting `{ControlEnv} state text e rt q d :
  db_inv d -> fitting (authorized d rt q) (match method q with GET => true | _ => false end) d (handle state text e rt q d).
Proof.
  intros Hi. unfold handle, authorized.
  destruct rt, (method q) eqn:Hm; try (by apply plain_fitting); try destruct (request_body q); try (by apply plain_fitting);
    try (destruct (query_param "device_id" _); [destruct (query_param "node_key" _)|]; try (by apply plain_fitting));
    apply respond_fitting; try done;
    try first [apply create_auth_key_answers|apply delete_device_answers|apply rename_device_answers
      |by apply register_device_answers|apply heartbeat_guards|apply endpoint_probe_answers
      |apply (network_map_answers _ _ (mkNetworkMapQuery _ _))|intros _; apply (network_map_answers _ _ _ d)].
  all: by intros code d' ->%delete_device_status.
Qed.

(** C28: requests are let in, refused and undone properly.  Whatever the path, the
    method, the query and the body are, on a database that keeps the invariant and
    answers: the response is a refusal, 401, exactly when the request asks for
    credentials that are not valid (the node key of a live device; for a
    registration a known machine or a usable key); a response that is no success
    leaves the database exactly as it was, and so does every [GET]; an unknown path
    is answered with 404. *)
Theorem control_guards_requests `{ControlEnv} base state env text q s path :
  url q = base +:+ path -> db_inv (cs_db s) ->
  exists r s', control_server base state env text q s = Some (inr r, s') /\
    (status_code r = 401%Z <-> exists rt, find_route path = Some rt /\ authorized (cs_db s) rt q = false) /\
    (is_success (status_code r) = false -> cs_db s' = cs_db s) /\
    (method q = GET -> cs_db s' = cs_db s) /\
    (find_route path = None -> status_code r = 404%Z).
Proof.
  intros Hurl Hi. unfold control_server. rewrite Hurl, strip_prefix_app.
  destruct (find_route path) as [rt|].
  - destruct (handle_fitting state text (env (cs_requests s)) rt q (cs_db s) Hi) as (r & d' & -> & H401 & Hf & Hg).
    eexists _, _. split; [done|]. cbn [cs_db]. split_and!; [|done| |done].
    + rewrite H401. split; [by exists rt|]. by intros (rt' & [= <-] & ?).
    + intros Hm. apply Hg. by rewrite Hm.
  - eexists _, _. split; [done|]. split_and!; try done. split; [done|]. by intros (? & ? & _).
Qed.

Lemma control_guards_requests_witness :
  let env _ := mkRequestEnv 0 (mkRegisterIds "1" "2" "3" "4") (mkSocketAddr (V4 (Ipv4 127 0 0 1)) 40000) in
  let state := mkAppState (mkSocketAddr (V4 (Ipv4 127 0 0 1)) 3478) [] in
  let E := Build_ControlEnv (fun _ => "00") (fun _ => "now") (fun _ => None) in
  let q := mkHttpRequest GET "http://c/v1/agent/network-map" [("device_id", "dev_1"); ("node_key", "node_2")] NoBody in
  exists r s', control_server (E := E) "http://c" state env (fun _ => EmptyString) q (mkControlServer empty_db 0) = Some (inr r, s') /\
    status_code r = 401%Z /\ cs_db s' = empty_db.
Proof.
  intros env state E q.
  destruct (control_guards_requests (H := E) "http://c" state env (fun _ => EmptyString) q (mkControlServer empty_db 0)
    "/v1/agent/network-map" eq_refl db_inv_empty) as (r & s' & H & H401 & _ & Hg & _).
  exists r, s'. split; [exact H|]. split; [|by apply Hg]. apply H401. exists RNetworkMap. split; vm_compute; reflexivity.
Defined.
