(* ===== verification/History.v ===== *)
(** * Histories of the control plane

    The calls that change the database, as data, so that what happens between two
    moments is a list of calls; what such a history leaves of a device and of an
    endpoint that it reported; and the control plane as a server that other clients
    use at the same time. *)

From Stdlib Require Import ZArith Lia.
From stdpp Require Import prelude list strings gmap.
From S2P Require Import Prelude RustStd RustText Protocol Platform Http SystemFiles Dns NetBackend Agent AgentProps ControlDb Control ControlInv ControlProps ControlHttp.

(** ** Calls *)

Section calls.
Context `{E : ControlEnv}.

(** The steps of [control_step]; a registration is its checks and, later, its
    transaction, the [i]-th of those that are under way. *)
Inductive control_call : Type :=
| CallCreateKey (now : Z) (u1 u2 : string)
| CallDelete (now : Z) (device_id : string)
| CallRename (now : Z) (uuid device_id : string) (request : RenameDeviceRequest)
| CallHeartbeat (now : Z) (request : HeartbeatRequest)
| CallAllocate (p : pending)
| CallCommit (i : nat).

(** A call that is not possible changes nothing. *)
Definition control_do (s : db * list pending) (c : control_call) : db * list pending :=
  let '(d, ps) := s in
  match c with
  | CallCreateKey now u1 u2 => (snd (create_auth_key now u1 u2 d), ps)
  | CallDelete now id => (snd (delete_device now id d), ps)
  | CallRename now uuid id request => (snd (rename_device now uuid id request d), ps)
  | CallHeartbeat now request => (snd (heartbeat now request d), ps)
  | CallAllocate p =>
      match fst (allocate_ipv4 d) with
      | Ok ip => if bool_decide (ip = p_ipv4 p) then (d, p :: ps) else s
      | _ => s
      end
  | CallCommit i =>
      match ps !! i with
      | Some p =>
          (snd (register_commit (p_now p) (p_ids p) (p_request p) (p_hostname p) (p_ipv4 p) d), delete i ps)
      | None => s
      end
  end.

Definition control_history (s : db * list pending) (calls : list control_call) : db * list pending :=
  fold_left control_do calls s.

Lemma still_allocate : still allocate_ipv4.
Proof. intros d. unfold allocate_ipv4, mbind, M_bind, query. by destruct (254 <? _)%Z. Qed.

(** The histories are the runs of the transition system of [ControlInv]. *)
Lemma control_do_step s c : control_do s c = s \/ control_step s (control_do s c).
Proof.
  destruct s as [d ps], c as [now u1 u2|now id|now uuid id request|now request|p|i]; cbn [control_do]; try (right; constructor).
  - destruct (fst (allocate_ipv4 d)) as [ip| |] eqn:Ea; [|by left..]. case_bool_decide as Hip; [|by left]. subst ip.
    right. apply step_allocate. rewrite <- Ea. pose proof (still_allocate d). by destruct (allocate_ipv4 d); simpl in *; subst.
  - destruct (ps !! i) as [p|] eqn:Ep; [|by left]. right. rewrite delete_take_drop.
    rewrite <- (take_drop_middle ps i p Ep) at 1. apply step_commit.
Qed.

Lemma history_reachable s calls : control_reachable s -> control_reachable (control_history s calls).
Proof.
  revert s. induction calls as [|c calls IH]; intros s Hs; [done|]. apply IH.
  destruct (control_do_step s c) as [->|Hstep]; [done|]. by eapply control_next.
Qed.

(** ** What becomes of a device *)

(** The columns of a device that never change while it is there. *)
Definition same_device (v v' : DeviceRow) : Prop :=
  d_id v' = d_id v /\ d_machine_key v' = d_machine_key v /\ d_node_key v' = d_node_key v /\
  d_ipv4 v' = d_ipv4 v /\ d_network_id v' = d_network_id v /\
  d_backend_public_credential v' = d_backend_public_credential v /\ live v' = live v.

(** Every device of [d] but [gone] is in [d'] with these columns. *)
Definition keeps_devices (gone : option string) (d d' : db) : Prop :=
  forall v, v ∈ devices d -> gone <> Some (d_id v) -> exists v', v' ∈ devices d' /\ same_device v v'.

Lemma keeps_devices_same gone d d' : devices d' = devices d -> keeps_devices gone d d'.
Proof. intros Hd v Hv _. exists v. by rewrite Hd. Qed.

Lemma keeps_devices_update gone id f d d' :
  (forall v, gone <> Some (d_id v) -> same_device v (f v)) \/ gone = Some id ->
  devices d' = update_where (fun r => bool_decide (d_id r = id) && live r) f (devices d) -> keeps_devices gone d d'.
Proof.
  intros Hf Hd v Hv Hg. rewrite Hd. eexists. split; [apply elem_of_update_where; by exists v|].
  case_bool_decide as Hid; cbn [andb]; [|done]. destruct (live v) eqn:Hl; [|done].
  destruct Hf as [Hf|Hf]; [by apply Hf|]. by subst id.
Qed.

Lemma create_keeps_devices now u1 u2 d : devices (snd (create_auth_key now u1 u2 d)) = devices d.
Proof. unfold create_auth_key, mbind, M_bind, insert_auth_key. by destruct (insert_row _ _ _). Qed.

(** A deletion: nothing, or the row is marked. *)
Lemma delete_run now id d :
  snd (delete_device now id d) = d \/
  devices (snd (delete_device now id d)) =
    update_where (fun r => bool_decide (d_id r = id) && live r) (set_deleted now) (devices d) /\
  endpoints (snd (delete_device now id d)) = endpoints d.
Proof.
  unfold delete_device, transaction. set (body := mbind (M := M) _ _). destruct (body d) as [r d1] eqn:Eb.
  destruct r as [code| |]; [right|by left..]. unfold body in Eb.
  apply M_bind_Ok in Eb as (n & d2 & H2 & Eb). injection H2 as _ <-. destruct (n =? 0)%nat; [done|].
  apply M_bind_Ok in Eb as (u & d3 & H3 & Eb). injection H3 as _ <-. by injection Eb as _ <-.
Qed.

Lemma upsert_record_frame now uuid n id h ip d :
  let d' := snd (upsert_device_dns_record now uuid n id h ip d) in devices d' = devices d /\ endpoints d' = endpoints d.
Proof.
  cbn zeta. unfold upsert_device_dns_record, mbind, M_bind. pose proof (still_available_name n id h d) as Hs.
  destruct (available_dns_name n id h d) as [[name| |] d1]; simpl in *; subst; [|done..].
  unfold upsert_dns. by repeat case_match.
Qed.

Lemma still_summary id : still (load_device_summary id).
Proof. intros d. unfold load_device_summary, mbind, M_bind, query. by destruct (List.find _ _). Qed.

(** A new name: nothing, or the row has it. *)
Lemma rename_run now uuid id request d :
  let d' := snd (rename_device now uuid id request d) in
  d' = d \/ endpoints d' = endpoints d /\ exists h,
    devices d' = update_where (fun r => bool_decide (d_id r = id) && live r) (set_hostname now h) (devices d).
Proof.
  cbn zeta. destruct (rename_device now uuid id request d) as [r d'] eqn:Hh. cbn [snd]. unfold rename_device in Hh.
  unfold mbind at 1, M_bind at 1, lift in Hh. destruct (normalize_hostname _) as [h| |]; [|injection Hh as _ <-; by left..].
  match type of Hh with context [transaction ?b] => set (body := b) in Hh end. unfold mbind, M_bind in Hh.
  destruct (transaction body d) as [r1 d1] eqn:T.
  destruct r1 as [[]| |]; [|injection Hh as _ <-; left; by rewrite (transaction_rollback _ _ _ _ T)..].
  pose proof (still_summary id d1) as Hs. rewrite Hh in Hs. cbn [snd] in Hs. subst d'. right.
  apply transaction_Ok in T. apply M_bind_Ok in T as (n & d2 & H2 & T). injection H2 as _ <-.
  destruct (n =? 0)%nat; [done|]. apply M_bind_Ok in T as (v & d3 & H3 & T).
  match type of H3 with _ ?x = _ => pose proof (still_summary id x) as Hs end. rewrite H3 in Hs. cbn [snd] in Hs. subst d3.
  match type of T with _ ?x = _ =>
    destruct (upsert_record_frame now uuid NET_DEFAULT (ds_id v) (ds_hostname v) (ds_ipv4 v) x) as [Hd He] end.
  rewrite T in Hd, He. split; [exact He|]. exists h. exact Hd.
Qed.

Lemma upsert_endpoints_devices now dev l d : devices (snd (upsert_endpoints now dev l d)) = devices d.
Proof.
  revert d. induction l as [|x l IH]; intros d; cbn [upsert_endpoints]; [done|]. unfold mbind, M_bind.
  destruct (upsert_endpoint _ d) as [r1 d1] eqn:E1.
  assert (devices d1 = devices d) as Hd by (unfold upsert_endpoint in E1; destruct (existsb _ _); by injection E1 as _ <-).
  destruct r1; [by rewrite IH|done..].
Qed.

(** The endpoints that a heartbeat starts from: those of the device that have
    expired are gone. *)
Definition unexpired (now : Z) (dev : string) (rows : list EndpointRow) : list EndpointRow :=
  List.filter (fun r => negb (bool_decide (e_device_id r = dev) && expired now r)) rows.

(** A heartbeat: refused, or the device is seen, its expired endpoints go and the
    reported ones are stored. *)
Lemma heartbeat_run now request d :
  snd (heartbeat now request d) = d \/
  knows_device d (hb_device_id request) (hb_node_key request) = true /\
  exists d1, devices d1 = update_where (fun r => bool_decide (d_id r = hb_device_id request) && live r) (set_seen now) (devices d) /\
    endpoints d1 = unexpired now (hb_device_id request) (endpoints d) /\
    upsert_endpoints now (hb_device_id request) (hb_endpoints request) d1 =
      (Ok tt, snd (heartbeat now request d)).
Proof.
  destruct (heartbeat now request d) as [r d'] eqn:Hh. cbn [snd]. unfold heartbeat in Hh.
  unfold mbind at 1, M_bind at 1 in Hh. rewrite validate_device_run in Hh.
  destruct (knows_device _ _ _); [|left; by injection Hh as _ <-].
  match type of Hh with context [transaction ?b] => set (body := b) in Hh end.
  unfold mbind, M_bind in Hh. destruct (transaction body d) as [r1 d1] eqn:T.
  destruct r1 as [[]| |]; [|injection Hh as _ <-; left; by rewrite (transaction_rollback _ _ _ _ T)..].
  injection Hh as _ <-. right. split; [done|].
  apply transaction_Ok in T. apply M_bind_Ok in T as (n & d2 & H1 & T). injection H1 as _ <-.
  apply M_bind_Ok in T as ([] & d3 & H2 & T). injection H2 as <-. eexists. split_and!; [| |exact T]; done.
Qed.

Lemma heartbeat_keeps_devices now request d : keeps_devices None d (snd (heartbeat now request d)).
Proof.
  destruct (heartbeat_run now request d) as [->|(_ & d1 & Hd & _ & Hu)]; [by apply keeps_devices_same|].
  pose proof (upsert_endpoints_devices now (hb_device_id request) (hb_endpoints request) d1) as Hd'.
  rewrite Hu in Hd'. cbn [snd] in Hd'. eapply keeps_devices_update; [left|by rewrite Hd', Hd]. by intros ?.
Qed.

Lemma commit_keeps now ids q h ip d :
  keeps_devices None d (snd (register_commit now ids q h ip d)) /\
  endpoints (snd (register_commit now ids q h ip d)) = endpoints d.
Proof.
  unfold register_commit, transaction. match goal with |- context [mbind (M := M) ?f ?m] => set (body := mbind f m) end.
  destruct (body d) as [r d'] eqn:Eb. destruct r as [resp| |]; [|split; [by apply keeps_devices_same|done]..]. cbn [snd].
  unfold body in Eb. apply M_bind_Ok in Eb as ([] & d1 & H1 & Eb). apply M_bind_Ok in Eb as ([] & d2 & H2 & Eb).
  apply M_bind_Ok in Eb as ([] & d3 & H3 & Eb). apply M_bind_Ok in Eb as ([] & d4 & H4 & Eb).
  injection H4 as <-. injection Eb as _ <-. unfold keeps_devices. cbn [devices endpoints set_auth_keys].
  assert (devices d3 = devices d2 /\ endpoints d3 = endpoints d2) as [-> ->].
  { unfold insert_ip_allocation in H3. destruct (insert_row _ _ _); by simplify_eq/=. }
  destruct (upsert_record_frame now (u_dns ids) NET_DEFAULT (new_id "dev" (u_device ids)) h ip d1) as [Hd He].
  rewrite H2 in Hd, He. cbn [snd] in Hd, He. rewrite Hd, He. clear Hd He.
  unfold insert_device in H1. destruct (insert_row _ _ _) as [rows| |] eqn:Er; [|done..]. injection H1 as <-.
  cbn [devices endpoints set_devices]. split; [|done]. intros v Hv _. exists v. split; [|done].
  unfold insert_row in Er. destruct (violated _ _ _); [done|]. injection Er as <-. apply elem_of_app. by left.
Qed.

(** The device a call deletes. *)
Definition deletes (c : control_call) : option string := match c with CallDelete _ id => Some id | _ => None end.

Lemma control_do_devices s c : keeps_devices (deletes c) (fst s) (fst (control_do s c)).
Proof.
  destruct s as [d ps], c as [now u1 u2|now id|now uuid id request|now request|p|i]; cbn [control_do deletes fst].
  - apply keeps_devices_same, create_keeps_devices.
  - destruct (delete_run now id d) as [->|[Hd _]]; [by apply keeps_devices_same|].
    eapply keeps_devices_update; [by right|exact Hd].
  - destruct (rename_run now uuid id request d) as [->|(_ & h & Hd)]; [by apply keeps_devices_same|].
    eapply (keeps_devices_update _ id (set_hostname now h)); [left; by intros ?|exact Hd].
  - apply heartbeat_keeps_devices.
  - destruct (fst (allocate_ipv4 d)); [case_bool_decide|..]; by apply keeps_devices_same.
  - destruct (ps !! i); [apply commit_keeps|by apply keeps_devices_same].
Qed.

(** Only heartbeats touch the endpoints. *)
Lemma control_do_endpoints s c :
  (forall now request, c <> CallHeartbeat now request) -> endpoints (fst (control_do s c)) = endpoints (fst s).
Proof.
  intros Hc. destruct s as [d ps], c as [now u1 u2|now id|now uuid id request|now request|p|i]; cbn [control_do fst].
  - unfold create_auth_key, mbind, M_bind, insert_auth_key. by destruct (insert_row _ _ _).
  - by destruct (delete_run now id d) as [->|[_ He]].
  - by destruct (rename_run now uuid id request d) as [->|(He & _)].
  - by destruct (Hc now request).
  - destruct (fst (allocate_ipv4 d)); [case_bool_decide|..]; done.
  - destruct (ps !! i); [apply commit_keeps|done].
Qed.

(** ** Registration again *)

(** Devices stay through calls that delete others. *)
Lemma keeps_history calls s v :
  v ∈ devices (fst s) -> Forall (fun c => deletes c <> Some (d_id v)) calls ->
  exists v', v' ∈ devices (fst (control_history s calls)) /\ same_device v v'.
Proof.
  intros Hv Hc. revert s v Hv Hc. induction calls as [|c calls IH]; intros s v Hv Hc; [by exists v|].
  apply Forall_cons in Hc as [Hc Hcs]. destruct (control_do_devices s c v Hv Hc) as (v1 & Hv1 & Hs1).
  destruct (IH (control_do s c) v1 Hv1) as (v2 & Hv2 & Hs2); [by rewrite (proj1 Hs1)|].
  exists v2. split; [done|]. unfold same_device in *. destruct_and!. split_and!; congruence.
Qed.

(** The answer to a machine that is registered. *)
Definition device_response (v : DeviceRow) : RegisterDeviceResponse :=
  mkRegisterDeviceResponse (d_id v) (d_node_key v) (d_ipv4 v) (d_network_id v) 5.

Lemma register_row now ids request d resp d' :
  db_inv d -> register_device now ids request d = (Ok resp, d') ->
  exists v, v ∈ devices d' /\ live v = true /\ d_machine_key v = rd_machine_key request /\ resp = device_response v.
Proof.
  intros Hi [[-> Hf]|(hostname & _ & _ & Hlt & Hc)]%register_device_Ok.
  - unfold find_existing_device, query in Hf. injection Hf as Hf. destruct (List.find _ _) as [v|] eqn:Ef; [|done].
    apply find_elem_of in Ef as [Hv Hp]. to_prop. injection Hf as <-. by exists v.
  - apply register_commit_Ok in Hc as (name & -> & _ & Hd & _); [|done]. eexists. rewrite Hd.
    split; [apply elem_of_app; right; by left|done].
Qed.

Lemma register_known now ids request d v :
  db_inv d -> v ∈ devices d -> live v = true -> d_machine_key v = rd_machine_key request ->
  register_device now ids request d = (Ok (device_response v), d).
Proof.
  intros Hi Hv Hl Hm. unfold register_device. rewrite <- Hm.
  by rewrite (M_bind_run _ _ _ _ _ (find_existing_unique d v Hi Hv Hl)).
Qed.

(** A registration without anything in between is a history, too. *)
Lemma register_reachable now ids request d resp d' ps :
  control_reachable (d, ps) -> register_device now ids request d = (Ok resp, d') -> control_reachable (d', ps).
Proof.
  intros Hr [[-> _]|(h & _ & _ & Hlt & Hc)]%register_device_Ok; [done|].
  set (p := mkPending now ids request h (pool_ip (length (ip_allocations d)))).
  replace d' with (snd (register_commit (p_now p) (p_ids p) (p_request p) (p_hostname p) (p_ipv4 p) d))
    by (unfold p; cbn [p_now p_ids p_request p_hostname p_ipv4]; by rewrite Hc).
  eapply control_next; [|exact (step_commit p d [] ps)]. eapply control_next; [exact Hr|]. apply step_allocate.
  unfold allocate_ipv4, mbind, M_bind, query, raise, mret, M_ret. destruct (254 <? _)%Z eqn:Hb; [to_prop; lia|done].
Qed.

(** A machine that was registered is given the same identity again, whatever else
    happened, unless its device was deleted. *)
Lemma register_again now ids request d resp d' ps calls now' ids' request' :
  control_reachable (d, ps) -> register_device now ids request d = (Ok resp, d') ->
  Forall (fun c => deletes c <> Some (rr_device_id resp)) calls -> rd_machine_key request' = rd_machine_key request ->
  let d2 := fst (control_history (d', ps) calls) in register_device now' ids' request' d2 = (Ok resp, d2).
Proof.
  intros Hr Hreg Hc Hm d2. pose proof (history_reachable _ calls (register_reachable _ _ _ _ _ _ _ Hr Hreg)) as Hr2.
  pose proof (proj1 (control_reachable_inv _ Hr2)) as Hi2.
  destruct (register_row _ _ _ _ _ _ (proj1 (control_reachable_inv _ Hr)) Hreg) as (v & Hv & Hl & Hk & ->).
  destruct (keeps_history calls (d', ps) v Hv Hc) as (v' & Hv' & H1 & H2 & H3 & H4 & H5 & _ & H7).
  replace (device_response v) with (device_response v') by (unfold device_response; congruence).
  apply register_known; [done..|congruence|congruence].
Qed.

End calls.

(** ** What becomes of an endpoint *)

(** The vertical bar separates the parts of an endpoint's identifier; the identifiers
    of devices are [dev_] and a UUID. *)
Definition plain_id (id : string) : Prop := 124%Z ∉ as_bytes id.

Lemma dec_plain n : 124%Z ∉ as_bytes (dec n).
Proof.
  assert (Forall (fun b => b <> 124%Z) (as_bytes (dec n))) as H.
  { unfold dec. induction (N.to_uint (Z.to_N n)); simpl; constructor; done. }
  intros Hin. by apply (proj1 (Forall_forall _ _) H) in Hin.
Qed.

Section offers.
Context `{E : ControlEnv}.
(** SHA-256 has no collisions. *)
Context (collision_free : forall x y, Bytes x -> Bytes y -> sha256_hex x = sha256_hex y -> x = y).

Definition source_of (e : EndpointPayload) : string := default "local" (epp_source e).
Definition id_of (dev : string) (e : EndpointPayload) : string := endpoint_id dev e (source_of e).

(** What the identifier is the hash of. *)
Definition id_text (e : EndpointPayload) : list Z :=
  (as_bytes (epp_kind e) ++ 124%Z :: as_bytes (epp_address e)) ++ 124%Z ::
  as_bytes (dec (epp_port e)) ++ 124%Z :: as_bytes (epp_protocol e) ++ 124%Z :: as_bytes (source_of e).

Lemma id_of_text dev dev' e e' :
  id_of dev e = id_of dev' e' -> as_bytes dev ++ 124%Z :: id_text e = as_bytes dev' ++ 124%Z :: id_text e'.
Proof.
  unfold id_of, endpoint_id, id_text. intros H%(f_equal as_bytes). rewrite !as_bytes_app in H.
  apply app_inv_head, as_bytes_inj, collision_free in H; [|repeat (apply Bytes_app; split); apply as_bytes_Bytes..]. change (as_bytes "|") with [124%Z] in H. cbn [app] in H.
  rewrite <- !app_assoc. cbn [app]. exact H.
Qed.

Lemma id_of_device dev dev' e e' : plain_id dev -> plain_id dev' -> id_of dev e = id_of dev' e' -> dev = dev'.
Proof. intros Hd Hd' H%id_of_text. by apply cut_first in H as [->%as_bytes_inj _]. Qed.

(** An endpoint without an expiry date, from the device's own interfaces. *)
Definition lasting (e : EndpointPayload) : Prop := epp_expires_at e = None /\ source_of e = "local".

(** The row [r] is the endpoint [e] of [dev], for good. *)
Definition holds (dev : string) (e : EndpointPayload) (r : EndpointRow) : Prop :=
  e_id r = id_of dev e /\ e_device_id r = dev /\ e_kind r = epp_kind e /\ e_address r = epp_address e /\
  e_port r = epp_port e /\ e_protocol r = epp_protocol e /\ e_expires_at r = None.

(** Where [e'] has the identifier of [e] it says the same. *)
Definition again (dev : string) (e e' : EndpointPayload) : Prop :=
  id_of dev e' = id_of dev e ->
  epp_kind e' = epp_kind e /\ epp_address e' = epp_address e /\ epp_port e' = epp_port e /\
  epp_protocol e' = epp_protocol e /\ lasting e'.

Lemma lasting_row now dev e : lasting e -> e_expires_at (endpoint_row now dev e) = None.
Proof. intros [H1 H2]. unfold endpoint_row. cbn [e_expires_at]. fold (source_of e). by rewrite H1, H2. Qed.

(** Every row has an identifier that its device could give it. *)
Definition rows_owned (d : db) : Prop :=
  forall r, r ∈ endpoints d -> plain_id (e_device_id r) /\ exists e, e_id r = id_of (e_device_id r) e.

Lemma upsert_owned now dev e d :
  plain_id dev -> rows_owned d -> rows_owned (snd (upsert_endpoint (endpoint_row now dev e) d)).
Proof.
  intros Hp Ho r. unfold upsert_endpoint. destruct (existsb _ _); cbn [snd endpoints set_endpoints].
  - intros (w & Hw & ->)%elem_of_update_where. destruct (same _ _ w); [cbn [e_device_id e_id]|]; by apply Ho.
  - intros [Hr|Hr%list_elem_of_singleton]%elem_of_app; [by apply Ho|]. subst r. split; [done|]. by exists e.
Qed.

Lemma upsert_holds now dev dev' e e' d :
  (dev' = dev -> again dev e e') -> plain_id dev -> plain_id dev' ->
  (exists r, r ∈ endpoints d /\ holds dev e r) ->
  exists r, r ∈ endpoints (snd (upsert_endpoint (endpoint_row now dev' e') d)) /\ holds dev e r.
Proof.
  intros Ha Hp Hp' (r & Hr & Hh). unfold upsert_endpoint. destruct (existsb _ _); cbn [snd endpoints set_endpoints];
    [|exists r; split; [apply elem_of_app; by left|done]].
  eexists. split; [apply elem_of_update_where; by exists r|]. destruct (same _ _ r) eqn:Es; [|done].
  unfold same in Es. to_prop. destruct Hh as (Hid & Hdev & _).
  assert (id_of dev' e' = id_of dev e) as Hi by (rewrite <- Hid; exact Es).
  pose proof (id_of_device _ _ _ _ Hp' Hp Hi) as ->. destruct (Ha eq_refl Hi) as (? & ? & ? & ? & Hl).
  unfold holds. cbn [e_id e_device_id e_kind e_address e_port e_protocol e_expires_at].
  split_and!; try done. by apply (lasting_row now dev).
Qed.

Lemma upsert_stores now dev e d :
  plain_id dev -> lasting e -> rows_owned d ->
  exists r, r ∈ endpoints (snd (upsert_endpoint (endpoint_row now dev e) d)) /\ holds dev e r.
Proof.
  intros Hp Hl Ho. pose proof (lasting_row now dev e Hl) as Hx. unfold upsert_endpoint.
  destruct (existsb _ _) eqn:Ex; cbn [snd endpoints set_endpoints].
  - apply existsb_exists in Ex as (r & Hr & Es). apply list_elem_of_In in Hr. pose proof Es as Es'. unfold same in Es. to_prop.
    eexists. split; [apply elem_of_update_where; exists r; split; [done|reflexivity]|]. rewrite Es'.
    destruct (Ho r Hr) as [Hp' [e' He']].
    assert (e_device_id r = dev) as Hd by (eapply id_of_device; [done..|]; rewrite <- He'; symmetry; exact Es).
    unfold holds. cbn [e_id e_device_id e_kind e_address e_port e_protocol e_expires_at]. by rewrite <- Es.
  - eexists. split; [apply elem_of_app; right; by left|]. by split_and!.
Qed.

(** The endpoints of one heartbeat, one after the other. *)
Lemma upserts_owned now dev l d :
  plain_id dev -> rows_owned d -> rows_owned (snd (upsert_endpoints now dev l d)).
Proof.
  intros Hp. revert d. induction l as [|x l IH]; intros d Ho; cbn [upsert_endpoints]; [done|]. unfold mbind, M_bind.
  pose proof (upsert_owned now dev x d Hp Ho) as H1. destruct (upsert_endpoint _ d) as [[]  d1]; [by apply IH|done..].
Qed.

Lemma upserts_hold now dev dev' e l d :
  (dev' = dev -> Forall (again dev e) l) -> plain_id dev -> plain_id dev' ->
  (exists r, r ∈ endpoints d /\ holds dev e r) ->
  exists r, r ∈ endpoints (snd (upsert_endpoints now dev' l d)) /\ holds dev e r.
Proof.
  intros Ha Hp Hp'. revert d. induction l as [|x l IH]; intros d Hd; cbn [upsert_endpoints]; [done|]. unfold mbind, M_bind.
  assert (dev' = dev -> again dev e x) as Hx by (intros Hdd; by apply Forall_cons in Ha as [? _]).
  pose proof (upsert_holds now dev dev' e x d Hx Hp Hp' Hd) as H1.
  destruct (upsert_endpoint _ d) as [[] d1]; [|done..]. apply IH; [|done]. intros Hdd. by apply Forall_cons in Ha as [_ ?].
Qed.

Lemma upserts_store now dev e l d :
  plain_id dev -> lasting e -> rows_owned d -> e ∈ l -> Forall (again dev e) l ->
  exists r, r ∈ endpoints (snd (upsert_endpoints now dev l d)) /\ holds dev e r.
Proof.
  intros Hp Hl. revert d. induction l as [|x l IH]; intros d Ho He Ha; [by apply not_elem_of_nil in He|].
  apply Forall_cons in Ha as [Hx Ha]. cbn [upsert_endpoints]. unfold mbind, M_bind.
  pose proof (upsert_owned now dev x d Hp Ho) as H1.
  assert (forall y, exists d1, upsert_endpoint y d = (Ok tt, d1)) as Hok
    by (intros y; unfold upsert_endpoint; destruct (existsb _ _); by eexists).
  apply elem_of_cons in He as [<-|He].
  - pose proof (upsert_stores now dev e d Hp Hl Ho) as H2. destruct (Hok (endpoint_row now dev e)) as [d1 Hd1].
    rewrite Hd1 in *. by apply upserts_hold.
  - destruct (Hok (endpoint_row now dev x)) as [d1 Hd1]. rewrite Hd1 in *. by apply IH.
Qed.

(** ** Histories *)

(** A device that can be reached under [ip] and offers the endpoint [e]. *)
Definition offering (dev ip : string) (e : EndpointPayload) (d : db) : Prop :=
  (exists v, v ∈ devices d /\ live v = true /\ d_id v = dev /\ d_ipv4 v = ip) /\
  exists r, r ∈ endpoints d /\ holds dev e r.

(** Calls after which it still does: nobody deletes the device, the heartbeats are
    those of devices of the control plane, and its own ones do not contradict the
    endpoint. *)
Definition call_ok (dev : string) (e : EndpointPayload) (c : control_call) : Prop :=
  match c with
  | CallDelete _ id => id <> dev
  | CallHeartbeat _ r => plain_id (hb_device_id r) /\ (hb_device_id r = dev -> Forall (again dev e) (hb_endpoints r))
  | _ => True
  end.

Definition from_devices (c : control_call) : Prop :=
  match c with CallHeartbeat _ r => plain_id (hb_device_id r) | _ => True end.

Lemma unexpired_elem now dev rows r : r ∈ rows -> expired now r = false -> r ∈ unexpired now dev rows.
Proof. intros Hr He. apply elem_of_bfilter. split; [done|]. by rewrite He, andb_false_r. Qed.

Lemma holds_unexpired now dev e r : holds dev e r -> expired now r = false.
Proof. intros (_ & _ & _ & _ & _ & _ & Hx). unfold expired. by rewrite Hx. Qed.

Lemma offering_do dev ip e s c :
  plain_id dev -> call_ok dev e c -> offering dev ip e (fst s) -> offering dev ip e (fst (control_do s c)).
Proof.
  intros Hp Hc [(v & Hv & Hl & Hid & Hip) He]. split.
  - destruct (control_do_devices s c v Hv) as (v' & Hv' & Hs).
    { destruct c; try done. cbn [deletes call_ok] in *. congruence. }
    destruct Hs as (H1 & _ & _ & H4 & _ & _ & H7). exists v'. split_and!; [done|congruence..].
  - destruct c as [| | |now request| |]; try (rewrite control_do_endpoints by done; exact He).
    destruct s as [d ps]. cbn [control_do fst call_ok] in *. destruct Hc as [Hp' Ha].
    destruct (heartbeat_run now request d) as [->|(_ & d1 & _ & Hd1 & Hu)]; [done|].
    destruct (upserts_hold now dev (hb_device_id request) e (hb_endpoints request) d1 Ha Hp Hp') as (r & Hr & Hh).
    + destruct He as (r & Hr & Hh). exists r. split; [|done]. rewrite Hd1. apply unexpired_elem; [done|].
      by eapply holds_unexpired.
    + exists r. split; [|done]. by rewrite Hu in Hr.
Qed.

Lemma offering_history dev ip e calls s :
  plain_id dev -> Forall (call_ok dev e) calls -> offering dev ip e (fst s) ->
  offering dev ip e (fst (control_history s calls)).
Proof.
  intros Hp Hc. revert s. induction Hc as [|c calls Hc _ IH]; intros s Ho; [done|]. apply IH. by apply offering_do.
Qed.

Lemma owned_history calls s :
  Forall from_devices calls -> rows_owned (fst s) -> rows_owned (fst (control_history s calls)).
Proof.
  intros Hc. revert s. induction Hc as [|c calls Hc _ IH]; intros s Ho; [done|]. apply IH.
  destruct c as [| | |now request| |]; try (unfold rows_owned; rewrite control_do_endpoints by done; exact Ho).
  destruct s as [d ps]. cbn [control_do fst from_devices] in *.
  destruct (heartbeat_run now request d) as [->|(_ & d1 & _ & Hd1 & Hu)]; [done|].
  pose proof (upserts_owned now (hb_device_id request) (hb_endpoints request) d1 Hc) as H1. rewrite Hu in H1. apply H1.
  intros r Hr. rewrite Hd1 in Hr. apply elem_of_bfilter in Hr as [Hr _]. by apply Ho.
Qed.

(** A heartbeat that is accepted makes the device offer its endpoints. *)
Lemma heartbeat_offers now request d resp d' e v :
  heartbeat now request d = (Ok resp, d') -> rows_owned d -> plain_id (hb_device_id request) ->
  e ∈ hb_endpoints request -> lasting e -> Forall (again (hb_device_id request) e) (hb_endpoints request) ->
  v ∈ devices d -> live v = true -> d_id v = hb_device_id request ->
  offering (hb_device_id request) (d_ipv4 v) e d'.
Proof.
  intros Hh Ho Hp He Hl Ha Hv Hlv Hid. split.
  - destruct (heartbeat_keeps_devices now request d v Hv) as (v' & Hv' & Hs); [done|]. rewrite Hh in Hv'.
    destruct Hs as (H1 & _ & _ & H4 & _ & _ & H7). exists v'. split_and!; [done|congruence..].
  - assert (knows_device d (hb_device_id request) (hb_node_key request) = true) as Hk.
    { pose proof (validate_device_run d (hb_device_id request) (hb_node_key request)) as Hr. unfold heartbeat in Hh.
      apply M_bind_Ok in Hh as (u & d0 & H0 & _). rewrite Hr in H0. by destruct (knows_device _ _ _). }
    assert (exists d1, endpoints d1 = unexpired now (hb_device_id request) (endpoints d) /\
      upsert_endpoints now (hb_device_id request) (hb_endpoints request) d1 = (Ok tt, d')) as (d1 & Hd1 & Hu).
    { unfold heartbeat in Hh. apply M_bind_Ok in Hh as (u & d0 & H0 & Hh). rewrite validate_device_run, Hk in H0.
      injection H0 as _ <-. apply M_bind_Ok in Hh as ([] & d1 & H1 & Hh). apply M_bind_Ok in Hh as (n & d2 & H2 & Hh).
      injection H2 as _ <-. injection Hh as _ <-. apply transaction_Ok in H1.
      apply M_bind_Ok in H1 as (k & d3 & H3 & H1). injection H3 as _ <-.
      apply M_bind_Ok in H1 as ([] & d4 & H4 & H1). injection H4 as <-. eexists. split; [|exact H1]. done. }
    pose proof (upserts_store now (hb_device_id request) e (hb_endpoints request) d1 Hp Hl) as Hs. rewrite Hu in Hs.
    apply Hs; [|done..]. intros r Hr. rewrite Hd1 in Hr. apply elem_of_bfilter in Hr as [Hr _]. by apply Ho.
Qed.

(** What a device offers is in the map of every other one. *)
Lemma offering_map dev ip e d now state q m d2 :
  offering dev ip e d -> nmq_device_id q <> dev -> network_map now state q d = (Ok m, d2) ->
  exists peer ep, peer ∈ nm_peers m /\ nmp_device_id peer = dev /\ nmp_ipv4 peer = ip /\ ep ∈ nmp_endpoints peer /\
    epp_kind ep = epp_kind e /\ epp_address ep = epp_address e /\ epp_port ep = as_u16 (epp_port e) /\
    epp_protocol ep = epp_protocol e.
Proof.
  intros [(v & Hv & Hl & <- & <-) (r & Hr & Hh)] Hq Hm. apply network_map_Ok in Hm as (self & _ & _ & ->). cbn [nm_peers].
  pose proof (holds_unexpired now _ _ _ Hh) as Hx. destruct Hh as (_ & Hd & Hk & Ha & Hp & Hpr & _).
  exists (peer_of now d v), (endpoint_payload r). split_and!; try done.
  - apply list_elem_of_fmap_2, elem_of_sort_by, elem_of_bfilter. split; [done|]. by rewrite bool_decide_eq_false_2.
  - cbn [nmp_endpoints peer_of]. change (map endpoint_payload ?l) with (endpoint_payload <$> l).
    apply list_elem_of_fmap_2, elem_of_sort_by, elem_of_bfilter. split; [done|]. by rewrite bool_decide_eq_true_2, Hx.
  - cbn [endpoint_payload epp_port]. by rewrite Hp.
Qed.

(** ** Reports of an agent *)

(** What [send_heartbeat] puts into a heartbeat: endpoints of the backend, and what a
    probe has observed. *)
Definition agent_payload (e : EndpointPayload) : Prop :=
  (exists x, is_u16 (ep_port x) /\ e = endpoint_to_payload x) \/ epp_source e = Some "stun".

Lemma discovered_payloads {B Srv} `{NetworkBackend B, HttpServer Srv} u id key local (w w' : world B Srv) l :
  Forall (fun x => is_u16 (ep_port x)) local ->
  discovered_endpoints u id key (map endpoint_to_payload local) w = Some (Ok l, w') -> Forall agent_payload l.
Proof.
  intros Hl. assert (Forall agent_payload (map endpoint_to_payload local)) as Hm.
  { induction Hl as [|x local Hx _ IH]; constructor; [left; by exists x|done]. }
  unfold discovered_endpoints. destruct (agent_probe_public_endpoint u id key w) as [[r w1]|] eqn:Ep; [|done].
  cbn [mbind option_bind]. destruct r as [[y|]|x|]; [|by intros [= <- _]..|done]. intros [= <- _].
  apply Forall_app. split; [done|]. constructor; [|constructor]. right. unfold agent_probe_public_endpoint in Ep. agent_steps.
  assert (forall r, endpoint_from_probe_response r = Some y -> epp_source y = Some "stun") as Hr.
  { intros r. unfold endpoint_from_probe_response. destruct (_ =? 0)%Z; [done|]. by intros [= <-]. }
  case_match; agent_steps; [|by eapply Hr]. case_match; agent_steps; [|by eapply Hr]. by simplify_eq.
Qed.

Lemma kind_plain k : 124%Z ∉ as_bytes (endpoint_kind_to_payload k).
Proof. destruct k; by_decide. Qed.
Lemma protocol_plain p : 124%Z ∉ as_bytes (transport_protocol_to_payload p).
Proof. destruct p; by_decide. Qed.

(** Two reports with the same identifier say the same. *)
Lemma agent_again dev x e : is_u16 (ep_port x) -> agent_payload e -> again dev (endpoint_to_payload x) e.
Proof.
  intros Hx Hform Hid%id_of_text. apply app_inv_head in Hid. injection Hid as Hid. unfold id_text in Hid.
  assert (forall a b c : list Z, a ++ 124%Z :: b ++ 124%Z :: c = (a ++ 124%Z :: b) ++ 124%Z :: c) as Hassoc
    by (intros; by rewrite <- app_assoc).
  destruct Hform as [(y & Hy & ->)|Hstun].
  - rewrite !Hassoc in Hid. apply cut_last in Hid as [Hid _]; [|by_decide..].
    apply cut_last in Hid as [Hid Hpr]; [|apply protocol_plain..]. apply cut_last in Hid as [Hid Hport]; [|apply dec_plain..].
    cbn [endpoint_to_payload epp_kind epp_address] in Hid. apply cut_first in Hid as [Hk Ha]; [|apply kind_plain..].
    apply as_bytes_inj in Hk, Ha, Hpr, Hport. split_and!; try done. unfold is_u16 in *.
    apply dec_inj in Hport; [done| |]; [apply Hy|apply Hx].
  - exfalso. rewrite !Hassoc in Hid. unfold source_of in Hid. rewrite Hstun in Hid. cbn [default endpoint_to_payload epp_source] in Hid.
    apply cut_last in Hid as [_ Hid]; [done|by_decide..].
Qed.

(** Histories in which the device stays and reports as an agent does
    ([discovered_payloads]). *)
Definition agents_call (dev : string) (c : control_call) : Prop :=
  match c with
  | CallDelete _ id => id <> dev
  | CallHeartbeat _ r => plain_id (hb_device_id r) /\ (hb_device_id r = dev -> Forall agent_payload (hb_endpoints r))
  | _ => True
  end.

Lemma agents_call_ok dev x c : is_u16 (ep_port x) -> agents_call dev c -> call_ok dev (endpoint_to_payload x) c.
Proof.
  intros Hx. destruct c; try done. cbn [agents_call call_ok]. intros [Hp Ha]. split; [done|]. intros Hd.
  eapply Forall_impl; [exact (Ha Hd)|]. intros e. by apply agent_again.
Qed.

End offers.

(** ** The control plane and its other clients *)

(** The server with the registrations that are under way. *)
Record SharedServer : Type := mkSharedServer { shared_control : ControlServer; shared_pending : list pending }.

Section shared.
Context `{E : ControlEnv}.
Context (base : string) (state : AppState) (env : nat -> request_env) (text : Z -> string).
(** What the other clients do before the [n]-th request of this one. *)
Context (others : nat -> list control_call).

Definition shared_db (s : SharedServer) : db := cs_db (shared_control s).

#[export] Instance shared_server : HttpServer SharedServer := fun q s =>
  let n := cs_requests (shared_control s) in
  let '(d, ps) := control_history (shared_db s, shared_pending s) (others n) in
  '(r, c) ← @http_send _ (control_server base state env text) q (mkControlServer d n);
  Some (r, mkSharedServer c ps).

(** A request on a route is handled on the database that the others have left. *)
Lemma shared_send path rt q s :
  url q = base +:+ path -> find_route path = Some rt ->
  let n := cs_requests (shared_control s) in
  let s1 := control_history (shared_db s, shared_pending s) (others n) in
  let x := handle state text (env n) rt q (fst s1) in
  http_send q s = Some (fst x, mkSharedServer (mkControlServer (snd x) (S n)) (snd s1)).
Proof.
  intros Hu Hr. cbn zeta. unfold http_send at 1, shared_server. destruct (control_history _ _) as [d ps]. cbn [fst snd].
  unfold http_send, control_server. rewrite Hu, strip_prefix_app, Hr. cbn [cs_requests cs_db].
  by destruct (handle _ _ _ _ _ _).
Qed.

End shared.

(** ** An agent among others *)

Section agents.
Context {B : Type} `{NB : NetworkBackend B} `{E : ControlEnv}.
Context (collision_free : forall x y, Bytes x -> Bytes y -> sha256_hex x = sha256_hex y -> x = y).
Context (url_ : string) (state : AppState) (env : nat -> request_env) (text : Z -> string).
Context (others : nat -> list control_call).
Context (dev ip : string) (e : EndpointPayload).
Context (dev_plain : plain_id dev) (others_ok : forall n, Forall (call_ok dev e) (others n)).

#[local] Instance the_server : HttpServer SharedServer := shared_server url_ state env text others.

(** The device offers its endpoint as long as this client sends no call that ends it. *)
Definition stays {A} (c : AM (B := B) (Srv := SharedServer) A) : Prop :=
  forall w r w', c w = Some (r, w') -> offering dev ip e (shared_db (w_server w)) -> offering dev ip e (shared_db (w_server w')).

Lemma stays_bind {A A'} (c : AM A) (f : A -> AM A') : stays c -> (forall a, stays (f a)) -> stays (c ≫= f).
Proof.
  intros Hc Hf w r w' (r1 & w1 & H1 & H2)%AM_bind_Some Ho. pose proof (Hc _ _ _ H1 Ho) as Ho1.
  destruct r1 as [a|x|]; [by eapply Hf|by destruct H2 as [_ ->]..].
Qed.
Lemma stays_of_res {A} (r : res anyhow A) : stays (of_res r).
Proof. by intros w r' w' [= _ <-]. Qed.
Lemma stays_ret {A} (a : A) : stays (mret a).
Proof. by intros w r' w' [= _ <-]. Qed.
Lemma stays_on_backend {A} (f : call B BackendError A) : stays (on_backend f).
Proof. intros w r w'. unfold on_backend. destruct (f _) as [[? ?]|]; [|done]. by intros [= _ <-]. Qed.

Lemma stays_send path rt q :
  url q = url_ +:+ path -> find_route path = Some rt ->
  (forall x d, offering dev ip e d -> offering dev ip e (snd (handle state text x rt q d))) -> stays (send q).
Proof.
  intros Hu Hr Hh w r w'. unfold send, the_server. rewrite (shared_send url_ state env text others path rt q (w_server w) Hu Hr).
  cbn [mbind option_bind]. intros [= _ <-] Ho. cbn [w_server shared_db shared_control cs_db]. apply Hh.
  by apply (offering_history collision_free).
Qed.

Lemma respond_db {A} (wrap : A -> HttpResponse) (c : M A) d : snd (respond wrap c d) = snd (c d).
Proof. unfold respond. by destruct (c d). Qed.

Lemma stays_probe id key : stays (agent_probe_public_endpoint url_ id key).
Proof.
  unfold agent_probe_public_endpoint. apply stays_bind; [|intros response].
  - apply (stays_send "/v1/agent/endpoint-probe" REndpointProbe); [done|reflexivity|]. intros x d Ho.
    cbn [handle method request_body]. rewrite respond_db. by rewrite (proj2 (endpoint_probe_answers state (q_addr x) _ d)).
  - apply stays_bind; [apply stays_of_res|intros ?]. apply stays_bind; [apply stays_of_res|intros [?|]]; [|apply stays_ret].
    apply stays_bind; [apply stays_on_backend|intros [?|]]; apply stays_ret.
Qed.

Lemma stays_bind_res {A A'} (r : res anyhow A) (f : A -> AM A') :
  (forall a, r = Ok a -> stays (f a)) -> stays (of_res r ≫= f).
Proof.
  intros Hf w r' w' H. unfold mbind, AM_bind, of_res in H. cbn [mbind option_bind] in H.
  destruct r as [a|x|]; [by eapply Hf|by injection H as _ <-..].
Qed.

(** A client with another identifier. *)
Definition other_client (st : AgentState) : Prop := forall id, as_device_id st = Some id -> plain_id id /\ id <> dev.

Lemma credentials_device st id key : device_credentials st = Ok (id, key) -> as_device_id st = Some id.
Proof.
  unfold device_credentials. destruct (as_device_id st) as [x|]; [|done]. cbn [ok_or mbind res_bind].
  destruct (as_node_key st) as [y|]; [|done]. cbn [ok_or mbind res_bind]. by intros [= -> _].
Qed.

Lemma stays_heartbeat st : other_client st -> stays (send_heartbeat url_ st).
Proof.
  intros Hst. unfold send_heartbeat. apply stays_bind_res. intros [id key] Hc. apply credentials_device in Hc.
  destruct (Hst id Hc) as [Hp Hne]. apply stays_bind; [apply stays_on_backend|intros status].
  apply stays_bind; [apply stays_on_backend|intros local]. apply stays_bind; [|intros l].
  - intros w r w'. unfold discovered_endpoints. destruct (agent_probe_public_endpoint _ _ _ _) as [[r1 w1]|] eqn:Ep; [|done].
    cbn [mbind option_bind]. intros [= _ <-]. exact (stays_probe _ _ _ _ _ Ep).
  - apply stays_bind; [|intros response; apply stays_bind; [apply stays_of_res|intros ?; apply stays_ret]].
    apply (stays_send "/v1/agent/heartbeat" RHeartbeat); [done|reflexivity|]. intros x d Ho.
    cbn [handle method request_body]. rewrite respond_db.
    refine (offering_do collision_free dev ip e (d, []) (CallHeartbeat (q_now x) _) dev_plain _ Ho).
    cbn [call_ok hb_device_id]. by split.
Qed.

(** The map that the client is given was made from a database with the offer. *)
Lemma fetched_map st (w : world B SharedServer) map w' :
  other_client st -> offering dev ip e (shared_db (w_server w)) -> fetch_network_map url_ st w = Some (Ok map, w') ->
  exists now q d d2, nmq_device_id q <> dev /\ offering dev ip e d /\ network_map now state q d = (Ok map, d2).
Proof.
  intros Hst Ho H. unfold fetch_network_map in H. apply AM_bind_Ok in H as ([id key] & w0 & H0 & H). injection H0 as Hc <-.
  pose proof (proj2 (Hst id (credentials_device _ _ _ Hc))) as Hne. apply AM_bind_Ok in H as (response & w1 & H1 & H).
  unfold send in H1. unfold the_server in H1.
  rewrite (shared_send url_ state env text others "/v1/agent/network-map" RNetworkMap _ (w_server w)) in H1 by done.
  cbn [mbind option_bind handle method query_params query_param] in H1.
  set (n := cs_requests _) in H1. set (s1 := control_history _ _) in H1.
  change (query_param "device_id" _) with (Some id) in H1. change (query_param "node_key" _) with (Some key) in H1.
  exists (q_now (env n)), (mkNetworkMapQuery id key), (fst s1). cbn iota in H1. unfold respond in H1.
  destruct (network_map _ _ _ (fst s1)) as [r d2] eqn:Em. exists d2. split; [done|].
  split; [by apply (offering_history collision_free)|].
  injection H as H. destruct r as [m|x|]; injection H1 as H1 _; [|subst response|done].
  - subst response. unfold error_for_status, json_ok in H. cbn in H. by injection H as ->.
  - exfalso. pose proof (proj1 (network_map_answers (q_now (env n)) state (mkNetworkMapQuery id key) (fst s1))) as Ha.
    unfold answers_well in Ha. rewrite Em in Ha. destruct Ha as [Ha _]. unfold error_for_status, into_response in H.
    cbn [status_code] in H. unfold http_error_status, in_range in Ha. unfold in_range in H. to_prop.
    repeat case_match; try done; to_prop; lia.
Qed.

Lemma stays_fetch st : stays (fetch_network_map url_ st).
Proof.
  unfold fetch_network_map. apply stays_bind; [apply stays_of_res|intros [id key]]. apply stays_bind; [|intros ?; apply stays_of_res].
  apply (stays_send "/v1/agent/network-map" RNetworkMap); [done|reflexivity|]. intros x d Ho.
  cbn [handle method query_params]. change (query_param "device_id" _) with (Some id).
  change (query_param "node_key" _) with (Some key). cbn iota. rewrite respond_db.
  by rewrite (proj2 (network_map_answers (q_now x) state (mkNetworkMapQuery id key) d)).
Qed.

Lemma stays_apply to_json m sd st map : stays (apply_network_map_and_maintain_paths to_json m sd st map).
Proof.
  apply stays_bind; [|intros ?; apply stays_bind; [apply stays_on_backend|intros ?; apply stays_ret]].
  assert (stays (apply_network_map_to_backend st map)) as Ha.
  { unfold apply_network_map_to_backend.
    repeat (apply stays_bind; [first [apply stays_of_res|apply stays_on_backend]|intros ?]). apply stays_on_backend. }
  intros w r w'. unfold apply_network_map_if_changed. case_bool_decide; [by intros [= _ <-]|]. apply stays_bind; [done|].
  intros ?. apply stays_bind; [|intros ?; apply stays_bind; [|intros ?]; by intros ? ? ? [= _ <-]].
  intros w1 r1 w1'. unfold save_dns_snapshot, AgentState_save. destruct (m_save m _) as [[k|[]] wr]; [by intros [= _ <-]|].
  destruct (file_write _ _ _ _) as [r' h]. by intros [= _ <-].
Qed.

Lemma stays_sync to_json m sd st : other_client st -> stays (sync_agent_once to_json m sd url_ st).
Proof.
  intros Hst. apply stays_bind; [by apply stays_heartbeat|intros ?].
  apply stays_bind; [apply stays_fetch|intros map; apply stays_apply].
Qed.

(** ** A map that nobody can read *)

(** No map with the offer can be turned into a configuration. *)
Context (unreadable : forall port source priority expires, exists err, endpoint_to_config
  (mkEndpointPayload (epp_kind e) (epp_address e) port (epp_protocol e) source priority expires) = Err err).

Lemma blocked_sync to_json m sd st (w w' : world B SharedServer) r :
  other_client st -> offering dev ip e (shared_db (w_server w)) ->
  sync_agent_once to_json m sd url_ st w = Some (r, w') ->
  w_last w' = w_last w /\ w_dns w' = w_dns w /\ (w_last w = None -> r <> Ok tt).
Proof.
  intros Hst Ho Hs.
  assert (w_last w' = w_last w /\ w_dns w' = w_dns w) as [Hl Hd].
  { destruct (sync_trace _ _ _ _ _ _ _ _ Hs) as [?|(map & w1 & w2 & w3 & H1 & H2 & H3 & _)]; [done|exfalso].
    pose proof (stays_heartbeat st Hst _ _ _ H1 Ho) as Ho1.
    destruct (fetched_map st w1 map w2 Hst Ho1 H2) as (now & q & d & d2 & Hq & Hof & Hm).
    destruct (offering_map dev ip e d now state q map d2 Hof Hq Hm) as (peer & ep & Hp & _ & _ & Hep & Hk & Ha & _ & Hpr).
    destruct ep as [k0 a0 port p0 source priority expires]. cbn in Hk, Ha, Hpr. subst k0 a0 p0.
    destruct (unreadable port source priority expires) as [err Herr].
    destruct (bad_endpoint_bad_map _ _ _ _ Hp Hep Herr) as [err' Hbad].
    unfold apply_network_map_to_backend in H3. agent_steps. congruence. }
  split_and!; [done..|]. intros Hn ->. apply sync_Ok_last in Hs as [v Hv]. congruence.
Qed.

(** Computations that leave the offer, the version and the records. *)
Definition unmoved {A} (c : AM (B := B) (Srv := SharedServer) A) : Prop :=
  forall w r w', c w = Some (r, w') -> offering dev ip e (shared_db (w_server w)) ->
  offering dev ip e (shared_db (w_server w')) /\ w_last w' = w_last w /\ w_dns w' = w_dns w.

Lemma unmoved_bind {A A'} (c : AM A) (f : A -> AM A') : unmoved c -> (forall a, unmoved (f a)) -> unmoved (c ≫= f).
Proof.
  intros Hc Hf w r w' (r1 & w1 & H1 & H2)%AM_bind_Some Ho. destruct (Hc _ _ _ H1 Ho) as (Ho1 & <- & <-).
  destruct r1 as [y|x|]; [exact (Hf y _ _ _ H2 Ho1)|by destruct H2 as [_ ->]..].
Qed.
Lemma unmoved_ret {A} (a : A) : unmoved (mret a).
Proof. by intros w r w' [= _ <-]. Qed.
Lemma unmoved_attempt {A} (c : AM A) : unmoved c -> unmoved (attempt c).
Proof. intros Hc w r w'. unfold attempt. destruct (c w) as [[r1 w1]|] eqn:Ec; [|done]. intros [= _ <-]. by eapply Hc. Qed.
Lemma unmoved_on_backend {A} (f : call B BackendError A) : unmoved (on_backend f).
Proof. intros w r w' Hf Ho. split; [exact (stays_on_backend f _ _ _ Hf Ho)|exact (keeps_on_backend f _ _ _ Hf)]. Qed.

Lemma blocked_loop to_json m sd st turns t clock :
  other_client st -> unmoved (agent_loop to_json m sd url_ st turns t clock).
Proof.
  intros Hst. revert t clock. induction turns as [|[|busy late] turns IH]; intros t clock; cbn [agent_loop].
  - apply unmoved_ret.
  - apply unmoved_bind; [apply unmoved_on_backend|intros ?; apply unmoved_ret].
  - apply unmoved_bind; [by intros ? ? ? [= _ <-]|intros [tick t']]. apply unmoved_bind; [|intros ?].
    + destruct (tick_sync tick); [|apply unmoved_ret]. apply unmoved_attempt. intros w r w' Hs Ho.
      destruct (blocked_sync _ _ _ _ _ _ _ Hst Ho Hs) as (? & ? & _). split; [exact (stays_sync _ _ _ _ Hst _ _ _ Hs Ho)|done].
    + apply unmoved_bind; [|intros ?; apply IH]. destruct (tick_maintain_paths tick); [|apply unmoved_ret].
      apply unmoved_attempt, unmoved_on_backend.
Qed.

End agents.
