(* ===== verification/Ctl.v ===== *)
(** * The operator's command line ([tfscalectl/src/main.rs])

    The commands, the requests they send, the texts they print, and the proof that
    each of them does what the handler of the control plane does. *)

From Stdlib Require Import ZArith Lia.
From stdpp Require Import prelude list strings gmap.
From S2P Require Import Prelude RustStd RustText Protocol Http ControlDb Control ControlHttp.

(** ** Commands *)

Inductive AuthKeyCommand : Type := AuthKeyCreate.
Inductive DeviceCommand : Type :=
| DeviceList
| DeviceRename (device_id hostname : string)
| DeviceDelete (device_id : string).
Inductive CtlDnsCommand : Type := DnsRecords.
Inductive RelayCommand : Type := RelayList.
Inductive CtlCommand : Type :=
| AuthKeyCmd (command : AuthKeyCommand)
| DeviceCmd (command : DeviceCommand)
| CtlDnsCmd (command : CtlDnsCommand)
| RelayCmd (command : RelayCommand).

Record CtlCli : Type := mkCtlCli {
  control_url : string;
  admin_token : option string;
  cli_json : bool;
  ctl_command : CtlCommand;
}.

(** ** Output *)

Inductive ctl_output : Type := Lines (l : list string) | JsonBody (b : Body) | JsonDeleted (device_id : string).

(** The errors of the tool. *)
Inductive ctl_error : Type :=
| RequestFailed
| DecodeError
| Returned (status : string) (error : option message).

Definition row (widths : list nat) (cells : list string) (last : string) : string :=
  join " " (zip_with pad_right widths cells ++ [last]).

Definition print_devices (devices : list DeviceSummary) : list string :=
  let widths := [28; 20; 15; 10; 8; 10]%nat in
  row widths ["ID"; "HOSTNAME"; "IPV4"; "OS"; "ARCH"; "BACKEND"] "LAST_SEEN" ::
  map (fun d => row widths [ds_id d; ds_hostname d; ds_ipv4 d; ds_os d; ds_arch d; ds_backend_type d]
                  (default "-" (ds_last_seen_at d))) devices.

Definition print_relays (relays : list RelayMetadata) : list string :=
  let widths := [16; 32; 12]%nat in
  row widths ["ID"; "URL"; "REGION"] "HEALTHY" ::
  map (fun r => row widths [rm_relay_id r; rm_url r; rm_region r] (if rm_healthy r then "true" else "false")) relays.

Definition print_dns_records (records : list DnsRecord) : list string :=
  let widths := [28; 28; 8]%nat in
  row widths ["DEVICE_ID"; "NAME"; "TYPE"] "VALUE" ::
  map (fun r => row widths [dns_device_id r; Protocol.dns_name r; record_type r] (dns_value r)) records.

Section ctl.
Context {Srv : Type} `{HS : HttpServer Srv}.
(** The names of the status codes, and a body as text. *)
Context (canonical_reason : Z -> option string) (body_text : Body -> string).

Definition CM (A : Type) : Type := Srv -> option (res ctl_error A * Srv).

#[local] Instance CM_bind : MBind CM := fun A A' f c s =>
  '(r, s) ← c s;
  match r with
  | Ok a => f a s
  | Err e => Some (Err e, s)
  | Panic => Some (Panic, s)
  end.
#[local] Instance CM_ret : MRet CM := fun A a s => Some (Ok a, s).

Definition status_text (code : Z) : string := dec code +:+ " " +:+ default "HTTP error" (canonical_reason code).

Definition ensure_success (response : HttpResponse) : res ctl_error HttpResponse :=
  if is_success (status_code response) then Ok response
  else
    let st := status_text (status_code response) in
    match response_body response with
    | ErrorBody error => Err (Returned st (Some error))
    | b =>
        let text := trim match b with NoBody => EmptyString | TextBody t => t | b => body_text b end in
        if is_empty text then Err (Returned st None) else Err (Returned st (Some (MText text)))
    end.

Definition send_request (m : Method) (control_url path : string) (payload : option Body) : CM HttpResponse :=
  fun s =>
  let url := trim_end_matches 47 control_url +:+ path in
  '(r, s) ← http_send (mkHttpRequest m url [] (default NoBody payload)) s;
  Some (match r with inl _ => Err RequestFailed | inr response => ensure_success response end, s).

Definition request_json {A} (read : Body -> option A) (m : Method) (control_url path : string)
    (payload : option Body) : CM A :=
  response ← send_request m control_url path payload;
  fun s => Some (ok_or DecodeError (read (response_body response)), s).

Definition request_empty (m : Method) (control_url path : string) : CM unit :=
  _ ← send_request m control_url path None;
  mret tt.

(** [main] *)
Definition run_ctl (cli : CtlCli) : CM ctl_output :=
  let url := control_url cli in
  match ctl_command cli with
  | AuthKeyCmd AuthKeyCreate =>
      response ← request_json as_auth_key POST url "/v1/auth-keys" None;
      mret (if cli_json cli then JsonBody (CreateAuthKeyResponseBody response) else Lines [cak_key response])
  | DeviceCmd DeviceList =>
      devices ← request_json as_devices GET url "/v1/devices" None;
      mret (if cli_json cli then JsonBody (DeviceSummariesBody devices) else Lines (print_devices devices))
  | DeviceCmd (DeviceRename device_id hostname) =>
      device ← request_json as_device PATCH url ("/v1/devices/" +:+ device_id)
        (Some (RenameDeviceRequestBody (mkRenameDeviceRequest hostname)));
      mret (if cli_json cli then JsonBody (DeviceSummaryBody device)
            else Lines ["renamed " +:+ ds_id device +:+ " to " +:+ ds_hostname device])
  | DeviceCmd (DeviceDelete device_id) =>
      _ ← request_empty DELETE url ("/v1/devices/" +:+ device_id);
      mret (if cli_json cli then JsonDeleted device_id else Lines ["deleted " +:+ device_id])
  | CtlDnsCmd DnsRecords =>
      records ← request_json as_dns_records GET url "/v1/dns/records" None;
      mret (if cli_json cli then JsonBody (DnsRecordsBody records) else Lines (print_dns_records records))
  | RelayCmd RelayList =>
      relays ← request_json as_relays GET url "/v1/relays" None;
      mret (if cli_json cli then JsonBody (RelaysBody relays) else Lines (print_relays relays))
  end.

End ctl.

(** ** The commands and the handlers *)

(** An identifier that an URL carries as it is: letters, digits, [-] and [_]. *)
Definition url_plain (s : string) : bool :=
  negb (is_empty s) &&
  forallb (fun b => in_range 48 57 b || in_range 65 90 b || in_range 97 122 b || (b =? 45)%Z || (b =? 95)%Z)
    (as_bytes s).

Definition ctl_device (c : CtlCommand) : option string :=
  match c with
  | DeviceCmd (DeviceRename id _) | DeviceCmd (DeviceDelete id) => Some id
  | _ => None
  end.

Definition slashes (n : nat) : string := of_bytes (replicate n 47%Z).

(** What a command means: the handler it is for, and the output for its result. *)
Definition ctl_meaning `{ControlEnv} (state : AppState) (e : request_env) (js : bool) (c : CtlCommand) : M ctl_output :=
  match c with
  | AuthKeyCmd AuthKeyCreate =>
      x ← create_auth_key (q_now e) (u_device (q_ids e)) (u_node (q_ids e));
      mret (if js then JsonBody (CreateAuthKeyResponseBody x) else Lines [cak_key x])
  | DeviceCmd DeviceList =>
      x ← list_devices; mret (if js then JsonBody (DeviceSummariesBody x) else Lines (print_devices x))
  | DeviceCmd (DeviceRename id hostname) =>
      x ← rename_device (q_now e) (u_dns (q_ids e)) id (mkRenameDeviceRequest hostname);
      mret (if js then JsonBody (DeviceSummaryBody x)
            else Lines ["renamed " +:+ ds_id x +:+ " to " +:+ ds_hostname x])
  | DeviceCmd (DeviceDelete id) =>
      _ ← delete_device (q_now e) id;
      mret (if js then JsonDeleted id else Lines ["deleted " +:+ id])
  | CtlDnsCmd DnsRecords =>
      x ← list_dns_records; mret (if js then JsonBody (DnsRecordsBody x) else Lines (print_dns_records x))
  | RelayCmd RelayList =>
      x ← mret (list_relays state); mret (if js then JsonBody (RelaysBody x) else Lines (print_relays x))
  end.

Lemma drop_while_replicate {A} (f : A -> bool) n x l :
  f x = true -> drop_while f (replicate n x ++ l) = drop_while f l.
Proof. intros Hf. induction n as [|n IH]; [done|]. cbn. by rewrite Hf. Qed.

Lemma trim_slashes base n :
  ends_with base "/" = false -> trim_end_matches 47 (base +:+ slashes n) = base.
Proof.
  intros Hb. unfold trim_end_matches, slashes. rewrite as_bytes_app, as_bytes_of_bytes.
  2:{ apply Forall_replicate. done. }
  rewrite rev_app_distr. assert (rev (replicate n 47%Z) = replicate n 47%Z) as -> by (rewrite rev_alt; apply reverse_replicate).
  rewrite drop_while_replicate by done. unfold ends_with in Hb. cbn [as_bytes rev app] in Hb.
  assert (drop_while (Z.eqb 47) (rev (as_bytes base)) = rev (as_bytes base)) as ->.
  { destruct (rev (as_bytes base)) as [|b l]; [done|]. cbn [drop_while]. cbn [strip_prefix_l] in Hb.
    destruct (decide (_ = b)) as [|Hn]; [done|]. change (byte_of_ascii _) with 47%Z in Hn.
    by rewrite (proj2 (Z.eqb_neq 47 b)). }
  rewrite rev_involutive. apply of_bytes_as_bytes.
Qed.

Section meaning.
Context `{E : ControlEnv} (base : string) (state : AppState) (env : nat -> request_env) (text : Z -> string).
Context (canonical_reason : Z -> option string) (body_text : Body -> string).

#[local] Existing Instance control_server.
#[local] Instance the_server : HttpServer ControlServer := control_server base state env text.

(** The result of a handler as the tool reports it. *)
Definition reported {A} (r : res ApiError A) : res ctl_error A :=
  match r with
  | Ok a => Ok a
  | Err e => Err (Returned (status_text canonical_reason (status e)) (Some (error_message e)))
  | Panic => Panic
  end.

(** A request that a handler answers. *)
Lemma send_request_handled {A} (wrap : A -> HttpResponse) (m : M A) meth n path rt payload s :
  ends_with base "/" = false -> find_route path = Some rt -> proper m ->
  (forall a d', m (cs_db s) = (Ok a, d') -> is_success (status_code (wrap a)) = true) ->
  (forall u, handle state text (env (cs_requests s)) rt (mkHttpRequest meth u [] (default NoBody payload)) (cs_db s) =
    respond wrap m (cs_db s)) ->
  send_request canonical_reason body_text meth (base +:+ slashes n) path payload s =
    Some (wrap <$> reported (fst (m (cs_db s))), mkControlServer (snd (m (cs_db s))) (S (cs_requests s))).
Proof.
  intros Hb Hr Hp Hw Hh. unfold send_request. rewrite trim_slashes by done.
  unfold http_send, the_server, control_server. cbn [url]. rewrite strip_prefix_app, Hr, Hh. unfold respond.
  specialize (Hp (cs_db s)). destruct (m (cs_db s)) as [[a|e|] d'] eqn:Em; [| |done];
    cbn [mbind option_bind fst snd reported fmap res_fmap]; unfold ensure_success.
  - by rewrite (Hw a d' eq_refl).
  - cbn [into_response status_code response_body]. cbn [fst] in Hp.
    assert (is_success (status e) = false) as ->; [|done].
    unfold is_success, other_error, http_error_status, in_range in *. to_prop. apply andb_false_iff. right. apply Z.leb_gt. lia.
Qed.

Lemma find_device_route id : url_plain id = true -> find_route ("/v1/devices/" +:+ id) = Some (RDevice id).
Proof.
  intros H. unfold url_plain in H. apply andb_true_iff in H as [H1 H2].
  assert (Hs : segment id = true).
  { unfold segment. rewrite H1. cbn [andb]. apply forallb_forall. intros b Hb.
    rewrite forallb_forall in H2. specialize (H2 b Hb). apply negb_true_iff, Z.eqb_neq. by intros ->. }
  unfold find_route. rewrite strip_prefix_app, Hs.
  assert (lookup_route ("/v1/devices/" +:+ id) static_routes = None) as ->; [|done].
  unfold static_routes, lookup_route. by rewrite !bool_decide_eq_false_2.
Qed.

(** A command that is a request for JSON. *)
Lemma request_json_handled {A} (body : A -> Body) (read : Body -> option A) (m : M A) meth n path rt payload s :
  ends_with base "/" = false -> find_route path = Some rt -> proper m -> (forall a, read (body a) = Some a) ->
  (forall u, handle state text (env (cs_requests s)) rt (mkHttpRequest meth u [] (default NoBody payload)) (cs_db s) =
    respond (fun a => json_ok (body a)) m (cs_db s)) ->
  request_json canonical_reason body_text read meth (base +:+ slashes n) path payload s =
    Some (reported (fst (m (cs_db s))), mkControlServer (snd (m (cs_db s))) (S (cs_requests s))).
Proof.
  intros Hb Hr Hp Hread Hh. unfold request_json, mbind, CM_bind.
  rewrite (send_request_handled (fun a => json_ok (body a)) m meth n path rt payload s Hb Hr Hp
    ltac:(done) Hh).
  specialize (Hp (cs_db s)). destruct (m (cs_db s)) as [[a|e|] d']; [| |done];
    cbn [mbind option_bind fst snd reported fmap res_fmap]; [|done].
  cbn [json_ok response_body]. by rewrite Hread.
Qed.

(** A whole command: the request, the handler, the output. *)
Lemma command_handled {A} (body : A -> Body) (read : Body -> option A) (m : M A) (out : A -> ctl_output)
    meth n path rt payload s :
  ends_with base "/" = false -> find_route path = Some rt -> proper m -> (forall a, read (body a) = Some a) ->
  (forall u, handle state text (env (cs_requests s)) rt (mkHttpRequest meth u [] (default NoBody payload)) (cs_db s) =
    respond (fun a => json_ok (body a)) m (cs_db s)) ->
  let meaning : M ctl_output := x ← m; mret (out x) in
  CM_bind _ _ (fun x => CM_ret _ (out x))
    (request_json canonical_reason body_text read meth (base +:+ slashes n) path payload) s =
    Some (reported (fst (meaning (cs_db s))), mkControlServer (snd (meaning (cs_db s))) (S (cs_requests s))).
Proof.
  intros Hb Hr Hp Hread Hh meaning. unfold CM_bind.
  rewrite (request_json_handled body read m meth n path rt payload s Hb Hr Hp Hread Hh).
  unfold meaning, mbind, M_bind, option_bind. specialize (Hp (cs_db s)). by destruct (m (cs_db s)) as [[a|e|] d'].
Qed.

End meaning.

(** C16: the operator's tool does what the control plane's handlers do.  With the
    address of the control plane, written with any number of slashes at its end, and
    an identifier that an URL carries as it is, every command runs exactly the
    handler it is for, once: the database after it is the one that the handler
    leaves, its output is the handler's result, and an error of the handler is
    reported with the status and the message of the handler. *)
Theorem ctl_runs_handlers `{ControlEnv} base state env text canonical_reason body_text cli n s :
  ends_with base "/" = false -> control_url cli = base +:+ slashes n ->
  (forall id, ctl_device (ctl_command cli) = Some id -> url_plain id = true) ->
  let m := ctl_meaning state (env (cs_requests s)) (cli_json cli) (ctl_command cli) in
  run_ctl (HS := control_server base state env text) canonical_reason body_text cli s =
    Some (reported canonical_reason (fst (m (cs_db s))), mkControlServer (snd (m (cs_db s))) (S (cs_requests s))).
Proof.
  intros Hb Hurl Hid m. unfold run_ctl. rewrite Hurl. unfold m.
  destruct (ctl_command cli) as [[]|[|id h|id]|[]|[]]; cbn [ctl_meaning ctl_device] in *.
  - apply (command_handled _ _ _ _ _ _ CreateAuthKeyResponseBody) with (rt := RAuthKeys); eauto with proper.
  - apply (command_handled _ _ _ _ _ _ DeviceSummariesBody) with (rt := RDevices); eauto with proper.
  - apply (command_handled _ _ _ _ _ _ DeviceSummaryBody) with (rt := RDevice id); eauto with proper.
    apply find_device_route; auto.
  - unfold request_empty, mbind at 1 2, CM_bind.
    rewrite (send_request_handled _ _ _ _ _ _ (fun code => mkHttpResponse code NoBody)
      (delete_device (q_now (env (cs_requests s))) id) DELETE n _ (RDevice id)); eauto with proper.
    + unfold mbind, M_bind, option_bind. destruct (delete_device _ _ _) as [[a|e|] d'] eqn:Ed; try done.
    + apply find_device_route; auto.
    + by intros a d' ->%delete_device_status.
  - apply (command_handled _ _ _ _ _ _ DnsRecordsBody) with (rt := RDnsRecords); eauto with proper.
  - apply (command_handled _ _ _ _ _ _ RelaysBody as_relays (mret (list_relays state))) with (rt := RRelays);
      eauto with proper.
Qed.

Lemma ctl_runs_handlers_witness :
  let env _ := mkRequestEnv 0 (mkRegisterIds "1" "2" "3" "4") (mkSocketAddr (V4 (Ipv4 127 0 0 1)) 40000) in
  let state := mkAppState (mkSocketAddr (V4 (Ipv4 127 0 0 1)) 3478) [] in
  let E := Build_ControlEnv (fun _ => "00") (fun _ => "now") (fun _ => None) in
  exists s', run_ctl (HS := control_server (E := E) "http://c" state env (fun _ => EmptyString))
      (fun _ => Some "Not Found") (fun _ => EmptyString)
      (mkCtlCli "http://c//" None false (DeviceCmd (DeviceDelete "dev_9"))) (mkControlServer empty_db 0) =
    Some (Err (Returned "404 Not Found" (Some (MText "device not found"))), s').
Proof.
  intros env state E. eexists.
  refine (ctl_runs_handlers (H := E) "http://c" state env (fun _ => EmptyString) (fun _ => Some "Not Found")
    (fun _ => EmptyString) (mkCtlCli "http://c//" None false (DeviceCmd (DeviceDelete "dev_9"))) 2
    (mkControlServer empty_db 0) _ _ _).
  - vm_compute. reflexivity.
  - vm_compute. reflexivity.
  - intros id [= <-]. vm_compute. reflexivity.
Defined.
