(* ===== verification/Services.v ===== *)
(** * Starting and running the services

    [serve] of the relay and of the control plane, [spawn_dns_proxy] of the agent,
    and the loops they run: what is set up in which order, and when a service ends.
    What the operating system answers is an argument. *)

From Stdlib Require Import ZArith Lia.
From stdpp Require Import prelude list strings gmap.
From S2P Require Import Prelude RustStd RustText Protocol Transport Dns RelayServer ControlDb Control ControlProps Platform Http SystemFiles Agent ControlHttp.

(** [?] on the outcome of a call. *)
Definition io_any {A} (r : io A) : res anyhow A :=
  match r with inr a => Ok a | inl k => Err (AForeign (IoError k)) end.

(** [listen.parse::<SocketAddr>()?] *)
Definition parse_listen (listen : string) : res anyhow SocketAddr :=
  ok_or (AForeign AddrParseError) (parse_socket_addr listen).

(** ** The relay ([tfscale-relay/src/main.rs], [serve]) *)

(** The listener is the loop of [serve]; when it returns, the process and with it
    every session ends. *)
Record RelayService : Type := mkRelayService {
  rs_world : RelayServer.world;
  rs_accepted : nat;
  rs_result : option anyhow;
}.

Inductive service_event : Type :=
| Accepted (r : io unit)
| Session (e : RelayServer.event).

Definition relay_serve (listen : string) (bind : SocketAddr -> io unit) : res anyhow RelayService :=
  addr ← parse_listen listen;
  _ ← io_any (bind addr);
  Ok (mkRelayService init_world 0 None).

(** The command line has one command. *)
Inductive RelayCommand : Type := RelayServe (listen : string).
Definition DEFAULT_RELAY_LISTEN : string := "0.0.0.0:9443".
Definition relay_main (bind : SocketAddr -> io unit) (c : RelayCommand) : res anyhow RelayService :=
  match c with RelayServe listen => relay_serve listen bind end.

Section relay.
Context (from_str : string -> option RelayMessage).

(** A connection gets the next number; a failed [accept] ends the loop. *)
Definition relay_service_step (s : RelayService) (e : service_event) : option RelayService :=
  match rs_result s, e with
  | Some _, _ => None
  | None, Accepted (inr _) =>
      w ← relay_step from_str (rs_world s) (Accept (rs_accepted s));
      Some (mkRelayService w (S (rs_accepted s)) None)
  | None, Accepted (inl k) => Some (mkRelayService (rs_world s) (rs_accepted s) (Some (AForeign (IoError k))))
  | None, Session (Accept _) => None
  | None, Session e => w ← relay_step from_str (rs_world s) e; Some (mkRelayService w (rs_accepted s) None)
  end.

Fixpoint relay_service_run (s : RelayService) (es : list service_event) : option RelayService :=
  match es with
  | [] => Some s
  | e :: es => s ← relay_service_step s e; relay_service_run s es
  end.
End relay.

(** ** The control plane ([tfscale-control/src/main.rs], [serve]) *)

(** What [serve] meets: opening the database, creating the table of migrations,
    the text of a failed migration, binding the probe socket and asking for its address, binding the listener. *)
Record serve_answers : Type := mkServeAnswers {
  sa_connect : io unit;
  sa_create : io unit;
  sa_sql_error : string;
  sa_bind_udp : SocketAddr -> io unit;
  sa_local_addr : SocketAddr -> io SocketAddr;
  sa_bind_tcp : SocketAddr -> io unit;
}.

(** What is left of a start: its outcome, the database and the probe socket that
    is served. *)
Record control_start {S : Type} : Type := mkControlStart {
  cst_result : res anyhow (AppState * SocketAddr);
  cst_schema : schema (S := S);
  cst_probe : option SocketAddr;
}.
Arguments control_start : clear implicits.
Arguments mkControlStart {S}.

Section control.
Context {S : Type} (execute : string -> S -> option S).

Definition control_serve (a : serve_answers) (listen udp_probe_listen : string) (relay_urls : list string)
    (s : schema (S := S)) : control_start S :=
  match (_ ← io_any (sa_connect a); io_any (sa_create a)) with
  | Ok _ =>
      let '(migrated, s) := init_schema execute s in
      if migrated then
        match (addr ← parse_listen udp_probe_listen; _ ← io_any (sa_bind_udp a addr); io_any (sa_local_addr a addr)) with
        | Ok probe_addr =>
            let state := mkAppState probe_addr (relay_metadata_from_urls relay_urls) in
            mkControlStart (addr ← parse_listen listen; _ ← io_any (sa_bind_tcp a addr); Ok (state, addr)) s (Some probe_addr)
        | Err e => mkControlStart (Err e) s None
        | Panic => mkControlStart Panic s None
        end
      else mkControlStart (Err (AForeign (SqlError (sa_sql_error a)))) s None
  | Err e => mkControlStart (Err e) s None
  | Panic => mkControlStart Panic s None
  end.
(** The options of [serve] and their defaults; the database is the one at [db]. *)
Inductive ControlCommand : Type :=
| ControlServe (db listen udp_probe_listen : string) (relay_urls : list string).
Definition ControlServe_default : ControlCommand := ControlServe "./tf-scale.db" "127.0.0.1:8080" "127.0.0.1:3478" [].
Definition control_main (a : serve_answers) (open_db : string -> schema (S := S)) (c : ControlCommand) : control_start S :=
  match c with
  | ControlServe db listen udp_probe_listen relay_urls =>
      control_serve a listen udp_probe_listen relay_urls (open_db ("sqlite://" +:+ db +:+ "?mode=rwc"))
  end.
End control.

(** [run_udp_endpoint_probe]: the replies sent so far, and whether the loop runs. *)
Record ProbeLoop : Type := mkProbeLoop { pl_replies : list (SocketAddr * list Z); pl_running : bool }.

Definition probe_loop_step (s : ProbeLoop) (recv : io (list Z * SocketAddr)) (sent : io unit) : ProbeLoop :=
  if pl_running s then
    match recv with
    | inr (datagram, source) =>
        match udp_probe_turn datagram source, sent with
        | Some reply, inr _ => mkProbeLoop (pl_replies s ++ [(source, reply)]) true
        | _, _ => s
        end
    | inl _ => mkProbeLoop (pl_replies s) false
    end
  else s.

(** ** The DNS proxy ([tfscale-agent/src/dns.rs], [spawn_dns_proxy]) *)

Record DnsProxy : Type := mkDnsProxy {
  dp_config : DnsConfig;
  dp_runtime : DnsRuntime;
  dp_replies : list (SocketAddr * list Z);
  dp_result : option anyhow;
}.

Definition spawn_dns_proxy (bind : SocketAddr -> io unit) (local : io SocketAddr) (config : DnsConfig) (runtime : DnsRuntime)
    : res anyhow DnsProxy :=
  _ ← io_any (bind (dc_listen config));
  _ ← io_any local;
  Ok (mkDnsProxy config runtime [] None).

(** A datagram and the outcome of sending the reply, or new records of the agent. *)
Inductive dns_event : Type :=
| DnsReceive (recv : io (list Z * SocketAddr)) (sent : io unit)
| DnsRecords (records : list DnsRecord).

(** [run_dns_proxy]: a failed call ends the loop; an invalid request does not.  A
    panic would end the task. *)
Definition dns_proxy_step (s : DnsProxy) (e : dns_event) : DnsProxy :=
  match e with
  | DnsRecords rs => mkDnsProxy (dp_config s) (set_records (dp_runtime s) rs) (dp_replies s) (dp_result s)
  | DnsReceive recv sent =>
      let stop e := mkDnsProxy (dp_config s) (dp_runtime s) (dp_replies s) (Some e) in
      match dp_result s, recv with
      | Some _, _ => s
      | None, inl k => stop (AForeign (IoError k))
      | None, inr (datagram, peer) =>
          match dns_proxy_turn (dp_config s) (dp_runtime s) datagram with
          | Ok (Some reply) =>
              match sent with
              | inr _ => mkDnsProxy (dp_config s) (dp_runtime s) (dp_replies s ++ [(peer, reply)]) None
              | inl k => stop (AForeign (IoError k))
              end
          | Ok None => s
          | _ => stop (AText "panicked")
          end
      end
  end.

(** ** Properties *)

(** Only [Accept] adds a connection. *)
Lemma set_conn_none w c k c' : is_Some (conns w !! c) -> conns w !! c' = None -> conns (set_conn w c k) !! c' = None.
Proof. intros [x Hx] Hn. simpl. rewrite lookup_insert_ne; [done|]. intros ->. congruence. Qed.

Lemma route_send_none w sender frame c : conns w !! c = None -> conns (route_send w sender frame).2 !! c = None.
Proof.
  intros Hn. unfold route_send, channel_send. destruct sender as [n|]; [|done].
  destruct (conns w !! n) as [k|] eqn:E; [|done]. destruct (rx_open k); [|done]. simpl.
  rewrite lookup_insert_ne; [done|]. intros ->. congruence.
Qed.

Lemma relay_step_none from_str w e w' c :
  relay_step from_str w e = Some w' -> match e with Accept c' => c <> c' | _ => True end ->
  conns w !! c = None -> conns w' !! c = None.
Proof.
  intros H He Hn.
  assert (forall c' k, is_Some (conns w !! c') -> conns (set_conn w c' k) !! c = None) as Hset
    by (intros; by apply set_conn_none).
  destruct e as [c'|c' line wok|c'|c'|c' wok|c' wok]; simpl in H; destruct (conns w !! c') as [k|] eqn:E; try done; simpl in H.
  { injection H as <-. simpl. by rewrite lookup_insert_ne. }
  all: specialize (fun k' => Hset c' k' ltac:(by rewrite E)).
  all: destruct (task k) as [|d|d frame dest sender|d|]; try done.
  - injection H as <-. unfold greeting_line. repeat case_match; apply Hset.
  - injection H as <-. unfold serving_line, write_message. repeat case_match; solve [apply Hset|done].
  - injection H as <-. apply Hset.
  - injection H as <-. apply Hset.
  - injection H as <-. apply Hset.
  - injection H as <-. apply Hset.
  - unfold outbound, write_message in H. repeat case_match; simplify_eq; apply Hset.
  - injection H as <-. unfold routing_resume. pose proof (route_send_none w sender frame c Hn) as Hr.
    destruct (route_send w sender frame) as [b w1]. simpl in Hr. destruct (conns w1 !! c') as [k1|] eqn:E1; [|done].
    unfold write_message. repeat case_match; (apply set_conn_none; [by rewrite E1|done]).
  - injection H as <-. apply Hset.
Qed.

(** The states of a running service are states of the relay, and the next
    connection has a number of its own. *)
Definition service_ok from_str (s : RelayService) : Prop :=
  RelayServer.reachable from_str (rs_world s) /\
  forall c, (rs_accepted s <= c)%nat -> conns (rs_world s) !! c = None.

Lemma service_ok_step from_str s e s' :
  relay_service_step from_str s e = Some s' -> service_ok from_str s ->
  service_ok from_str s' /\ rs_result s = None /\
  (is_Some (rs_result s') <-> exists k, e = Accepted (inl k)).
Proof.
  intros H [Hr Hf]. unfold relay_service_step in H. destruct (rs_result s) eqn:E; [done|].
  assert (forall e' w n, relay_step from_str (rs_world s) e' = Some w ->
    (rs_accepted s <= n)%nat -> match e' with Accept c => (c < n)%nat | _ => True end ->
    service_ok from_str (mkRelayService w n None)) as Hstep.
  { intros e' w n Hw Hn He'. split; [by eapply reach_step|]. simpl. intros c Hc. eapply relay_step_none; [done| |apply Hf; lia].
    destruct e'; try done. lia. }
  assert (forall e', match e' with Accept _ => None | _ => w ← relay_step from_str (rs_world s) e';
      Some (mkRelayService w (rs_accepted s) None) end = Some s' ->
    service_ok from_str s' /\ @None anyhow = None /\ (is_Some (rs_result s') <-> exists k, Session e' = Accepted (inl k))) as Hses.
  { clear H. intros e'. destruct e'; [done|..]; (destruct (relay_step _ _ _) as [w|] eqn:Ew; cbn [mbind option_bind]; [|done];
      intros [= <-]; split_and!; [by eapply Hstep|done|split; [by intros [? [=]]|by intros [? [=]]]]). }
  destruct e as [[k|u]|e]; [| |apply Hses; by destruct e].
  - injection H as <-. split_and!; [done|done|]. simpl. split; [by exists k|done].
  - destruct (relay_step _ _ _) as [w|] eqn:Ew; [|done]. injection H as <-. split_and!; [|done|].
    + eapply Hstep; [exact Ew|lia|simpl; lia].
    + simpl. split; [by intros [? [=]]|by intros [? [=]]].
Qed.

Lemma service_ok_run from_str es : forall s s',
  relay_service_run from_str s es = Some s' -> service_ok from_str s -> rs_result s = None ->
  service_ok from_str s' /\ (is_Some (rs_result s') <-> exists k, Accepted (inl k) ∈ es).
Proof.
  induction es as [|e es IH]; intros s s' H Hok Hn; simpl in H.
  { injection H as <-. split; [done|]. rewrite Hn. split; [by intros [? ?]|]. by intros [k ?%elem_of_nil]. }
  destruct (relay_service_step from_str s e) as [s1|] eqn:E; [|done]. simpl in H.
  destruct (service_ok_step from_str s e s1 E Hok) as (Hok1 & _ & He).
  destruct (rs_result s1) as [r|] eqn:E1.
  - destruct (proj1 He ltac:(by eexists)) as [k ->]. destruct es as [|e' es]; simpl in H.
    + injection H as <-. split; [done|]. rewrite E1. split; [intros _; exists k; by left|done].
    + unfold relay_service_step in H. by rewrite E1 in H.
  - destruct (IH s1 s' H Hok1 E1) as [Hok' Hiff]. split; [done|]. rewrite Hiff. split.
    + intros [k Hk]. exists k. by right.
    + intros [k [<-|Hk]%elem_of_cons]; [|by exists k]. by destruct (proj2 He (ex_intro _ k eq_refl)).
Qed.

(** C31: the relay serves until a connection cannot be accepted.  From its start on,
    the states of the service are states of the relay (so its sessions behave as
    shown for them), it can accept one more connection at any time, and it ends
    exactly when [accept] fails once, with every session, for good. *)
Theorem relay_serves from_str listen bind s0 es s :
  relay_serve listen bind = Ok s0 -> relay_service_run from_str s0 es = Some s ->
  RelayServer.reachable from_str (rs_world s) /\
  (is_Some (rs_result s) <-> exists k, Accepted (inl k) ∈ es) /\
  (forall r, is_Some (relay_service_step from_str s (Accepted r)) <-> rs_result s = None).
Proof.
  intros H0 H. assert (service_ok from_str s0 /\ rs_result s0 = None) as [Hok Hn].
  { unfold relay_serve in H0. destruct (parse_listen listen) as [a| |]; [|done..]. cbn [mbind res_bind] in H0.
    destruct (io_any (bind a)); [|done..]. injection H0 as <-. split; [|done]. split; [constructor|done]. }
  destruct (service_ok_run from_str es s0 s H Hok Hn) as [[Hr Hf] Hiff]. split_and!; [done|exact Hiff|].
  intros r. unfold relay_service_step. destruct (rs_result s) as [e|]; [by split; [intros [? ?]|]|].
  split; [done|intros _]. destruct r as [k|u]; [by eexists|]. simpl. rewrite (Hf (rs_accepted s)) by lia. by eexists.
Qed.

(** Along the calls of [control_serve]: the cases that end early are trivial. *)
Ltac serve_cases a :=
  unfold control_serve, parse_listen, io_any;
  destruct (sa_connect a) as [?|[]]; cbn [mbind res_bind]; [done|];
  destruct (sa_create a) as [?|[]]; cbn [mbind res_bind]; [done|];
  destruct (init_schema _ _) as [[] ?]; [|done];
  destruct (parse_socket_addr _) as [?|]; cbn [ok_or mbind res_bind]; [|done];
  destruct (sa_bind_udp a _) as [?|[]]; cbn [mbind res_bind]; [done|];
  destruct (sa_local_addr a _) as [?|?]; cbn [mbind res_bind]; [done|];
  try (destruct (parse_socket_addr _) as [?|]; cbn [ok_or mbind res_bind]; [|done]);
  try (destruct (sa_bind_tcp a _) as [?|[]]; cbn [mbind res_bind]; [done|]);
  try done.

(** What a start that succeeded did. *)
Lemma control_serve_ok {S} (execute : string -> S -> option S) a listen udp urls s st addr :
  cst_result (control_serve execute a listen udp urls s) = Ok (st, addr) ->
  init_schema execute s = (true, cst_schema (control_serve execute a listen udp urls s)) /\
  parse_socket_addr listen = Some addr /\ relays st = relay_metadata_from_urls urls /\
  cst_probe (control_serve execute a listen udp urls s) = Some (udp_probe_addr st).
Proof.
  serve_cases a. cbn [cst_result cst_schema cst_probe]. by intros [= <- <-].
Qed.

(** The control plane starts in order.  When [serve] gets to answering
    requests, every migration is applied, the state has the configured relays, and
    the address it tells to agents is the one its probe socket is bound to and
    served on; when the database cannot be opened nothing has happened; and a
    malformed address stops the start only after the database was migrated and,
    for the listener, after the probe socket was bound. *)
Theorem control_starts_in_order {S} (execute : string -> S -> option S) a listen udp urls s :
  let r := control_serve execute a listen udp urls s in
  cst_result r <> Panic /\
  (forall st addr, cst_result r = Ok (st, addr) ->
    Forall (fun m => migration_applied (cst_schema r) (mig_version m) = true) MIGRATIONS /\
    init_schema execute (cst_schema r) = (true, cst_schema r) /\
    parse_socket_addr listen = Some addr /\ relays st = relay_metadata_from_urls urls /\
    cst_probe r = Some (udp_probe_addr st)) /\
  (forall k, sa_connect a = inl k -> cst_result r = Err (AForeign (IoError k)) /\ cst_schema r = s) /\
  (sa_connect a = inr tt -> sa_create a = inr tt -> cst_schema r = (init_schema execute s).2) /\
  (forall probe, cst_probe r = Some probe -> parse_socket_addr listen = None ->
    cst_result r = Err (AForeign AddrParseError)).
Proof.
  cbv zeta. split_and!.
  - serve_cases a.
  - intros st addr H. destruct (control_serve_ok execute a listen udp urls s st addr H) as (H1 & H2 & H3 & H4).
    destruct (init_schema_restartable execute s true _ H1). by split_and!.
  - intros k Hk. unfold control_serve, io_any. by rewrite Hk.
  - intros H1 H2. unfold control_serve. rewrite H1, H2. cbn [io_any mbind res_bind].
    destruct (init_schema execute s) as [[] s']; [|done]. by destruct (_ ≫= _).
  - intros probe Hp Hl. revert Hp. unfold control_serve, parse_listen. rewrite Hl. clear Hl. serve_cases a.
Qed.

(** C33: agents probe the address that the control plane bound, whatever it is.
    The answer to an endpoint probe names the address and port of the probe
    socket, and the agent reads them back unchanged: a control plane that listens
    on the unspecified address sends its agents to their own machines. *)
Theorem agents_probe_bound_address `{ControlEnv} {S} (execute : string -> S -> option S) a listen udp urls s st addr
    source request d response d' :
  cst_result (control_serve execute a listen udp urls s) = Ok (st, addr) ->
  Ip_wf (ip (udp_probe_addr st)) ->
  endpoint_probe st source request d = (Ok response, d') ->
  udp_probe_server response = Ok (cst_probe (control_serve execute a listen udp urls s)).
Proof.
  intros Hst Hwf Hp. destruct (control_serve_ok execute a listen udp urls s st addr Hst) as (_ & _ & _ & ->). revert Hp. unfold endpoint_probe, mbind, M_bind.
  destruct (validate_device_node_key _ _ d) as [[[]| |] d1]; [|done..].
  destruct (negb _); [done|]. intros [= <- _]. unfold udp_probe_server. cbn [epr_udp_probe_address epr_udp_probe_port].
  rewrite parse_ip_to_string by done. by destruct (udp_probe_addr st).
Qed.

(** ** The DNS proxy *)

(** The reply to a datagram, and the calls that fail for it. *)
Definition reply_to (config : DnsConfig) (records : list DnsRecord) (datagram : list Z) : option (list Z) :=
  res_ok (build_response (take MAX_DNS_PACKET_SIZE datagram) records (dc_suffix config)).

(** The replies that events call for: each from the records of its time. *)
Fixpoint replies_due (config : DnsConfig) (records : list DnsRecord) (es : list dns_event) : list (SocketAddr * list Z) :=
  match es with
  | [] => []
  | DnsRecords rs :: es => replies_due config rs es
  | DnsReceive (inr (datagram, peer)) _ :: es =>
      match reply_to config records datagram with
      | Some reply => (peer, reply) :: replies_due config records es
      | None => replies_due config records es
      end
  | DnsReceive (inl _) _ :: es => replies_due config records es
  end.

(** No call of the event fails, and a datagram is made of bytes. *)
Definition dns_event_ok (e : dns_event) : Prop :=
  match e with
  | DnsReceive (inr (datagram, _)) (inr _) => Bytes datagram
  | DnsReceive _ _ => False
  | DnsRecords _ => True
  end.

Lemma dns_proxy_turn_reply config rt datagram :
  Bytes datagram -> dns_proxy_turn config rt datagram = Ok (reply_to config (records rt) datagram).
Proof.
  intros HB. destruct (dns_proxy_total config rt datagram HB) as [reply Hr]. unfold dns_proxy_turn, reply_to in *.
  by destruct (build_response _ _ _).
Qed.

Lemma dns_proxy_run es : forall s,
  Forall dns_event_ok es -> dp_result s = None ->
  let s' := fold_left dns_proxy_step es s in
  dp_result s' = None /\ dp_replies s' = dp_replies s ++ replies_due (dp_config s) (records (dp_runtime s)) es.
Proof.
  induction es as [|e es IH]; intros s Hes Hn; cbv zeta in *; simpl; [by rewrite app_nil_r|].
  apply Forall_cons in Hes as [He Hes]. destruct e as [[k|[datagram peer]] [k'|u]|rs]; try done.
  - assert (dns_proxy_step s (DnsReceive (inr (datagram, peer)) (inr u)) =
      mkDnsProxy (dp_config s) (dp_runtime s)
        (dp_replies s ++ (pair peer <$> option_list (reply_to (dp_config s) (records (dp_runtime s)) datagram))) None) as ->.
    { unfold dns_proxy_step. rewrite Hn, dns_proxy_turn_reply by done. destruct (reply_to _ _ _); [done|].
      simpl. rewrite app_nil_r, <- Hn. by destruct s. }
    destruct (IH (mkDnsProxy (dp_config s) (dp_runtime s)
      (dp_replies s ++ (pair peer <$> option_list (reply_to (dp_config s) (records (dp_runtime s)) datagram))) None) Hes eq_refl)
      as [-> ->]. split; [done|]. simpl. rewrite <- app_assoc. by destruct (reply_to _ _ _).
  - by apply (IH (mkDnsProxy (dp_config s) (set_records (dp_runtime s) rs) (dp_replies s) (dp_result s))).
Qed.

(** C29: the DNS proxy answers everything until a call on its socket fails.  Over any
    datagrams and any changes of the records, it keeps running and its replies
    are, in order, the responses to the valid requests among them, each from the
    records of its time; and once a call failed, it never answers again. *)
Theorem dns_proxy_serves bind local config runtime s0 es :
  spawn_dns_proxy bind local config runtime = Ok s0 -> Forall dns_event_ok es ->
  let s := fold_left dns_proxy_step es s0 in
  dp_result s = None /\ dp_replies s = replies_due config (records runtime) es /\
  (forall k sent, dp_result (dns_proxy_step s (DnsReceive (inl k) sent)) = Some (AForeign (IoError k))) /\
  (forall e es', dp_result (dns_proxy_step s e) <> None ->
    dp_replies (fold_left dns_proxy_step es' (dns_proxy_step s e)) = dp_replies s).
Proof.
  intros H0 Hes. assert (s0 = mkDnsProxy config runtime [] None) as ->.
  { unfold spawn_dns_proxy in H0. destruct (io_any (bind _)); [|done..]. cbn [mbind res_bind] in H0.
    destruct (io_any local); [|done..]. by injection H0 as <-. }
  destruct (dns_proxy_run es (mkDnsProxy config runtime [] None) Hes eq_refl) as [H1 H2]. cbv zeta. split_and!; [done|done|..].
  { intros k sent. unfold dns_proxy_step at 1. by rewrite H1. }
  set (s := fold_left _ es _) in *. intros e es' He.
  assert (forall s', dp_result s' <> None -> dp_replies (fold_left dns_proxy_step es' s') = dp_replies s') as Hdead.
  { clear. induction es' as [|e es' IH]; intros s' Hs; simpl; [done|]. rewrite IH.
    - destruct e as [recv sent|rs]; [|done]. simpl. by destruct (dp_result s').
    - destruct e as [recv sent|rs]; [|done]. simpl. by destruct (dp_result s') eqn:E; [rewrite E|]. }
  rewrite Hdead by done. clear Hdead. revert He. unfold dns_proxy_step. destruct e as [recv sent|rs]; [|done].
  rewrite H1. by repeat case_match.
Qed.

(** ** Witnesses *)

Definition always (a : SocketAddr) : io unit := inr tt.

Lemma relay_serves_witness :
  exists s0 s, relay_serve "0.0.0.0:9443" always = Ok s0 /\
    relay_service_run (fun _ => None) s0 [Accepted (inr tt); Accepted (inr tt); Session (Eof 0); Accepted (inl OtherKind)] = Some s /\
    RelayServer.reachable (fun _ => None) (rs_world s).
Proof.
  eexists _, _. split; [reflexivity|]. split; [reflexivity|].
  refine (proj1 (relay_serves (fun _ => None) "0.0.0.0:9443" always _
    [Accepted (inr tt); Accepted (inr tt); Session (Eof 0); Accepted (inl OtherKind)] _ eq_refl eq_refl)).
Defined.

(** A database that executes every statement, and a start on the wildcard address. *)
Definition serve_ok : serve_answers := mkServeAnswers (inr tt) (inr tt) EmptyString always (fun a => inr a) always.
Definition wildcard_start : control_start unit :=
  control_serve (fun _ s => Some s) serve_ok "0.0.0.0:8080" "0.0.0.0:3478" ["tcp://relay:9443"] ([], tt).

Definition wildcard_response : EndpointProbeResponse :=
  mkEndpointProbeResponse "203.0.113.7" 41641 "udp" (Some "0.0.0.0") (Some 3478%Z).

Lemma agents_probe_bound_address_witness :
  udp_probe_server wildcard_response = Ok (Some (mkSocketAddr (V4 UNSPECIFIED) 3478)).
Proof.
  refine (agents_probe_bound_address (H := toy_env) (fun _ s => Some s) serve_ok "0.0.0.0:8080" "0.0.0.0:3478" ["tcp://relay:9443"] ([], tt)
    (mkAppState (mkSocketAddr (V4 UNSPECIFIED) 3478) (relay_metadata_from_urls ["tcp://relay:9443"]))
    (mkSocketAddr (V4 UNSPECIFIED) 8080) (mkSocketAddr (V4 (Ipv4 203 0 113 7)) 41641)
    (mkEndpointProbeRequest "dev_a1" "node_a2" "udp") toy_db1 wildcard_response toy_db1 _ _ _).
  - vm_compute. reflexivity.
  - repeat constructor; vm_compute; discriminate.
  - vm_compute. reflexivity.
Defined.

Lemma dns_proxy_serves_witness :
  let es := [DnsReceive (inr ([1; 2; 3]%Z, mkSocketAddr (V4 LOCALHOST) 5000)) (inr tt); DnsRecords toy_records;
             DnsReceive (inr (toy_request, mkSocketAddr (V4 LOCALHOST) 5001)) (inr tt)] in
  let config := mkDnsConfig (mkSocketAddr (V4 LOCALHOST) 1053) "mesh" in
  dp_replies (fold_left dns_proxy_step es (mkDnsProxy config (DnsRuntime_new []) [] None)) = replies_due config [] es /\
  map fst (replies_due config [] es) = [mkSocketAddr (V4 LOCALHOST) 5001].
Proof.
  intros es config. split; [|vm_compute; reflexivity].
  refine (proj1 (proj2 (dns_proxy_serves always (inr (mkSocketAddr (V4 LOCALHOST) 1053)) config (DnsRuntime_new []) _ es eq_refl _))).
  repeat constructor; vm_compute; discriminate.
Defined.
