(* ===== verification/EndToEnd.v ===== *)
(** * The agent and the control plane together

    Registration over HTTP and what a save that fails afterwards leaves; endpoints
    from one agent's heartbeat, through the database and whatever other clients do,
    and the network map, into another agent's backend. *)

From Stdlib Require Import ZArith Lia.
From stdpp Require Import prelude list strings gmap.
From S2P Require Import Prelude RustStd RustText Protocol Platform Http SystemFiles Dns NetBackend BackendProps Agent AgentProps ControlDb Control ControlInv ControlProps ControlHttp History.

(** ** Addresses *)

Lemma pool_ip_text k : pool_ip k = ipv4_to_string (Ipv4 100 64 0 (Z.of_nat k + 2)).
Proof. reflexivity. Qed.

Lemma parse_pool_ip k : (k < 253)%nat -> parse_ipv4 (pool_ip k) = Some (Ipv4 100 64 0 (Z.of_nat k + 2)).
Proof.
  intros Hk. rewrite pool_ip_text. apply parse_ipv4_print. unfold Ipv4_wf, Bytes. cbn [octets].
  rewrite !Forall_cons. unfold is_u8, u8_max. split_and!; try lia. by apply Forall_nil.
Qed.

Lemma device_ip_parses d v : db_inv d -> v ∈ devices d -> is_Some (parse_ipv4 (d_ipv4 v)).
Proof.
  intros Hi Hv. pose proof (list_elem_of_fmap_2 d_ipv4 _ _ Hv) as Hin. rewrite (inv_device_ips d Hi) in Hin.
  apply list_elem_of_fmap in Hin as (k & -> & Hk). apply elem_of_seq in Hk.
  pose proof (inv_pool d Hi). rewrite parse_pool_ip by lia. by eexists.
Qed.

(** ** Reports *)

Section reports.
Context `{E : ControlEnv}.

(** Device [v] has reported [e], and the service is now in [s]: from an empty database,
    after any calls, a heartbeat of [v] with [e] in it was accepted, and after that
    come any calls, of any clients, that satisfy [ok] (as the heartbeat does). *)
Inductive has_reported (v : DeviceRow) (e : EndpointPayload) (ok : control_call -> Prop) (s : db * list pending) : Prop :=
| has_reported_intro before now request resp d' after :
    let s0 := control_history (empty_db, []) before in
    Forall from_devices before -> v ∈ devices (fst s0) -> live v = true -> d_id v = hb_device_id request ->
    plain_id (d_id v) -> heartbeat now request (fst s0) = (Ok resp, d') -> e ∈ hb_endpoints request ->
    ok (CallHeartbeat now request) -> Forall ok after -> s = control_history (d', snd s0) after -> has_reported v e ok s.

Context (collision_free : forall x y, Bytes x -> Bytes y -> sha256_hex x = sha256_hex y -> x = y).

Lemma has_reported_offers v e ok s :
  lasting e -> (forall c, ok c -> call_ok (d_id v) e c) -> has_reported v e ok s ->
  plain_id (d_id v) /\ offering (d_id v) (d_ipv4 v) e (fst s).
Proof.
  intros Hl Hok [before now request resp d' after s0 Hb Hv Hlv Hid Hp Hh He Hr Ha ->]. split; [done|].
  apply (offering_history collision_free); [done|by eapply Forall_impl|]. cbn [fst]. rewrite Hid.
  apply (heartbeat_offers collision_free now request (fst s0) resp d' e v); try done.
  - apply owned_history; [done|]. intros r Hr'. by apply not_elem_of_nil in Hr'.
  - by rewrite <- Hid.
  - rewrite Hid in Hok. by apply (Hok _ Hr).
Qed.

End reports.

(** ** Properties *)

Lemma peer_in_configs peers configs p :
  network_map_to_peer_configs peers = Ok configs -> p ∈ peers -> exists c, c ∈ configs /\ peer_to_config p = Ok c.
Proof.
  intros H%collect_res_ok Hp. apply list_elem_of_lookup in Hp as [i Hi].
  destruct (Forall2_lookup_l _ _ _ _ _ H Hi) as (c & Hc & Hf). exists c. split; [|done].
  by eapply list_elem_of_lookup_2.
Qed.

Lemma peer_to_config_endpoint p c ep x :
  peer_to_config p = Ok c -> ep ∈ nmp_endpoints p -> endpoint_to_config ep = Ok x ->
  pc_device_id c = nmp_device_id p /\ parse_ipv4 (nmp_ipv4 p) = Some (pc_overlay_ip c) /\ x ∈ pc_endpoints c.
Proof.
  unfold peer_to_config. intros H Hep Hx. destruct (parse_ipv4 (nmp_ipv4 p)) as [o|]; [|done].
  cbn [ok_or mbind res_bind] in H. destruct (collect_res _ _) as [es| |] eqn:Ec; [|done..].
  cbn [mbind res_bind] in H. injection H as <-. split_and!; [done..|]. cbn [pc_endpoints].
  apply collect_res_ok in Ec. apply list_elem_of_lookup in Hep as [i Hi].
  destruct (Forall2_lookup_l _ _ _ _ _ Ec Hi) as (y & Hy & Hf). rewrite Hx in Hf. injection Hf as ->.
  by eapply list_elem_of_lookup_2.
Qed.

Lemma endpoint_lasting x : lasting (endpoint_to_payload x).
Proof. by split. Qed.

(** C9: an endpoint that one agent reports reaches the backend of every other agent.
    Suppose that device [v] has reported its local endpoint [x], and that since then
    anything may have happened at the control plane that an agent network does: other
    registrations, renamings and deletions of other devices, heartbeats of every device,
    of [v] too, with or without [x].  Another agent then synchronises: it sends its own
    heartbeat and fetches its map, and other clients' calls come in between.  If that
    succeeds with a version that the agent had not remembered, then its backend has the
    peer [v], with the overlay address of [v] and with exactly [x] among its endpoints:
    kind, address, port and protocol.  (The identifiers of devices have no vertical
    bar, and SHA-256 is taken to have no collisions, as identifiers of endpoints.) *)
Theorem endpoints_reach_peers {B} `{NetworkBackend B, !BackendContract B} `{ControlEnv} url state env text others
    to_json m sd st v x (w w' : world B SharedServer) :
  let HS := shared_server url state env text others in
  (forall x y, Bytes x -> Bytes y -> sha256_hex x = sha256_hex y -> x = y) ->
  Ip_wf (ep_address x) -> is_u16 (ep_port x) ->
  has_reported v (endpoint_to_payload x) (agents_call (d_id v)) (shared_db (w_server w), shared_pending (w_server w)) ->
  (forall n, Forall (agents_call (d_id v)) (others n)) -> other_client (d_id v) st ->
  sync_agent_once to_json m sd url st w = Some (Ok tt, w') -> w_last w' <> w_last w ->
  exists p, p ∈ view_peers (w_backend w') /\ pc_device_id p = d_id v /\
    parse_ipv4 (d_ipv4 v) = Some (pc_overlay_ip p) /\ x ∈ pc_endpoints p.
Proof.
  intros HS Hcf Hip Hport Hrep Hoth Hst Hs Hnew.
  destruct (has_reported_offers Hcf v _ _ _ (endpoint_lasting x)
    (fun c => agents_call_ok Hcf (d_id v) x c Hport) Hrep) as [Hp Ho]. cbn [fst] in Ho.
  assert (forall n, Forall (call_ok (d_id v) (endpoint_to_payload x)) (others n)) as Hoth'
    by (intros n; eapply Forall_impl; [apply Hoth|]; intros c; by apply agents_call_ok).
  destruct (sync_Ok _ _ _ _ _ _ _ Hs) as (w1 & w2 & map & H1 & H2 & Hl & Ha).
  rewrite decide_False in Ha by congruence. destruct Ha as (config & peers & _ & Hpc & _ & Hv & _).
  pose proof (stays_heartbeat Hcf url state env text others _ _ _ Hp Hoth' st Hst _ _ _ H1 Ho) as Ho1.
  destruct (fetched_map Hcf url state env text others _ _ _ Hp Hoth' st w1 map w2 Hst Ho1 H2)
    as (now & q & d & d2 & Hq & Hof & Hm).
  destruct (offering_map _ _ _ d now state q map d2 Hof Hq Hm) as (peer & ep & Hpeer & Hdev & Hip4 & Hep & Hk & Had & Hpt & Hpr).
  assert (Hc : endpoint_to_config ep = Ok x).
  { unfold endpoint_to_config. rewrite Hk, Had, Hpr, Hpt. cbn [endpoint_to_payload epp_kind epp_address epp_protocol epp_port].
    rewrite endpoint_kind_roundtrip, transport_protocol_roundtrip, parse_ip_to_string by done.
    cbn [ok_or mbind res_bind]. unfold as_u16. rewrite Z.mod_small by (unfold is_u16, u16_max in Hport; lia).
    by destruct x. }
  destruct (peer_in_configs _ _ _ Hpc Hpeer) as (c & Hcin & Hc').
  destruct (peer_to_config_endpoint _ _ _ _ Hc' Hep Hc) as (Hd & Hov & Hin).
  exists c. rewrite Hv. split_and!; [done|congruence| |done]. by rewrite <- Hip4.
Qed.

(** C39: one malformed endpoint blocks the whole network.  The control plane stores
    any text that a registered device [v] sends as the kind, address or protocol of an
    endpoint [e].  Suppose that it sent one that agents cannot read, and that since then
    anything has happened, heartbeats of [v] without that endpoint included, but [v] was
    not deleted and did not itself report [e] again with an expiry date.  Then no other
    agent applies a network map any more, with whatever backend: no synchronisation
    changes the remembered version or the DNS records, however it ends; one of an agent
    that has no map yet does not succeed; and the loop of an agent that runs never
    changes them either, whatever its turns and whatever the other clients do meanwhile.
    (SHA-256 and the identifiers of devices as above.) *)
Theorem malformed_endpoint_blocks_network {B} `{NetworkBackend B} `{ControlEnv} url state env text others
    to_json m sd st v e (w : world B SharedServer) :
  let HS := shared_server url state env text others in
  (forall x y, Bytes x -> Bytes y -> sha256_hex x = sha256_hex y -> x = y) ->
  lasting e ->
  (forall port source priority expires, exists err, endpoint_to_config
     (mkEndpointPayload (epp_kind e) (epp_address e) port (epp_protocol e) source priority expires) = Err err) ->
  has_reported v e (call_ok (d_id v) e) (shared_db (w_server w), shared_pending (w_server w)) ->
  (forall n, Forall (call_ok (d_id v) e) (others n)) -> other_client (d_id v) st ->
  (forall r w', sync_agent_once to_json m sd url st w = Some (r, w') ->
     w_last w' = w_last w /\ w_dns w' = w_dns w /\ (w_last w = None -> r <> Ok tt)) /\
  (forall start turns r w', run_agent_loop to_json m sd url st start turns w = Some (r, w') ->
     w_last w' = w_last w /\ w_dns w' = w_dns w).
Proof.
  intros HS Hcf Hlast Hbad Hrep Hoth Hst.
  destruct (has_reported_offers Hcf v _ _ _ Hlast (fun c Hc => Hc) Hrep) as [Hp Ho]. cbn [fst] in Ho. split.
  - intros r w' Hs. by eapply (blocked_sync Hcf url state env text others).
  - intros start turns r w' (r1 & w1 & H1 & H2)%AM_bind_Some. injection H1 as <- <-.
    destruct (initial_timers _ _) as [t|x|]; [|by destruct H2 as [_ ->]..].
    by eapply (blocked_loop Hcf url state env text others).
Qed.

Lemma collect_res_all {E A A'} (f : A -> res E A') l :
  (forall x, x ∈ l -> exists y, (f x = Ok y)) -> exists ys, (collect_res f l = Ok ys).
Proof.
  induction l as [|x l IH]; intros H; [by exists []|]. destruct (H x) as [y Hy]; [by left|].
  destruct IH as [ys Hys]; [intros z Hz; apply H; by right|]. exists (y :: ys). cbn [collect_res].
  by rewrite Hy; cbn [mbind res_bind]; rewrite Hys.
Qed.

(** The texts of a row are those of an endpoint. *)
Definition readable (r : EndpointRow) : Prop :=
  exists x, epp_kind (endpoint_to_payload x) = e_kind r /\ epp_address (endpoint_to_payload x) = e_address r /\
    epp_protocol (endpoint_to_payload x) = e_protocol r /\ Ip_wf (ep_address x).

Lemma readable_config r : readable r -> exists x, endpoint_to_config (endpoint_payload r) = Ok x.
Proof.
  intros (x & Hk & Ha & Hp & Hw). unfold endpoint_to_config, endpoint_payload.
  cbn [epp_kind epp_address epp_protocol epp_port]. rewrite <- Hk, <- Ha, <- Hp.
  cbn [endpoint_to_payload epp_kind epp_address epp_protocol].
  rewrite endpoint_kind_roundtrip, transport_protocol_roundtrip, parse_ip_to_string by done. by eexists.
Qed.

Lemma issued_peer_accepted `{ControlEnv} now d v :
  db_inv d -> (forall r, r ∈ endpoints d -> readable r) -> v ∈ devices d ->
  exists c, peer_to_config (peer_of now d v) = Ok c /\ pc_device_id c = d_id v /\
    ipv4_to_string (pc_overlay_ip c) = d_ipv4 v /\
    bc_public (pc_public_credential c) = d_backend_public_credential v /\
    length (pc_endpoints c) = length (nmp_endpoints (peer_of now d v)).
Proof.
  intros Hi Hep Hv. unfold peer_to_config.
  pose proof (list_elem_of_fmap_2 d_ipv4 _ _ Hv) as Hin. rewrite (inv_device_ips d Hi) in Hin.
  apply list_elem_of_fmap in Hin as (k & Hk & Hin). apply elem_of_seq in Hin. pose proof (inv_pool d Hi).
  cbn [peer_of nmp_ipv4]. rewrite Hk, parse_pool_ip by lia. cbn [ok_or mbind res_bind].
  destruct (collect_res_all endpoint_to_config (nmp_endpoints (peer_of now d v))) as [es Hes].
  { intros e (r & -> & Hr)%list_elem_of_fmap. apply readable_config, Hep.
    by apply elem_of_sort_by, elem_of_bfilter in Hr as [? _]. }
  cbn [peer_of nmp_endpoints] in *. rewrite Hes. cbn [mbind res_bind]. eexists. split; [done|].
  apply collect_res_length in Hes. cbn [pc_overlay_ip]. by rewrite pool_ip_text.
Qed.

(** The control plane's maps are readable.  In a reachable database whose
    endpoints all came from agents (their texts are those of endpoints), the network
    map of every device is accepted by its agent: it becomes one peer configuration
    for each other live device, in the order of the map, with the device's own
    address and credential and all its endpoints. *)
Theorem issued_maps_accepted `{ControlEnv} now state q d ps m d2 :
  control_reachable (d, ps) ->
  (forall r, r ∈ endpoints d -> readable r) ->
  network_map now state q d = (Ok m, d2) ->
  exists peers, network_map_to_peer_configs (nm_peers m) = Ok peers /\
    Forall2 (fun p c => pc_device_id c = nmp_device_id p /\ ipv4_to_string (pc_overlay_ip c) = nmp_ipv4 p /\
      bc_public (pc_public_credential c) = nmp_backend_public_credential p /\ length (pc_endpoints c) = length (nmp_endpoints p))
      (nm_peers m) peers.
Proof.
  intros Hr Hep Hm. pose proof (proj1 (control_reachable_inv _ Hr)) as Hi. cbn [fst] in Hi.
  apply network_map_Ok in Hm as (self & _ & _ & ->). cbn [nm_peers].
  set (rows := sort_by _ _). assert (Hrows : Forall (fun v => v ∈ devices d) rows).
  { apply Forall_forall. intros v [Hv _]%elem_of_sort_by%elem_of_bfilter. done. }
  clearbody rows. unfold network_map_to_peer_configs.
  induction Hrows as [|v rows Hv _ (peers & IH1 & IH2)]; [exists []; split; [done|constructor]|].
  destruct (issued_peer_accepted now d v Hi Hep Hv) as (c & Hc & Hrest).
  exists (c :: peers). rewrite fmap_cons. cbn [collect_res]. rewrite Hc. cbn [mbind res_bind]. rewrite IH1.
  split; [done|]. by constructor.
Qed.

(** ** Registration *)

Section register.
Context {B : Type} `{NB : NetworkBackend B} `{E : ControlEnv}.
Context (base : string) (state : AppState) (env : nat -> request_env) (text : Z -> string).
Context (to_json : AgentState -> string).

#[local] Instance the_control : HttpServer ControlServer := control_server base state env text.

(** A registration that the control plane accepts, seen from the agent: what is left
    to do is to save the identity. *)
Lemma register_agent_accepted m sd login st (w : world B ControlServer) resp d1 :
  as_device_id st = None ->
  (let e := env (cs_requests (w_server w)) in
   register_device (q_now e) (q_ids e) (register_request m login st) (cs_db (w_server w)) = (Ok resp, d1)) ->
  register_agent_if_needed to_json m sd base login st w =
    (_ ← AgentState_save to_json m sd (set_registration st resp); mret (set_registration st resp))
    (mkWorld (w_backend w) (mkControlServer d1 (S (cs_requests (w_server w)))) (w_host w) (w_dns w) (w_last w)
      (w_saves w) (w_out w)).
Proof.
  intros Hst Hreg. unfold register_agent_if_needed. rewrite bool_decide_eq_false_2 by (rewrite Hst; by intros [? ?]).
  set (q := mkHttpRequest _ _ _ _). set (w0 := mkWorld _ _ _ _ _ _ _).
  assert (Hs : send q w = Some (Ok (json_ok (RegisterDeviceResponseBody resp)), w0)).
  { unfold send, http_send, the_control, control_server. unfold q at 1. cbn [url]. rewrite strip_prefix_app.
    change (find_route "/v1/agent/register") with (Some RRegister). unfold q. cbn [handle method request_body].
    unfold respond. cbn zeta in Hreg. by rewrite Hreg. }
  erewrite AM_bind_run by exact Hs. by erewrite AM_bind_run by reflexivity.
Qed.

(** The same registration ends well, or at the save. *)
Lemma register_agent_ends m sd login st (w : world B ControlServer) resp d1 :
  as_device_id st = None ->
  (let e := env (cs_requests (w_server w)) in
   register_device (q_now e) (q_ids e) (register_request m login st) (cs_db (w_server w)) = (Ok resp, d1)) ->
  exists r w1, register_agent_if_needed to_json m sd base login st w = Some (r, w1) /\ cs_db (w_server w1) = d1 /\
    (r = Ok (set_registration st resp) \/ exists k, r = Err (AForeign (IoError k))).
Proof.
  intros Hst Hreg. rewrite (register_agent_accepted m sd login st w resp d1 Hst Hreg).
  unfold mbind, AM_bind, AgentState_save. cbn [w_saves]. destruct (m_save m (w_saves w)) as [[k|[]] a].
  - eexists _, _. split_and!; [done..|]. right. by exists k.
  - destruct a as [|k|k n]; cbn [file_write]; (eexists _, _; split; [done|]); (split; [done|]); [by left|right; by exists k..].
Qed.

End register.

(** Every start in the directory [sd] reads the state [st] from the files of [h]. *)
Definition starts_from (from_json : string -> option AgentState) (sd : string) (h : host) (st : AgentState) : Prop :=
  forall m', m_read_fault m' = None -> AgentState_load from_json m' sd h = Ok (Some st).

(** Every start fails at once, without a request and without a change of the files. *)
Definition never_starts {B Srv} `{NetworkBackend B, HttpServer Srv} (to_json : AgentState -> string)
    (from_json : string -> option AgentState) (sd : string) (h : host) : Prop :=
  forall display m' url login listen start turns (w : world B Srv),
    m_read_fault m' = None -> files (w_host w) = files h ->
    exists w', agent_up to_json from_json display m' sd url login listen start turns w =
        Some (Err (AForeign JsonError), w') /\
      w_server w' = w_server w /\ files (w_host w') = files h.

Lemma starts_from_file from_json sd h st content :
  files h !! state_file sd = Some content -> from_json content = Some st -> starts_from from_json sd h st.
Proof.
  intros Hf Hj m' Hm. unfold AgentState_load, file_exists, file_read.
  rewrite Hf, bool_decide_eq_true_2, Hm by done. cbn [negb]. by rewrite Hj.
Qed.

Lemma never_starts_file {B Srv} `{NetworkBackend B, HttpServer Srv} to_json from_json sd h content :
  files h !! state_file sd = Some content -> from_json content = None ->
  never_starts (B := B) (Srv := Srv) to_json from_json sd h.
Proof.
  intros Hf Hj display m' url login listen start turns w Hm Hw.
  assert (Hl : AgentState_load from_json m' sd (w_host w) = Err (AForeign JsonError)).
  { unfold AgentState_load, file_exists, file_read. rewrite Hw, Hf, bool_decide_eq_true_2, Hm by done.
    cbn [negb]. by rewrite Hj. }
  unfold agent_up. rewrite Hl. eexists. split; [reflexivity|done].
Qed.

(** C18: what a failure of the save after a registration leaves.  The agent has stored
    its machine key; the control plane accepts its registration, so that the device is
    in the database; then the agent stores its identity.  The outcome depends on that
    write alone.  If it succeeds, every later start has the identity.  If the directory
    or the file cannot be opened, every later start has the machine key, and it is
    given the same identity when it registers again, even with a spent login key and
    another host name, whatever the clients of the control plane have done meanwhile
    short of deleting the device, and nothing is added to the database.  If the write
    is broken off, the registration is lost with the machine key when the part that was
    written is no whole JSON text: every later start fails before any request, until
    somebody removes the file. *)
Theorem registration_crash_outcomes {B} `{NetworkBackend B} `{ControlEnv} base state env text to_json from_json
    m sd login st (w0 w : world B ControlServer) ps resp d1 :
  let HS := control_server base state env text in
  (forall s, from_json (to_json s) = Some s) -> control_reachable (cs_db (w_server w), ps) -> as_device_id st = None ->
  AgentState_save to_json m sd st w0 = Some (Ok tt, w) ->
  (let e := env (cs_requests (w_server w)) in
   register_device (q_now e) (q_ids e) (register_request m login st) (cs_db (w_server w)) = (Ok resp, d1)) ->
  exists r w1, register_agent_if_needed to_json m sd base login st w = Some (r, w1) /\ cs_db (w_server w1) = d1 /\
    let unsaved k :=
      r = Err (AForeign (IoError k)) /\ starts_from from_json sd (w_host w1) st /\
      forall calls m' login' (w2 : world B ControlServer),
        Forall (fun c => deletes c <> Some (rr_device_id resp)) calls ->
        cs_db (w_server w2) = fst (control_history (d1, ps) calls) ->
        exists r2 w3, register_agent_if_needed to_json m' sd base login' st w2 = Some (r2, w3) /\
          cs_db (w_server w3) = cs_db (w_server w2) /\
          (r2 = Ok (set_registration st resp) \/ exists k2, r2 = Err (AForeign (IoError k2))) in
    match m_save m (w_saves w) with
    | (inl k, _) => unsaved k
    | (inr _, NotOpened k) => unsaved k
    | (inr _, Written) =>
        r = Ok (set_registration st resp) /\ starts_from from_json sd (w_host w1) (set_registration st resp)
    | (inr _, Torn k n) =>
        r = Err (AForeign (IoError k)) /\
        match from_json (of_bytes (take n (as_bytes (to_json (set_registration st resp))))) with
        | Some st' => starts_from from_json sd (w_host w1) st'
        | None => never_starts (B := B) (Srv := ControlServer) to_json from_json sd (w_host w1)
        end
    end.
Proof.
  intros HS Hjson Hreach Hst Hsave Hreg. apply AgentState_save_Ok in Hsave as (Hfile & _).
  pose proof (register_agent_accepted base state env text to_json m sd login st w resp d1 Hst Hreg) as Hrun.
  assert (Hretry : forall calls m' login' (w2 : world B ControlServer),
    Forall (fun c => deletes c <> Some (rr_device_id resp)) calls ->
    cs_db (w_server w2) = fst (control_history (d1, ps) calls) ->
    exists r2 w3, register_agent_if_needed to_json m' sd base login' st w2 = Some (r2, w3) /\
      cs_db (w_server w3) = cs_db (w_server w2) /\
      (r2 = Ok (set_registration st resp) \/ exists k2, r2 = Err (AForeign (IoError k2)))).
  { intros calls m' login' w2 Hc Hdb. apply register_agent_ends; [done|]. cbn zeta. rewrite Hdb.
    by eapply register_again. }
  assert (Hold : starts_from from_json sd (w_host w) st).
  { eapply starts_from_file; [by rewrite Hfile, lookup_insert_eq|done]. }
  unfold mbind, AM_bind, AgentState_save in Hrun. cbn [w_saves] in Hrun.
  destruct (m_save m (w_saves w)) as [[k|[]] a].
  { eexists _, _. split; [exact Hrun|]. by split_and!. }
  destruct a as [|k|k n]; cbn [file_write] in Hrun; (eexists _, _; split; [exact Hrun|]); (split; [done|]); cbn [w_host].
  - split; [done|]. eapply starts_from_file; [|apply Hjson]. cbn [put_file files]. by rewrite lookup_insert_eq.
  - by split_and!.
  - split; [done|]. destruct (from_json _) as [st'|] eqn:Ej;
      [eapply starts_from_file|eapply never_starts_file]; try exact Ej; cbn [put_file files]; by rewrite lookup_insert_eq.
Qed.

(** ** Witnesses *)

#[local] Existing Instance toy_env.

(** Two devices: the second one has the key [tfk_v]. *)
Definition toy_pending1 : pending := mkPending 20 (toy_ids "a") (toy_register "tfk_u" "m1") "devbox" (pool_ip 0).
Definition toy_pending2 : pending := mkPending 40 (toy_ids "b") (toy_register "tfk_v" "m2") "devbox" (pool_ip 1).
Definition toy_keys : db := snd (create_auth_key 11 "j" "v" toy_db0).
Definition toy_one : db := snd (register_commit 20 (toy_ids "a") (toy_register "tfk_u" "m1") "devbox" (pool_ip 0) toy_keys).
Definition toy_two : db := snd (register_commit 40 (toy_ids "b") (toy_register "tfk_v" "m2") "devbox" (pool_ip 1) toy_one).

Definition toy_lan : Endpoint := mkEndpoint Lan (V4 (Ipv4 192 168 1 7)) 51820 Udp.
Definition toy_bad : EndpointPayload := mkEndpointPayload "carrier-pigeon" "192.168.1.7" 51820 "udp" None None None.
Definition toy_beat (l : list EndpointPayload) : HeartbeatRequest :=
  mkHeartbeatRequest "dev_a1" "node_a2" l (mkBackendStatusPayload "tfscale" "tfscale0" true).
Definition toy_reported (l : list EndpointPayload) : db := snd (heartbeat 50 (toy_beat l) toy_two).
Definition toy_app : AppState := mkAppState (mkSocketAddr (V4 (Ipv4 127 0 0 1)) 3478) [].
Definition toy_query : NetworkMapQuery := mkNetworkMapQuery "dev_b1" "node_b2".
Definition map_of (r : res ApiError NetworkMapResponse) : NetworkMapResponse :=
  default (mkNetworkMapResponse 0 (mkNetworkMapSelf EmptyString EmptyString EmptyString EmptyString) [] [] [])
    (res_ok r).
Definition toy_issued (l : list EndpointPayload) : NetworkMapResponse :=
  map_of (fst (network_map 60 toy_app toy_query (toy_reported l))).

Lemma toy_two_reachable l : control_reachable (toy_reported l, []).
Proof.
  eapply control_next; [|exact (step_heartbeat 50 (toy_beat l) toy_two [])].
  eapply control_next; [|exact (step_commit toy_pending2 toy_one [] [])].
  eapply control_next; [|apply (step_allocate toy_pending2); vm_compute; reflexivity].
  eapply control_next; [|exact (step_commit toy_pending1 toy_keys [] [])].
  eapply control_next; [|apply (step_allocate toy_pending1); vm_compute; reflexivity].
  eapply control_next; [|exact (step_create 11 "j" "v" toy_db0 [])].
  eapply control_next; [|exact (step_create 10 "i" "u" empty_db [])]. constructor.
Qed.

Definition toy_first : DeviceRow := new_device 20 (toy_ids "a") (toy_register "tfk_u" "m1") "devbox" (pool_ip 0).

Lemma toy_first_in : toy_first ∈ devices toy_two.
Proof. vm_compute. by left. Qed.

Lemma toy_collision_free x y : Bytes x -> Bytes y -> sha256_hex x = sha256_hex y -> x = y.
Proof. intros Hx Hy H%(f_equal as_bytes). by rewrite !as_bytes_of_bytes in H. Qed.

(** The two registrations, the report of the first device, and what comes after it: the
    second device is renamed and sends a heartbeat.  During the synchronisation of the
    second device, a key is made, and the first device sends empty heartbeats. *)
Definition toy_before : list control_call :=
  [CallCreateKey 10 "i" "u"; CallCreateKey 11 "j" "v"; CallAllocate toy_pending1; CallCommit 0;
   CallAllocate toy_pending2; CallCommit 0].
Definition toy_after : list control_call :=
  [CallRename 52 "r" "dev_b1" (mkRenameDeviceRequest "box");
   CallHeartbeat 54 (mkHeartbeatRequest "dev_b1" "node_b2" [] (mkBackendStatusPayload "tfscale" "tfscale0" true))].
Definition toy_others (n : nat) : list control_call :=
  match n with O => [CallCreateKey 56 "k" "w"] | _ => [CallHeartbeat 58 (toy_beat [])] end.
Definition toy_later (l : list EndpointPayload) : db * list pending :=
  control_history (toy_reported l, []) toy_after.
Definition toy_times (n : nat) : request_env :=
  mkRequestEnv (60 + Z.of_nat n) (toy_ids "c") (mkSocketAddr (V4 (Ipv4 127 0 0 1)) 40000).

Lemma toy_report e ok :
  (forall l, Forall (fun x => x = e) l -> ok (CallHeartbeat 50 (toy_beat l))) -> Forall ok toy_after ->
  has_reported toy_first e ok (toy_later [e]).
Proof.
  intros Hok Ha. assert (control_history (empty_db, []) toy_before = (toy_two, [])) as Hb by (vm_compute; reflexivity).
  refine (has_reported_intro _ _ _ _ toy_before 50 (toy_beat [e])
    (mkHeartbeatResponse true (nm_network_map_version (toy_issued [e]))) (toy_reported [e]) toy_after _ _ _ _ _ _ _ _ Ha _);
    rewrite ?Hb.
  - by repeat constructor.
  - apply toy_first_in.
  - reflexivity.
  - reflexivity.
  - unfold plain_id. by_decide.
  - vm_compute. reflexivity.
  - by left.
  - apply Hok. by repeat constructor.
  - reflexivity.
Qed.

(** The second device, on a mock backend. *)
Definition toy_agent_json (s : AgentState) : string := as_machine_key s.
Definition toy_second : AgentState :=
  mkAgentState "m2" "cred" (Some "dev_b1") (Some "node_b2") (Some "net_default") (Some (pool_ip 1)) 5 [] true
    DEFAULT_DNS_LISTEN true None.
Definition toy_shared (l : list EndpointPayload) : world MockBackend SharedServer :=
  mkWorld (MockBackend_new "cred") (mkSharedServer (mkControlServer (fst (toy_later l)) 0) (snd (toy_later l)))
    empty_host (DnsRuntime_new []) None 0 [].
Definition toy_sync (l : list EndpointPayload) : option (res anyhow unit * world MockBackend SharedServer) :=
  sync_agent_once (HS := shared_server "http://c" toy_app toy_times (fun _ => EmptyString) toy_others)
    toy_agent_json toy_machine "/s" "http://c" toy_second (toy_shared l).
Definition synced (l : list EndpointPayload) : world MockBackend SharedServer :=
  match toy_sync l with Some (_, w) => w | None => toy_shared l end.

Lemma toy_lan_wf : Ip_wf (ep_address toy_lan).
Proof. unfold Ip_wf, toy_lan, ep_address, Ipv4_wf. by_decide. Qed.

Lemma toy_second_other : other_client "dev_a1" toy_second.
Proof. intros id [= <-]. split; [unfold plain_id; by_decide|done]. Qed.

Lemma endpoints_reach_peers_witness :
  exists p, p ∈ view_peers (w_backend (synced [endpoint_to_payload toy_lan])) /\ pc_device_id p = "dev_a1" /\
    toy_lan ∈ pc_endpoints p.
Proof.
  destruct (endpoints_reach_peers "http://c" toy_app toy_times (fun _ => EmptyString) toy_others toy_agent_json
    toy_machine "/s" toy_second toy_first toy_lan (toy_shared [endpoint_to_payload toy_lan])
    (synced [endpoint_to_payload toy_lan])) as (p & Hp & Hid & _ & Hin).
  - exact toy_collision_free.
  - apply toy_lan_wf.
  - by_decide.
  - apply toy_report.
    + intros l Hl. split; [unfold plain_id; by_decide|]. intros _. eapply Forall_impl; [exact Hl|].
      intros e ->. left. exists toy_lan. split; [by_decide|done].
    + repeat constructor; unfold plain_id; by_decide.
  - intros [|n]; repeat constructor; unfold plain_id; by_decide.
  - exact toy_second_other.
  - vm_compute. reflexivity.
  - vm_compute. discriminate.
  - exists p. split_and!; [exact Hp|exact Hid|exact Hin].
Defined.

Lemma malformed_endpoint_blocks_network_witness :
  exists r, toy_sync [toy_bad] = Some (r, synced [toy_bad]) /\ r <> Ok tt /\ w_last (synced [toy_bad]) = None.
Proof.
  destruct (malformed_endpoint_blocks_network "http://c" toy_app toy_times (fun _ => EmptyString) toy_others
    toy_agent_json toy_machine "/s" toy_second toy_first toy_bad (toy_shared [toy_bad])) as [H _].
  - exact toy_collision_free.
  - by split.
  - intros. by eexists.
  - apply toy_report.
    + intros l Hl. split; [unfold plain_id; by_decide|]. intros _. eapply Forall_impl; [exact Hl|].
      intros e -> _. by split_and!.
    + repeat constructor; unfold plain_id; by_decide.
  - intros [|n]; repeat constructor; unfold plain_id; by_decide.
  - exact toy_second_other.
  - set (r := Err (AText "unsupported endpoint kind: carrier-pigeon") : res anyhow unit).
    destruct (H r (synced [toy_bad])) as (H1 & _ & H3); [vm_compute; reflexivity|].
    exists r. split_and!; [vm_compute; reflexivity|exact (H3 eq_refl)|exact H1].
Defined.

Lemma issued_maps_accepted_witness :
  exists peers, network_map_to_peer_configs (nm_peers (toy_issued [endpoint_to_payload toy_lan])) = Ok peers /\
    length peers = 1%nat.
Proof.
  destruct (issued_maps_accepted 60 toy_app toy_query (toy_reported [endpoint_to_payload toy_lan]) []
    (toy_issued [endpoint_to_payload toy_lan]) (toy_reported [endpoint_to_payload toy_lan])) as (peers & H & Hl).
  - apply toy_two_reachable.
  - intros r Hr. exists toy_lan.
    assert (endpoints (toy_reported [endpoint_to_payload toy_lan]) =
      [endpoint_row 50 "dev_a1" (endpoint_to_payload toy_lan)]) as Hn by (vm_compute; reflexivity).
    rewrite Hn in Hr. apply list_elem_of_singleton in Hr as ->. split_and!; try reflexivity. apply toy_lan_wf.
  - vm_compute. reflexivity.
  - exists peers. split; [exact H|]. apply Forall2_length in Hl. rewrite <- Hl. vm_compute. reflexivity.
Defined.

(** The first save succeeds, and the second one ends as [a] says. *)
Definition failing_disk (a : write_answer) : machine :=
  mkMachine OsLinux "x86_64" (Some "laptop") None "0192" None
    (fun n => (inr tt, match n with O => Written | _ => a end)) (inr tt).

#[local] Instance DnsRecord_countable : Countable DnsRecord.
Proof.
  refine (inj_countable' (fun x => (dns_device_id x, Protocol.dns_name x, record_type x, dns_value x))
    (fun '(a, b, c, d) => mkDnsRecord a b c d) _). by intros [].
Defined.
#[local] Instance AgentState_eq_dec : EqDecision AgentState.
Proof. solve_decision. Defined.
#[local] Instance AgentState_countable : Countable AgentState.
Proof.
  refine (inj_countable' (fun x => (as_machine_key x, as_backend_public_credential x, as_device_id x, as_node_key x,
      as_network_id x, as_ipv4 x, as_poll_interval_seconds x, as_dns_records x, as_dns_enabled x, as_dns_listen x,
      as_dns_healthy x, as_dns_message x))
    (fun '(a, b, c, d, e, f, g, h, i, j, k, l) => mkAgentState a b c d e f g h i j k l) _). by intros [].
Defined.
Definition agent_to_json (s : AgentState) : string := binary (encode s).
Definition agent_from_json (t : string) : option AgentState := decode (unbinary t).

Lemma agent_json_roundtrip s : agent_from_json (agent_to_json s) = Some s.
Proof. unfold agent_from_json, agent_to_json. rewrite unbinary_binary. apply decode_encode. Qed.

Definition crash_env (n : nat) : request_env :=
  mkRequestEnv 20 (toy_ids "a") (mkSocketAddr (V4 (Ipv4 127 0 0 1)) 40000).
Definition crash_world (saves : nat) (h : host) : world MockBackend ControlServer :=
  mkWorld (MockBackend_new "cred") (mkControlServer toy_db0 0) h (DnsRuntime_new []) None saves [].
Definition crash_host : host := put_file empty_host "/s/state.json" (agent_to_json (AgentState_new "0192")).
Definition crash_response : RegisterDeviceResponse := registered_response (toy_ids "a") (pool_ip 0).

Lemma toy_db0_reachable : control_reachable (toy_db0, []).
Proof. eapply control_next; [constructor|exact (step_create 10 "i" "u" empty_db [])]. Qed.

(** A full disk, and another key that is made before the retry; a write that
    is broken off after three bytes. *)
Lemma registration_crash_outcomes_witness :
  let HS := control_server "http://c" toy_app crash_env (fun _ => EmptyString) in
  let st := AgentState_new "0192" in
  (exists r w1, register_agent_if_needed (HS := HS) agent_to_json (failing_disk (NotOpened OtherKind)) "/s" "http://c"
      "tfk_u" st (crash_world 1 crash_host) = Some (r, w1) /\
    starts_from agent_from_json "/s" (w_host w1) st /\
    exists r2 w3, register_agent_if_needed (HS := HS) agent_to_json toy_machine "/s" "http://c" "no key" st
        (mkWorld (MockBackend_new "cred")
           (mkControlServer (fst (control_history (cs_db (w_server w1), []) [CallCreateKey 30 "k" "w"])) 7)
           (w_host w1) (DnsRuntime_new []) None 0 []) = Some (r2, w3) /\
      (r2 = Ok (set_registration st crash_response) \/ exists k, r2 = Err (AForeign (IoError k)))) /\
  exists r w1, register_agent_if_needed (HS := HS) agent_to_json (failing_disk (Torn OtherKind 3)) "/s" "http://c"
      "tfk_u" st (crash_world 1 crash_host) = Some (r, w1) /\
    never_starts (B := MockBackend) (Srv := ControlServer) agent_to_json agent_from_json "/s" (w_host w1).
Proof.
  intros HS st.
  assert (forall a, AgentState_save agent_to_json (failing_disk a) "/s" st (crash_world 0 empty_host) =
    Some (Ok tt, crash_world 1 crash_host)) as Hsave by reflexivity.
  split.
  - destruct (registration_crash_outcomes "http://c" toy_app crash_env (fun _ => EmptyString) agent_to_json
      agent_from_json (failing_disk (NotOpened OtherKind)) "/s" "tfk_u" st (crash_world 0 empty_host)
      (crash_world 1 crash_host) [] crash_response
      (snd (register_device 20 (toy_ids "a") (register_request toy_machine "tfk_u" st) toy_db0)))
      as (r & w1 & Hr & Hdb & H).
    + exact agent_json_roundtrip.
    + exact toy_db0_reachable.
    + reflexivity.
    + apply Hsave.
    + vm_compute. reflexivity.
    + destruct H as (_ & Hst & Hretry). exists r, w1. split; [exact Hr|]. split; [exact Hst|].
      destruct (Hretry [CallCreateKey 30 "k" "w"] toy_machine "no key" (mkWorld (MockBackend_new "cred")
        (mkControlServer (fst (control_history (cs_db (w_server w1), []) [CallCreateKey 30 "k" "w"])) 7)
        (w_host w1) (DnsRuntime_new []) None 0 [])) as (r2 & w3 & H2 & _ & H3); [by repeat constructor|by rewrite Hdb|].
      exists r2, w3. split; [exact H2|exact H3].
  - destruct (registration_crash_outcomes "http://c" toy_app crash_env (fun _ => EmptyString) agent_to_json
      agent_from_json (failing_disk (Torn OtherKind 3)) "/s" "tfk_u" st (crash_world 0 empty_host)
      (crash_world 1 crash_host) [] crash_response
      (snd (register_device 20 (toy_ids "a") (register_request toy_machine "tfk_u" st) toy_db0)))
      as (r & w1 & Hr & Hdb & H).
    + exact agent_json_roundtrip.
    + exact toy_db0_reachable.
    + reflexivity.
    + apply Hsave.
    + vm_compute. reflexivity.
    + exists r, w1. split; [exact Hr|]. destruct H as (_ & H).
      assert (agent_from_json (of_bytes (take 3 (as_bytes (agent_to_json (set_registration st crash_response))))) = None)
        as Hj by (vm_compute; reflexivity).
      by rewrite Hj in H.
Defined.
