(* ===== verification/Deployment.v ===== *)
(** * The whole system: from registrations to packets

    Devices that are registered at the control plane and have reported an
    endpoint are given each other in their network maps; the agents turn the maps
    into peer configurations and give them to their backends; and the backends
    carry packets.  The parts meet here at the data they exchange: the database of
    [Control], the maps and configurations of [Agent], the backends of
    [Mesh] and the network of [Channel]. *)

From Stdlib Require Import ZArith Lia.
From stdpp Require Import prelude list strings gmap.
From S2P Require Import Prelude RustStd RustText Protocol Frame Nonce Crypto Transport Runtime RuntimeProps Backend BackendProps Mesh Channel ControlDb Control ControlInv ControlProps Agent AgentProps EndToEnd.

(** ** What the control plane knows of a device *)

Section deployment.
Context `{P : CryptoPrims, HL : !CryptoLaws P, E : ControlEnv}.

(** The row [v] is that of the device [p]: its identifier, its overlay address and
    its credential. *)
Definition registered (p : party) (v : DeviceRow) : Prop :=
  d_id v = device p /\ parse_ipv4 (d_ipv4 v) = Some (overlay p) /\ d_backend_public_credential v = credential p.

(** At the time [now] the device has a UDP endpoint that has not expired. *)
Definition reachable_at (now : Z) (d : db) (v : DeviceRow) : Prop :=
  exists r, r ∈ endpoints d /\ e_device_id r = d_id v /\ expired now r = false /\ e_protocol r = "udp".

(** The identifiers are those of the control plane, [dev_] and a UUID, and different
    as UUIDs. *)
Definition device_ids_ok (d : db) : Prop :=
  Forall (fun v => exists i, from_device_id uuid_parse (d_id v) = Ok i) (devices d) /\
  NoDup (from_device_id uuid_parse <$> (d_id <$> devices d)).

(** ** From a row to a peer configuration *)

Lemma reachable_udp now d v c :
  (forall r, r ∈ endpoints d -> readable r) -> reachable_at now d v -> peer_to_config (peer_of now d v) = Ok c ->
  existsb is_udp (pc_endpoints c) = true.
Proof.
  intros Hread (r & Hr & Hdev & Hexp & Hudp) Hc. destruct (readable_config r (Hread r Hr)) as [x Hx].
  assert (endpoint_payload r ∈ nmp_endpoints (peer_of now d v)) as Hin.
  { apply list_elem_of_fmap_2, elem_of_sort_by, elem_of_bfilter. split; [done|]. by rewrite bool_decide_eq_true_2, Hexp. }
  destruct (peer_to_config_endpoint _ _ _ _ Hc Hin Hx) as (_ & _ & Hxc).
  apply existsb_exists. exists x. rewrite <- list_elem_of_In. split; [done|].
  unfold endpoint_to_config, endpoint_payload in Hx. cbn [epp_kind epp_address epp_protocol epp_port] in Hx.
  destruct (parse_endpoint_kind _); [|done..]. cbn [mbind res_bind] in Hx.
  destruct (parse_ip _); [|done]. cbn [ok_or mbind res_bind] in Hx. rewrite Hudp in Hx. by injection Hx as <-.
Qed.

(** The configuration that a row becomes. *)
Definition config_of (now : Z) (d : db) (v : DeviceRow) (c : PeerConfig) : Prop :=
  peer_to_config (peer_of now d v) = Ok c /\ pc_device_id c = d_id v /\ ipv4_to_string (pc_overlay_ip c) = d_ipv4 v /\
  parse_ipv4 (d_ipv4 v) = Some (pc_overlay_ip c) /\ bc_public (pc_public_credential c) = d_backend_public_credential v.

Lemma row_config now d v :
  db_inv d -> (forall r, r ∈ endpoints d -> readable r) -> v ∈ devices d -> exists c, config_of now d v c.
Proof.
  intros Hi Hep Hv. destruct (issued_peer_accepted now d v Hi Hep Hv) as (c & Hc & H1 & H2 & H3 & _). exists c.
  split_and!; try done. unfold peer_to_config in Hc. cbn [peer_of nmp_ipv4] in Hc.
  destruct (parse_ipv4 (d_ipv4 v)) as [o|]; [|done]. cbn [ok_or mbind res_bind] in Hc.
  destruct (collect_res _ _); [|done..]. by injection Hc as <-.
Qed.

(** The rows of the devices in the map of [id]. *)
Definition map_rows (id : string) (d : db) : list DeviceRow :=
  sort_by (fun x y => str_leb (d_hostname x) (d_hostname y))
    (List.filter (fun r => negb (bool_decide (d_id r = id)) && live r) (devices d)).

Lemma map_rows_elem id d v : v ∈ map_rows id d <-> v ∈ devices d /\ d_id v <> id /\ live v = true.
Proof.
  unfold map_rows. rewrite elem_of_sort_by, elem_of_bfilter, andb_true_iff, negb_true_iff, bool_decide_eq_false. naive_solver.
Qed.

Lemma map_rows_NoDup {A} (f : DeviceRow -> A) id d : NoDup (f <$> devices d) -> NoDup (f <$> map_rows id d).
Proof.
  intros H. unfold map_rows. rewrite (fmap_Permutation f _ _ (sort_by_perm _ _)). by apply NoDup_fmap_filter.
Qed.

Lemma device_ips_NoDup d : db_inv d -> NoDup (d_ipv4 <$> devices d).
Proof.
  intros Hi. rewrite (inv_device_ips d Hi). apply NoDup_fmap_2; [|apply NoDup_seq].
  intros j k. apply pool_ip_inj.
Qed.

Lemma map_configs now id d :
  db_inv d -> (forall r, r ∈ endpoints d -> readable r) ->
  exists peers, network_map_to_peer_configs (peer_of now d <$> map_rows id d) = Ok peers /\
    Forall2 (config_of now d) (map_rows id d) peers.
Proof.
  intros Hi Hep. assert (Forall (fun v => v ∈ devices d) (map_rows id d)) as Hrows.
  { apply Forall_forall. by intros v [? _]%map_rows_elem. }
  unfold network_map_to_peer_configs. induction Hrows as [|v rows Hv _ (peers & IH1 & IH2)]; [by exists []|].
  destruct (row_config now d v Hi Hep Hv) as (c & Hc). exists (c :: peers). rewrite fmap_cons. cbn [collect_res].
  rewrite (proj1 Hc). cbn [mbind res_bind]. rewrite IH1. split; [done|]. by constructor.
Qed.

(** The map of a device is one that its backend can use, *)
Lemma map_configs_ok now id d peers :
  db_inv d -> device_ids_ok d -> Forall2 (config_of now d) (map_rows id d) peers -> peer_map_ok peers.
Proof.
  intros Hi [Hids Hnd] H.
  assert (pc_device_id <$> peers = d_id <$> map_rows id d) as Hdev.
  { clear -H. induction H as [|v c rows peers (_ & Hc & _) _ IH]; [done|]. rewrite !fmap_cons. by f_equal. }
  assert (ipv4_to_string <$> (pc_overlay_ip <$> peers) = d_ipv4 <$> map_rows id d) as Hip.
  { clear -H. induction H as [|v c rows peers (_ & _ & Hc & _) _ IH]; [done|]. rewrite !fmap_cons. by f_equal. }
  split_and!.
  - apply Forall_forall. intros c Hc. assert (pc_device_id c ∈ d_id <$> map_rows id d) as (v & -> & Hv)%list_elem_of_fmap.
    { rewrite <- Hdev. by apply list_elem_of_fmap_2. }
    apply map_rows_elem in Hv as [Hv _]. exact (proj1 (Forall_forall _ _) Hids v Hv).
  - rewrite Hdev, <- list_fmap_compose. rewrite <- list_fmap_compose in Hnd. by apply map_rows_NoDup.
  - eapply NoDup_fmap_1. rewrite Hip. by apply map_rows_NoDup, device_ips_NoDup.
Qed.

(** and it has every other live device that can be reached. *)
Lemma map_configs_know now id d peers q v :
  (forall r, r ∈ endpoints d -> readable r) -> Forall2 (config_of now d) (map_rows id d) peers ->
  v ∈ devices d -> live v = true -> d_id v <> id -> registered q v -> reachable_at now d v -> knows peers q.
Proof.
  intros Hread H Hv Hl Hid (Hdev & Hip & Hcred) Hr.
  assert (v ∈ map_rows id d) as [i Hi]%list_elem_of_lookup by (by apply map_rows_elem).
  destruct (Forall2_lookup_l _ _ _ _ _ H Hi) as (c & Hc & (H1 & H2 & H3 & H4 & H5)). exists c.
  split; [by eapply list_elem_of_lookup_2|]. split_and!; [congruence| |congruence|by eapply reachable_udp].
  rewrite Hip in H4. by injection H4.
Qed.

(** ** From registrations to packets *)

Context (to_json : CustomBackendState -> string) (from_json : string -> option CustomBackendState).

(** C2: two registered devices are the ends of a channel.  In a reachable database of
    the control plane whose endpoints came from agents, let two live devices have
    the credentials of two backends and each a UDP endpoint that has not expired.
    Then both agents can read the network maps that the control plane gives them.
    Once each backend, with its keys and a bound socket, was given its map, the two
    send packets and maintain their paths, and the network delivers any of their
    datagrams, data, probes and answers, at any time, in any order, any number of
    times or never.  Then every packet of at most 1424 bytes for the other's overlay
    address becomes a datagram; a datagram hands out nothing but the packet it
    carries, and at most once; and it does hand it out unless one that was sent 64 or
    more later arrived before; until one of the two has sealed 2^64 frames. *)
Theorem registered_devices_channel d ps pa pb va vb now_a now_b state key_a key_b ma mb d1 d2 :
  control_reachable (d, ps) -> (forall r, r ∈ endpoints d -> readable r) -> device_ids_ok d ->
  va ∈ devices d -> live va = true -> registered pa va -> reachable_at now_b d va ->
  vb ∈ devices d -> live vb = true -> registered pb vb -> reachable_at now_a d vb ->
  device pa <> device pb ->
  network_map now_a state (mkNetworkMapQuery (device pa) key_a) d = (Ok ma, d1) ->
  network_map now_b state (mkNetworkMapQuery (device pb) key_b) d = (Ok mb, d2) ->
  exists peers_a peers_b,
    network_map_to_peer_configs (nm_peers ma) = Ok peers_a /\ network_map_to_peer_configs (nm_peers mb) = Ok peers_b /\
    forall os_send relay_connect relay_write salts_a salts_b fs_a fs_b at_a at_b self_a self_b a b events,
      (forall addr f, exists n, os_send addr f = inr n) ->
      (forall d, salt_ok (salts_a d)) -> (forall d, salt_ok (salts_b d)) ->
      configured from_json pa self_a -> configured from_json pb self_b ->
      apply_peer_map to_json from_json salts_a fs_a at_a peers_a self_a = (Ok tt, a) ->
      apply_peer_map to_json from_json salts_b fs_b at_b peers_b self_b = (Ok tt, b) ->
      Forall (event_ok (overlay pa) (overlay pb)) events ->
      (Z.of_nat (length events) * (1 + probes (pc_endpoints <$> peers_a) + probes (pc_endpoints <$> peers_b)) <= u64_max)%Z ->
      Forall promised (net_run os_send relay_connect relay_write (overlay pa) (overlay pb) (new_end a) (new_end b) events).
Proof.
  intros Hreach Hread Hids Hva Hla Hra Hua Hvb Hlb Hrb Hub Hne Hma Hmb.
  pose proof (proj1 (control_reachable_inv _ Hreach)) as Hi. cbn [fst] in Hi.
  apply network_map_Ok in Hma as (? & _ & _ & ->). apply network_map_Ok in Hmb as (? & _ & _ & ->).
  cbn [nm_peers nmq_device_id]. fold (map_rows (device pa) d) (map_rows (device pb) d).
  destruct (map_configs now_a (device pa) d Hi Hread) as (peers_a & Ha & Fa).
  destruct (map_configs now_b (device pb) d Hi Hread) as (peers_b & Hb & Fb).
  exists peers_a, peers_b. split; [exact Ha|]. split; [exact Hb|]. intros.
  eapply (configured_backends_channel to_json from_json os_send relay_connect relay_write pa pb salts_a salts_b); eauto.
  - by eapply map_configs_ok.
  - apply (map_configs_know now_a (device pa) d peers_a pb vb); try done. by rewrite (proj1 Hrb).
  - by eapply map_configs_ok.
  - apply (map_configs_know now_b (device pb) d peers_b pa va); try done. by rewrite (proj1 Hra).
Qed.

End deployment.

(** ** Witness *)

#[local] Existing Instance toy_env.

(** Two machines register with a key each and report a LAN endpoint. *)
Definition dep_ids (text : string) : RegisterIds := mkRegisterIds text (text +:+ "n") (text +:+ "d") (text +:+ "i").
Definition dep_request (key machine : string) (p : party) : RegisterDeviceRequest :=
  mkRegisterDeviceRequest key machine machine "tfscale" (@credential toy_prims p) "linux" "x86_64" "0.1".
Definition dep_pending1 : pending :=
  mkPending 20 (dep_ids "aaaaaaaaaaaaaaaa") (dep_request "tfk_u" "m1" party_a) "m1" (pool_ip 0).
Definition dep_pending2 : pending :=
  mkPending 40 (dep_ids "bbbbbbbbbbbbbbbb") (dep_request "tfk_v" "m2" party_b) "m2" (pool_ip 1).
Definition dep_one : db :=
  snd (register_commit 20 (dep_ids "aaaaaaaaaaaaaaaa") (dep_request "tfk_u" "m1" party_a) "m1" (pool_ip 0) toy_keys).
Definition dep_two : db :=
  snd (register_commit 40 (dep_ids "bbbbbbbbbbbbbbbb") (dep_request "tfk_v" "m2" party_b) "m2" (pool_ip 1) dep_one).
Definition dep_beat (p : party) (node_key : string) : HeartbeatRequest :=
  mkHeartbeatRequest (device p) node_key [endpoint_to_payload toy_lan] (mkBackendStatusPayload "tfscale" "tfscale0" true).
Definition dep_three : db := snd (heartbeat 50 (dep_beat party_a "node_aaaaaaaaaaaaaaaan") dep_two).
Definition dep_db : db := snd (heartbeat 51 (dep_beat party_b "node_bbbbbbbbbbbbbbbbn") dep_three).

Lemma dep_reachable : control_reachable (dep_db, []).
Proof.
  eapply control_next; [|exact (step_heartbeat 51 (dep_beat party_b "node_bbbbbbbbbbbbbbbbn") dep_three [])].
  eapply control_next; [|exact (step_heartbeat 50 (dep_beat party_a "node_aaaaaaaaaaaaaaaan") dep_two [])].
  eapply control_next; [|exact (step_commit dep_pending2 dep_one [] [])].
  eapply control_next; [|apply (step_allocate dep_pending2); vm_compute; reflexivity].
  eapply control_next; [|exact (step_commit dep_pending1 toy_keys [] [])].
  eapply control_next; [|apply (step_allocate dep_pending1); vm_compute; reflexivity].
  eapply control_next; [|exact (step_create 11 "j" "v" toy_db0 [])].
  eapply control_next; [|exact (step_create 10 "i" "u" empty_db [])]. constructor.
Qed.

Definition dep_row1 : DeviceRow := nth 0 (devices dep_db) toy_first.
Definition dep_row2 : DeviceRow := nth 1 (devices dep_db) toy_first.
Definition dep_ep1 : EndpointRow := nth 0 (endpoints dep_db) (endpoint_row 50 "x" (endpoint_to_payload toy_lan)).
Definition dep_ep2 : EndpointRow := nth 1 (endpoints dep_db) (endpoint_row 50 "x" (endpoint_to_payload toy_lan)).

Lemma dep_rows : devices dep_db = [dep_row1; dep_row2].
Proof. vm_compute. reflexivity. Qed.
Lemma dep_endpoints : endpoints dep_db = [dep_ep1; dep_ep2].
Proof. vm_compute. reflexivity. Qed.

Lemma dep_readable r : r ∈ endpoints dep_db -> readable r.
Proof.
  rewrite dep_endpoints. intros Hr. exists toy_lan.
  assert (r = dep_ep1 \/ r = dep_ep2) as [-> | ->] by (repeat apply elem_of_cons in Hr as [Hr|Hr]; auto; by apply elem_of_nil in Hr);
    (split_and!; [vm_compute; reflexivity..|apply toy_lan_wf]).
Qed.

Definition dep_map (p : party) (key : string) : NetworkMapResponse :=
  map_of (fst (network_map 60 toy_app (mkNetworkMapQuery (device p) key) dep_db)).
Definition dep_peer (q : party) (machine : string) : PeerConfig :=
  mkPeerConfig (device q) machine (overlay q) (mkBackendCredential (@credential toy_prims q)) [toy_lan]
    [ipv4_to_string (overlay q) +:+ "/32"].

Lemma dep_map_a : network_map_to_peer_configs (nm_peers (dep_map party_a "node_aaaaaaaaaaaaaaaan")) = Ok [dep_peer party_b "m2"].
Proof. vm_compute. reflexivity. Qed.
Lemma dep_map_b : network_map_to_peer_configs (nm_peers (dep_map party_b "node_bbbbbbbbbbbbbbbbn")) = Ok [dep_peer party_a "m1"].
Proof. vm_compute. reflexivity. Qed.

Definition dep_after (p q : party) (machine : string) : CustomBackend :=
  snd (@apply_peer_map toy_prims toy_to_json toy_from_json toy_salts fs_ok 60 [dep_peer q machine] (mesh_backend p)).

Lemma dep_apply_a :
  @apply_peer_map toy_prims toy_to_json toy_from_json toy_salts fs_ok 60 [dep_peer party_b "m2"] (mesh_backend party_a) =
  (Ok tt, dep_after party_a party_b "m2").
Proof. unfold dep_after, apply_peer_map. rewrite mesh_loads. reflexivity. Qed.
Lemma dep_apply_b :
  @apply_peer_map toy_prims toy_to_json toy_from_json toy_salts fs_ok 60 [dep_peer party_a "m1"] (mesh_backend party_b) =
  (Ok tt, dep_after party_b party_a "m1").
Proof. unfold dep_after, apply_peer_map. rewrite mesh_loads. reflexivity. Qed.

Lemma registered_devices_channel_witness :
  Forall promised (channel_run party_a party_b (dep_after party_a party_b "m2") (dep_after party_b party_a "m1")
    channel_events).
Proof.
  destruct (@registered_devices_channel toy_prims toy_laws toy_env toy_to_json toy_from_json dep_db [] party_a party_b
    dep_row1 dep_row2 60 60 toy_app "node_aaaaaaaaaaaaaaaan" "node_bbbbbbbbbbbbbbbbn"
    (dep_map party_a "node_aaaaaaaaaaaaaaaan") (dep_map party_b "node_bbbbbbbbbbbbbbbbn") dep_db dep_db)
    as (peers_a & peers_b & Ha & Hb & H).
  - exact dep_reachable.
  - exact dep_readable.
  - split; [|by_decide]. rewrite dep_rows. repeat constructor; eexists; vm_compute; reflexivity.
  - rewrite dep_rows. left.
  - vm_compute. reflexivity.
  - split_and!; vm_compute; reflexivity.
  - exists dep_ep1. split; [rewrite dep_endpoints; left|]. split_and!; vm_compute; reflexivity.
  - rewrite dep_rows. right. left.
  - vm_compute. reflexivity.
  - split_and!; vm_compute; reflexivity.
  - exists dep_ep2. split; [rewrite dep_endpoints; right; left|]. split_and!; vm_compute; reflexivity.
  - vm_compute. discriminate.
  - vm_compute. reflexivity.
  - vm_compute. reflexivity.
  - rewrite dep_map_a in Ha. rewrite dep_map_b in Hb. injection Ha as <-. injection Hb as <-.
    apply (H (fun _ _ => inr 0%Z) (fun _ => inr tt) (fun _ => inr tt) toy_salts toy_salts fs_ok fs_ok 60%Z 60%Z
      (mesh_backend party_a) (mesh_backend party_b) (dep_after party_a party_b "m2") (dep_after party_b party_a "m1") channel_events);
      [| | | | |exact dep_apply_a|exact dep_apply_b| |].
    + intros. by eexists.
    + intros d. eexists. split; [done|by_decide].
    + intros d. eexists. split; [done|by_decide].
    + apply mesh_configured; by_decide.
    + apply mesh_configured; by_decide.
    + repeat constructor; done.
    + by_decide.
Defined.
