(* ===== verification/Testing.v ===== *)
(** * Running the repository's unit tests on the model

    The crates come with unit tests.  A test of the code is a computation that
    panics when it fails; its translation is a value of [option], [None] being the
    panic, which calls the definitions of the model where the test calls the code.
    A suite is a list of named tests, and a suite passes when no test is left in
    [failing].  The suites check the translation itself: a definition that
    departs from the code where the authors of the code tested it fails here.

    What a test takes from the machine (sockets, keys, identifiers, the clock) is
    given by concrete values; a datagram or a line that one side sends is handed to
    the other one from the record of what was sent. *)

From Stdlib Require Import ZArith Lia.
From stdpp Require Import prelude list strings gmap.
From S2P Require Import Prelude RustStd RustText Protocol.

(** [Result::expect], [Option::expect] and [Result::expect_err]. *)
Definition expect {E A} (r : res E A) : option A := res_ok r.
Definition expect_err {E A} (r : res E A) : option E :=
  match r with Err e => Some e | _ => None end.

(** [assert!], [assert_eq!], [assert_ne!]. *)
Definition assert (b : bool) : option unit := if b then Some tt else None.
Definition assert_eq {A} `{EqDecision A} (x y : A) : option unit := assert (bool_decide (x = y)).
Definition assert_ne {A} `{EqDecision A} (x y : A) : option unit := assert (bool_decide (x <> y)).

(** [str::contains] for a string. *)
Fixpoint contains_bytes (p l : list Z) : bool :=
  match strip_prefix_l p l with
  | Some _ => true
  | None => match l with [] => false | _ :: l => contains_bytes p l end
  end.
Definition contains (s p : string) : bool := contains_bytes (as_bytes p) (as_bytes s).

(** [error.to_string().contains(..)]: of an error that ends in the text of another
    library only the program's own part is known. *)
Definition display_text (m : message) : string := match m with MText s => s | MForeign prefix _ => prefix end.
Definition message_contains (m : message) (p : string) : bool :=
  contains (display_text m) p.
Definition error_contains (e : BackendError) (p : string) : bool :=
  message_contains (BackendError_display e) p.

(** A test of the suite and what became of it. *)
Notation suite := (list (string * option unit)).
Definition failing (tests : suite) : list string :=
  omap (fun t => if t.2 is Some _ then None else Some t.1) tests.

(** A suite with the tests of another passes when both do. *)
Lemma failing_app s t : failing (s ++ t) = failing s ++ failing t.
Proof. unfold failing. apply omap_app. Qed.

(** [contains] finds exactly the texts that occur. *)
Lemma contains_bytes_spec p l : contains_bytes p l = true <-> exists a b, l = a ++ p ++ b.
Proof.
  assert (forall p l : list Z, is_Some (strip_prefix_l p l) <-> exists b, l = p ++ b) as Hp.
  { clear. induction p as [|x p IH]; intros l; [split; [by exists l|by eexists]|].
    destruct l as [|y l]; simpl; [split; [by intros []|by intros [b [=]]]|].
    case_decide as Hd; [subst y|split; [by intros []|by intros [b [= ? ?]]]].
    rewrite IH. split; intros [b Hb]; exists b; [by rewrite Hb|by injection Hb]. }
  revert p. induction l as [|x l IH]; intros p; simpl.
  - destruct (strip_prefix_l p []) eqn:E.
    + split; [intros _|done]. destruct (proj1 (Hp p []) (ex_intro _ _ E)) as [b Hb]. by exists [], b.
    + split; [done|]. intros (a & b & H). exfalso. symmetry in H. apply app_nil in H as [-> H].
      assert (is_Some (strip_prefix_l p [])) as [? Hs] by (apply Hp; exists b; done). by rewrite E in Hs.
  - destruct (strip_prefix_l p (x :: l)) eqn:E.
    + split; [intros _|done]. destruct (proj1 (Hp p (x :: l)) (ex_intro _ _ E)) as [b Hb]. by exists [], b.
    + rewrite IH. split; intros (a & b & H); [exists (x :: a), b; by rewrite H|].
      destruct a as [|y a]; [|exists a, b; by injection H].
      assert (is_Some (strip_prefix_l p (x :: l))) as [? Hs] by (apply Hp; by exists b). by rewrite E in Hs.
Qed.
