(* ===== verification/ConformanceWire.v ===== *)
(** * The unit tests of the wire format and the transport

    The tests of [frame.rs], [nonce.rs], [packet.rs], [crypto.rs], [transport.rs],
    [tun.rs] and of the two platforms in [tfscale-custom], run on the model. *)

From Stdlib Require Import ZArith Lia.
From stdpp Require Import prelude list strings gmap.
From S2P Require Import Prelude RustStd RustText Protocol Frame Nonce Crypto Transport Runtime Backend Platform Testing.

#[local] Existing Instance toy_prims.

(** ** [frame.rs] *)

Definition header_round_trip (message_type : Z) : option unit :=
  let source := replicate DEVICE_ID_LEN 1%Z in
  let destination := replicate DEVICE_ID_LEN 2%Z in
  let header := FrameHeader_new source destination (replicate NONCE_LEN 3%Z) message_type in
  encoded ← expect (FrameHeader_encode header);
  decoded ← expect (FrameHeader_decode encoded);
  assert_eq decoded header.

Definition frame_header_round_trips : option unit := header_round_trip FRAME_TYPE_DATA.
Definition probe_frame_header_round_trips : option unit := header_round_trip FRAME_TYPE_PROBE.

Definition rejects_short_frames : option unit :=
  error ← expect_err (FrameHeader_decode (replicate (HEADER_LEN - 1) 0%Z));
  assert (error_contains error "malformed frame length").

Definition rejects_unknown_frame_version : option unit :=
  let input := <[1%nat := FRAME_TYPE_DATA]> (<[0%nat := 2%Z]> (replicate HEADER_LEN 0%Z)) in
  error ← expect_err (FrameHeader_decode input);
  assert (error_contains error "unsupported frame version").

(** [uuid]: the identifier that [Uuid::now_v7] makes, as [uuid_parse] reads it. *)
Definition parses_generated_device_id (uuid : string) : option unit :=
  _ ← expect (from_device_id uuid_parse ("dev_" +:+ uuid));
  Some tt.

Definition frame_tests : suite :=
  [("frame_header_round_trips", frame_header_round_trips);
   ("probe_frame_header_round_trips", probe_frame_header_round_trips);
   ("rejects_short_frames", rejects_short_frames);
   ("rejects_unknown_frame_version", rejects_unknown_frame_version);
   ("parses_generated_device_id", parses_generated_device_id "0190a1b2c3d4e5f6")].

(** ** [nonce.rs] *)

Definition next (state : SendNonceState) : option (list Z * SendNonceState) :=
  let '(r, state) := SendNonceState_next state in
  nonce ← expect r; Some (nonce, state).

Definition test_state : SendNonceState :=
  SendNonceState_with_salt (replicate 8 1%Z) (replicate 8 2%Z).

Definition send_nonce_counter_increments : option unit :=
  '(first, state) ← next test_state;
  '(second, _) ← next state;
  _ ← assert_eq (nonce_counter first) 0%Z;
  _ ← assert_eq (nonce_counter second) 1%Z;
  assert_ne first second.

Definition send_nonce_counter_refuses_overflow : option unit :=
  let state := mkSendNonceState (direction_prefix test_state) (session_salt test_state) u64_max in
  error ← expect_err (fst (SendNonceState_next state));
  assert (error_contains error "send nonce counter exhausted").

Definition replay_window_rejects_duplicate_nonce : option unit :=
  '(nonce, _) ← next test_state;
  let '(r, window) := ReplayWindow_accept ReplayWindow_default nonce in
  _ ← expect r;
  error ← expect_err (fst (ReplayWindow_accept window nonce));
  assert (error_contains error "replayed frame nonce").

(** The loop of the test: the next nonces, all accepted. *)
Fixpoint accept_next (k : nat) (state : SendNonceState) (window : ReplayWindow) : option ReplayWindow :=
  match k with
  | O => Some window
  | S k =>
      '(nonce, state) ← next state;
      let '(r, window) := ReplayWindow_accept window nonce in
      _ ← expect r; accept_next k state window
  end.

Definition replay_window_rejects_stale_nonce : option unit :=
  '(stale, state) ← next test_state;
  window ← accept_next (Z.to_nat REPLAY_WINDOW_BITS) state ReplayWindow_default;
  error ← expect_err (fst (ReplayWindow_accept window stale));
  assert (error_contains error "stale frame nonce").

Definition nonce_tests : suite :=
  [("send_nonce_counter_increments", send_nonce_counter_increments);
   ("send_nonce_counter_refuses_overflow", send_nonce_counter_refuses_overflow);
   ("replay_window_rejects_duplicate_nonce", replay_window_rejects_duplicate_nonce);
   ("replay_window_rejects_stale_nonce", replay_window_rejects_stale_nonce)].

(** ** [packet.rs] *)

Definition parses_ipv4_destination : option unit :=
  let packet := [69; 0; 0; 0; 0; 0; 0; 0; 0; 0; 0; 0; 0; 0; 0; 0; 100; 64; 0; 3]%Z in
  destination ← expect (ipv4_destination packet);
  assert_eq destination (Ipv4 100 64 0 3).

Definition rejects_non_ipv4_packets : option unit :=
  let packet := <[0%nat := 96%Z]> (replicate 20 0%Z) in
  error ← expect_err (ipv4_destination packet);
  assert (error_contains error "unsupported packet IP version").

Definition rejects_short_packets : option unit :=
  error ← expect_err (ipv4_destination (replicate 19 0%Z));
  assert (error_contains error "packet is too short").

Definition packet_tests : suite :=
  [("parses_ipv4_destination", parses_ipv4_destination);
   ("rejects_non_ipv4_packets", rejects_non_ipv4_packets);
   ("rejects_short_packets", rejects_short_packets)].

(** ** [crypto.rs] *)

(** Two identities, from the secrets that the generator draws, and the sessions of
    their owners. *)
Definition session_pair (left_secret right_secret : list Z) : option (PeerCryptoSession * PeerCryptoSession) :=
  let left_identity := generate_identity 0 "1" left_secret in
  let right_identity := generate_identity 0 "2" right_secret in
  let left_id := replicate 16 1%Z in
  let right_id := replicate 16 2%Z in
  left_private ← expect (decode_key (private_key left_identity));
  left_end ← expect (PeerCryptoSession_new (Some (replicate 8 4%Z)) left_private (public_key left_identity)
                   (public_key right_identity) left_id right_id);
  right_private ← expect (decode_key (private_key right_identity));
  right_end ← expect (PeerCryptoSession_new (Some (replicate 8 5%Z)) right_private (public_key right_identity)
                    (public_key left_identity) right_id left_id);
  Some (left_end, right_end).

Definition sealed (left_end : PeerCryptoSession) (packet : list Z) : option (list Z) := expect (fst (seal left_end packet)).

Definition decodes_public_credentials : option unit :=
  let credential := encode_public_credential (replicate 32 7%Z) in
  decoded ← expect (decode_public_credential credential);
  assert_eq decoded (replicate 32 7%Z).

Definition rejects_invalid_public_credentials : option unit :=
  error ← expect_err (decode_public_credential "peer-public-key");
  assert (error_contains error "unsupported peer credential prefix").

Definition seals_and_opens_packet_frame : option unit :=
  '(left_end, right_end) ← session_pair key_a key_b;
  let packet := [69; 0; 0; 84]%Z in
  frame ← sealed left_end packet;
  opened ← expect (fst (open right_end frame));
  assert_eq opened packet.

Definition seals_and_opens_probe_frame : option unit :=
  '(left_end, right_end) ← session_pair key_a key_b;
  frame ← expect (fst (seal_message left_end (as_bytes "probe") FRAME_TYPE_PROBE));
  opened ← expect (fst (open_message right_end frame));
  _ ← assert_eq (of_message_type opened) FRAME_TYPE_PROBE;
  assert_eq (of_plaintext opened) (as_bytes "probe").

(** [frame[i] ^= 1]. *)
Definition tamper (i : nat) (frame : list Z) : list Z := alter (fun b => Z.lxor b 1) i frame.

Definition rejects_tampered_header : option unit :=
  '(left_end, right_end) ← session_pair key_a key_b;
  frame ← sealed left_end [1; 2; 3; 4]%Z;
  error ← expect_err (fst (open right_end (tamper 4 frame)));
  assert (error_contains error "frame source" || error_contains error "packet authentication failed").

Definition rejects_tampered_ciphertext : option unit :=
  '(left_end, right_end) ← session_pair key_a key_b;
  frame ← sealed left_end [1; 2; 3; 4]%Z;
  let last := (length frame - 1)%nat in
  error ← expect_err (fst (open right_end (tamper last frame)));
  assert (error_contains error "packet authentication failed").

Definition rejects_replayed_frame : option unit :=
  '(left_end, right_end) ← session_pair key_a key_b;
  frame ← sealed left_end [1; 2; 3; 4]%Z;
  let '(r, right_end) := open right_end frame in
  _ ← expect r;
  error ← expect_err (fst (open right_end frame));
  assert (error_contains error "replayed frame nonce").

Definition different_peer_pairs_cannot_open_frames : option unit :=
  '(left_end, _) ← session_pair key_a key_b;
  '(_, unrelated) ← session_pair (replicate 32 21%Z) (replicate 32 33%Z);
  frame ← sealed left_end [1; 2; 3; 4]%Z;
  error ← expect_err (fst (open unrelated frame));
  assert (error_contains error "frame source" || error_contains error "frame nonce direction" ||
          error_contains error "packet authentication failed").

Definition nonce_has_expected_length : option unit := assert_eq NONCE_LEN 24%nat.

Definition crypto_tests : suite :=
  [("decodes_public_credentials", decodes_public_credentials);
   ("rejects_invalid_public_credentials", rejects_invalid_public_credentials);
   ("seals_and_opens_packet_frame", seals_and_opens_packet_frame);
   ("seals_and_opens_probe_frame", seals_and_opens_probe_frame);
   ("rejects_tampered_header", rejects_tampered_header);
   ("rejects_tampered_ciphertext", rejects_tampered_ciphertext);
   ("rejects_replayed_frame", rejects_replayed_frame);
   ("different_peer_pairs_cannot_open_frames", different_peer_pairs_cannot_open_frames);
   ("nonce_has_expected_length", nonce_has_expected_length)].

(** ** [transport.rs] *)

Definition lan_30 : Endpoint := mkEndpoint Lan (V4 (Ipv4 192 168 1 30)) 51820 Udp.
Definition public_10 : Endpoint := mkEndpoint Public (V4 (Ipv4 203 0 113 10)) 51820 Udp.

Definition selects_lan_udp_endpoint : option unit :=
  endpoint ← select_udp_endpoint [public_10; lan_30];
  _ ← assert_eq (ep_kind endpoint) Lan;
  assert_eq (ep_protocol endpoint) Udp.

Definition ranks_udp_endpoints_by_direct_preference : option unit :=
  let endpoints := sorted_udp_endpoints [mkEndpoint Relay (V4 (Ipv4 203 0 113 20)) 443 Udp; public_10; lan_30] in
  e0 ← endpoints !! 0%nat; _ ← assert_eq (ep_kind e0) Lan;
  e1 ← endpoints !! 1%nat; _ ← assert_eq (ep_kind e1) Public;
  e2 ← endpoints !! 2%nat; assert_eq (ep_kind e2) Relay.

Definition ranks_public_before_loopback_lan_endpoint : option unit :=
  public ← parse_ip "203.0.113.10";
  let endpoints :=
    sorted_udp_endpoints [mkEndpoint Lan (V4 LOCALHOST) 51820 Udp; mkEndpoint Public public 51820 Udp] in
  e0 ← endpoints !! 0%nat; _ ← assert_eq (ep_kind e0) Public;
  e1 ← endpoints !! 1%nat; assert_eq (ep_kind e1) Lan.

Definition ignores_non_udp_endpoints : option unit :=
  assert_eq (select_udp_endpoint [mkEndpoint Lan (V4 (Ipv4 192 168 1 30)) 443 Tcp]) None.

(** [TransportRuntime::bind(0)] on a host that gives it a port. *)
Definition bind_0 (port : Z) : option TransportRuntime :=
  expect (TransportRuntime_bind (inr tt) (inr tt) (inr (mkSocketAddr (V4 UNSPECIFIED) port)) None 0).

(** A socket that takes every datagram, and the source address of what is sent
    from one to another on the same host. *)
Definition loopback_send (a : SocketAddr) (b : list Z) : io Z := inr (Z.of_nat (length b)).
Definition on_loopback (t : TransportRuntime) : SocketAddr := mkSocketAddr (V4 LOCALHOST) (sa_port (local_addr t)).

Definition binds_udp_socket_and_reports_endpoint : option unit :=
  runtime ← bind_0 40001;
  endpoint ← head (local_endpoints runtime);
  _ ← assert_eq (ep_kind endpoint) Lan;
  _ ← assert_eq (ep_protocol endpoint) Udp;
  _ ← assert_eq (ep_port endpoint) (sa_port (local_addr runtime));
  assert (udp_bound (transport_status runtime)).

(** What the other socket finds: nothing yet, then the datagram. *)
Definition arrivals_at (t from : TransportRuntime) : list (io (list Z * SocketAddr)) :=
  inl WouldBlock :: map (fun m => inr (m.2, on_loopback from)) (filter (fun m => m.1 = on_loopback t) (sent from)).

(** The calls after the ones of the list find nothing; ten calls are made. *)
Fixpoint receive_with_retry (k : nat) (runtime : TransportRuntime) (buffer : nat)
    (arrivals : list (io (list Z * SocketAddr))) : option (list Z * TransportRuntime) :=
  match k with
  | O => None
  | S k =>
      let '(r, runtime) := receive_frame runtime buffer (default (inl WouldBlock) (head arrivals)) in
      received ← expect r;
      match received with
      | Some (bytes, _) => Some (bytes, runtime)
      | None => receive_with_retry k runtime buffer (tail arrivals)
      end
  end.

Fixpoint receive_packet_with_retry (k : nat) (runtime : TransportRuntime) (crypto : PeerCryptoSession)
    (buffer : nat) (arrivals : list (io (list Z * SocketAddr))) : option (list Z * TransportRuntime) :=
  match k with
  | O => None
  | S k =>
      let '(r, runtime, crypto) :=
        receive_packet runtime crypto buffer (default (inl WouldBlock) (head arrivals)) in
      received ← expect r;
      match received with
      | Some packet => Some (packet, runtime)
      | None => receive_packet_with_retry k runtime crypto buffer (tail arrivals)
      end
  end.

Definition sends_and_receives_udp_frame_on_loopback : option unit :=
  left_end ← bind_0 40001;
  right_end ← bind_0 40002;
  let right_endpoint := mkEndpoint Lan (V4 LOCALHOST) (sa_port (local_addr right_end)) Udp in
  let '(r, left_end) := send_frame loopback_send left_end right_endpoint (as_bytes "tfscale-frame") in
  _ ← expect r;
  '(received, right_end) ← receive_with_retry 10 right_end 64 (arrivals_at right_end left_end);
  _ ← assert_eq received (as_bytes "tfscale-frame");
  _ ← assert_eq (tx_packets (transport_status left_end)) 1%Z;
  assert_eq (rx_packets (transport_status right_end)) 1%Z.

(** The server of the test answers a request with the address it comes from. *)
Definition probe_server_answer (source : SocketAddr) (datagram : list Z) : option (list Z) :=
  _ ← assert_eq datagram PUBLIC_ENDPOINT_PROBE_REQUEST;
  Some (encode_probe_response source).

Definition probes_public_endpoint_on_loopback : option unit :=
  client ← bind_0 40001;
  let server_addr := mkSocketAddr (V4 LOCALHOST) 40009 in
  response ← probe_server_answer (on_loopback client) PUBLIC_ENDPOINT_PROBE_REQUEST;
  '(r, client) ← transport_probe_public_endpoint loopback_send client server_addr
                   [(inl WouldBlock, false); (inr (response, server_addr), false)];
  _ ← assert_eq (sent client) [(server_addr, PUBLIC_ENDPOINT_PROBE_REQUEST)];
  probe ← expect r;
  probe ← probe;
  let observed := observed_endpoint probe in
  _ ← assert_eq (ep_kind observed) Public;
  _ ← assert_eq (ep_protocol observed) Udp;
  _ ← assert_eq (ep_address observed) (V4 LOCALHOST);
  assert_eq (ep_port observed) (sa_port (local_addr client)).

Definition ipv4_packet (source destination : Ipv4Addr) : list Z :=
  [69; 0; 0; 0; 0; 0; 0; 0; 64; 1; 0; 0]%Z ++ octets source ++ octets destination.

Definition sends_and_receives_encrypted_packet_on_loopback : option unit :=
  left_end ← bind_0 40001;
  right_end ← bind_0 40002;
  let right_endpoint := mkEndpoint Lan (V4 LOCALHOST) (sa_port (local_addr right_end)) Udp in
  '(left_crypto, right_crypto) ← session_pair key_a key_b;
  let packet := ipv4_packet (Ipv4 100 64 0 2) (Ipv4 100 64 0 3) in
  let '(r, left_end, _) := send_packet loopback_send left_end right_endpoint left_crypto packet in
  _ ← expect r;
  '(opened, right_end) ← receive_packet_with_retry 10 right_end right_crypto 1500 (arrivals_at right_end left_end);
  _ ← assert_eq opened packet;
  _ ← assert_eq (tx_packets (transport_status left_end)) 1%Z;
  _ ← assert_eq (rx_packets (transport_status right_end)) 1%Z;
  assert_eq (rx_drops (transport_status right_end)) 0%Z.

Definition transport_tests : suite :=
  [("selects_lan_udp_endpoint", selects_lan_udp_endpoint);
   ("ranks_udp_endpoints_by_direct_preference", ranks_udp_endpoints_by_direct_preference);
   ("ranks_public_before_loopback_lan_endpoint", ranks_public_before_loopback_lan_endpoint);
   ("ignores_non_udp_endpoints", ignores_non_udp_endpoints);
   ("binds_udp_socket_and_reports_endpoint", binds_udp_socket_and_reports_endpoint);
   ("sends_and_receives_udp_frame_on_loopback", sends_and_receives_udp_frame_on_loopback);
   ("probes_public_endpoint_on_loopback", probes_public_endpoint_on_loopback);
   ("sends_and_receives_encrypted_packet_on_loopback", sends_and_receives_encrypted_packet_on_loopback)].

(** ** [tun.rs] and the platforms *)

Definition builds_tun_config_from_local_backend_config : option unit :=
  let config := from_local_config (mkLocalBackendConfig "dev_test" "tfscale0" (Ipv4 100 64 0 2) 51820) in
  _ ← assert_eq (tc_interface_name config) "tfscale0";
  _ ← assert_eq (tc_overlay_ip config) (Ipv4 100 64 0 2);
  _ ← assert_eq (tc_listen_port config) 51820%Z;
  assert_eq (overlay_cidr config) "100.64.0.0/10".

Definition failed_status_is_not_io_ready : option unit :=
  let status := TunStatus_failed "tfscale0" (MText "not ready") in
  _ ← assert (negb (configured status));
  _ ← assert (negb (io_ready status));
  assert_eq (tun_interface_name status) "tfscale0".

Definition test_config (interface_name : string) : TunConfig :=
  mkTunConfig interface_name (Ipv4 100 64 0 2) 51820 "100.64.0.0/10".

Definition plans_linux_ip_commands : option unit :=
  assert_eq (linux_plan_ip_commands (test_config "tfscale0"))
    [mkPlannedCommand "ip" ["addr"; "replace"; "100.64.0.2/32"; "dev"; "tfscale0"];
     mkPlannedCommand "ip" ["link"; "set"; "tfscale0"; "up"];
     mkPlannedCommand "ip" ["route"; "replace"; "100.64.0.0/10"; "dev"; "tfscale0"]].

Definition plans_linux_cleanup_commands : option unit :=
  assert_eq (linux_plan_cleanup_commands (test_config "tfscale0"))
    [mkPlannedCommand "ip" ["route"; "del"; "100.64.0.0/10"; "dev"; "tfscale0"];
     mkPlannedCommand "ip" ["link"; "del"; "tfscale0"]].

Definition plans_macos_ifconfig_commands_with_actual_utun_name : option unit :=
  assert_eq (macos_plan_ifconfig_commands (test_config "tfscale0") "utun4")
    [mkPlannedCommand "ifconfig"
       ["utun4"; "inet"; "100.64.0.2"; "100.64.0.2"; "netmask"; "255.255.255.255"; "up"]].

Definition plans_macos_route_commands_with_actual_utun_name : option unit :=
  assert_eq (macos_plan_route_commands (test_config "tfscale0") "utun4")
    [mkPlannedCommand "route" ["-n"; "add"; "-net"; "100.64.0.0/10"; "-interface"; "utun4"]].

Definition plans_macos_cleanup_commands_with_actual_utun_name : option unit :=
  assert_eq (macos_plan_cleanup_commands (test_config "tfscale0") "utun4")
    [mkPlannedCommand "route" ["-n"; "delete"; "-net"; "100.64.0.0/10"; "-interface"; "utun4"];
     mkPlannedCommand "ifconfig" ["utun4"; "down"]].

Definition only_explicit_utun_names_are_requested : option unit :=
  let logical_config := test_config "tfscale0" in
  let explicit_config := test_config "utun12" in
  _ ← assert_eq (requested_utun_name logical_config) None;
  assert_eq (requested_utun_name explicit_config) (Some "utun12").

Definition platform_tests : suite :=
  [("builds_tun_config_from_local_backend_config", builds_tun_config_from_local_backend_config);
   ("failed_status_is_not_io_ready", failed_status_is_not_io_ready);
   ("plans_linux_ip_commands", plans_linux_ip_commands);
   ("plans_linux_cleanup_commands", plans_linux_cleanup_commands);
   ("plans_macos_ifconfig_commands_with_actual_utun_name", plans_macos_ifconfig_commands_with_actual_utun_name);
   ("plans_macos_route_commands_with_actual_utun_name", plans_macos_route_commands_with_actual_utun_name);
   ("plans_macos_cleanup_commands_with_actual_utun_name", plans_macos_cleanup_commands_with_actual_utun_name);
   ("only_explicit_utun_names_are_requested", only_explicit_utun_names_are_requested)].

(** The tests of these files pass. *)
Theorem wire_tests_pass :
  failing (frame_tests ++ nonce_tests ++ packet_tests ++ crypto_tests ++ transport_tests ++ platform_tests) = [].
Proof. vm_compute. reflexivity. Qed.
