(* ===== verification/ConformanceBackend.v ===== *)
(** * The unit tests of the custom backend

    The tests at the end of [tfscale-custom/src/lib.rs], run on the model: the
    state file, the configuration, the packets between two backends on one host,
    the relay and the maintenance of paths.  As in the code the backends do not
    set up an interface ([with_tun_setup(false)]).  Times are in milliseconds. *)

From Stdlib Require Import ZArith Lia.
From stdpp Require Import prelude list strings gmap.
From S2P Require Import Prelude RustStd RustText Protocol Frame Nonce Crypto Transport LineReader Runtime RuntimeProps Backend BackendProps Tasks Testing ConformanceWire.

#[local] Existing Instance toy_prims.

(** ** The helpers of the tests *)

(** [test_backend(&state_path)] on what the file holds. *)
Definition test_backend (state_file : option string) : CustomBackend :=
  with_tun_setup (with_state_path "tfscale0" state_file) false.

Definition read_state (b : CustomBackend) : option CustomBackendState := disk b ≫= toy_from_json.

Definition test_public_credential : string := public_key (generate_identity 0 "3" (replicate 32 11%Z)).

Definition test_peer (device_id : string) (overlay_ip : Ipv4Addr) : PeerConfig :=
  mkPeerConfig device_id device_id overlay_ip (mkBackendCredential test_public_credential) []
    [ipv4_to_string overlay_ip +:+ "/32"].

Definition test_peer_with_endpoint (device_id : string) (overlay_ip : Ipv4Addr) (endpoint : Endpoint) : PeerConfig :=
  mkPeerConfig device_id device_id overlay_ip (mkBackendCredential test_public_credential) [endpoint]
    [ipv4_to_string overlay_ip +:+ "/32"].

Definition with_credential (peer : PeerConfig) (credential : string) : PeerConfig :=
  mkPeerConfig (pc_device_id peer) (pc_hostname peer) (pc_overlay_ip peer) (mkBackendCredential credential)
    (pc_endpoints peer) (pc_allowed_routes peer).

Definition endpoint (address : Ipv4Addr) (port : Z) : Endpoint := mkEndpoint Lan (V4 address) port Udp.

(** The calls that the tests make, each with its [expect]. *)
Definition credentials (secret : list Z) (b : CustomBackend) : option (string * CustomBackend) :=
  let '(r, b) := ensure_credentials toy_to_json toy_from_json toy_salts fs_ok 0 "1" secret b in
  credential ← expect r; Some (bc_public credential, b).

Definition local_config (device_id : string) (overlay_ip : Ipv4Addr) (port : Z) (b : CustomBackend)
    : option CustomBackend :=
  let bound := TransportRuntime_bind (inr tt) (inr tt) (inr (mkSocketAddr (V4 UNSPECIFIED) port)) None 0 in
  '(r, b) ← apply_local_config toy_to_json toy_from_json toy_salts fs_ok Panic bound
              (mkLocalBackendConfig device_id "tfscale0" overlay_ip 0) b;
  _ ← expect r; Some b.

Definition peer_map (peers : list PeerConfig) (b : CustomBackend) : option CustomBackend :=
  let '(r, b) := apply_peer_map toy_to_json toy_from_json toy_salts fs_ok 0 peers b in
  _ ← expect r; Some b.

Definition status (b : CustomBackend) : option BackendStatus :=
  expect (backend_status toy_from_json toy_salts display_text b).
Definition status_message (b : CustomBackend) : option string :=
  s ← status b; bs_message s.

Definition overlay_2 : Ipv4Addr := Ipv4 100 64 0 2.
Definition overlay_3 : Ipv4Addr := Ipv4 100 64 0 3.

(** ** The state file *)

Definition defaults_to_tfscale_interface_name : option unit :=
  assert_eq (interface_name (CustomBackend_default (fun _ => None) None)) "tfscale0".

(** Without the last assertion, that the public credential does not show the private
    key, which is a property of X25519 and not of the program. *)
Definition persists_backend_credentials : option unit :=
  '(first, b) ← credentials key_a (test_backend None);
  '(second, _) ← credentials key_b (test_backend (disk b));
  state ← read_state b;
  _ ← assert_eq first second;
  identity ← st_identity state;
  _ ← assert_eq (scheme identity) IDENTITY_SCHEME;
  _ ← assert_eq (public_key identity) first;
  derived ← expect (derive_public_credential (private_key identity));
  assert_eq derived first.

Definition stores_local_config_and_peer_map : option unit :=
  '(_, b) ← credentials key_a (test_backend None);
  b ← local_config toy_device_a overlay_2 40001 b;
  b ← peer_map [mkPeerConfig "dev_peer" "peer" overlay_3 (mkBackendCredential test_public_credential)
                  [endpoint (Ipv4 192 168 1 30) 51820] ["100.64.0.3/32"]] b;
  state ← read_state b;
  config ← st_local_config state;
  _ ← assert_eq (lc_overlay_ip config) overlay_2;
  _ ← assert_eq (length (st_peers state)) 1%nat;
  peer ← st_peers state !! 0%nat;
  assert_eq (sp_device_id peer) "dev_peer".

Definition rejects_unsupported_state_version : option unit :=
  let state := mkCustomBackendState (STATE_VERSION + 1) None None [] in
  error ← expect_err (fst (ensure_credentials toy_to_json toy_from_json toy_salts fs_ok 0 "1" key_a
                             (test_backend (Some (toy_to_json state)))));
  assert (error_contains error "unsupported custom backend state version").

Definition peer_map_replaces_stale_peers : option unit :=
  b ← peer_map [test_peer "dev_one" overlay_3; test_peer "dev_two" (Ipv4 100 64 0 4)] (test_backend None);
  b ← peer_map [test_peer "dev_two" (Ipv4 100 64 0 4)] b;
  state ← read_state b;
  _ ← assert_eq (length (st_peers state)) 1%nat;
  peer ← st_peers state !! 0%nat;
  assert_eq (sp_device_id peer) "dev_two".

Definition rejects_unsupported_peer_credential_format : option unit :=
  let peer := with_credential (test_peer "dev_bad" overlay_3) "peer-public-key" in
  error ← expect_err (fst (apply_peer_map toy_to_json toy_from_json toy_salts fs_ok 0 [peer] (test_backend None)));
  assert (error_contains error "unsupported peer credential prefix").

Definition state_tests : suite :=
  [("defaults_to_tfscale_interface_name", defaults_to_tfscale_interface_name);
   ("persists_backend_credentials", persists_backend_credentials);
   ("stores_local_config_and_peer_map", stores_local_config_and_peer_map);
   ("rejects_unsupported_state_version", rejects_unsupported_state_version);
   ("peer_map_replaces_stale_peers", peer_map_replaces_stale_peers);
   ("rejects_unsupported_peer_credential_format", rejects_unsupported_peer_credential_format)].

(** ** Status and endpoints *)

Definition contains_all (m : string) (parts : list string) : option unit := assert (forallb (contains m) parts).

Definition status_reports_skipped_tun_setup : option unit :=
  b ← local_config toy_device_a overlay_2 40001 (test_backend None);
  b ← peer_map [test_peer "dev_peer" overlay_3] b;
  s ← status b;
  m ← bs_message s;
  _ ← assert (negb (bs_healthy s));
  contains_all m ["crypto_peers=1"; "udp_bound=true"; "transport_running=false"; "local_endpoints=1";
                  "tun_configured=false"; "tun_io_ready=false"; "TUN setup skipped"].

Definition reports_local_udp_endpoint_after_local_config : option unit :=
  b ← local_config toy_device_a overlay_2 40001 (test_backend None);
  let endpoints := backend_local_endpoints b in
  _ ← assert_eq (length endpoints) 1%nat;
  e ← endpoints !! 0%nat;
  _ ← assert_eq (ep_kind e) Lan;
  _ ← assert_eq (ep_protocol e) Udp;
  assert_ne (ep_port e) 0%Z.

(** What [to] finds on its socket of the datagrams that [from] sent, on one host. *)
Definition datagrams (from to : CustomBackend) : list (list Z * SocketAddr) :=
  default [] (t ← transport (runtime from); u ← transport (runtime to);
              Some (map (fun m => (m.2, on_loopback t)) (filter (fun m => m.1 = on_loopback u) (sent t)))).

Definition probes_public_endpoint_with_backend_udp_socket : option unit :=
  b ← local_config toy_device_a overlay_2 40001 (test_backend None);
  local_endpoint ← head (backend_local_endpoints b);
  t ← transport (runtime b);
  let server_addr := mkSocketAddr (V4 LOCALHOST) 40009 in
  let response := encode_probe_response (on_loopback t) in
  '(r, b) ← probe_public_endpoint_blocking loopback_send server_addr [(inr (response, server_addr), false)] b;
  probe ← expect r;
  probe ← probe;
  _ ← assert_eq (ep_kind (observed_endpoint probe)) Public;
  assert_eq (ep_port (observed_endpoint probe)) (ep_port local_endpoint).

Definition builds_transport_session_for_peer_with_udp_endpoint : option unit :=
  '(_, b) ← credentials key_a (test_backend None);
  b ← local_config toy_device_a overlay_2 40001 b;
  b ← peer_map [test_peer_with_endpoint toy_device_b overlay_3 (endpoint LOCALHOST 51820)] b;
  m ← status_message b;
  contains_all m ["transport_peers=1"; "transport_sessions=1"].

Definition status_tests : suite :=
  [("status_reports_skipped_tun_setup", status_reports_skipped_tun_setup);
   ("reports_local_udp_endpoint_after_local_config", reports_local_udp_endpoint_after_local_config);
   ("probes_public_endpoint_with_backend_udp_socket", probes_public_endpoint_with_backend_udp_socket);
   ("builds_transport_session_for_peer_with_udp_endpoint", builds_transport_session_for_peer_with_udp_endpoint)].

(** ** Packets *)

Definition no_relay (addr : string) : io unit := inl OtherKind.
Definition relay_writes (m : RelayMessage) : io unit := inr tt.

Definition sends_overlay_packet_to_peer_udp_endpoint : option unit :=
  peer_receiver ← bind_0 40002;
  '(_, b) ← credentials key_a (test_backend None);
  b ← local_config toy_device_a overlay_2 40001 b;
  b ← peer_map [test_peer_with_endpoint toy_device_b overlay_3
                  (endpoint LOCALHOST (sa_port (local_addr peer_receiver)))] b;
  let '(r, b) := backend_send_overlay_packet loopback_send no_relay relay_writes (ipv4_packet overlay_2 overlay_3) b in
  n ← expect r;
  _ ← assert (0 <? n)%Z;
  t ← transport (runtime b);
  '(received, _) ← receive_with_retry 10 peer_receiver 1500 (arrivals_at peer_receiver t);
  _ ← assert_eq (Z.of_nat (length received)) n;
  m ← status_message b;
  assert (contains m "tx_packets=1").

(** [TestRelayFrameSender] records what it is given; here the sender over TCP does,
    on a connection that is open. *)
Definition test_relay : RelayConfig := mkRelayConfig "relay_1" "tcp://127.0.0.1:9443" "local".
Definition relay_path : PeerPathState :=
  mkPeerPathState PathRelay (Some (relay_endpoint test_relay)) None None None DIRECT_FAST_PROBE_BURST_ATTEMPTS 0 None.
Definition with_test_sender (device_id peer : string) (b : CustomBackend) : CustomBackend :=
  let s := runtime b in
  let sender := TcpSender (mkTcpRelayFrameSender test_relay device_id EmptyString true []) in
  set_runtime b (set_paths (set_relays s (rt_relays s) sender) (<[peer := relay_path]> (peer_path_state_by_device s))).
Definition sent_frames (b : CustomBackend) : list RelayMessage :=
  match relay_sender (runtime b) with TcpSender s => trs_written s | NullRelayFrameSender => [] end.

Definition sends_overlay_packet_to_relay_when_peer_path_is_relay : option unit :=
  '(_, b) ← credentials key_a (test_backend None);
  b ← local_config toy_device_a overlay_2 40001 b;
  b ← peer_map [test_peer_with_endpoint toy_device_b overlay_3 (endpoint LOCALHOST 51820)] b;
  let b := with_test_sender toy_device_a toy_device_b b in
  let '(r, b) := backend_send_overlay_packet loopback_send no_relay relay_writes (ipv4_packet overlay_2 overlay_3) b in
  n ← expect r;
  match sent_frames b with
  | [RelayFrame source destination payload] =>
      _ ← assert_eq n (str_len payload);
      _ ← assert_eq source toy_device_a;
      _ ← assert_eq destination toy_device_b;
      assert (negb (is_empty payload))
  | _ => None
  end.

(** Two backends with each other's credentials, and the endpoints of the peer that
    the function says. *)
Definition backend_pair (ends : CustomBackend -> list Endpoint) : option (CustomBackend * CustomBackend) :=
  '(left_credential, l) ← credentials key_a (test_backend None);
  '(right_credential, r) ← credentials key_b (test_backend None);
  l ← local_config toy_device_a overlay_2 40001 l;
  r ← local_config toy_device_b overlay_3 40002 r;
  let peer_of device overlay credential b :=
    mkPeerConfig device device overlay (mkBackendCredential credential) (ends b) [ipv4_to_string overlay +:+ "/32"] in
  l' ← peer_map [peer_of toy_device_b overlay_3 right_credential r] l;
  r' ← peer_map [peer_of toy_device_a overlay_2 left_credential l] r;
  Some (l', r').

Definition opens_overlay_packet_from_relay_frame : option unit :=
  '(l, r) ← backend_pair (fun _ => [endpoint LOCALHOST 51820]);
  session ← peer_transport_sessions_by_device (runtime l) !! toy_device_b;
  frame ← sealed (pts_crypto session) (ipv4_packet overlay_2 overlay_3);
  packet ← expect (fst (open_relay_frame loopback_send (runtime r) 0
                          (RelayFrame toy_device_a toy_device_b (base64_encode frame))));
  assert_eq packet (Some (ipv4_packet overlay_2 overlay_3)).

(** The connection of the listener: only its address is reached. *)
Definition only_listener (addr : string) : io unit :=
  if bool_decide (addr = "127.0.0.1:40010") then inr tt else inl OtherKind.

Definition tcp_relay_sender_registers_and_writes_frame : option unit :=
  let sender := mkTcpRelayFrameSender (mkRelayConfig "relay_1" "tcp://127.0.0.1:40010" "local") "dev_a" "node-key" false [] in
  let '(r, sender) := tcp_send_frame only_listener relay_writes sender (RelayFrame "dev_a" "dev_b" "encrypted-frame") in
  n ← expect r;
  _ ← assert_eq n (str_len "encrypted-frame");
  assert_eq (trs_written sender) [RelayRegister "dev_a" "node-key"; RelayFrame "dev_a" "dev_b" "encrypted-frame"].

(** The reader waits for a relay that sends nothing; its reads time out, and the
    flag is seen after the one that was under way. *)
Definition relay_to_tun_loop_stops_while_waiting_for_relay_frames : option unit :=
  let state := set_relays
    (from_persisted toy_salts (mkCustomBackendState STATE_VERSION None
       (Some (mkLocalBackendConfig "dev_a" "tfscale0" overlay_2 0)) []))
    [mkRelayConfig "relay_1" "tcp://127.0.0.1:40010" "local"] NullRelayFrameSender in
  w ← run_tasks loopback_send only_listener relay_writes (fun _ => None) (tasks_start false state)
        [MainSpawn; RelayOpen (inr tt); RelayLoad; RelayFill (inl WouldBlock); RelayLoad; MainStop;
         RelayFill (inl WouldBlock); RelayLoad];
  _ ← assert_eq (reader_wrote w) [RelayRegister "dev_a" EmptyString];
  assert (ended (relay_loop w)).

(** What a backend makes of the datagrams that reach it. *)
Definition receive (b : CustomBackend) (now : Z) (d : list Z * SocketAddr)
    : option (option (list Z) * CustomBackend) :=
  let '(r, b) := backend_receive_overlay_packet loopback_send now 1500 (inr d) b in
  p ← expect r; Some (p, b).

Definition receives_overlay_packet_from_peer_udp_endpoint : option unit :=
  let peer_identity := generate_identity 0 "2" key_b in
  '(local_credential, b) ← credentials key_a (test_backend None);
  b ← local_config toy_device_a overlay_2 40001 b;
  b ← peer_map [with_credential (test_peer_with_endpoint toy_device_b overlay_3 (endpoint LOCALHOST 51820))
                  (public_key peer_identity)] b;
  peer_private ← expect (decode_key (private_key peer_identity));
  peer_id ← expect (from_device_id uuid_parse toy_device_b);
  local_id ← expect (from_device_id uuid_parse toy_device_a);
  peer_crypto ← expect (PeerCryptoSession_new (Some (replicate 8 5%Z)) peer_private (public_key peer_identity)
                          local_credential peer_id local_id);
  let packet := ipv4_packet overlay_3 overlay_2 in
  frame ← sealed peer_crypto packet;
  peer_transport ← bind_0 40002;
  local_endpoint ← head (backend_local_endpoints b);
  let '(r, peer_transport) := send_frame loopback_send peer_transport local_endpoint frame in
  _ ← expect r;
  t ← transport (runtime b);
  datagram ← head (filter (fun m => m.1 = on_loopback t) (sent peer_transport));
  '(opened, b) ← receive b 0 (datagram.2, on_loopback peer_transport);
  _ ← assert_eq opened (Some packet);
  m ← status_message b;
  contains_all m ["rx_packets=1"; "rx_drops=0"].

Definition packet_flow_tests : suite :=
  [("sends_overlay_packet_to_peer_udp_endpoint", sends_overlay_packet_to_peer_udp_endpoint);
   ("sends_overlay_packet_to_relay_when_peer_path_is_relay", sends_overlay_packet_to_relay_when_peer_path_is_relay);
   ("opens_overlay_packet_from_relay_frame", opens_overlay_packet_from_relay_frame);
   ("tcp_relay_sender_registers_and_writes_frame", tcp_relay_sender_registers_and_writes_frame);
   ("relay_to_tun_loop_stops_while_waiting_for_relay_frames", relay_to_tun_loop_stops_while_waiting_for_relay_frames);
   ("receives_overlay_packet_from_peer_udp_endpoint", receives_overlay_packet_from_peer_udp_endpoint)].

(** ** Paths *)

(** The probe of one backend and the answer of the other, 42 milliseconds apart. *)
Definition direct_probe_round_trip_marks_peer_paths_direct : option unit :=
  '(l, r) ← backend_pair backend_local_endpoints;
  let '(n, l) := backend_probe_peer_direct_paths loopback_send 1000 l in
  n ← expect n;
  _ ← assert_eq n 1%Z;
  probe ← head (datagrams l r);
  '(nothing, r) ← receive r 1020 probe;
  _ ← assert_eq nothing None;
  response ← head (datagrams r l);
  '(nothing, l) ← receive l 1042 response;
  _ ← assert_eq nothing None;
  left_status ← status l;
  left_message ← bs_message left_status;
  right_message ← status_message r;
  _ ← contains_all left_message ["direct_peers=1"; "direct_paths="; "/rtt="];
  _ ← assert_eq (length (bs_peers left_status)) 1%nat;
  peer ← bs_peers left_status !! 0%nat;
  _ ← assert_eq (pd_device_id peer) toy_device_b;
  _ ← assert_eq (pd_path peer) DiagDirect;
  _ ← assert (bool_decide (is_Some (pd_endpoint peer)));
  assert (contains right_message "direct_peers=1").

Definition direct_probe_consumes_fast_probe_attempt : option unit :=
  '(_, b) ← credentials key_a (test_backend None);
  b ← local_config toy_device_a overlay_2 40001 b;
  b ← peer_map [with_credential (test_peer_with_endpoint toy_device_b overlay_3 (endpoint LOCALHOST 51820))
                  (public_key (generate_identity 0 "2" key_b))] b;
  let '(n, b) := backend_probe_peer_direct_paths loopback_send 1000 b in
  n ← expect n;
  _ ← assert_eq n 1%Z;
  state ← peer_path_state_by_device (runtime b) !! toy_device_b;
  _ ← assert_eq (fast_probe_attempts_remaining state) (DIRECT_FAST_PROBE_BURST_ATTEMPTS - 1)%Z;
  assert_eq (failures state) 1%Z.

(** The time at which the tests of single paths run. *)
Definition test_now : Z := 1000000.

Definition probed_at (path : PeerPathKind) (at_ : Z) (fast : Z) : PeerPathState :=
  mkPeerPathState path None (Some at_) None None fast 0 None.

Definition probe_interval_limits_repeated_direct_probes : option unit :=
  _ ← assert (peer_path_probe_due PeerPathState_default test_now);
  assert (negb (peer_path_probe_due (probed_at PathUnknown test_now DIRECT_FAST_PROBE_BURST_ATTEMPTS) test_now)).

Definition fast_probe_window_uses_short_interval_for_unknown_paths : option unit :=
  let at_ := (test_now - DIRECT_FAST_PROBE_INTERVAL)%Z in
  _ ← assert (peer_path_probe_due (probed_at PathUnknown at_ DIRECT_FAST_PROBE_BURST_ATTEMPTS) test_now);
  assert (negb (peer_path_probe_due (probed_at PathUnknown at_ 0) test_now)).

Definition direct_paths_do_not_use_fast_probe_window : option unit :=
  let at_ := (test_now - DIRECT_FAST_PROBE_INTERVAL)%Z in
  assert (negb (peer_path_probe_due (probed_at PathDirect at_ DIRECT_FAST_PROBE_BURST_ATTEMPTS) test_now)).

(** A runtime with one direct path that is stale and one failure from its end. *)
Definition stale_runtime (relays : list RelayConfig) : RuntimeState :=
  set_paths (set_relays RuntimeState_default relays NullRelayFrameSender)
    {["dev_peer" := mkPeerPathState PathDirect (Some (endpoint LOCALHOST 51820)) None
        (Some (test_now - DIRECT_PROBE_STALE_AFTER)%Z) None DIRECT_FAST_PROBE_BURST_ATTEMPTS
        (DIRECT_PROBE_FAILURE_THRESHOLD - 1) None]}.

Definition stale_direct_path_downgrades_to_unknown : option unit :=
  let runtime := expire_stale_direct_paths (stale_runtime []) test_now in
  state ← peer_path_state_by_device runtime !! "dev_peer";
  _ ← assert_eq (current_path state) PathUnknown;
  _ ← assert_eq (active_endpoint state) None;
  assert_eq (rtt_ms state) None.

Definition stale_direct_path_falls_back_to_relay_when_available : option unit :=
  let runtime := expire_stale_direct_paths (stale_runtime [test_relay]) test_now in
  state ← peer_path_state_by_device runtime !! "dev_peer";
  _ ← assert_eq (current_path state) PathRelay;
  e ← active_endpoint state;
  assert_eq (ep_kind e) Relay.

Definition computes_probe_response_rtt : option unit :=
  let response := encode_probe_response_payload (as_bytes "probe 1000") test_now in
  _ ← assert_eq response (as_bytes "probe_response 1000");
  assert_eq (probe_response_rtt_ms response 1042) (Some 42%Z).

Definition shutdown_without_tun_device_succeeds : option unit :=
  expect (fst (shutdown (inl OtherKind) (test_backend None))).

Definition path_tests : suite :=
  [("direct_probe_round_trip_marks_peer_paths_direct", direct_probe_round_trip_marks_peer_paths_direct);
   ("direct_probe_consumes_fast_probe_attempt", direct_probe_consumes_fast_probe_attempt);
   ("probe_interval_limits_repeated_direct_probes", probe_interval_limits_repeated_direct_probes);
   ("fast_probe_window_uses_short_interval_for_unknown_paths", fast_probe_window_uses_short_interval_for_unknown_paths);
   ("direct_paths_do_not_use_fast_probe_window", direct_paths_do_not_use_fast_probe_window);
   ("stale_direct_path_downgrades_to_unknown", stale_direct_path_downgrades_to_unknown);
   ("stale_direct_path_falls_back_to_relay_when_available", stale_direct_path_falls_back_to_relay_when_available);
   ("computes_probe_response_rtt", computes_probe_response_rtt);
   ("shutdown_without_tun_device_succeeds", shutdown_without_tun_device_succeeds)].

(** The tests of the backend pass. *)
Theorem backend_tests_pass : failing (state_tests ++ status_tests ++ packet_flow_tests ++ path_tests) = [].
Proof. vm_compute. reflexivity. Qed.
