(* ===== verification/ConformanceServers.v ===== *)
(** * The unit tests of the relay, the DNS proxy and the control plane

    The tests of [tfscale-relay/src/main.rs], [tfscale-agent/src/dns.rs] and
    [tfscale-control/src/main.rs], run on the model. *)

From Stdlib Require Import ZArith Lia.
From stdpp Require Import prelude list strings gmap.
From S2P Require Import Prelude RustStd RustText Protocol RelayServer Dns ControlDb Control Testing.

(** ** Relay *)

Record RelayCounters : Type := mkRelayCounters { c_routed_frames : Z; c_dropped_frames : Z }.
Definition counters (self : RelayState) : RelayCounters :=
  mkRelayCounters (routed_frames self) (dropped_frames self).

Definition test_frame (destination : string) : RelayMessage := RelayFrame "dev_a" destination "encrypted-frame".

(** The two channels of the test, and [register] without an earlier sender. *)
Definition with_channels : world := mkWorld RelayState_default (<[1%nat := new_conn]> {[2%nat := new_conn]}).
Definition register_new (device_id : string) (sender : nat) (w : world) : option world :=
  let '(earlier, s) := register (relay w) device_id sender in
  _ ← assert_eq earlier None; Some (set_relay w s).

Definition routes_frame_to_registered_destination : option unit :=
  w ← register_new "dev_a" 1%nat with_channels;
  w ← register_new "dev_b" 2%nat w;
  let '(delivered, w) := route_frame w (test_frame "dev_b") in
  _ ← assert delivered;
  destination ← conns w !! 2%nat;
  frame ← head (rx_queue destination);
  _ ← assert_eq frame (test_frame "dev_b");
  _ ← assert_eq (c_routed_frames (counters (relay w))) 1%Z;
  assert_eq (c_dropped_frames (counters (relay w))) 0%Z.

Definition drops_frame_for_unknown_destination : option unit :=
  let '(delivered, w) := route_frame (mkWorld RelayState_default ∅) (test_frame "dev_missing") in
  _ ← assert (negb delivered);
  _ ← assert_eq (c_routed_frames (counters (relay w))) 0%Z;
  assert_eq (c_dropped_frames (counters (relay w))) 1%Z.

Definition relay_tests : suite :=
  [("routes_frame_to_registered_destination", routes_frame_to_registered_destination);
   ("drops_frame_for_unknown_destination", drops_frame_for_unknown_destination)].

(** ** DNS proxy *)

Definition record (name value : string) : DnsRecord := mkDnsRecord "dev_test" name "A" value.
Definition devbox : list DnsRecord := [record "devbox.mesh" "100.64.0.2"].

Definition resolves_mesh_a_record : option unit :=
  assert_eq (resolve_a devbox "devbox.mesh" "mesh") (Some (Ipv4 100 64 0 2)).
Definition resolves_case_insensitive_and_trailing_dot : option unit :=
  assert_eq (resolve_a devbox "DevBox.Mesh." "mesh") (Some (Ipv4 100 64 0 2)).
Definition ignores_non_mesh_query : option unit := assert_eq (resolve_a devbox "example.com" "mesh") None.
Definition returns_none_for_missing_record : option unit := assert_eq (resolve_a devbox "missing.mesh" "mesh") None.

Definition query_packet (id : Z) (name : string) (qtype : Z) : list Z :=
  to_be_bytes 2 id ++ to_be_bytes 2 256 ++ to_be_bytes 2 1 ++ to_be_bytes 2 0 ++ to_be_bytes 2 0 ++ to_be_bytes 2 0 ++
  concat (map (fun label => (str_len label mod 256)%Z :: as_bytes label) (split DOT name)) ++
  [0%Z] ++ to_be_bytes 2 qtype ++ to_be_bytes 2 CLASS_IN.

(** [&response[i..j]] and [u16::from_be_bytes] of two bytes of it. *)
Definition part (response : list Z) (i j : nat) : option (list Z) := expect (@slice message Z response i j).
Definition u16_at (response : list Z) (i : nat) : option Z := from_be_bytes <$> part response i (i + 2).
Definition last_four (response : list Z) : option (list Z) := part response (length response - 4) (length response).

Definition builds_a_response : option unit :=
  response ← expect (build_response (query_packet 4660 "devbox.mesh" TYPE_A) devbox "mesh");
  id ← part response 0 2; _ ← assert_eq id (to_be_bytes 2 4660);
  answers ← u16_at response 6; _ ← assert_eq answers 1%Z;
  address ← last_four response; assert_eq address [100; 64; 0; 2]%Z.

Definition builds_nxdomain_response : option unit :=
  response ← expect (build_response (query_packet 4660 "missing.mesh" TYPE_A) devbox "mesh");
  flags ← u16_at response 2; _ ← assert_eq (Z.land flags 15) RCODE_NXDOMAIN;
  answers ← u16_at response 6; assert_eq answers 0%Z.

(** One turn of the proxy on the datagram of the client. *)
Definition udp_proxy_answers_a_query : option unit :=
  let config := mkDnsConfig (mkSocketAddr (V4 LOCALHOST) 40053) "mesh" in
  reply ← expect (dns_proxy_turn config (DnsRuntime_new devbox) (query_packet 17185 "devbox.mesh" TYPE_A));
  response ← reply;
  id ← part response 0 2; _ ← assert_eq id (to_be_bytes 2 17185);
  answers ← u16_at response 6; _ ← assert_eq answers 1%Z;
  address ← last_four response; assert_eq address [100; 64; 0; 2]%Z.

Definition dns_tests : suite :=
  [("resolves_mesh_a_record", resolves_mesh_a_record);
   ("resolves_case_insensitive_and_trailing_dot", resolves_case_insensitive_and_trailing_dot);
   ("ignores_non_mesh_query", ignores_non_mesh_query);
   ("returns_none_for_missing_record", returns_none_for_missing_record);
   ("builds_a_response", builds_a_response);
   ("builds_nxdomain_response", builds_nxdomain_response);
   ("udp_proxy_answers_a_query", udp_proxy_answers_a_query)].

(** ** Control plane *)

Definition normalizes_hostname : option unit :=
  hostname ← expect (normalize_hostname " Dev-Box ");
  assert_eq hostname "dev-box".

Definition bad_hostname (value : string) : option unit :=
  error ← expect_err (normalize_hostname value);
  assert_eq (status error) 400%Z.
Definition rejects_empty_hostname : option unit := bad_hostname "   ".
Definition rejects_hostname_with_invalid_characters : option unit := bad_hostname "dev_box".
Definition rejects_hostname_with_edge_hyphen : option unit := bad_hostname "-devbox".

Definition builds_static_relay_metadata_from_urls : option unit :=
  let relays := relay_metadata_from_urls ["tcp://127.0.0.1:9443"] in
  _ ← assert_eq (length relays) 1%nat;
  relay ← relays !! 0%nat;
  _ ← assert_eq (rm_relay_id relay) "relay_1";
  _ ← assert_eq (rm_url relay) "tcp://127.0.0.1:9443";
  _ ← assert_eq (rm_region relay) "default";
  assert (rm_healthy relay).

Definition builds_mesh_dns_name : option unit := assert_eq (dns_name "devbox") "devbox.mesh".

Definition builds_dns_suffix_from_device_id : option unit :=
  _ ← assert_eq (device_dns_suffix "dev_abcdef123456") "abcdef12";
  assert_eq (device_dns_suffix "legacy-device") "legacy-d".

Definition splits_migration_statements : option unit :=
  assert_eq (migration_statements "CREATE TABLE one (id TEXT); ; CREATE TABLE two (id TEXT);")
    ["CREATE TABLE one (id TEXT)"; "CREATE TABLE two (id TEXT)"].

Definition registers (version : Z) (name : string) : option unit :=
  assert (existsb (fun m => (mig_version m =? version)%Z && bool_decide (mig_name m = name)) MIGRATIONS).
Definition registers_endpoint_metadata_migration : option unit := registers 2 "endpoint_metadata".
Definition registers_dns_records_migration : option unit := registers 3 "dns_records".
Definition registers_endpoint_lookup_index_migration : option unit :=
  m ← last MIGRATIONS;
  _ ← assert_eq (mig_version m) 4%Z;
  assert_eq (mig_name m) "endpoint_lookup_index".

(** A database that executes every statement. *)
Definition migrations_apply_to_empty_sqlite_database : option unit :=
  assert (fst (init_schema (fun statement done => Some (done ++ [statement])) ([], []))).

Definition fedora : db :=
  mkDb [] [] [] [] [mkDnsRow "dns_1" "net_default" "dev_existing" "fedora.mesh" "A" "100.64.0.2" "t" "t"].

Definition dns_name_uses_hostname_until_duplicate_exists : option unit :=
  available ← expect (fst (available_dns_name "net_default" "dev_abcdef123456" "fedora" fedora));
  assert_eq available "fedora-abcdef12.mesh".

Definition dns_name_keeps_existing_device_name_on_update : option unit :=
  available ← expect (fst (available_dns_name "net_default" "dev_existing" "fedora" fedora));
  assert_eq available "fedora.mesh".

Definition control_tests : suite :=
  [("normalizes_hostname", normalizes_hostname);
   ("rejects_empty_hostname", rejects_empty_hostname);
   ("rejects_hostname_with_invalid_characters", rejects_hostname_with_invalid_characters);
   ("rejects_hostname_with_edge_hyphen", rejects_hostname_with_edge_hyphen);
   ("builds_static_relay_metadata_from_urls", builds_static_relay_metadata_from_urls);
   ("builds_mesh_dns_name", builds_mesh_dns_name);
   ("builds_dns_suffix_from_device_id", builds_dns_suffix_from_device_id);
   ("splits_migration_statements", splits_migration_statements);
   ("registers_endpoint_metadata_migration", registers_endpoint_metadata_migration);
   ("registers_dns_records_migration", registers_dns_records_migration);
   ("registers_endpoint_lookup_index_migration", registers_endpoint_lookup_index_migration);
   ("migrations_apply_to_empty_sqlite_database", migrations_apply_to_empty_sqlite_database);
   ("dns_name_uses_hostname_until_duplicate_exists", dns_name_uses_hostname_until_duplicate_exists);
   ("dns_name_keeps_existing_device_name_on_update", dns_name_keeps_existing_device_name_on_update)].

(** The tests of the servers pass. *)
Theorem server_tests_pass : failing (relay_tests ++ dns_tests ++ control_tests) = [].
Proof. vm_compute. reflexivity. Qed.
