(* ===== verification/ConformanceAgent.v ===== *)
(** * The unit tests of the agent

    The tests of [tfscale-agent/src/main.rs], [resolver.rs] and [service.rs], run on
    the model: the mock backend of [tfscale-net], a host with files and programs
    that succeed, and no server, since no test sends a request. *)

From Stdlib Require Import ZArith Lia.
From stdpp Require Import prelude list strings gmap.
From S2P Require Import Prelude RustStd RustText Protocol Crypto Platform Http SystemFiles Dns NetBackend Agent AgentProps AgentCli EndToEnd Testing.

#[local] Existing Instance toy_prims.

(** [error.to_string().contains(..)]. *)
Definition anyhow_contains (e : anyhow) (p : string) : bool :=
  match e with
  | AText s | AContext s _ => contains s p
  | ABackend b => error_contains b p
  | AForeign _ | AHttp _ => false
  end.

(** ** Resolver ([resolver.rs]) *)

Definition is_linux (p : ResolverPlatform) : bool := match p with LinuxSystemdResolved => true | MacosResolver => false end.

Definition builds_linux_systemd_resolved_plan : option unit :=
  let plan := linux_systemd_resolved_plan ResolverConfig_default in
  _ ← assert (is_linux (rp_platform plan));
  _ ← assert_eq (config_path plan) LINUX_RESOLVED_CONF;
  _ ← assert (contains (install_content plan) "DNS=127.0.0.1:1053");
  _ ← assert (contains (install_content plan) "Domains=~mesh");
  assert_eq (reload_commands plan) [["systemctl"; "reload"; "systemd-resolved"]].

Definition builds_macos_resolver_plan : option unit :=
  let plan := macos_resolver_plan ResolverConfig_default in
  _ ← assert (negb (is_linux (rp_platform plan)));
  _ ← assert_eq (config_path plan) "/etc/resolver/mesh";
  _ ← assert_eq (install_content plan) ("nameserver 127.0.0.1" +:+ nl +:+ "port 1053" +:+ nl);
  assert_eq (reload_commands plan) [].

(** No command is run: the plan of the test has none. *)
Definition no_commands (log : list (list string)) (command : list string) : status_answer := NoStatus OtherKind.

Definition status_reports_matching_installed_config : option unit :=
  let path := "/tmp/tfscale-resolver-test-1/tfscale-magicdns.conf" in
  let plan := mkResolverPlan LinuxSystemdResolved path
    ("[Resolve]" +:+ nl +:+ "DNS=127.0.0.1:1053" +:+ nl +:+ "Domains=~mesh" +:+ nl) [] [path] in
  let '(r, h) := resolver_install no_commands (inr tt) Written plan empty_host in
  _ ← expect r;
  let status := resolver_status None plan h in
  let '(r, h) := resolver_uninstall no_commands (fun _ => None) plan h in
  _ ← expect r;
  _ ← assert (rs_installed status);
  assert (content_matches status).

(** ** Service ([service.rs]) *)

Definition test_service : ServiceConfig :=
  mkServiceConfig "/usr/local/bin/tfscale-agent" "/var/lib/tfscale" "http://control:8080" "tfkey_test"
    (mkSocketAddr (V4 LOCALHOST) 1053).

Definition builds_linux_systemd_unit : option unit :=
  let plan := linux_systemd_plan test_service in
  _ ← assert_eq (sp_platform plan) LinuxSystemd;
  _ ← assert_eq (unit_path plan) SYSTEMD_UNIT_PATH;
  _ ← assert_eq (env_path plan) SYSTEMD_ENV_PATH;
  _ ← assert (forallb (contains (unit_content plan))
                ["Description=tf-scale agent"; "EnvironmentFile=/etc/tfscale/agent.env"; "--state-dir /var/lib/tfscale";
                 "--login-key ${TFSCALE_LOGIN_KEY}"; "--control-url ${TFSCALE_CONTROL_URL}"; "--dns-listen 127.0.0.1:1053"]);
  _ ← assert (forallb (contains (env_content plan))
                ["TFSCALE_LOGIN_KEY=tfkey_test"; "TFSCALE_CONTROL_URL=http://control:8080"]);
  assert (existsb (fun command => bool_decide (command = ["systemctl"; "enable"; SERVICE_NAME])) (install_commands plan)).

Definition quotes_systemd_arguments_with_spaces : option unit :=
  assert_eq (escape_systemd_arg "/opt/tf scale/agent") "'/opt/tf scale/agent'".

Definition quotes_systemd_env_values_with_spaces : option unit :=
  assert_eq (systemd_env_value "tf key") (quote +:+ "tf key" +:+ quote).

Definition host_tests : suite :=
  [("builds_linux_systemd_resolved_plan", builds_linux_systemd_resolved_plan);
   ("builds_macos_resolver_plan", builds_macos_resolver_plan);
   ("status_reports_matching_installed_config", status_reports_matching_installed_config);
   ("builds_linux_systemd_unit", builds_linux_systemd_unit);
   ("quotes_systemd_arguments_with_spaces", quotes_systemd_arguments_with_spaces);
   ("quotes_systemd_env_values_with_spaces", quotes_systemd_env_values_with_spaces)].

(** ** Credentials and the network map *)

Definition mock : MockBackend := MockBackend_new "mock-public-key".
Definition test_world (last : option Z) : world MockBackend scripted :=
  mkWorld mock [] empty_host (DnsRuntime_new []) last 0 [].

(** Running a computation of the agent that returns. *)
Definition runs_ok {A} (c : AM A) (w : world MockBackend scripted) : option (A * world MockBackend scripted) :=
  '(r, w) ← c w; x ← expect r; Some (x, w).

Definition new_agent_state_gets_backend_credentials_from_backend : option unit :=
  '(state, w) ← runs_ok (ensure_backend_credentials (AgentState_new "0192")) (test_world None);
  _ ← assert_eq (ensure_credentials_calls (snapshot (w_backend w))) 1%Z;
  assert_eq (as_backend_public_credential state) "mock-public-key".

Definition unregistered_agent_state_refreshes_stale_backend_credentials : option unit :=
  '(state, w) ← runs_ok (ensure_backend_credentials (set_credential (AgentState_new "0192") "tfpk_stale")) (test_world None);
  _ ← assert_eq (ensure_credentials_calls (snapshot (w_backend w))) 1%Z;
  assert_eq (as_backend_public_credential state) "mock-public-key".

Definition test_endpoint_payload (kind address : string) (port : Z) (protocol : string) : EndpointPayload :=
  mkEndpointPayload kind address port protocol None None None.

(** [AgentState { device_id, ipv4, ..AgentState::new() }]. *)
Definition self_state : AgentState :=
  mkAgentState "machine_0192" EmptyString (Some "dev_self") None None (Some "100.64.0.2") 5 [] false
    DEFAULT_DNS_LISTEN false None.

Definition test_map_peer (endpoints : list EndpointPayload) : NetworkMapPeer :=
  mkNetworkMapPeer "dev_peer" "peer" "100.64.0.3" "tfscale" "peer-public-key" endpoints ["100.64.0.3/32"].
Definition test_map (version : Z) (peers : list NetworkMapPeer) (records : list DnsRecord) (relays : list RelayMetadata)
    : NetworkMapResponse :=
  mkNetworkMapResponse version (mkNetworkMapSelf "dev_self" "self" "100.64.0.2" "tfscale") peers records relays.
Definition network_map_with_version (version : Z) : NetworkMapResponse := test_map version [test_map_peer []] [] [].

Definition applies_network_map_to_backend : option unit :=
  let network_map := test_map 1 [test_map_peer [test_endpoint_payload "lan" "192.168.1.30" 51820 "udp"]] [] [] in
  '(_, w) ← runs_ok (apply_network_map_to_backend self_state network_map) (test_world None);
  let s := snapshot (w_backend w) in
  _ ← assert_eq (length (local_configs s)) 1%nat;
  config ← local_configs s !! 0%nat;
  _ ← assert_eq (lc_overlay_ip config) (Ipv4 100 64 0 2);
  _ ← assert_eq (length (peer_maps s)) 1%nat;
  peers ← peer_maps s !! 0%nat;
  peer ← peers !! 0%nat;
  _ ← assert_eq (pc_device_id peer) "dev_peer";
  _ ← assert_eq (pc_hostname peer) "peer";
  assert_eq (length (relay_maps s)) 1%nat.

Definition applies_relay_map_to_backend : option unit :=
  let relays := [mkRelayMetadata "relay_1" "tcp://127.0.0.1:9443" "local" true;
                 mkRelayMetadata "relay_down" "tcp://127.0.0.1:9444" "local" false] in
  '(_, w) ← runs_ok (apply_network_map_to_backend self_state (test_map 1 [test_map_peer []] [] relays)) (test_world None);
  let s := snapshot (w_backend w) in
  _ ← assert_eq (length (relay_maps s)) 1%nat;
  relays ← relay_maps s !! 0%nat;
  _ ← assert_eq (length relays) 1%nat;
  relay ← relays !! 0%nat;
  _ ← assert_eq (rc_relay_id relay) "relay_1";
  assert_eq (rc_url relay) "tcp://127.0.0.1:9443".

Definition if_changed (last version : option Z) (map : NetworkMapResponse) : option (world MockBackend scripted) :=
  '(_, w) ← runs_ok (apply_network_map_if_changed agent_to_json toy_machine "/tmp/t" self_state map) (test_world last);
  _ ← assert_eq (w_last w) version; Some w.

Definition skips_unchanged_network_map_version : option unit :=
  w ← if_changed (Some 7%Z) (Some 7%Z) (network_map_with_version 7);
  _ ← assert_eq (length (local_configs (snapshot (w_backend w)))) 0%nat;
  assert_eq (length (peer_maps (snapshot (w_backend w)))) 0%nat.

Definition applies_changed_network_map_version : option unit :=
  w ← if_changed (Some 7%Z) (Some 8%Z) (network_map_with_version 8);
  _ ← assert_eq (length (local_configs (snapshot (w_backend w)))) 1%nat;
  assert_eq (length (peer_maps (snapshot (w_backend w)))) 1%nat.

Definition stores_dns_snapshot_from_network_map : option unit :=
  '(_, w) ← runs_ok (AgentState_save agent_to_json toy_machine "/tmp/t" self_state) (test_world (Some 8%Z));
  let network_map := test_map 9 [test_map_peer []] [mkDnsRecord "dev_peer" "peer.mesh" "A" "100.64.0.3"] [] in
  '(_, w) ← runs_ok (apply_network_map_if_changed agent_to_json toy_machine "/tmp/t" self_state network_map) w;
  saved ← expect (AgentState_load agent_from_json toy_machine "/tmp/t" (w_host w));
  saved ← saved;
  _ ← assert_eq (length (as_dns_records saved)) 1%nat;
  r ← as_dns_records saved !! 0%nat;
  _ ← assert_eq (Protocol.dns_name r) "peer.mesh";
  _ ← assert_eq (dns_value r) "100.64.0.3";
  assert_eq (length (records (w_dns w))) 1%nat.

Definition maintained (last : option Z) (maps : nat) : option unit :=
  '(_, w) ← runs_ok (apply_network_map_and_maintain_paths agent_to_json toy_machine "/tmp/t" self_state
                     (network_map_with_version 8)) (test_world last);
  _ ← assert_eq (length (peer_maps (snapshot (w_backend w)))) maps;
  assert_eq (maintain_peer_paths_calls (snapshot (w_backend w))) 1%Z.
Definition maintains_peer_paths_after_changed_network_map : option unit := maintained None 1.
Definition maintains_peer_paths_when_network_map_is_unchanged : option unit := maintained (Some 8%Z) 0.

Definition map_tests : suite :=
  [("new_agent_state_gets_backend_credentials_from_backend", new_agent_state_gets_backend_credentials_from_backend);
   ("unregistered_agent_state_refreshes_stale_backend_credentials",
    unregistered_agent_state_refreshes_stale_backend_credentials);
   ("applies_network_map_to_backend", applies_network_map_to_backend);
   ("applies_relay_map_to_backend", applies_relay_map_to_backend);
   ("skips_unchanged_network_map_version", skips_unchanged_network_map_version);
   ("applies_changed_network_map_version", applies_changed_network_map_version);
   ("stores_dns_snapshot_from_network_map", stores_dns_snapshot_from_network_map);
   ("maintains_peer_paths_after_changed_network_map", maintains_peer_paths_after_changed_network_map);
   ("maintains_peer_paths_when_network_map_is_unchanged", maintains_peer_paths_when_network_map_is_unchanged)].

(** ** The doctor *)

Definition test_backend_status (peers : list PeerPathDiagnostic) (healthy : bool) : BackendStatus :=
  mkBackendStatus Tfscale "tfscale0" healthy (Some "test backend") peers.
Definition test_peer_path (device_id : string) (path : PeerPathDiagnosticKind) : PeerPathDiagnostic :=
  mkPeerPathDiagnostic device_id path None None 0 0 0.
Definition find_check (id : string) (report : AgentDoctorReport) : option DoctorCheck :=
  find (fun check => bool_decide (dk_id check = id)) (dr_checks report).
Definition report_of (state : AgentState) (status : BackendStatus) : AgentDoctorReport :=
  from_state_and_status display_text toy_machine toy_answers empty_host state status.

Definition doctor_reports_unregistered_agent_failure : option unit :=
  let report := report_of (AgentState_new "0192") (test_backend_status [] true) in
  _ ← assert_eq (dr_overall report) LevelFail;
  check ← find_check "state.registered" report;
  assert_eq (dk_level check) LevelFail.

Definition doctor_reports_dns_snapshot_and_peer_summary : option unit :=
  let state := mkAgentState "machine_0192" EmptyString (Some "dev_self") (Some "node_self") (Some "net_default")
    (Some "100.64.0.2") 5 [mkDnsRecord "dev_peer" "peer.mesh" "A" "100.64.0.3"] true "127.0.0.1:1053" true None in
  let report := report_of state
    (test_backend_status [test_peer_path "dev_a" DiagDirect; test_peer_path "dev_b" DiagRelay] true) in
  dns ← find_check "dns.snapshot" report;
  _ ← assert_eq (dk_level dns) LevelOk;
  peers ← find_check "backend.peers" report;
  assert_eq (dk_summary peers) "direct=1 relay=1 unknown=0".

(** ** The timers of the loop *)

(** The instant at which the tests start. *)
Definition start : Z := from_secs 1000.
Definition start_timers : timers := mkTimers (start + from_secs 5) (start + DIRECT_PATH_MAINTENANCE_INTERVAL).
Definition tick_at (now : Z) : option (bool * bool) :=
  '(tick, _) ← expect (@next_agent_loop_tick anyhow now (from_secs 5) start_timers);
  Some (tick_sync tick, tick_maintain_paths tick).

Definition agent_loop_tick_runs_path_maintenance_before_sync_interval : option unit :=
  tick ← tick_at (start + DIRECT_PATH_MAINTENANCE_INTERVAL);
  assert_eq tick (false, true).
Definition agent_loop_tick_runs_sync_and_path_maintenance_when_due : option unit :=
  tick ← tick_at (start + from_secs 5);
  assert_eq tick (true, true).
Definition agent_loop_sleep_duration_uses_next_due_task : option unit :=
  let sync_at := next_sync_at start_timers in
  let path_maintenance_at := next_path_maintenance_at start_timers in
  _ ← assert_eq (agent_loop_sleep_duration start sync_at path_maintenance_at) DIRECT_PATH_MAINTENANCE_INTERVAL;
  assert_eq (agent_loop_sleep_duration sync_at sync_at path_maintenance_at) 0%Z.

(** ** Conversions *)

Definition converts_network_map_peer_to_backend_config : option unit :=
  configs ← expect (network_map_to_peer_configs
    [mkNetworkMapPeer "dev_test" "devbox" "100.64.0.3" "tfscale" "peer-public-key"
       [test_endpoint_payload "lan" "192.168.1.30" 51820 "udp"] ["100.64.0.3/32"]]);
  _ ← assert_eq (length configs) 1%nat;
  config ← configs !! 0%nat;
  _ ← assert_eq (pc_device_id config) "dev_test";
  _ ← assert_eq (pc_hostname config) "devbox";
  _ ← assert_eq (pc_overlay_ip config) (Ipv4 100 64 0 3);
  _ ← assert_eq (bc_public (pc_public_credential config)) "peer-public-key";
  e ← pc_endpoints config !! 0%nat;
  _ ← assert_eq (ep_kind e) Lan;
  _ ← assert_eq (ep_protocol e) Udp;
  assert_eq (pc_allowed_routes config) ["100.64.0.3/32"].

Definition converts_backend_endpoint_to_heartbeat_payload : option unit :=
  let payload := endpoint_to_payload (mkEndpoint Lan (V4 (Ipv4 192 168 1 30)) 51820 Udp) in
  assert_eq payload (mkEndpointPayload "lan" "192.168.1.30" 51820 "udp" (Some "local") (Some 100%Z) None).

Definition probe_response (port : Z) (server : option (string * Z)) : EndpointProbeResponse :=
  mkEndpointProbeResponse "203.0.113.10" port "udp" (fst <$> server) (snd <$> server).

Definition is_stun_endpoint (endpoint : EndpointPayload) : option unit :=
  _ ← assert_eq (epp_kind endpoint) "public";
  _ ← assert_eq (epp_address endpoint) "203.0.113.10";
  _ ← assert_eq (epp_port endpoint) 49201%Z;
  _ ← assert_eq (epp_protocol endpoint) "udp";
  _ ← assert_eq (epp_source endpoint) (Some "stun");
  assert_eq (epp_priority endpoint) (Some 50%Z).

Definition converts_probe_response_to_public_endpoint : option unit :=
  endpoint ← endpoint_from_probe_response (probe_response 49201 None);
  is_stun_endpoint endpoint.

Definition skips_probe_response_without_port : option unit :=
  assert_eq (endpoint_from_probe_response (probe_response 0 None)) None.

Definition parses_udp_probe_server_from_probe_response : option unit :=
  server ← expect (udp_probe_server (probe_response 49201 (Some ("127.0.0.1", 3478%Z))));
  server ← server;
  expected ← parse_socket_addr "127.0.0.1:3478";
  assert_eq server expected.

Definition converts_backend_probe_to_public_endpoint_payload : option unit :=
  is_stun_endpoint (endpoint_from_backend_probe (mkEndpoint Public (V4 (Ipv4 203 0 113 10)) 49201 Udp)).

Definition rejects_invalid_peer_overlay_ip : option unit :=
  error ← expect_err (peer_to_config
    (mkNetworkMapPeer "dev_test" "devbox" "not-an-ip" "tfscale" "peer-public-key" [] []));
  assert (anyhow_contains error "invalid peer overlay IP").

Definition rejects_unknown_endpoint_kind : option unit :=
  error ← expect_err (endpoint_to_config (test_endpoint_payload "bluetooth" "192.168.1.30" 51820 "udp"));
  assert (anyhow_contains error "unsupported endpoint kind").

Definition main_tests : suite :=
  [("doctor_reports_unregistered_agent_failure", doctor_reports_unregistered_agent_failure);
   ("doctor_reports_dns_snapshot_and_peer_summary", doctor_reports_dns_snapshot_and_peer_summary);
   ("agent_loop_tick_runs_path_maintenance_before_sync_interval",
    agent_loop_tick_runs_path_maintenance_before_sync_interval);
   ("agent_loop_tick_runs_sync_and_path_maintenance_when_due", agent_loop_tick_runs_sync_and_path_maintenance_when_due);
   ("agent_loop_sleep_duration_uses_next_due_task", agent_loop_sleep_duration_uses_next_due_task);
   ("converts_network_map_peer_to_backend_config", converts_network_map_peer_to_backend_config);
   ("converts_backend_endpoint_to_heartbeat_payload", converts_backend_endpoint_to_heartbeat_payload);
   ("converts_probe_response_to_public_endpoint", converts_probe_response_to_public_endpoint);
   ("skips_probe_response_without_port", skips_probe_response_without_port);
   ("parses_udp_probe_server_from_probe_response", parses_udp_probe_server_from_probe_response);
   ("converts_backend_probe_to_public_endpoint_payload", converts_backend_probe_to_public_endpoint_payload);
   ("rejects_invalid_peer_overlay_ip", rejects_invalid_peer_overlay_ip);
   ("rejects_unknown_endpoint_kind", rejects_unknown_endpoint_kind)].

(** The tests of the agent pass. *)
Theorem agent_tests_pass : failing (host_tests ++ map_tests ++ main_tests) = [].
Proof. vm_compute. reflexivity. Qed.
